(* ===== verification/_CoqProject ===== *)
-Q . S2P
Prelude.v
Interfaces.v
Pmm.v
Libk.v
Machine.v
Ring.v
Multiboot.v
Kmalloc.v
Vmm.v
Process.v
Scheduler.v
Ipc.v
Keyboard.v
Ports.v
Terminal.v
Faults.v
Interrupts.v
Task.v
Syscall.v
Rotation.v
Vfs.v
Ramfs.v
Ata.v
Fat32.v
Elf.v
Net.v
Packets.v
Formats.v
Pci.v
Rtl8139.v
Commands.v
Shell.v
ShellFiles.v
Kernel.v
Startup.v
Asm.v
Stubs.v
Boot.v
