(* ===== verification/Prelude.v ===== *)
(** * NemoOS: a verification library of the kernel

    NemoOS is a 32-bit x86 kernel written in C++ (under [src/src]). This
    library models its memory management, processes, scheduling, messages,
    system calls, interrupts, terminal, device drivers, file systems, program
    loader, network stack and shell as executable functions that are
    translated from the sources, up to [kernel_main], which puts them together.
    The assembly that surrounds them (boot code, entry stubs, context switch,
    user programs) is modelled as programs of a subset of x86 that run on the
    same state. The library proves what makes each part correct.

    ** The parts and how they interact

    The physical page allocator hands out 4 KiB frames. The kernel heap, the
    page tables and the kernel stacks are built from these frames. A process
    owns an address space, a kernel stack with the frame from which it is
    first entered, and an optional message queue; its descriptor comes from
    the heap. The timer interrupt calls the scheduler, which picks the next
    process of the table. Messages block and wake processes. The entry stubs
    of the interrupts and of the system call compose the handlers with the
    scheduler; the calls print on the terminal, read the keyboard, send and
    receive messages and end processes. The virtual file system walks paths
    over nodes that a file system supplies; the RAM file system allocates its
    nodes from the heap, FAT32 reads sectors from the disk driver. The ELF
    loader reads a file into a heap buffer and maps its segments into an
    address space. The network stack sends and receives frames through the
    card driver, which finds the card on the PCI bus and takes its buffers
    from the heap. The shell takes keys from the keyboard buffer, edits a line
    and runs commands that use all of these parts. The boot code sets a stack
    and calls [kernel_main], which reads the size of memory from the boot
    loader, initialises the parts in order, creates three tasks and enters the
    shell. From then on the processor enters the kernel through the stubs only.

    ** Files

    - [Prelude]: outcomes of routines (return, panic, exhausted bound, behaviour
      that C++ does not define), machine
      integers with their wrap-around, arrays of the C code, loops with a
      counter, byte-addressed memory with words, closure of a step relation,
      the tactics [zbool], [zcase], [mlia] and the hint database [nemo].
    - [Interfaces]: the class [PageAlloc], what the page allocator promises to
      the heap, the page tables and the processes. Their theorems are proved
      for every instance; [short_of] says that it has not enough frames left.
    - [Pmm] (memory/pmm_bitmap.cpp): bitmap, allocation, release; it
      discharges [PageAlloc].
    - [Libk] (libk/memory.cpp, string.cpp, itoa.cpp).
    - [Machine]: memory, page allocator, heap pointers and control registers.
    - [Ring]: the list that a ring buffer holds, shared by [Ipc] and [Keyboard].
    - [Multiboot] (boot/multiboot.cpp, multiboot.hpp).
    - [Kmalloc] (memory/kmalloc.cpp): headers, footers, the free list,
      [kmalloc_init], [heap_grow], [kmalloc], [kfree].
    - [Vmm] (memory/paging.cpp, memory/vmm.cpp): boot paging, creation and
      destruction of address spaces, mapping and unmapping.
    - [Process] (process/process.cpp, process/process.hpp, user/user_mode.cpp,
      [tss_set_kernel_stack] of interrupts/tss.cpp): process table, creation,
      destruction, stack frames, switching.
    - [Scheduler] (scheduler/scheduler.cpp and the functions of
      process/process.cpp that use the current process).
    - [Ipc] (ipc/ipc.cpp), [Keyboard] (drivers/keyboard.cpp,
      drivers/keyboard_buffer.cpp, interrupts/keyboard_irq.cpp).
    - [Ports]: the class [PortIO], a device behind the in and out instructions
      of arch/x86/ports.hpp. The drivers below are written against it.
    - [Terminal] (terminal.cpp, with the serial line and the cursor registers).
    - [Faults] (kernel/panic.cpp and the exception handlers of interrupts/).
    - [Interrupts] (interrupts/gdt.cpp, idt.cpp, tss.cpp, pic.cpp).
    - [Task] (scheduler/task.cpp): the task table that precedes processes.
    - [Syscall] (syscalls/syscall.cpp, interrupts/irq.cpp, ipc/sleep.cpp,
      drivers/timer.cpp): the running system, its calls and its interrupts.
    - [Rotation]: the round-robin machine that many timer interrupts refine.
    - [Vfs] (fs/vfs.cpp; class [FileSystem] for the function pointers of a
      node) and [Ramfs] (fs/ramfs.cpp), an instance of it.
    - [Ata] (drivers/ata.cpp; classes [AtaDrive] and [StrictDrive] for the
      protocol of a drive at its ports, class [BlockDevice] for reading a sector,
      which the driver discharges) and [Fat32] (fs/fat32.cpp), written against it,
      with the class [DiskLaws] for what a disk in order does.
    - [Elf] (fs/elf.cpp).
    - [Net] (net/arp.cpp, ip.cpp, icmp.cpp, net.cpp; class [Nic] for the card).
    - [Packets] (net/net.hpp): the packed structs as codecs, and the handlers of
      the stack on their fields.
    - [Formats] (the packed structs of fs/fat32.cpp, fs/elf.cpp and
      boot/multiboot.hpp): codecs built in the same way, and the byte offsets of
      [Fat32] and [Elf] as their fields.
    - [Pci] (drivers/pci.cpp; class [ConfigBus] for the configuration space).
    - [Rtl8139] (drivers/rtl8139.cpp), an instance of [Nic].
    - [Commands] and [Shell] (shell/shell.cpp): one definition per command on
      the state of the whole system, the choice of the command, and the line
      editor. The nodes of both file systems are reached through one interface,
      as in the code. [ShellFiles] holds what the commands on files achieve.
    - [Kernel] (kernel.cpp, [process_first_enter_asm] of process/process.cpp,
      fs/hello_elf.h, fs/test_elf.h): the stages of [kernel_main], [kernel_main],
      the tasks; the record [image] holds the addresses the linker sets.
      [Startup]: the stages put together, on the machines of the class [PlainPc].
    - [Asm]: registers, instructions, delivery of an interrupt and return from
      it, and the calling convention; its module [Wrappers] (arch/x86/ports.cpp)
      takes the instances of [PortIO] down to the in and out instructions.
    - [Stubs] (interrupts/isr_stub.s, interrupts/syscall_stub.s,
      context/context_switch.s, [process_first_enter_asm] of
      process/process.cpp): the stubs as programs, which call the handlers of
      [Syscall] and [Faults].
    - [Boot] (boot.s, scheduler/task_trampoline.s, user/user_entry.s,
      tools/hello_elf.s): the way from the boot loader to the shell, and the user
      programs.

    ** How state and operations correspond

    Memory is a finite map from addresses to bytes; a word is four bytes in
    little-endian order. Heap headers and page tables live in that memory, at
    the addresses the code uses, so aliasing between them is visible.
    Objects that the code reaches through typed pointers only (process
    descriptors, message queues, file system nodes) are records in maps
    keyed by their address, which still comes from the modelled [kmalloc].
    Unsigned arithmetic is written with [u32] and its relatives where it can
    wrap. A routine that can panic or loop returns an [outcome]; where the shell,
    a file system or a task writes past an array, calls a method that a node
    does not have or overflows a signed integer, the outcome is [Undef].

    The kernel runs identity-mapped, so its pointers are addresses of that
    memory. The pointers that user code passes to a system call or a message
    operation are used the same way: the model does not translate them, and
    the theorems about these calls speak of the bytes at the address. The ELF
    loader is the exception that the code makes: it writes while the page
    directory of the new process is loaded, so its writes go through the page
    tables of the model.

    A program in assembly is a list of instructions; the address of each of them
    and of the symbols are parameters. The code
    that the compiler makes of a C++ function is not in the sources: a call in
    assembly runs the function's model, and the record [abi] says what registers
    and memory the compiled function leaves besides: it may change eax, ecx, edx,
    the flags, its arguments and a bounded part of the stack below, which is the
    calling convention. The theorems hold for every such record. The convention
    gives a function a flat data segment; a call without one is the outcome
    [Unsupported], at the first instruction of the function. The stubs save
    neither the data segment nor the stack segment of ring 0, so a thread that
    goes on has those of the thread interrupted last ([resumed]).

    A device is a state with a reading and a writing function per port. The
    driver definitions are total for every device; a theorem about what a
    driver achieves has the protocol of the device as its hypothesis, and a
    concrete device is the instance of its witness.

    ** What the theorems show

    - Page allocator: first fit, exact accounting in every reachable state,
      round trip of allocation and release, the machine sizes it is right for;
      every frame lies between the image of the kernel and the end of the
      memory that the boot loader reported.
    - Heap: [kmalloc] returns within a bound, gives zeroed blocks that are
      disjoint from all live and free ones and keeps the heap well formed;
      any run of allocations keeps blocks disjoint; no call changes a byte
      outside the free blocks in a page that is in use; what [kfree] does to a
      block without neighbours, and that it merges live neighbours.
    - Address spaces: the effect of mapping on every translation, identity map
      after [paging_init], creation as a copy with private user tables,
      isolation from the kernel space, no page leaked over a life cycle; the
      tables that stay shared.
    - Processes and scheduler: frames that enter the right code in the right
      ring, table invariants, round-robin choice, bounded waiting, resumption
      at the interrupted stack pointer; when [alloc_kernel_stack] diverges and
      how [process_destroy] loses the current process.
    - Messages and keyboard: refinement of first-in-first-out queues.
    - System calls: what write and read do on the console, that an exited
      process is never continued while another can run (and is when none can),
      delivery of a message, behind those queued before, from the call that sends
      it to the call that receives it.
    - Terminal: refinement of an unbounded paper of which the screen shows the
      last 25 lines. Faults: the last lines on the screen after an exception.
    - Interrupts: which vectors the controller raises, which gates and segments
      they lead to. Tasks: creation and clean-up of dead tasks.
    - File systems: path resolution as a walk over components from the longest
      mount point, lookup after creation, read after write, lookup and listing
      of a FAT32 directory, contents of a contiguous FAT32 file; where the
      code fails to resolve or bound, or reads from the wrong cluster.
    - Disk: on every drive that follows the protocol a sector is read as the
      drive holds it; a write, which starts with the command to read, is lost on
      a drive that ignores what it does not expect.
    - ELF: every segment is mapped, filled from the file and cleared behind, and
      this fails only when there are fewer frames than the segments need.
    - Network: checksums that the receiving side accepts, the ARP cache as a
      map, the answer to an echo request; and that the stack, which works at
      byte offsets, works on the fields of the packets, for every frame. PCI:
      the scan finds exactly the functions that answer. Card: disjoint buffers, four frames in flight,
      reception of a frame, and the frame that is missed after it.
    - Shell: the line editor refines an abstract line and executes it once,
      a command that ends keeps the current directory valid, a text that was
      written to a file is what is printed, a file of a FAT32 volume is printed as it
      lies on the disk, [pwd] prints the path that [cd] took,
      addresses are read back from their notation; what [wc] and [rev] do.
    - Start: when [kernel_main] refuses to start; that on every machine of 5 to
      1024 MiB with a ready serial line and without ATA drives and RTL8139 cards,
      whatever else is on its PCI bus, it reaches the shell with memory mapped,
      files created and three tasks ready, and that the timer then lets the
      tasks take turns for ever while none ends, blocks or is created; what the two tasks of the stress test
      compute, and when they overflow.
    - Entry stubs: a kernel task that the timer interrupts goes on in the same
      state, whatever ran in between that respects its saved registers; a system
      call changes eax only, but for the segments that no stub saves; the keyboard
      interrupt is invisible; which stubs fault, and which enter their handlers
      without a data segment, once it was lost on the way to ring 3; and what the
      default stub prints.
    - Boot: from the registers of the boot loader to the shell task in ring 0, on
      the machines of the start; the trampoline runs a task and stops; the built-in user program prints its
      message; hello.elf ends in a protection fault.
    - Ports: every wrapper accesses exactly the port and width of its name.
    - Layouts: the structs on the disk, in programs and in the tables of the loader
      have the sizes and offsets that the code relies on.

    ** Bounds

    Recursion that is not structural takes fuel, and the theorems state how
    much is enough: the length of the free list plus the 16 pages of one
    growth for [kmalloc], 129 steps for a directory of the 128-node pool, the
    length of a path plus one for its walk, three rounds for folding a 32-bit
    checksum. Bounded loops of the code keep the bound of the code: 1000 polls
    for the reset of the card, 64 entries of the PCI table, 16-bit segment
    counts of an ELF header. The polling loops of the serial port and of the
    disk, which the code bounds only by the device or by a timeout, take that
    bound as an argument, and their theorems hold for every device that is
    ready within it. [alloc_kernel_stack] is shown to need unbounded fuel on
    some states, which is the divergence of the code.

    ** What is not modelled

    The compiled code of the C++ functions (the record [abi] stands for it) and
    what it does without a data segment, the encoding of instructions (but for
    those of hello.elf, whose encoding is compared with [hello_elf_data]), of
    the segments more than the selectors of code, stack and data, and the time
    that instructions take. The memory map of the boot loader has its layout
    only, since the kernel does not read it; the codecs of the packed structs give
    their layout, the code itself casts pointers. Records in typed maps (see
    above) are out of reach of writes through wrong pointers. With disks or cards present the
    start is modelled, but the theorem about it is for machines without them.
    A handler runs as a whole: the theorems on the stubs take the interrupted
    code at any instruction, as a register file and a memory, but the C++
    operations are not interrupted inside, and no interrupt comes before the
    first process is entered. Functions that are empty in the sources ([scheduler_run],
    [isr_install]) have no definition.
*)

From stdpp Require Export base numbers option gmap list.

Global Open Scope Z_scope.
Global Set Default Goal Selector "!".

(** ** Notation scope and tactics *)

Declare Scope nemo_scope.
Delimit Scope nemo_scope with nemo.
Global Open Scope nemo_scope.

(** Turn boolean comparisons of the code into propositions on [Z]. *)
Ltac zbool :=
  repeat match goal with
  | H : (_ =? _) = true |- _ => apply Z.eqb_eq in H
  | H : (_ =? _) = false |- _ => apply Z.eqb_neq in H
  | H : (_ <? _) = true |- _ => apply Z.ltb_lt in H
  | H : (_ <? _) = false |- _ => apply Z.ltb_ge in H
  | H : (_ <=? _) = true |- _ => apply Z.leb_le in H
  | H : (_ <=? _) = false |- _ => apply Z.leb_gt in H
  | H : negb _ = true |- _ => apply negb_true_iff in H
  | H : negb _ = false |- _ => apply negb_false_iff in H
  | H : (_ && _)%bool = true |- _ => apply andb_prop in H as [? ?]
  | H : (_ || _)%bool = false |- _ => apply orb_false_iff in H as [? ?]
  end.

(** Case analysis on the first comparison an [if] of the goal tests. *)
Ltac zcase :=
  match goal with
  | |- context [if ?b then _ else _] =>
      lazymatch b with
      | context [if _ then _ else _] => fail
      | _ => let E := fresh "E" in destruct b eqn:E; zbool
      end
  end.

(** [lia] after replacing division and remainder by their equations. *)
Ltac mlia := Z.to_euclidean_division_equations; lia.

(** The database of the facts that the components use without naming. *)
Create HintDb nemo.

(** ** Outcomes of a kernel routine *)

(** [Ok] is a return, [Panic] a call of [panic], which never returns,
    [NoFuel] says that the bound given to a loop was too small, and [Undef]
    that the code does what C++ gives no meaning to (a write past the end of
    an array, a call through a null pointer). A theorem that a routine
    returns shows that neither of the last two arises. *)
Inductive outcome (A : Type) : Type :=
| Ok (a : A)
| Panic
| NoFuel
| Undef.
Arguments Ok {A} a.
Arguments Panic {A}.
Arguments NoFuel {A}.
Arguments Undef {A}.

Definition obind {A B} (o : outcome A) (f : A → outcome B) : outcome B :=
  match o with Ok a => f a | Panic => Panic | NoFuel => NoFuel | Undef => Undef end.

Notation "'let!' x ':=' c 'in' k" := (obind c (λ x, k))
  (at level 200, x pattern, c at level 100, k at level 200,
   format "'let!'  x  ':='  c  'in' '//' k") : nemo_scope.

Lemma obind_Ok {A B} (o : outcome A) (f : A → outcome B) b :
  obind o f = Ok b ↔ ∃ a, o = Ok a ∧ f a = Ok b.
Proof. destruct o; simpl; naive_solver. Qed.

(** Injectivity without normalising the components. *)
Lemma Ok_pair {A B} (a a' : A) (b b' : B) : Ok (a, b) = Ok (a', b') → a = a' ∧ b = b'.
Proof. by intros [= -> ->]. Qed.

Lemma obind_mono {A B} (o o' : outcome A) (f f' : A → outcome B) b :
  (∀ a, o = Ok a → o' = Ok a) →
  (∀ a, f a = Ok b → f' a = Ok b) →
  obind o f = Ok b → obind o' f' = Ok b.
Proof.
  intros Ho Hf. rewrite !obind_Ok. intros (a & E & E').
  exists a. split; [by apply Ho | by apply Hf].
Qed.

(** A run that can be evaluated: it returns, with a result that passes [P]. *)
Lemma run_Ok {A} (o : outcome A) (P : A → bool) :
  match o with Ok a => P a | _ => false end = true → ∃ a, o = Ok a ∧ P a = true.
Proof. destruct o; naive_solver. Qed.

(** ** Machine integers *)

Notation W8 := 256 (only parsing).
Notation W16 := 65536 (only parsing).
Notation W32 := 4294967296 (only parsing).

Definition u8 (x : Z) : Z := x mod W8.
Definition u16 (x : Z) : Z := x mod W16.
Definition u32 (x : Z) : Z := x mod W32.

(** The value of a bit pattern read as a signed [char], [int]. *)
Definition s8 (x : Z) : Z := if u8 x <? 128 then u8 x else u8 x - W8.
Definition s32 (x : Z) : Z := if u32 x <? 2147483648 then u32 x else u32 x - W32.

Lemma u8_range x : 0 ≤ u8 x < W8.
Proof. by apply Z.mod_pos_bound. Qed.
Lemma u16_range x : 0 ≤ u16 x < W16.
Proof. by apply Z.mod_pos_bound. Qed.
Lemma u32_range x : 0 ≤ u32 x < W32.
Proof. by apply Z.mod_pos_bound. Qed.
Lemma u8_id x : 0 ≤ x < W8 → u8 x = x.
Proof. apply Z.mod_small. Qed.
Lemma u16_id x : 0 ≤ x < W16 → u16 x = x.
Proof. apply Z.mod_small. Qed.
Lemma u32_id x : 0 ≤ x < W32 → u32 x = x.
Proof. apply Z.mod_small. Qed.
#[export] Hint Resolve u8_range u16_range u32_range : nemo.

(** ** Arrays indexed by machine integers *)

(** The value static storage of a type starts with. *)
Class ZeroInit (A : Type) := zeroed : A.
#[export] Instance Z_zero_init : ZeroInit Z := 0.
#[export] Instance bool_zero_init : ZeroInit bool := false.

(** [aget l i] is [l[i]] and [aset l i v] is [l[i] = v]. Outside the array
    C++ gives no meaning to either; [aget] then returns the default and [aset]
    changes nothing, and the components prove that their indices are inside. *)
Definition aget {A} `{ZeroInit A} (l : list A) (i : Z) : A :=
  if i <? 0 then zeroed else default zeroed (l !! Z.to_nat i).
Definition aset {A} (l : list A) (i : Z) (v : A) : list A :=
  if i <? 0 then l else <[Z.to_nat i := v]> l.

(** The length of an array as an integer. *)
Notation zlen l := (Z.of_nat (length l)).

Section arrays.
Context {A : Type} `{ZeroInit A}.
Implicit Types (l : list A) (i j : Z) (v : A).

Lemma aset_length l i v : length (aset l i v) = length l.
Proof. unfold aset. zcase; [done | apply length_insert]. Qed.

Lemma aget_aset_eq l i v : 0 ≤ i < zlen l → aget (aset l i v) i = v.
Proof.
  intros Hi. unfold aget, aset. zcase; [lia |].
  by rewrite list_lookup_insert_eq by lia.
Qed.

Lemma aget_aset_ne l i j v : i ≠ j → aget (aset l i v) j = aget l j.
Proof.
  intros Hne. unfold aget, aset. repeat zcase; try done.
  by rewrite list_lookup_insert_ne by lia.
Qed.

Lemma aget_lookup l i a : 0 ≤ i → l !! Z.to_nat i = Some a → aget l i = a.
Proof. intros Hi E. unfold aget. zcase; [lia | by rewrite E]. Qed.

Lemma lookup_aget l i : 0 ≤ i < zlen l → l !! Z.to_nat i = Some (aget l i).
Proof.
  intros Hi. destruct (lookup_lt_is_Some_2 l (Z.to_nat i)) as [a E]; [lia |].
  by rewrite E, (aget_lookup l i a) by (lia || done).
Qed.

Lemma aset_lookup_ne l i j v :
  0 ≤ i → 0 ≤ j → i ≠ j → aset l i v !! Z.to_nat j = l !! Z.to_nat j.
Proof.
  intros Hi Hj Hne. unfold aset. zcase; [lia |].
  by rewrite list_lookup_insert_ne by lia.
Qed.

Lemma aget_ext l l' :
  length l = length l' → (∀ i, 0 ≤ i < zlen l → aget l i = aget l' i) → l = l'.
Proof.
  intros Hlen Hall. apply list_eq_same_length with (n := length l); [done | done |].
  intros i x y Hi Hx Hy. specialize (Hall (Z.of_nat i) ltac:(lia)).
  rewrite (aget_lookup l (Z.of_nat i) x) in Hall by (rewrite ?Nat2Z.id; lia || done).
  by rewrite (aget_lookup l' (Z.of_nat i) y) in Hall by (rewrite ?Nat2Z.id; lia || done).
Qed.
End arrays.

(** ** Finite transition sequences *)

(** [reach step a b]: [b] is reached from [a] by zero or more transitions. *)
Inductive reach {A} (step : A → A → Prop) (a : A) : A → Prop :=
| reach_refl : reach step a a
| reach_step b c : reach step a b → step b c → reach step a c.

Lemma reach_invariant {A} (step : A → A → Prop) (I : A → Prop) a b :
  (∀ x y, I x → step x y → I y) → I a → reach step a b → I b.
Proof. intros Hstep Ha Hr. induction Hr; eauto. Qed.

(** ** Counted loops *)

(** [loop_n n i f s] runs [s := f k s] for [k = i, ..., i + n - 1]. *)
Fixpoint loop_n {S} (n : nat) (i : Z) (f : Z → S → S) (s : S) : S :=
  match n with
  | O => s
  | S n' => loop_n n' (i + 1) f (f i s)
  end.

Lemma loop_n_ind {S} (P : Z → S → Prop) n i f (s : S) :
  P i s →
  (∀ k s, i ≤ k < i + Z.of_nat n → P k s → P (k + 1) (f k s)) →
  P (i + Z.of_nat n) (loop_n n i f s).
Proof.
  revert i s. induction n as [|n IH]; intros i s H0 Hstep; simpl.
  - by rewrite Z.add_0_r.
  - replace (i + Z.of_nat (Datatypes.S n)) with ((i + 1) + Z.of_nat n) by lia.
    apply IH; [apply Hstep; [lia | done] |].
    intros k s' Hk. apply Hstep. lia.
Qed.

Lemma loop_n_ext {S} n i f g (s : S) :
  (∀ k s, i ≤ k < i + Z.of_nat n → f k s = g k s) → loop_n n i f s = loop_n n i g s.
Proof.
  revert i s. induction n as [|n IH]; intros i s Hfg; simpl; [done |].
  rewrite Hfg by lia. apply IH. intros k s' Hk. apply Hfg. lia.
Qed.

(** ** Bytes and little-endian words *)

(** Physical memory: a cell absent from the map holds 0. *)
Notation memory := (gmap Z Z).

Definition rd8 (m : memory) (a : Z) : Z := u8 (default 0 (m !! a)).
Definition wr8 (m : memory) (a v : Z) : memory := <[a := u8 v]> m.

Definition rd16 (m : memory) (a : Z) : Z := rd8 m a + W8 * rd8 m (a + 1).
Definition wr16 (m : memory) (a v : Z) : memory :=
  wr8 (wr8 m a v) (a + 1) (v / W8).

Definition rd32 (m : memory) (a : Z) : Z := rd16 m a + W16 * rd16 m (a + 2).
Definition wr32 (m : memory) (a v : Z) : memory :=
  wr16 (wr16 m a v) (a + 2) (v / W16).

Lemma rd8_range m a : 0 ≤ rd8 m a < W8.
Proof. apply u8_range. Qed.
Lemma rd16_range m a : 0 ≤ rd16 m a < W16.
Proof. unfold rd16. pose proof (rd8_range m a). pose proof (rd8_range m (a + 1)). lia. Qed.
Lemma rd32_range m a : 0 ≤ rd32 m a < W32.
Proof. unfold rd32. pose proof (rd16_range m a). pose proof (rd16_range m (a + 2)). lia. Qed.
#[export] Hint Resolve rd8_range rd16_range rd32_range : nemo.

Lemma rd8_wr8 m a b v : rd8 (wr8 m a v) b = if a =? b then u8 v else rd8 m b.
Proof.
  unfold rd8, wr8. zcase.
  - subst. rewrite lookup_insert_eq. simpl. apply u8_id, u8_range.
  - by rewrite lookup_insert_ne.
Qed.

Lemma rd8_wr8_ne m a b v : a ≠ b → rd8 (wr8 m a v) b = rd8 m b.
Proof. intros Hne. rewrite rd8_wr8. zcase; [lia | done]. Qed.

Lemma rd8_wr16_ne m a b v : b < a ∨ a + 2 ≤ b → rd8 (wr16 m a v) b = rd8 m b.
Proof. intros Hb. unfold wr16. by rewrite !rd8_wr8_ne by lia. Qed.

Lemma rd8_wr32_ne m a b v : b < a ∨ a + 4 ≤ b → rd8 (wr32 m a v) b = rd8 m b.
Proof. intros Hb. unfold wr32. by rewrite !rd8_wr16_ne by lia. Qed.

(** Two memories that agree on the bytes of a word agree on the word. *)
Lemma rd16_ext m m' a : (∀ x, a ≤ x < a + 2 → rd8 m x = rd8 m' x) → rd16 m a = rd16 m' a.
Proof. intros H. unfold rd16. by rewrite !H by lia. Qed.
Lemma rd32_ext m m' a : (∀ x, a ≤ x < a + 4 → rd8 m x = rd8 m' x) → rd32 m a = rd32 m' a.
Proof.
  intros H. unfold rd32.
  by rewrite (rd16_ext m m' a), (rd16_ext m m' (a + 2)) by (intros; apply H; lia).
Qed.

Lemma rd16_wr16_eq m a v : rd16 (wr16 m a v) a = u16 v.
Proof.
  unfold rd16, wr16. rewrite rd8_wr8_ne, !rd8_wr8, !Z.eqb_refl by lia.
  unfold u8, u16. mlia.
Qed.

Lemma rd32_wr32_eq m a v : rd32 (wr32 m a v) a = u32 v.
Proof.
  unfold rd32, wr32. rewrite rd16_wr16_eq.
  rewrite (rd16_ext _ (wr16 m a v) a) by (intros; apply rd8_wr16_ne; lia).
  rewrite rd16_wr16_eq. unfold u16, u32. mlia.
Qed.

Lemma rd32_wr32_ne m a b v : b + 4 ≤ a ∨ a + 4 ≤ b → rd32 (wr32 m a v) b = rd32 m b.
Proof. intros Hb. apply rd32_ext. intros x Hx. apply rd8_wr32_ne. lia. Qed.
