(* ===== verification/Interfaces.v ===== *)
(** * What the components of the kernel promise to each other

    [PageAlloc] is the contract of the physical page allocator: the heap, the
    page tables and the process table are proved against it, and [Pmm]
    discharges it for the bitmap of [memory/pmm_bitmap.cpp]. *)

From S2P Require Import Prelude.

Notation PAGE_SIZE := 4096 (only parsing).

(** A page frame other than the null page, inside the 32-bit address space. *)
Definition page_addr (p : Z) : Prop :=
  0 < p ∧ p + PAGE_SIZE ≤ W32 ∧ p mod PAGE_SIZE = 0.

(** The base address of the page an address lies in. *)
Definition page_of (x : Z) : Z := x - x mod PAGE_SIZE.

Lemma page_of_inside p x : p mod PAGE_SIZE = 0 → p ≤ x < p + PAGE_SIZE → page_of x = p.
Proof. unfold page_of. intros Hp Hx. mlia. Qed.

Lemma page_of_range x : page_of x ≤ x < page_of x + PAGE_SIZE.
Proof. unfold page_of. mlia. Qed.

Lemma page_of_aligned x : page_of x mod PAGE_SIZE = 0.
Proof. unfold page_of. mlia. Qed.

(** [pa_alloc] returns the address of a page (0 is the null pointer) and
    [pa_free] takes one back. *)
Class PageAllocOps (S : Type) := {
  pa_alloc : S → Z * S;
  pa_free : Z → S → S;
}.

Class PageAlloc (S : Type) `{!PageAllocOps S} := {
  pa_wf : S → Prop;
  pa_used : S → Z → Prop;
  pa_alloc_ok s p s' :
    pa_wf s → pa_alloc s = (p, s') → p ≠ 0 →
    pa_wf s' ∧ page_addr p ∧ ¬ pa_used s p ∧
    (∀ q, pa_used s' q ↔ q = p ∨ pa_used s q);
  pa_alloc_null s s' : pa_wf s → pa_alloc s = (0, s') → s' = s;
  pa_free_ok s p :
    pa_wf s → page_addr p → pa_used s p →
    pa_wf (pa_free p s) ∧
    (∀ q, pa_used (pa_free p s) q ↔ pa_used s q ∧ q ≠ p);
}.

(** The allocator after [n] calls of [pa_alloc]. *)
Definition after {Pg} `{!PageAllocOps Pg} (n : nat) (s : Pg) : Pg := Nat.iter n (λ s, snd (pa_alloc s)) s.

(** Fewer than [n] pages are left: one of the next [n] calls fails. *)
Definition short_of {Pg} `{!PageAllocOps Pg} (n : nat) (s : Pg) : Prop :=
  ∃ j, (j < n)%nat ∧ fst (pa_alloc (after j s)) = 0.

Lemma after_add {Pg} `{!PageAllocOps Pg} i j (s : Pg) : after i (after j s) = after (i + j) s.
Proof. unfold after. by rewrite Nat.iter_add. Qed.
Lemma short_of_after {Pg} `{!PageAllocOps Pg} n j (s : Pg) : short_of n (after j s) → short_of (n + j) s.
Proof. intros (i & Hi & E). exists (i + j)%nat. split; [lia |]. by rewrite <- after_add. Qed.
Lemma short_of_mono {Pg} `{!PageAllocOps Pg} n m (s : Pg) : (n ≤ m)%nat → short_of n s → short_of m s.
Proof. intros Hm (i & Hi & E). exists i. split; [lia | done]. Qed.

Section page_alloc.
Context {S : Type} `{PageAlloc S}.
Implicit Types (s : S) (p q : Z).

(** The pages of [s] are exactly those of [s'] and the ones of [l]. *)
Definition grows_by s s' (l : list Z) : Prop :=
  pa_wf s' ∧ (∀ q, pa_used s' q ↔ q ∈ l ∨ pa_used s q).

Lemma grows_by_nil s : pa_wf s → grows_by s s [].
Proof. intros Hs. split; [done | set_solver]. Qed.

Lemma grows_by_trans s1 s2 s3 l1 l2 :
  grows_by s1 s2 l1 → grows_by s2 s3 l2 → grows_by s1 s3 (l2 ++ l1).
Proof.
  intros [H1 U1] [H2 U2]. split; [done |].
  intros q. rewrite U2, U1. set_solver.
Qed.

Lemma grows_by_alloc s p s' :
  pa_wf s → pa_alloc s = (p, s') → p ≠ 0 →
  grows_by s s' [p] ∧ page_addr p ∧ ¬ pa_used s p.
Proof.
  intros Hs Ha Hp. destruct (pa_alloc_ok s p s') as (Hwf & Hpa & Hn & Hu); [done.. |].
  split; [| done]. split; [done |]. intros q. rewrite Hu. set_solver.
Qed.

(** Allocating never forgets a page that was in use. *)
Lemma grows_by_used s s' l q : grows_by s s' l → pa_used s q → pa_used s' q.
Proof. intros [_ U] Hq. apply U. by right. Qed.
End page_alloc.
