(* ===== verification/Pmm.v ===== *)
(** * The physical page allocator: [memory/pmm_bitmap.cpp]

    One bit per page frame in a byte array of [MAX_PAGES / 8] bytes, the
    number of frames of the machine and the number in use. *)

From S2P Require Import Prelude Interfaces.

Module Pmm.

Notation MAX_PAGES := 262144 (only parsing).
Notation BITMAP_BYTES := 32768 (only parsing).
Notation RESERVED_PAGES := 1024 (only parsing).

Record pmm := mkPmm {
  bitmap : list Z;
  total_pages : Z;
  used_pages : Z;
}.

Definition set_bit (bm : list Z) (bit : Z) : list Z :=
  aset bm (bit / 8) (u8 (Z.lor (aget bm (bit / 8)) (Z.shiftl 1 (bit mod 8)))).

Definition clear_bit (bm : list Z) (bit : Z) : list Z :=
  aset bm (bit / 8)
    (u8 (Z.land (aget bm (bit / 8)) (Z.lnot (Z.shiftl 1 (bit mod 8))))).

Definition test_bit (bm : list Z) (bit : Z) : bool :=
  negb (Z.land (aget bm (bit / 8)) (Z.shiftl 1 (bit mod 8)) =? 0).

Definition pmm_init (memory_mb : Z) : pmm :=
  let total := u32 (memory_mb * 1024 * 1024) / PAGE_SIZE in
  let used := if total <? RESERVED_PAGES then total else RESERVED_PAGES in
  let cleared := replicate (Z.to_nat BITMAP_BYTES) 0 in
  mkPmm (loop_n (Z.to_nat used) 0 (λ i bm, set_bit bm i) cleared) total used.

(** The scan of [pmm_alloc_page] from frame [i] over [n] frames. *)
Fixpoint alloc_from (n : nat) (i : Z) (s : pmm) : Z * pmm :=
  match n with
  | O => (0, s)
  | S n' =>
      if negb (test_bit (bitmap s) i)
      then (u32 (i * PAGE_SIZE),
            mkPmm (set_bit (bitmap s) i) (total_pages s) (u32 (used_pages s + 1)))
      else alloc_from n' (i + 1) s
  end.

Definition pmm_alloc_page (s : pmm) : Z * pmm :=
  alloc_from (Z.to_nat (total_pages s)) 0 s.

Definition pmm_free_page (page : Z) (s : pmm) : pmm :=
  let index := u32 page / PAGE_SIZE in
  if total_pages s <=? index then s
  else if test_bit (bitmap s) index
       then mkPmm (clear_bit (bitmap s) index) (total_pages s) (u32 (used_pages s - 1))
       else s.

Definition pmm_free_pages (s : pmm) : Z := u32 (total_pages s - used_pages s).
Definition pmm_used_pages (s : pmm) : Z := used_pages s.
Definition pmm_total_pages (s : pmm) : Z := total_pages s.

(** ** The bitmap as a set of frames *)

Lemma land_pow2_testbit x k : 0 ≤ k → (Z.land x (Z.shiftl 1 k) =? 0) = negb (Z.testbit x k).
Proof.
  intros Hk. rewrite Z.shiftl_1_l.
  assert (Hb : Z.testbit (Z.land x (2 ^ k)) k = Z.testbit x k).
  { rewrite Z.land_spec, Z.pow2_bits_true by lia. by rewrite andb_true_r. }
  destruct (Z.testbit x k) eqn:E; simpl.
  - apply Z.eqb_neq. intros H0. rewrite H0, Z.bits_0 in Hb. done.
  - apply Z.eqb_eq, Z.bits_inj_0. intros n. rewrite Z.land_spec.
    destruct (Z.eq_dec k n) as [<- | Hne]; [by rewrite E |].
    rewrite Z.pow2_bits_false by done. apply andb_false_r.
Qed.

Lemma test_bit_testbit bm i : test_bit bm i = Z.testbit (aget bm (i / 8)) (i mod 8).
Proof. unfold test_bit. rewrite land_pow2_testbit by mlia. apply negb_involutive. Qed.

Lemma u8_testbit x k : 0 ≤ k < 8 → Z.testbit (u8 x) k = Z.testbit x k.
Proof. intros Hk. unfold u8. change 256 with (2 ^ 8). apply Z.mod_pow2_bits_low. lia. Qed.

Lemma shiftl1_testbit k n : 0 ≤ k → Z.testbit (Z.shiftl 1 k) n = (k =? n).
Proof.
  intros Hk. rewrite Z.shiftl_1_l. destruct (Z.eqb_spec k n) as [<- | Hne].
  - by apply Z.pow2_bits_true.
  - by apply Z.pow2_bits_false.
Qed.

Lemma same_bit i j : i / 8 = j / 8 → (i mod 8 =? j mod 8) = (i =? j).
Proof. intros E. destruct (Z.eqb_spec (i mod 8) (j mod 8)), (Z.eqb_spec i j); mlia || done. Qed.

Lemma length_set_bit bm i : length (set_bit bm i) = length bm.
Proof. apply aset_length. Qed.
Lemma length_clear_bit bm i : length (clear_bit bm i) = length bm.
Proof. apply aset_length. Qed.

Lemma test_set_bit bm i j :
  0 ≤ i < 8 * zlen bm → test_bit (set_bit bm i) j = (i =? j) || test_bit bm j.
Proof.
  intros Hi. rewrite !test_bit_testbit. unfold set_bit.
  destruct (Z.eq_dec (i / 8) (j / 8)) as [E | Hne].
  - rewrite <- E, aget_aset_eq by mlia.
    rewrite u8_testbit, Z.lor_spec, shiftl1_testbit, same_bit by (done || mlia).
    apply orb_comm.
  - rewrite aget_aset_ne by done. destruct (Z.eqb_spec i j); [congruence | done].
Qed.

Lemma test_clear_bit bm i j :
  0 ≤ i < 8 * zlen bm → test_bit (clear_bit bm i) j = negb (i =? j) && test_bit bm j.
Proof.
  intros Hi. rewrite !test_bit_testbit. unfold clear_bit.
  destruct (Z.eq_dec (i / 8) (j / 8)) as [E | Hne].
  - rewrite <- E, aget_aset_eq by mlia.
    rewrite u8_testbit, Z.land_spec, Z.lnot_spec, shiftl1_testbit, same_bit by (done || mlia).
    apply andb_comm.
  - rewrite aget_aset_ne by done. destruct (Z.eqb_spec i j); [congruence | done].
Qed.

(** ** Accounting *)

(** The number of frames below [n] whose bit is set. *)
Fixpoint count_used (bm : list Z) (n : nat) : Z :=
  match n with
  | O => 0
  | S n' => count_used bm n' + (if test_bit bm (Z.of_nat n') then 1 else 0)
  end.

Lemma count_used_ext bm bm' n :
  (∀ j, 0 ≤ j < Z.of_nat n → test_bit bm j = test_bit bm' j) →
  count_used bm n = count_used bm' n.
Proof.
  induction n as [|n IH]; simpl; intros H; [done |].
  rewrite IH by (intros; apply H; lia). by rewrite H by lia.
Qed.

Lemma count_used_bound bm n : 0 ≤ count_used bm n ≤ Z.of_nat n.
Proof. induction n; simpl; [done |]. zcase; lia. Qed.

(** Flipping one clear bit below [n] raises the count by one. *)
Lemma count_used_flip bm bm' n i :
  0 ≤ i < Z.of_nat n → test_bit bm i = false → test_bit bm' i = true →
  (∀ j, j ≠ i → test_bit bm' j = test_bit bm j) →
  count_used bm' n = count_used bm n + 1.
Proof.
  intros Hi H0 H1 Hj. induction n as [|n IH]; [lia |]. simpl.
  destruct (Z.eq_dec (Z.of_nat n) i) as [E | Hne].
  - rewrite (count_used_ext bm' bm) by (intros; apply Hj; lia).
    rewrite E, H0, H1. lia.
  - rewrite IH, Hj by lia. lia.
Qed.

Lemma count_used_full bm n :
  (∀ j, 0 ≤ j < Z.of_nat n → test_bit bm j = true) → count_used bm n = Z.of_nat n.
Proof.
  induction n as [|n IH]; simpl; intros H; [done |].
  rewrite IH, H by (lia || (intros; apply H; lia)). lia.
Qed.

(** ** The invariant *)

(** The array has its static size and holds bytes, the machine has no more
    frames than the array has bits, [used_pages] counts the set bits, and the
    null page is never free. *)
Record pmm_wf (s : pmm) : Prop := {
  wf_length : length (bitmap s) = Z.to_nat BITMAP_BYTES;
  wf_bytes : Forall (λ b, 0 ≤ b < W8) (bitmap s);
  wf_total : 0 ≤ total_pages s ≤ MAX_PAGES;
  wf_used : used_pages s = count_used (bitmap s) (Z.to_nat (total_pages s));
  wf_null : 0 < total_pages s → test_bit (bitmap s) 0 = true;
}.

Lemma bytes_aset bm i b :
  Forall (λ b, 0 ≤ b < W8) bm → Forall (λ b, 0 ≤ b < W8) (aset bm i (u8 b)).
Proof.
  intros H. unfold aset. zcase; [done |].
  apply Forall_insert; [done | apply u8_range].
Qed.

Lemma wf_frame s i : pmm_wf s → 0 ≤ i < total_pages s → 0 ≤ i < 8 * zlen (bitmap s).
Proof. intros [Hl _ Ht _ _]. rewrite Hl. lia. Qed.

(** What [set_bit] on a free frame and [clear_bit] on a used one do to the
    invariant: the two updates every operation of the allocator consists of. *)
Lemma wf_set s i :
  pmm_wf s → 0 ≤ i < total_pages s → test_bit (bitmap s) i = false →
  pmm_wf (mkPmm (set_bit (bitmap s) i) (total_pages s) (u32 (used_pages s + 1))).
Proof.
  intros Hwf Hi Hb. pose proof (wf_frame s i Hwf Hi) as Hf.
  destruct Hwf as [Hl Hby Ht Hu Hn]. constructor; simpl.
  - by rewrite length_set_bit.
  - by apply bytes_aset.
  - done.
  - rewrite (count_used_flip (bitmap s) (set_bit (bitmap s) i) _ i).
    + pose proof (count_used_bound (bitmap s) (Z.to_nat (total_pages s))).
      rewrite Hu, u32_id by lia. done.
    + lia.
    + done.
    + rewrite test_set_bit, Z.eqb_refl by done. done.
    + intros j Hj. rewrite test_set_bit by done.
      destruct (Z.eqb_spec i j); [congruence | done].
  - intros H0. rewrite test_set_bit, Hn by done. apply orb_true_r.
Qed.

Lemma wf_clear s i :
  pmm_wf s → 0 < i < total_pages s → test_bit (bitmap s) i = true →
  pmm_wf (mkPmm (clear_bit (bitmap s) i) (total_pages s) (u32 (used_pages s - 1))).
Proof.
  intros Hwf Hi Hb. pose proof (wf_frame s i Hwf ltac:(lia)) as Hf.
  destruct Hwf as [Hl Hby Ht Hu Hn].
  assert (Hc : count_used (bitmap s) (Z.to_nat (total_pages s)) =
               count_used (clear_bit (bitmap s) i) (Z.to_nat (total_pages s)) + 1).
  { apply count_used_flip with i; [lia | | done |].
    - rewrite test_clear_bit, Z.eqb_refl by done. done.
    - intros j Hj. rewrite test_clear_bit by done.
      destruct (Z.eqb_spec i j); [congruence | done]. }
  pose proof (count_used_bound (clear_bit (bitmap s) i) (Z.to_nat (total_pages s))).
  constructor; simpl.
  - by rewrite length_clear_bit.
  - by apply bytes_aset.
  - done.
  - rewrite Hu, u32_id by lia. lia.
  - intros H0. rewrite test_clear_bit, Hn by done.
    destruct (Z.eqb_spec i 0); [lia | done].
Qed.

(** The scan stops at the first clear bit, or proves that there is none. *)
Lemma alloc_from_cases n i s :
  0 ≤ i →
  (∃ k, i ≤ k < i + Z.of_nat n ∧ test_bit (bitmap s) k = false ∧
     (∀ j, i ≤ j < k → test_bit (bitmap s) j = true) ∧
     alloc_from n i s =
       (u32 (k * PAGE_SIZE),
        mkPmm (set_bit (bitmap s) k) (total_pages s) (u32 (used_pages s + 1)))) ∨
  ((∀ j, i ≤ j < i + Z.of_nat n → test_bit (bitmap s) j = true) ∧
   alloc_from n i s = (0, s)).
Proof.
  revert i. induction n as [|n IH]; intros i Hi; simpl; [right; split; [lia | done] |].
  destruct (test_bit (bitmap s) i) eqn:Hb; simpl.
  - destruct (IH (i + 1) ltac:(lia)) as [(k & Hk & Hf & Hall & E) | [Hall E]].
    + left. exists k. split_and!; [lia | lia | done | | done].
      intros j Hj. destruct (Z.eq_dec j i) as [-> | ?]; [done | apply Hall; lia].
    + right. split; [| done].
      intros j Hj. destruct (Z.eq_dec j i) as [-> | ?]; [done | apply Hall; lia].
  - left. exists i. split_and!; [lia | lia | done | lia | done].
Qed.

(** Allocation on a well-formed allocator: the lowest free frame, or null. *)
Lemma pmm_alloc_cases s :
  pmm_wf s →
  (∃ k, 0 < k < total_pages s ∧ test_bit (bitmap s) k = false ∧
     (∀ j, 0 ≤ j < k → test_bit (bitmap s) j = true) ∧
     pmm_alloc_page s =
       (k * PAGE_SIZE,
        mkPmm (set_bit (bitmap s) k) (total_pages s) (u32 (used_pages s + 1)))) ∨
  ((∀ j, 0 ≤ j < total_pages s → test_bit (bitmap s) j = true) ∧
   pmm_alloc_page s = (0, s)).
Proof.
  intros Hwf. pose proof (wf_total s Hwf) as Ht.
  destruct (alloc_from_cases (Z.to_nat (total_pages s)) 0 s ltac:(lia))
    as [(k & Hk & Hf & Hall & E) | [Hall E]].
  - left. exists k.
    assert (k ≠ 0) by (intros ->; rewrite (wf_null s Hwf) in Hf; [done | lia]).
    split_and!; [lia | lia | done | done |].
    unfold pmm_alloc_page. rewrite E, u32_id by lia. done.
  - right. split; [| done]. intros j Hj. apply Hall. lia.
Qed.

(** Setting then clearing a clear bit of an array of bytes changes nothing. *)
Lemma clear_set_bit bm i :
  Forall (λ b, 0 ≤ b < W8) bm → 0 ≤ i < 8 * zlen bm → test_bit bm i = false →
  clear_bit (set_bit bm i) i = bm.
Proof.
  intros Hby Hi Hb. apply aget_ext; [by rewrite length_clear_bit, length_set_bit |].
  intros k. rewrite length_clear_bit, length_set_bit. intros Hk.
  unfold clear_bit, set_bit. destruct (Z.eq_dec (i / 8) k) as [<- | Hne].
  - rewrite !aget_aset_eq by (rewrite ?aset_length; mlia).
    assert (Hr : 0 ≤ aget bm (i / 8) < W8).
    { apply (Forall_lookup_1 (λ b, 0 ≤ b < W8) bm (Z.to_nat (i / 8))); [done |].
      apply lookup_aget. mlia. }
    rewrite test_bit_testbit in Hb. rewrite <- (u8_id (aget bm (i / 8))) at 2 by done.
    unfold u8. change W8 with (2 ^ 8). apply Z.bits_inj'. intros n Hn.
    destruct (Z_lt_le_dec n 8).
    + rewrite !Z.mod_pow2_bits_low, Z.land_spec, Z.lnot_spec by lia.
      rewrite Z.mod_pow2_bits_low, Z.lor_spec, shiftl1_testbit by mlia.
      destruct (Z.eqb_spec (i mod 8) n) as [<- | ?]; simpl.
      * by rewrite Hb, andb_false_r.
      * by rewrite orb_false_r, andb_true_r.
    + by rewrite !Z.mod_pow2_bits_high by lia.
  - by rewrite !aget_aset_ne by done.
Qed.

(** Initialisation marks the frames below the reserved bound and no other. *)
Lemma reserve_spec n bm :
  Z.of_nat n ≤ 8 * zlen bm → Forall (λ b, 0 ≤ b < W8) bm →
  (∀ j, test_bit bm j = false) →
  let bm' := loop_n n 0 (λ i bm, set_bit bm i) bm in
  length bm' = length bm ∧ Forall (λ b, 0 ≤ b < W8) bm' ∧
  ∀ j, test_bit bm' j = (0 <=? j) && (j <? Z.of_nat n).
Proof.
  intros Hn Hby H0. set (P := λ k (b : list Z), length b = length bm ∧
    Forall (λ b, 0 ≤ b < W8) b ∧ ∀ j, test_bit b j = (0 <=? j) && (j <? k)).
  change (P (0 + Z.of_nat n) (loop_n n 0 (λ i bm, set_bit bm i) bm)).
  apply loop_n_ind; unfold P.
  - split_and!; [done | done |]. intros j. rewrite H0.
    destruct (Z.leb_spec 0 j), (Z.ltb_spec j 0); done || lia.
  - intros k b Hk (Hl & Hb & Ht). split_and!.
    + by rewrite length_set_bit.
    + by apply bytes_aset.
    + intros j. rewrite test_set_bit, Ht by (rewrite Hl; lia).
      destruct (Z.eqb_spec k j), (Z.leb_spec 0 j), (Z.ltb_spec j k), (Z.ltb_spec j (k + 1));
        done || lia.
Qed.

Lemma test_bit_zeroed n j : test_bit (replicate n 0) j = false.
Proof.
  rewrite test_bit_testbit. replace (aget (replicate n 0) (j / 8)) with 0; [apply Z.bits_0 |].
  unfold aget. zcase; [done |].
  destruct (replicate n 0 !! Z.to_nat (j / 8)) as [b|] eqn:L; [| done].
  by apply lookup_replicate in L as [-> _].
Qed.

Lemma pmm_init_bits mb :
  0 ≤ mb ≤ 1024 →
  let s := pmm_init mb in
  length (bitmap s) = Z.to_nat BITMAP_BYTES ∧ Forall (λ b, 0 ≤ b < W8) (bitmap s) ∧
  total_pages s = mb * 256 ∧ used_pages s = Z.min RESERVED_PAGES (mb * 256) ∧
  ∀ j, test_bit (bitmap s) j = (0 <=? j) && (j <? used_pages s).
Proof.
  intros Hmb s.
  assert (Ht : u32 (mb * 1024 * 1024) / PAGE_SIZE = mb * 256) by (rewrite u32_id; mlia).
  assert (Hu : used_pages s = Z.min RESERVED_PAGES (mb * 256)).
  { subst s. unfold pmm_init. simpl. rewrite Ht. zcase; lia. }
  destruct (reserve_spec (Z.to_nat (used_pages s)) (replicate (Z.to_nat BITMAP_BYTES) 0))
    as (Hl & Hb & Hbits).
  - rewrite length_replicate, Hu. lia.
  - apply Forall_replicate. lia.
  - intros j. apply test_bit_zeroed.
  - rewrite length_replicate in Hl. split_and!; [exact Hl | exact Hb | exact Ht | exact Hu |].
    intros j. specialize (Hbits j). rewrite Z2Nat.id in Hbits by lia. exact Hbits.
Qed.

Lemma pmm_init_wf mb : 0 ≤ mb ≤ 1024 → pmm_wf (pmm_init mb).
Proof.
  intros Hmb. destruct (pmm_init_bits mb Hmb) as (Hl & Hb & Ht & Hu & Hbits).
  constructor; [done | done | rewrite Ht; lia | |].
  - rewrite Hu, Ht. assert (Hc : ∀ n, 0 ≤ Z.of_nat n ≤ mb * 256 →
      count_used (bitmap (pmm_init mb)) n = Z.min (Z.min RESERVED_PAGES (mb * 256)) (Z.of_nat n)).
    { induction n as [|n IH]; intros Hn; [simpl; lia |].
      cbn [count_used]. rewrite IH, Hbits, Hu by lia.
      destruct (Z.leb_spec 0 (Z.of_nat n)); [simpl | lia]. zcase; lia. }
    rewrite Hc; lia.
  - rewrite Ht. intros H0. rewrite Hbits, Hu. apply andb_true_intro. lia.
Qed.

(** ** The allocator discharges the page-allocation contract *)

#[export] Instance pmm_ops : PageAllocOps pmm := {
  pa_alloc := pmm_alloc_page;
  pa_free := pmm_free_page;
}.

(** Page [p] is in use: its frame exists and its bit is set. *)
Definition page_in_use (s : pmm) (p : Z) : Prop :=
  p mod PAGE_SIZE = 0 ∧ 0 ≤ p / PAGE_SIZE < total_pages s ∧
  test_bit (bitmap s) (p / PAGE_SIZE) = true.

Lemma pmm_contract_alloc s p s' :
  pmm_wf s → pmm_alloc_page s = (p, s') → p ≠ 0 →
  pmm_wf s' ∧ page_addr p ∧ ¬ page_in_use s p ∧
  (∀ q, page_in_use s' q ↔ q = p ∨ page_in_use s q).
Proof.
  intros Hwf Ha Hp. pose proof (wf_total s Hwf) as Ht.
  destruct (pmm_alloc_cases s Hwf) as [(k & Hk & Hf & _ & E) | [_ E]];
    rewrite E in Ha; inversion Ha; subst; [| done].
  split_and!.
  - apply wf_set; [done | lia | done].
  - unfold page_addr. mlia.
  - unfold page_in_use. rewrite Z.div_mul by lia. rewrite Hf. naive_solver.
  - intros q. unfold page_in_use. simpl.
    rewrite test_set_bit by (apply wf_frame; [done | lia]).
    split.
    + intros (Hm & Hr & Hb). destruct (Z.eqb_spec k (q / PAGE_SIZE)); [left; mlia | by right].
    + intros [-> | (Hm & Hr & Hb)].
      * rewrite Z.div_mul, Z.mod_mul, Z.eqb_refl by lia. split_and!; done || lia.
      * split_and!; [done | lia | lia |]. rewrite Hb. apply orb_true_r.
Qed.

Lemma pmm_contract_free s p :
  pmm_wf s → page_addr p → page_in_use s p →
  pmm_wf (pmm_free_page p s) ∧
  (∀ q, page_in_use (pmm_free_page p s) q ↔ page_in_use s q ∧ q ≠ p).
Proof.
  intros Hwf Hp (Hm & Hr & Hb). unfold page_addr in Hp. unfold pmm_free_page.
  rewrite u32_id by lia. rewrite Hb.
  destruct (Z.leb_spec (total_pages s) (p / PAGE_SIZE)); [lia |]. split.
  - apply wf_clear; [done | mlia | done].
  - intros q. unfold page_in_use. simpl. rewrite test_clear_bit by (apply wf_frame; done).
    split.
    + intros (Hq & Hqr & Hqb). apply andb_prop in Hqb as [Hne Hqb]. zbool.
      split_and!; [done | lia | lia | done | congruence].
    + intros [(Hq & Hqr & Hqb) Hne]. rewrite Hqb.
      split_and!; [done | lia | lia |]. destruct (Z.eqb_spec (p / PAGE_SIZE) (q / PAGE_SIZE)); [| done].
      exfalso. apply Hne. mlia.
Qed.

#[export] Program Instance pmm_page_alloc : PageAlloc pmm := {
  pa_wf := pmm_wf;
  pa_used := page_in_use;
}.
Next Obligation. intros s p s' Hs Ha Hp. exact (pmm_contract_alloc s p s' Hs Ha Hp). Qed.
Next Obligation.
  intros s s' Hwf Ha. destruct (pmm_alloc_cases s Hwf) as [(k & Hk & _ & _ & E) | [_ E]];
    unfold pa_alloc, pmm_ops in Ha; rewrite E in Ha; inversion Ha; [lia | done].
Qed.
Next Obligation. intros s p Hs Hp Hu. exact (pmm_contract_free s p Hs Hp Hu). Qed.

(** The calls that succeed are as many as there are free frames. *)
Lemma pmm_free_count s : pmm_wf s → pmm_free_pages s = total_pages s - count_used (bitmap s) (Z.to_nat (total_pages s)).
Proof.
  intros Hwf. pose proof (wf_total s Hwf). pose proof (count_used_bound (bitmap s) (Z.to_nat (total_pages s))).
  unfold pmm_free_pages. rewrite (wf_used s Hwf). apply u32_id. lia.
Qed.

Lemma pmm_alloc_left s :
  pmm_wf s → pmm_wf (snd (pmm_alloc_page s)) ∧
  if fst (pmm_alloc_page s) =? 0 then pmm_free_pages s = 0 ∧ snd (pmm_alloc_page s) = s
  else pmm_free_pages (snd (pmm_alloc_page s)) = pmm_free_pages s - 1.
Proof.
  intros Hwf. pose proof (wf_total s Hwf). pose proof (count_used_bound (bitmap s) (Z.to_nat (total_pages s))).
  destruct (pmm_alloc_cases s Hwf) as [(k & Hk & Hf & _ & E) | [Hall E]]; rewrite E; cbn [fst snd].
  - assert (Hwf' : pmm_wf (mkPmm (set_bit (bitmap s) k) (total_pages s) (u32 (used_pages s + 1)))) by (apply wf_set; done || lia).
    split; [done |]. destruct (Z.eqb_spec (k * PAGE_SIZE) 0); [lia |].
    rewrite (pmm_free_count _ Hwf), (pmm_free_count _ Hwf'). rewrite <- (wf_used _ Hwf'), <- (wf_used s Hwf). cbn [used_pages total_pages].
    rewrite u32_id; [lia |]. rewrite (wf_used s Hwf). lia.
  - split; [done |]. split; [| done]. rewrite pmm_free_count, count_used_full by (done || (intros; apply Hall; lia)). lia.
Qed.

Lemma pmm_short_of n s : pmm_wf s → short_of n s ↔ pmm_free_pages s < Z.of_nat n.
Proof.
  assert (Hj : ∀ j s, pmm_wf s → fst (pa_alloc (after j s)) = 0 ↔ pmm_free_pages s ≤ Z.of_nat j).
  { clear n s. induction j as [|j IH]; intros s Hwf; destruct (pmm_alloc_left s Hwf) as [Hwf' Hl].
    - change (after 0 s) with s. change (@pa_alloc pmm _) with pmm_alloc_page. pose proof (pmm_free_count s Hwf).
      pose proof (count_used_bound (bitmap s) (Z.to_nat (total_pages s))). pose proof (wf_total s Hwf).
      revert Hl. destruct (Z.eqb_spec (fst (pmm_alloc_page s)) 0) as [E | E]; intros Hl; [split; lia |]. split; [done |].
      pose proof (pmm_free_count _ Hwf'). pose proof (wf_total _ Hwf').
      pose proof (count_used_bound (bitmap (snd (pmm_alloc_page s))) (Z.to_nat (total_pages (snd (pmm_alloc_page s))))). lia.
    - replace (S j) with (j + 1)%nat by lia. rewrite <- after_add. change (after 1 s) with (snd (pmm_alloc_page s)).
      rewrite (IH _ Hwf'). revert Hl. destruct (Z.eqb_spec (fst (pmm_alloc_page s)) 0); [intros [Hl ->]; lia | lia]. }
  intros Hwf. split.
  - intros (j & Hlt & E). apply Hj in E; [lia | done].
  - intros Hn. exists (Z.to_nat (pmm_free_pages s)). pose proof (pmm_free_count s Hwf).
    pose proof (count_used_bound (bitmap s) (Z.to_nat (total_pages s))). pose proof (wf_total s Hwf).
    split; [lia | apply Hj; [done | lia]].
Qed.

(** ** Properties *)

(** [pmm_init] on a machine of at most 1024 MiB: the invariant holds, the
    machine has 256 frames per MiB, and exactly the frames below the reserved
    4 MiB (or all of them on a smaller machine) are marked in use. *)
Theorem pmm_init_spec mb :
  0 ≤ mb ≤ 1024 →
  let s := pmm_init mb in
  pmm_wf s ∧ pmm_total_pages s = mb * 256 ∧
  (∀ i, 0 ≤ i → test_bit (bitmap s) i = (i <? Z.min 1024 (mb * 256))).
Proof.
  intros Hmb s. destruct (pmm_init_bits mb Hmb) as (_ & _ & Ht & Hu & Hbits).
  split; [by apply pmm_init_wf | split; [done |]].
  intros i Hi. unfold s. rewrite Hbits, Hu. destruct (Z.leb_spec 0 i); [done | lia].
Qed.

Lemma pmm_init_spec_witness :
  pmm_total_pages (pmm_init 8) = 2048 ∧ test_bit (bitmap (pmm_init 8)) 1023 = true ∧
  test_bit (bitmap (pmm_init 8)) 1024 = false.
Proof.
  destruct (pmm_init_spec 8 ltac:(lia)) as (_ & Ht & Hb).
  split; [exact Ht | split; [exact (Hb 1023 ltac:(lia)) | exact (Hb 1024 ltac:(lia))]].
Defined.

(** C4: [pmm_alloc_page] returns the lowest free frame, marks it and only it,
    and counts it; it returns null, leaving the state alone, exactly when every
    frame of the machine is in use. The invariant is kept. *)
Theorem pmm_alloc_page_spec s p s' :
  pmm_wf s → pmm_alloc_page s = (p, s') →
  pmm_wf s' ∧
  ((p = 0 ∧ s' = s ∧ pmm_free_pages s = 0) ∨
   (page_addr p ∧ p / PAGE_SIZE < total_pages s ∧
    test_bit (bitmap s) (p / PAGE_SIZE) = false ∧
    (∀ j, 0 ≤ j < p / PAGE_SIZE → test_bit (bitmap s) j = true) ∧
    (∀ j, test_bit (bitmap s') j = (p / PAGE_SIZE =? j) || test_bit (bitmap s) j) ∧
    pmm_used_pages s' = pmm_used_pages s + 1 ∧ pmm_total_pages s' = pmm_total_pages s)).
Proof.
  intros Hwf Ha. pose proof (wf_total s Hwf) as Ht. pose proof (wf_used s Hwf) as Hu.
  pose proof (count_used_bound (bitmap s) (Z.to_nat (total_pages s))) as Hc.
  destruct (pmm_alloc_cases s Hwf) as [(k & Hk & Hf & Hlow & E) | [Hall E]];
    rewrite E in Ha; inversion Ha; subst.
  - split; [apply wf_set; done || lia |]. right. rewrite Z.div_mul by lia. unfold page_addr. simpl.
    split_and!; [lia | lia | mlia | lia | done | done | | | done].
    + intros j. apply test_set_bit, wf_frame; [done | lia].
    + unfold pmm_used_pages. simpl. apply u32_id. lia.
  - split; [done |]. left. split_and!; [done | done |]. unfold pmm_free_pages.
    rewrite Hu, count_used_full by (intros; apply Hall; lia). rewrite u32_id; lia.
Qed.

Lemma pmm_alloc_page_spec_witness :
  ∃ p s', pmm_alloc_page (pmm_init 8) = (p, s') ∧ page_addr p ∧ pmm_used_pages s' = 1025.
Proof.
  destruct (pmm_alloc_page (pmm_init 8)) as [p s'] eqn:E. exists p, s'. split; [done |].
  destruct (pmm_alloc_page_spec (pmm_init 8) p s') as [_ [(_ & _ & Hfull) | H]].
  - apply pmm_init_wf; lia.
  - exact E.
  - vm_compute in Hfull. discriminate.
  - destruct H as (Hp & _ & _ & _ & _ & Hu & _). split; [exact Hp | rewrite Hu; reflexivity].
Defined.

(** Freeing the page just allocated restores the allocator exactly. *)
Theorem pmm_alloc_free_roundtrip s p s' :
  pmm_wf s → pmm_alloc_page s = (p, s') → p ≠ 0 → pmm_free_page p s' = s.
Proof.
  intros Hwf Ha Hp. pose proof (wf_total s Hwf) as Ht. pose proof (wf_used s Hwf) as Hu.
  pose proof (count_used_bound (bitmap s) (Z.to_nat (total_pages s))) as Hc.
  destruct (pmm_alloc_cases s Hwf) as [(k & Hk & Hf & _ & E) | [_ E]];
    rewrite E in Ha; inversion Ha; subst; [| done].
  pose proof (wf_frame s k Hwf ltac:(lia)) as Hfr.
  unfold pmm_free_page. simpl. rewrite u32_id, Z.div_mul by lia.
  rewrite test_set_bit, Z.eqb_refl by done. simpl.
  destruct (Z.leb_spec (total_pages s) k); [lia |].
  rewrite clear_set_bit by (done || apply (wf_bytes s Hwf)).
  unfold u32. rewrite Zminus_mod_idemp_l. replace (used_pages s + 1 - 1) with (used_pages s) by lia.
  rewrite Z.mod_small by lia. by destruct s.
Qed.

Lemma pmm_alloc_free_roundtrip_witness :
  pmm_free_page (fst (pmm_alloc_page (pmm_init 8))) (snd (pmm_alloc_page (pmm_init 8))) =
  pmm_init 8.
Proof.
  apply pmm_alloc_free_roundtrip.
  - apply pmm_init_wf; lia.
  - destruct (pmm_alloc_page (pmm_init 8)); reflexivity.
  - vm_compute. discriminate.
Defined.

(** One call of the allocator's interface by the rest of the kernel, which
    never gives the null page back. *)
Inductive pmm_step : pmm → pmm → Prop :=
| step_alloc s : pmm_step s (snd (pmm_alloc_page s))
| step_free s p : PAGE_SIZE ≤ u32 p → pmm_step s (pmm_free_page p s).

Lemma pmm_step_wf s s' : pmm_wf s → pmm_step s s' → pmm_wf s'.
Proof.
  intros Hwf Hst. destruct Hst as [s | s p Hp].
  - destruct (pmm_alloc_cases s Hwf) as [(k & Hk & Hf & _ & ->) | [_ ->]]; [| done].
    apply wf_set; [done | lia | done].
  - unfold pmm_free_page. zcase; [done |]. zcase; [| done].
    apply wf_clear; [done | mlia | done].
Qed.

Lemma pmm_reach_total mb s :
  0 ≤ mb ≤ 1024 → reach pmm_step (pmm_init mb) s → pmm_wf s ∧ total_pages s = mb * 256.
Proof.
  intros Hmb. apply (reach_invariant pmm_step (λ s, pmm_wf s ∧ total_pages s = mb * 256) (pmm_init mb));
    [| split; [by apply pmm_init_wf | by apply (pmm_init_bits mb Hmb)]].
  intros x y [Hx Ht] Hst. split; [by apply (pmm_step_wf x) |]. destruct Hst as [x | x p Hp].
  - destruct (pmm_alloc_cases x Hx) as [(k & _ & _ & _ & ->) | [_ ->]]; done.
  - unfold pmm_free_page. repeat zcase; done.
Qed.

(** C36: in every state reached from [pmm_init] by any sequence of allocations
    and frees the invariant holds, used and free frames add up to the total, and
    the total is that of the machine. *)
Theorem pmm_reachable_accounting mb s :
  0 ≤ mb ≤ 1024 → reach pmm_step (pmm_init mb) s →
  pmm_wf s ∧ pmm_total_pages s = mb * 256 ∧
  pmm_used_pages s + pmm_free_pages s = pmm_total_pages s.
Proof.
  intros Hmb Hr. destruct (pmm_reach_total mb s Hmb Hr) as [Hwf Ht].
  split; [done | split; [done |]].
  pose proof (count_used_bound (bitmap s) (Z.to_nat (total_pages s))).
  pose proof (wf_used s Hwf). pose proof (wf_total s Hwf).
  unfold pmm_used_pages, pmm_free_pages, pmm_total_pages. rewrite u32_id; lia.
Qed.

Lemma pmm_reachable_accounting_witness :
  let s := pmm_free_page 4194304 (snd (pmm_alloc_page (pmm_init 8))) in
  pmm_used_pages s + pmm_free_pages s = pmm_total_pages s.
Proof.
  apply (pmm_reachable_accounting 8); [lia |].
  eapply reach_step; [eapply reach_step; [apply reach_refl | apply step_alloc] |].
  apply step_free. vm_compute. discriminate.
Defined.

(** The bitmap has a bit for every frame of the machine exactly when the
    machine has at most 1024 MiB: [pmm_init] does not bound the number of
    frames by the size of the array, so on a larger machine the scan of
    [pmm_alloc_page] and the index of [pmm_free_page] can leave it. *)
Theorem pmm_bitmap_covers_memory mb :
  0 ≤ mb < 4096 →
  (pmm_total_pages (pmm_init mb) ≤ 8 * zlen (bitmap (pmm_init mb)) ↔ mb ≤ 1024).
Proof.
  intros Hmb.
  assert (Hl : length (bitmap (pmm_init mb)) = Z.to_nat BITMAP_BYTES).
  { unfold pmm_init. cbn [bitmap].
    apply (loop_n_ind (λ _ b, length b = Z.to_nat BITMAP_BYTES)); [apply length_replicate |].
    intros k b _ Hb. by rewrite length_set_bit. }
  rewrite Hl. unfold pmm_total_pages, pmm_init. cbn [total_pages]. rewrite u32_id by lia. mlia.
Qed.

Lemma pmm_bitmap_covers_memory_witness :
  ¬ (pmm_total_pages (pmm_init 2048) ≤ 8 * zlen (bitmap (pmm_init 2048))).
Proof. intros H. apply (proj1 (pmm_bitmap_covers_memory 2048 ltac:(lia))) in H. lia. Defined.

End Pmm.
