(* ===== verification/Libk.v ===== *)
(** * The freestanding C library: [libk/memory.cpp], [libk/string.cpp],
    [libk/itoa.cpp]

    The routines work on physical memory. A loop that stops at a terminating
    zero takes a bound on its number of iterations and returns [None] when the
    bound is reached; for a terminated string the string's length is enough. *)

From S2P Require Import Prelude.

Module Libk.

(** ** [memory.cpp] *)

Definition memcpy (m : memory) (dest src size : Z) : memory :=
  loop_n (Z.to_nat size) 0 (λ i m, wr8 m (dest + i) (rd8 m (src + i))) m.

Definition memset (m : memory) (dest value size : Z) : memory :=
  loop_n (Z.to_nat size) 0 (λ i m, wr8 m (dest + i) value) m.

(** ** [string.cpp] *)

Fixpoint strcmp (fuel : nat) (m : memory) (a b : Z) : option Z :=
  match fuel with
  | O => None
  | S f =>
      if negb (rd8 m a =? 0) && (rd8 m a =? rd8 m b)
      then strcmp f m (a + 1) (b + 1)
      else Some (rd8 m a - rd8 m b)
  end.

(** The loop of [strncmp] with [n - i] iterations left. *)
Fixpoint strncmp_from (left : nat) (i : Z) (m : memory) (a b : Z) : Z :=
  match left with
  | O => 0
  | S n =>
      if negb (rd8 m (a + i) =? rd8 m (b + i)) || (rd8 m (a + i) =? 0) || (rd8 m (b + i) =? 0)
      then rd8 m (a + i) - rd8 m (b + i)
      else strncmp_from n (i + 1) m a b
  end.
Definition strncmp (m : memory) (a b n : Z) : Z := strncmp_from (Z.to_nat n) 0 m a b.

Fixpoint strcpy (fuel : nat) (m : memory) (dst src : Z) : option memory :=
  match fuel with
  | O => None
  | S f =>
      if negb (rd8 m src =? 0)
      then strcpy f (wr8 m dst (rd8 m src)) (dst + 1) (src + 1)
      else Some (wr8 m dst 0)
  end.

Fixpoint strlen_from (fuel : nat) (m : memory) (s len : Z) : option Z :=
  match fuel with
  | O => None
  | S f => if negb (rd8 m (s + len) =? 0) then strlen_from f m s (len + 1) else Some len
  end.
Definition strlen (fuel : nat) (m : memory) (s : Z) : option Z := strlen_from fuel m s 0.

(** ** [itoa.cpp] *)

(** The digits pushed on [temp], the least significant first. *)
Fixpoint itoa_digits (fuel : nat) (value : Z) : option (list Z) :=
  match fuel with
  | O => None
  | S f =>
      if 0 <? value
      then (λ ds, 48 + value mod 10 :: ds) <$> itoa_digits f (value / 10)
      else Some []
  end.

Fixpoint store_bytes (m : memory) (a : Z) (l : list Z) : memory :=
  match l with
  | [] => m
  | b :: l' => store_bytes (wr8 m a b) (a + 1) l'
  end.

(** [temp] has 16 slots, which bounds the first loop. *)
Definition itoa (m : memory) (value buffer : Z) : option memory :=
  if value =? 0 then Some (wr8 (wr8 m buffer 48) (buffer + 1) 0)
  else (λ ds, wr8 (store_bytes m buffer (rev ds)) (buffer + zlen ds) 0)
         <$> itoa_digits 16 value.

(** ** Lemmas on blocks of memory *)

Lemma rd8_memset m d v n a :
  rd8 (memset m d v n) a = if (d <=? a) && (a <? d + n) then u8 v else rd8 m a.
Proof.
  unfold memset. destruct (Z_lt_le_dec n 0).
  { replace (Z.to_nat n) with O by lia. simpl.
    destruct (Z.leb_spec d a), (Z.ltb_spec a (d + n)); done || lia. }
  set (P := λ k m', rd8 m' a = if (d <=? a) && (a <? d + k) then u8 v else rd8 m a).
  assert (H : P (0 + Z.of_nat (Z.to_nat n))
                (loop_n (Z.to_nat n) 0 (λ i m, wr8 m (d + i) v) m)).
  { apply loop_n_ind; unfold P.
    - destruct (Z.leb_spec d a), (Z.ltb_spec a (d + 0)); done || lia.
    - intros k m' Hk IH. rewrite rd8_wr8, IH.
      destruct (Z.eqb_spec (d + k) a), (Z.leb_spec d a), (Z.ltb_spec a (d + k)),
        (Z.ltb_spec a (d + (k + 1))); done || lia. }
  unfold P in H. by rewrite Z2Nat.id in H by lia.
Qed.

Lemma rd8_memset_in m d v n a : d ≤ a < d + n → rd8 (memset m d v n) a = u8 v.
Proof. intros H. rewrite rd8_memset. destruct (Z.leb_spec d a), (Z.ltb_spec a (d + n)); done || lia. Qed.

Lemma rd8_memset_out m d v n a : a < d ∨ d + n ≤ a → rd8 (memset m d v n) a = rd8 m a.
Proof. intros H. rewrite rd8_memset. destruct (Z.leb_spec d a), (Z.ltb_spec a (d + n)); done || lia. Qed.

Lemma rd32_memset_out m d v n a :
  a + 4 ≤ d ∨ d + n ≤ a → rd32 (memset m d v n) a = rd32 m a.
Proof. intros H. apply rd32_ext. intros x Hx. apply rd8_memset_out. lia. Qed.

Lemma rd32_memset_zero m d n a : d ≤ a → a + 4 ≤ d + n → rd32 (memset m d 0 n) a = 0.
Proof. intros H1 H2. unfold rd32, rd16. by rewrite !rd8_memset_in by lia. Qed.

Lemma rd8_memcpy m d s n a :
  d + n ≤ s ∨ s + n ≤ d →
  rd8 (memcpy m d s n) a =
    if (d <=? a) && (a <? d + n) then rd8 m (s + (a - d)) else rd8 m a.
Proof.
  intros Hdis. unfold memcpy. destruct (Z_lt_le_dec n 0).
  { replace (Z.to_nat n) with O by lia. simpl.
    destruct (Z.leb_spec d a), (Z.ltb_spec a (d + n)); done || lia. }
  set (P := λ k m', ∀ x, rd8 m' x =
    if (d <=? x) && (x <? d + k) then rd8 m (s + (x - d)) else rd8 m x).
  assert (H : P (0 + Z.of_nat (Z.to_nat n))
                (loop_n (Z.to_nat n) 0 (λ i m, wr8 m (d + i) (rd8 m (s + i))) m)).
  { apply loop_n_ind; unfold P.
    - intros x. destruct (Z.leb_spec d x), (Z.ltb_spec x (d + 0)); done || lia.
    - intros k m' Hk IH x. rewrite rd8_wr8, !IH.
      assert (Hs : (d <=? s + k) && (s + k <? d + k) = false)
        by (destruct (Z.leb_spec d (s + k)), (Z.ltb_spec (s + k) (d + k)); done || lia).
      rewrite Hs. destruct (Z.eqb_spec (d + k) x) as [<- | Hne].
      + rewrite u8_id by apply rd8_range.
        destruct (Z.leb_spec d (d + k)), (Z.ltb_spec (d + k) (d + (k + 1))); try lia.
        simpl. f_equal. lia.
      + destruct (Z.leb_spec d x), (Z.ltb_spec x (d + k)), (Z.ltb_spec x (d + (k + 1)));
          done || lia. }
  unfold P in H. rewrite Z2Nat.id in H by lia. apply H.
Qed.

Lemma rd8_store_bytes_out m a l x :
  x < a ∨ a + zlen l ≤ x → rd8 (store_bytes m a l) x = rd8 m x.
Proof.
  revert m a. induction l as [|b l IH]; intros m a H; simpl in *; [done |].
  rewrite IH by lia. apply rd8_wr8_ne. lia.
Qed.

(** ** C strings as values *)

(** [cstr m a l]: the bytes of [l], none of them zero, then a zero, at [a]. *)
Fixpoint cstr (m : memory) (a : Z) (l : list Z) : Prop :=
  match l with
  | [] => rd8 m a = 0
  | b :: l' => rd8 m a = b ∧ b ≠ 0 ∧ cstr m (a + 1) l'
  end.

Lemma cstr_ext m m' a l :
  (∀ x, a ≤ x ≤ a + zlen l → rd8 m x = rd8 m' x) → cstr m a l → cstr m' a l.
Proof.
  revert a. induction l as [|b l IH]; intros a Heq Hc; simpl in *.
  - rewrite <- Heq by lia. done.
  - destruct Hc as (H1 & H2 & H3). rewrite <- Heq by lia. split_and!; [done | done |].
    apply IH; [intros; apply Heq; lia | done].
Qed.

Lemma cstr_bytes m a l : cstr m a l → Forall (λ b, 0 < b < W8) l.
Proof.
  revert a. induction l as [|b l IH]; intros a Hc; simpl in *; [done |].
  destruct Hc as (H1 & H2 & H3). pose proof (rd8_range m a).
  constructor; [lia | by apply (IH (a + 1))].
Qed.

Lemma cstr_store m a l :
  Forall (λ b, 0 < b < W8) l → cstr (wr8 (store_bytes m a l) (a + zlen l) 0) a l.
Proof.
  revert m a. induction l as [|b l IH]; intros m a Hl; simpl.
  - rewrite rd8_wr8. zcase; [done | lia].
  - inversion Hl; subst. split_and!.
    + rewrite rd8_wr8_ne by lia. rewrite rd8_store_bytes_out by lia.
      rewrite rd8_wr8, Z.eqb_refl. apply u8_id. lia.
    + lia.
    + replace (a + Z.of_nat (Datatypes.S (length l))) with (a + 1 + zlen l) by lia. by apply IH.
Qed.

(** The comparison of two strings as values: the difference of the first
    characters in which they differ, the end of a string counting as 0. *)
Fixpoint strcmp_val (l1 l2 : list Z) : Z :=
  match l1, l2 with
  | [], [] => 0
  | [], b :: _ => - b
  | a :: _, [] => a
  | a :: l1', b :: l2' => if a =? b then strcmp_val l1' l2' else a - b
  end.

Lemma strcmp_val_eq l1 l2 :
  Forall (λ b, 0 < b < W8) l1 → Forall (λ b, 0 < b < W8) l2 →
  strcmp_val l1 l2 = 0 ↔ l1 = l2.
Proof.
  revert l2. induction l1 as [|a l1 IH]; intros [|b l2] H1 H2; simpl.
  - done.
  - inversion H2; subst. split; [lia | done].
  - inversion H1; subst. split; [lia | done].
  - inversion H1; inversion H2; subst. destruct (Z.eqb_spec a b) as [-> | Hne].
    + rewrite IH by done. split; congruence.
    + split; [lia | congruence].
Qed.

Lemma strcmp_run fuel m a b l1 l2 :
  cstr m a l1 → cstr m b l2 → (length l1 < fuel)%nat →
  strcmp fuel m a b = Some (strcmp_val l1 l2).
Proof.
  revert fuel a b l2. induction l1 as [|c l1 IH]; intros fuel a b l2 H1 H2 Hf;
    (destruct fuel as [|fuel]; [simpl in Hf; lia |]); simpl in *.
  - rewrite H1. simpl. destruct l2 as [|d l2]; simpl in H2.
    + by rewrite H2.
    + destruct H2 as (-> & _ & _). by f_equal.
  - destruct H1 as (H1 & Hc & H1'). rewrite H1.
    destruct (Z.eqb_spec c 0); [done |]. simpl. destruct l2 as [|d l2]; simpl in H2.
    + rewrite H2. destruct (Z.eqb_spec c 0); [done |]. f_equal. lia.
    + destruct H2 as (H2 & Hd & H2'). rewrite H2. destruct (Z.eqb_spec c d); [| done].
      apply IH; [done | done | lia].
Qed.

Lemma strlen_run fuel m s len l :
  cstr m (s + len) l → (length l < fuel)%nat →
  strlen_from fuel m s len = Some (len + zlen l).
Proof.
  revert fuel len. induction l as [|c l IH]; intros fuel len Hc Hf;
    (destruct fuel as [|fuel]; [simpl in Hf; lia |]); simpl in *.
  - rewrite Hc. simpl. f_equal. lia.
  - destruct Hc as (H1 & Hc & H2). rewrite H1. destruct (Z.eqb_spec c 0); [done |]. simpl.
    rewrite IH; [f_equal; lia | by replace (s + (len + 1)) with (s + len + 1) by lia | lia].
Qed.

Lemma strcpy_run fuel m dst src l :
  cstr m src l → (length l < fuel)%nat →
  dst + zlen l < src ∨ src + zlen l < dst →
  ∃ m', strcpy fuel m dst src = Some m' ∧ cstr m' dst l ∧
    (∀ x, x < dst ∨ dst + zlen l < x → rd8 m' x = rd8 m x).
Proof.
  revert fuel m dst src. induction l as [|c l IH]; intros fuel m dst src Hc Hf Hd;
    (destruct fuel as [|fuel]; [simpl in Hf; lia |]); simpl in *.
  - rewrite Hc. simpl. eexists. split; [done |]. split.
    + by rewrite rd8_wr8, Z.eqb_refl.
    + intros x Hx. apply rd8_wr8_ne. lia.
  - destruct Hc as (H1 & Hne & H2). rewrite H1. destruct (Z.eqb_spec c 0); [done |]. simpl.
    pose proof (rd8_range m src) as Hr.
    destruct (IH fuel (wr8 m dst c) (dst + 1) (src + 1)) as (m' & E & Hc' & Hout);
      [| lia | lia |].
    { apply (cstr_ext m); [| done]. intros x Hx. symmetry. apply rd8_wr8_ne. lia. }
    exists m'. split; [done |]. split_and!; [| done | done |].
    + rewrite Hout, rd8_wr8, Z.eqb_refl by lia. apply u8_id. lia.
    + intros x Hx. rewrite Hout by lia. apply rd8_wr8_ne. lia.
Qed.

(** The number a string of decimal digits denotes. *)
Definition dec_value (ds : list Z) : Z := foldl (λ v d, v * 10 + (d - 48)) 0 ds.

Lemma dec_value_snoc ds d : dec_value (ds ++ [d]) = dec_value ds * 10 + (d - 48).
Proof. unfold dec_value. by rewrite foldl_app. Qed.

(** [n] digits are enough for a value below [10 ^ n]. *)
Lemma itoa_digits_run n v :
  0 ≤ v < 10 ^ Z.of_nat n →
  ∃ ds, itoa_digits (Datatypes.S n) v = Some ds ∧ (length ds ≤ n)%nat ∧
    Forall (λ d, 48 ≤ d ≤ 57) ds ∧ dec_value (rev ds) = v ∧
    (0 < v → ∃ d, last ds = Some d ∧ d ≠ 48).
Proof.
  revert v. induction n as [|n IH]; intros v Hv.
  - assert (v = 0) as -> by lia. exists []. split_and!; done || lia.
  - destruct (Z.eq_dec v 0) as [-> | Hnz].
    { exists []. split_and!; simpl; done || lia. }
    rewrite Nat2Z.inj_succ, Z.pow_succ_r in Hv by lia.
    destruct (IH (v / 10)) as (ds & E & Hl & Hd & Hval & Hlast); [mlia |].
    exists (48 + v mod 10 :: ds). cbn [itoa_digits] in E |- *. cbv beta in E.
    destruct (Z.ltb_spec 0 v); [| lia]. rewrite E.
    assert (0 ≤ v mod 10 < 10) by mlia. split_and!.
    + done.
    + simpl. lia.
    + constructor; [lia | done].
    + cbn [rev]. rewrite dec_value_snoc, Hval. mlia.
    + intros _. destruct (Z.eq_dec (v / 10) 0) as [E0 | E0].
      * rewrite E0 in E. simpl in E. inversion E; subst.
        exists (48 + v mod 10). split; [done | mlia].
      * destruct Hlast as (d & Hd1 & Hd2); [mlia |].
        exists d. split; [| done]. rewrite last_cons, Hd1. done.
Qed.

Lemma itoa_run m v buf :
  0 ≤ v < W32 →
  ∃ m' ds, itoa m v buf = Some m' ∧ cstr m' buf ds ∧ (1 ≤ length ds ≤ 10)%nat ∧
    Forall (λ d, 48 ≤ d ≤ 57) ds ∧ dec_value ds = v ∧ ((1 < length ds)%nat → ds !! 0%nat ≠ Some 48) ∧
    (∀ x, x < buf ∨ buf + 11 ≤ x → rd8 m' x = rd8 m x).
Proof.
  intros Hv. unfold itoa. destruct (Z.eqb_spec v 0) as [-> | Hnz].
  { eexists _, [48]. split; [done |]. split_and!; [| simpl; lia | simpl; lia | | done | simpl; lia |].
    - simpl. rewrite rd8_wr8_ne, rd8_wr8, Z.eqb_refl by lia. split_and!; [done | lia |].
      by rewrite rd8_wr8, Z.eqb_refl.
    - by repeat constructor.
    - intros x Hx. by rewrite !rd8_wr8_ne by lia. }
  destruct (itoa_digits_run 15 v) as (ds & E & _ & Hd & Hval & Hlast); [simpl; lia |].
  destruct (itoa_digits_run 10 v) as (ds' & E' & Hl & _); [simpl; lia |].
  assert (ds' = ds) as ->.
  { enough (H : ∀ n n' v d d', itoa_digits n v = Some d → itoa_digits n' v = Some d' → d = d')
      by exact (H _ _ _ _ _ E' E).
    clear. induction n as [|n IH]; intros [|n'] v d d' H1 H2; try done. simpl in *.
    destruct (0 <? v); [| congruence].
    destruct (itoa_digits n (v / 10)) eqn:E1, (itoa_digits n' (v / 10)) eqn:E2; try done.
    simpl in *. assert (l = l0) as -> by by eapply IH. congruence. }
  rewrite E. destruct Hlast as (d0 & Hl0 & Hd0); [lia |].
  assert (Hne : ds ≠ []) by (intros ->; done).
  assert (length ds ≠ O) by (by destruct ds).
  assert (Hfb : Forall (λ b, 0 < b < W8) (rev ds)).
  { apply Forall_rev. eapply Forall_impl; [exact Hd | simpl; lia]. }
  eexists _, (rev ds). split; [done |]. rewrite !length_rev. split_and!; [| lia | lia | | done | |].
  - rewrite <- (length_rev ds) at 1. by apply cstr_store.
  - by apply Forall_rev.
  - intros _. apply last_Some in Hl0 as [l' ->]. rewrite rev_app_distr. simpl. congruence.
  - intros x Hx. rewrite rd8_wr8_ne by lia. apply rd8_store_bytes_out. rewrite length_rev. lia.
Qed.

(** ** Properties *)

(** On two terminated strings [strcmp] stops within the length of the first
    one, returns the difference of the first differing characters, and returns
    0 exactly when the strings are equal. *)
Theorem strcmp_decides_equality fuel m a b l1 l2 :
  cstr m a l1 → cstr m b l2 → (length l1 < fuel)%nat →
  strcmp fuel m a b = Some (strcmp_val l1 l2) ∧
  (strcmp fuel m a b = Some 0 ↔ l1 = l2).
Proof.
  intros H1 H2 Hf. rewrite (strcmp_run fuel m a b l1 l2) by done. split; [done |].
  rewrite <- (strcmp_val_eq l1 l2) by (by eapply cstr_bytes). split; congruence.
Qed.

Definition two_strings : memory := store_bytes (store_bytes ∅ 16 [108; 115]) 64 [108; 111].

Lemma strcmp_decides_equality_witness :
  strcmp 3 two_strings 16 64 = Some 4 ∧ ¬ strcmp 3 two_strings 16 64 = Some 0.
Proof.
  destruct (strcmp_decides_equality 3 two_strings 16 64 [108; 115] [108; 111]) as [H1 H2].
  - vm_compute. split_and!; done.
  - vm_compute. split_and!; done.
  - simpl. lia.
  - split; [exact H1 |]. intros H. apply H2 in H. discriminate.
Defined.

(** A copy made by [strcpy] into a disjoint buffer is the same string, the
    source and every byte outside the buffer are kept, and [strlen] of the copy
    is the length of the source. *)
Theorem strcpy_copies fuel m dst src l :
  cstr m src l → (length l < fuel)%nat → dst + zlen l < src ∨ src + zlen l < dst →
  ∃ m', strcpy fuel m dst src = Some m' ∧ cstr m' dst l ∧ cstr m' src l ∧
    (∀ x, x < dst ∨ dst + zlen l < x → rd8 m' x = rd8 m x) ∧
    strlen fuel m' dst = Some (zlen l).
Proof.
  intros Hc Hf Hd. destruct (strcpy_run fuel m dst src l Hc Hf Hd) as (m' & E & Hc' & Hout).
  exists m'. split_and!; [done | done | | done |].
  - apply (cstr_ext m); [| done]. intros x Hx. symmetry. apply Hout. lia.
  - unfold strlen. rewrite (strlen_run fuel m' dst 0 l); [done | by rewrite Z.add_0_r | done].
Qed.

Lemma strcpy_copies_witness :
  ∃ m', strcpy 3 two_strings 128 16 = Some m' ∧ strlen 3 m' 128 = Some 2.
Proof.
  destruct (strcpy_copies 3 two_strings 128 16 [108; 115]) as (m' & E & _ & _ & _ & L).
  - vm_compute. split_and!; done.
  - simpl. lia.
  - right. simpl. lia.
  - exists m'. split; [exact E | exact L].
Defined.

(** C40: [itoa] of a 32-bit value always fills the buffer with a terminated
    string of 1 to 10 decimal digits without a leading zero that denotes the
    value, and touches no byte past the 11th: the callers' buffers of 16 and 32
    bytes and the 16 slots of [temp] are large enough. *)
Theorem itoa_decimal m v buf :
  0 ≤ v < W32 →
  ∃ m' ds, itoa m v buf = Some m' ∧ cstr m' buf ds ∧ (1 ≤ length ds ≤ 10)%nat ∧
    Forall (λ d, 48 ≤ d ≤ 57) ds ∧ dec_value ds = v ∧ ((1 < length ds)%nat → ds !! 0%nat ≠ Some 48) ∧
    (∀ x, x < buf ∨ buf + 11 ≤ x → rd8 m' x = rd8 m x).
Proof. apply itoa_run. Qed.

Lemma itoa_decimal_witness :
  ∃ m' ds, itoa ∅ 4294967295 4096 = Some m' ∧ cstr m' 4096 ds ∧ dec_value ds = 4294967295.
Proof.
  destruct (itoa_decimal ∅ 4294967295 4096 ltac:(lia)) as (m' & ds & E & Hc & _ & _ & Hv & _).
  exists m', ds. split; [exact E | split; [exact Hc | exact Hv]].
Defined.

End Libk.
