(* ===== verification/Machine.v ===== *)
(** * The machine the memory components share

    Physical memory (the kernel runs identity-mapped, so a kernel pointer is a
    physical address), the page allocator, and the globals of the heap
    ([memory/kmalloc.cpp]), of the address spaces ([memory/vmm.cpp]) and of the
    processor: [cr3], [cr0], the addresses given to [invlpg], and the kernel stack
    pointer of the TSS ([interrupts/tss.cpp]). *)

From S2P Require Import Prelude Interfaces.

Record machine (S : Type) := mkMachine {
  mem : memory;
  pages : S;
  free_list : Z;
  heap_end : Z;
  cr3 : Z;
  cr0 : Z;
  kernel_space : Z;
  invlpgs : list Z;
  esp0 : Z;
}.
Arguments mkMachine {S} _ _ _ _ _ _ _ _ _.
Arguments mem {S} _.
Arguments pages {S} _.
Arguments free_list {S} _.
Arguments heap_end {S} _.
Arguments cr3 {S} _.
Arguments cr0 {S} _.
Arguments kernel_space {S} _.
Arguments invlpgs {S} _.
Arguments esp0 {S} _.

Section updates.
Context {S : Type}.
Implicit Types st : machine S.

Definition with_mem (m : memory) st : machine S :=
  mkMachine m (pages st) (free_list st) (heap_end st) (cr3 st) (cr0 st) (kernel_space st)
    (invlpgs st) (esp0 st).
Definition with_pages (p : S) st : machine S :=
  mkMachine (mem st) p (free_list st) (heap_end st) (cr3 st) (cr0 st) (kernel_space st)
    (invlpgs st) (esp0 st).
Definition with_free_list (h : Z) st : machine S :=
  mkMachine (mem st) (pages st) h (heap_end st) (cr3 st) (cr0 st) (kernel_space st)
    (invlpgs st) (esp0 st).
Definition with_heap_end (h : Z) st : machine S :=
  mkMachine (mem st) (pages st) (free_list st) h (cr3 st) (cr0 st) (kernel_space st)
    (invlpgs st) (esp0 st).
Definition with_cr3 (c : Z) st : machine S :=
  mkMachine (mem st) (pages st) (free_list st) (heap_end st) c (cr0 st) (kernel_space st)
    (invlpgs st) (esp0 st).
Definition with_cr0 (c : Z) st : machine S :=
  mkMachine (mem st) (pages st) (free_list st) (heap_end st) (cr3 st) c (kernel_space st)
    (invlpgs st) (esp0 st).
Definition with_kernel_space (k : Z) st : machine S :=
  mkMachine (mem st) (pages st) (free_list st) (heap_end st) (cr3 st) (cr0 st) k
    (invlpgs st) (esp0 st).
Definition with_esp0 (e : Z) st : machine S :=
  mkMachine (mem st) (pages st) (free_list st) (heap_end st) (cr3 st) (cr0 st) (kernel_space st)
    (invlpgs st) e.
Definition invlpg (virt : Z) st : machine S :=
  mkMachine (mem st) (pages st) (free_list st) (heap_end st) (cr3 st) (cr0 st) (kernel_space st)
    (virt :: invlpgs st) (esp0 st).
End updates.
