(* ===== verification/Ring.v ===== *)
(** * Ring buffers

    The message queues of [ipc/ipc.cpp] and the character buffer of
    [drivers/keyboard_buffer.cpp] keep a queue in an array used as a ring.
    This file relates such an array to the list it stands for. *)

From S2P Require Import Prelude.

Section ring.
Context {A : Type} `{ZeroInit A}.
Implicit Types (l : list A) (h : Z) (n : nat) (v : A).

(** The [n] elements from index [h] on, wrapping at the end of the array. *)
Definition ring_list l h n : list A :=
  map (λ j, aget l ((h + Z.of_nat j) mod zlen l)) (seq 0 n).

Lemma ring_list_length l h n : length (ring_list l h n) = n.
Proof. unfold ring_list. by rewrite length_map, length_seq. Qed.

(** Within one turn different offsets are different slots. *)
Lemma ring_slot_inj (c h i j : Z) :
  0 ≤ i < c → 0 ≤ j < c → (h + i) mod c = (h + j) mod c → i = j.
Proof.
  intros Hi Hj E. pose proof (Z.div_mod (h + i) c ltac:(lia)). pose proof (Z.div_mod (h + j) c ltac:(lia)).
  rewrite E in *. assert (i - j = c * ((h + i) / c - (h + j) / c)) as Hd by lia.
  destruct (Z.eq_dec ((h + i) / c) ((h + j) / c)) as [Eq | Hne]; [rewrite Eq in Hd; lia |]. nia.
Qed.

Lemma ring_push l h n v :
  (n < length l)%nat →
  ring_list (aset l ((h + Z.of_nat n) mod zlen l) v) h (S n) = ring_list l h n ++ [v].
Proof.
  intros Hn. unfold ring_list. rewrite seq_S, map_app. simpl. rewrite aset_length. f_equal.
  - apply map_ext_in. intros j Hj%in_seq. apply aget_aset_ne.
    intros E%ring_slot_inj; lia.
  - f_equal. apply aget_aset_eq. apply Z.mod_pos_bound. lia.
Qed.

Lemma ring_pop l h n :
  0 ≤ h < zlen l →
  ring_list l h (S n) = aget l h :: ring_list l ((h + 1) mod zlen l) n.
Proof.
  intros Hh. unfold ring_list. simpl. rewrite Z.add_0_r, Z.mod_small by lia. f_equal.
  rewrite <- seq_shift, map_map. apply map_ext. intros j. f_equal.
  rewrite Zplus_mod_idemp_l. f_equal. lia.
Qed.

End ring.
