(* ===== verification/Multiboot.v ===== *)
(** * The information of the boot loader: [boot/multiboot.cpp], [boot/multiboot.hpp]

    The loader leaves a structure in memory; the kernel only reads the amount of
    memory from it, in KiB below and above the first MiB. *)

From S2P Require Import Prelude Interfaces Machine Pmm.

Module Multiboot.

(** [multiboot_info_t]: words, in the order of the structure. *)
Record multiboot_info_t := mkMbi {
  flags : Z;
  mem_lower : Z;
  mem_upper : Z;
  boot_device : Z;
  cmdline : Z;
  mods_count : Z;
  mods_addr : Z;
  syms : list Z;
  mmap_length : Z;
  mmap_addr : Z;
}.
Definition mbi_at (m : memory) (a : Z) : multiboot_info_t :=
  let w i := rd32 m (u32 (a + 4 * i)) in
  mkMbi (w 0) (w 1) (w 2) (w 3) (w 4) (w 5) (w 6) [w 7; w 8; w 9; w 10] (w 11) (w 12).

(** [g_mbi] and [total_memory_mb]; a null pointer is 0. *)
Definition multiboot_init (mbi : Z) (m : memory) : Z * Z :=
  if mbi =? 0 then (mbi, 0)
  else let i := mbi_at m mbi in (mbi, u32 (mem_lower i + mem_upper i) / 1024).
Definition multiboot_get_info (g_mbi : Z) (m : memory) : option multiboot_info_t :=
  if g_mbi =? 0 then None else Some (mbi_at m g_mbi).

(** The memory the loader reports, in KiB. *)
Definition reported_kb (m : memory) (mbi : Z) : Z := mem_lower (mbi_at m mbi) + mem_upper (mbi_at m mbi).

Lemma reported_nonneg m mbi : 0 ≤ reported_kb m mbi.
Proof.
  unfold reported_kb, mbi_at. cbn [mem_lower mem_upper].
  pose proof (rd32_range m (u32 (mbi + 4 * 1))). pose proof (rd32_range m (u32 (mbi + 4 * 2))). lia.
Qed.

(** Detection rounds down to MiB as long as the sum fits into 32 bits. *)
Lemma detected mbi m :
  mbi ≠ 0 → reported_kb m mbi < W32 → snd (multiboot_init mbi m) = reported_kb m mbi / 1024.
Proof.
  intros Hm Hk. unfold multiboot_init. destruct (Z.eqb_spec mbi 0); [done |]. cbn [snd].
  pose proof (reported_nonneg m mbi). unfold reported_kb in *. by rewrite u32_id by lia.
Qed.

(** The allocator with the frames that are in the hands of the kernel: it gives
    back only what it was given. *)
Inductive client_step : Pmm.pmm * gset Z → Pmm.pmm * gset Z → Prop :=
| client_alloc s s' p held :
    Pmm.pmm_alloc_page s = (p, s') → client_step (s, held) (s', if p =? 0 then held else {[p]} ∪ held)
| client_free s p held : p ∈ held → client_step (s, held) (Pmm.pmm_free_page p s, held ∖ {[p]}).

(** The frames of the kernel image stay in use, and those held lie above. *)
Record client_inv (total : Z) (c : Pmm.pmm * gset Z) : Prop := {
  ci_wf : Pmm.pmm_wf c.1;
  ci_total : Pmm.total_pages c.1 = total;
  ci_low : ∀ q, q mod 4096 = 0 → 0 ≤ q < 0x400000 → q / 4096 < total → Pmm.page_in_use c.1 q;
  ci_held : ∀ q, q ∈ c.2 → page_addr q ∧ 0x400000 ≤ q ∧ Pmm.page_in_use c.1 q;
}.

(** A frame that is handed out from such a state. *)
Lemma client_alloc_range total s held p s' :
  client_inv total (s, held) → Pmm.pmm_alloc_page s = (p, s') → p ≠ 0 →
  0x400000 ≤ p ∧ page_addr p ∧ p + 4096 ≤ total * 4096 ∧ p ∉ held ∧ Pmm.total_pages s' = total.
Proof.
  intros [Hwf Ht Hlow Hheld] Ha Hp. cbn [fst snd] in *.
  destruct (Pmm.pmm_contract_alloc s p s' Hwf Ha Hp) as (_ & Hpa & Hn & _).
  destruct (Pmm.pmm_alloc_cases s Hwf) as [(k & Hk & _ & _ & E) | [_ E]]; rewrite E in Ha; injection Ha as <- <-; [| done].
  rewrite Ht in Hk. split_and!.
  - destruct (Z.le_gt_cases 0x400000 (k * 4096)); [done |]. destruct Hn. apply Hlow; [by rewrite Z_mod_mult | lia | mlia].
  - done.
  - lia.
  - intros Hin. by apply Hn, Hheld.
  - done.
Qed.

Lemma client_step_inv total c c' : client_inv total c → client_step c c' → client_inv total c'.
Proof.
  intros I H. destruct H as [s s' p held E | s p held Hin].
  - destruct (Z.eqb_spec p 0) as [-> | Hp].
    { destruct (Pmm.pmm_alloc_cases s (ci_wf _ _ I)) as [(k & Hk & _ & _ & E') | [_ E']]; rewrite E' in E;
        [injection E as ? _; lia | by injection E as <-]. }
    destruct (client_alloc_range total s held p s' I E Hp) as (Hlo & Hpa & _ & _ & Ht). destruct I as [Hwf _ Hlow Hheld].
    destruct (Pmm.pmm_contract_alloc s p s' Hwf E Hp) as (Hwf' & _ & _ & Hu). cbn [fst snd] in *.
    constructor; cbn [fst snd]; [done | done | intros q Hq Hr Hl; apply Hu; right; auto |].
    intros q [-> %elem_of_singleton | Hq]%elem_of_union; [split_and!; [done.. |]; apply Hu; by left |].
    destruct (Hheld q Hq) as (? & ? & ?). split_and!; [done.. |]. apply Hu. by right.
  - destruct I as [Hwf Ht Hlow Hheld]. cbn [fst snd] in *. destruct (Hheld p Hin) as (Hpa & Hlo & Hu).
    destruct (Pmm.pmm_contract_free s p Hwf Hpa Hu) as [Hwf' Hu']. constructor; cbn [fst snd].
    + done.
    + unfold Pmm.pmm_free_page. repeat zcase; done.
    + intros q Hq Hr Hl. apply Hu'. split; [auto | lia].
    + intros q [Hq Hne]%elem_of_difference. destruct (Hheld q Hq) as (? & ? & ?). split_and!; [done.. |]. apply Hu'.
      split; [done | set_solver].
Qed.

(** C37: detection and allocation together never leave the machine: when the
    loader reports at most 1 GiB and the kernel gives back only frames that it
    was given, every frame that the allocator hands out, in any state that it
    reaches, lies above the 4 MiB of the kernel image and ends below the
    reported amount of memory, and it is not one that the kernel already
    holds. *)
Theorem frames_inside_memory mbi m s held p s' :
  mbi ≠ 0 → reported_kb m mbi < 1025 * 1024 →
  reach client_step (Pmm.pmm_init (snd (multiboot_init mbi m)), ∅) (s, held) →
  Pmm.pmm_alloc_page s = (p, s') → p ≠ 0 →
  0x400000 ≤ p ∧ p mod 4096 = 0 ∧ p + 4096 ≤ reported_kb m mbi * 1024 ∧ p ∉ held.
Proof.
  intros Hm Hkb Hr Ha Hp. pose proof (reported_nonneg m mbi) as H0. rewrite detected in Hr by (done || lia).
  assert (Hmb : 0 ≤ reported_kb m mbi / 1024 ≤ 1024) by mlia.
  assert (Hle : reported_kb m mbi / 1024 * 1024 ≤ reported_kb m mbi) by mlia.
  set (mb := reported_kb m mbi / 1024) in *.
  assert (I : client_inv (mb * 256) (s, held)).
  { eapply (reach_invariant client_step (client_inv (mb * 256))); [apply client_step_inv | | exact Hr].
    destruct (Pmm.pmm_init_bits mb Hmb) as (_ & _ & Ht & Hu & Hb). pose proof (Pmm.pmm_init_wf mb Hmb) as Hwf.
    revert Ht Hu Hb Hwf. generalize (Pmm.pmm_init mb) as s0. intros s0 Ht Hu Hb Hwf.
    constructor; cbn [fst snd]; [done | done | | set_solver].
    intros q Hq Hq0 Hql. split; [done |]. split; [rewrite Ht; mlia |]. rewrite Hb, Hu.
    destruct (Z.leb_spec 0 (q / 4096)), (Z.ltb_spec (q / 4096) (Z.min 1024 (mb * 256))); try done; exfalso; mlia. }
  destruct (client_alloc_range _ _ _ _ _ I Ha Hp) as (H1 & (_ & _ & H2) & H3 & H4 & _).
  split_and!; [done | done | mlia | done].
Qed.

(** The loader reports 640 KiB and 7 MiB. *)
Definition small_machine : memory := wr32 (wr32 ∅ 0x9004 640) 0x9008 7552.
Lemma first_frame : ∃ p s', Pmm.pmm_alloc_page (Pmm.pmm_init 8) = (p, s') ∧ p ≠ 0.
Proof.
  destruct (Pmm.pmm_alloc_page (Pmm.pmm_init 8)) as [p s'] eqn:E. exists p, s'. split; [done |].
  change p with (fst (p, s')). rewrite <- E. vm_compute. discriminate.
Qed.

Lemma frames_inside_memory_witness :
  ∃ p s', Pmm.pmm_alloc_page (Pmm.pmm_init 8) = (p, s') ∧ 0x400000 ≤ p ∧ p + 4096 ≤ 8192 * 1024.
Proof.
  destruct first_frame as (p & s' & E & Hp). exists p, s'. split; [exact E |].
  destruct (frames_inside_memory 0x9000 small_machine (Pmm.pmm_init 8) ∅ p s') as (H1 & _ & H2 & _);
    [discriminate | vm_compute; reflexivity | apply reach_refl | exact E | exact Hp |].
  split; [exact H1 | exact H2].
Defined.

(** More than 4 TiB of reported memory would wrap; and 4 GiB, which is detected
    correctly, is no memory at all for the allocator. *)
Lemma four_gib_no_pages : Pmm.pmm_total_pages (Pmm.pmm_init (snd (multiboot_init 0x9000 (wr32 ∅ 0x9008 4194304)))) = 0.
Proof. vm_compute. reflexivity. Qed.
End Multiboot.
