(* ===== verification/Kmalloc.v ===== *)
(** * The kernel heap: [memory/kmalloc.cpp]

    Blocks with a 16-byte header (size, magic, next, prev) and a 4-byte footer
    in physical memory; the free blocks form a doubly linked list. Walking the
    list takes a bound on its length. *)

From S2P Require Import Prelude Interfaces Machine Libk Pmm.

Module Kmalloc.
Import Libk.

Notation HEAP_MAGIC := 57005 (only parsing).
Notation MIN_BLOCK := 32 (only parsing).
Notation HEAP_GROW := 65536 (only parsing).
Notation HEADER_SIZE := 16 (only parsing).

(** The fields of [heap_header]. *)
Definition h_size (m : memory) (h : Z) : Z := rd32 m h.
Definition h_magic (m : memory) (h : Z) : Z := rd32 m (h + 4).
Definition h_next (m : memory) (h : Z) : Z := rd32 m (h + 8).
Definition h_prev (m : memory) (h : Z) : Z := rd32 m (h + 12).
Definition set_size (h v : Z) (m : memory) : memory := wr32 m h v.
Definition set_magic (h v : Z) (m : memory) : memory := wr32 m (h + 4) v.
Definition set_next (h v : Z) (m : memory) : memory := wr32 m (h + 8) v.
Definition set_prev (h v : Z) (m : memory) : memory := wr32 m (h + 12) v.

Definition is_valid (m : memory) (h : Z) : bool := h_magic m h =? HEAP_MAGIC.
Definition header_from_ptr (ptr : Z) : Z := u32 (ptr - HEADER_SIZE).
Definition ptr_from_header (h : Z) : Z := u32 (h + HEADER_SIZE).
Definition set_footer (h : Z) (m : memory) : memory :=
  wr32 m (u32 (h + h_size m h - 4)) (h_size m h).
Definition next_block (m : memory) (h : Z) : Z := u32 (h + h_size m h).
Definition prev_block (m : memory) (h : Z) : Z := u32 (h - rd32 m (u32 (h - 4))).

Section heap.
Context {Pg : Type} `{!PageAllocOps Pg}.
Implicit Types st : machine Pg.

Definition has_next st (h : Z) : bool := u32 (h + h_size (mem st) h) <? heap_end st.
Definition has_prev st (h : Z) : bool := u32 (heap_end st - HEAP_GROW) <? h.

(** [list_remove]: the link of the block before, the link of the block after,
    and the head of the list. *)
Definition unlink_prev (h : Z) (m : memory) : memory :=
  if h_prev m h =? 0 then m else set_next (h_prev m h) (h_next m h) m.
Definition unlink_next (h : Z) (m : memory) : memory :=
  if h_next m h =? 0 then m else set_prev (h_next m h) (h_prev m h) m.
Definition list_remove (h : Z) st : machine Pg :=
  let st := with_mem (unlink_next h (unlink_prev h (mem st))) st in
  if free_list st =? h then with_free_list (h_next (mem st) h) st else st.

(** [while(last->next) last = last->next;] *)
Fixpoint list_last (fuel : nat) (m : memory) (last : Z) : outcome Z :=
  match fuel with
  | O => NoFuel
  | S f => if h_next m last =? 0 then Ok last else list_last f m (h_next m last)
  end.

Definition list_append (fuel : nat) (h : Z) st : outcome (machine Pg) :=
  let m := set_prev h 0 (set_next h 0 (mem st)) in
  let st := with_mem m st in
  if free_list st =? 0 then Ok (with_free_list h st)
  else
    let! last := list_last fuel m (free_list st) in
    Ok (with_mem (set_prev h last (set_next last h m)) st).

Definition kmalloc_init st : outcome (machine Pg) :=
  let '(initial, pg) := pa_alloc (pages st) in
  let st := with_pages pg st in
  if initial =? 0 then Panic
  else
    let st := with_heap_end (u32 (initial + 4096)) st in
    let m := set_magic initial HEAP_MAGIC (set_size initial 4096 (mem st)) in
    let m := set_footer initial m in
    let m := set_prev initial 0 (set_next initial 0 m) in
    Ok (with_free_list initial (with_mem m st)).

(** The loop of [heap_grow] over the pages that should follow [first]: whether
    they all did, and the allocator after it. *)
Fixpoint grow_contiguous (n : nat) (i first : Z) (pg : Pg) : bool * Pg :=
  match n with
  | O => (true, pg)
  | S n' =>
      let '(page, pg) := pa_alloc pg in
      if page =? 0 then (false, pg)
      else if negb (page =? u32 (first + i * 4096)) then (false, pa_free page pg)
      else grow_contiguous n' (i + 1) first pg
  end.

(** The loop of [heap_grow] that adds single pages. *)
Fixpoint grow_scattered (n fuel : nat) st : outcome (machine Pg) :=
  match n with
  | O => Ok st
  | S n' =>
      let '(page, pg) := pa_alloc (pages st) in
      let st := with_pages pg st in
      if page =? 0 then Ok st
      else
        let m := set_magic page HEAP_MAGIC (set_size page 4096 (mem st)) in
        let st := with_heap_end (u32 (page + 4096)) st in
        let! st := list_append fuel page (with_mem (set_footer page m) st) in
        grow_scattered n' fuel st
  end.

Definition heap_grow (fuel : nat) st : outcome (machine Pg) :=
  let npages := (HEAP_GROW + 4095) / 4096 in
  let '(first, pg) := pa_alloc (pages st) in
  let st := with_pages pg st in
  if first =? 0 then Ok st
  else
    let '(contiguous, pg) := grow_contiguous (Z.to_nat (npages - 1)) 1 first (pages st) in
    let st := with_pages pg st in
    if negb contiguous then grow_scattered (Z.to_nat npages) fuel st
    else
      let m := set_magic first HEAP_MAGIC (set_size first (npages * 4096) (mem st)) in
      let st := with_heap_end (u32 (first + h_size m first)) st in
      list_append fuel first (with_mem (set_footer first m) st).

(** Lines 206 to 220: the header and footer of the rest of the block, its
    links, and the links of its two neighbours. *)
Definition init_split (split leftover : Z) (m : memory) : memory :=
  set_footer split (set_magic split HEAP_MAGIC (set_size split leftover m)).
Definition link_split (h split : Z) (m : memory) : memory :=
  let m := set_next split (h_next m h) m in
  set_prev split (h_prev m h) m.
Definition relink_next (h split : Z) (m : memory) : memory :=
  if h_next m h =? 0 then m else set_prev (h_next m h) split m.
Definition relink_prev (h split : Z) st : machine Pg :=
  if h_prev (mem st) h =? 0 then with_free_list split st
  else with_mem (set_next (h_prev (mem st) h) split (mem st)) st.

Definition split_block (needed h leftover : Z) st : machine Pg :=
  let split := u32 (h + needed) in
  let m := relink_next h split (link_split h split (init_split split leftover (mem st))) in
  let st := relink_prev h split (with_mem m st) in
  with_mem (set_size h needed (mem st)) st.

(** Lines 229 to 234. *)
Definition hand_out (h : Z) st : Z * machine Pg :=
  let m := set_footer h (mem st) in
  (ptr_from_header h,
   with_mem (memset m (ptr_from_header h) 0 (u32 (h_size m h - HEADER_SIZE - 4))) st).

(** The body of the search loop once a block that is large enough is found. *)
Definition take_block (needed h : Z) st : Z * machine Pg :=
  let leftover := u32 (h_size (mem st) h - needed) in
  hand_out h (if MIN_BLOCK <=? leftover then split_block needed h leftover st
              else list_remove h st).

(** [while(h) { if(h->size >= needed) ... return; h = h->next; }] *)
Fixpoint kmalloc_scan (fuel : nat) (needed h : Z) st : outcome (option (Z * machine Pg)) :=
  match fuel with
  | O => NoFuel
  | S f =>
      if h =? 0 then Ok None
      else if needed <=? h_size (mem st) h then Ok (Some (take_block needed h st))
      else kmalloc_scan f needed (h_next (mem st) h) st
  end.

(** The size of the block [kmalloc] looks for. *)
Definition kmalloc_needed (size : Z) : Z :=
  let size := Z.land (u32 (size + 7)) (Z.lnot 7) in
  let needed := u32 (size + HEADER_SIZE + 4) in
  if needed <? MIN_BLOCK then MIN_BLOCK else needed.

Definition kmalloc (fuel : nat) (size : Z) st : outcome (Z * machine Pg) :=
  if size =? 0 then Ok (0, st)
  else
    let needed := kmalloc_needed size in
    let! r := kmalloc_scan fuel needed (free_list st) st in
    match r with
    | Some res => Ok res
    | None =>
        let! st := heap_grow fuel st in
        let! r := kmalloc_scan fuel needed (free_list st) st in
        match r with
        | Some res => Ok res
        | None => Ok (0, st)
        end
    end.

Definition kfree (fuel : nat) (ptr : Z) st : outcome (machine Pg) :=
  if ptr =? 0 then Ok st
  else
    let h := header_from_ptr ptr in
    if negb (is_valid (mem st) h) then Ok st
    else
      let merge_prev :=
        has_prev st h && (h_magic (mem st) (prev_block (mem st) h) =? HEAP_MAGIC) in
      let merge_next :=
        has_next st h && (h_magic (mem st) (next_block (mem st) h) =? HEAP_MAGIC) in
      if merge_prev && merge_next then
        let p := prev_block (mem st) h in
        let n := next_block (mem st) h in
        let st := list_remove n (list_remove p st) in
        let m := mem st in
        let m := set_size p (u32 (h_size m p + (h_size m h + h_size m n))) m in
        list_append fuel p (with_mem (set_footer p m) st)
      else if merge_prev then
        let p := prev_block (mem st) h in
        let st := list_remove p st in
        let m := set_size p (u32 (h_size (mem st) p + h_size (mem st) h)) (mem st) in
        Ok (with_mem (set_footer p m) st)
      else if merge_next then
        let n := next_block (mem st) h in
        let st := list_remove n st in
        let m := set_size h (u32 (h_size (mem st) h + h_size (mem st) n)) (mem st) in
        list_append fuel h (with_mem (set_footer h m) st)
      else
        let m := set_magic h HEAP_MAGIC (mem st) in
        list_append fuel h (with_mem (set_footer h m) st).
End heap.

(** ** Blocks and disjointness *)

(** A block of the heap: the address of its header and its size. *)
Notation block := (Z * Z)%type.

Definition disj (b c : block) : Prop := b.1 + b.2 ≤ c.1 ∨ c.1 + c.2 ≤ b.1.

Fixpoint pw_disj (l : list block) : Prop :=
  match l with
  | [] => True
  | b :: l' => Forall (disj b) l' ∧ pw_disj l'
  end.

#[export] Instance disj_sym : Symmetric disj.
Proof. unfold disj. intros b c H. lia. Qed.

(** Disjointness of a collection of blocks does not depend on their order. *)
#[export] Instance pw_disj_proper : Proper ((≡ₚ) ==> iff) pw_disj.
Proof.
  intros l l' H. induction H as [| b l l' Hp IH | b c l | l1 l2 l3 _ IH1 _ IH2]; simpl.
  - done.
  - rewrite IH. by rewrite Hp.
  - rewrite !Forall_cons. split; intros [[? ?] [? ?]]; split_and!; try done; by symmetry.
  - by rewrite IH1.
Qed.

Lemma pw_disj_app l1 l2 :
  pw_disj (l1 ++ l2) ↔
  pw_disj l1 ∧ pw_disj l2 ∧ (∀ b c, b ∈ l1 → c ∈ l2 → disj b c).
Proof.
  induction l1 as [|a l1 IH]; simpl.
  - set_solver.
  - rewrite IH, Forall_app, !Forall_forall. set_solver.
Qed.

(** Replacing a block by parts of it keeps a collection disjoint. *)
Lemma pw_disj_refine b l parts :
  pw_disj (b :: l) → pw_disj parts →
  Forall (λ c, b.1 ≤ c.1 ∧ c.1 + c.2 ≤ b.1 + b.2) parts → pw_disj (parts ++ l).
Proof.
  intros [Hb Hl] Hp Hin. apply pw_disj_app. split_and!; [done | done |].
  intros c d Hc Hd. rewrite Forall_forall in Hb, Hin.
  specialize (Hin _ Hc). specialize (Hb _ Hd). unfold disj in *. lia.
Qed.

Definition block_ok (b : block) : Prop :=
  0 < b.1 ∧ MIN_BLOCK ≤ b.2 ∧ b.1 + b.2 ≤ W32 ∧ b.1 mod 4 = 0 ∧ b.2 mod 4 = 0.

(** ** The free list *)

Definition hd_addr (l : list block) : Z := match l with [] => 0 | b :: _ => b.1 end.
Definition last_addr (l : list block) : Z := match last l with None => 0 | Some b => b.1 end.

(** [dll m l]: the headers in [m] link the blocks of [l], in this order, in
    both directions, with null at both ends. *)
Definition dll (m : memory) (l : list block) : Prop :=
  ∀ pre a s post, l = pre ++ (a, s) :: post →
    h_size m a = s ∧ h_magic m a = HEAP_MAGIC ∧
    h_next m a = hd_addr post ∧ h_prev m a = last_addr pre.

Lemma last_addr_snoc l b : last_addr (l ++ [b]) = b.1.
Proof. unfold last_addr. by rewrite last_snoc. Qed.

Lemma last_addr_app l1 l2 : l2 ≠ [] → last_addr (l1 ++ l2) = last_addr l2.
Proof.
  intros H. destruct (exists_last H) as (l' & b & ->).
  by rewrite app_assoc, !last_addr_snoc.
Qed.

Lemma hd_addr_in l : l ≠ [] → ∃ s, (hd_addr l, s) ∈ l.
Proof. destruct l as [|[a s] l]; [done |]. exists s. set_solver. Qed.

Lemma last_addr_in l : l ≠ [] → ∃ s, (last_addr l, s) ∈ l.
Proof.
  intros H. destruct (exists_last H) as (l' & [a s] & ->).
  exists s. rewrite last_addr_snoc. set_solver.
Qed.

Lemma app_split_cases {A} (p1 : list A) y q1 p2 q2 :
  p1 ++ y :: q1 = p2 ++ q2 →
  (∃ mid, p2 = p1 ++ y :: mid ∧ q1 = mid ++ q2) ∨
  (∃ mid, p1 = p2 ++ mid ∧ q2 = mid ++ y :: q1).
Proof.
  revert p2. induction p1 as [|x p1 IH]; intros [|z p2] E; simpl in *.
  - right. by exists [].
  - inversion E; subst. left. by exists p2.
  - right. exists (x :: p1). done.
  - inversion E; subst. destruct (IH p2) as [(mid & -> & ->) | (mid & -> & ->)]; [done | |].
    + left. by exists mid.
    + right. by exists mid.
Qed.

(** The headers of two blocks of a disjoint collection do not overlap. *)
Lemma apart l1 a s l2 b t :
  pw_disj (l1 ++ (a, s) :: l2) → Forall block_ok (l1 ++ (a, s) :: l2) →
  (b, t) ∈ l1 ++ l2 → a + 32 ≤ b ∨ b + 32 ≤ a.
Proof.
  intros Hd Hok Hb.
  assert (Hd' : pw_disj ((a, s) :: l1 ++ l2)) by (by rewrite Permutation_middle).
  destruct Hd' as [Ha _]. rewrite Forall_forall in Ha, Hok. specialize (Ha _ Hb).
  destruct (Hok (a, s)) as (_ & ? & _); [set_solver |].
  destruct (Hok (b, t)) as (_ & ? & _); [set_solver |].
  unfold disj in Ha. simpl in *. lia.
Qed.

(** Close [C → ¬ (lo ≤ x < hi)], where [H] locates a block under [C]. *)
Ltac relink_out H := let Hne := fresh in intros Hne; try specialize (H Hne); lia.

(** The general list surgery: [old] leaves the list and [mid] takes its place.
    In the headers of the other blocks only the [next] field of the block
    before and the [prev] field of the block after may change. *)
Lemma relink m m' pre old mid post :
  pw_disj (pre ++ post) → Forall block_ok (pre ++ post) → dll m (pre ++ old ++ post) →
  (∀ a s x, (a, s) ∈ pre ++ post → a ≤ x < a + 16 →
     (pre ≠ [] → ¬ last_addr pre + 8 ≤ x < last_addr pre + 12) →
     (post ≠ [] → ¬ hd_addr post + 12 ≤ x < hd_addr post + 16) → rd8 m' x = rd8 m x) →
  (pre ≠ [] → h_next m' (last_addr pre) = hd_addr (mid ++ post)) →
  (post ≠ [] → h_prev m' (hd_addr post) = last_addr (pre ++ mid)) →
  mid = [] ∨
  (∃ q t, mid = [(q, t)] ∧ h_size m' q = t ∧ h_magic m' q = HEAP_MAGIC ∧
     h_next m' q = hd_addr post ∧ h_prev m' q = last_addr pre) →
  dll m' (pre ++ mid ++ post).
Proof.
  intros Hd Hok Hdll Hsame HX HY Hmid p1 a s q1 E. symmetry in E.
  apply app_split_cases in E as [(r & -> & ->) | (r & -> & E)].
  - destruct (Hdll p1 a s (r ++ old ++ post)) as (E1 & E2 & E3 & E4); [by rewrite <- app_assoc |].
    rewrite <- app_assoc in Hd, Hok. simpl in Hd, Hok.
    assert (Hin : (a, s) ∈ (p1 ++ (a, s) :: r) ++ post) by set_solver +.
    assert (Hoth : post ≠ [] → a + 32 ≤ hd_addr post ∨ hd_addr post + 32 ≤ a).
    { intros Hne. destruct (hd_addr_in post Hne) as [t Ht].
      apply (apart p1 a s (r ++ post) _ t); [done.. | rewrite !elem_of_app; tauto]. }
    assert (Hla : r = [] ∧ last_addr (p1 ++ (a, s) :: r) = a ∨
      r ≠ [] ∧ (a + 32 ≤ last_addr (p1 ++ (a, s) :: r) ∨ last_addr (p1 ++ (a, s) :: r) + 32 ≤ a)).
    { destruct r as [|b r']; [left; split; [done | apply last_addr_snoc] | right; split; [done |]].
      destruct (last_addr_in (b :: r') ltac:(done)) as [t Ht].
      replace (last_addr (p1 ++ (a, s) :: b :: r')) with (last_addr (b :: r')).
      - apply (apart p1 a s ((b :: r') ++ post) _ t); [done.. | rewrite !elem_of_app; tauto].
      - change (p1 ++ (a, s) :: b :: r') with (p1 ++ [(a, s)] ++ b :: r').
        by rewrite app_assoc, last_addr_app. }
    unfold h_size, h_magic, h_next, h_prev in *.
    rewrite (rd32_ext m' m a), (rd32_ext m' m (a + 4)), (rd32_ext m' m (a + 12))
      by (intros; eapply Hsame; [exact Hin | lia | relink_out Hoth | relink_out Hoth]).
    split_and!; [done | done | | done].
    destruct Hla as [[-> Hla] | [Hr Hla]].
    + rewrite <- Hla at 1. rewrite HX by (by destruct p1). done.
    + rewrite (rd32_ext m' m (a + 8)) by (intros; eapply Hsame; [exact Hin | lia | relink_out Hoth | relink_out Hoth]).
      rewrite E3. by destruct r.
  - symmetry in E. apply app_split_cases in E as [(r' & -> & ->) | (r2 & -> & ->)].
    + destruct Hmid as [Hmid | (q & t & Hmid & H1 & H2 & H3 & H4)]; [by destruct r |].
      destruct r as [|? [|]]; [| by inversion Hmid; subst; simpl in * ..].
      inversion Hmid; subst. rewrite app_nil_r. done.
    + destruct (Hdll (pre ++ old ++ r2) a s q1) as (E1 & E2 & E3 & E4); [by rewrite <- !app_assoc |].
      assert (Hd2 := Hd). assert (Hok2 := Hok). rewrite app_assoc in Hd2, Hok2.
      assert (Hin : (a, s) ∈ pre ++ r2 ++ (a, s) :: q1) by set_solver +.
      assert (Hoth : pre ≠ [] → a + 32 ≤ last_addr pre ∨ last_addr pre + 32 ≤ a).
      { intros Hne. destruct (last_addr_in pre Hne) as [t Ht].
        apply (apart (pre ++ r2) a s q1 _ t); [done.. | rewrite !elem_of_app; tauto]. }
      assert (Hhd : r2 = [] ∧ hd_addr (r2 ++ (a, s) :: q1) = a ∨
        r2 ≠ [] ∧ (a + 32 ≤ hd_addr (r2 ++ (a, s) :: q1) ∨ hd_addr (r2 ++ (a, s) :: q1) + 32 ≤ a)).
      { destruct r2 as [|[b t] r2]; [by left | right; split; [done |]].
        apply (apart (pre ++ (b, t) :: r2) a s q1 _ t); [done.. | set_solver +]. }
      unfold h_size, h_magic, h_next, h_prev in *.
      rewrite (rd32_ext m' m a), (rd32_ext m' m (a + 4)), (rd32_ext m' m (a + 8))
        by (intros; eapply Hsame; [exact Hin | lia | relink_out Hoth | relink_out Hoth]).
      split_and!; [done | done | done |].
      destruct Hhd as [[-> Hhd] | [Hr Hhd]].
      * rewrite <- Hhd at 1. rewrite HY by done. by rewrite app_nil_r.
      * rewrite (rd32_ext m' m (a + 12)) by (intros; eapply Hsame; [exact Hin | lia | relink_out Hoth | relink_out Hoth]).
        rewrite E4. destruct (exists_last Hr) as (r3 & b & ->).
        by rewrite !(app_assoc _ _ [b]), !last_addr_snoc.
Qed.
(** Read a word through a chain of writes elsewhere, and the header fields as
    the words they are. *)
Ltac rdwr :=
  repeat first
    [ rewrite rd32_wr32_eq | rewrite rd32_wr32_ne by lia
    | rewrite rd32_memset_out by lia | rewrite u32_id by lia ].

Ltac hfields := unfold h_size, h_magic, h_next, h_prev, set_size, set_magic, set_next, set_prev in *.

(** ** The heap invariant *)

Section heap_invariant.
Context {Pg : Type} `{PageAlloc Pg}.
Implicit Types st : machine Pg.

(** [fl] are the free blocks in list order and [live] the blocks handed out:
    the free list links exactly [fl]; all blocks are word-aligned, at least
    [MIN_BLOCK] bytes, pairwise disjoint and inside pages taken from the page
    allocator; live blocks carry their header. *)
Record heap_inv st (fl live : list block) : Prop := {
  hi_dll : dll (mem st) fl;
  hi_head : free_list st = hd_addr fl;
  hi_blocks : Forall block_ok (fl ++ live);
  hi_disj : pw_disj (fl ++ live);
  hi_wf : pa_wf (pages st);
  hi_pages : ∀ b x, b ∈ fl ++ live → b.1 ≤ x < b.1 + b.2 → pa_used (pages st) (page_of x);
  hi_live : ∀ b, b ∈ live → h_size (mem st) b.1 = b.2 ∧ h_magic (mem st) b.1 = HEAP_MAGIC;
}.

(** Where the neighbours of a block in the free list are. *)
Lemma neighbours pre h s post :
  Forall block_ok (pre ++ (h, s) :: post) → pw_disj (pre ++ (h, s) :: post) →
  (post = [] ∧ hd_addr post = 0 ∨
   post ≠ [] ∧ 0 < hd_addr post ∧ hd_addr post + 32 ≤ W32 ∧
     (h + s ≤ hd_addr post ∨ hd_addr post + 32 ≤ h)) ∧
  (pre = [] ∧ last_addr pre = 0 ∨
   pre ≠ [] ∧ 0 < last_addr pre ∧ last_addr pre + 32 ≤ W32 ∧
     (h + s ≤ last_addr pre ∨ last_addr pre + 32 ≤ h)) ∧
  (pre = [] ∨ post = [] ∨
   last_addr pre + 32 ≤ hd_addr post ∨ hd_addr post + 32 ≤ last_addr pre).
Proof.
  intros Hok Hd.
  assert (Hd' : pw_disj ((h, s) :: pre ++ post)) by (by rewrite Permutation_middle).
  destruct Hd' as [Hh Hd']. rewrite Forall_forall in Hh, Hok.
  assert (Hnb : ∀ a t, (a, t) ∈ pre ++ post →
    0 < a ∧ a + 32 ≤ W32 ∧ (h + s ≤ a ∨ a + 32 ≤ h)).
  { intros a t Ha. specialize (Hh _ Ha).
    destruct (Hok (a, t)) as (? & ? & ? & _); [set_solver |]. unfold disj in Hh. simpl in *. lia. }
  split_and!.
  - destruct post as [|[a t] post']; [by left | right; split; [done |]].
    apply (Hnb a t). set_solver.
  - destruct (decide (pre = [])) as [-> | Hne]; [by left | right; split; [done |]].
    destruct (last_addr_in pre Hne) as [t Ht]. apply (Hnb _ t). set_solver.
  - destruct (decide (pre = [])) as [-> | Hne1]; [by left |].
    destruct (decide (post = [])) as [-> | Hne2]; [by right; left |]. right; right.
    destruct (last_addr_in pre Hne1) as [t Ht]. destruct (hd_addr_in post Hne2) as [t' Ht'].
    apply pw_disj_app in Hd' as (_ & _ & Hd'). specialize (Hd' _ _ Ht Ht').
    destruct (Hok (last_addr pre, t)) as (_ & ? & _); [set_solver |].
    destruct (Hok (hd_addr post, t')) as (_ & ? & _); [set_solver |].
    unfold disj in Hd'. simpl in *. lia.
Qed.

(** The memory after a block [h] was split at [q = h + needed] and linked
    between [P] and [N]. *)
Definition split_mem (m : memory) (h needed s P N : Z) : memory :=
  let q := h + needed in
  let m := wr32 (wr32 (wr32 m q (s - needed)) (q + 4) HEAP_MAGIC) (h + s - 4) (s - needed) in
  let m := wr32 (wr32 m (q + 8) N) (q + 12) P in
  let m := if N =? 0 then m else wr32 m (N + 12) q in
  let m := if P =? 0 then m else wr32 m (P + 8) q in
  wr32 m h needed.

(** The memory after a block between [P] and [N] was unlinked. *)
Definition unlink_mem (m : memory) (P N : Z) : memory :=
  let m := if P =? 0 then m else wr32 m (P + 8) N in
  if N =? 0 then m else wr32 m (N + 12) P.


Lemma set_footer_eq h m s :
  h_size m h = s → 0 < h → 4 ≤ s → h + s ≤ W32 → set_footer h m = wr32 m (h + s - 4) s.
Proof. intros Hs H0 H4 Ht. unfold set_footer. rewrite Hs, u32_id by lia. done. Qed.

Lemma hand_out_eq h st s :
  h_size (mem st) h = s → 0 < h → 32 ≤ s → h + s ≤ W32 →
  hand_out h st =
    (h + 16, with_mem (memset (wr32 (mem st) (h + s - 4) s) (h + 16) 0 (s - 20)) st).
Proof.
  intros Hs H0 H4 Ht. unfold hand_out. rewrite (set_footer_eq h (mem st) s) by (done || lia).
  unfold ptr_from_header. rewrite (u32_id (h + 16)) by lia.
  assert (E : h_size (wr32 (mem st) (h + s - 4) s) h = s)
    by (unfold h_size in *; rewrite rd32_wr32_ne by lia; done).
  rewrite E, u32_id by (pose proof (rd32_range (mem st) h); unfold h_size in Hs; lia).
  by replace (s - 16 - 4) with (s - 20) by lia.
Qed.

Lemma split_block_eq st h s needed P N :
  h_size (mem st) h = s → h_next (mem st) h = N → h_prev (mem st) h = P →
  block_ok (h, s) → 32 ≤ needed → 32 ≤ s - needed →
  N = 0 ∨ (0 < N ∧ N + 32 ≤ W32 ∧ (h + s ≤ N ∨ N + 32 ≤ h)) →
  split_block needed h (s - needed) st =
    with_mem (split_mem (mem st) h needed s P N)
      (if P =? 0 then with_free_list (h + needed) st else st).
Proof.
  intros Hs HN HP (Hh & Hmin & Htop & _) Hn Hlo CN. simpl in *.
  pose proof (rd32_range (mem st) h) as Hr.
  unfold split_block. rewrite u32_id by lia.
  set (m1 := wr32 (wr32 (wr32 (mem st) (h + needed) (s - needed)) (h + needed + 4) HEAP_MAGIC)
               (h + s - 4) (s - needed)).
  assert (E1 : init_split (h + needed) (s - needed) (mem st) = m1).
  { unfold init_split. rewrite (set_footer_eq _ _ (s - needed)); [| hfields; rdwr; lia | lia | lia | lia].
    hfields. unfold m1. do 2 f_equal. lia. }
  set (m2 := wr32 (wr32 m1 (h + needed + 8) N) (h + needed + 12) P).
  assert (E2 : link_split h (h + needed) m1 = m2).
  { unfold link_split. hfields. unfold m2. f_equal; [do 2 f_equal |]; unfold m1; rdwr; done. }
  assert (E3 : relink_next h (h + needed) m2 = if N =? 0 then m2 else wr32 m2 (N + 12) (h + needed)).
  { unfold relink_next. replace (h_next m2 h) with N; [by hfields |].
    hfields. unfold m2, m1. rdwr. done. }
  rewrite E1, E2, E3.
  set (m3 := if N =? 0 then m2 else wr32 m2 (N + 12) (h + needed)).
  assert (E4 : h_prev m3 h = P).
  { hfields. unfold m3. destruct (Z.eqb_spec N 0); unfold m2, m1; rdwr; done. }
  unfold relink_prev. cbn [mem with_mem]. rewrite E4. unfold split_mem.
  change (wr32 (wr32 (wr32 (wr32 (wr32 (mem st) (h + needed) (s - needed)) (h + needed + 4) HEAP_MAGIC)
     (h + s - 4) (s - needed)) (h + needed + 8) N) (h + needed + 12) P) with m2.
  change (if N =? 0 then m2 else wr32 m2 (N + 12) (h + needed)) with m3.
  destruct (P =? 0); reflexivity.
Qed.

Lemma list_remove_eq st h s P N :
  h_size (mem st) h = s → h_next (mem st) h = N → h_prev (mem st) h = P → 32 ≤ s →
  (P = 0 ∨ h + s ≤ P ∨ P + 32 ≤ h) → (N = 0 ∨ h + s ≤ N ∨ N + 32 ≤ h) →
  list_remove h st =
    with_mem (unlink_mem (mem st) P N)
      (if free_list st =? h then with_free_list N st else st).
Proof.
  intros Hs HN HP Hmin CP CN. hfields.
  assert (E1 : unlink_prev h (mem st) = if P =? 0 then mem st else wr32 (mem st) (P + 8) N).
  { unfold unlink_prev. hfields. by rewrite HP, HN. }
  assert (E2 : unlink_next h (unlink_prev h (mem st)) = unlink_mem (mem st) P N).
  { rewrite E1. unfold unlink_mem. set (m1 := if P =? 0 then mem st else wr32 (mem st) (P + 8) N).
    assert (rd32 m1 (h + 8) = N ∧ rd32 m1 (h + 12) = P) as [Ea Eb].
    { unfold m1. destruct (Z.eqb_spec P 0); rdwr; done. }
    unfold unlink_next. hfields. rewrite Ea, Eb. done. }
  unfold list_remove. rewrite E2. cbn [mem with_mem free_list].
  assert (E3 : h_next (unlink_mem (mem st) P N) h = N).
  { hfields. unfold unlink_mem. destruct (Z.eqb_spec P 0), (Z.eqb_spec N 0); rdwr; done. }
  rewrite E3. destruct (free_list st =? h); reflexivity.
Qed.

Lemma rd8_unlink_out m P N x :
  (P ≠ 0 → ¬ P + 8 ≤ x < P + 12) → (N ≠ 0 → ¬ N + 12 ≤ x < N + 16) →
  rd8 (unlink_mem m P N) x = rd8 m x.
Proof.
  intros HP HN. unfold unlink_mem. destruct (Z.eqb_spec P 0), (Z.eqb_spec N 0);
    rewrite ?rd8_wr32_ne by lia; done.
Qed.

Lemma rd8_split_out m h needed s P N x :
  32 ≤ needed → 32 ≤ s - needed → x < h ∨ h + s ≤ x →
  (P ≠ 0 → ¬ P + 8 ≤ x < P + 12) → (N ≠ 0 → ¬ N + 12 ≤ x < N + 16) →
  rd8 (split_mem m h needed s P N) x = rd8 m x.
Proof.
  intros Hn Hl Hx HP HN. unfold split_mem.
  destruct (Z.eqb_spec P 0), (Z.eqb_spec N 0); rewrite ?rd8_wr32_ne by lia; done.
Qed.

(** A byte of a page in use that belongs to no free block. *)
Definition foreign st (fl : list block) (x : Z) : Prop :=
  pa_used (pages st) (page_of x) ∧ ∀ b, b ∈ fl → ¬ b.1 ≤ x < b.1 + b.2.
(** Such bytes keep their value, and stay outside of the free blocks. *)
Definition keeps st (fl : list block) st' (fl' : list block) : Prop :=
  ∀ x, foreign st fl x → foreign st' fl' x ∧ rd8 (mem st') x = rd8 (mem st) x.

Lemma keeps_refl st fl : keeps st fl st fl.
Proof. by intros x. Qed.
Lemma keeps_trans st1 fl1 st2 fl2 st3 fl3 : keeps st1 fl1 st2 fl2 → keeps st2 fl2 st3 fl3 → keeps st1 fl1 st3 fl3.
Proof. intros H1 H2 x Hx. destruct (H1 x Hx) as [Hf <-]. by apply H2. Qed.

(** The bytes of live blocks are among them. *)
Lemma live_foreign st fl live b x : heap_inv st fl live → b ∈ live → b.1 ≤ x < b.1 + b.2 → foreign st fl x.
Proof.
  intros Hinv Hb Hx. split; [apply (hi_pages _ _ _ Hinv b); [set_solver | done] |].
  intros c Hc Hcx. pose proof (hi_disj _ _ _ Hinv) as (_ & _ & Hd)%pw_disj_app.
  specialize (Hd c b Hc Hb). unfold disj in Hd. lia.
Qed.
Lemma keeps_live st fl live st' fl' :
  heap_inv st fl live → keeps st fl st' fl' →
  ∀ b x, b ∈ live → b.1 ≤ x < b.1 + b.2 → rd8 (mem st') x = rd8 (mem st) x.
Proof. intros Hinv Hk b x Hb Hx. by apply Hk, (live_foreign st fl live b). Qed.

(** Taking a block out of the free list leaves them alone. *)
Lemma take_keeps st st' pre h s post mid :
  Forall block_ok (pre ++ post) → pages st' = pages st →
  Forall (λ c : block, h ≤ c.1 ∧ c.1 + c.2 ≤ h + s) mid →
  (∀ x, x < h ∨ h + s ≤ x →
     (pre ≠ [] → ¬ last_addr pre + 8 ≤ x < last_addr pre + 12) →
     (post ≠ [] → ¬ hd_addr post + 12 ≤ x < hd_addr post + 16) → rd8 (mem st') x = rd8 (mem st) x) →
  keeps st (pre ++ (h, s) :: post) st' (pre ++ mid ++ post).
Proof.
  intros Hok Epg Hmid Hout x [Hu Hx]. rewrite Forall_forall in Hok, Hmid.
  pose proof (Hx (h, s) ltac:(set_solver +)) as Hh. simpl in Hh. split.
  - split; [by rewrite Epg |]. intros b [Hb | [Hb | Hb]%elem_of_app]%elem_of_app; [apply Hx; set_solver | | apply Hx; set_solver].
    specialize (Hmid b Hb). lia.
  - apply Hout; [lia | |].
    + intros Hne Hx'. destruct (last_addr_in pre Hne) as [t' Ht'].
      destruct (Hok (last_addr pre, t')) as (_ & ? & _); [set_solver |].
      apply (Hx (last_addr pre, t')); [set_solver |]. simpl in *. lia.
    + intros Hne Hx'. destruct (hd_addr_in post Hne) as [t' Ht'].
      destruct (Hok (hd_addr post, t')) as (_ & ? & _); [set_solver |].
      apply (Hx (hd_addr post, t')); [set_solver |]. simpl in *. lia.
Qed.

(** Taking [n] bytes of the free block [h], of size [s], out of the free list
    and putting [mid] in its place keeps the invariant, whatever happens to the
    bytes of the block itself. *)
Lemma take_keeps_inv st st' pre h s post live n mid :
  heap_inv st (pre ++ (h, s) :: post) live →
  32 ≤ n ≤ s → n mod 4 = 0 →
  pages st' = pages st → free_list st' = hd_addr (pre ++ mid ++ post) →
  (∀ x, x < h ∨ h + s ≤ x →
     (pre ≠ [] → ¬ last_addr pre + 8 ≤ x < last_addr pre + 12) →
     (post ≠ [] → ¬ hd_addr post + 12 ≤ x < hd_addr post + 16) →
     rd8 (mem st') x = rd8 (mem st) x) →
  (pre ≠ [] → h_next (mem st') (last_addr pre) = hd_addr (mid ++ post)) →
  (post ≠ [] → h_prev (mem st') (hd_addr post) = last_addr (pre ++ mid)) →
  h_size (mem st') h = n → h_magic (mem st') h = HEAP_MAGIC →
  mid = [] ∨
  (mid = [(h + n, s - n)] ∧ 32 ≤ s - n ∧ h_size (mem st') (h + n) = s - n ∧
   h_magic (mem st') (h + n) = HEAP_MAGIC ∧
   h_next (mem st') (h + n) = hd_addr post ∧ h_prev (mem st') (h + n) = last_addr pre) →
  heap_inv st' (pre ++ mid ++ post) ((h, n) :: live) ∧
  keeps st (pre ++ (h, s) :: post) st' (pre ++ mid ++ post).
Proof.
  intros Hinv Hn Hn4 Epg Efl Hout HX HY Hsz Hmg Hmid. pose proof Hinv as [Hdll Hhd Hok Hd Hwf Hpg Hlive].
  set (all := pre ++ post ++ live).
  assert (Hp1 : (pre ++ (h, s) :: post) ++ live ≡ₚ (h, s) :: all)
    by (unfold all; rewrite <- app_assoc; symmetry; apply (Permutation_middle pre (post ++ live))).
  assert (Hp2 : (pre ++ mid ++ post) ++ (h, n) :: live ≡ₚ ((h, n) :: mid) ++ all).
  { unfold all. rewrite <- (Permutation_middle (pre ++ mid ++ post) live (h, n)).
    simpl. constructor. rewrite <- !app_assoc. rewrite !app_assoc.
    by rewrite (Permutation_app_comm pre mid). }
  rewrite Hp1 in Hok, Hd. apply Forall_cons in Hok as [Hokh Hokall].
  destruct Hokh as (H1 & H2 & H3 & H4 & H5). simpl in H1, H2, H3, H4, H5.
  assert (Hparts : Forall (λ c : block, h ≤ c.1 ∧ c.1 + c.2 ≤ h + s) ((h, n) :: mid)).
  { constructor; [simpl; lia |]. destruct Hmid as [-> | (-> & Hmid)]; [done |].
    constructor; [simpl; lia | done]. }
  assert (Hokparts : Forall block_ok ((h, n) :: mid)).
  { constructor; [unfold block_ok; simpl; lia |]. destruct Hmid as [-> | (-> & Hmid)]; [done |].
    constructor; [unfold block_ok; simpl; mlia | done]. }
  assert (Hdparts : pw_disj ((h, n) :: mid)).
  { destruct Hmid as [-> | (-> & Hmid)]; simpl; [done |].
    rewrite !Forall_cons. unfold disj. simpl. split_and!; [lia | done..]. }
  assert (Hdall : pw_disj all) by apply Hd.
  assert (Hoklst : Forall block_ok (pre ++ post) ∧ pw_disj (pre ++ post)).
  { unfold all in Hokall, Hdall. rewrite app_assoc in Hokall, Hdall.
    apply Forall_app in Hokall as [? _]. by apply pw_disj_app in Hdall as (? & _). }
  assert (Hhout : ∀ a t, (a, t) ∈ all → a + t ≤ h ∨ h + s ≤ a).
  { intros a t Ha. destruct Hd as [Hd _]. rewrite Forall_forall in Hd. specialize (Hd _ Ha).
    unfold disj in Hd. simpl in Hd. lia. }
  assert (Hkeep : keeps st (pre ++ (h, s) :: post) st' (pre ++ mid ++ post)).
  { apply take_keeps; [apply Hoklst | done | by apply Forall_cons in Hparts as [_ ?] | done]. }
  pose proof (keeps_live _ _ _ _ _ Hinv Hkeep) as Hlv. split; [| done]. constructor.
  - apply (relink (mem st) _ pre [(h, s)] mid post); [apply Hoklst | apply Hoklst | done | | done | done |].
    + intros a t x Ha Hx Hp Hq. apply Hout; [| done | done].
      destruct (Hhout a t); [unfold all; set_solver | | lia].
      destruct Hoklst as [Hoklst _]. rewrite Forall_forall in Hoklst.
      destruct (Hoklst _ Ha) as (_ & ? & _). simpl in *. lia.
    + destruct Hmid as [-> | (-> & _ & ?)]; [by left | right]. by exists (h + n), (s - n).
  - done.
  - rewrite Hp2, Forall_app. done.
  - rewrite Hp2. by apply (pw_disj_refine (h, s)).
  - by rewrite Epg.
  - intros b x Hb Hx. rewrite Epg. rewrite Hp2, elem_of_app in Hb. destruct Hb as [Hb | Hb].
    + apply (Hpg (h, s)); [rewrite Hp1; set_solver |]. simpl.
      rewrite Forall_forall in Hparts. specialize (Hparts _ Hb). lia.
    + apply (Hpg b); [rewrite Hp1; set_solver | done].
  - intros b [-> | Hb]%elem_of_cons; [done |]. rewrite <- (proj1 (Hlive b Hb)), <- (proj2 (Hlive b Hb)).
    assert (32 ≤ b.2).
    { unfold all in Hokall. rewrite Forall_forall in Hokall. apply Hokall. set_solver. }
    unfold h_size, h_magic. split; apply rd32_ext; intros x Hx; apply (Hlv b); done || lia.
Qed.

(** The block taken out of the free list, and what is left of it. *)
Definition taken (needed : Z) (pre : list block) (h s : Z) (post fl' : list block) (n : Z) : Prop :=
  (32 ≤ s - needed ∧ n = needed ∧ fl' = pre ++ [(h + needed, s - needed)] ++ post) ∨
  (s - needed < 32 ∧ n = s ∧ fl' = pre ++ [] ++ post).

(** Reads of the memory a taken block leaves behind. *)
Ltac rdtake :=
  hfields; unfold split_mem, unlink_mem;
  repeat match goal with
  | |- context [if ?x =? 0 then _ else _] => destruct (Z.eqb_spec x 0); try lia
  end; rdwr; try done; try lia.

Lemma split_hand_out_inv st pre h s post live needed :
  heap_inv st (pre ++ (h, s) :: post) live → 32 ≤ needed → 32 ≤ s - needed → needed mod 4 = 0 →
  ∃ st', hand_out h (split_block needed h (s - needed) st) = (h + 16, st') ∧
    heap_inv st' (pre ++ [(h + needed, s - needed)] ++ post) ((h, needed) :: live) ∧
    (∀ x, h + 16 ≤ x < h + needed - 4 → rd8 (mem st') x = 0) ∧ pages st' = pages st ∧
    keeps st (pre ++ (h, s) :: post) st' (pre ++ [(h + needed, s - needed)] ++ post).
Proof.
  intros Hinv Hn Hsp Hn4. pose proof Hinv as [Hdll Hhd Hok Hd _ _ _].
  apply Forall_app in Hok as [Hok _]. apply pw_disj_app in Hd as (Hd & _ & _).
  destruct (Hdll pre h s post eq_refl) as (Es & Em & En & Ep).
  destruct (neighbours pre h s post Hok Hd) as (CN & CP & CNP).
  assert (Hokh : block_ok (h, s)) by (rewrite Forall_forall in Hok; apply Hok; set_solver +).
  pose proof Hokh as (H1 & H2 & H3 & H4 & H5). simpl in H1, H2, H3, H4, H5.
  pose proof (rd32_range (mem st) h) as Hr. unfold h_size in Es. rewrite Es in Hr.
  rewrite (split_block_eq st h s needed (last_addr pre) (hd_addr post)) by (done || lia || naive_solver).
  set (P := last_addr pre) in *. set (N := hd_addr post) in *.
  set (st1 := with_mem _ _).
  assert (Es1 : h_size (mem st1) h = needed) by (unfold st1; cbn [mem with_mem]; rdtake).
  rewrite (hand_out_eq h st1 needed) by (done || lia).
  set (st2 := with_mem _ st1). exists st2.
  assert (Em2 : mem st2 = memset (wr32 (split_mem (mem st) h needed s P N) (h + needed - 4) needed)
    (h + 16) 0 (needed - 20)) by done.
  assert (Epg : pages st2 = pages st) by (unfold st2, st1; by destruct (P =? 0)).
  assert (CPN : N = 0 ∨ P = 0 ∨ P + 32 ≤ N ∨ N + 32 ≤ P).
  { destruct CNP as [-> | [-> | ?]]; [right; left; done | by left | lia]. }
  assert (Hz : ∀ x, h + 16 ≤ x < h + needed - 4 → rd8 (mem st2) x = 0)
    by (intros x Hx; rewrite Em2, rd8_memset_in by lia; done).
  enough (heap_inv st2 (pre ++ [(h + needed, s - needed)] ++ post) ((h, needed) :: live) ∧
    keeps st (pre ++ (h, s) :: post) st2 (pre ++ [(h + needed, s - needed)] ++ post)) as [? ?] by done.
  apply (take_keeps_inv st st2 pre h s post live needed [(h + needed, s - needed)]);
    rewrite ?Em2; fold P N.
  - done.
  - lia.
  - done.
  - done.
  - unfold st2, st1. destruct CP as [[-> EP] | (Hne & HP & _)].
    + rewrite EP. done.
    + destruct (Z.eqb_spec P 0); [lia |]. cbn [free_list with_mem]. rewrite Hhd. by destruct pre.
  - intros x Hx HxP HxN. rewrite rd8_memset_out, rd8_wr32_ne by lia.
    apply rd8_split_out; [lia | lia | lia | |].
    + intros HP0. apply HxP. destruct CP as [[_ ?] | [? _]]; done.
    + intros HN0. apply HxN. destruct CN as [[_ ?] | [? _]]; done.
  - intros Hne. destruct CP as [[? _] | (_ & HP & HP2)]; [done |]. simpl hd_addr. rdtake.
  - intros Hne. destruct CN as [[? _] | (_ & HN & HN2)]; [done |].
    rewrite last_addr_snoc. simpl fst. rdtake.
  - rdtake.
  - rdtake.
  - right. split_and!; [done | lia | rdtake..].
Qed.

Lemma unlink_hand_out_inv st pre h s post live :
  heap_inv st (pre ++ (h, s) :: post) live →
  ∃ st', hand_out h (list_remove h st) = (h + 16, st') ∧
    heap_inv st' (pre ++ [] ++ post) ((h, s) :: live) ∧
    (∀ x, h + 16 ≤ x < h + s - 4 → rd8 (mem st') x = 0) ∧ pages st' = pages st ∧
    keeps st (pre ++ (h, s) :: post) st' (pre ++ [] ++ post).
Proof.
  intros Hinv. pose proof Hinv as [Hdll Hhd Hok Hd _ _ _].
  apply Forall_app in Hok as [Hok _]. apply pw_disj_app in Hd as (Hd & _ & _).
  destruct (Hdll pre h s post eq_refl) as (Es & Em & En & Ep).
  destruct (neighbours pre h s post Hok Hd) as (CN & CP & CNP).
  assert (Hokh : block_ok (h, s)) by (rewrite Forall_forall in Hok; apply Hok; set_solver +).
  pose proof Hokh as (H1 & H2 & H3 & H4 & H5). simpl in H1, H2, H3, H4, H5.
  pose proof (rd32_range (mem st) h) as Hr. unfold h_size in Es. rewrite Es in Hr.
  rewrite (list_remove_eq st h s (last_addr pre) (hd_addr post)) by (done || lia || naive_solver).
  set (P := last_addr pre) in *. set (N := hd_addr post) in *.
  set (st1 := with_mem _ _).
  assert (CPN : N = 0 ∨ P = 0 ∨ P + 32 ≤ N ∨ N + 32 ≤ P).
  { destruct CNP as [-> | [-> | ?]]; [right; left; done | by left | lia]. }
  assert (Es1 : h_size (mem st1) h = s) by (unfold st1; cbn [mem with_mem]; rdtake).
  rewrite (hand_out_eq h st1 s) by (done || lia).
  set (st2 := with_mem _ st1). exists st2.
  assert (Em2 : mem st2 = memset (wr32 (unlink_mem (mem st) P N) (h + s - 4) s)
    (h + 16) 0 (s - 20)) by done.
  assert (Epg : pages st2 = pages st) by (unfold st2, st1; by destruct (free_list st =? h)).
  assert (Hz : ∀ x, h + 16 ≤ x < h + s - 4 → rd8 (mem st2) x = 0)
    by (intros x Hx; rewrite Em2, rd8_memset_in by lia; done).
  enough (heap_inv st2 (pre ++ [] ++ post) ((h, s) :: live) ∧
    keeps st (pre ++ (h, s) :: post) st2 (pre ++ [] ++ post)) as [? ?] by done.
  apply (take_keeps_inv st st2 pre h s post live s []); rewrite ?Em2; fold P N.
  - done.
  - lia.
  - done.
  - done.
  - unfold st2, st1. destruct pre as [|[a t] pre'].
    + simpl in Hhd. rewrite Hhd, Z.eqb_refl. done.
    + simpl in Hhd. destruct (Z.eqb_spec (free_list st) h) as [E | E]; [| done].
      exfalso. destruct (apart ((a, t) :: pre') h s post a t) as [? | ?]; [done.. | set_solver + | lia | lia].
  - intros x Hx HxP HxN. rewrite rd8_memset_out, rd8_wr32_ne by lia.
    apply rd8_unlink_out.
    + intros HP0. apply HxP. destruct CP as [[_ ?] | [? _]]; done.
    + intros HN0. apply HxN. destruct CN as [[_ ?] | [? _]]; done.
  - intros Hne. destruct CP as [[? _] | (_ & HP & HP2)]; [done |]. simpl app. fold N. rdtake.
  - intros Hne. destruct CN as [[? _] | (_ & HN & HN2)]; [done |]. rewrite app_nil_r. fold P. rdtake.
  - rdtake.
  - rdtake.
  - by left.
Qed.

Lemma take_block_inv st pre h s post live needed :
  heap_inv st (pre ++ (h, s) :: post) live → 32 ≤ needed ≤ s → needed mod 4 = 0 →
  ∃ st' fl' n, take_block needed h st = (h + 16, st') ∧ taken needed pre h s post fl' n ∧
    heap_inv st' fl' ((h, n) :: live) ∧
    (∀ x, h + 16 ≤ x < h + n - 4 → rd8 (mem st') x = 0) ∧ pages st' = pages st ∧
    keeps st (pre ++ (h, s) :: post) st' fl'.
Proof.
  intros Hinv Hn Hn4.
  destruct (hi_dll _ _ _ Hinv pre h s post eq_refl) as (Es & _).
  pose proof (rd32_range (mem st) h) as Hr. unfold h_size in Es.
  unfold take_block, h_size. rewrite Es, (u32_id (s - needed)) by lia.
  destruct (Z.leb_spec 32 (s - needed)) as [Hsp | Hsp].
  - destruct (split_hand_out_inv st pre h s post live needed) as (st' & ? & ?); [done | lia.. |].
    eexists st', _, needed. split; [done |]. split; [by left | done].
  - destruct (unlink_hand_out_inv st pre h s post live) as (st' & ? & ?); [done |].
    eexists st', _, s. split; [done |]. split; [by right | done].
Qed.
End heap_invariant.
(** ** Walking and extending the free list *)

Section heap_operations.
Context {Pg : Type} `{PageAlloc Pg}.
Implicit Types st : machine Pg.

Lemma kmalloc_scan_cases st pre post live needed fuel :
  heap_inv st (pre ++ post) live → (length post < fuel)%nat →
  (Forall (λ b, b.2 < needed) post ∧
   kmalloc_scan fuel needed (hd_addr post) st = Ok None) ∨
  (∃ p1 a s p2, post = p1 ++ (a, s) :: p2 ∧ Forall (λ b, b.2 < needed) p1 ∧ needed ≤ s ∧
   kmalloc_scan fuel needed (hd_addr post) st = Ok (Some (take_block needed a st))).
Proof.
  revert pre fuel. induction post as [|[a s] post IH]; intros pre fuel Hinv Hf;
    (destruct fuel as [|fuel]; [simpl in Hf; lia |]); [by left |].
  destruct (hi_dll _ _ _ Hinv pre a s post eq_refl) as (Es & _ & En & _).
  assert (Ha : 0 < a).
  { pose proof (hi_blocks _ _ _ Hinv) as Hok. rewrite Forall_forall in Hok.
    apply (Hok (a, s)). set_solver +. }
  cbn [hd_addr fst kmalloc_scan]. rewrite Es, En.
  destruct (Z.eqb_spec a 0); [lia |]. destruct (Z.leb_spec needed s) as [Hle | Hgt].
  - right. exists [], a, s, post. split_and!; done.
  - destruct (IH (pre ++ [(a, s)]) fuel) as [[Hall E] | (p1 & a' & s' & p2 & -> & Hp1 & Hs' & E)].
    + by rewrite <- app_assoc.
    + simpl in Hf. lia.
    + left. split; [constructor; done | done].
    + right. exists ((a, s) :: p1), a', s', p2. split_and!; [done | constructor; done | done | done].
Qed.

Lemma list_last_run m pre post fuel :
  dll m (pre ++ post) → Forall block_ok post → post ≠ [] → (length post ≤ fuel)%nat →
  list_last fuel m (hd_addr post) = Ok (last_addr post).
Proof.
  revert pre fuel. induction post as [|[a s] post IH]; intros pre fuel Hdll Hok Hne Hf; [done |].
  destruct fuel as [|fuel]; [simpl in Hf; lia |].
  destruct (Hdll pre a s post eq_refl) as (_ & _ & En & _).
  cbn [hd_addr fst list_last]. rewrite En. inversion Hok as [|? ? _ Hok']; subst.
  destruct post as [|[b t] post'].
  - done.
  - inversion Hok' as [|? ? [Hb _] _]; subst. simpl in Hb. cbn [hd_addr fst].
    destruct (Z.eqb_spec b 0); [lia |].
    rewrite (IH (pre ++ [(a, s)])).
    + done.
    + by rewrite <- app_assoc.
    + done.
    + done.
    + simpl in *. lia.
Qed.

(** The invariant only looks at the headers of blocks: it survives changes of
    memory outside the blocks and allocations of further pages. *)
Lemma heap_inv_frame st st' fl live :
  heap_inv st fl live → free_list st' = free_list st →
  (∀ b x, b ∈ fl ++ live → b.1 ≤ x < b.1 + b.2 → rd8 (mem st') x = rd8 (mem st) x) →
  pa_wf (pages st') → (∀ q, pa_used (pages st) q → pa_used (pages st') q) →
  heap_inv st' fl live.
Proof.
  intros [Hdll Hhd Hok Hd Hwf Hpg Hlive] Efl Hsame Hwf' Hused.
  assert (Hmin : ∀ b, b ∈ fl ++ live → 32 ≤ b.2).
  { intros b Hb. rewrite Forall_forall in Hok. by apply Hok. }
  constructor; [| congruence | done | done | done | |].
  - intros pre a s post E.
    assert (Hin : (a, s) ∈ fl ++ live) by (rewrite E; set_solver +).
    specialize (Hmin _ Hin). simpl in Hmin. destruct (Hdll pre a s post E) as (E1 & E2 & E3 & E4).
    hfields. rewrite <- E1, <- E2, <- E3, <- E4.
    split_and!; apply rd32_ext; intros x Hx; apply (Hsame (a, s)); simpl; done || lia.
  - intros b x Hb Hx. apply Hused. by apply (Hpg b).
  - intros b Hb. destruct (Hlive b Hb) as [E1 E2]. hfields. rewrite <- E1, <- E2.
    specialize (Hmin b ltac:(set_solver)).
    split; apply rd32_ext; intros x Hx; apply (Hsame b); [set_solver | lia | set_solver | lia].
Qed.

(** [list_append] reaches the end of a well-formed list and links [h] there. *)
Definition append_mem (m : memory) (fl : list block) (h : Z) : memory :=
  let m := set_prev h 0 (set_next h 0 m) in
  if decide (fl = []) then m
  else set_prev h (last_addr fl) (set_next (last_addr fl) h m).

Lemma list_append_run st fl h s fuel :
  dll (mem st) fl → free_list st = hd_addr fl → Forall block_ok fl →
  32 ≤ s → Forall (disj (h, s)) fl → (length fl ≤ fuel)%nat →
  ∃ st', list_append fuel h st = Ok st' ∧ pages st' = pages st ∧
    free_list st' = hd_addr (fl ++ [(h, s)]) ∧ mem st' = append_mem (mem st) fl h.
Proof.
  intros Hdll Hhd Hok Hs Hdh Hf. unfold list_append, append_mem. cbn [free_list with_mem]. rewrite Hhd.
  set (m := set_prev h 0 (set_next h 0 (mem st))).
  destruct (decide (fl = [])) as [-> | Hne]; [by eexists |].
  assert (Ha : 0 < hd_addr fl).
  { destruct (hd_addr_in fl Hne) as [t Ht]. rewrite Forall_forall in Hok. by apply (Hok (hd_addr fl, t)). }
  destruct (Z.eqb_spec (hd_addr fl) 0); [lia |].
  rewrite (list_last_run m [] fl); [| | done | done | done].
  - eexists. split_and!; [done | done | | done]. cbn [free_list with_mem]. rewrite Hhd. by destruct fl.
  - intros pre b u post E. cbn [app] in E.
    assert (Hin : (b, u) ∈ fl) by (rewrite E; set_solver +).
    rewrite Forall_forall in Hok, Hdh. destruct (Hok _ Hin) as (_ & Hu & _).
    specialize (Hdh _ Hin). unfold disj in Hdh. simpl in Hu, Hdh.
    destruct (Hdll pre b u post E) as (<- & <- & <- & <-). unfold m. hfields.
    split_and!; rdwr; done.
Qed.

Lemma rd8_append_out m fl h x :
  x < h ∨ h + 16 ≤ x → (fl ≠ [] → ¬ last_addr fl + 8 ≤ x < last_addr fl + 12) →
  rd8 (append_mem m fl h) x = rd8 m x.
Proof.
  intros Hx HxP. unfold append_mem. hfields.
  destruct (decide (fl = [])) as [-> | Hne]; [by rewrite !rd8_wr32_ne by lia |].
  specialize (HxP Hne). by rewrite !rd8_wr32_ne by lia.
Qed.

Lemma list_append_inv st fl live h s fuel :
  heap_inv st fl live → block_ok (h, s) → Forall (disj (h, s)) (fl ++ live) →
  (∀ x, h ≤ x < h + s → pa_used (pages st) (page_of x)) →
  h_size (mem st) h = s → h_magic (mem st) h = HEAP_MAGIC → (length fl ≤ fuel)%nat →
  ∃ st', list_append fuel h st = Ok st' ∧ heap_inv st' (fl ++ [(h, s)]) live ∧
    pages st' = pages st ∧
    (∀ x, foreign st fl x → x < h ∨ h + s ≤ x → rd8 (mem st') x = rd8 (mem st) x).
Proof.
  intros Hinv Hokh Hdh Hpgh Esz Emg Hf. pose proof Hinv as [Hdll Hhd Hok Hd Hwf Hpg Hlive].
  pose proof Hokh as (H1 & H2 & H3 & H4 & H5). simpl in H1, H2, H3, H4, H5.
  pose proof Hok as [Hokf Hokl]%Forall_app. pose proof Hd as (Hdf & Hdl & Hdx)%pw_disj_app.
  pose proof Hdh as [Hdhf Hdhl]%Forall_app.
  destruct (list_append_run st fl h s fuel) as (st' & Erun & Epg & Efl & Em); [done.. |].
  exists st'. split; [done |]. rewrite Forall_forall in Hokf, Hokl, Hdhf, Hdhl.
  assert (Hla : fl ≠ [] → 0 < last_addr fl ∧ last_addr fl + 32 ≤ W32 ∧
    (last_addr fl + 32 ≤ h ∨ h + s ≤ last_addr fl)).
  { intros Hne. destruct (last_addr_in fl Hne) as [t Ht].
    pose proof (Hdhf _ Ht) as Hx. destruct (Hokf _ Ht) as (? & ? & ? & _).
    unfold disj in Hx. simpl in *. lia. }
  assert (Hkeep : ∀ x, foreign st fl x → x < h ∨ h + s ≤ x → rd8 (mem st') x = rd8 (mem st) x).
  { intros x [_ Hx] Hxh. rewrite Em. apply rd8_append_out; [lia |].
    intros Hne. destruct (last_addr_in fl Hne) as [t Ht]. specialize (Hx _ Ht).
    destruct (Hokf _ Ht) as (_ & ? & _). simpl in *. lia. }
  assert (Hlv : ∀ b x, b ∈ live → b.1 ≤ x < b.1 + b.2 → rd8 (mem st') x = rd8 (mem st) x).
  { intros b x Hb Hx. apply Hkeep; [by apply (live_foreign st fl live b) |].
    specialize (Hdhl _ Hb). unfold disj in Hdhl. simpl in Hdhl. lia. }
  split_and!; [| done | done].
  assert (Hp : (fl ++ [(h, s)]) ++ live ≡ₚ (h, s) :: fl ++ live)
    by (rewrite <- app_assoc; symmetry; apply (Permutation_middle fl live)).
  constructor.
  - apply (relink (mem st) _ fl [] [(h, s)] []);
      rewrite ?app_nil_r; [done | by apply Forall_forall | done | | | done |]; rewrite ?Em.
    + intros a t x Ha Hx HxP _. apply rd8_append_out; [| done].
      specialize (Hdhf _ Ha). destruct (Hokf _ Ha) as (_ & ? & _). unfold disj in Hdhf. simpl in *. lia.
    + intros Hne. specialize (Hla Hne). unfold append_mem. hfields.
      destruct (decide (fl = [])); [done |]. rdwr. done.
    + right. exists h, s. split; [done |]. unfold append_mem. hfields.
      destruct (decide (fl = [])) as [-> | Hne].
      * rdwr. done.
      * specialize (Hla Hne). split_and!; rdwr; done.
  - done.
  - rewrite Hp. by constructor.
  - rewrite Hp. by split.
  - by rewrite Epg.
  - intros b x Hb Hx. rewrite Epg. rewrite Hp in Hb. apply elem_of_cons in Hb as [-> | Hb].
    + by apply Hpgh.
    + by apply (Hpg b).
  - intros b Hb. destruct (Hlive b Hb) as [<- <-]. destruct (Hokl b Hb) as (_ & ? & _).
    hfields. split; apply rd32_ext; intros x Hx; apply (Hlv b); done || lia.
Qed.

(** ** Growing the heap *)

(** A region in pages the heap did not own is disjoint from all its blocks. *)
Lemma fresh_disj st fl live h s :
  heap_inv st fl live → 0 < s →
  (∀ x, h ≤ x < h + s → ¬ pa_used (pages st) (page_of x)) →
  Forall (disj (h, s)) (fl ++ live).
Proof.
  intros Hinv Hs Hfresh. apply Forall_forall. intros [a t] Hb. unfold disj. simpl.
  destruct (Z_le_gt_dec (h + s) a); [by left |]. destruct (Z_le_gt_dec (a + t) h); [by right |].
  exfalso. pose proof (hi_blocks _ _ _ Hinv) as Hok. rewrite Forall_forall in Hok.
  destruct (Hok _ Hb) as (_ & ? & _). simpl in *.
  apply (Hfresh (Z.max a h)); [lia |]. apply (hi_pages _ _ _ Hinv (a, t)); [done | simpl; lia].
Qed.

(** Appending a region whose header and footer were written before. *)
Lemma append_written_inv st st1 fl live h s fuel :
  heap_inv st fl live → block_ok (h, s) → Forall (disj (h, s)) (fl ++ live) →
  (∀ x, h ≤ x < h + s → pa_used (pages st) (page_of x)) → (length fl ≤ fuel)%nat →
  free_list st1 = free_list st → pages st1 = pages st →
  (∀ x, x < h ∨ h + s ≤ x → rd8 (mem st1) x = rd8 (mem st) x) →
  h_size (mem st1) h = s → h_magic (mem st1) h = HEAP_MAGIC →
  ∃ st', list_append fuel h st1 = Ok st' ∧
    heap_inv st' (fl ++ [(h, s)]) live ∧ pages st' = pages st ∧
    (∀ x, foreign st fl x → x < h ∨ h + s ≤ x → rd8 (mem st') x = rd8 (mem st) x).
Proof.
  intros Hinv Hokh Hdh Hpg Hf Efl Epg1 Hout Esz Emg. pose proof Hdh as Hdh'.
  rewrite Forall_forall in Hdh'.
  assert (Hall : ∀ b x, b ∈ fl ++ live → b.1 ≤ x < b.1 + b.2 → rd8 (mem st1) x = rd8 (mem st) x).
  { intros b x Hb Hx. apply Hout. specialize (Hdh' b Hb). unfold disj in Hdh'. simpl in Hdh'. lia. }
  destruct (list_append_inv st1 fl live h s fuel) as (st' & E & Hinv' & Epg & Hk); try done.
  - apply (heap_inv_frame st); [done | done | done | rewrite Epg1; apply Hinv | by rewrite Epg1].
  - by rewrite Epg1.
  - exists st'. split_and!; [done | done | congruence |]. intros x [Hu Hx] Hxh.
    rewrite Hk; [by apply Hout | split; [by rewrite Epg1 | done] | done].
Qed.

(** Writing the header and footer of a new block and appending it. *)
Lemma add_block_inv st fl live h s he fuel :
  heap_inv st fl live → block_ok (h, s) → s < W32 → Forall (disj (h, s)) (fl ++ live) →
  (∀ x, h ≤ x < h + s → pa_used (pages st) (page_of x)) → (length fl ≤ fuel)%nat →
  let m := set_magic h HEAP_MAGIC (set_size h s (mem st)) in
  ∃ st', list_append fuel h (with_mem (set_footer h m) (with_heap_end he st)) = Ok st' ∧
    heap_inv st' (fl ++ [(h, s)]) live ∧ pages st' = pages st ∧
    (∀ x, foreign st fl x → x < h ∨ h + s ≤ x → rd8 (mem st') x = rd8 (mem st) x).
Proof.
  intros Hinv Hokh Hs Hdh Hpg Hf m.
  pose proof Hokh as (H1 & H2 & H3 & H4 & H5). simpl in H1, H2, H3, H4, H5.
  assert (Em : set_footer h m = wr32 (wr32 (wr32 (mem st) h s) (h + 4) HEAP_MAGIC) (h + s - 4) s).
  { rewrite (set_footer_eq h m s); [done | | lia..]. unfold m. hfields. rdwr. done. }
  apply (append_written_inv st); try done; cbn [mem with_mem]; rewrite Em.
  - intros x Hx. by rewrite !rd8_wr32_ne by lia.
  - hfields. rdwr. done.
  - hfields. rdwr. done.
Qed.

(** A new block in pages that were free. *)
Lemma add_page_keeps st st1 st' fl h s :
  (∀ q, pa_used (pages st) q → pa_used (pages st1) q) → mem st1 = mem st → pages st' = pages st1 →
  (∀ x, h ≤ x < h + s → ¬ pa_used (pages st) (page_of x)) →
  (∀ x, foreign st1 fl x → x < h ∨ h + s ≤ x → rd8 (mem st') x = rd8 (mem st1) x) →
  keeps st fl st' (fl ++ [(h, s)]).
Proof.
  intros Hu Em Epg Hfresh Hk x [Hxu Hx].
  assert (Hxh : x < h ∨ h + s ≤ x).
  { destruct (Z_lt_ge_dec x h); [by left |]. destruct (Z_lt_ge_dec x (h + s)); [| right; lia]. exfalso. by apply (Hfresh x); [lia |]. }
  split; [split; [rewrite Epg; by apply Hu |] | rewrite <- Em; apply Hk; [split; [by apply Hu | done] | done]].
  intros b [Hb | ->%list_elem_of_singleton]%elem_of_app; [by apply Hx | simpl; lia].
Qed.

(** The pages [grow_contiguous] collects when it succeeds; when it fails it
    still forgets no page that was in use before. *)
Lemma grow_contiguous_cases n i first pg ok pg' :
  pa_wf pg → page_addr (first + (i - 1) * 4096) → grow_contiguous n i first pg = (ok, pg') →
  pa_wf pg' ∧ (∀ q, pa_used pg q → pa_used pg' q) ∧
  (ok = true → first + (i + Z.of_nat n) * 4096 ≤ W32 ∧
     ∀ k, i ≤ k < i + Z.of_nat n →
       ¬ pa_used pg (first + k * 4096) ∧ pa_used pg' (first + k * 4096)).
Proof.
  revert i pg. induction n as [|n IH]; intros i pg Hwf Hi E; simpl in E.
  { inversion E; subst. unfold page_addr in Hi. split_and!; [done | done |]. intros _.
    split; [lia | intros k Hk; lia]. }
  destruct (pa_alloc pg) as [page pg1] eqn:Ea. destruct (Z.eqb_spec page 0) as [-> | Hnz].
  { inversion E; subst. rewrite (pa_alloc_null pg pg' Hwf Ea). split_and!; done. }
  destruct (pa_alloc_ok pg page pg1 Hwf Ea Hnz) as (Hwf1 & Hpa & Hnew & Hu).
  destruct (Z.eqb_spec page (u32 (first + i * 4096))) as [Epage | Hne]; simpl in E.
  - assert (Hpage : page = first + i * 4096).
    { unfold page_addr in Hi, Hpa. unfold u32 in Epage. mlia. }
    destruct (IH (i + 1) pg1) as (Hwf' & Hmono & Hok); [done | by replace (i + 1 - 1) with i by lia; rewrite <- Hpage | done |].
    split_and!; [done | intros q Hq; apply Hmono, Hu; by right |].
    intros Htrue. destruct (Hok Htrue) as [Htop Hk]. split; [lia |].
    intros k Hk2. destruct (Z.eq_dec k i) as [-> | Hki].
    + rewrite <- Hpage. split; [done |]. apply Hmono, Hu. by left.
    + destruct (Hk k ltac:(lia)) as [Hn Hy]. split; [| done].
      intros Hq. apply Hn, Hu. by right.
  - inversion E; subst. destruct (pa_free_ok pg1 page Hwf1 Hpa) as [Hwf2 Hu2]; [apply Hu; by left |].
    split_and!; [done | | done]. intros q Hq. apply Hu2. split; [apply Hu; by right |]. by intros ->.
Qed.

Lemma grow_scattered_inv n fuel st fl live :
  heap_inv st fl live → (length fl + n ≤ fuel)%nat →
  ∃ st' ext, grow_scattered n fuel st = Ok st' ∧ heap_inv st' (fl ++ ext) live ∧
    (length ext ≤ n)%nat ∧ keeps st fl st' (fl ++ ext).
Proof.
  revert st fl. induction n as [|n IH]; intros st fl Hinv Hf; cbn [grow_scattered].
  { exists st, []. rewrite app_nil_r. split_and!; done. }
  destruct (pa_alloc (pages st)) as [page pg] eqn:Ea. pose proof (hi_wf _ _ _ Hinv) as Hwf.
  destruct (Z.eqb_spec page 0) as [-> | Hnz].
  { rewrite (pa_alloc_null _ _ Hwf Ea). exists (with_pages (pages st) st), [].
    rewrite app_nil_r. split_and!; [done | | simpl; lia | done].
    apply (heap_inv_frame st); done. }
  destruct (pa_alloc_ok _ page pg Hwf Ea Hnz) as (Hwf1 & Hpa & Hnew & Hu).
  unfold page_addr in Hpa.
  assert (Hpo : ∀ x, page ≤ x < page + 4096 → page_of x = page) by (intros; apply page_of_inside; lia).
  destruct (add_block_inv (with_pages pg st) fl live page 4096 (u32 (page + 4096)) fuel)
    as (st1 & E1 & Hinv1 & Epg1 & Hk1).
  - apply (heap_inv_frame st); [done | done | done | done |]. intros q Hq. apply Hu. by right.
  - unfold block_ok. simpl. mlia.
  - lia.
  - apply (fresh_disj st); [done | lia |]. intros x Hx. by rewrite Hpo.
  - intros x Hx. rewrite Hpo by done. apply Hu. by left.
  - lia.
  - rewrite E1. cbn [obind]. destruct (IH st1 (fl ++ [(page, 4096)])) as (st' & ext & E & Hinv' & Hl & Hk).
    + done.
    + rewrite length_app. simpl. lia.
    + exists st', ((page, 4096) :: ext). rewrite <- app_assoc in Hinv', Hk. split_and!; [done | done | simpl; lia |].
      apply (keeps_trans _ _ st1 (fl ++ [(page, 4096)])); [| done].
      apply (add_page_keeps st (with_pages pg st) st1 fl page 4096); try done.
      * intros q Hq. apply Hu. by right.
      * intros x Hx. by rewrite Hpo.
Qed.

(** Sixteen pages in a row become one block. *)
Lemma heap_grow_contiguous fuel st fl live first pg pg' :
  heap_inv st fl live → (length fl ≤ fuel)%nat → pa_alloc (pages st) = (first, pg) → first ≠ 0 →
  grow_contiguous 15 1 first pg = (true, pg') →
  ∃ st', heap_grow fuel st = Ok st' ∧ heap_inv st' (fl ++ [(first, 65536)]) live ∧ pages st' = pg' ∧
    keeps st fl st' (fl ++ [(first, 65536)]).
Proof.
  intros Hinv Hf Ea Hnz Eg. unfold heap_grow. change ((65536 + 4095) / 4096) with 16. pose proof (hi_wf _ _ _ Hinv) as Hwf.
  rewrite Ea. destruct (Z.eqb_spec first 0); [done |].
  destruct (pa_alloc_ok _ first pg Hwf Ea Hnz) as (Hwf1 & Hpa & Hnew & Hu).
  cbn [pages with_pages]. change (Z.to_nat (16 - 1)) with 15%nat. rewrite Eg. cbn [negb].
  destruct (grow_contiguous_cases 15 1 first pg true pg' Hwf1) as (Hwf2 & Hmono & Hok);
    [by replace (first + (1 - 1) * 4096) with first by lia | done |].
  destruct (Hok eq_refl) as [Htop Hk]. unfold page_addr in Hpa.
  assert (Hreg : ∀ x, first ≤ x < first + 65536 →
    ¬ pa_used (pages st) (page_of x) ∧ pa_used pg' (page_of x)).
  { intros x Hx. set (k := (x - first) / 4096).
    assert (Hpo : page_of x = first + k * 4096) by (apply page_of_inside; unfold k; mlia).
    rewrite Hpo. destruct (Z.eq_dec k 0) as [-> | Hk0].
    - replace (first + 0 * 4096) with first by lia. split; [done |]. apply Hmono, Hu. by left.
    - destruct (Hk k ltac:(unfold k in *; mlia)) as [Hn Hy]. split; [| done].
      intros Hq. apply Hn, Hu. by right. }
  destruct (add_block_inv (with_pages pg' (with_pages pg st)) fl live first 65536
    (u32 (first + h_size (set_magic first HEAP_MAGIC (set_size first 65536 (mem st))) first)) fuel)
    as (st' & E & Hinv' & Epg' & Hk').
  - apply (heap_inv_frame st); [done | done | done | done |]. intros q Hq. apply Hmono, Hu. by right.
  - unfold block_ok. simpl. mlia.
  - lia.
  - apply (fresh_disj st); [done | lia |]. intros x Hx. by apply Hreg.
  - intros x Hx. by apply Hreg.
  - lia.
  - exists st'. split_and!; [exact E | done | exact Epg' |].
    apply (add_page_keeps st (with_pages pg' (with_pages pg st)) st' fl first 65536); try done.
    + intros q Hq. apply Hmono, Hu. by right.
    + intros x Hx. by apply Hreg.
Qed.

Lemma heap_grow_inv fuel st fl live :
  heap_inv st fl live → (length fl + 16 ≤ fuel)%nat →
  ∃ st' ext, heap_grow fuel st = Ok st' ∧ heap_inv st' (fl ++ ext) live ∧
    (length ext ≤ 16)%nat ∧ keeps st fl st' (fl ++ ext).
Proof.
  intros Hinv Hf. destruct (pa_alloc (pages st)) as [first pg] eqn:Ea. pose proof (hi_wf _ _ _ Hinv) as Hwf.
  destruct (Z.eq_dec first 0) as [-> | Hnz].
  { unfold heap_grow. rewrite Ea. cbn [Z.eqb].
    rewrite (pa_alloc_null _ _ Hwf Ea). exists (with_pages (pages st) st), [].
    rewrite app_nil_r. split_and!; [done | | simpl; lia | done].
    apply (heap_inv_frame st); done. }
  destruct (grow_contiguous 15 1 first pg) as [[] pg'] eqn:Eg.
  { destruct (heap_grow_contiguous fuel st fl live first pg pg') as (st' & E & Hinv' & _ & Hk); try done; [lia |].
    exists st', [(first, 65536)]. split_and!; [done | done | simpl; lia | done]. }
  unfold heap_grow. change ((65536 + 4095) / 4096) with 16. rewrite Ea. destruct (Z.eqb_spec first 0); [done |].
  cbn [pages with_pages]. change (Z.to_nat (16 - 1)) with 15%nat. rewrite Eg. cbn [negb]. change (Z.to_nat 16) with 16%nat.
  destruct (pa_alloc_ok _ first pg Hwf Ea Hnz) as (Hwf1 & Hpa & Hnew & Hu).
  destruct (grow_contiguous_cases 15 1 first pg false pg' Hwf1) as (Hwf2 & Hmono & _);
    [by replace (first + (1 - 1) * 4096) with first by lia | done |].
  assert (Hinv1 : heap_inv (with_pages pg' (with_pages pg st)) fl live).
  { apply (heap_inv_frame st); [done | done | done | done |].
    intros q Hq. apply Hmono, Hu. by right. }
  destruct (grow_scattered_inv 16 fuel _ fl live Hinv1) as (st' & ext & E & Hinv' & Hl & Hk'); [lia |].
  exists st', ext. split_and!; [done | done | done |]. intros x [Hxu Hx]. apply Hk'. split; [| done].
  cbn [pages with_pages]. apply Hmono, Hu. by right.
Qed.
End heap_operations.

(** ** [kmalloc] *)

Lemma land_lnot7 x : Z.land x (Z.lnot 7) = x - x mod 8.
Proof.
  rewrite <- Z.ldiff_land. change 7 with (Z.ones 3).
  rewrite Z.ldiff_ones_r, Z.shiftl_mul_pow2, Z.shiftr_div_pow2 by lia.
  change (2 ^ 3) with 8. mlia.
Qed.

Lemma kmalloc_needed_spec size :
  0 < size < W32 →
  32 ≤ kmalloc_needed size ∧ kmalloc_needed size mod 4 = 0 ∧
  (size ≤ W32 - 24 → size + 20 ≤ kmalloc_needed size ≤ Z.max 32 (size + 27)).
Proof.
  intros Hs. unfold kmalloc_needed. rewrite land_lnot7.
  destruct (Z_le_gt_dec size (W32 - 24)) as [Hle | Hgt].
  - rewrite (u32_id (size + 7)), u32_id by mlia. zcase; mlia.
  - pose proof (u32_range (size + 7)). pose proof (u32_range (u32 (size + 7) - u32 (size + 7) mod 8 + 16 + 4)).
    zcase; [split_and!; [lia | done | lia] |]. split; [lia |]. split; [| lia]. unfold u32. mlia.
Qed.

Section kmalloc_theorems.
Context {Pg : Type} `{PageAlloc Pg}.
Implicit Types st : machine Pg.

(** A block handed out starts where no other live block starts. *)
Lemma live_fresh st fl live p n q m :
  heap_inv st fl ((p - 16, n) :: live) → (q - 16, m) ∈ live → q ≠ p.
Proof.
  intros Hinv Hm ->. pose proof (hi_disj _ _ _ Hinv) as (_ & [Hd _] & _)%pw_disj_app.
  rewrite Forall_forall in Hd. specialize (Hd _ Hm). pose proof (hi_blocks _ _ _ Hinv) as [_ Hok]%Forall_app.
  rewrite Forall_forall in Hok. destruct (Hok (p - 16, n)) as (_ & ? & _); [set_solver + |].
  destruct (Hok (p - 16, m)) as (_ & ? & _); [set_solver |]. unfold disj in Hd. simpl in *. lia.
Qed.

(** What a call of [kmalloc] for a block of [needed] bytes leaves behind. *)
Definition kmalloc_post st (fl live : list block) (needed p : Z) st' : Prop :=
  ∃ fl',
    (p = 0 ∧ heap_inv st' fl' live ∧ Forall (λ b, b.2 < needed) fl' ∨
     ∃ n, p ≠ 0 ∧ heap_inv st' fl' ((p - 16, n) :: live) ∧ needed ≤ n ∧
       (∀ x, p ≤ x < p + n - 20 → rd8 (mem st') x = 0)) ∧
    keeps st fl st' fl'.

Lemma scan_post st st0 fl0 fl live needed fuel :
  heap_inv st fl live → 32 ≤ needed → needed mod 4 = 0 → (length fl < fuel)%nat → keeps st0 fl0 st fl →
  (kmalloc_scan fuel needed (free_list st) st = Ok None ∧ Forall (λ b, b.2 < needed) fl) ∨
  (∃ p st', kmalloc_scan fuel needed (free_list st) st = Ok (Some (p, st')) ∧
     kmalloc_post st0 fl0 live needed p st').
Proof.
  intros Hinv Hn Hn4 Hf Hst0. rewrite (hi_head _ _ _ Hinv).
  destruct (kmalloc_scan_cases st [] fl live needed fuel Hinv Hf)
    as [[Hall E] | (p1 & a & s & p2 & -> & Hp1 & Hs & E)]; [by left | right].
  destruct (take_block_inv st p1 a s p2 live needed) as (st' & fl' & n & Et & Ht & Hinv' & Hz & _ & Hk);
    [done | lia | done |].
  exists (a + 16), st'. rewrite E, Et. split; [done |]. exists fl'. split.
  - right. exists n. replace (a + 16 - 16) with a by lia.
    pose proof (hi_blocks _ _ _ Hinv') as Hok. apply Forall_app in Hok as [_ Hok].
    apply Forall_cons in Hok as [(? & _) _]. simpl in *.
    split_and!; [lia | done | destruct Ht; lia | intros x Hx; apply Hz; lia].
  - by apply (keeps_trans _ _ st (p1 ++ (a, s) :: p2)).
Qed.

Lemma kmalloc_run st fl live size fuel :
  heap_inv st fl live → 0 < size < W32 → (length fl + 16 < fuel)%nat →
  ∃ p st', kmalloc fuel size st = Ok (p, st') ∧ kmalloc_post st fl live (kmalloc_needed size) p st'.
Proof.
  intros Hinv Hs Hf. destruct (kmalloc_needed_spec size Hs) as (Hn & Hn4 & _).
  unfold kmalloc. destruct (Z.eqb_spec size 0); [lia |].
  destruct (scan_post st st fl fl live (kmalloc_needed size) fuel)
    as [[E _] | (p & st' & E & Hp)]; [done | done | done | lia | apply keeps_refl | |];
    rewrite E; cbn [obind]; [| by exists p, st'].
  destruct (heap_grow_inv fuel st fl live) as (st1 & ext & E1 & Hinv1 & Hl & Hk); [done | lia |].
  rewrite E1. cbn [obind].
  destruct (scan_post st1 st fl (fl ++ ext) live (kmalloc_needed size) fuel)
    as [[E2 Hall] | (p & st' & E2 & Hp)]; [done | done | done | rewrite length_app; lia | done | |];
    rewrite E2; cbn [obind]; [| by exists p, st'].
  exists 0, st1. split; [done |]. exists (fl ++ ext). split; [by left | done].
Qed.

(** Null means that no block of the free list was large enough. *)
Lemma kmalloc_null st fl live size fuel st' :
  heap_inv st fl live → 0 < size < W32 → (length fl + 16 < fuel)%nat →
  kmalloc fuel size st = Ok (0, st') → Forall (λ b, b.2 < kmalloc_needed size) fl.
Proof.
  intros Hinv Hs Hf. destruct (kmalloc_needed_spec size Hs) as (Hn & Hn4 & _).
  unfold kmalloc. destruct (Z.eqb_spec size 0); [lia |].
  destruct (scan_post st st fl fl live (kmalloc_needed size) fuel)
    as [[E Hall] | (p & st1 & E & fl' & Hp & _)]; [done | done | done | lia | apply keeps_refl | done |].
  rewrite E. cbn [obind]. intros Er. injection Er as -> ->.
  destruct Hp as [(_ & _ & _) | (m & Hne & _)]; [| done].
  destruct (kmalloc_scan_cases st [] fl live (kmalloc_needed size) fuel Hinv ltac:(lia))
    as [[Hall _] | (p1 & b & s & p2 & -> & Hp1 & Hsz & E')]; [done |].
  rewrite (hi_head _ _ _ Hinv), E' in E.
  destruct (take_block_inv st p1 b s p2 live (kmalloc_needed size)) as (st2 & fl2 & m & Et & _ & Hinv' & _); [done | lia | done |].
  rewrite Et in E. injection E as Eb _. pose proof (hi_blocks _ _ _ Hinv') as Hok. apply Forall_app in Hok as [_ Hok].
  apply Forall_cons in Hok as [(? & _) _]. simpl in *. lia.
Qed.

Lemma kmalloc_init_inv st :
  pa_wf (pages st) → fst (pa_alloc (pages st)) ≠ 0 →
  ∃ st', kmalloc_init st = Ok st' ∧ heap_inv st' [(fst (pa_alloc (pages st)), 4096)] [].
Proof.
  intros Hwf Hne. unfold kmalloc_init. destruct (pa_alloc (pages st)) as [p pg] eqn:Ea. simpl in Hne |- *.
  destruct (Z.eqb_spec p 0); [done |].
  destruct (pa_alloc_ok _ p pg Hwf Ea Hne) as (Hwf1 & Hpa & _ & Hu). unfold page_addr in Hpa.
  eexists. split; [reflexivity |]. constructor; cbn [mem with_mem with_free_list with_heap_end pages free_list].
  - intros pre a s post E. destruct pre as [|? [|]]; [| by inversion E | by inversion E].
    inversion E; subst. rewrite (set_footer_eq _ _ 4096); [| hfields; rdwr; done | lia..].
    hfields. split_and!; rdwr; done.
  - done.
  - constructor; [unfold block_ok; simpl; mlia | done].
  - split; done.
  - done.
  - intros b x [-> | []%not_elem_of_nil]%elem_of_cons Hx. simpl in Hx.
    rewrite (page_of_inside p) by lia. apply Hu. by left.
  - intros b []%not_elem_of_nil.
Qed.

(** ** Properties *)

(** C1: on a well-formed heap [kmalloc] of any size returns within a bound
    given by the length of the free list. It returns null only when no free
    block is large enough even after growing the heap; otherwise the result is
    the zeroed payload of a block of at least the size it looks for, disjoint
    from every free block and from every block handed out before. The heap stays
    well formed, and no byte changes outside of the free blocks and of pages
    that nobody used: live blocks, page tables and stacks are kept. *)
Theorem kmalloc_correct st fl live size fuel :
  heap_inv st fl live → 0 < size < W32 → (length fl + 16 < fuel)%nat →
  ∃ p st' fl', kmalloc fuel size st = Ok (p, st') ∧
    (p = 0 ∧ heap_inv st' fl' live ∧ Forall (λ b, b.2 < kmalloc_needed size) fl' ∨
     ∃ n, p ≠ 0 ∧ heap_inv st' fl' ((p - 16, n) :: live) ∧ kmalloc_needed size ≤ n ∧
       (size ≤ W32 - 24 → size ≤ n - 20) ∧
       (∀ x, p ≤ x < p + n - 20 → rd8 (mem st') x = 0)) ∧
    (∀ b x, b ∈ live → b.1 ≤ x < b.1 + b.2 → rd8 (mem st') x = rd8 (mem st) x) ∧
    keeps st fl st' fl'.
Proof.
  intros Hinv Hs Hf. destruct (kmalloc_run st fl live size fuel Hinv Hs Hf) as (p & st' & E & fl' & Hp & Hk).
  exists p, st', fl'. split; [done |]. split; [| split; [by apply (keeps_live st fl live _ fl') | done]].
  destruct Hp as [Hp | (n & Hp0 & Hinv' & Hn & Hz)]; [by left | right].
  destruct (kmalloc_needed_spec size Hs) as (_ & _ & Hsz).
  exists n. split_and!; [done | done | done | | done]. intros Hle. specialize (Hsz Hle). lia.
Qed.

(** One client call that succeeded: the new block joins the live ones. *)
Inductive kmalloc_step : machine Pg * list block → machine Pg * list block → Prop :=
| step_kmalloc st live size fuel p st' :
    0 < size < W32 → kmalloc fuel size st = Ok (p, st') → p ≠ 0 →
    kmalloc_step (st, live) (st', (p - 16, h_size (mem st') (p - 16)) :: live)
| step_null st live size fuel st' :
    0 < size < W32 → kmalloc fuel size st = Ok (0, st') → kmalloc_step (st, live) (st', live).

(** More fuel does not change the result of a call that returned. *)
Lemma kmalloc_scan_mono f f' needed h st r :
  (f ≤ f')%nat → kmalloc_scan f needed h st = Ok r → kmalloc_scan f' needed h st = Ok r.
Proof.
  revert f' h. induction f as [|f IH]; intros f' h Hle E; [done |].
  destruct f' as [|f']; [lia |]. simpl in *.
  destruct (h =? 0); [done |]. destruct (needed <=? h_size (mem st) h); [done |].
  apply IH; [lia | done].
Qed.

Lemma list_append_mono f f' h st r :
  (f ≤ f')%nat → list_append f h st = Ok r → list_append f' h st = Ok r.
Proof.
  intros Hle. unfold list_append. cbv zeta. destruct (_ =? 0); [done |].
  apply obind_mono; [| done]. intros a. clear r. revert f' Hle.
  generalize (free_list (with_mem (set_prev h 0 (set_next h 0 (mem st))) st)).
  induction f as [|f IH]; intros l f' Hle E; [done |].
  destruct f' as [|f']; [lia |]. cbn [list_last] in *. destruct (_ =? 0); [done |].
  apply IH; [lia | done].
Qed.

Lemma heap_grow_mono f f' st r :
  (f ≤ f')%nat → heap_grow f st = Ok r → heap_grow f' st = Ok r.
Proof.
  intros Hle. unfold heap_grow. destruct (pa_alloc (pages st)) as [first pg].
  destruct (first =? 0); [done |]. destruct (grow_contiguous _ _ _ _) as [[] pg']; cbn [negb].
  - by apply list_append_mono.
  - generalize (with_pages pg' (with_pages pg st)). generalize (Z.to_nat ((65536 + 4095) / 4096)).
    intros n. revert r. induction n as [|n IH]; intros r st1; simpl; [done |].
    destruct (pa_alloc (pages st1)) as [page pg1]. destruct (page =? 0); [done |].
    apply obind_mono; [intros a; by apply list_append_mono | intros a; apply IH].
Qed.

Lemma kmalloc_mono f f' size st r :
  (f ≤ f')%nat → kmalloc f size st = Ok r → kmalloc f' size st = Ok r.
Proof.
  intros Hle. unfold kmalloc. destruct (size =? 0); [done |].
  apply obind_mono; [intros a; by apply kmalloc_scan_mono |]. intros [res|]; [done |].
  apply obind_mono; [intros a; by apply heap_grow_mono |]. intros st1.
  apply obind_mono; [intros a; by apply kmalloc_scan_mono | done].
Qed.

(** The effect of any call that returned. *)
Lemma kmalloc_ok st fl live size fuel p st' :
  heap_inv st fl live → 0 < size < W32 → kmalloc fuel size st = Ok (p, st') →
  kmalloc_post st fl live (kmalloc_needed size) p st'.
Proof.
  intros Hinv Hs E.
  destruct (kmalloc_run st fl live size (Nat.max fuel (length fl + 17)) Hinv Hs) as (p' & st2 & E' & Hp); [lia |].
  rewrite (kmalloc_mono fuel (Nat.max fuel (length fl + 17)) size st (p, st')) in E' by (lia || done).
  by inversion E'; subst.
Qed.

(** The first free block is split when it is large enough. *)
(** The first block that is large enough is split. *)
Lemma kmalloc_first st pre h s post live size fuel (n := kmalloc_needed size) :
  heap_inv st (pre ++ (h, s) :: post) live → 0 < size < W32 → Forall (λ b, b.2 < n) pre → n + 32 ≤ s →
  (length (pre ++ (h, s) :: post) < fuel)%nat →
  ∃ st', kmalloc_scan fuel n (free_list st) st = Ok (Some (h + 16, st')) ∧
    kmalloc fuel size st = Ok (h + 16, st') ∧
    heap_inv st' (pre ++ (h + n, s - n) :: post) ((h, n) :: live) ∧ pages st' = pages st ∧
    keeps st (pre ++ (h, s) :: post) st' (pre ++ (h + n, s - n) :: post).
Proof.
  intros Hinv Hs Hpre Hn Hf. destruct (kmalloc_needed_spec size Hs) as (Hn1 & Hn2 & _). fold n in Hn1, Hn2.
  destruct (take_block_inv st pre h s post live n) as (st' & fl' & n' & Et & Ht & Hinv' & _ & Hp & Hk);
    [done | lia | done |].
  destruct Ht as [(_ & -> & ->) | (? & _)]; [| lia]. exists st'.
  assert (E : kmalloc_scan fuel n (free_list st) st = Ok (Some (h + 16, st'))).
  { rewrite (hi_head _ _ _ Hinv).
    destruct (kmalloc_scan_cases st [] (pre ++ (h, s) :: post) live n fuel Hinv Hf)
      as [[Hall _] | (p1 & a & s' & p2 & E & Hp1 & Hs' & ->)].
    - apply Forall_app in Hall as [_ Hall]. apply Forall_cons in Hall as [Hall _]. simpl in Hall. lia.
    - rewrite <- Et. do 2 f_equal. rewrite Forall_forall in Hpre, Hp1.
      apply app_eq_inv in E as [(l & -> & E) | (l & -> & E)].
      + destruct l as [|b l]; [by injection E as -> _ |]. injection E as <- _.
        specialize (Hpre (a, s') ltac:(set_solver +)). simpl in Hpre. lia.
      + destruct l as [|b l]; [by injection E as -> _ |]. injection E as <- _.
        specialize (Hp1 (h, s) ltac:(set_solver +)). simpl in Hp1. lia. }
  split; [done |]. split; [| done].
  unfold kmalloc. destruct (Z.eqb_spec size 0); [lia |]. fold n. by rewrite E.
Qed.

Lemma kmalloc_head st h s fl live size fuel :
  heap_inv st ((h, s) :: fl) live → 0 < size < W32 → kmalloc_needed size + 32 ≤ s → (0 < fuel)%nat →
  ∃ st', kmalloc fuel size st = Ok (h + 16, st') ∧
    heap_inv st' ((h + kmalloc_needed size, s - kmalloc_needed size) :: fl) ((h, kmalloc_needed size) :: live) ∧
    pages st' = pages st ∧
    keeps st ((h, s) :: fl) st' ((h + kmalloc_needed size, s - kmalloc_needed size) :: fl).
Proof.
  intros Hinv Hs Hn Hf. destruct fuel as [|fuel]; [lia |].
  destruct (kmalloc_needed_spec size Hs) as (Hn1 & Hn2 & _).
  destruct (take_block_inv st [] h s fl live (kmalloc_needed size)) as (st' & fl' & n & Et & Ht & Hinv' & _ & Hp & Hk);
    [done | lia | done |].
  destruct (hi_dll _ _ _ Hinv [] h s fl eq_refl) as (Es & _).
  pose proof (hi_blocks _ _ _ Hinv) as Hok. apply Forall_cons in Hok as [(Hh & _) _]. simpl in Hh.
  exists st'. unfold kmalloc. destruct (Z.eqb_spec size 0); [lia |].
  rewrite (hi_head _ _ _ Hinv). cbn [hd_addr fst kmalloc_scan]. rewrite Es, Et.
  destruct (Z.eqb_spec h 0); [lia |]. destruct (Z.leb_spec (kmalloc_needed size) s); [| lia]. split; [done |].
  destruct Ht as [(_ & -> & ->) | (? & _)]; [done | lia].
Qed.

(** When no block is large enough and sixteen pages in a row are free, the new block is
    taken from them. *)
Lemma kmalloc_grows st fl live size fuel first pg pg' (n := kmalloc_needed size) :
  heap_inv st fl live → 0 < size < W32 → Forall (λ b, b.2 < n) fl → n + 32 ≤ 65536 →
  pa_alloc (pages st) = (first, pg) → first ≠ 0 → grow_contiguous 15 1 first pg = (true, pg') →
  (length fl + 1 < fuel)%nat →
  ∃ st', kmalloc fuel size st = Ok (first + 16, st') ∧
    heap_inv st' (fl ++ [(first + n, 65536 - n)]) ((first, n) :: live) ∧ pages st' = pg' ∧
    keeps st fl st' (fl ++ [(first + n, 65536 - n)]).
Proof.
  intros Hinv Hs Hall Hn Ea Hnz Eg Hf.
  destruct (heap_grow_contiguous fuel st fl live first pg pg') as (st1 & E1 & Hinv1 & Hp1 & Hk1); try done; [lia |].
  destruct (kmalloc_first st1 fl first 65536 [] live size fuel) as (st2 & E2 & _ & Hinv2 & Hp2 & Hk2);
    [done | done | done | done | rewrite length_app; simpl; lia |].
  exists st2. split; [| split; [done |]; split; [congruence | by apply (keeps_trans _ _ st1 (fl ++ [(first, 65536)]))]].
  unfold kmalloc. destruct (Z.eqb_spec size 0); [lia |]. fold n. fold n in E2.
  rewrite (hi_head _ _ _ Hinv).
  destruct (kmalloc_scan_cases st [] fl live n fuel Hinv) as [[_ ->] | (p1 & a & s' & p2 & -> & _ & Hs' & _)]; [lia | | ].
  - cbn [obind]. rewrite E1. cbn [obind]. by rewrite E2.
  - apply Forall_app in Hall as [_ Hall]. apply Forall_cons in Hall as [Hall _]. simpl in Hall. lia.
Qed.

(** The heap leaves the registers of paging and the kernel space alone. *)
Definition regs st : Z * Z * Z := (cr3 st, cr0 st, kernel_space st).

Lemma list_append_regs fuel h st st' : list_append fuel h st = Ok st' → regs st' = regs st.
Proof.
  unfold list_append. destruct (_ =? 0); [by intros [= <-] |]. intros (last & _ & [= <-])%obind_Ok. done.
Qed.
Lemma heap_grow_regs fuel st st' : heap_grow fuel st = Ok st' → regs st' = regs st.
Proof.
  unfold heap_grow. destruct (pa_alloc (pages st)) as [first pg]. destruct (first =? 0); [by intros [= <-] |].
  destruct (grow_contiguous _ _ _ _) as [[] pg']; cbn [negb]; [by intros ->%list_append_regs |].
  change (regs st) with (regs (with_pages pg' (with_pages pg st))). generalize (with_pages pg' (with_pages pg st)) as st1.
  generalize (Z.to_nat ((65536 + 4095) / 4096)). intros n. induction n as [|n IH]; intros st1; cbn [grow_scattered]; [by intros [= <-] |].
  destruct (pa_alloc (pages st1)) as [page pg1]. destruct (page =? 0); [by intros [= <-] |].
  intros (st2 & E & ->%IH)%obind_Ok. by apply list_append_regs in E.
Qed.
Lemma scan_regs fuel needed h st p st' : kmalloc_scan fuel needed h st = Ok (Some (p, st')) → regs st' = regs st.
Proof.
  revert h. induction fuel as [|fuel IH]; intros h; cbn [kmalloc_scan]; [done |]. destruct (h =? 0); [done |].
  destruct (_ <=? _); [| apply IH]. intros [= _ <-]. destruct (_ <=? _).
  - unfold split_block, relink_prev. by destruct (_ =? 0).
  - unfold list_remove. by destruct (_ =? _).
Qed.
Lemma kmalloc_regs fuel size st p st' : kmalloc fuel size st = Ok (p, st') → regs st' = regs st.
Proof.
  unfold kmalloc. destruct (size =? 0); [by intros [= _ <-] |]. intros ([[q st1]|] & E1 & E)%obind_Ok.
  { injection E as -> ->. by apply scan_regs in E1. }
  apply obind_Ok in E as (st2 & E2 & E). apply heap_grow_regs in E2. apply obind_Ok in E as ([[q st3]|] & E3 & E).
  - injection E as -> ->. apply scan_regs in E3. congruence.
  - by injection E as _ <-.
Qed.

(** The owner of a live block may write anything after its header. *)
Lemma heap_inv_client st fl live m :
  heap_inv st fl live →
  (∀ x, (∀ b, b ∈ live → ¬ b.1 + 16 ≤ x < b.1 + b.2) → rd8 m x = rd8 (mem st) x) →
  heap_inv (with_mem m st) fl live.
Proof.
  intros [Hdll Hhd Hok Hd Hwf Hpg Hlive] Hsame. pose proof Hd as (_ & Hdl & Hfd)%pw_disj_app.
  pose proof Hok as Hb. rewrite Forall_forall in Hb. constructor; cbn [mem with_mem pages free_list]; try done.
  - intros pre a s post E. assert (Hin : (a, s) ∈ fl) by (rewrite E; set_solver +).
    destruct (Hb (a, s) ltac:(set_solver)) as (_ & Hs & _). cbn [snd] in Hs.
    assert (Hx : ∀ x, a ≤ x < a + 16 → rd8 m x = rd8 (mem st) x).
    { intros x Hx. apply Hsame. intros b Hbl. specialize (Hfd _ _ Hin Hbl). unfold disj in Hfd. simpl in Hfd. lia. }
    destruct (Hdll pre a s post E) as (E1 & E2 & E3 & E4). hfields. rewrite <- E1, <- E2, <- E3, <- E4.
    split_and!; apply rd32_ext; intros x Hxx; apply Hx; lia.
  - intros b Hbl. destruct (Hb b ltac:(set_solver)) as (_ & Hs & _).
    assert (Hx : ∀ x, b.1 ≤ x < b.1 + 16 → rd8 m x = rd8 (mem st) x).
    { intros x Hx. apply Hsame. intros c Hc. apply elem_of_Permutation in Hbl as [l' Hl]. rewrite Hl in Hdl, Hc.
      apply elem_of_cons in Hc as [-> | Hc]; [lia |]. destruct Hdl as [Hdb _]. rewrite Forall_forall in Hdb.
      specialize (Hdb c Hc). unfold disj in Hdb. lia. }
    destruct (Hlive b Hbl) as [E1 E2]. hfields. rewrite <- E1, <- E2.
    split; apply rd32_ext; intros x Hxx; apply Hx; lia.
Qed.

Lemma kmalloc_step_inv st live st' live' :
  (∃ fl, heap_inv st fl live) → kmalloc_step (st, live) (st', live') → ∃ fl, heap_inv st' fl live'.
Proof.
  intros [fl Hinv] Hstep.
  pose proof (λ size fuel p st1, kmalloc_ok st fl live size fuel p st1 Hinv) as Hrun.
  inversion Hstep as [? ? size fuel p ? Hs E Hp | ? ? size fuel ? Hs E]; subst;
    destruct (Hrun _ _ _ _ Hs E) as (fl' & [(E0 & Hinv' & _) | (n & Hp0 & Hinv' & _)] & _); try done.
  - exists fl'. destruct (hi_live _ _ _ Hinv' (p - 16, n)) as [En _]; [set_solver +|].
    simpl in En. by rewrite En.
  - by exists fl'.
Qed.

(** C9: whatever sequence of [kmalloc] calls follows [kmalloc_init], the blocks
    handed out are pairwise disjoint, disjoint from the free list, aligned, and
    lie in pages that the page allocator has given out. *)
Theorem kmalloc_live_blocks_disjoint st0 st1 st live :
  pa_wf (pages st0) → kmalloc_init st0 = Ok st1 → reach kmalloc_step (st1, []) (st, live) →
  pw_disj live ∧ Forall block_ok live ∧
  (∀ b x, b ∈ live → b.1 ≤ x < b.1 + b.2 → pa_used (pages st) (page_of x)) ∧
  ∃ fl, heap_inv st fl live.
Proof.
  intros Hwf Hinit Hr.
  assert (Hne : fst (pa_alloc (pages st0)) ≠ 0).
  { unfold kmalloc_init in Hinit. destruct (pa_alloc (pages st0)) as [p pg]. simpl.
    by destruct (Z.eqb_spec p 0). }
  destruct (kmalloc_init_inv st0 Hwf Hne) as (st1' & E & Hinv). rewrite Hinit in E. inversion E; subst.
  destruct (reach_invariant kmalloc_step (λ c, ∃ fl, heap_inv c.1 fl c.2) (st1', []) (st, live))
    as [fl Hfl]; [| by eexists | done |].
  { intros [x lx] [y ly] Hx Hxy. by apply (kmalloc_step_inv x lx). }
  simpl in Hfl. pose proof (hi_disj _ _ _ Hfl) as (_ & Hd & _)%pw_disj_app.
  pose proof (hi_blocks _ _ _ Hfl) as [_ Hok]%Forall_app.
  split_and!; [done | done | | by exists fl].
  intros b x Hb Hx. apply (hi_pages _ _ _ Hfl b); [set_solver | done].
Qed.

(** A request of more than [2^32 - 24] bytes wraps around in the size
    computation: on any well-formed heap whose first free block has 64 bytes or
    more it succeeds and hands out a block of 32 bytes. *)
Theorem kmalloc_huge_request_wraps st h s fl live size fuel :
  heap_inv st ((h, s) :: fl) live → 64 ≤ s → W32 - 24 < size < W32 → (0 < fuel)%nat →
  ∃ st', kmalloc fuel size st = Ok (h + 16, st') ∧ h_size (mem st') h = 32.
Proof.
  intros Hinv Hs Hsize Hf. destruct fuel as [|fuel]; [lia |].
  assert (En : kmalloc_needed size = 32).
  { unfold kmalloc_needed. rewrite land_lnot7. unfold u32. zcase; [done |]. mlia. }
  destruct (take_block_inv st [] h s fl live 32) as (st' & fl' & n & Et & Ht & Hinv' & _);
    [done | lia | done |].
  destruct (hi_dll _ _ _ Hinv [] h s fl eq_refl) as (Es & _).
  pose proof (hi_blocks _ _ _ Hinv) as Hok. apply Forall_cons in Hok as [(Hh & _) _]. simpl in Hh.
  exists st'. unfold kmalloc. rewrite En. destruct (Z.eqb_spec size 0); [lia |].
  rewrite (hi_head _ _ _ Hinv). cbn [hd_addr fst kmalloc_scan]. rewrite Es, Et.
  destruct (Z.eqb_spec h 0); [lia |]. destruct (Z.leb_spec 32 s); [| lia]. split; [done |].
  destruct Ht as [(_ & -> & _) | (? & _)]; [| lia].
  destruct (hi_live _ _ _ Hinv' (h, 32)) as [E _]; [set_solver + | exact E].
Qed.


(** [kfree] of a live block with no neighbour that carries the magic number
    returns it to the end of the free list; the heap stays well formed and the
    other live blocks keep their bytes. *)
Theorem kfree_isolated_block st fl h s live fuel :
  heap_inv st fl ((h, s) :: live) → (length fl ≤ fuel)%nat →
  (has_prev st h && is_valid (mem st) (prev_block (mem st) h))%bool = false →
  (has_next st h && is_valid (mem st) (next_block (mem st) h))%bool = false →
  ∃ st', kfree fuel (h + 16) st = Ok st' ∧ heap_inv st' (fl ++ [(h, s)]) live ∧
    (∀ b x, b ∈ live → b.1 ≤ x < b.1 + b.2 → rd8 (mem st') x = rd8 (mem st) x).
Proof.
  intros Hinv Hf Hprev Hnext. destruct Hinv as [Hdll Hhd Hok Hd Hwf Hpg Hlive].
  pose proof (Permutation_middle fl live (h, s)) as Hp. symmetry in Hp.
  rewrite Hp in Hok, Hd. apply Forall_cons in Hok as [Hokh Hok]. destruct Hd as [Hdh Hd].
  destruct (Hlive (h, s)) as [Esz Emg]; [set_solver + |]. simpl in Esz, Emg.
  pose proof Hokh as (H1 & H2 & H3 & _). simpl in H1, H2, H3.
  assert (Hs : s < W32) by lia.
  assert (Hinv' : heap_inv st fl live).
  { constructor; [done | done | done | done | done | |].
    - intros b x Hb. apply Hpg. rewrite Hp. by right.
    - intros b Hb. apply Hlive. by right. }
  assert (Em : set_footer h (set_magic h HEAP_MAGIC (mem st)) =
    wr32 (wr32 (mem st) (h + 4) HEAP_MAGIC) (h + s - 4) s).
  { rewrite (set_footer_eq h _ s); [done | | lia..]. unfold set_magic. hfields.
    rewrite rd32_wr32_ne by lia. exact Esz. }
  unfold kfree. destruct (Z.eqb_spec (h + 16) 0); [lia |].
  replace (header_from_ptr (h + 16)) with h by (unfold header_from_ptr; rewrite u32_id; lia).
  unfold is_valid at 1. rewrite Emg, Z.eqb_refl. cbn [negb].
  unfold is_valid in Hprev, Hnext. rewrite Hprev, Hnext. cbn [andb].
  destruct (append_written_inv st (with_mem (set_footer h (set_magic h HEAP_MAGIC (mem st))) st)
    fl live h s fuel) as (st' & E & Hi & _ & Hk);
    [done | done | done | | done | done | done | | | |
     exists st'; split_and!; [done | done |]; intros b x Hb Hx; apply Hk; [by apply (live_foreign st fl live b) |];
     rewrite Forall_forall in Hdh; specialize (Hdh b ltac:(set_solver)); unfold disj in Hdh; simpl in Hdh; lia];
    cbn [mem with_mem]; rewrite ?Em.
  - intros x Hx. apply (Hpg (h, s)); [rewrite Hp; set_solver + | done].
  - intros x Hx. by rewrite !rd8_wr32_ne by lia.
  - hfields. by rewrite !rd32_wr32_ne by lia.
  - hfields. rdwr. done.
Qed.
End kmalloc_theorems.
(** ** Runs on the bitmap allocator of a machine of 8 MiB *)

Import Pmm.

Definition boot_machine : machine Pmm.pmm := mkMachine ∅ (Pmm.pmm_init 8) 0 0 0 0 0 [] 0.

(** A client that allocates [a], [b] and [c], frees [b], takes the rest of the
    page and allocates again. *)
Definition overlap_client : outcome (Z * Z) :=
  let! st := kmalloc_init boot_machine in
  let! (a, st) := kmalloc 18 16 st in
  let! (b, st) := kmalloc 18 32 st in
  let! (c, st) := kmalloc 18 64 st in
  let! st := kfree 18 b st in
  let! (e, st) := kmalloc 18 3904 st in
  let! (d, st) := kmalloc 18 64 st in
  Ok (a, d).

(** [kmalloc] leaves the magic number in the header of the blocks it hands
    out and [kfree] takes a neighbour with that number for a free one: after
    [a], [b] and [c] were allocated and [b] freed, a later [kmalloc] returns
    [a], which is still in use. *)
Theorem kfree_merges_live_neighbour : overlap_client = Ok (4194320, 4194320).
Proof. vm_compute. reflexivity. Qed.

Lemma boot_heap :
  ∃ st, kmalloc_init boot_machine = Ok st ∧ heap_inv st [(4194304, 4096)] [].
Proof.
  destruct (kmalloc_init_inv boot_machine) as (st & E & Hinv).
  - apply Pmm.pmm_init_wf. lia.
  - vm_compute. discriminate.
  - exists st. split; [exact E |].
    replace 4194304 with (fst (pa_alloc (pages boot_machine))); [exact Hinv | reflexivity].
Qed.

Lemma kmalloc_correct_witness :
  ∃ st p st', kmalloc_init boot_machine = Ok st ∧ kmalloc 18 100 st = Ok (p, st') ∧
    (p = 0 ∨ rd8 (mem st') p = 0).
Proof.
  destruct boot_heap as (st & E & Hinv).
  destruct (kmalloc_correct st [(4194304, 4096)] [] 100 18 Hinv) as (p & st' & fl' & E' & Hp & _).
  - lia.
  - simpl. lia.
  - exists st, p, st'. split; [exact E | split; [exact E' |]].
    destruct Hp as [(Hp & _) | (n & _ & _ & _ & Hn & Hz)]; [left; exact Hp | right].
    apply Hz. lia.
Defined.

(** The states after [kmalloc(n1)] and [kmalloc(n2)] on a new heap. *)
Definition two_blocks (m0 : machine Pmm.pmm) (n1 n2 : Z) :
    outcome (machine Pmm.pmm * Z * machine Pmm.pmm * Z * machine Pmm.pmm) :=
  let! st := kmalloc_init m0 in
  let! (a, st1) := kmalloc 18 n1 st in
  let! (b, st2) := kmalloc 18 n2 st1 in
  Ok (st, a, st1, b, st2).

Lemma two_blocks_calls m0 n1 n2 st a st1 b st2 :
  two_blocks m0 n1 n2 = Ok (st, a, st1, b, st2) →
  kmalloc_init m0 = Ok st ∧ kmalloc 18 n1 st = Ok (a, st1) ∧ kmalloc 18 n2 st1 = Ok (b, st2).
Proof.
  unfold two_blocks. intros (s0 & E0 & E)%obind_Ok. apply obind_Ok in E as ([a' s1] & E1 & E).
  apply obind_Ok in E as ([b' s2] & E2 & E). by injection E as -> -> -> -> ->.
Qed.

Lemma two_blocks_run :
  ∃ st st1 st2, kmalloc_init boot_machine = Ok st ∧ kmalloc 18 16 st = Ok (4194320, st1) ∧
    kmalloc 18 32 st1 = Ok (4194356, st2) ∧
    h_size (mem st1) 4194304 = 36 ∧ h_size (mem st2) 4194340 = 52.
Proof.
  destruct (run_Ok (two_blocks boot_machine 16 32) (λ r, let '(_, a, st1, b, st2) := r in
    (a =? 4194320) && (h_size (mem st1) 4194304 =? 36) &&
    (b =? 4194356) && (h_size (mem st2) 4194340 =? 52)))%bool
    as ([[[[st a] st1] b] st2] & E & Hb); [vm_compute; reflexivity |]. zbool. subst a b.
  destruct (two_blocks_calls _ _ _ _ _ _ _ _ E) as (E0 & E1 & E2).
  exists st, st1, st2. by split_and!.
Qed.

Lemma kmalloc_live_blocks_disjoint_witness :
  ∃ st, pw_disj [(4194340, 52); (4194304, 36)] ∧ ∃ fl, heap_inv st fl [(4194340, 52); (4194304, 36)].
Proof.
  destruct two_blocks_run as (st & st1 & st2 & E & E1 & E2 & S1 & S2).
  destruct (kmalloc_live_blocks_disjoint boot_machine st st2 [(4194340, 52); (4194304, 36)])
    as (Hd & _ & _ & Hfl).
  - apply Pmm.pmm_init_wf. lia.
  - exact E.
  - rewrite <- S2. apply (reach_step _ _ (st1, [(4194304, 36)])).
    + rewrite <- S1. apply (reach_step _ _ (st, [])); [apply reach_refl |].
      apply (step_kmalloc st [] 16 18 4194320); [lia | exact E1 | discriminate].
    + apply (step_kmalloc st1 _ 32 18 4194356); [lia | exact E2 | discriminate].
  - exists st2. split; [exact Hd | exact Hfl].
Defined.

Lemma kmalloc_huge_request_wraps_witness :
  ∃ st st', kmalloc_init boot_machine = Ok st ∧
    kmalloc 1 4294967295 st = Ok (4194320, st') ∧ h_size (mem st') 4194304 = 32.
Proof.
  destruct boot_heap as (st & E & Hinv).
  destruct (kmalloc_huge_request_wraps st 4194304 4096 [] [] 4294967295 1 Hinv) as (st' & E' & Hs).
  - lia.
  - lia.
  - lia.
  - exists st, st'. split; [exact E | split; [exact E' | exact Hs]].
Defined.

(** A machine with a non-zero word below the heap. *)
Definition boot_machine' : machine Pmm.pmm := with_mem (wr32 ∅ 4194300 16) boot_machine.

(** All of its heap is allocated as one block. *)
Lemma full_heap_run :
  ∃ st fl live, heap_inv st fl ((4194304, 4096) :: live) ∧
    (has_prev st 4194304 && is_valid (mem st) (prev_block (mem st) 4194304))%bool = false ∧
    (has_next st 4194304 && is_valid (mem st) (next_block (mem st) 4194304))%bool = false.
Proof.
  destruct (run_Ok (two_blocks boot_machine' 4072 0) (λ r, let '(_, p, st1, _, _) := r in
    (p =? 4194320) && (h_size (mem st1) 4194304 =? 4096) &&
    negb (has_prev st1 4194304 && is_valid (mem st1) (prev_block (mem st1) 4194304)) &&
    negb (has_next st1 4194304 && is_valid (mem st1) (next_block (mem st1) 4194304))))%bool
    as ([[[[st p] st1] b] st2] & E & Hb); [vm_compute; reflexivity |]. zbool. subst p.
  destruct (two_blocks_calls _ _ _ _ _ _ _ _ E) as (E0 & E1 & _).
  destruct (kmalloc_init_inv boot_machine') as (st' & E' & Hinv);
    [apply Pmm.pmm_init_wf; lia | vm_compute; discriminate |].
  assert (st' = st) as -> by congruence.
  destruct (kmalloc_run st _ [] 4072 18 Hinv) as (p & s2 & E2 & fl & Hp & _); [lia | simpl; lia |].
  rewrite E1 in E2. injection E2 as <- <-.
  destruct Hp as [(? & _) | (n & _ & Hinv1 & _)]; [done |].
  destruct (hi_live _ _ _ Hinv1 (4194320 - 16, n)) as [Hn _]; [set_solver + |].
  exists st1, fl, []. split_and!; [| done | done]. change (4194320 - 16) with 4194304 in *.
  simpl in Hn. by replace 4096 with n by congruence.
Qed.

Lemma kfree_isolated_block_witness :
  ∃ st fl st' fuel, kfree fuel 4194320 st = Ok st' ∧ ∃ live, heap_inv st' (fl ++ [(4194304, 4096)]) live.
Proof.
  destruct full_heap_run as (st & fl & live & Hinv & Hp & Hn).
  destruct (kfree_isolated_block st fl 4194304 4096 live (length fl) Hinv) as (st' & E & Hi & _).
  - apply le_n.
  - exact Hp.
  - exact Hn.
  - exists st, fl, st', (length fl). split; [exact E | exists live; exact Hi].
Defined.
End Kmalloc.
