(* ===== verification/Vmm.v ===== *)
(** * Address spaces: [memory/paging.cpp] and [memory/vmm.cpp]

    A space is the physical address of a page directory of 1024 words; an
    entry that is present points to a page table of 1024 words. The file
    models the code over the shared [machine] and specifies it by the page
    walk of the processor: [pte_at] and [translate]. *)

From S2P Require Import Prelude Interfaces Machine Libk Pmm.

Module Vmm.
Import Libk.

Notation VMM_PRESENT := 1 (only parsing).
Notation VMM_WRITABLE := 2 (only parsing).
Notation VMM_USER := 4 (only parsing).

(** [e & flag] as a condition. *)
Definition has (e flag : Z) : bool := negb (Z.land e flag =? 0).

Definition pd_idx (virt : Z) : Z := Z.shiftr virt 22.
Definition pt_idx (virt : Z) : Z := Z.land (Z.shiftr virt 12) 0x3FF.
Definition frame (e : Z) : Z := Z.land e 0xFFFFF000.

(** [p[i]] and [p[i] = v] for a [uint32_t* p]. *)
Definition word (m : memory) (p i : Z) : Z := rd32 m (p + 4 * i).
Definition set_word (p i v : Z) (m : memory) : memory := wr32 m (p + 4 * i) v.

(** ** The code *)

Section paging.
Context {Pg : Type} `{!PageAllocOps Pg}.
Implicit Types st : machine Pg.

(** Where the linker puts the two tables of [paging.cpp]. *)
Variables page_directory boot_page_table : Z.

Definition paging_map_page (virt phys flags : Z) st : machine Pg :=
  let '(ok, st) :=
    if has (word (mem st) page_directory (pd_idx virt)) 1 then (true, st)
    else
      let '(pt, pg) := pa_alloc (pages st) in
      let st := with_pages pg st in
      if pt =? 0 then (false, st)
      else
        let m := memset (mem st) pt 0 4096 in
        (true, with_mem (set_word page_directory (pd_idx virt)
           (Z.lor (Z.lor pt (Z.land flags 0xFFF)) 1) m) st) in
  if negb ok then st
  else
    let pt := frame (word (mem st) page_directory (pd_idx virt)) in
    let m := set_word pt (pt_idx virt) (Z.lor (frame phys) (Z.land flags 0xFFF)) (mem st) in
    invlpg virt (with_mem m st).

Definition paging_map_identity (phys_start phys_end flags : Z) st : machine Pg :=
  let phys_start := frame phys_start in
  let phys_end := frame (u32 (phys_end + 0xFFF)) in
  loop_n (Z.to_nat ((phys_end - phys_start) / 0x1000)) 0
    (λ k, paging_map_page (phys_start + k * 0x1000) (phys_start + k * 0x1000) flags) st.

(** The two loops over the static tables. *)
Definition fill_boot_table (m : memory) : memory :=
  loop_n 1024 0 (λ i, set_word boot_page_table i (Z.lor (i * 0x1000) 3)) m.
Definition clear_directory (m : memory) : memory :=
  loop_n 1024 0 (λ i, set_word page_directory i 0) m.

(** The body of the loop over the memory above 4 MiB. *)
Definition init_map_page (addr : Z) st : outcome (machine Pg) :=
  let! st :=
    if has (word (mem st) page_directory (pd_idx addr)) 1 then Ok st
    else
      let '(pt, pg) := pa_alloc (pages st) in
      let st := with_pages pg st in
      if pt =? 0 then Panic
      else
        let m := memset (mem st) pt 0 4096 in
        Ok (with_mem (set_word page_directory (pd_idx addr) (Z.lor pt 3) m) st) in
  let pt := frame (word (mem st) page_directory (pd_idx addr)) in
  Ok (with_mem (set_word pt (pt_idx addr) (Z.lor addr 3) (mem st)) st).

(** [n] iterations of the loop from [addr]. *)
Fixpoint init_map (n : nat) (addr : Z) st : outcome (machine Pg) :=
  match n with
  | O => Ok st
  | S n' => let! st := init_map_page addr st in init_map n' (addr + 0x1000) st
  end.

(** [total_memory_mb] is the value detected by [multiboot_init]. *)
Definition paging_init (total_memory_mb : Z) st : outcome (machine Pg) :=
  let total_mb := if total_memory_mb =? 0 then 32 else total_memory_mb in
  let m := clear_directory (fill_boot_table (mem st)) in
  let m := set_word page_directory 0 (Z.lor boot_page_table 3) m in
  let end_addr := u32 (total_mb * 1024 * 1024) in
  let! st := init_map (Z.to_nat ((end_addr - 0x400000) / 0x1000)) 0x400000 (with_mem m st) in
  let st := with_cr3 page_directory st in
  Ok (with_cr0 (Z.lor (cr0 st) 0x80000000) st).
End paging.

Section vmm.
Context {Pg : Type} `{!PageAllocOps Pg}.
Implicit Types st : machine Pg.

Definition vmm_init st : machine Pg := with_kernel_space (cr3 st) st.
Definition vmm_get_kernel_space st : Z := kernel_space st.
Definition vmm_switch (space : Z) st : machine Pg := with_cr3 space st.

(** [for(j < 1024) new_pt[j] = old_pt[j];] *)
Definition copy_table (new_pt old_pt : Z) (m : memory) : memory :=
  loop_n 1024 0 (λ j m, set_word new_pt j (word m old_pt j) m) m.

(** [for(j < i) if(new_pd[j] & VMM_USER) pmm_free_page(new_pd[j] & 0xFFFFF000);] *)
Definition free_user_tables (i : nat) (new_pd : Z) (m : memory) (pg : Pg) : Pg :=
  loop_n i 0 (λ j pg, if has (word m new_pd j) VMM_USER then pa_free (frame (word m new_pd j)) pg
                      else pg) pg.

(** The loop of [vmm_create_space] over the directory, with its early return. *)
Fixpoint copy_dir (n : nat) (i new_pd : Z) st : Z * machine Pg :=
  match n with
  | O => (new_pd, st)
  | S n' =>
      let entry := word (mem st) (kernel_space st) i in
      if negb (has entry VMM_PRESENT) then
        copy_dir n' (i + 1) new_pd (with_mem (set_word new_pd i 0 (mem st)) st)
      else if has entry VMM_USER then
        let '(new_pt, pg) := pa_alloc (pages st) in
        let st := with_pages pg st in
        if new_pt =? 0 then
          (0, with_pages (pa_free new_pd
                (free_user_tables (Z.to_nat i) new_pd (mem st) (pages st))) st)
        else
          let m := copy_table new_pt (frame entry) (mem st) in
          let m := set_word new_pd i (Z.lor new_pt (Z.land entry 0xFFF)) m in
          copy_dir n' (i + 1) new_pd (with_mem m st)
      else
        copy_dir n' (i + 1) new_pd (with_mem (set_word new_pd i entry (mem st)) st)
  end.

Definition vmm_create_space st : Z * machine Pg :=
  let '(new_pd, pg) := pa_alloc (pages st) in
  let st := with_pages pg st in
  if new_pd =? 0 then (0, st) else copy_dir 1024 0 new_pd st.

Definition vmm_destroy_space (space : Z) st : machine Pg :=
  if space =? 0 then st
  else
    let pg := loop_n 1024 0 (λ i pg,
      let entry := word (mem st) space i in
      if negb (has entry VMM_PRESENT) then pg
      else if has entry VMM_USER then pa_free (frame entry) pg
      else pg) (pages st) in
    with_pages (pa_free space pg) st.

(** [for(i < 1024) pt[i] = 0;] *)
Definition clear_table (pt : Z) (m : memory) : memory :=
  loop_n 1024 0 (λ i, set_word pt i 0) m.

(** The page table for an address, created if there is none. *)
Definition ensure_table (space virt : Z) st : bool * machine Pg :=
  if has (word (mem st) space (pd_idx virt)) VMM_PRESENT then (true, st)
  else
    let '(pt, pg) := pa_alloc (pages st) in
    let st := with_pages pg st in
    if pt =? 0 then (false, st)
    else
      (true, with_mem (set_word space (pd_idx virt)
         (Z.lor (Z.lor (Z.lor pt VMM_PRESENT) VMM_WRITABLE) VMM_USER)
         (clear_table pt (mem st))) st).

Definition flush (space virt : Z) st : machine Pg :=
  if cr3 st =? space then invlpg virt st else st.

Definition vmm_map (space virt phys flags : Z) st : Z * machine Pg :=
  let '(ok, st) := ensure_table space virt st in
  if negb ok then (-1, st)
  else
    let pt := frame (word (mem st) space (pd_idx virt)) in
    let m := set_word pt (pt_idx virt) (Z.lor (frame phys) (Z.land flags 0xFFF)) (mem st) in
    (0, flush space virt (with_mem m st)).

Definition vmm_unmap (space virt : Z) st : Z * machine Pg :=
  if negb (has (word (mem st) space (pd_idx virt)) VMM_PRESENT) then (0, st)
  else
    let pt := frame (word (mem st) space (pd_idx virt)) in
    (0, flush space virt (with_mem (set_word pt (pt_idx virt) 0 (mem st)) st)).
End vmm.

(** ** The page walk of the processor *)

(** The page table entry for an address, 0 when there is no table. *)
Definition pte_at (m : memory) (space virt : Z) : Z :=
  if has (word m space (pd_idx virt)) VMM_PRESENT
  then word m (frame (word m space (pd_idx virt))) (pt_idx virt) else 0.

(** The physical address of [virt], when it is mapped. *)
Definition translate (m : memory) (space virt : Z) : option Z :=
  let e := pte_at m space virt in
  if has e VMM_PRESENT then Some (frame e + virt mod PAGE_SIZE) else None.

(** Code that runs in user mode needs the user bit at both levels. *)
Definition user_access (m : memory) (space virt : Z) : bool :=
  has (word m space (pd_idx virt)) VMM_USER && has (pte_at m space virt) VMM_USER.

(** Whether the table of a directory entry belongs to the space. *)
Definition user_pde (e : Z) : bool := has e VMM_PRESENT && has e VMM_USER.

(** ** Bit fields of entries and addresses *)

Lemma frame_page_of e : 0 ≤ e < W32 → frame e = page_of e.
Proof.
  intros He. unfold frame, page_of.
  change 0xFFFFF000 with (Z.ldiff (Z.ones 32) (Z.ones 12)).
  rewrite Z.ldiff_land, Z.land_assoc, Z.land_ones by lia.
  rewrite <- Z.ldiff_land, Z.ldiff_ones_r by lia.
  rewrite Z.shiftl_mul_pow2, Z.shiftr_div_pow2 by lia.
  change (2 ^ 32) with W32. change (2 ^ 12) with 4096. rewrite Z.mod_small by lia. mlia.
Qed.

Lemma land_fff e : Z.land e 0xFFF = e mod 4096.
Proof. change 0xFFF with (Z.ones 12). by rewrite Z.land_ones by lia. Qed.

Lemma land_low e k : 0 ≤ k < 4096 → Z.land e k = Z.land (e mod 4096) k.
Proof.
  intros Hk. rewrite <- land_fff, <- Z.land_assoc. f_equal.
  rewrite Z.land_comm, land_fff. by rewrite Z.mod_small.
Qed.

(** Flags only depend on the low twelve bits. *)
Lemma has_low e k : 0 ≤ k < 4096 → has e k = has (e mod 4096) k.
Proof. intros Hk. unfold has. by rewrite land_low. Qed.

Lemma page_lor p f : p mod 4096 = 0 → 0 ≤ f < 4096 → Z.lor p f = p + f.
Proof.
  intros Hp Hf.
  assert (Hd : Z.land p f = 0) by (rewrite land_low, Hp by done; apply Z.land_0_l).
  by rewrite <- Z.lxor_lor, Z.add_nocarry_lxor.
Qed.

(** The entry that points to page [p] with flags [f]. *)
Lemma entry_fields_aligned p f :
  0 ≤ p → p + PAGE_SIZE ≤ W32 → p mod PAGE_SIZE = 0 → 0 ≤ f < 4096 →
  0 ≤ p + f < W32 ∧ frame (p + f) = p ∧ (∀ k, 0 ≤ k < 4096 → has (p + f) k = has f k).
Proof.
  intros H1 H2 H3 Hf. assert (Hr : 0 ≤ p + f < W32) by mlia. split_and!; [lia | lia | |].
  - rewrite frame_page_of by done. apply page_of_inside; lia.
  - intros k Hk. rewrite has_low by done. f_equal. mlia.
Qed.

Lemma entry_fields p f :
  page_addr p → 0 ≤ f < 4096 →
  0 ≤ p + f < W32 ∧ frame (p + f) = p ∧ (∀ k, 0 ≤ k < 4096 → has (p + f) k = has f k).
Proof. intros (H1 & H2 & H3) Hf. apply entry_fields_aligned; lia. Qed.

(** The page table entry [vmm_map] writes. *)
Lemma map_entry phys flags :
  0 ≤ phys < W32 →
  Z.lor (frame phys) (Z.land flags 0xFFF) = page_of phys + flags mod 4096 ∧
  0 ≤ page_of phys + flags mod 4096 < W32 ∧
  frame (page_of phys + flags mod 4096) = page_of phys ∧
  (∀ k, 0 ≤ k < 4096 → has (page_of phys + flags mod 4096) k = has flags k).
Proof.
  intros Hp. rewrite land_fff, frame_page_of by done.
  pose proof (page_of_aligned phys) as Ha. pose proof (page_of_range phys).
  assert (Hf : 0 ≤ flags mod 4096 < 4096) by mlia.
  destruct (entry_fields_aligned (page_of phys) (flags mod 4096)) as (Hr & Hfr & Hh);
    [unfold page_of; mlia | unfold page_of; mlia | done | done |].
  split_and!; [by rewrite page_lor | lia | lia | done |].
  intros k Hk. by rewrite Hh, <- has_low.
Qed.

Lemma pd_idx_range v : 0 ≤ v < W32 → 0 ≤ pd_idx v < 1024.
Proof. intros Hv. unfold pd_idx. rewrite Z.shiftr_div_pow2 by lia. change (2 ^ 22) with 4194304. mlia. Qed.

Lemma pt_idx_eq v : pt_idx v = (v / 4096) mod 1024.
Proof.
  unfold pt_idx. rewrite Z.shiftr_div_pow2 by lia. change 0x3FF with (Z.ones 10).
  by rewrite Z.land_ones by lia.
Qed.

Lemma pt_idx_range v : 0 ≤ pt_idx v < 1024.
Proof. rewrite pt_idx_eq. mlia. Qed.

Lemma pd_idx_eq v : pd_idx v = v / 4194304.
Proof. unfold pd_idx. by rewrite Z.shiftr_div_pow2 by lia. Qed.

(** Two addresses with the same indices lie in the same page. *)
Lemma idx_inj v w : pd_idx v = pd_idx w → pt_idx v = pt_idx w → page_of v = page_of w.
Proof. rewrite !pd_idx_eq, !pt_idx_eq. unfold page_of. mlia. Qed.

Lemma idx_page_of v : pd_idx (page_of v) = pd_idx v ∧ pt_idx (page_of v) = pt_idx v.
Proof. rewrite !pd_idx_eq, !pt_idx_eq. unfold page_of. mlia. Qed.

(** ** Words of tables *)

(** The words of tables in different pages, or at different indices, are apart. *)
Lemma slots_apart p q i j :
  page_addr p → page_addr q → 0 ≤ i < 1024 → 0 ≤ j < 1024 → p ≠ q ∨ i ≠ j →
  p + 4 * i + 4 ≤ q + 4 * j ∨ q + 4 * j + 4 ≤ p + 4 * i.
Proof. unfold page_addr. intros Hp Hq Hi Hj Hne. mlia. Qed.

Lemma word_set_eq m p i v : word (set_word p i v m) p i = u32 v.
Proof. apply rd32_wr32_eq. Qed.

Lemma word_set_ne m p i v q j :
  page_addr p → page_addr q → 0 ≤ i < 1024 → 0 ≤ j < 1024 → p ≠ q ∨ i ≠ j →
  word (set_word p i v m) q j = word m q j.
Proof.
  intros Hp Hq Hi Hj Hne. apply rd32_wr32_ne.
  destruct (slots_apart p q i j) as [|]; [done.. | lia | lia].
Qed.

Lemma word_range m p i : 0 ≤ word m p i < W32.
Proof. apply rd32_range. Qed.

(** [same_page q m m']: the bytes of page [q] are the same. *)
Definition same_page (q : Z) (m m' : memory) : Prop :=
  ∀ x, q ≤ x < q + PAGE_SIZE → rd8 m' x = rd8 m x.

#[export] Instance same_page_equiv q : Equivalence (same_page q).
Proof.
  split.
  - intros m x Hx. done.
  - intros m m' H x Hx. symmetry. by apply H.
  - intros m1 m2 m3 H1 H2 x Hx. rewrite (H2 x Hx). by apply H1.
Qed.

Lemma same_page_word m m' q j : same_page q m m' → 0 ≤ j < 1024 → word m' q j = word m q j.
Proof. intros H Hj. apply rd32_ext. intros x Hx. apply H. lia. Qed.

Lemma same_page_set_word m m' p i v q :
  page_addr p → page_addr q → 0 ≤ i < 1024 → p ≠ q →
  same_page q m m' → same_page q m (set_word p i v m').
Proof.
  intros Hp Hq Hi Hne H x Hx. unfold set_word. rewrite rd8_wr32_ne; [by apply H |].
  unfold page_addr in *. mlia.
Qed.

(** A loop that fills the table [p] with the words [g 0, ..., g 1023]. *)
Lemma fill_table (f : Z → memory → Z) (g : Z → Z) p m :
  page_addr p →
  (∀ i m', 0 ≤ i < 1024 → (∀ q, page_addr q → q ≠ p → same_page q m m') → f i m' = g i) →
  let m' := loop_n 1024 0 (λ i m, set_word p i (f i m) m) m in
  (∀ q, page_addr q → q ≠ p → same_page q m m') ∧
  (∀ j, 0 ≤ j < 1024 → word m' p j = u32 (g j)).
Proof.
  intros Hp Hf.
  apply (loop_n_ind (λ k m', (∀ q, page_addr q → q ≠ p → same_page q m m') ∧
    (∀ j, 0 ≤ j < k → word m' p j = u32 (g j))) 1024 0).
  - split; [done | lia].
  - intros k m' Hk [Hsame Hw]. split.
    + intros q Hq Hne. apply same_page_set_word; auto with lia.
    + intros j Hj. destruct (Z.eq_dec j k) as [-> | Hne].
      * rewrite word_set_eq. f_equal. apply Hf; auto with lia.
      * rewrite word_set_ne by (auto; lia). apply Hw. lia.
Qed.

Lemma clear_table_spec p m :
  page_addr p →
  (∀ q, page_addr q → q ≠ p → same_page q m (clear_table p m)) ∧
  (∀ j, 0 ≤ j < 1024 → word (clear_table p m) p j = 0).
Proof. intros Hp. by apply (fill_table (λ _ _, 0) (λ _, 0)). Qed.

Lemma copy_table_spec p old m :
  page_addr p → page_addr old → old ≠ p →
  (∀ q, page_addr q → q ≠ p → same_page q m (copy_table p old m)) ∧
  (∀ j, 0 ≤ j < 1024 → word (copy_table p old m) p j = word m old j).
Proof.
  intros Hp Hold Hne.
  destruct (fill_table (λ j m, word m old j) (λ j, word m old j) p m Hp) as [H1 H2].
  - intros i m' Hi Hs. by apply same_page_word; [apply Hs |].
  - split; [exact H1 |]. intros j Hj. unfold copy_table. etransitivity; [apply (H2 j Hj) | apply u32_id, word_range].
Qed.

Lemma clear_directory_spec p m :
  page_addr p →
  (∀ q, page_addr q → q ≠ p → same_page q m (clear_directory p m)) ∧
  (∀ j, 0 ≤ j < 1024 → word (clear_directory p m) p j = 0).
Proof. intros Hp. by apply (fill_table (λ _ _, 0) (λ _, 0)). Qed.

Lemma fill_boot_table_spec p m :
  page_addr p →
  (∀ q, page_addr q → q ≠ p → same_page q m (fill_boot_table p m)) ∧
  (∀ j, 0 ≤ j < 1024 → word (fill_boot_table p m) p j = j * 4096 + 3).
Proof.
  intros Hp. destruct (fill_table (λ i _, Z.lor (i * 0x1000) 3) (λ i, Z.lor (i * 0x1000) 3) p m Hp)
    as [H1 H2]; [done |]. split; [exact H1 |]. intros j Hj. unfold fill_boot_table.
  etransitivity; [apply (H2 j Hj) |]. rewrite page_lor by mlia. apply u32_id. lia.
Qed.

#[local] Opaque clear_table copy_table memset clear_directory fill_boot_table.

(** [memset] to zero is the same table. *)
Lemma memset_page_spec p m :
  page_addr p →
  (∀ q, page_addr q → q ≠ p → same_page q m (memset m p 0 4096)) ∧
  (∀ j, 0 ≤ j < 1024 → word (memset m p 0 4096) p j = 0).
Proof.
  intros Hp. split.
  - intros q Hq Hne x Hx. apply rd8_memset_out. unfold page_addr in *. mlia.
  - intros j Hj. apply rd32_memset_zero; lia.
Qed.

(** ** Well-formed spaces *)

Section spaces.
Context {Pg : Type} `{PageAlloc Pg}.
Implicit Types st : machine Pg.

(** Entry [i] of the directory, and whether it points to a table. *)
Notation pde m space i := (word m space i) (only parsing).
Notation present e := (has e VMM_PRESENT = true) (only parsing).

Record space_wf st (space : Z) : Prop := {
  sw_alloc : pa_wf (pages st);
  sw_page : page_addr space;
  sw_used : pa_used (pages st) space;
  sw_tab : ∀ i, 0 ≤ i < 1024 → present (pde (mem st) space i) →
    page_addr (frame (pde (mem st) space i)) ∧
    pa_used (pages st) (frame (pde (mem st) space i)) ∧
    frame (pde (mem st) space i) ≠ space;
  sw_inj : ∀ i j, 0 ≤ i < 1024 → 0 ≤ j < 1024 →
    present (pde (mem st) space i) → present (pde (mem st) space j) →
    frame (pde (mem st) space i) = frame (pde (mem st) space j) → i = j;
}.

(** [touches st st' l]: pages that were in use, other than those of [l], keep
    their bytes, and no page is given back. *)
Definition touches st st' (l : list Z) : Prop :=
  pa_wf (pages st') ∧ (∀ q, pa_used (pages st) q → pa_used (pages st') q) ∧
  (∀ q, page_addr q → pa_used (pages st) q → q ∉ l → same_page q (mem st) (mem st')).

Lemma touches_refl st l : pa_wf (pages st) → touches st st l.
Proof. intros Hs. by split_and!. Qed.

(** Linking a fresh zeroed table at an entry that was absent changes no
    translation. *)
Lemma link_table st st' m1 space i pt f :
  space_wf st space → 0 ≤ i < 1024 → ¬ present (pde (mem st) space i) →
  pa_alloc (pages st) = (pt, pages st') → pt ≠ 0 → 0 ≤ f < 4096 → present f →
  (∀ q, page_addr q → q ≠ pt → same_page q (mem st) m1) →
  (∀ j, 0 ≤ j < 1024 → word m1 pt j = 0) →
  mem st' = set_word space i (pt + f) m1 →
  space_wf st' space ∧ pde (mem st') space i = pt + f ∧
  (∀ j, 0 ≤ j < 1024 → j ≠ i → pde (mem st') space j = pde (mem st) space j) ∧
  (∀ w, 0 ≤ w < W32 → pte_at (mem st') space w = pte_at (mem st) space w) ∧
  touches st st' [space].
Proof.
  intros [Hal Hpg Hus Htab Hinj] Hi Habs Ea Hnz Hf Hfp Hcs Hcw Em.
  destruct (pa_alloc_ok _ pt _ Hal Ea Hnz) as (Hal' & Hpt & Hnew & Hu).
  assert (Hne : pt ≠ space) by (by intros ->).
  destruct (entry_fields pt f Hpt Hf) as (Her & Hef & Heh).
  assert (Hdir : ∀ j, 0 ≤ j < 1024 → j ≠ i → word (mem st') space j = word (mem st) space j).
  { intros j Hj Hd. rewrite Em, word_set_ne by (auto; lia).
    apply same_page_word; [by apply Hcs | done]. }
  assert (Hdv : word (mem st') space i = pt + f) by (by rewrite Em, word_set_eq, u32_id).
  assert (Htb : ∀ q, page_addr q → q ≠ space → q ≠ pt → same_page q (mem st) (mem st')).
  { intros q Hq Hqs Hqp. rewrite Em. apply same_page_set_word; auto. }
  assert (Htpt : ∀ j, 0 ≤ j < 1024 → word (mem st') pt j = 0).
  { intros j Hj. rewrite Em, word_set_ne by auto. by apply Hcw. }
  split_and!; [constructor | | | | split_and!]; try done.
  - apply Hu. by right.
  - intros j Hj. destruct (Z.eq_dec j i) as [-> | Hji].
    + rewrite Hdv, Hef. intros _. split_and!; [done | apply Hu; by left | done].
    + rewrite Hdir by done. intros Hp. destruct (Htab j Hj Hp) as (? & ? & ?).
      split_and!; [done | apply Hu; by right | done].
  - intros j k Hj Hk. destruct (Z.eq_dec j i) as [-> | Hji], (Z.eq_dec k i) as [-> | Hki]; try done.
    + rewrite Hdv, Hef, Hdir by done. intros _ Hp Heq. exfalso. apply Hnew. rewrite Heq. by apply Htab.
    + rewrite Hdv, Hef, Hdir by done. intros Hp _ Heq. exfalso. apply Hnew. rewrite <- Heq. by apply Htab.
    + rewrite !Hdir by done. by apply Hinj.
  - intros w Hw. unfold pte_at. destruct (Z.eq_dec (pd_idx w) i) as [-> | Hd].
    + rewrite Hdv, Hef, Heh, Hfp, Htpt by (lia || apply pt_idx_range).
      by destruct (has (word (mem st) space i) 1).
    + rewrite Hdir by (done || by apply pd_idx_range).
      destruct (has (word (mem st) space (pd_idx w)) 1) eqn:Hp; [| done].
      destruct (Htab (pd_idx w)) as (? & Hux & ?); [by apply pd_idx_range | done |].
      apply same_page_word; [| apply pt_idx_range]. apply Htb; [done | done |]. intros Heq. apply Hnew. by rewrite <- Heq.
  - intros q Hq. apply Hu. by right.
  - intros q Hq Huq Hql. apply Htb; [done | set_solver |]. intros ->. done.
Qed.

(** A table was allocated and linked with all rights at entry [i]. *)
Definition table_added st st' (space i pt : Z) : Prop :=
  page_addr pt ∧ ¬ pa_used (pages st) pt ∧
  (∀ q, pa_used (pages st') q ↔ q = pt ∨ pa_used (pages st) q) ∧
  pde (mem st') space i = pt + 7 ∧
  (∀ j, 0 ≤ j < 1024 → j ≠ i → pde (mem st') space j = pde (mem st) space j).

(** Only the table an address needs is created, and only if it is missing. *)
Lemma ensure_table_spec space v st ok st' :
  space_wf st space → 0 ≤ v < W32 → ensure_table space v st = (ok, st') →
  cr3 st' = cr3 st ∧ invlpgs st' = invlpgs st ∧ kernel_space st' = kernel_space st ∧
  if ok
  then space_wf st' space ∧ present (pde (mem st') space (pd_idx v)) ∧
       (∀ w, 0 ≤ w < W32 → pte_at (mem st') space w = pte_at (mem st) space w) ∧
       touches st st' [space] ∧
       (if has (pde (mem st) space (pd_idx v)) VMM_PRESENT then st' = st
        else ∃ pt, table_added st st' space (pd_idx v) pt)
  else st' = st ∧ ¬ present (pde (mem st) space (pd_idx v)) ∧ fst (pa_alloc (pages st)) = 0.
Proof.
  intros Hwf Hv E. pose proof (pd_idx_range v Hv) as Hi. unfold ensure_table in E.
  destruct (has (word (mem st) space (pd_idx v)) 1) eqn:Epr.
  { inversion E; subst. split_and!; try done. apply touches_refl, Hwf. }
  pose proof (sw_alloc _ _ Hwf) as Hal.
  destruct (pa_alloc (pages st)) as [pt pg] eqn:Ea. destruct (Z.eqb_spec pt 0) as [-> | Hnz].
  { inversion E; subst. rewrite (pa_alloc_null _ _ Hal Ea).
    split_and!; try done. by destruct st. }
  destruct (pa_alloc_ok _ pt pg Hal Ea Hnz) as (_ & Hpt & Hnew & Hu).
  destruct (clear_table_spec pt (mem st) Hpt) as [Hcs Hcw].
  assert (Hen : Z.lor (Z.lor (Z.lor pt 1) 2) 4 = pt + 7).
  { destruct Hpt as (_ & _ & Hal4). rewrite <- !Z.lor_assoc. by rewrite page_lor. }
  rewrite Hen in E. injection E as <- <-.
  destruct (link_table st
    (with_mem (set_word space (pd_idx v) (pt + 7) (clear_table pt (mem st))) (with_pages pg st))
    (clear_table pt (mem st)) space (pd_idx v) pt 7 Hwf Hi)
    as (Hwf' & Hdv & Hdo & Hpte & Ht);
    [by rewrite Epr | done | done | lia | done | exact Hcs | exact Hcw | reflexivity |].
  do 3 (split; [reflexivity |]). split; [exact Hwf' |].
  split; [| split; [exact Hpte | split; [exact Ht | by exists pt; split_and!]]]. rewrite Hdv.
  destruct (entry_fields pt 7 Hpt ltac:(lia)) as (_ & _ & Hh). rewrite Hh by lia. reflexivity.
Qed.

(** Writing entry [k] of the table at directory index [i]. *)
Lemma write_pte st space i k e :
  space_wf st space → 0 ≤ i < 1024 → 0 ≤ k < 1024 → present (pde (mem st) space i) →
  let t := frame (pde (mem st) space i) in
  let st' := with_mem (set_word t k e (mem st)) st in
  space_wf st' space ∧ touches st st' [t] ∧
  (∀ j, 0 ≤ j < 1024 → pde (mem st') space j = pde (mem st) space j) ∧
  (∀ w, 0 ≤ w < W32 → pte_at (mem st') space w =
     if (pd_idx w =? i) && (pt_idx w =? k) then u32 e else pte_at (mem st) space w).
Proof.
  intros [Hal Hpg Hus Htab Hinj] Hi Hk Hp t st'.
  destruct (Htab i Hi Hp) as (Ht & Htu & Hts). fold t in Ht, Htu, Hts.
  assert (Hdir : ∀ j, 0 ≤ j < 1024 → word (mem st') space j = word (mem st) space j)
    by (intros j Hj; apply word_set_ne; auto).
  assert (Htouch : touches st st' [t]).
  { split_and!; [done | done |]. intros q Hq _ Hql. apply same_page_set_word; [done | done | lia | set_solver | done]. }
  split_and!; [constructor | apply Htouch.. | done |]; try done.
  - intros j Hj. rewrite Hdir by done. by apply Htab.
  - intros j l Hj Hl. rewrite !Hdir by done. by apply Hinj.
  - intros w Hw. pose proof (pd_idx_range w Hw). pose proof (pt_idx_range w).
    unfold pte_at. rewrite Hdir by done.
    destruct (Z.eqb_spec (pd_idx w) i) as [-> | Hd]; simpl.
    + rewrite Hp. fold t. destruct (Z.eqb_spec (pt_idx w) k) as [-> | Hd2].
      * apply word_set_eq.
      * apply word_set_ne; auto.
    + destruct (has (word (mem st) space (pd_idx w)) 1) eqn:Hpw; [| done]. destruct (Htab (pd_idx w)) as (? & ? & ?); [done | done |].
      apply word_set_ne; [done | done | done | done |]. left. intros E. apply Hd. symmetry. by apply Hinj.
Qed.
End spaces.
(** ** Mapping and unmapping *)

Section mapping.
Context {Pg : Type} `{PageAlloc Pg}.
Implicit Types st : machine Pg.

Notation present e := (has e VMM_PRESENT = true) (only parsing).

Lemma touches_trans st1 st2 st3 l1 l2 :
  touches st1 st2 l1 → touches st2 st3 l2 → touches st1 st3 (l1 ++ l2).
Proof.
  intros (H1 & U1 & S1) (H2 & U2 & S2). split_and!; [done | auto |].
  intros q Hq Hu Hl. rewrite elem_of_app in Hl. apply Decidable.not_or in Hl as [Hl1 Hl2].
  etransitivity; [apply S1; done | apply S2; auto].
Qed.

Lemma touches_flush st st' l space v : touches st st' l → touches st (flush space v st') l.
Proof. unfold flush. by destruct (cr3 st' =? space). Qed.

Lemma space_wf_flush st space v s : space_wf st space → space_wf (flush s v st) space.
Proof. unfold flush. destruct (cr3 st =? s); [| done]. by intros []. Qed.

Lemma mem_flush st space v : mem (flush space v st) = mem st.
Proof. unfold flush. by destruct (cr3 st =? space). Qed.

Lemma same_idx v w :
  0 ≤ v → 0 ≤ w → ((pd_idx w =? pd_idx v) && (pt_idx w =? pt_idx v)) = (page_of w =? page_of v).
Proof.
  intros Hv Hw. apply eq_bool_prop_intro. rewrite !Is_true_true, andb_true_iff, !Z.eqb_eq. split.
  - intros [H1 H2]. by apply idx_inj.
  - intros E. destruct (idx_page_of v) as [<- <-], (idx_page_of w) as [<- <-]. by rewrite E.
Qed.

(** The whole effect of [vmm_map]. *)
Lemma vmm_map_effect space virt phys flags st r st' :
  space_wf st space → 0 ≤ virt < W32 → 0 ≤ phys < W32 →
  vmm_map space virt phys flags st = (r, st') →
  (r = -1 ∧ st' = st ∧ ¬ present (word (mem st) space (pd_idx virt)) ∧
   fst (pa_alloc (pages st)) = 0) ∨
  (r = 0 ∧ space_wf st' space ∧
   (∀ w, 0 ≤ w < W32 → pte_at (mem st') space w =
      if page_of w =? page_of virt then page_of phys + flags mod 4096
      else pte_at (mem st) space w) ∧
   touches st st' [space; frame (word (mem st') space (pd_idx virt))] ∧
   present (word (mem st') space (pd_idx virt)) ∧
   (if has (word (mem st) space (pd_idx virt)) VMM_PRESENT
    then ∀ i, 0 ≤ i < 1024 → word (mem st') space i = word (mem st) space i
    else user_pde (word (mem st') space (pd_idx virt)) = true) ∧
   kernel_space st' = kernel_space st ∧
   invlpgs st' = if cr3 st =? space then virt :: invlpgs st else invlpgs st).
Proof.
  intros Hwf Hv Hp E. unfold vmm_map in E.
  destruct (ensure_table space virt st) as [ok st1] eqn:Ee.
  destruct (ensure_table_spec space virt st ok st1 Hwf Hv Ee) as (Ecr & Einv & Eks & Hok).
  destruct ok; cbn [negb] in E; injection E as <- <-; [right | by left].
  destruct Hok as (Hwf1 & Hpr & Hpte & Ht1 & Hold).
  destruct (map_entry phys flags Hp) as (Een & Her & _). rewrite Een.
  destruct (write_pte st1 space (pd_idx virt) (pt_idx virt) (page_of phys + flags mod 4096))
    as (Hwf2 & Ht2 & Hdir & Hw); [done | by apply pd_idx_range | apply pt_idx_range | done |].
  rewrite mem_flush, (Hdir (pd_idx virt)) by (by apply pd_idx_range).
  split_and!; [done | by apply space_wf_flush | | | done | | |].
  - intros w Hw0. rewrite Hw by done. rewrite same_idx by lia. rewrite u32_id by done.
    by rewrite Hpte.
  - apply touches_flush. change [space; ?t] with ([space] ++ [t]). by eapply touches_trans.
  - destruct (has (word (mem st) space (pd_idx virt)) 1); [by intros i Hi; rewrite Hdir, Hold |].
    destruct Hold as (pt & Hpt & _ & _ & Hdv & _). rewrite Hdv. unfold user_pde.
    by rewrite !(proj2 (proj2 (entry_fields pt 7 Hpt ltac:(lia)))) by lia.
  - rewrite <- Eks. unfold flush. by destruct (_ =? _).
  - unfold flush. cbn [cr3 with_mem]. rewrite Ecr. destruct (cr3 st =? space); [| done].
    cbn [invlpgs invlpg with_mem]. by rewrite Einv.
Qed.
End mapping.
(** ** Creating and destroying spaces *)

Section ownership.
Context {Pg : Type} `{PageAlloc Pg}.
Implicit Types (st : machine Pg) (base : Z → Prop).

(** Giving back the pages [t j] of the indices selected by [b]. *)
Lemma free_tables base (b : Z → bool) (t : Z → Z) (i : nat) (pg : Pg) :
  pa_wf pg →
  (∀ j, 0 ≤ j < Z.of_nat i → b j = true → page_addr (t j) ∧ ¬ base (t j)) →
  (∀ j l, 0 ≤ j < Z.of_nat i → 0 ≤ l < Z.of_nat i → b j = true → b l = true → t j = t l → j = l) →
  (∀ q, pa_used pg q ↔ base q ∨ ∃ j, 0 ≤ j < Z.of_nat i ∧ b j = true ∧ q = t j) →
  let pg' := loop_n i 0 (λ j pg, if b j then pa_free (t j) pg else pg) pg in
  pa_wf pg' ∧ ∀ q, pa_used pg' q ↔ base q.
Proof.
  intros Hwf Hok Hinj Hu pg'.
  assert (Hloop : pa_wf pg' ∧
    ∀ q, pa_used pg' q ↔ base q ∨ ∃ j, 0 + Z.of_nat i ≤ j < Z.of_nat i ∧ b j = true ∧ q = t j).
  { apply (loop_n_ind (λ k pg, pa_wf pg ∧
      ∀ q, pa_used pg q ↔ base q ∨ ∃ j, k ≤ j < Z.of_nat i ∧ b j = true ∧ q = t j) i 0); [done |].
    intros k p Hk [Hp Hpu]. destruct (b k) eqn:Ebk.
    - destruct (Hok k) as [Hpa Hnb]; [lia | done |].
      destruct (pa_free_ok p (t k) Hp Hpa) as [Hp' Hpu']; [apply Hpu; right; exists k; split_and!; lia || done |].
      split; [done |]. intros q. rewrite Hpu', Hpu. split.
      + intros [[Hq | (j & Hj & Hb & ->)] Hne]; [by left | right].
        exists j. split_and!; [| lia | done | done]. destruct (Z.eq_dec j k); [congruence | lia].
      + intros [Hq | (j & Hj & Hb & ->)]; [split; [by left | congruence] |].
        split; [right; exists j; split_and!; lia || done |]. intros E.
        assert (j = k) by (apply Hinj; lia || done). lia.
    - split; [done |]. intros q. rewrite Hpu. split; (intros [Hq | (j & Hj & Hb & ->)]; [by left |]);
        right; exists j; split_and!; try done; try lia. destruct (Z.eq_dec j k); [congruence | lia]. }
  destruct Hloop as [Hw Hq]. split; [done |]. intros q. rewrite Hq. split; [| by left].
  intros [? | (j & ? & _)]; [done | lia].
Qed.

(** [space] and the tables of its user entries are exactly the pages in use
    beyond those of [base]. *)
Record space_owns base st (space : Z) : Prop := {
  so_wf : space_wf st space;
  so_new : ¬ base space;
  so_tab : ∀ i, 0 ≤ i < 1024 → user_pde (word (mem st) space i) = true →
    ¬ base (frame (word (mem st) space i));
  so_used : ∀ q, pa_used (pages st) q ↔
    base q ∨ q = space ∨
    ∃ i, 0 ≤ i < 1024 ∧ user_pde (word (mem st) space i) = true ∧
      q = frame (word (mem st) space i);
}.

Lemma vmm_destroy_owned base st space :
  space_owns base st space →
  pa_wf (pages (vmm_destroy_space space st)) ∧
  (∀ q, pa_used (pages (vmm_destroy_space space st)) q ↔ base q) ∧
  mem (vmm_destroy_space space st) = mem st.
Proof.
  intros [[Hal Hpg Hus Htab Hinj] Hnew Hnt Hu]. unfold vmm_destroy_space.
  pose proof Hpg as (Hpos & _). destruct (Z.eqb_spec space 0); [lia |].
  cbn [pages mem with_pages].
  rewrite (loop_n_ext 1024 0 _ (λ i pg, if user_pde (word (mem st) space i)
    then pa_free (frame (word (mem st) space i)) pg else pg)).
  2:{ intros i pg _. unfold user_pde. by destruct (has _ 1), (has _ 4). }
  destruct (free_tables (λ q, base q ∨ q = space) (λ i, user_pde (word (mem st) space i))
    (λ i, frame (word (mem st) space i)) 1024 (pages st)) as [Hwf' Hu'].
  - done.
  - intros j Hj Hb. pose proof Hb as [Hp _]%andb_prop. destruct (Htab j Hj Hp) as (? & ? & ?).
    split; [done |]. intros [Hbase | ?]; [| done]. by apply (Hnt j).
  - intros j l Hj Hl [Hbj _]%andb_prop [Hbl _]%andb_prop. by apply Hinj.
  - intros q. rewrite Hu. tauto.
  - destruct (pa_free_ok _ space Hwf' Hpg) as [Hwf2 Hu2]; [apply Hu'; by right |].
    split_and!; [done | | done]. intros q. rewrite Hu2, Hu'. split; [tauto |].
    intros Hq. split; [by left |]. by intros ->.
Qed.
End ownership.
Section create.
Context {Pg : Type} `{PageAlloc Pg}.
Implicit Types st : machine Pg.

(** What the new directory holds for the entry [e] of the old one. *)
Definition entry_copied (base : Z → Prop) (m0 m : memory) (new_pd e e' : Z) : Prop :=
  if negb (has e VMM_PRESENT) then e' = 0
  else if has e VMM_USER then
    ∃ pt, e' = pt + e mod 4096 ∧ page_addr pt ∧ ¬ base pt ∧ pt ≠ new_pd ∧
      ∀ l, 0 ≤ l < 1024 → word m pt l = word m0 (frame e) l
  else e' = e.

(** The state of [copy_dir] after [i] entries. *)
Record copied st0 (new_pd i : Z) st : Prop := {
  cp_alloc : pa_wf (pages st);
  cp_kernel : kernel_space st = kernel_space st0;
  cp_new : page_addr new_pd ∧ ¬ pa_used (pages st0) new_pd;
  cp_same : ∀ q, page_addr q → pa_used (pages st0) q → same_page q (mem st0) (mem st);
  cp_entry : ∀ j, 0 ≤ j < i → entry_copied (pa_used (pages st0)) (mem st0) (mem st) new_pd
    (word (mem st0) (kernel_space st0) j) (word (mem st) new_pd j);
  cp_inj : ∀ j l, 0 ≤ j < i → 0 ≤ l < i →
    user_pde (word (mem st) new_pd j) = true → user_pde (word (mem st) new_pd l) = true →
    frame (word (mem st) new_pd j) = frame (word (mem st) new_pd l) → j = l;
  cp_used : ∀ q, pa_used (pages st) q ↔
    (pa_used (pages st0) q ∨ q = new_pd) ∨
    ∃ j, 0 ≤ j < i ∧ user_pde (word (mem st) new_pd j) = true ∧
      q = frame (word (mem st) new_pd j);
}.

(** Reading off an entry that was copied. *)
Lemma entry_copied_user base m0 m new_pd e e' :
  entry_copied base m0 m new_pd e e' →
  has e' VMM_PRESENT = has e VMM_PRESENT ∧ (has e' VMM_USER = true → user_pde e' = true) ∧
  (user_pde e' = true → page_addr (frame e') ∧ ¬ base (frame e') ∧ frame e' ≠ new_pd ∧
     ∀ l, 0 ≤ l < 1024 → word m (frame e') l = word m0 (frame e) l) ∧
  (user_pde e' = false → has e VMM_PRESENT = true → e' = e).
Proof.
  unfold entry_copied, user_pde. destruct (has e 1) eqn:E1; simpl.
  - destruct (has e 4) eqn:E4.
    + intros (pt & -> & Hpt & Hb & Hne & Hw). assert (Hf : 0 ≤ e mod 4096 < 4096) by mlia.
      destruct (entry_fields pt (e mod 4096) Hpt Hf) as (_ & Hfr & Hh).
      rewrite !Hh, <- !has_low, E1, E4, Hfr by lia. done.
    + intros ->. rewrite E1, E4. done.
  - intros ->. done.
Qed.

(** Writing an entry past [i], or a page that was not in use, keeps the copies. *)
Lemma entry_copied_frame base m0 m m' new_pd e e' :
  (∀ q, page_addr q → q ≠ new_pd → ¬ base q → user_pde e' = true → q = frame e' →
     same_page q m m') →
  entry_copied base m0 m new_pd e e' → entry_copied base m0 m' new_pd e e'.
Proof.
  intros Hs Hc. pose proof (entry_copied_user _ _ _ _ _ _ Hc) as (_ & _ & Hu & _).
  unfold entry_copied in *. destruct (has e 1) eqn:E1; simpl in *; [| done].
  destruct (has e 4) eqn:E4; [| done]. destruct Hc as (pt & -> & Hpt & Hb & Hne & Hw).
  assert (Hf : 0 ≤ e mod 4096 < 4096) by mlia.
  destruct (entry_fields pt (e mod 4096) Hpt Hf) as (_ & Hfr & Hh).
  exists pt. split_and!; try done. intros l Hl. rewrite <- (Hw l Hl).
  apply same_page_word; [| done]. apply Hs; try done.
  unfold user_pde. by rewrite !Hh, <- !has_low, E1, E4 by lia.
Qed.

(** One more entry: [e'] is written at index [i], after [m1] was prepared. *)
Lemma copied_step st0 new_pd i st m1 pg e' :
  copied st0 new_pd i st → 0 ≤ i < 1024 → 0 ≤ e' < W32 →
  pa_wf pg →
  (∀ q, page_addr q → pa_used (pages st) q → same_page q (mem st) m1) →
  entry_copied (pa_used (pages st0)) (mem st0) (set_word new_pd i e' m1) new_pd
    (word (mem st0) (kernel_space st0) i) e' →
  (user_pde e' = true → ¬ pa_used (pages st) (frame e')) →
  (∀ q, pa_used pg q ↔ pa_used (pages st) q ∨ user_pde e' = true ∧ q = frame e') →
  copied st0 new_pd (i + 1) (with_mem (set_word new_pd i e' m1) (with_pages pg st)).
Proof.
  intros [Hal Hk [Hnp Hnu] Hs He Hi Hu] Hir Her Hpg Hs1 Hce Hfresh Hu'.
  assert (Hnew : pa_used (pages st) new_pd) by (apply Hu; left; by right).
  assert (Hwi : word (set_word new_pd i e' m1) new_pd i = e') by (by rewrite word_set_eq, u32_id).
  assert (Hwj : ∀ j, 0 ≤ j < i → word (set_word new_pd i e' m1) new_pd j = word (mem st) new_pd j).
  { intros j Hj. rewrite word_set_ne by (auto; lia). apply same_page_word; [by apply Hs1 | lia]. }
  assert (Hpage : ∀ q, page_addr q → q ≠ new_pd → pa_used (pages st) q →
    same_page q (mem st) (set_word new_pd i e' m1)).
  { intros q Hq Hne Huq. apply same_page_set_word; auto. }
  constructor; cbn [mem with_mem with_pages pages kernel_space]; try done.
  - intros q Hq Huq. etransitivity; [by apply Hs |]. apply Hpage; [done | by intros -> |].
    apply Hu. left. by left.
  - intros j Hj. destruct (Z.eq_dec j i) as [-> | Hji]; [by rewrite Hwi |].
    rewrite Hwj by lia. eapply entry_copied_frame; [| apply He; lia].
    intros q Hq Hne _ Hue ->. apply Hpage; [done | done |]. apply Hu. right. exists j. split_and!; lia || done.
  - intros j l Hj Hl. destruct (Z.eq_dec j i) as [-> | Hji], (Z.eq_dec l i) as [-> | Hli]; [done | | |].
    + rewrite Hwi, Hwj by lia. intros Hb1 Hb2 Heq. exfalso. apply (Hfresh Hb1). rewrite Heq.
      apply Hu. right. exists l. split_and!; lia || done.
    + rewrite Hwi, Hwj by lia. intros Hb1 Hb2 Heq. exfalso. apply (Hfresh Hb2). rewrite <- Heq.
      apply Hu. right. exists j. split_and!; lia || done.
    + rewrite !Hwj by lia. apply Hi; lia.
  - intros q. rewrite Hu', Hu. split.
    + intros [[Hq | (j & Hj & Hb & ->)] | [Hb ->]]; [by left | right; exists j | right; exists i].
      * rewrite Hwj by lia. split_and!; lia || done.
      * rewrite Hwi. split_and!; lia || done.
    + intros [Hq | (j & Hj & Hb & ->)]; [left; by left |]. destruct (Z.eq_dec j i) as [-> | Hji].
      * rewrite Hwi in *. by right.
      * rewrite Hwj in * by lia. left. right. exists j. split_and!; lia || done.
Qed.

(** The cleanup when no page is left. *)
Lemma copied_undo st0 new_pd i st :
  copied st0 new_pd i st → 0 ≤ i →
  let pg := pa_free new_pd (free_user_tables (Z.to_nat i) new_pd (mem st) (pages st)) in
  pa_wf pg ∧ ∀ q, pa_used pg q ↔ pa_used (pages st0) q.
Proof.
  intros [Hal Hk [Hnp Hnu] Hs He Hi Hu] Hi0.
  set (b j := user_pde (word (mem st) new_pd j)). set (t j := frame (word (mem st) new_pd j)).
  destruct (free_tables (λ q, pa_used (pages st0) q ∨ q = new_pd) b t (Z.to_nat i) (pages st))
    as [Hwf Hq]; rewrite ?Z2Nat.id by lia.
  - done.
  - intros j Hj Hb. destruct (entry_copied_user _ _ _ _ _ _ (He j Hj)) as (_ & _ & Hx & _).
    destruct (Hx Hb) as (? & ? & ? & _). split; [done |]. by intros [|].
  - intros j l Hj Hl. by apply Hi.
  - done.
  - unfold free_user_tables. rewrite (loop_n_ext _ 0 _ (λ j pg, if b j then pa_free (t j) pg else pg)).
    2:{ intros j pg Hj. rewrite Z2Nat.id in Hj by lia.
        destruct (entry_copied_user _ _ _ _ _ _ (He j Hj)) as (_ & Hx & _).
        unfold b, t. destruct (has (word (mem st) new_pd j) 4) eqn:E4; [by rewrite Hx |].
        unfold user_pde. by rewrite E4, andb_false_r. }
    destruct (pa_free_ok _ new_pd Hwf Hnp) as [Hwf' Hq']; [apply Hq; by right |].
    split; [done |]. intros q. rewrite Hq', Hq. split; [tauto |].
    intros Hx. split; [by left |]. by intros ->.
Qed.

Lemma copy_dir_cases n i new_pd st0 st r st' :
  space_wf st0 (kernel_space st0) → copied st0 new_pd i st → 0 ≤ i → i + Z.of_nat n = 1024 →
  copy_dir n i new_pd st = (r, st') →
  (r = 0 ∧ pa_wf (pages st') ∧ (∀ q, pa_used (pages st') q ↔ pa_used (pages st0) q) ∧
   ∀ q, page_addr q → pa_used (pages st0) q → same_page q (mem st0) (mem st')) ∨
  (r = new_pd ∧ copied st0 new_pd 1024 st').
Proof.
  intros Hwf. revert i st. induction n as [|n IH]; intros i st Hc Hi Hn E.
  { injection E as <- <-. right. by replace 1024 with i by lia. }
  pose proof Hc as [Hal Hk [Hnp Hnu] Hs He Hinj Hu]. cbn [copy_dir] in E.
  assert (Hent : word (mem st) (kernel_space st) i = word (mem st0) (kernel_space st0) i).
  { rewrite Hk. apply same_page_word; [| lia]. by apply Hs; apply Hwf. }
  pose proof (word_range (mem st0) (kernel_space st0) i) as Her.
  rewrite Hent in E. set (e := word (mem st0) (kernel_space st0) i) in *.
  assert (Hplain : ∀ e', 0 ≤ e' < W32 → user_pde e' = false →
    entry_copied (pa_used (pages st0)) (mem st0) (set_word new_pd i e' (mem st)) new_pd e e' →
    copied st0 new_pd (i + 1) (with_mem (set_word new_pd i e' (mem st)) st)).
  { intros e' He' Hue Hce.
    apply (copied_step st0 new_pd i st (mem st) (pages st) e' Hc); try done; [lia | congruence |].
    rewrite Hue. naive_solver. }
  destruct (has e 1) eqn:E1; cbn [negb] in E; [destruct (has e 4) eqn:E4 |].
  - destruct (pa_alloc (pages st)) as [pt pg] eqn:Ea. cbn [pages mem with_pages] in E.
    destruct (Z.eqb_spec pt 0) as [-> | Hnz].
    + rewrite (pa_alloc_null _ _ Hal Ea) in E. injection E as <- <-. left.
      destruct (copied_undo st0 new_pd i st Hc Hi) as [Hw Hq]. by split_and!.
    + destruct (pa_alloc_ok _ pt pg Hal Ea Hnz) as (Hal' & Hpt & Hnew & Hu').
      destruct (sw_tab _ _ Hwf i) as (Hold & Holdu & _); [lia | done |]. fold e in Hold, Holdu.
      assert (Hef : 0 ≤ e mod 4096 < 4096) by mlia.
      destruct (entry_fields pt (e mod 4096) Hpt Hef) as (Hr & Hfr & Hh).
      assert (Hue : user_pde (pt + e mod 4096) = true).
      { unfold user_pde. by rewrite !Hh, <- !has_low, E1, E4 by lia. }
      assert (Hnp' : pt ≠ new_pd) by (intros ->; apply Hnew, Hu; left; by right).
      assert (Hold' : pa_used (pages st) (frame e)) by (apply Hu; left; by left).
      destruct (copy_table_spec pt (frame e) (mem st) Hpt Hold) as [Hcs Hcw]; [by intros <- |].
      rewrite land_fff in E. rewrite page_lor in E by (done || apply Hpt).
      eapply IH; [| | | exact E]; [| lia | lia].
      apply (copied_step st0 new_pd i st (copy_table pt (frame e) (mem st)) pg (pt + e mod 4096) Hc);
        [lia | exact Hr | exact Hal' | | | intros _; by rewrite Hfr | intros q; rewrite Hfr, Hu'; tauto].
      * intros q Hq Huq. apply Hcs; [done |]. by intros ->.
      * unfold entry_copied. fold e. rewrite E1, E4. exists pt.
        split_and!; [done | done | intros Hx; apply Hnew, Hu; left; by left | done |].
        intros l Hl. rewrite word_set_ne by (auto; lia). rewrite Hcw by done.
        apply same_page_word; [by apply Hs | done].
  - eapply IH; [| | | exact E]; [| lia | lia]. apply Hplain; [done | | ].
    + unfold user_pde. by rewrite E1, E4.
    + unfold entry_copied. by rewrite E1, E4.
  - eapply IH; [| | | exact E]; [| lia | lia]. apply Hplain; [done | done |].
    unfold entry_copied. by rewrite E1.
Qed.

Lemma copied_space st0 new_pd st :
  space_wf st0 (kernel_space st0) → copied st0 new_pd 1024 st →
  space_owns (pa_used (pages st0)) st new_pd ∧
  (∀ w, 0 ≤ w < W32 → pte_at (mem st) new_pd w = pte_at (mem st0) (kernel_space st0) w) ∧
  touches st0 st [].
Proof.
  intros Hwf [Hal Hk [Hnp Hnu] Hs He Hinj Hu].
  assert (Hcase : ∀ j, 0 ≤ j < 1024 → has (word (mem st) new_pd j) 1 = true →
    user_pde (word (mem st) new_pd j) = true ∨
    word (mem st) new_pd j = word (mem st0) (kernel_space st0) j ∧
    user_pde (word (mem st) new_pd j) = false).
  { intros j Hj Hp. destruct (user_pde _) eqn:Hue; [by left | right]. split; [| done].
    destruct (entry_copied_user _ _ _ _ _ _ (He j Hj)) as (Hpp & _ & _ & Hx).
    apply Hx; [done |]. by rewrite <- Hpp. }
  assert (Huser : ∀ j, 0 ≤ j < 1024 → user_pde (word (mem st) new_pd j) = true →
    page_addr (frame (word (mem st) new_pd j)) ∧
    ¬ pa_used (pages st0) (frame (word (mem st) new_pd j)) ∧
    frame (word (mem st) new_pd j) ≠ new_pd ∧
    ∀ l, 0 ≤ l < 1024 → word (mem st) (frame (word (mem st) new_pd j)) l =
      word (mem st0) (frame (word (mem st0) (kernel_space st0) j)) l).
  { intros j Hj. by destruct (entry_copied_user _ _ _ _ _ _ (He j Hj)) as (_ & _ & Hx & _). }
  assert (Hkern : ∀ j, 0 ≤ j < 1024 → has (word (mem st) new_pd j) 1 = true →
    word (mem st) new_pd j = word (mem st0) (kernel_space st0) j →
    page_addr (frame (word (mem st) new_pd j)) ∧ pa_used (pages st0) (frame (word (mem st) new_pd j))).
  { intros j Hj Hp E. rewrite E in *. by destruct (sw_tab _ _ Hwf j) as (? & ? & _). }
  split_and!; [constructor; [constructor |..] | ..]; try done.
  - apply Hu. left. by right.
  - intros j Hj Hp. destruct (Hcase j Hj Hp) as [Hue | [E _]].
    + destruct (Huser j Hj Hue) as (? & ? & ? & _). split_and!; [done | | done].
      apply Hu. right. by exists j.
    + destruct (Hkern j Hj Hp E). split_and!; [done | apply Hu; left; by left | congruence].
  - intros j l Hj Hl Hpj Hpl Heq.
    destruct (Hcase j Hj Hpj) as [Huj | [Ej _]], (Hcase l Hl Hpl) as [Hul | [El _]].
    + by apply Hinj.
    + exfalso. destruct (Huser j Hj Huj) as (_ & Hx & _). apply Hx. rewrite Heq. by apply Hkern.
    + exfalso. destruct (Huser l Hl Hul) as (_ & Hx & _). apply Hx. rewrite <- Heq. by apply Hkern.
    + rewrite Ej in *. rewrite El in *. by apply (sw_inj _ _ Hwf).
  - intros j Hj Hb. by destruct (Huser j Hj Hb) as (_ & ? & _).
  - intros q. rewrite Hu. tauto.
  - intros w Hw. pose proof (pd_idx_range w Hw) as Hj. pose proof (pt_idx_range w) as Hl.
    destruct (entry_copied_user _ _ _ _ _ _ (He _ Hj)) as (Hpp & _ & Hx & _).
    unfold pte_at. rewrite <- Hpp. destruct (has (word (mem st) new_pd (pd_idx w)) 1) eqn:Hp; [| done].
    destruct (Hcase _ Hj Hp) as [Hue | [E _]]; [by apply (Hx Hue) |].
    rewrite <- E. destruct (Hkern _ Hj Hp E). apply same_page_word; [by apply Hs | done].
  - split_and!; [done | intros q Hq; apply Hu; left; by left |]. intros q Hq Huq _. by apply Hs.
Qed.
End create.
(** ** Properties of address spaces *)

Section theorems.
Context {Pg : Type} `{PageAlloc Pg}.
Implicit Types (st : machine Pg) (base : Z → Prop).

Lemma create_effect st s st' :
  space_wf st (kernel_space st) → vmm_create_space st = (s, st') →
  (s = 0 ∧ pa_wf (pages st') ∧ (∀ q, pa_used (pages st') q ↔ pa_used (pages st) q) ∧
   ∀ q, page_addr q → pa_used (pages st) q → same_page q (mem st) (mem st')) ∨
  (copied st s 1024 st').
Proof.
  intros Hwf E. pose proof (sw_alloc _ _ Hwf) as Hal. unfold vmm_create_space in E.
  destruct (pa_alloc (pages st)) as [new_pd pg] eqn:Ea.
  destruct (Z.eqb_spec new_pd 0) as [-> | Hnz].
  { injection E as <- <-. rewrite (pa_alloc_null _ _ Hal Ea). left. by split_and!. }
  destruct (pa_alloc_ok _ _ _ Hal Ea Hnz) as (Hal' & Hp & Hnew & Hu).
  destruct (copy_dir_cases 1024 0 new_pd st (with_pages pg st) s st') as [Hf | [-> Hc]];
    [done | | lia | done | exact E | by left | by right].
  constructor; cbn [mem pages with_pages kernel_space]; try done; [lia | lia |].
  clear E. intros q. rewrite Hu. split; [tauto |]. intros [? | (j & ? & _)]; [tauto | lia].
Qed.

(** Ownership only depends on the directory and the allocator. *)
Lemma space_owns_frame base st st' space :
  space_owns base st space → space_wf st' space →
  (∀ i, 0 ≤ i < 1024 → word (mem st') space i = word (mem st) space i) →
  (∀ q, pa_used (pages st') q ↔ pa_used (pages st) q) → space_owns base st' space.
Proof.
  intros [_ Hnew Hnt Hu] Hwf Hd Hq. constructor; [done | done | |].
  - intros i Hi. rewrite Hd by done. by apply Hnt.
  - intros q. rewrite Hq, Hu. split; (intros [? | [? | (i & Hi & Hx & ->)]]; [tauto | tauto |]);
      right; right; exists i.
    + by rewrite Hd.
    + by rewrite Hd in * by done.
Qed.

Lemma table_added_owns base st st' space i pt :
  space_owns base st space → space_wf st' space → 0 ≤ i < 1024 →
  has (word (mem st) space i) VMM_PRESENT = false → table_added st st' space i pt →
  space_owns base st' space.
Proof.
  intros [Hwf Hnew Hnt Hu] Hwf' Hi Habs (Hpt & Hfresh & Hu' & Hdv & Hd).
  destruct (entry_fields pt 7 Hpt ltac:(lia)) as (_ & Hfr & Hh).
  assert (Hue : user_pde (pt + 7) = true) by (unfold user_pde; by rewrite !Hh by lia).
  assert (Hna : user_pde (word (mem st) space i) = false) by (unfold user_pde; by rewrite Habs).
  constructor; [done | done | |].
  - intros j Hj. destruct (Z.eq_dec j i) as [-> | Hji].
    + rewrite Hdv, Hfr. intros _ Hb. apply Hfresh, Hu. by left.
    + rewrite Hd by done. by apply Hnt.
  - intros q. rewrite Hu', Hu. split.
    + intros [-> | [? | [? | (j & Hj & Hx & ->)]]]; [| tauto | tauto |]; right; right.
      * exists i. by rewrite Hdv, Hfr.
      * assert (j ≠ i) by congruence. exists j. by rewrite Hd.
    + intros [? | [? | (j & Hj & Hx & ->)]]; [tauto | tauto |].
      destruct (Z.eq_dec j i) as [-> | Hji]; [left; by rewrite Hdv, Hfr |].
      rewrite Hd in * by done. right. right. right. by exists j.
Qed.

(** The pages a space owns follow the tables [vmm_map] creates. *)
Lemma vmm_map_owns base st space virt phys flags r st' :
  space_owns base st space → 0 ≤ virt < W32 →
  vmm_map space virt phys flags st = (r, st') → space_owns base st' space.
Proof.
  intros Hown Hv E. pose proof (so_wf _ _ _ Hown) as Hwf. unfold vmm_map in E.
  destruct (ensure_table space virt st) as [ok st1] eqn:Ee.
  destruct (ensure_table_spec space virt st ok st1 Hwf Hv Ee) as (_ & _ & _ & Hok).
  destruct ok; cbn [negb] in E; injection E as _ <-; [| by destruct Hok as (-> & _)].
  destruct Hok as (Hwf1 & Hpr & _ & _ & Hold).
  pose proof (pd_idx_range virt Hv) as Hi.
  assert (Hown1 : space_owns base st1 space).
  { destruct (has (word (mem st) space (pd_idx virt)) 1) eqn:Hp; [by subst |].
    destruct Hold as [pt Hadd]. by apply (table_added_owns base st st1 space (pd_idx virt) pt). }
  destruct (write_pte st1 space (pd_idx virt) (pt_idx virt)
    (Z.lor (frame phys) (Z.land flags 0xFFF))) as (Hwf2 & _ & Hdir & _);
    [done | done | apply pt_idx_range | done |].
  apply (space_owns_frame base st1); [done | by apply space_wf_flush | | ].
  - intros i Hi'. rewrite mem_flush. by apply Hdir.
  - intros q. unfold flush. by destruct (_ =? _).
Qed.

Lemma vmm_unmap_effect space virt st r st' :
  space_wf st space → 0 ≤ virt < W32 → vmm_unmap space virt st = (r, st') →
  r = 0 ∧ space_wf st' space ∧
  (∀ w, 0 ≤ w < W32 → pte_at (mem st') space w =
     if page_of w =? page_of virt then 0 else pte_at (mem st) space w) ∧
  (∀ i, 0 ≤ i < 1024 → word (mem st') space i = word (mem st) space i) ∧
  pages st' = pages st ∧
  invlpgs st' = (if has (word (mem st) space (pd_idx virt)) VMM_PRESENT && (cr3 st =? space)
                 then virt :: invlpgs st else invlpgs st).
Proof.
  intros Hwf Hv E. unfold vmm_unmap in E. pose proof (pd_idx_range virt Hv) as Hi.
  destruct (has (word (mem st) space (pd_idx virt)) 1) eqn:Hp; cbn [negb] in E; injection E as <- <-.
  - destruct (write_pte st space (pd_idx virt) (pt_idx virt) 0) as (Hwf2 & Ht2 & Hdir & Hw);
      [done | done | apply pt_idx_range | done |].
    split_and!; [done | by apply space_wf_flush | | | |].
    + intros w Hw0. rewrite mem_flush, Hw by done. by rewrite same_idx by lia.
    + intros i Hi'. rewrite mem_flush. by apply Hdir.
    + unfold flush. by destruct (_ =? _).
    + unfold flush. cbn [cr3 with_mem andb]. by destruct (cr3 st =? space).
  - split_and!; try done. intros w Hw. destruct (Z.eqb_spec (page_of w) (page_of virt)) as [E | _]; [| done].
    unfold pte_at. destruct (idx_page_of w) as [<- _], (idx_page_of virt) as [E2 _].
    by rewrite E, E2, Hp.
Qed.

(** C3: [vmm_map] in a well-formed space returns 0 and maps the page of [virt]
    to the page of [phys] with the given flags, or returns -1 and changes
    nothing, which needs a missing table and an exhausted page allocator. No
    other page of the space is translated differently, no page in use but the
    directory and the table is written, and the TLB entry is dropped exactly
    when the space is active. *)
Theorem vmm_map_spec space virt phys flags st r st' :
  space_wf st space → 0 ≤ virt < W32 → 0 ≤ phys < W32 →
  vmm_map space virt phys flags st = (r, st') →
  (r = -1 ∧ st' = st ∧ fst (pa_alloc (pages st)) = 0) ∨
  (r = 0 ∧ space_wf st' space ∧
   (∀ w, 0 ≤ w < W32 → page_of w = page_of virt →
      pte_at (mem st') space w = page_of phys + flags mod 4096 ∧
      translate (mem st') space w =
        if has flags VMM_PRESENT then Some (page_of phys + w mod PAGE_SIZE) else None) ∧
   (∀ w, 0 ≤ w < W32 → page_of w ≠ page_of virt →
      pte_at (mem st') space w = pte_at (mem st) space w) ∧
   (∀ q, page_addr q → pa_used (pages st) q →
      q ≠ space → q ≠ frame (word (mem st') space (pd_idx virt)) →
      same_page q (mem st) (mem st')) ∧
   invlpgs st' = if cr3 st =? space then virt :: invlpgs st else invlpgs st).
Proof.
  intros Hwf Hv Hp E. destruct (map_entry phys flags Hp) as (_ & _ & Hfr & Hh).
  destruct (vmm_map_effect space virt phys flags st r st' Hwf Hv Hp E)
    as [(? & ? & _ & ?) | (-> & Hwf' & Hpte & (_ & _ & Ht) & _ & _ & _ & Hinv)]; [by left | right].
  split_and!; [done | done | | | | done].
  - intros w Hw Epg. unfold translate. rewrite Hpte, Epg, Z.eqb_refl by done.
    rewrite Hh, Hfr by lia. done.
  - intros w Hw Hne. rewrite Hpte by done. destruct (Z.eqb_spec (page_of w) (page_of virt)); done.
  - intros q Hq Hu H1 H2. apply Ht; [done | done | set_solver].
Qed.

(** [vmm_unmap] removes the translation of the page of [virt] and keeps
    every other one. *)
Theorem vmm_unmap_spec space virt st r st' :
  space_wf st space → 0 ≤ virt < W32 → vmm_unmap space virt st = (r, st') →
  r = 0 ∧ space_wf st' space ∧
  (∀ w, 0 ≤ w < W32 → translate (mem st') space w =
     if page_of w =? page_of virt then None else translate (mem st) space w) ∧
  pages st' = pages st ∧
  (cr3 st = space → has (word (mem st) space (pd_idx virt)) VMM_PRESENT = true →
   invlpgs st' = virt :: invlpgs st).
Proof.
  intros Hwf Hv E.
  destruct (vmm_unmap_effect space virt st r st' Hwf Hv E) as (-> & Hwf' & Hpte & _ & Hpg & Hinv).
  split_and!; [done | done | | done |].
  - intros w Hw. unfold translate. rewrite Hpte by done. by destruct (page_of w =? page_of virt).
  - intros Ecr Hp. by rewrite Hinv, Hp, Ecr, Z.eqb_refl.
Qed.

(** [vmm_create_space] returns a well-formed space that translates every
    address as the kernel space does and whose user tables are its own, or
    returns 0 and gives back every page it took; in both cases no byte of a
    page in use is written. *)
Theorem vmm_create_space_spec st s st' :
  space_wf st (kernel_space st) → vmm_create_space st = (s, st') →
  (∀ q, page_addr q → pa_used (pages st) q → same_page q (mem st) (mem st')) ∧
  (s = 0 ∧ pa_wf (pages st') ∧ (∀ q, pa_used (pages st') q ↔ pa_used (pages st) q) ∨
   s ≠ 0 ∧ space_owns (pa_used (pages st)) st' s ∧
   (∀ w, 0 ≤ w < W32 →
      pte_at (mem st') s w = pte_at (mem st) (kernel_space st) w ∧
      translate (mem st') s w = translate (mem st) (kernel_space st) w)).
Proof.
  intros Hwf E. destruct (create_effect st s st' Hwf E) as [(-> & Hw & Hq & Hs) | Hc].
  - split; [done | by left].
  - split; [apply (cp_same _ _ _ _ Hc) | right].
    destruct (copied_space st s st' Hwf Hc) as (Hown & Hpte & _).
    destruct (cp_new _ _ _ _ Hc) as [(Hpos & _) _].
    split_and!; [lia | done |]. intros w Hw. unfold translate. by rewrite Hpte.
Qed.

(** A call that works on the space [s]. *)
Inductive space_step (s : Z) : machine Pg → machine Pg → Prop :=
| step_map st virt phys flags r st' :
    0 ≤ virt < W32 → vmm_map s virt phys flags st = (r, st') → space_step s st st'
| step_unmap st virt r st' :
    0 ≤ virt < W32 → vmm_unmap s virt st = (r, st') → space_step s st st'
| step_switch st space : space_step s st (vmm_switch space st).

Lemma space_step_owns base s st st' :
  space_owns base st s → space_step s st st' → space_owns base st' s.
Proof.
  intros Hown Hstep. inversion Hstep as [? virt phys flags r ? Hv E | ? virt r ? Hv E | ? sp]; subst.
  - by apply (vmm_map_owns base st s virt phys flags r).
  - destruct (vmm_unmap_effect s virt st r st' (so_wf _ _ _ Hown) Hv E)
      as (_ & Hwf & _ & Hd & Hpg & _).
    apply (space_owns_frame base st); [done | done | done | by rewrite Hpg].
  - apply (space_owns_frame base st); [done | | done | done]. by destruct Hown as [[] _ _ _].
Qed.


(** C10: mappings that a process makes where the kernel has no table, or one
    with the user bit, are private: every translation of the kernel space
    stays as it was. *)
Theorem vmm_create_space_isolated st s st1 virt phys flags r st2 :
  space_wf st (kernel_space st) → vmm_create_space st = (s, st1) → s ≠ 0 →
  0 ≤ virt < W32 → 0 ≤ phys < W32 →
  (let e := word (mem st) (kernel_space st) (pd_idx virt) in
   has e VMM_PRESENT = false ∨ has e VMM_USER = true) →
  vmm_map s virt phys flags st1 = (r, st2) →
  ∀ w, 0 ≤ w < W32 → pte_at (mem st2) (kernel_space st) w = pte_at (mem st) (kernel_space st) w.
Proof.
  intros Hwf E Hs Hv Hp Hent E2 w Hw.
  destruct (create_effect st s st1 Hwf E) as [(? & _) | Hc]; [done |].
  destruct (copied_space st s st1 Hwf Hc) as (Hown & _ & (_ & Hu1 & Hs1)).
  pose proof (vmm_map_owns _ st1 s virt phys flags r st2 Hown Hv E2) as Hown2.
  pose proof (pd_idx_range virt Hv) as Hi.
  assert (Hsame : ∀ q, page_addr q → pa_used (pages st) q → same_page q (mem st) (mem st2)).
  { intros q Hq Hu. etransitivity; [apply Hs1; [done | done | set_solver +] |].
    destruct (vmm_map_effect s virt phys flags st1 r st2 (so_wf _ _ _ Hown) Hv Hp E2)
      as [(_ & -> & _) | (_ & _ & _ & (_ & _ & Ht) & Hpr & Hdir & _)]; [done |].
    apply Ht; [done | by apply Hu1 |].
    assert (Hue : user_pde (word (mem st2) s (pd_idx virt)) = true).
    { destruct (entry_copied_user _ _ _ _ _ _ (cp_entry _ _ _ _ Hc _ Hi)) as (Hpp & Hx & _ & Hk).
      destruct (has (word (mem st1) s (pd_idx virt)) 1) eqn:Hp1; [| done].
      rewrite (Hdir _ Hi). destruct Hent as [Hent | Hent]; [congruence |].
      apply Hx. destruct (user_pde (word (mem st1) s (pd_idx virt))) eqn:Hue1;
        [by apply andb_prop in Hue1 as [_ ?] |]. by rewrite Hk. }
    intros Hin. apply elem_of_cons in Hin as [-> | [-> | []%elem_of_nil]%elem_of_cons].
    - by apply (so_new _ _ _ Hown).
    - by apply (so_tab _ _ _ Hown2 (pd_idx virt)). }
  unfold pte_at. rewrite (same_page_word _ _ _ _ (Hsame _ (sw_page _ _ Hwf) (sw_used _ _ Hwf))) by (by apply pd_idx_range).
  destruct (has (word (mem st) (kernel_space st) (pd_idx w)) 1) eqn:Hpw; [| done].
  destruct (sw_tab _ _ Hwf (pd_idx w)) as (Ha & Hb & _); [by apply pd_idx_range | done |].
  apply same_page_word; [by apply Hsame | apply pt_idx_range].
Qed.

(** Where the kernel has a table without the user bit, a mapping made in a
    process space is written to the table of the kernel: the kernel translates
    the page differently from then on, and user code still cannot reach it. *)
Theorem vmm_map_kernel_table_shared st s st1 virt phys flags :
  space_wf st (kernel_space st) → vmm_create_space st = (s, st1) → s ≠ 0 →
  0 ≤ virt < W32 → 0 ≤ phys < W32 →
  (let e := word (mem st) (kernel_space st) (pd_idx virt) in
   has e VMM_PRESENT = true ∧ has e VMM_USER = false) →
  ∃ st2, vmm_map s virt phys flags st1 = (0, st2) ∧
    pte_at (mem st2) (kernel_space st) virt = page_of phys + flags mod 4096 ∧
    user_access (mem st2) s virt = false.
Proof.
  intros Hwf E Hs Hv Hp [Hpr Hus]. pose proof (pd_idx_range virt Hv) as Hi.
  destruct (create_effect st s st1 Hwf E) as [(? & _) | Hc]; [done |].
  destruct (copied_space st s st1 Hwf Hc) as (Hown & _ & (_ & Hu1 & Hs1)).
  assert (Hd1 : word (mem st1) s (pd_idx virt) = word (mem st) (kernel_space st) (pd_idx virt)).
  { pose proof (cp_entry _ _ _ _ Hc _ Hi) as He. unfold entry_copied in He. by rewrite Hpr, Hus in He. }
  destruct (vmm_map s virt phys flags st1) as [r st2] eqn:E2.
  destruct (vmm_map_effect s virt phys flags st1 r st2 (so_wf _ _ _ Hown) Hv Hp E2)
    as [(_ & _ & Habs & _) | (-> & _ & Hpte & (_ & _ & Ht) & _ & Hdir & _)];
    [by rewrite Hd1, Hpr in Habs |].
  rewrite Hd1, Hpr in Hdir. specialize (Hdir _ Hi). rewrite Hd1 in Hdir.
  exists st2. split; [done |].
  destruct (sw_tab _ _ Hwf (pd_idx virt) Hi Hpr) as (_ & _ & Hks).
  assert (Hk : word (mem st2) (kernel_space st) (pd_idx virt) =
    word (mem st) (kernel_space st) (pd_idx virt)).
  { apply same_page_word; [| done]. pose proof (sw_page _ _ Hwf). pose proof (sw_used _ _ Hwf).
    etransitivity; [apply Hs1; [done | done | set_solver +] |]. apply Ht; [done | by apply Hu1 |].
    rewrite Hdir. intros Hin.
    apply elem_of_cons in Hin as [Hin | [Hin | []%elem_of_nil]%elem_of_cons]; [| congruence].
    apply (so_new _ _ _ Hown). by rewrite <- Hin. }
  specialize (Hpte virt Hv). rewrite Z.eqb_refl in Hpte. split.
  - rewrite <- Hpte. unfold pte_at. by rewrite Hk, Hdir.
  - unfold user_access. by rewrite Hdir, Hus.
Qed.
End theorems.

(** ** The identity map of the kernel *)

Section identity.
Context {Pg : Type} `{PageAlloc Pg}.
Implicit Types st : machine Pg.
Context (page_directory boot_page_table : Z).
Context (Hpd : page_addr page_directory) (Hbt : page_addr boot_page_table).
Context (Hapart : page_directory ≠ boot_page_table).

(** The addresses below [top] are mapped to themselves, the others not at all. *)
Definition identity_below st (top : Z) : Prop :=
  space_wf st page_directory ∧
  ∀ w, 0 ≤ w < W32 → pte_at (mem st) page_directory w = if w <? top then page_of w + 3 else 0.

(** The state before the loop: the first 4 MiB, through the boot table. *)
Lemma identity_boot st :
  pa_wf (pages st) → pa_used (pages st) page_directory → pa_used (pages st) boot_page_table →
  identity_below (with_mem (set_word page_directory 0 (Z.lor boot_page_table 3)
    (clear_directory page_directory (fill_boot_table boot_page_table (mem st)))) st) 0x400000.
Proof.
  intros Hal Hu1 Hu2. pose proof Hbt as (_ & _ & Hb3).
  rewrite page_lor by done.
  destruct (entry_fields boot_page_table 3 Hbt ltac:(lia)) as (Her & Hef & Heh).
  destruct (fill_boot_table_spec boot_page_table (mem st) Hbt) as [Hs1 Hw1].
  set (m1 := fill_boot_table boot_page_table (mem st)) in *.
  destruct (clear_directory_spec page_directory m1 Hpd) as [Hs2 Hw2].
  set (m2 := clear_directory page_directory m1) in *. clearbody m1 m2.
  set (st' := with_mem _ st).
  assert (H0 : word (mem st') page_directory 0 = boot_page_table + 3).
  { unfold st'. cbn [mem with_mem]. by rewrite word_set_eq, u32_id. }
  assert (Hi : ∀ i, 0 ≤ i < 1024 → i ≠ 0 → word (mem st') page_directory i = 0).
  { intros i Hi Hne. unfold st'. cbn [mem with_mem]. rewrite word_set_ne by (auto; lia). by apply Hw2. }
  assert (Hz : ∀ i, 0 ≤ i < 1024 → has (word (mem st') page_directory i) 1 = true → i = 0).
  { intros i Hir Hp. destruct (Z.eq_dec i 0); [done |]. by rewrite (Hi i) in Hp. }
  assert (Hb : ∀ j, 0 ≤ j < 1024 → word (mem st') boot_page_table j = j * 4096 + 3).
  { intros j Hj. unfold st'. cbn [mem with_mem]. rewrite word_set_ne by (auto; lia).
    rewrite (same_page_word m1) by (auto; apply Hs2; auto). by apply Hw1. }
  split; [constructor; try done |].
  - intros i Hir Hp. rewrite (Hz i Hir Hp), H0, Hef. done.
  - intros i j Hir Hjr Hp Hq _. by rewrite (Hz i), (Hz j).
  - intros w Hw. pose proof (pd_idx_range w Hw) as Hr. pose proof (pt_idx_range w) as Hl.
    unfold pte_at. destruct (Z.eq_dec (pd_idx w) 0) as [E | E].
    + rewrite E, H0, Hef, Heh by lia. cbn. rewrite Hb by done.
      rewrite pd_idx_eq in E. rewrite pt_idx_eq. unfold page_of.
      change (has 3 1) with true. cbv iota. zcase; mlia.
    + rewrite Hi by done. change (has 0 1) with false. cbv iota. rewrite pd_idx_eq in E. zcase; [mlia | done].
Qed.

Lemma init_map_page_spec addr st :
  identity_below st addr → addr mod 4096 = 0 → 0 ≤ addr < W32 →
  (init_map_page page_directory addr st = Panic ∧ fst (pa_alloc (pages st)) = 0) ∨
  ∃ st', init_map_page page_directory addr st = Ok st' ∧ identity_below st' (addr + 4096).
Proof.
  intros [Hwf Hpte] Hal4 Hr. pose proof (pd_idx_range addr Hr) as Hi.
  pose proof (sw_alloc _ _ Hwf) as Hal.
  assert (Hfin : ∀ st1, space_wf st1 page_directory →
    has (word (mem st1) page_directory (pd_idx addr)) 1 = true →
    (∀ w, 0 ≤ w < W32 → pte_at (mem st1) page_directory w = pte_at (mem st) page_directory w) →
    identity_below (with_mem (set_word (frame (word (mem st1) page_directory (pd_idx addr)))
      (pt_idx addr) (Z.lor addr 3) (mem st1)) st1) (addr + 4096)).
  { intros st1 Hwf1 Hpr Hsame. rewrite page_lor by done.
    destruct (write_pte st1 page_directory (pd_idx addr) (pt_idx addr) (addr + 3))
      as (Hwf2 & _ & _ & Hw); [done | done | apply pt_idx_range | done |].
    split; [exact Hwf2 |]. intros w Hw0. rewrite Hw, Hsame, Hpte by done. rewrite same_idx by lia.
    rewrite u32_id by mlia. rewrite (page_of_inside addr addr) by lia.
    destruct (Z.eqb_spec (page_of w) addr) as [E | Hne].
    - pose proof (page_of_range w). destruct (Z.ltb_spec w (addr + 4096)); lia.
    - unfold page_of in Hne. destruct (Z.ltb_spec w addr), (Z.ltb_spec w (addr + 4096)); try lia; mlia. }
  unfold init_map_page. destruct (has (word (mem st) page_directory (pd_idx addr)) 1) eqn:Hp.
  { right. cbn [obind]. eexists. split; [reflexivity |]. by apply Hfin. }
  destruct (pa_alloc (pages st)) as [pt pg] eqn:Ea.
  destruct (Z.eqb_spec pt 0) as [-> | Hnz]; [by left | right].
  destruct (pa_alloc_ok _ pt pg Hal Ea Hnz) as (_ & Hpt & _). pose proof Hpt as (_ & _ & Hpt4).
  destruct (memset_page_spec pt (mem st) Hpt) as [Hs Hw].
  cbn [obind mem with_pages with_mem]. replace (Z.lor pt 3) with (pt + 3) by (symmetry; apply page_lor; [exact Hpt4 | lia]). eexists. split; [reflexivity |].
  set (st1 := with_mem (set_word page_directory (pd_idx addr) (pt + 3) (memset (mem st) pt 0 4096))
    (with_pages pg st)).
  destruct (link_table st st1 (memset (mem st) pt 0 4096) page_directory (pd_idx addr) pt 3 Hwf Hi)
    as (Hwf1 & Hdv & _ & Hpte1 & _);
    [by rewrite Hp | exact Ea | done | lia | done | exact Hs | exact Hw | reflexivity |].
  apply (Hfin st1 Hwf1); [| exact Hpte1]. rewrite Hdv.
  destruct (entry_fields pt 3 Hpt ltac:(lia)) as (_ & _ & Hh). rewrite Hh by lia. reflexivity.
Qed.

(** [k] pages were taken one after the other. *)
Inductive takes : nat → Pg → Pg → Prop :=
| takes_none pg : takes 0 pg pg
| takes_page k pg p pg1 pg2 : pa_alloc pg = (p, pg1) → p ≠ 0 → takes k pg1 pg2 → takes (S k) pg pg2.

(** A table is only needed for the first page of 4 MiB. *)
Lemma table_present addr st :
  identity_below st addr → addr mod 4096 = 0 → 0 ≤ addr < W32 → addr mod 0x400000 ≠ 0 →
  has (word (mem st) page_directory (pd_idx addr)) 1 = true.
Proof.
  intros [_ Hpte] Hal Hr Hm. specialize (Hpte (addr - 4096)). rewrite (proj2 (Z.ltb_lt (addr - 4096) addr)) in Hpte by lia.
  replace (page_of (addr - 4096)) with (addr - 4096) in Hpte by (unfold page_of; mlia).
  unfold pte_at in Hpte. replace (pd_idx (addr - 4096)) with (pd_idx addr) in Hpte.
  - destruct (has _ _); [done |]. specialize (Hpte ltac:(mlia)). mlia.
  - unfold pd_idx. rewrite !Z.shiftr_div_pow2 by lia. change (2 ^ 22) with 0x400000. mlia.
Qed.

(** The number of 4 MiB blocks that begin in the [n] pages from [addr] on. *)
Definition blocks_begun (n : nat) (addr : Z) : Z :=
  (addr + Z.of_nat n * 4096 + 0x3FFFFF) / 0x400000 - (addr + 0x3FFFFF) / 0x400000.

Lemma blocks_begun_S n addr :
  0 ≤ addr → addr mod 4096 = 0 →
  blocks_begun (S n) addr = blocks_begun n (addr + 4096) + (if addr mod 0x400000 =? 0 then 1 else 0).
Proof. intros H0 Hal. unfold blocks_begun. destruct (Z.eqb_spec (addr mod 0x400000) 0); mlia. Qed.

Lemma init_map_page_takes addr st st' :
  identity_below st addr → addr mod 4096 = 0 → 0 ≤ addr < W32 → init_map_page page_directory addr st = Ok st' →
  ∃ j, takes j (pages st) (pages st') ∧ Z.of_nat j ≤ if addr mod 0x400000 =? 0 then 1 else 0.
Proof.
  intros Hid Hal Hr E. unfold init_map_page in E. apply obind_Ok in E as (st1 & E1 & E). injection E as <-. cbn [pages with_mem].
  destruct (has (word (mem st) page_directory (pd_idx addr)) 1) eqn:Hp.
  { injection E1 as <-. exists 0%nat. split; [constructor |]. by destruct (_ =? 0). }
  destruct (Z.eqb_spec (addr mod 0x400000) 0) as [E0 | Hne]; [| by rewrite table_present in Hp].
  destruct (pa_alloc (pages st)) as [pt pg] eqn:Ea. destruct (Z.eqb_spec pt 0); [done |]. injection E1 as <-.
  exists 1%nat. split; [| done]. by econstructor; [| | constructor].
Qed.

Lemma init_map_page_panics addr st :
  identity_below st addr → addr mod 4096 = 0 → 0 ≤ addr < W32 → init_map_page page_directory addr st = Panic →
  addr mod 0x400000 = 0.
Proof.
  intros Hid Hal Hr E. destruct (Z.eq_dec (addr mod 0x400000) 0) as [| Hne]; [done |]. exfalso.
  unfold init_map_page in E. by rewrite table_present in E.
Qed.

Lemma takes_trans j k pg pg1 pg2 : takes j pg pg1 → takes k pg1 pg2 → takes (j + k) pg pg2.
Proof. induction 1; [done |]. intros. econstructor; eauto. Qed.

Lemma init_map_spec n addr st :
  identity_below st addr → addr mod 4096 = 0 → 0 ≤ addr → addr + Z.of_nat n * 4096 ≤ W32 →
  (init_map page_directory n addr st = Panic ∧
     ∃ j pg, takes j (pages st) pg ∧ Z.of_nat j < blocks_begun n addr ∧ fst (pa_alloc pg) = 0) ∨
  ∃ st', init_map page_directory n addr st = Ok st' ∧ identity_below st' (addr + Z.of_nat n * 4096) ∧
    ∃ j, takes j (pages st) (pages st') ∧ Z.of_nat j ≤ blocks_begun n addr.
Proof.
  revert addr st. induction n as [|n IH]; intros addr st Hid Hal H0 Htop.
  { right. exists st. split; [done |]. replace (addr + Z.of_nat 0 * 4096) with addr by lia. split; [done |].
    exists 0%nat. split; [constructor |]. unfold blocks_begun. mlia. }
  cbn [init_map]. rewrite blocks_begun_S by done.
  assert (Hb : 0 ≤ blocks_begun n (addr + 4096)) by (unfold blocks_begun; mlia).
  destruct (init_map_page_spec addr st) as [[E Hnull] | (st1 & E & Hid1)]; [done | done | lia | |].
  { left. rewrite E. split; [done |]. exists 0%nat, (pages st). split; [constructor |]. split; [| done].
    rewrite (init_map_page_panics addr st) by (done || lia). rewrite Z.eqb_refl. lia. }
  destruct (init_map_page_takes addr st st1) as (j & Hj & Hjl); [done | done | lia | done |].
  rewrite E. cbn [obind].
  destruct (IH (addr + 4096) st1) as [(E2 & k & pg & Hk & Hkl & Hnull) | (st2 & E2 & Hid2 & k & Hk & Hkl)];
    [done | mlia | lia | lia | left | right].
  - split; [done |]. exists (j + k)%nat, pg. split; [by apply (takes_trans _ _ _ (pages st1)) |]. split; [lia | done].
  - exists st2. split; [done |].
    replace (addr + Z.of_nat (S n) * 4096) with (addr + 4096 + Z.of_nat n * 4096) by lia. split; [done |].
    exists (j + k)%nat. split; [by apply (takes_trans _ _ _ (pages st1)) | lia].
Qed.

(** [paging_init] and the pages it takes. *)
Lemma paging_init_run total_mb st (mb := if total_mb =? 0 then 32 else total_mb) :
  0 ≤ total_mb < 4096 → pa_wf (pages st) →
  pa_used (pages st) page_directory → pa_used (pages st) boot_page_table →
  (paging_init page_directory boot_page_table total_mb st = Panic ∧
     ∃ j pg, takes j (pages st) pg ∧ Z.of_nat j < Z.max 0 ((mb - 1) / 4) ∧ fst (pa_alloc pg) = 0) ∨
  ∃ st', paging_init page_directory boot_page_table total_mb st = Ok st' ∧
    space_wf st' page_directory ∧ cr3 st' = page_directory ∧ Z.testbit (cr0 st') 31 = true ∧
    (∀ w, 0 ≤ w < W32 → translate (mem st') page_directory w = if w <? Z.max 4 mb * 1048576 then Some w else None) ∧
    ∃ j, takes j (pages st) (pages st') ∧ Z.of_nat j ≤ Z.max 0 ((mb - 1) / 4).
Proof.
  intros Hmb Hal Hu1 Hu2. unfold paging_init. cbv zeta. fold mb.
  assert (Hmb' : 0 < mb < 4096) by (unfold mb; zcase; lia). clearbody mb.
  rewrite (u32_id (mb * 1024 * 1024)) by lia.
  set (st0 := with_mem _ st). set (n := Z.to_nat _).
  assert (Hn : Z.of_nat n = Z.max 0 ((mb - 4) * 256)) by (unfold n; mlia).
  assert (Hk : blocks_begun n 0x400000 = Z.max 0 ((mb - 1) / 4)) by (unfold blocks_begun; rewrite Hn; mlia).
  destruct (init_map_spec n 0x400000 st0) as [[E Hwhy] | (st1 & E & [Hwf Hpte] & Htk)];
    [by apply identity_boot | done | lia | rewrite Hn; lia | |]; rewrite Hk in *.
  { left. by rewrite E. }
  right. rewrite E. cbn [obind]. eexists. split; [reflexivity |]. split; [| split; [done | split; [| split; [| done]]]].
  - by destruct Hwf.
  - cbn [cr0 with_cr0]. by rewrite Z.lor_spec, orb_true_r.
  - intros w Hw. cbn [mem with_cr0 with_cr3]. unfold translate. rewrite Hpte by done.
    replace (0x400000 + Z.of_nat n * 4096) with (Z.max 4 mb * 1048576) by lia.
    destruct (w <? Z.max 4 mb * 1048576); [| done].
    destruct (entry_fields_aligned (page_of w) 3) as (_ & Hf & Hh);
      [unfold page_of; mlia | unfold page_of; mlia | apply page_of_aligned | lia |].
    rewrite Hh, Hf by lia. cbn. f_equal. unfold page_of. lia.
Qed.

(** [paging_init] either panics (no page is left for a table) or turns
    paging on with a directory that maps exactly the memory of the machine, at
    least 4 MiB, to itself: every byte below the end of memory is translated to
    itself and no address above it is mapped. *)
Theorem paging_init_identity total_mb st :
  0 ≤ total_mb < 4096 → pa_wf (pages st) →
  pa_used (pages st) page_directory → pa_used (pages st) boot_page_table →
  paging_init page_directory boot_page_table total_mb st = Panic ∨
  ∃ st', paging_init page_directory boot_page_table total_mb st = Ok st' ∧
    space_wf st' page_directory ∧ cr3 st' = page_directory ∧ Z.testbit (cr0 st') 31 = true ∧
    (∀ w, 0 ≤ w < W32 → translate (mem st') page_directory w =
       if w <? Z.max 4 (if total_mb =? 0 then 32 else total_mb) * 1048576 then Some w else None).
Proof.
  intros Hmb Hal Hu1 Hu2.
  destruct (paging_init_run total_mb st Hmb Hal Hu1 Hu2) as [[E _] | (st' & E & H1 & H2 & H3 & H4 & _)]; [by left | right].
  by exists st'.
Qed.
End identity.

(** ** Witnesses *)

Import Pmm.

(** A machine of 8 MiB whose kernel directory is page 4194304 with the table
    4198400 at entry 0, linked with the flags [f]. *)
Definition one_table (f : Z) : machine Pmm.pmm :=
  mkMachine (set_word 4194304 0 (4198400 + f) ∅)
    (snd (Pmm.pmm_alloc_page (snd (Pmm.pmm_alloc_page (Pmm.pmm_init 8))))) 0 0 4194304 0 4194304 [] 0.

Lemma one_table_wf f : 0 ≤ f < 4096 → space_wf (one_table f) (kernel_space (one_table f)).
Proof.
  intros Hf. change (kernel_space (one_table f)) with 4194304.
  assert (Ha : page_addr 4194304) by (unfold page_addr; mlia).
  assert (Hb : page_addr 4198400) by (unfold page_addr; mlia).
  destruct (entry_fields 4198400 f Hb Hf) as (Hr & Hfr & _).
  assert (Hwf : pa_wf (pages (one_table f)) ∧ pa_used (pages (one_table f)) 4194304 ∧
    pa_used (pages (one_table f)) 4198400).
  { unfold one_table. cbn [pages].
    destruct (Pmm.pmm_alloc_page (Pmm.pmm_init 8)) as [p1 s1] eqn:E1. cbn [snd].
    destruct (Pmm.pmm_alloc_page s1) as [p2 s2] eqn:E2. cbn [snd].
    assert (Hp : p1 = 4194304 ∧ p2 = 4198400).
    { replace p2 with (fst (Pmm.pmm_alloc_page s1)) by (by rewrite E2).
      replace s1 with (snd (Pmm.pmm_alloc_page (Pmm.pmm_init 8))) by (by rewrite E1).
      replace p1 with (fst (Pmm.pmm_alloc_page (Pmm.pmm_init 8))) by (by rewrite E1).
      split; vm_compute; reflexivity. }
    destruct Hp as [-> ->].
    destruct (pa_alloc_ok (Pmm.pmm_init 8) 4194304 s1) as (Hw1 & _ & _ & Hu1);
      [apply Pmm.pmm_init_wf; lia | exact E1 | done |].
    destruct (pa_alloc_ok s1 4198400 s2) as (Hw2 & _ & _ & Hu2); [done | exact E2 | done |].
    clear E1 E2. split; [exact Hw2 | split; apply Hu2; [right; apply Hu1; left | left]; reflexivity]. }
  destruct Hwf as (H1 & H2 & H3).
  assert (Hz : ∀ i, 0 ≤ i < 1024 → has (word (mem (one_table f)) 4194304 i) 1 = true → i = 0).
  { intros i Hi. destruct (Z.eq_dec i 0) as [-> | Hne]; [done |].
    unfold one_table. cbn [mem]. rewrite word_set_ne by (auto; lia). done. }
  assert (H0 : word (mem (one_table f)) 4194304 0 = 4198400 + f).
  { unfold one_table. cbn [mem]. by rewrite word_set_eq, u32_id. }
  constructor; [done | done | done | |].
  - intros i Hi Hp. rewrite (Hz i Hi Hp), H0, Hfr. done.
  - intros i j Hi Hj Hp Hq _. by rewrite (Hz i), (Hz j).
Qed.

Lemma vmm_map_spec_witness :
  ∃ st', vmm_map 4194304 0x1234 0x9000 7 (one_table 7) = (0, st') ∧
    translate (mem st') 4194304 0x1567 = Some 0x9567 ∧ invlpgs st' = [0x1234].
Proof.
  destruct (vmm_map 4194304 0x1234 0x9000 7 (one_table 7)) as [r st'] eqn:E.
  destruct (vmm_map_spec 4194304 0x1234 0x9000 7 (one_table 7) r st')
    as [(_ & _ & Hnull) | (-> & _ & Hin & _ & _ & Hinv)];
    [apply (one_table_wf 7); lia | lia | lia | exact E | by vm_compute in Hnull |].
  exists st'. split; [reflexivity |]. split; [| exact Hinv].
  destruct (Hin 0x1567) as [_ ->]; [lia | reflexivity | reflexivity].
Defined.

Lemma vmm_unmap_spec_witness :
  ∃ st', vmm_unmap 4194304 0x1234 (one_table 7) = (0, st') ∧ translate (mem st') 4194304 0x1567 = None.
Proof.
  destruct (vmm_unmap 4194304 0x1234 (one_table 7)) as [r st'] eqn:E.
  destruct (vmm_unmap_spec 4194304 0x1234 (one_table 7) r st') as (-> & _ & Ht & _);
    [apply (one_table_wf 7); lia | lia | exact E |].
  exists st'. split; [reflexivity |]. rewrite Ht; [reflexivity | lia].
Defined.

(** The space is created in both machines. *)
Lemma one_table_create f :
  fst (vmm_create_space (one_table f)) ≠ 0 →
  ∃ s st1, vmm_create_space (one_table f) = (s, st1) ∧ s ≠ 0.
Proof. destruct (vmm_create_space (one_table f)) as [s st1]. by exists s, st1. Qed.

Lemma vmm_create_space_spec_witness :
  ∃ s st1, vmm_create_space (one_table 7) = (s, st1) ∧ s ≠ 0 ∧
    space_owns (pa_used (pages (one_table 7))) st1 s.
Proof.
  destruct (one_table_create 7) as (s & st1 & E & Hs); [vm_compute; discriminate |].
  destruct (vmm_create_space_spec (one_table 7) s st1) as [_ [(? & _) | (_ & Hown & _)]];
    [apply one_table_wf; lia | exact E | contradiction |].
  exists s, st1. split; [exact E | split; [exact Hs | exact Hown]].
Defined.


Lemma vmm_create_space_isolated_witness :
  ∃ s st1 r st2, vmm_create_space (one_table 7) = (s, st1) ∧ vmm_map s 0x1000 0x9000 7 st1 = (r, st2) ∧
    pte_at (mem st2) 4194304 0x1000 = pte_at (mem (one_table 7)) 4194304 0x1000.
Proof.
  destruct (one_table_create 7) as (s & st1 & E & Hs); [vm_compute; discriminate |].
  destruct (vmm_map s 0x1000 0x9000 7 st1) as [r st2] eqn:E2.
  exists s, st1, r, st2. split; [exact E | split; [exact E2 |]].
  apply (vmm_create_space_isolated (one_table 7) s st1 0x1000 0x9000 7 r st2);
    [apply one_table_wf; lia | exact E | exact Hs | lia | lia | right; reflexivity | exact E2 | lia].
Defined.

Lemma vmm_map_kernel_table_shared_witness :
  ∃ s st1 st2, vmm_create_space (one_table 3) = (s, st1) ∧ vmm_map s 0x1000 0x9000 7 st1 = (0, st2) ∧
    pte_at (mem st2) 4194304 0x1000 = 0x9007 ∧ user_access (mem st2) s 0x1000 = false.
Proof.
  destruct (one_table_create 3) as (s & st1 & E & Hs); [vm_compute; discriminate |].
  destruct (vmm_map_kernel_table_shared (one_table 3) s st1 0x1000 0x9000 7) as (st2 & E2 & H1 & H2);
    [apply one_table_wf; lia | exact E | exact Hs | lia | lia | split; reflexivity |].
  exists s, st1, st2. split; [exact E | split; [exact E2 | split; [exact H1 | exact H2]]].
Defined.

(** A machine of 8 MiB as [paging_init] finds it: the two tables of
    [paging.cpp] lie in the reserved low memory. *)
Lemma paging_init_identity_witness :
  let st := mkMachine ∅ (Pmm.pmm_init 8) 0 0 0 0 0 [] 0 in
  paging_init 0x200000 0x201000 8 st = Panic ∨
  ∃ st', paging_init 0x200000 0x201000 8 st = Ok st' ∧
    translate (mem st') 0x200000 0x712345 = Some 0x712345 ∧
    translate (mem st') 0x200000 0x800000 = None.
Proof.
  intros st. destruct (paging_init_identity 0x200000 0x201000) with (total_mb := 8) (st := st)
    as [E | (st' & E & _ & _ & _ & Ht)].
  - unfold page_addr. mlia.
  - unfold page_addr. mlia.
  - discriminate.
  - lia.
  - apply Pmm.pmm_init_wf. lia.
  - vm_compute. intuition discriminate.
  - vm_compute. intuition discriminate.
  - left. exact E.
  - right. exists st'. split; [exact E |]. split; [apply Ht; lia | apply Ht; lia].
Defined.
End Vmm.
