(* ===== verification/Process.v ===== *)
(** * Processes: [process/process.cpp] and [user/user_mode.cpp]

    The process table, the creation and destruction of processes and the
    frames from which they start. A [Process] object is kept in a typed store
    keyed by the address [kmalloc] returned for it; freeing the object removes
    it from the store. Everything else (kernel stacks, address spaces, the
    heap) lives in the shared [machine]. *)

From S2P Require Import Prelude Interfaces Machine Libk Pmm Kmalloc Vmm.

Module Process.
Import Libk Kmalloc Vmm.

(** ** Data *)

Inductive TaskState := TASK_FREE | TASK_READY | TASK_RUNNING | TASK_BLOCKED | TASK_DEAD.
Inductive ProcessRing := RING_KERNEL | RING_USER.

#[export] Instance TaskState_eq_dec : EqDecision TaskState.
Proof. solve_decision. Defined.
#[export] Instance ProcessRing_eq_dec : EqDecision ProcessRing.
Proof. solve_decision. Defined.

Record Process := mkProcess {
  pid : Z;
  parent_pid : Z;
  state : TaskState;
  ring : ProcessRing;
  address_space : Z;
  kernel_stack : Z;
  kernel_stack_top : Z;
  kernel_stack_bottom : Z;
  saved_esp : Z;
  user_entry : Z;
  user_esp : Z;
  exit_code : Z;
  main_task : Z;
  msg_queue : Z;
}.

Definition set_state (s : TaskState) (p : Process) : Process :=
  mkProcess (pid p) (parent_pid p) s (ring p) (address_space p) (kernel_stack p)
    (kernel_stack_top p) (kernel_stack_bottom p) (saved_esp p) (user_entry p) (user_esp p)
    (exit_code p) (main_task p) (msg_queue p).
Definition set_saved_esp (e : Z) (p : Process) : Process :=
  mkProcess (pid p) (parent_pid p) (state p) (ring p) (address_space p) (kernel_stack p)
    (kernel_stack_top p) (kernel_stack_bottom p) e (user_entry p) (user_esp p)
    (exit_code p) (main_task p) (msg_queue p).
Definition set_exit_code (c : Z) (p : Process) : Process :=
  mkProcess (pid p) (parent_pid p) (state p) (ring p) (address_space p) (kernel_stack p)
    (kernel_stack_top p) (kernel_stack_bottom p) (saved_esp p) (user_entry p) (user_esp p)
    c (main_task p) (msg_queue p).
Definition set_stack (stack top bottom : Z) (p : Process) : Process :=
  mkProcess (pid p) (parent_pid p) (state p) (ring p) (address_space p) stack
    top bottom (saved_esp p) (user_entry p) (user_esp p)
    (exit_code p) (main_task p) (msg_queue p).
Definition set_user (entry esp top : Z) (p : Process) : Process :=
  mkProcess (pid p) (parent_pid p) (state p) (ring p) (address_space p) (kernel_stack p)
    top (kernel_stack_bottom p) (saved_esp p) entry esp
    (exit_code p) (main_task p) (msg_queue p).
Definition set_msg_queue (q : Z) (p : Process) : Process :=
  mkProcess (pid p) (parent_pid p) (state p) (ring p) (address_space p) (kernel_stack p)
    (kernel_stack_top p) (kernel_stack_bottom p) (saved_esp p) (user_entry p) (user_esp p)
    (exit_code p) (main_task p) q.

(** The size of the object: 12 words and the two one-byte enumerations, padded. *)
Notation sizeof_Process := 52 (only parsing).
Notation MAX_PROCESSES := 16 (only parsing).
Notation KERNEL_STACK_BYTES := 8192 (only parsing).
Notation USER_CODE_ADDR := 0x40000000 (only parsing).
Notation USER_STACK_ADDR := 0x40001000 (only parsing).
Notation USER_STACK_TOP := 0x40002000 (only parsing).

(** A message of [ipc/ipc.hpp]: the sender and the [size] bytes that are set. *)
Record ipc_msg := mkMsg { sender_pid : Z; msg_size : Z; msg_data : list Z }.
#[export] Instance ipc_msg_zero : ZeroInit ipc_msg := mkMsg 0 0 (replicate 64 0).
Record ipc_queue := mkQueue { msgs : list ipc_msg; head : Z; tail : Z; count : Z }.

(** The globals of [process.cpp], [scheduler.cpp] and [user_mode.cpp]. *)
Record kernel (Pg : Type) := mkKernel {
  mach : machine Pg;
  procs : gmap Z Process;
  process_table : list Z;
  process_count : Z;
  next_pid : Z;
  current_process : Z;
  queues : gmap Z ipc_queue;
  user_code_phys : Z;
}.
Arguments mkKernel {Pg} _ _ _ _ _ _ _ _.
Arguments mach {Pg} _.
Arguments procs {Pg} _.
Arguments process_table {Pg} _.
Arguments process_count {Pg} _.
Arguments next_pid {Pg} _.
Arguments current_process {Pg} _.
Arguments queues {Pg} _.
Arguments user_code_phys {Pg} _.

Section updates.
Context {Pg : Type}.
Implicit Types k : kernel Pg.
Definition with_mach (m : machine Pg) k : kernel Pg :=
  mkKernel m (procs k) (process_table k) (process_count k) (next_pid k) (current_process k)
    (queues k) (user_code_phys k).
Definition with_procs (ps : gmap Z Process) k : kernel Pg :=
  mkKernel (mach k) ps (process_table k) (process_count k) (next_pid k) (current_process k)
    (queues k) (user_code_phys k).
Definition with_table (t : list Z) (n : Z) k : kernel Pg :=
  mkKernel (mach k) (procs k) t n (next_pid k) (current_process k) (queues k) (user_code_phys k).
Definition with_next_pid (n : Z) k : kernel Pg :=
  mkKernel (mach k) (procs k) (process_table k) (process_count k) n (current_process k)
    (queues k) (user_code_phys k).
Definition with_current (c : Z) k : kernel Pg :=
  mkKernel (mach k) (procs k) (process_table k) (process_count k) (next_pid k) c
    (queues k) (user_code_phys k).
Definition with_queues (q : gmap Z ipc_queue) k : kernel Pg :=
  mkKernel (mach k) (procs k) (process_table k) (process_count k) (next_pid k) (current_process k)
    q (user_code_phys k).
Definition with_user_code (c : Z) k : kernel Pg :=
  mkKernel (mach k) (procs k) (process_table k) (process_count k) (next_pid k) (current_process k)
    (queues k) c.
(** [p->field = ...] on the object at [p]. *)
Definition upd (p : Z) (f : Process → Process) k : kernel Pg :=
  with_procs (alter f p (procs k)) k.
End updates.

(** ** The code *)

(** [push(sp, v)] *)
Definition push (v : Z) (s : Z * memory) : Z * memory :=
  let sp := u32 (fst s - 4) in (sp, wr32 (snd s) sp v).
Definition push_all (vs : list Z) (s : Z * memory) : Z * memory :=
  foldl (λ s v, push v s) s vs.

Definition build_user_frame (sp entry user_esp : Z) (m : memory) : Z * memory :=
  push_all [0x23; user_esp; 0x202; 0x1B; entry; 0; 0; 0; 0; 0; 0; 0; 0] (sp, m).
Definition build_kernel_frame (sp entry : Z) (m : memory) : Z * memory :=
  push_all [0x202; 0x08; entry; 0; 0; 0; 0; 0; 0; 0; 0] (sp, m).

Section process.
Context {Pg : Type} `{!PageAllocOps Pg}.
Implicit Types (st : machine Pg) (k : kernel Pg).

Definition register_process (proc : Z) k : outcome (kernel Pg) :=
  if MAX_PROCESSES <=? process_count k then Panic
  else Ok (with_table (aset (process_table k) (process_count k) proc) (process_count k + 1) k).

(** The result is the stack and [out_bottom], which keeps its 0 on failure. *)
Fixpoint alloc_kernel_stack (fuel : nat) st : outcome (Z * Z * machine Pg) :=
  match fuel with
  | O => NoFuel
  | S f =>
      let '(lo, pg) := pa_alloc (pages st) in
      let '(hi, pg) := pa_alloc pg in
      if (lo =? 0) || (hi =? 0) then
        let pg := if lo =? 0 then pg else pa_free lo pg in
        let pg := if hi =? 0 then pg else pa_free hi pg in
        Ok (0, 0, with_pages pg st)
      else if negb (hi =? u32 (lo + 4096)) then
        alloc_kernel_stack f (with_pages (pa_free hi (pa_free lo pg)) st)
      else
        Ok (lo, lo, with_mem (memset (mem st) lo 0 KERNEL_STACK_BYTES) (with_pages pg st))
  end.

(** [user/user_mode.cpp]: [code] is the address of [user_code_start] and
    [size] the distance to [user_code_end], both set by the linker. *)
Definition user_map_pages (code size : Z) k : kernel Pg :=
  if 4096 <? size then k
  else
    let '(page, pg) := pa_alloc (pages (mach k)) in
    let st := with_pages pg (mach k) in
    if page =? 0 then with_mach st k
    else with_mach (with_mem (memcpy (mem st) page code size) st) (with_user_code page k).

Definition user_install_into_space (code_phys space : Z) st : machine Pg :=
  if (space =? 0) || (code_phys =? 0) then st
  else
    let '(_, st) := vmm_map space USER_CODE_ADDR code_phys (Z.lor VMM_PRESENT VMM_USER) st in
    let '(stack_phys, pg) := pa_alloc (pages st) in
    let st := with_pages pg st in
    if stack_phys =? 0 then st
    else snd (vmm_map space USER_STACK_ADDR stack_phys
                (Z.lor (Z.lor VMM_PRESENT VMM_WRITABLE) VMM_USER) st).

(** [kfree] of a process object. *)
Definition free_process (fuel : nat) (proc : Z) k : outcome (kernel Pg) :=
  let! st := kfree fuel proc (mach k) in
  Ok (with_procs (delete proc (procs k)) (with_mach st k)).

(** The stack, the frame and the registration that both constructors share. *)
Definition start_process (fuel : nat) (proc : Z) (build : Z → memory → Z * memory) k :
    outcome (Z * kernel Pg) :=
  let! (kstack, kstack_bottom, st) := alloc_kernel_stack fuel (mach k) in
  let k := with_mach st k in
  if kstack =? 0 then
    let! k := free_process fuel proc k in Ok (0, k)
  else
    let '(sp, m) := build (u32 (kstack + KERNEL_STACK_BYTES)) (mem (mach k)) in
    let k := with_mach (with_mem m (mach k)) k in
    let k := upd proc (set_stack (u32 (kstack + KERNEL_STACK_BYTES)) sp kstack_bottom) k in
    let! k := register_process proc k in
    Ok (proc, k).

Definition process_create (fuel : nat) (uentry uesp : Z) k : outcome (Z * kernel Pg) :=
  let! (proc, st) := kmalloc fuel sizeof_Process (mach k) in
  let k := with_mach st k in
  if proc =? 0 then Ok (0, k)
  else
    let pid := next_pid k in
    let k := with_next_pid (u32 (pid + 1)) k in
    let '(space, st) := vmm_create_space (mach k) in
    let k := with_mach st k in
    let k := with_procs (<[proc := mkProcess pid 1 TASK_READY RING_USER space 0 0 0 0
                                     uentry uesp 0 0 0]> (procs k)) k in
    if space =? 0 then
      let! k := free_process fuel proc k in Ok (0, k)
    else
      let k := with_mach (user_install_into_space (user_code_phys k) space (mach k)) k in
      start_process fuel proc (λ sp, build_user_frame sp uentry uesp) k.

Definition process_create_kernel (fuel : nat) (entry : Z) k : outcome (Z * kernel Pg) :=
  let! (proc, st) := kmalloc fuel sizeof_Process (mach k) in
  let k := with_mach st k in
  if proc =? 0 then Ok (0, k)
  else
    let pid := next_pid k in
    let k := with_next_pid (u32 (pid + 1)) k in
    let k := with_procs (<[proc := mkProcess pid 1 TASK_READY RING_KERNEL
                                     (vmm_get_kernel_space (mach k)) 0 0 0 0 0 0 0 0 0]> (procs k)) k in
    start_process fuel proc (λ sp, build_kernel_frame sp entry) k.

(** [for(i < process_count) if(process_table[i] == proc) ...]: the entry is
    overwritten by the last one and the count goes down. *)
Fixpoint unregister (n : nat) (i proc : Z) k : kernel Pg :=
  match n with
  | O => k
  | S n' =>
      if aget (process_table k) i =? proc then
        let c := process_count k - 1 in
        with_table (aset (process_table k) i (aget (process_table k) c)) c k
      else unregister n' (i + 1) proc k
  end.

Definition process_destroy (fuel : nat) (proc : Z) k : outcome (kernel Pg) :=
  match procs k !! proc with
  | None => Ok k
  | Some p =>
      let k := upd proc (set_state TASK_DEAD) k in
      let st := mach k in
      let st := if decide (ring p = RING_USER) then
                  if address_space p =? vmm_get_kernel_space st then st
                  else vmm_destroy_space (address_space p) st
                else st in
      let st := if kernel_stack_bottom p =? 0 then st
                else with_pages (pa_free (u32 (kernel_stack_bottom p + 4096))
                       (pa_free (kernel_stack_bottom p) (pages st))) st in
      let! st := if msg_queue p =? 0 then Ok st else kfree fuel (msg_queue p) st in
      let k := with_queues (delete (msg_queue p) (queues k)) (with_mach st k) in
      let k := unregister (Z.to_nat (process_count k)) 0 proc k in
      free_process fuel proc k
  end.

Definition process_get (index : Z) k : Z :=
  if (index <? 0) || (process_count k <=? index) then 0 else aget (process_table k) index.
Definition process_total k : Z := process_count k.

Definition tss_set_kernel_stack (stack : Z) st : machine Pg := with_esp0 stack st.

Definition process_switch (next : Z) k : kernel Pg :=
  match procs k !! next with
  | None => k
  | Some p =>
      let st := mach k in
      let st := if kernel_stack p =? 0 then st else tss_set_kernel_stack (kernel_stack p) st in
      let st := if address_space p =? 0 then st else vmm_switch (address_space p) st in
      with_mach st k
  end.

Definition process_kernel_esp (proc : Process) : Z := kernel_stack_top proc.

Definition process_set_entry (proc entry uesp : Z) k : kernel Pg :=
  match procs k !! proc with
  | None => k
  | Some p =>
      let '(sp, m) := build_user_frame (u32 (kernel_stack_bottom p + 8192)) entry uesp (mem (mach k)) in
      upd proc (set_user entry uesp sp) (with_mach (with_mem m (mach k)) k)
  end.
End process.
(** ** Well-formed process tables *)

Section tables.
Context {Pg : Type} `{!PageAllocOps Pg}.
Implicit Types k : kernel Pg.

(** The process at an index of the table. *)
Definition proc_at k (i : Z) : option Process := procs k !! process_get i k.

(** The first [process_count] slots hold distinct pointers to live objects. *)
Record table_wf k : Prop := {
  tw_len : length (process_table k) = 16%nat;
  tw_count : 0 ≤ process_count k ≤ 16;
  tw_null : procs k !! 0 = None;
  tw_live : ∀ i, 0 ≤ i < process_count k → is_Some (proc_at k i);
  tw_inj : ∀ i j, 0 ≤ i < process_count k → 0 ≤ j < process_count k →
    process_get i k = process_get j k → i = j;
  tw_cur : -1 ≤ current_process k;
}.

(** No process but the current one is marked as running. *)
Definition one_running k : Prop :=
  ∀ i p, 0 ≤ i < process_count k → proc_at k i = Some p → state p = TASK_RUNNING →
    i = current_process k.

(** [same_table k k']: the table is the same and every object is still there. *)
Record same_table k k' : Prop := {
  st_table : process_table k' = process_table k;
  st_count : process_count k' = process_count k;
  st_dom : ∀ p, is_Some (procs k' !! p) ↔ is_Some (procs k !! p);
}.

#[export] Instance same_table_preorder : PreOrder same_table.
Proof.
  split.
  - intros k. by split.
  - intros k1 k2 k3 [T1 C1 D1] [T2 C2 D2]. split; [congruence | congruence |].
    intros p. by rewrite D2.
Qed.

Lemma process_get_same k k' i : same_table k k' → process_get i k' = process_get i k.
Proof. intros [T C _]. unfold process_get. by rewrite T, C. Qed.

Lemma table_wf_same k k' : table_wf k → same_table k k' → -1 ≤ current_process k' → table_wf k'.
Proof.
  intros [H1 H2 H3 H4 H5 _] Hs Hc. pose proof Hs as [T C D]. split.
  - by rewrite T.
  - by rewrite C.
  - apply eq_None_not_Some. rewrite D, H3. apply is_Some_None.
  - intros i. unfold proc_at. rewrite (process_get_same k k') by done. rewrite C, D. apply H4.
  - intros i j. rewrite !(process_get_same k k') by done. rewrite C. apply H5.
  - done.
Qed.

Lemma same_table_upd k p f : same_table k (upd p f k).
Proof.
  split; [done | done |]. intros q. simpl. destruct (decide (p = q)) as [-> | Hne].
  - rewrite lookup_alter_eq. by rewrite fmap_is_Some.
  - by rewrite lookup_alter_ne.
Qed.

Lemma same_table_mach k m : same_table k (with_mach m k).
Proof. done. Qed.

Lemma same_table_switch k p : same_table k (process_switch p k).
Proof. unfold process_switch. by destruct (procs k !! p). Qed.

Lemma process_get_in k i : 0 ≤ i < process_count k → process_get i k = aget (process_table k) i.
Proof.
  intros Hi. unfold process_get. destruct (Z.ltb_spec i 0), (Z.leb_spec (process_count k) i); try lia. done.
Qed.

Lemma process_get_nonnull k i :
  table_wf k → 0 ≤ i < process_count k → process_get i k ≠ 0.
Proof.
  intros Hwf Hi E. destruct (tw_live k Hwf i Hi) as [p Hp]. unfold proc_at in Hp.
  by rewrite E, (tw_null k Hwf) in Hp.
Qed.

(** Where [unregister] finds the pointer of index [i]. *)
Lemma unregister_run n j i k :
  table_wf k → 0 ≤ j ≤ i → i < j + Z.of_nat n → i < process_count k →
  unregister n j (process_get i k) k =
    with_table (aset (process_table k) i (aget (process_table k) (process_count k - 1)))
      (process_count k - 1) k.
Proof.
  intros Hwf. revert j. induction n as [|n IH]; intros j Hj Hn Hi; [lia |]. simpl.
  rewrite <- (process_get_in k j) by lia.
  destruct (Z.eqb_spec (process_get j k) (process_get i k)) as [E | Hne].
  - by rewrite (tw_inj k Hwf j i) by (done || lia).
  - apply IH; [| lia | lia]. destruct (Z.eq_dec j i) as [-> |]; [done | lia].
Qed.
End tables.

(** ** Frames *)

Lemma push_eq v sp m :
  4 ≤ sp ≤ W32 → push v (u32 sp, m) = (u32 (sp - 4), wr32 m (sp - 4) v).
Proof.
  intros Hsp. unfold push. cbn [fst snd].
  replace (u32 (u32 sp - 4)) with (sp - 4) by (unfold u32; mlia). by rewrite u32_id by lia.
Qed.

(** Pushing writes the words below [sp], the last one lowest. *)
Lemma push_all_spec vs sp m :
  4 * zlen vs ≤ sp ≤ W32 →
  let s := push_all vs (u32 sp, m) in
  fst s = u32 (sp - 4 * zlen vs) ∧
  (∀ i v, vs !! i = Some v → rd32 (snd s) (sp - 4 * (Z.of_nat i + 1)) = u32 v) ∧
  (∀ x, x < sp - 4 * zlen vs ∨ sp ≤ x → rd8 (snd s) x = rd8 m x).
Proof.
  revert sp m. induction vs as [|v vs IH]; intros sp m Hsp s.
  { unfold s. simpl. split_and!; [f_equal; lia | done | done]. }
  cbn [length] in Hsp.
  assert (Es : s = push_all vs (u32 (sp - 4), wr32 m (sp - 4) v)).
  { unfold s, push_all. cbn [foldl]. by rewrite push_eq by lia. }
  destruct (IH (sp - 4) (wr32 m (sp - 4) v)) as (H1 & H2 & H3); [lia |]. rewrite <- Es in H1, H2, H3.
  clearbody s. split_and!.
  - rewrite H1. f_equal. cbn [length]. lia.
  - intros [|i] w Hi; cbn in Hi.
    + injection Hi as <-. rewrite <- (rd32_wr32_eq m (sp - 4) v).
      replace (sp - 4 * (Z.of_nat 0 + 1)) with (sp - 4) by lia.
      apply rd32_ext. intros x Hx. apply H3. lia.
    + replace (sp - 4 * (Z.of_nat (S i) + 1)) with (sp - 4 - 4 * (Z.of_nat i + 1)) by lia. by apply H2.
  - intros x Hx. cbn [length] in Hx. rewrite H3 by lia. apply rd8_wr32_ne. lia.
Qed.

(** What [popa; iret] take from the stack at [esp]: the code segment and
    instruction pointer, the flags, and for a change of privilege the stack. *)
Record iret_state := mkIret { i_eip : Z; i_cs : Z; i_eflags : Z; i_esp : Z; i_ss : Z }.
Definition popa_iret (m : memory) (esp : Z) : iret_state :=
  mkIret (rd32 m (esp + 32)) (rd32 m (esp + 36)) (rd32 m (esp + 40))
    (rd32 m (esp + 44)) (rd32 m (esp + 48)).
Definition popa_regs (m : memory) (esp : Z) : list Z :=
  map (λ i, rd32 m (esp + 4 * i)) [0; 1; 2; 3; 4; 5; 6; 7].

Lemma user_frame_spec sp entry uesp m :
  8192 ≤ sp ≤ W32 → 0 ≤ entry < W32 → 0 ≤ uesp < W32 →
  let s := build_user_frame (u32 sp) entry uesp m in
  fst s = sp - 52 ∧
  popa_iret (snd s) (sp - 52) = mkIret entry 0x1B 0x202 uesp 0x23 ∧
  popa_regs (snd s) (sp - 52) = replicate 8 0 ∧
  (∀ x, x < sp - 52 ∨ sp ≤ x → rd8 (snd s) x = rd8 m x).
Proof.
  intros Hsp He Hu. unfold build_user_frame.
  destruct (push_all_spec [0x23; uesp; 0x202; 0x1B; entry; 0; 0; 0; 0; 0; 0; 0; 0] sp m)
    as (H1 & H2 & H3); [simpl; lia |]. cbn zeta. set (s := push_all _ _) in *. clearbody s.
  assert (Hw : ∀ i v a, [0x23; uesp; 0x202; 0x1B; entry; 0; 0; 0; 0; 0; 0; 0; 0] !! i = Some v →
    a = sp - 4 * (Z.of_nat i + 1) → 0 ≤ v < W32 → rd32 (snd s) a = v).
  { intros i v a Hi -> Hv. rewrite (H2 i v Hi). by apply u32_id. }
  split_and!; [rewrite H1; apply u32_id; simpl; lia | | | intros x Hx; apply H3; simpl; lia].
  - unfold popa_iret. f_equal.
    + apply (Hw 4%nat); [done | lia | done].
    + apply (Hw 3%nat); [done | lia | lia].
    + apply (Hw 2%nat); [done | lia | lia].
    + apply (Hw 1%nat); [done | lia | done].
    + apply (Hw 0%nat); [done | lia | lia].
  - unfold popa_regs. cbn [map replicate].
    rewrite (Hw 12%nat 0 (sp - 52 + 4 * 0)), (Hw 11%nat 0 (sp - 52 + 4 * 1)), (Hw 10%nat 0 (sp - 52 + 4 * 2)),
      (Hw 9%nat 0 (sp - 52 + 4 * 3)), (Hw 8%nat 0 (sp - 52 + 4 * 4)), (Hw 7%nat 0 (sp - 52 + 4 * 5)),
      (Hw 6%nat 0 (sp - 52 + 4 * 6)), (Hw 5%nat 0 (sp - 52 + 4 * 7)) by (done || lia). done.
Qed.

Lemma kernel_frame_spec sp entry m :
  8192 ≤ sp ≤ W32 → 0 ≤ entry < W32 →
  let s := build_kernel_frame (u32 sp) entry m in
  fst s = sp - 44 ∧
  rd32 (snd s) (sp - 44 + 32) = entry ∧ rd32 (snd s) (sp - 44 + 36) = 0x08 ∧
  rd32 (snd s) (sp - 44 + 40) = 0x202 ∧
  (∀ x, x < sp - 44 ∨ sp ≤ x → rd8 (snd s) x = rd8 m x).
Proof.
  intros Hsp He. unfold build_kernel_frame.
  destruct (push_all_spec [0x202; 0x08; entry; 0; 0; 0; 0; 0; 0; 0; 0] sp m)
    as (H1 & H2 & H3); [simpl; lia |]. cbn zeta. set (s := push_all _ _) in *. clearbody s.
  split_and!; [rewrite H1; apply u32_id; simpl; lia | | | | intros x Hx; apply H3; simpl; lia].
  - replace (sp - 44 + 32) with (sp - 4 * (Z.of_nat 2 + 1)) by lia. rewrite (H2 2%nat entry eq_refl). by apply u32_id.
  - replace (sp - 44 + 36) with (sp - 4 * (Z.of_nat 1 + 1)) by lia. by rewrite (H2 1%nat 0x08 eq_refl).
  - replace (sp - 44 + 40) with (sp - 4 * (Z.of_nat 0 + 1)) by lia. by rewrite (H2 0%nat 0x202 eq_refl).
Qed.

(** ** Kernel stacks *)

Section stacks.
Context {Pg : Type} `{PageAlloc Pg}.
Implicit Types (st : machine Pg) (k : kernel Pg).

(** Two adjacent fresh pages, zeroed, or nothing. *)
Lemma alloc_kernel_stack_cases fuel st s b st' :
  pa_wf (pages st) → alloc_kernel_stack fuel st = Ok (s, b, st') →
  pa_wf (pages st') ∧
  ((s = 0 ∧ (∀ q, pa_used (pages st') q ↔ pa_used (pages st) q) ∧
    ∃ pg, st' = with_pages pg st) ∨
   (b = s ∧ page_addr s ∧ page_addr (s + 4096) ∧
    ¬ pa_used (pages st) s ∧ ¬ pa_used (pages st) (s + 4096) ∧
    (∀ q, pa_used (pages st') q ↔ q = s ∨ q = s + 4096 ∨ pa_used (pages st) q) ∧
    ∃ pg m, st' = with_mem m (with_pages pg st) ∧
      (∀ x, x < s ∨ s + 8192 ≤ x → rd8 m x = rd8 (mem st) x) ∧
      (∀ x, s ≤ x < s + 8192 → rd8 m x = 0))).
Proof.
  revert st. induction fuel as [|fuel IH]; intros st Hwf E; [done |]. cbn [alloc_kernel_stack] in E.
  destruct (pa_alloc (pages st)) as [lo pg1] eqn:E1. destruct (pa_alloc pg1) as [hi pg2] eqn:E2.
  destruct (Z.eqb_spec lo 0) as [-> | Hlo].
  { pose proof (pa_alloc_null _ _ Hwf E1) as ->. rewrite E2 in E1. injection E1 as -> ->.
    injection E as <- <- <-. split; [done | left]. split_and!; [done | done | by eexists]. }
  destruct (pa_alloc_ok _ lo pg1 Hwf E1 Hlo) as (Hw1 & Ha1 & Hn1 & Hu1).
  destruct (Z.eqb_spec hi 0) as [-> | Hhi]; cbn [orb] in E.
  { pose proof (pa_alloc_null _ _ Hw1 E2) as ->.
    destruct (pa_free_ok pg1 lo Hw1 Ha1) as [Hw2 Hu2]; [apply Hu1; by left |].
    injection E as <- <- <-. split; [done | left]. split_and!; [done | | by eexists].
    intros q. cbn [pages with_pages]. rewrite Hu2, Hu1. split; [tauto |].
    intros Hq. split; [by right |]. by intros ->. }
  destruct (pa_alloc_ok _ hi pg2 Hw1 E2 Hhi) as (Hw2 & Ha2 & Hn2 & Hu2).
  assert (Hne : hi ≠ lo) by (intros ->; apply Hn2, Hu1; by left).
  destruct (Z.eqb_spec hi (u32 (lo + 4096))) as [Eadj | Hnadj]; cbn [negb] in E.
  - assert (Hadj : hi = lo + 4096).
    { unfold page_addr in Ha1, Ha2. unfold u32 in Eadj. mlia. }
    injection E as <- <- <-. split; [done | right]. rewrite <- Hadj.
    split_and!; [done | done | done | done | intros Hq; apply Hn2, Hu1; by right | |].
    + intros q. cbn [pages with_pages with_mem]. rewrite Hu2, Hu1. tauto.
    + exists pg2, (memset (mem st) lo 0 8192). split; [reflexivity |]. split; intros x Hx.
      * apply rd8_memset_out. lia.
      * rewrite rd8_memset_in by lia. reflexivity.
  - destruct (pa_free_ok pg2 lo Hw2 Ha1) as [Hw3 Hu3]; [apply Hu2; right; apply Hu1; by left |].
    destruct (pa_free_ok _ hi Hw3 Ha2) as [Hw4 Hu4]; [apply Hu3; split; [apply Hu2; by left | done] |].
    assert (Hsame : ∀ q, pa_used (pa_free hi (pa_free lo pg2)) q ↔ pa_used (pages st) q).
    { intros q. rewrite Hu4, Hu3, Hu2, Hu1. split; [tauto |]. intros Hq.
      assert (q ≠ lo) by (by intros ->). assert (q ≠ hi) by (intros ->; apply Hn2, Hu1; by right). tauto. }
    destruct (IH (with_pages (pa_free hi (pa_free lo pg2)) st) Hw4 E) as [Hwf' [(-> & Hu & pg & ->) | (-> & Hs1 & Hs2 & Hf1 & Hf2 & Hu & pg & m & -> & Hm)]];
      (split; [done |]); cbn [pages with_pages with_mem mem] in *; [left | right].
    + split_and!; [done | intros q; by rewrite Hu, Hsame | by exists pg].
    + split_and!; [done | done | done | by rewrite <- Hsame | by rewrite <- Hsame | |].
      * intros q. by rewrite Hu, Hsame.
      * by exists pg, m.
Qed.

(** The heap is not touched by writes to the two pages of a new stack. *)
Lemma stack_frame_heap st fl live s m pg :
  heap_inv st fl live → page_addr s → page_addr (s + 4096) →
  ¬ pa_used (pages st) s → ¬ pa_used (pages st) (s + 4096) →
  pa_wf pg → (∀ q, pa_used (pages st) q → pa_used pg q) →
  (∀ x, x < s ∨ s + 8192 ≤ x → rd8 m x = rd8 (mem st) x) →
  heap_inv (with_mem m (with_pages pg st)) fl live.
Proof.
  intros Hinv H1 H2 Hn1 Hn2 Hwf Hu Hm. apply (heap_inv_frame st); [done | done | | done | done].
  intros b x Hb Hx. cbn [mem with_mem]. apply Hm.
  pose proof (hi_pages _ _ _ Hinv b x Hb Hx) as Hpg.
  destruct (Z_lt_ge_dec x s); [by left |]. destruct (Z_lt_ge_dec x (s + 8192)); [exfalso | right; lia].
  destruct H1 as (_ & _ & H1), H2 as (_ & _ & H2).
  destruct (Z_lt_ge_dec x (s + 4096)).
  - rewrite (page_of_inside s) in Hpg by lia. done.
  - rewrite (page_of_inside (s + 4096)) in Hpg by lia. done.
Qed.
End stacks.

(** ** Creating kernel processes *)

Section create.
Context {Pg : Type} `{PageAlloc Pg}.
Implicit Types (st : machine Pg) (k : kernel Pg).

(** The heap is well formed and every process object is a live block of it. *)
Definition procs_live k (fl live : list (Z * Z)) : Prop :=
  heap_inv (mach k) fl live ∧
  ∀ q, is_Some (procs k !! q) → ∃ n, (q - 16, n) ∈ live.

(** A block that [kmalloc] just handed out is not the object of any process. *)
Lemma procs_live_fresh k fl live fl' st' p n :
  procs_live k fl live → heap_inv st' fl' ((p - 16, n) :: live) → procs k !! p = None.
Proof.
  intros [_ Hl] Hinv. apply eq_None_not_Some. intros [m Hm]%Hl. by apply (live_fresh _ _ _ _ _ p m Hinv).
Qed.

(** A new object at the end of the table. *)
Lemma table_wf_append k k' q :
  table_wf k → procs k !! q = None → q ≠ 0 → process_count k < 16 →
  process_table k' = aset (process_table k) (process_count k) q →
  process_count k' = process_count k + 1 → current_process k' = current_process k →
  (∀ x, x ≠ q → procs k' !! x = procs k !! x) → is_Some (procs k' !! q) →
  table_wf k' ∧ process_get (process_count k) k' = q ∧
  ∀ i, 0 ≤ i < process_count k → process_get i k' = process_get i k ∧ proc_at k' i = proc_at k i.
Proof.
  intros Hwf Hq Hq0 Hc Et Ec Ecur Hps Hsq. pose proof Hwf as [Hlen Hcnt Hnull Hlv Hinj Hcu].
  assert (Hnew : process_get (process_count k) k' = q).
  { rewrite process_get_in by lia. rewrite Et. apply aget_aset_eq. lia. }
  assert (Hold : ∀ i, 0 ≤ i < process_count k → process_get i k' = process_get i k).
  { intros i Hi. rewrite !process_get_in by lia. rewrite Et. apply aget_aset_ne. lia. }
  assert (Hne : ∀ i, 0 ≤ i < process_count k → process_get i k ≠ q).
  { intros i Hi E. destruct (Hlv i Hi) as [p Hp]. unfold proc_at in Hp. by rewrite E, Hq in Hp. }
  assert (Hat : ∀ i, 0 ≤ i < process_count k → proc_at k' i = proc_at k i).
  { intros i Hi. unfold proc_at. rewrite Hold by done. apply Hps. by apply Hne. }
  split; [constructor | split; [done | auto]].
  - by rewrite Et, aset_length.
  - lia.
  - by rewrite Hps.
  - intros i Hi. destruct (Z.eq_dec i (process_count k)) as [-> |]; [unfold proc_at; by rewrite Hnew |].
    rewrite Hat by lia. apply Hlv. lia.
  - intros i j Hi Hj. destruct (Z.eq_dec i (process_count k)) as [-> |], (Z.eq_dec j (process_count k)) as [-> |];
      [done | | |].
    + rewrite Hnew, Hold by lia. intros E. by destruct (Hne j ltac:(lia)).
    + rewrite Hnew, Hold by lia. intros E. by destruct (Hne i ltac:(lia)).
    + rewrite !Hold by lia. apply Hinj; lia.
  - by rewrite Ecur.
Qed.

(** The effect of [start_process] when it succeeds. *)
Lemma start_process_effect fuel proc build k r k' fl live :
  start_process fuel proc build k = Ok (r, k') → r ≠ 0 →
  heap_inv (mach k) fl live →
  (∀ sp m, 8192 ≤ sp ≤ W32 → ∀ x, x < sp - 8192 ∨ sp ≤ x →
     rd8 (snd (build (u32 sp) m)) x = rd8 m x) →
  ∃ s m1, page_addr s ∧ page_addr (s + 4096) ∧
    ¬ pa_used (pages (mach k)) s ∧ ¬ pa_used (pages (mach k)) (s + 4096) ∧
    r = proc ∧ process_count k < 16 ∧
    procs k' = alter (set_stack (u32 (s + 8192)) (fst (build (u32 (s + 8192)) m1)) s) proc (procs k) ∧
    process_table k' = aset (process_table k) (process_count k) proc ∧
    process_count k' = process_count k + 1 ∧ next_pid k' = next_pid k ∧
    current_process k' = current_process k ∧ queues k' = queues k ∧
    mem (mach k') = snd (build (u32 (s + 8192)) m1) ∧
    heap_inv (mach k') fl live ∧
    keeps (mach k) fl (mach k') fl ∧ (∀ x, s ≤ x < s + 8192 → foreign (mach k') fl x) ∧ regs (mach k') = regs (mach k).
Proof.
  intros E Hr Hinv Hb. unfold start_process in E.
  apply obind_Ok in E as ([[s b] st] & Es & E).
  destruct (alloc_kernel_stack_cases fuel (mach k) s b st (hi_wf _ _ _ Hinv) Es)
    as [Hwf [(-> & _) | (-> & Hs1 & Hs2 & Hf1 & Hf2 & Hu & pg & m1 & -> & Hm1 & _)]].
  { rewrite Z.eqb_refl in E. apply obind_Ok in E as (k2 & _ & E). by injection E as <- _. }
  destruct (Z.eqb_spec s 0) as [-> | _]; [by destruct Hs1 |].
  cbn [mem mach with_mach with_mem with_pages] in E.
  destruct (build (u32 (s + 8192)) m1) as [sp m] eqn:Eb.
  apply obind_Ok in E as (k2 & Ereg & E). injection E as <- <-.
  unfold register_process in Ereg. cbn [process_count with_procs upd with_mach process_table] in Ereg.
  destruct (Z.leb_spec 16 (process_count k)); [done |]. injection Ereg as <-.
  assert (Hm : ∀ x, x < s ∨ s + 8192 ≤ x → rd8 m x = rd8 (mem (mach k)) x).
  { intros x Hx. destruct Hs1 as (? & _), Hs2 as (_ & ? & _). cbn [fst snd] in *.
    specialize (Hb (s + 8192) m1 ltac:(lia) x ltac:(lia)). rewrite Eb in Hb. simpl in Hb. rewrite Hb.
    apply Hm1. lia. }
  assert (Hst : ∀ x, s ≤ x < s + 8192 → (page_of x = s ∨ page_of x = s + 4096) ∧ ¬ pa_used (pages (mach k)) (page_of x)).
  { intros x Hx. destruct Hs1 as (_ & _ & ?), Hs2 as (_ & _ & ?). destruct (Z_lt_ge_dec x (s + 4096)).
    - rewrite (page_of_inside s) by lia. by split; [left |].
    - rewrite (page_of_inside (s + 4096)) by lia. by split; [right |]. }
  exists s, m1. rewrite Eb. split_and!; try done.
  - change (heap_inv (with_mem m (with_mem m1 (with_pages pg (mach k)))) fl live).
    apply (stack_frame_heap (mach k) fl live s m pg); try done. intros q Hq. apply Hu. tauto.
  - intros x [Hxu Hx]. split; [split; [apply Hu; tauto | done] |]. apply Hm.
    destruct (Z_lt_ge_dec x s); [by left |]. destruct (Z_lt_ge_dec x (s + 8192)); [| right; lia].
    exfalso. by apply (proj2 (Hst x ltac:(lia))).
  - intros x Hx. destruct (Hst x Hx) as [Hpx Hnx]. split; [apply Hu; naive_solver |].
    intros b Hbf Hbx. apply Hnx. apply (hi_pages _ _ _ Hinv b); [set_solver | done].
Qed.

(** What [process_create_kernel] has done when it returns a process. *)
Lemma process_create_kernel_effect fuel entry k fl live proc k' :
  table_wf k → procs_live k fl live →
  0 ≤ entry < W32 → process_create_kernel fuel entry k = Ok (proc, k') → proc ≠ 0 →
  ∃ p fl' n,
    table_wf k' ∧ procs_live k' fl' ((proc - 16, n) :: live) ∧
    process_count k' = process_count k + 1 ∧ next_pid k' = u32 (next_pid k + 1) ∧
    proc_at k' (process_count k) = Some p ∧ process_get (process_count k) k' = proc ∧
    pid p = next_pid k ∧ state p = TASK_READY ∧ ring p = RING_KERNEL ∧ saved_esp p = 0 ∧
    rd32 (mem (mach k')) (kernel_stack_top p + 32) = entry ∧
    rd32 (mem (mach k')) (kernel_stack_top p + 36) = 0x08 ∧
    Z.testbit (rd32 (mem (mach k')) (kernel_stack_top p + 40)) 9 = true ∧
    (∀ i, 0 ≤ i < process_count k → process_get i k' = process_get i k ∧ proc_at k' i = proc_at k i) ∧
    keeps (mach k) fl (mach k') fl' ∧
    (∀ x, kernel_stack_top p ≤ x < kernel_stack_top p + 44 → foreign (mach k') fl' x) ∧
    msg_queue p = 0 ∧ current_process k' = current_process k ∧ queues k' = queues k ∧
    address_space p = kernel_space (mach k) ∧ regs (mach k') = regs (mach k) ∧
    0 ≤ kernel_stack_top p ∧ kernel_stack_top p + 44 ≤ W32.
Proof.
  intros Hwf Hpl Hent E Hr. pose proof Hpl as [Hinv Hlive].
  unfold process_create_kernel in E. apply obind_Ok in E as ([q st] & Ek & E).
  destruct (kmalloc_ok (mach k) fl live 52 fuel q st Hinv ltac:(lia) Ek) as (fl' & Hpost & Hkeep).
  destruct (Z.eqb_spec q 0) as [-> | Hq]; [by injection E as <- _ |].
  destruct Hpost as [(? & _) | (n & _ & Hinv' & _)]; [done |].
  pose proof (procs_live_fresh k fl live fl' st q n Hpl Hinv') as Hfresh.
  cbn [mach with_mach with_next_pid next_pid] in E.
  set (p0 := mkProcess (next_pid k) 1 TASK_READY RING_KERNEL (vmm_get_kernel_space st) 0 0 0 0 0 0 0 0 0) in *.
  set (k1 := with_procs _ _) in E.
  destruct (start_process_effect fuel q _ k1 proc k' fl' ((q - 16, n) :: live) E Hr Hinv')
    as (s & m1 & Hs1 & Hs2 & _ & _ & -> & Hc & Eps & Et & Ec & En & Ecur & Eqs & Em & Hinv2 & Hkeep2 & Hstack & Hregs).
  { intros sp m Hsp x Hx. apply (kernel_frame_spec sp entry m); [done | done | lia]. }
  cbn [process_count process_table next_pid current_process queues k1 with_procs with_next_pid with_mach procs] in *.
  rewrite alter_insert_eq in Eps.
  destruct (table_wf_append k k' q) as (Hwf' & Hnew & Hold); try done.
  { intros x Hx. by rewrite Eps, lookup_insert_ne. }
  { rewrite Eps, lookup_insert_eq. by eexists. }
  destruct Hs1 as (Hpos & _), Hs2 as (_ & Htop & _).
  destruct (kernel_frame_spec (s + 8192) entry m1) as (F1 & F2 & F3 & F4 & _); [lia | done |].
  rewrite F1 in Eps. set (p := set_stack (u32 (s + 8192)) (s + 8192 - 44) s p0) in *.
  apply kmalloc_regs in Ek. assert (Eks : kernel_space st = kernel_space (mach k)) by (unfold regs in Ek; congruence).
  exists p, fl', n. rewrite Em. change (kernel_stack_top p) with (s + 8192 - 44). rewrite F2, F3, F4.
  split_and!; try done.
  - split; [done |]. intros x. rewrite Eps. destruct (decide (x = q)) as [-> | Hne].
    + intros _. exists n. set_solver +.
    + rewrite lookup_insert_ne by done. intros Hx. destruct (Hlive x Hx) as [n' Hn']. exists n'. by right.
  - unfold proc_at. rewrite Hnew, Eps. apply lookup_insert_eq.
  - by apply (keeps_trans _ _ st fl').
  - intros x Hx. apply Hstack. lia.
  - rewrite Hregs. exact Ek.
  - lia.
  - lia.
Qed.

(** With a block for the object, a stack and a free slot it does return one. *)
Lemma process_create_kernel_returns fuel entry k q st1 s b st2 :
  process_count k < 16 → kmalloc fuel sizeof_Process (mach k) = Ok (q, st1) → q ≠ 0 →
  alloc_kernel_stack fuel st1 = Ok (s, b, st2) → s ≠ 0 →
  ∃ k', process_create_kernel fuel entry k = Ok (q, k').
Proof.
  intros Hc Ek Hq Es Hs. unfold process_create_kernel. rewrite Ek. cbn [obind].
  destruct (Z.eqb_spec q 0); [done |]. unfold start_process. cbn [mach with_procs with_next_pid with_mach].
  rewrite Es. cbn [obind]. destruct (Z.eqb_spec s 0); [done |].
  destruct (build_kernel_frame _ _ _) as [sp m]. unfold register_process. cbn [process_count upd with_procs with_mach with_next_pid].
  destruct (Z.leb_spec 16 (process_count k)); [lia |]. by eexists.
Qed.

(** [process_create_kernel] on a well-formed table with a free slot, when
    the heap has a block for the object and the page allocator a stack: it
    returns a new object at the end of the table, ready, with the next process
    id and the kernel space; [popa; iret] from its saved stack pointer enters
    [entry] with interrupts enabled. The other processes are untouched and
    table and heap stay well formed. *)
Theorem process_create_kernel_spec fuel entry k fl live proc st1 s b st2 :
  table_wf k → procs_live k fl live → 0 ≤ entry < W32 →
  process_count k < 16 → kmalloc fuel sizeof_Process (mach k) = Ok (proc, st1) → proc ≠ 0 →
  alloc_kernel_stack fuel st1 = Ok (s, b, st2) → s ≠ 0 →
  ∃ k', process_create_kernel fuel entry k = Ok (proc, k') ∧ ∃ p fl' n,
    table_wf k' ∧ procs_live k' fl' ((proc - 16, n) :: live) ∧
    process_count k' = process_count k + 1 ∧ next_pid k' = u32 (next_pid k + 1) ∧
    proc_at k' (process_count k) = Some p ∧ process_get (process_count k) k' = proc ∧
    pid p = next_pid k ∧ state p = TASK_READY ∧ ring p = RING_KERNEL ∧ saved_esp p = 0 ∧
    rd32 (mem (mach k')) (kernel_stack_top p + 32) = entry ∧
    rd32 (mem (mach k')) (kernel_stack_top p + 36) = 0x08 ∧
    Z.testbit (rd32 (mem (mach k')) (kernel_stack_top p + 40)) 9 = true ∧
    (∀ i, 0 ≤ i < process_count k → proc_at k' i = proc_at k i).
Proof.
  intros Hwf Hpl Hent Hc Ek Hq Es Hs.
  destruct (process_create_kernel_returns fuel entry k proc st1 s b st2 Hc Ek Hq Es Hs) as [k' E].
  exists k'. split; [exact E |].
  destruct (process_create_kernel_effect fuel entry k fl live proc k' Hwf Hpl Hent E Hq)
    as (p & fl' & n & ? & ? & ? & ? & ? & ? & ? & ? & ? & ? & ? & ? & ? & Hold & _). exists p, fl', n.
  split_and!; try done. intros i Hi. by apply Hold.
Qed.
End create.

Section destroy.
Context {Pg : Type} `{!PageAllocOps Pg}.
Implicit Types k : kernel Pg.

(** What a [process_destroy] that returns has done to the table. *)
Lemma process_destroy_effect fuel i k k' :
  table_wf k → 0 ≤ i < process_count k → process_destroy fuel (process_get i k) k = Ok k' →
  table_wf k' ∧ process_count k' = process_count k - 1 ∧ procs k' !! process_get i k = None ∧
  (∀ j, 0 ≤ j < process_count k → j ≠ i →
     ∃ j', 0 ≤ j' < process_count k - 1 ∧ process_get j' k' = process_get j k ∧
       proc_at k' j' = proc_at k j).
Proof.
  intros Hwf Hi E. unfold process_destroy in E. set (q := process_get i k) in *.
  destruct (tw_live k Hwf i) as [p Hp]; [lia |]. unfold proc_at in Hp. fold q in Hp. rewrite Hp in E.
  apply obind_Ok in E as (st & _ & E). cbv zeta in E. set (k2 := with_queues _ _) in E.
  assert (Hst : same_table k k2) by (transitivity (upd q (set_state TASK_DEAD) k); [apply same_table_upd | by split]).
  assert (Hwf2 : table_wf k2) by (apply (table_wf_same k); [done | done | apply Hwf]).
  change (process_count k2) with (process_count k) in E.
  unfold q in E at 1. rewrite <- (process_get_same k k2) in E by done.
  rewrite (unregister_run _ 0 i k2) in E by (done || change (process_count k2) with (process_count k); lia).
  unfold free_process in E. apply obind_Ok in E as (st' & _ & E). injection E as <-.
  set (k' := with_procs _ _). set (c := process_count k) in *.
  pose proof Hwf as [Hlen Hcnt Hnull Hlv Hinj Hcu]. fold c in Hcnt, Hlv, Hinj.
  assert (Hget : ∀ j, 0 ≤ j < c - 1 → process_get j k' = process_get (if j =? i then c - 1 else j) k).
  { intros j Hj. rewrite !process_get_in by (cbn; fold c; try zcase; lia). cbn.
    destruct (Z.eqb_spec j i) as [-> | Hne]; [apply aget_aset_eq | apply aget_aset_ne]; lia. }
  assert (Hsrc : ∀ j, 0 ≤ j < c - 1 → 0 ≤ (if j =? i then c - 1 else j) < c ∧ (if j =? i then c - 1 else j) ≠ i)
    by (intros j Hj; zcase; lia).
  assert (Hne : ∀ j, 0 ≤ j < c → j ≠ i → process_get j k ≠ q).
  { intros j Hj Hji Eq. apply Hji. by apply Hinj. }
  assert (Hps : ∀ x, x ≠ q → procs k' !! x = procs k !! x).
  { intros x Hx. cbn. rewrite lookup_delete_ne by done. by rewrite lookup_alter_ne. }
  assert (Hat : ∀ j, 0 ≤ j < c - 1 → proc_at k' j = proc_at k (if j =? i then c - 1 else j)).
  { intros j Hj. destruct (Hsrc j Hj). unfold proc_at. rewrite Hget by done. by apply Hps, Hne. }
  split_and!; [constructor | done | cbn; apply lookup_delete_eq |].
  - cbn. by rewrite aset_length.
  - change (process_count k') with (c - 1). lia.
  - rewrite Hps; [done |]. intros E0. by rewrite <- E0, Hnull in Hp.
  - change (process_count k') with (c - 1). intros j Hj. rewrite Hat by done. apply Hlv. by apply Hsrc.
  - change (process_count k') with (c - 1). intros j l Hj Hl. rewrite !Hget by done. intros Eq.
    apply Hinj in Eq; [| by apply Hsrc | by apply Hsrc]. revert Eq. repeat zcase; lia.
  - done.
  - intros j Hj Hji. destruct (Z.eq_dec j (c - 1)) as [-> | Hlast].
    + exists i. assert (0 ≤ i < c - 1) by lia. rewrite Hget, Hat, Z.eqb_refl by done. done.
    + exists j. assert (0 ≤ j < c - 1) by lia. rewrite Hget, Hat by done. destruct (Z.eqb_spec j i); done.
Qed.

(** [process_destroy] takes exactly one process out of the table: the
    object is gone, every other process is still in the table with its object
    unchanged, and the table stays well formed. *)
Theorem process_destroy_table fuel i k k' :
  table_wf k → 0 ≤ i < process_count k → process_destroy fuel (process_get i k) k = Ok k' →
  table_wf k' ∧ process_count k' = process_count k - 1 ∧ procs k' !! process_get i k = None ∧
  (∀ j, 0 ≤ j < process_count k → j ≠ i →
     ∃ j', 0 ≤ j' < process_count k - 1 ∧ process_get j' k' = process_get j k ∧
       proc_at k' j' = proc_at k j).
Proof. apply process_destroy_effect. Qed.

(** [process_set_entry] gives a user process a frame from which
    [popa; iret] enters [entry] in ring 3 with cleared registers, interrupts
    enabled and the given stack; the two pages below keep the other bytes. *)
Theorem process_set_entry_frame proc entry uesp k p :
  procs k !! proc = Some p → 0 ≤ kernel_stack_bottom p ≤ W32 - 8192 →
  0 ≤ entry < W32 → 0 ≤ uesp < W32 →
  ∃ p', procs (process_set_entry proc entry uesp k) !! proc = Some p' ∧
    kernel_stack_top p' = kernel_stack_bottom p + 8192 - 52 ∧
    popa_iret (mem (mach (process_set_entry proc entry uesp k))) (kernel_stack_top p') =
      mkIret entry 0x1B 0x202 uesp 0x23 ∧
    popa_regs (mem (mach (process_set_entry proc entry uesp k))) (kernel_stack_top p') = replicate 8 0 ∧
    (∀ x, x < kernel_stack_top p' ∨ kernel_stack_bottom p + 8192 ≤ x →
       rd8 (mem (mach (process_set_entry proc entry uesp k))) x = rd8 (mem (mach k)) x).
Proof.
  intros Hp Hb He Hu. unfold process_set_entry. rewrite Hp.
  destruct (user_frame_spec (kernel_stack_bottom p + 8192) entry uesp (mem (mach k)))
    as (F1 & F2 & F3 & F4); [lia | done | done |].
  destruct (build_user_frame (u32 (kernel_stack_bottom p + 8192)) entry uesp (mem (mach k))) as [sp m].
  simpl in F1, F2, F3, F4. subst sp. exists (set_user entry uesp (kernel_stack_bottom p + 8192 - 52) p).
  split_and!; [| done | done | done | done]. cbn. by rewrite lookup_alter_eq, Hp.
Qed.
End destroy.

(** ** Kernel stacks on the bitmap allocator *)

Import Pmm.

(** The two lowest free frames are [a] and [b]. *)
Definition lowest_free (s : Pmm.pmm) (a b : Z) : Prop :=
  0 < a < b ∧ b < total_pages s ∧
  ∀ i, 0 ≤ i ≤ b → page_in_use s (i * 4096) ↔ i ≠ a ∧ i ≠ b.

Lemma in_use_bit s i : 0 ≤ i < total_pages s → page_in_use s (i * 4096) ↔ test_bit (bitmap s) i = true.
Proof.
  intros Hi. unfold page_in_use. rewrite Z.div_mul by lia. rewrite Z.mod_mul by lia. naive_solver.
Qed.

(** The allocator takes the lowest free frame. *)
Lemma alloc_lowest s a :
  pmm_wf s → 0 < a < total_pages s → ¬ page_in_use s (a * 4096) →
  (∀ i, 0 ≤ i < a → page_in_use s (i * 4096)) →
  ∃ s', pmm_alloc_page s = (a * 4096, s') ∧ total_pages s' = total_pages s.
Proof.
  intros Hwf Ha Hfree Hlow. rewrite in_use_bit in Hfree by lia.
  destruct (pmm_alloc_cases s Hwf) as [(j & Hj & Hf & Hall & E) | [Hall _]].
  - assert (j = a) as ->; [| by eexists].
    destruct (Z_lt_ge_dec j a) as [Hlt | Hge].
    + specialize (Hlow j ltac:(lia)). rewrite in_use_bit in Hlow by lia. congruence.
    + destruct (Z.eq_dec j a); [done |]. exfalso. apply Hfree, Hall. lia.
  - exfalso. apply Hfree, Hall. lia.
Qed.

(** C39: when the two lowest free frames are not adjacent, [alloc_kernel_stack]
    never returns: it frees both and asks again, and the first-fit allocator
    gives it the same two frames each time. *)
Theorem alloc_kernel_stack_diverges fuel st a b :
  pmm_wf (pages st) → lowest_free (pages st) a b → b ≠ a + 1 →
  alloc_kernel_stack fuel st = NoFuel.
Proof.
  revert st. induction fuel as [|fuel IH]; intros st Hwf (Hab & Hb & Hlow) Hadj; [done |].
  cbn [alloc_kernel_stack]. pose proof (wf_total _ Hwf) as Ht.
  destruct (alloc_lowest (pages st) a Hwf) as (s1 & E1 & T1);
    [lia | rewrite Hlow by lia; tauto | intros i Hi; apply Hlow; lia |].
  change (pa_alloc (pages st)) with (pmm_alloc_page (pages st)). rewrite E1.
  destruct (pmm_contract_alloc (pages st) (a * 4096) s1 Hwf E1 ltac:(lia)) as (Hw1 & Ha1 & _ & Hu1).
  destruct (alloc_lowest s1 b Hw1) as (s2 & E2 & T2).
  { lia. }
  { intros Hx. apply (proj1 (Hu1 (b * 4096))) in Hx as [Hx | Hx]; [lia |]. apply Hlow in Hx; lia. }
  { intros i Hi. apply (proj2 (Hu1 (i * 4096))). destruct (Z.eq_dec i a) as [-> |]; [by left | right].
    apply Hlow; lia. }
  change (pa_alloc s1) with (pmm_alloc_page s1). rewrite E2.
  destruct (pmm_contract_alloc s1 (b * 4096) s2 Hw1 E2 ltac:(lia)) as (Hw2 & Ha2 & _ & Hu2).
  destruct (Z.eqb_spec (a * 4096) 0); [lia |]. destruct (Z.eqb_spec (b * 4096) 0); [lia |]. cbn [orb].
  rewrite u32_id by (unfold page_addr in *; lia).
  destruct (Z.eqb_spec (b * 4096) (a * 4096 + 4096)); [lia |]. cbn [negb].
  destruct (pmm_contract_free s2 (a * 4096) Hw2 Ha1) as [Hw3 Hu3]; [apply Hu2; right; apply Hu1; by left |].
  destruct (pmm_contract_free _ (b * 4096) Hw3 Ha2) as [Hw4 Hu4]; [apply Hu3; split; [apply Hu2; by left | lia] |].
  apply IH; [exact Hw4 | | done]. split; [done |]. cbn [pages with_pages].
  assert (Tf : ∀ p s, total_pages (pmm_free_page p s) = total_pages s).
  { intros p s. unfold pmm_free_page. by repeat zcase. }
  split; [change pa_free with pmm_free_page; by rewrite !Tf, T2, T1 |].
  intros i Hi. etransitivity; [apply (Hu4 (i * 4096)) |].
  rewrite (Hu3 (i * 4096)), (Hu2 (i * 4096)), (Hu1 (i * 4096)).
  rewrite Hlow by done. split; [| intros [? ?]; split_and!; [tauto | lia | lia]].
  intros [[Hx Hx1] Hx2]. split; [intros ->; lia | intros ->; lia].
Qed.

(** ** Witnesses *)

(** A machine on which frames 1025 and 1026 are taken and 1024 is free again. *)
Definition fragmented : Pmm.pmm :=
  pmm_free_page 4194304
    (snd (pmm_alloc_page (snd (pmm_alloc_page (snd (pmm_alloc_page (pmm_init 8))))))).

Lemma fragmented_free : pmm_wf fragmented ∧ lowest_free fragmented 1024 1027.
Proof.
  assert (H0 : ∀ i, 0 ≤ i < 2048 → page_in_use (pmm_init 8) (i * 4096) ↔ i < 1024).
  { intros i Hi. rewrite in_use_bit by done.
    destruct (pmm_init_bits 8 ltac:(lia)) as (_ & _ & _ & Hu & Hbits). rewrite Hbits, Hu.
    destruct (Z.leb_spec 0 i); [| lia]. simpl. rewrite Z.ltb_lt. lia. }
  assert (W0 : pmm_wf (pmm_init 8)) by (apply pmm_init_wf; lia).
  unfold fragmented.
  destruct (alloc_lowest (pmm_init 8) 1024 W0) as (s1 & E1 & T1);
    [done | rewrite H0; lia | intros i Hi; apply H0; lia |].
  destruct (pmm_contract_alloc _ _ _ W0 E1 ltac:(lia)) as (W1 & A1 & _ & U1).
  rewrite E1. cbn [snd]. change (total_pages (pmm_init 8)) with 2048 in T1.
  destruct (alloc_lowest s1 1025 W1) as (s2 & E2 & T2);
    [lia | rewrite U1, H0; lia | intros i Hi; rewrite U1, H0; lia |].
  destruct (pmm_contract_alloc _ _ _ W1 E2 ltac:(lia)) as (W2 & A2 & _ & U2). rewrite E2. cbn [snd].
  destruct (alloc_lowest s2 1026 W2) as (s3 & E3 & T3);
    [lia | rewrite U2, U1, H0; lia | intros i Hi; rewrite U2, U1, H0; lia |].
  destruct (pmm_contract_alloc _ _ _ W2 E3 ltac:(lia)) as (W3 & A3 & _ & U3). rewrite E3. cbn [snd].
  destruct (pmm_contract_free s3 4194304 W3 A1) as [W4 U4]; [rewrite U3, U2, U1; lia |].
  split; [done |]. split; [lia |]. split.
  { unfold pmm_free_page. repeat zcase; cbn; lia. }
  intros i Hi. rewrite U4, U3, U2, U1, H0 by lia. lia.
Qed.

Lemma alloc_kernel_stack_diverges_witness :
  alloc_kernel_stack 1000 (mkMachine ∅ fragmented 0 0 0 0 0 [] 0) = NoFuel.
Proof.
  apply (alloc_kernel_stack_diverges 1000 _ 1024 1027).
  - exact (proj1 fragmented_free).
  - exact (proj2 fragmented_free).
  - lia.
Defined.

(** The kernel before the first process, on the heap of [st]. *)
Definition no_processes (st : machine Pmm.pmm) : kernel Pmm.pmm :=
  mkKernel st ∅ (replicate 16 0) 0 1 (-1) ∅ 0.

Lemma no_processes_wf st : table_wf (no_processes st).
Proof. constructor; simpl; try done; lia. Qed.

(** [kmalloc_init] and two kernel processes. *)
Definition two_processes (m0 : machine Pmm.pmm) : outcome (machine Pmm.pmm * (Z * kernel Pmm.pmm) * (Z * kernel Pmm.pmm)) :=
  let! st := kmalloc_init m0 in
  let! r1 := process_create_kernel 18 0x100000 (no_processes st) in
  let! r2 := process_create_kernel 18 0x100100 (snd r1) in
  Ok (st, r1, r2).

Lemma two_processes_calls m0 st r1 r2 :
  two_processes m0 = Ok (st, r1, r2) →
  kmalloc_init m0 = Ok st ∧ process_create_kernel 18 0x100000 (no_processes st) = Ok r1 ∧
  process_create_kernel 18 0x100100 (snd r1) = Ok r2.
Proof.
  unfold two_processes. intros (s0 & E0 & E)%obind_Ok. apply obind_Ok in E as (a & E1 & E).
  apply obind_Ok in E as (b & E2 & E). by injection E as -> -> ->.
Qed.

(** The calls a successful [process_create_kernel] has made. *)
Lemma process_create_kernel_parts fuel entry (k : kernel Pmm.pmm) proc k' :
  process_create_kernel fuel entry k = Ok (proc, k') → proc ≠ 0 →
  ∃ st1 s b st2, kmalloc fuel sizeof_Process (mach k) = Ok (proc, st1) ∧
    alloc_kernel_stack fuel st1 = Ok (s, b, st2) ∧ s ≠ 0.
Proof.
  intros E Hp. unfold process_create_kernel in E. apply obind_Ok in E as ([q st1] & Ek & E).
  destruct (Z.eqb_spec q 0); [by injection E as <- _ |]. unfold start_process in E.
  apply obind_Ok in E as ([[s b] st2] & Es & E). cbn [mach with_procs with_next_pid with_mach] in Es.
  destruct (Z.eqb_spec s 0) as [-> | Hs].
  { apply obind_Ok in E as (k2 & _ & E). by injection E as <- _. }
  destruct (build_kernel_frame _ _ _) as [sp m]. apply obind_Ok in E as (k2 & _ & E). injection E as <- _.
  by exists st1, s, b, st2.
Qed.

Lemma process_create_kernel_spec_witness :
  ∃ st proc k', process_create_kernel 18 0x100000 (no_processes st) = Ok (proc, k') ∧
    table_wf k' ∧ process_count k' = 1.
Proof.
  destruct (run_Ok (two_processes boot_machine) (λ r, negb (fst (snd (fst r)) =? 0)))
    as ([[st [proc k']] r2] & E & Hb); [vm_compute; reflexivity |]. cbn [fst snd] in Hb. zbool.
  destruct (two_processes_calls _ _ _ _ E) as (E0 & E1 & _).
  destruct boot_heap as (st' & E0' & Hinv). assert (st' = st) as -> by congruence.
  destruct (process_create_kernel_parts _ _ _ _ _ E1 Hb) as (st1 & s & b & st2 & Ek & Es & Hs).
  destruct (process_create_kernel_spec 18 0x100000 (no_processes st) [(4194304, 4096)] [] proc st1 s b st2)
    as (k2 & E2 & p & fl' & n & Hwf & _ & Hc & _).
  - apply no_processes_wf.
  - split; [exact Hinv |]. intros q [x Hx]. discriminate.
  - lia.
  - simpl. lia.
  - exact Ek.
  - exact Hb.
  - exact Es.
  - exact Hs.
  - exists st, proc, k2. split; [exact E2 |]. split; [exact Hwf | exact Hc].
Defined.

(** One process object, at 0x5000. *)
Definition one_process : kernel Pmm.pmm :=
  mkKernel (mkMachine ∅ (Pmm.pmm_init 8) 0 0 0 0 0 [] 0)
    {[ 0x5000 := mkProcess 1 1 TASK_READY RING_USER 0 0x402000 0x401F00 0x400000 0 0 0 0 0 0 ]}
    (0x5000 :: replicate 15 0) 1 2 (-1) ∅ 0.

Lemma process_set_entry_frame_witness :
  popa_iret (mem (mach (process_set_entry 0x5000 0x8048000 0x40002000 one_process))) (0x402000 - 52) =
    mkIret 0x8048000 0x1B 0x202 0x40002000 0x23.
Proof.
  destruct (process_set_entry_frame 0x5000 0x8048000 0x40002000 one_process
    (mkProcess 1 1 TASK_READY RING_USER 0 0x402000 0x401F00 0x400000 0 0 0 0 0 0)) as (p' & _ & Ht & Hi & _).
  - reflexivity.
  - cbn. lia.
  - lia.
  - lia.
  - rewrite Ht in Hi. exact Hi.
Defined.

Lemma process_destroy_table_witness :
  ∃ k', process_destroy 16 0x5000 one_process = Ok k' ∧ process_count k' = 0.
Proof.
  destruct (run_Ok (process_destroy 16 0x5000 one_process) (λ _, true)) as (k' & E & _);
    [vm_compute; reflexivity |].
  exists k'. split; [exact E |].
  apply (process_destroy_table 16 0 one_process k'); [| cbn; lia | exact E].
  constructor; cbn [process_count one_process process_table current_process]; try done; try lia.
  - intros i Hi. assert (i = 0) as -> by lia. by eexists.
Defined.
End Process.
