(* ===== verification/Scheduler.v ===== *)
(** * The scheduler: [scheduler/scheduler.cpp], and the functions of
    [process/process.cpp] that use it

    Round robin over the process table, driven by the timer interrupt:
    [scheduler_tick] is given the stack pointer of the interrupted process and
    returns the one to continue with. *)

From S2P Require Import Prelude Interfaces Machine Libk Pmm Kmalloc Vmm Process.

Module Scheduler.
Import Process.

Section scheduler.
Context {Pg : Type} `{!PageAllocOps Pg}.
Implicit Types k : kernel Pg.

(** [current_process >= 0 ? process_get(current_process) : nullptr] *)
Definition scheduler_current_idx k : Z := current_process k.
Definition scheduler_current_process k : Z :=
  if current_process k <? 0 then 0 else process_get (current_process k) k.

Definition scheduler_init k : kernel Pg := with_current (-1) k.
Definition scheduler_mark_current (idx : Z) k : kernel Pg := with_current idx k.
Definition scheduler_mark_dead k : kernel Pg :=
  let p := if 0 <=? current_process k then process_get (current_process k) k else 0 in
  upd p (set_state TASK_DEAD) k.

(** The test of [find_next] on the process at an index. *)
Definition runnable k (idx : Z) : bool :=
  match procs k !! process_get idx k with
  | Some p => negb (bool_decide (state p = TASK_DEAD)) && negb (bool_decide (state p = TASK_BLOCKED))
  | None => false
  end.

(** [for(step <= total) ...]: [n] steps left. [%] truncates towards zero. *)
Fixpoint find_from (n : nat) (from step : Z) k : Z :=
  match n with
  | O => -1
  | S n' =>
      let idx := Z.rem (from + step) (process_total k) in
      if runnable k idx then idx else find_from n' from (step + 1) k
  end.
Definition find_next (from : Z) k : Z :=
  if process_total k =? 0 then -1 else find_from (Z.to_nat (process_total k)) from 1 k.

(** Lines 44 to 61: the interrupted process is put aside. *)
Definition suspend (current_esp : Z) k : kernel Pg :=
  let prev := current_process k in
  let prev_p := if 0 <=? prev then process_get prev k else 0 in
  match procs k !! prev_p with
  | Some p =>
      if decide (state p = TASK_RUNNING) then
        upd prev_p (λ p, set_saved_esp current_esp (set_state TASK_READY p)) k
      else if decide (state p = TASK_BLOCKED) then upd prev_p (set_saved_esp current_esp) k
      else k
  | None => k
  end.

Definition scheduler_tick (current_esp : Z) k : Z * kernel Pg :=
  if process_total k =? 0 then (current_esp, k)
  else
    let prev := current_process k in
    let k := suspend current_esp k in
    let next_idx := find_next prev k in
    let next_p := if 0 <=? next_idx then process_get next_idx k else 0 in
    match procs k !! next_p with
    | None => (current_esp, k)
    | Some p =>
        let k := process_switch next_p k in
        let k := with_current next_idx (upd next_p (set_state TASK_RUNNING) k) in
        (if saved_esp p =? 0 then kernel_stack_top p else saved_esp p, k)
    end.

(** ** The rest of [process/process.cpp] *)

Definition process_current k : Z :=
  if scheduler_current_idx k <? 0 then 0 else process_get (scheduler_current_idx k) k.

(** [for(i < 16) if(process_get(i) == proc) { scheduler_mark_current(i); break; }] *)
Fixpoint mark_index (n : nat) (i proc : Z) k : kernel Pg :=
  match n with
  | O => k
  | S n' => if process_get i k =? proc then scheduler_mark_current i k
            else mark_index n' (i + 1) proc k
  end.

(** The stack pointer the processor continues with; [None] when it halts. *)
Definition process_first_enter (proc : Z) k : option (Z * kernel Pg) :=
  match procs k !! proc with
  | None => None
  | Some p =>
      let k := upd proc (set_state TASK_RUNNING) k in
      let k := process_switch proc k in
      let k := mark_index 16 0 proc k in
      Some (kernel_stack_top p, k)
  end.

(** The state in which the processor then halts until the next interrupt. *)
Definition process_exit_current (code : Z) k : kernel Pg :=
  upd (process_current k) (λ p, set_state TASK_DEAD (set_exit_code code p)) k.
End scheduler.

Section searching.
Context {Pg : Type} `{!PageAllocOps Pg}.
Implicit Types k : kernel Pg.

(** ** [find_next] *)

(** Steps from index [c] forwards to index [i], between 1 and the size. *)
Definition dist k (c i : Z) : Z := (i - c - 1) mod process_count k + 1.

Lemma dist_range k c i : 0 < process_count k → 1 ≤ dist k c i ≤ process_count k.
Proof. intros H. unfold dist. pose proof (Z.mod_pos_bound (i - c - 1) _ H). lia. Qed.

Lemma dist_reaches k c i :
  0 ≤ i < process_count k → (c + dist k c i) mod process_count k = i.
Proof.
  intros Hi. unfold dist. replace (c + ((i - c - 1) mod process_count k + 1))
    with (c + 1 + (i - c - 1) mod process_count k) by lia.
  rewrite Zplus_mod_idemp_r. replace (c + 1 + (i - c - 1)) with i by lia. by apply Z.mod_small.
Qed.

Lemma dist_step k c i s :
  0 ≤ i < process_count k → 1 ≤ s < dist k c i →
  dist k ((c + s) mod process_count k) i = dist k c i - s.
Proof.
  intros Hi Hs. unfold dist in *. pose proof (Z.mod_pos_bound (i - c - 1) (process_count k) ltac:(lia)).
  rewrite <- Zminus_mod_idemp_l. rewrite Zminus_mod_idemp_r. rewrite Zminus_mod_idemp_l.
  replace (i - (c + s) - 1) with (i - c - 1 - s) by lia.
  rewrite <- Zminus_mod_idemp_l, Z.mod_small by lia. lia.
Qed.

Lemma find_from_cases n from step k :
  0 < process_count k → 0 ≤ from + step →
  (find_from n from step k = -1 ∧
   ∀ s, step ≤ s < step + Z.of_nat n → runnable k ((from + s) mod process_count k) = false) ∨
  ∃ s, step ≤ s < step + Z.of_nat n ∧
    find_from n from step k = (from + s) mod process_count k ∧
    runnable k ((from + s) mod process_count k) = true ∧
    ∀ s', step ≤ s' < s → runnable k ((from + s') mod process_count k) = false.
Proof.
  intros Hc. revert step. induction n as [|n IH]; intros step Hs; simpl.
  { left. split; [done | lia]. }
  unfold process_total. rewrite Z.rem_mod_nonneg by lia.
  destruct (runnable k ((from + step) mod process_count k)) eqn:Hr.
  - right. exists step. split_and!; [lia | lia | done | done | lia].
  - destruct (IH (step + 1)) as [[E Hall] | (s & Hs' & E & Hrs & Hall)]; [lia | left | right].
    + split; [done |]. intros s Hs2. destruct (Z.eq_dec s step) as [-> |]; [done | apply Hall; lia].
    + exists s. split_and!; [lia | lia | done | done |].
      intros s' Hs2. destruct (Z.eq_dec s' step) as [-> |]; [done | apply Hall; lia].
Qed.

Lemma dist_of_step k c s :
  1 ≤ s ≤ process_count k → dist k c ((c + s) mod process_count k) = s.
Proof.
  intros Hs. unfold dist.
  replace ((c + s) mod process_count k - c - 1) with ((c + s) mod process_count k - (c + 1)) by lia.
  rewrite Zminus_mod_idemp_l. replace (c + s - (c + 1)) with (s - 1) by lia.
  rewrite Z.mod_small by lia. lia.
Qed.

(** A runnable index that is further away than [n] gets closer at [n]. *)
Lemma dist_decreases k c n i :
  0 ≤ n < process_count k → 0 ≤ i < process_count k → dist k c n ≤ dist k c i →
  i = n ∨ dist k n i < dist k c i.
Proof.
  intros Hn Hi Hle. pose proof (dist_range k c n ltac:(lia)).
  destruct (Z.eq_dec (dist k c n) (dist k c i)) as [E | Hne].
  - left. rewrite <- (dist_reaches k c n Hn), <- (dist_reaches k c i Hi). by rewrite E.
  - right. rewrite <- (dist_reaches k c n Hn) at 1. rewrite dist_step by lia. lia.
Qed.

(** [find_next] finds the first runnable index after [from] in cyclic order. *)
Lemma find_next_cases from k :
  0 < process_count k → -1 ≤ from →
  (find_next from k = -1 ∧ ∀ i, 0 ≤ i < process_count k → runnable k i = false) ∨
  (0 ≤ find_next from k < process_count k ∧ runnable k (find_next from k) = true ∧
   ∀ i, 0 ≤ i < process_count k → runnable k i = true →
     dist k from (find_next from k) ≤ dist k from i).
Proof.
  intros Hc Hf. unfold find_next, process_total. destruct (Z.eqb_spec (process_count k) 0); [lia |].
  destruct (find_from_cases (Z.to_nat (process_count k)) from 1 k) as
    [[E Hall] | (s & Hs & E & Hr & Hmin)]; [lia | lia | left | right]; rewrite E.
  - split; [done |]. intros i Hi. rewrite <- (dist_reaches k from i Hi). apply Hall.
    pose proof (dist_range k from i Hc). lia.
  - split; [by apply Z.mod_pos_bound |]. split; [done |]. intros i Hi Hri.
    pose proof (dist_range k from i Hc) as Hd. pose proof (dist_reaches k from i Hi) as Hre.
    rewrite dist_of_step by lia. destruct (Z_lt_ge_dec (dist k from i) s) as [Hlt | Hge]; [| lia].
    specialize (Hmin (dist k from i) ltac:(lia)). rewrite Hre in Hmin. congruence.
Qed.
End searching.

(** ** The effect of a tick *)

Section tick.
Context {Pg : Type} `{!PageAllocOps Pg}.
Implicit Types k : kernel Pg.

Lemma proc_at_upd k f i j :
  table_wf k → 0 ≤ i < process_count k → 0 ≤ j < process_count k →
  proc_at (upd (process_get j k) f k) i =
    if i =? j then f <$> proc_at k i else proc_at k i.
Proof.
  intros Hwf Hi Hj. unfold proc_at. rewrite (process_get_same k _ i (same_table_upd k _ f)).
  simpl. destruct (Z.eqb_spec i j) as [-> | Hne].
  - by rewrite lookup_alter_eq.
  - rewrite lookup_alter_ne; [done |]. intros E. apply Hne. by apply (tw_inj k Hwf).
Qed.

(** What [suspend] does to the object of the interrupted process. *)
Definition suspended (esp : Z) (p : Process) : Process :=
  if decide (state p = TASK_RUNNING) then set_saved_esp esp (set_state TASK_READY p)
  else if decide (state p = TASK_BLOCKED) then set_saved_esp esp p else p.

Lemma runnable_proc_at k i :
  runnable k i = match proc_at k i with
    | Some p => negb (bool_decide (state p = TASK_DEAD)) && negb (bool_decide (state p = TASK_BLOCKED))
    | None => false end.
Proof. done. Qed.

Lemma suspend_effect esp k :
  table_wf k →
  same_table k (suspend esp k) ∧ current_process (suspend esp k) = current_process k ∧
  mach (suspend esp k) = mach k ∧
  (∀ i, 0 ≤ i < process_count k → proc_at (suspend esp k) i =
     if i =? current_process k then suspended esp <$> proc_at k i else proc_at k i).
Proof.
  intros Hwf. unfold suspend. pose proof (tw_cur k Hwf) as Hcur.
  destruct (Z.leb_spec 0 (current_process k)) as [H0 | H0].
  2:{ rewrite (tw_null k Hwf). split_and!; try done. intros i Hi.
      destruct (Z.eqb_spec i (current_process k)); [lia | done]. }
  destruct (Z_lt_ge_dec (current_process k) (process_count k)) as [Hlt | Hge].
  2:{ assert (E : process_get (current_process k) k = 0).
      { unfold process_get. destruct (Z.leb_spec (process_count k) (current_process k)); [| lia].
        by rewrite orb_true_r. }
      rewrite E, (tw_null k Hwf). split_and!; try done. intros i Hi.
      destruct (Z.eqb_spec i (current_process k)); [lia | done]. }
  set (c := current_process k) in *. fold (proc_at k c).
  destruct (tw_live k Hwf c) as [p Hp]; [lia |]. rewrite Hp.
  assert (Hgo : ∀ f, f p = suspended esp p → ∀ i, 0 ≤ i < process_count k →
    proc_at (upd (process_get c k) f k) i = if i =? c then suspended esp <$> proc_at k i else proc_at k i).
  { intros f Hf i Hi. rewrite proc_at_upd by (done || lia).
    destruct (Z.eqb_spec i c) as [-> |]; [| done]. rewrite Hp. simpl. by rewrite Hf. }
  unfold suspended in *. destruct (decide (state p = TASK_RUNNING)) as [Er | Hr];
    [| destruct (decide (state p = TASK_BLOCKED)) as [Eb | Hb]].
  - split; [apply same_table_upd |]. split_and!; [done | done |]. by apply Hgo.
  - split; [apply same_table_upd |]. split_and!; [done | done |]. by apply Hgo.
  - split_and!; try done. intros i Hi. destruct (Z.eqb_spec i c) as [-> |]; [| done].
    rewrite Hp. simpl. rewrite decide_False, decide_False by done. done.
Qed.

Lemma runnable_suspend esp k i :
  table_wf k → 0 ≤ i < process_count k → runnable (suspend esp k) i = runnable k i.
Proof.
  intros Hwf Hi. destruct (suspend_effect esp k Hwf) as (_ & _ & _ & Hp).
  rewrite !runnable_proc_at, Hp by done. destruct (i =? current_process k); [| done].
  destruct (proc_at k i) as [p|]; [| done]. simpl. unfold suspended.
  destruct (decide (state p = TASK_RUNNING)) as [E |]; [by rewrite E |].
  by destruct (decide (state p = TASK_BLOCKED)).
Qed.

Lemma dist_same k k' c i : process_count k' = process_count k → dist k' c i = dist k c i.
Proof. intros E. unfold dist. by rewrite E. Qed.

Lemma process_switch_effect q p k :
  procs k !! q = Some p →
  procs (process_switch q k) = procs k ∧ current_process (process_switch q k) = current_process k ∧
  esp0 (mach (process_switch q k)) =
    (if kernel_stack p =? 0 then esp0 (mach k) else kernel_stack p) ∧
  cr3 (mach (process_switch q k)) =
    (if address_space p =? 0 then cr3 (mach k) else address_space p) ∧
  mem (mach (process_switch q k)) = mem (mach k) ∧ pages (mach (process_switch q k)) = pages (mach k).
Proof.
  intros E. unfold process_switch. rewrite E.
  by destruct (kernel_stack p =? 0), (address_space p =? 0).
Qed.

(** A tick either finds nothing to run and only puts the interrupted process
    aside, or continues the first runnable process after it. *)
Lemma tick_effect esp k e' k' :
  table_wf k → 0 < process_count k → scheduler_tick esp k = (e', k') →
  table_wf k' ∧ same_table k k' ∧
  ((∀ i, 0 ≤ i < process_count k → runnable k i = false) ∧ e' = esp ∧ k' = suspend esp k ∨
   ∃ n p, 0 ≤ n < process_count k ∧ runnable k n = true ∧ current_process k' = n ∧
     proc_at (suspend esp k) n = Some p ∧
     e' = (if saved_esp p =? 0 then kernel_stack_top p else saved_esp p) ∧
     (∀ i, 0 ≤ i < process_count k → proc_at k' i =
        if i =? n then Some (set_state TASK_RUNNING p) else proc_at (suspend esp k) i) ∧
     esp0 (mach k') = (if kernel_stack p =? 0 then esp0 (mach k) else kernel_stack p) ∧
     cr3 (mach k') = (if address_space p =? 0 then cr3 (mach k) else address_space p) ∧
     (∀ i, 0 ≤ i < process_count k → runnable k i = true →
        dist k (current_process k) n ≤ dist k (current_process k) i)).
Proof.
  intros Hwf Hc E. destruct (suspend_effect esp k Hwf) as (Hst & Hcu & Hm & Hp).
  pose proof (st_count _ _ Hst) as Hcnt. pose proof (tw_cur k Hwf) as Hcur.
  assert (Hwf1 : table_wf (suspend esp k)) by (apply (table_wf_same k); [done | done | lia]).
  unfold scheduler_tick, process_total in E. destruct (Z.eqb_spec (process_count k) 0) as [?|_]; [lia |].
  set (k1 := suspend esp k) in *.
  destruct (find_next_cases (current_process k) k1) as [[En Hall] | (Hn & Hr & Hd)]; [lia | lia | |].
  - rewrite En in E. simpl in E. rewrite (tw_null k1 Hwf1) in E. injection E as <- <-.
    split; [done | split; [done | left]]. split_and!; [| done | done].
    intros i Hi. rewrite <- (runnable_suspend esp) by done. apply Hall. lia.
  - set (n := find_next (current_process k) k1) in *.
    destruct (Z.leb_spec 0 n); [| lia]. fold (proc_at k1 n) in E.
    destruct (tw_live k1 Hwf1 n) as [p Hpn]; [lia |]. rewrite Hpn in E. injection E as <- <-.
    set (k2 := process_switch (process_get n k1) k1).
    destruct (process_switch_effect (process_get n k1) p k1 Hpn) as (Eps & _ & Ee & Ec & _).
    assert (Hs2 : same_table k k2) by (etransitivity; [exact Hst | apply same_table_switch]).
    assert (Hs3 : same_table k (upd (process_get n k1) (set_state TASK_RUNNING) k2))
      by (etransitivity; [exact Hs2 | apply same_table_upd]).
    assert (Hs4 : same_table k (with_current n (upd (process_get n k1) (set_state TASK_RUNNING) k2))).
    { destruct Hs3 as [T C D]. by split. }
    split; [apply (table_wf_same k); [done | done | simpl; lia] |]. split; [done | right].
    exists n, p. split_and!; [lia | lia | | done | done | done | | | |].
    + rewrite <- (runnable_suspend esp) by (done || lia). done.
    + intros i Hi. unfold proc_at. rewrite (process_get_same k) by done.
      rewrite <- (process_get_same k k1 i) by done. cbn [procs with_current upd with_procs].
      fold k2 in Eps. rewrite Eps. destruct (Z.eqb_spec i n) as [-> | Hne].
      * rewrite lookup_alter_eq. fold (proc_at k1 n). by rewrite Hpn.
      * rewrite lookup_alter_ne; [done |]. intros Eq. apply Hne. symmetry.
        apply (tw_inj k1 Hwf1); [lia | lia | done].
    + cbn [mach with_current upd with_procs]. fold k2 in Ee. by rewrite Ee, Hm.
    + cbn [mach with_current upd with_procs]. fold k2 in Ec. by rewrite Ec, Hm.
    + intros i Hi Hri. rewrite <- !(dist_same k k1) by done. apply Hd; [lia |].
      unfold k1. by rewrite runnable_suspend.
Qed.
End tick.

(** ** Properties *)

Section theorems.
Context {Pg : Type} `{!PageAllocOps Pg}.
Implicit Types k : kernel Pg.

(** C2: a timer tick on a well-formed table continues the first runnable
    process after the interrupted one in cyclic order, with its saved stack
    pointer (or its first frame), its kernel stack in the TSS and its address
    space in [cr3], and marks it as the only running process; when no process
    can run it returns to the interrupted stack. The table is unchanged. *)
Theorem scheduler_tick_spec esp k e' k' :
  table_wf k → one_running k → 0 < process_count k → scheduler_tick esp k = (e', k') →
  table_wf k' ∧ one_running k' ∧ process_table k' = process_table k ∧
  process_count k' = process_count k ∧
  (∀ i, 0 ≤ i < process_count k → runnable k' i = runnable k i) ∧
  ((∀ i, 0 ≤ i < process_count k → runnable k i = false) ∧
   e' = esp ∧ current_process k' = current_process k ∨
   ∃ n p, 0 ≤ n < process_count k ∧ runnable k n = true ∧ current_process k' = n ∧
     proc_at k' n = Some p ∧ state p = TASK_RUNNING ∧
     e' = (if saved_esp p =? 0 then kernel_stack_top p else saved_esp p) ∧
     (kernel_stack p ≠ 0 → esp0 (mach k') = kernel_stack p) ∧
     (address_space p ≠ 0 → cr3 (mach k') = address_space p) ∧
     (∀ i, 0 ≤ i < process_count k → runnable k i = true →
        dist k (current_process k) n ≤ dist k (current_process k) i)).
Proof.
  intros Hwf Hone Hc E.
  destruct (tick_effect esp k e' k' Hwf Hc E) as (Hwf' & Hst & Hcase).
  pose proof (suspend_effect esp k Hwf) as (Hss & Hcu & _ & Hsp).
  assert (Hquiet : ∀ i p, 0 ≤ i < process_count k → proc_at (suspend esp k) i = Some p →
    state p ≠ TASK_RUNNING).
  { intros i p Hi. rewrite Hsp by done. destruct (Z.eqb_spec i (current_process k)) as [-> | Hne].
    - destruct (proc_at k (current_process k)) as [q|]; [| done]. intros [= <-]. unfold suspended.
      destruct (decide (state q = TASK_RUNNING)); [done |]. by destruct (decide (state q = TASK_BLOCKED)).
    - intros Hp Hr. apply Hne. by apply (Hone i p). }
  pose proof Hst as [T C _]. split; [done |].
  destruct Hcase as [(Hall & -> & ->) | (n & p & Hn & Hrn & Hcn & Hpn & -> & Hps & He & Hcr & Hmin)].
  - split_and!; [| done | done | | by left].
    + intros i p Hi Hp Hr. rewrite C in Hi. by destruct (Hquiet i p Hi Hp).
    + intros i Hi. by apply runnable_suspend.
  - split_and!; [| done | done | |].
    + intros i q Hi. rewrite C in Hi. rewrite Hps by done. destruct (Z.eqb_spec i n); [congruence |].
      intros Hq Hr. by destruct (Hquiet i q Hi Hq).
    + intros i Hi. rewrite <- (runnable_suspend esp k i) by done. rewrite !runnable_proc_at, Hps by done.
      destruct (Z.eqb_spec i n) as [-> |]; [| done]. rewrite Hpn. rewrite <- (runnable_suspend esp) in Hrn by done.
      rewrite runnable_proc_at, Hpn in Hrn. by rewrite Hrn.
    + right. exists n, (set_state TASK_RUNNING p).
      split_and!; [lia | lia | done | done | by rewrite Hps, Z.eqb_refl by lia | done | done | | | done].
      * intros Hk. rewrite He. by destruct (Z.eqb_spec (kernel_stack p) 0).
      * intros Ha. rewrite Hcr. by destruct (Z.eqb_spec (address_space p) 0).
Qed.

(** Anything that may happen between two ticks, as far as the process at
    index [i] is concerned: other processes change state, memory and message
    queues change, but the table stays, process [i] stays runnable and its
    saved stack pointer is not touched. *)
Definition between_ticks (i : Z) k k' : Prop :=
  same_table k k' ∧ current_process k' = current_process k ∧ runnable k' i = true ∧
  saved_esp <$> proc_at k' i = saved_esp <$> proc_at k i.

(** [waiting i n k k']: process [i] has not run for [n] ticks. *)
Inductive waiting (i : Z) : nat → kernel Pg → kernel Pg → Prop :=
| waiting_here k : waiting i 0 k k
| waiting_tick n k k' esp :
    waiting i n k k' → current_process k' ≠ i →
    waiting i (S n) k (snd (scheduler_tick esp k'))
| waiting_other n k k' k'' :
    waiting i n k k' → between_ticks i k' k'' → waiting i n k k''.

Lemma waiting_invariant i n k k' :
  table_wf k → 0 ≤ i < process_count k → runnable k i = true → waiting i n k k' →
  table_wf k' ∧ same_table k k' ∧ runnable k' i = true ∧
  (current_process k' ≠ i → saved_esp <$> proc_at k' i = saved_esp <$> proc_at k i) ∧
  Z.of_nat n ≤ dist k (current_process k) i ∧
  (current_process k' ≠ i → dist k (current_process k') i + Z.of_nat n ≤ dist k (current_process k) i).
Proof.
  intros Hwf Hi Hr Hw. induction Hw as [k | n k k' esp Hw IH Hne | n k k' k'' Hw IH Hb].
  - pose proof (dist_range k (current_process k) i ltac:(lia)). split_and!; try done; lia.
  - destruct IH as (Hwf' & Hst & Hr' & Hs & Hn & Hd); [done | done | done |].
    specialize (Hd Hne). specialize (Hs Hne). pose proof (st_count _ _ Hst) as Hc.
    destruct (scheduler_tick esp k') as [e2 k2] eqn:E. simpl.
    destruct (tick_effect esp k' e2 k2 Hwf' ltac:(lia) E) as (Hwf2 & Hst2 & [(Hall & _) | Hx]).
    { rewrite (Hall i) in Hr' by lia. done. }
    destruct Hx as (m & p & Hm & _ & Hcm & Hpm & _ & Hps & _ & _ & Hmin).
    pose proof (suspend_effect esp k' Hwf') as (_ & _ & _ & Hsp).
    assert (Hpi : proc_at (suspend esp k') i = proc_at k' i).
    { rewrite Hsp by lia. destruct (Z.eqb_spec i (current_process k')); [congruence | done]. }
    specialize (Hmin i ltac:(lia) Hr').
    pose proof (dist_range k (current_process k') i ltac:(lia)) as Hrg.
    destruct (Z.eq_dec i m) as [-> | Hmi].
    + split_and!; [done | by etransitivity | | congruence | lia | congruence].
      rewrite runnable_proc_at, Hps, Z.eqb_refl by lia. done.
    + destruct (dist_decreases k' (current_process k') m i Hm ltac:(lia) Hmin) as [| Hlt]; [done |].
      rewrite !(dist_same k k') in Hlt by done.
      pose proof (dist_range k m i ltac:(lia)).
      assert (Hp2 : proc_at k2 i = proc_at k' i).
      { rewrite Hps by lia. by destruct (Z.eqb_spec i m). }
      split_and!; [done | by etransitivity | | intros _; by rewrite Hp2 | lia | rewrite Hcm; lia].
      by rewrite runnable_proc_at, Hp2.
  - destruct IH as (Hwf' & Hst & Hr' & Hs & Hn & Hd); [done | done | done |].
    destruct Hb as (Hst2 & Hcu & Hr2 & Hs2). rewrite Hcu.
    split_and!; [| by etransitivity | done | | done | done].
    + apply (table_wf_same k'); [done | done | rewrite Hcu; apply Hwf'].
    + intros Hne. by rewrite Hs2, Hs.
Qed.

(** C12: a runnable process waits for at most as many ticks as there are
    processes, whatever the other processes do between the ticks. *)
Theorem scheduler_bounded_wait i n k k' :
  table_wf k → 0 ≤ i < process_count k → runnable k i = true → waiting i n k k' →
  Z.of_nat n ≤ process_count k.
Proof.
  intros Hwf Hi Hr Hw. destruct (waiting_invariant i n k k' Hwf Hi Hr Hw) as (_ & _ & _ & _ & Hn & _).
  pose proof (dist_range k (current_process k) i ltac:(lia)). lia.
Qed.

(** The process that was running stays runnable, remembers where it was
    interrupted, and goes on there when nothing else can run. *)
Lemma tick_interrupts i p esp k e1 k1 :
  table_wf k → current_process k = i → 0 ≤ i < process_count k →
  proc_at k i = Some p → state p = TASK_RUNNING → esp ≠ 0 → scheduler_tick esp k = (e1, k1) →
  table_wf k1 ∧ same_table k k1 ∧ runnable k1 i = true ∧ saved_esp <$> proc_at k1 i = Some esp ∧
  (current_process k1 = i → e1 = esp).
Proof.
  intros Hwf Hcur Hi Hp Hrun Hesp E1.
  destruct (tick_effect esp k e1 k1 Hwf ltac:(lia) E1) as (Hwf1 & Hst1 & Hcase).
  pose proof (suspend_effect esp k Hwf) as (_ & _ & _ & Hsp).
  assert (Hpi : proc_at (suspend esp k) i = Some (set_saved_esp esp (set_state TASK_READY p))).
  { rewrite Hsp, Hp by done. rewrite Hcur, Z.eqb_refl. simpl. unfold suspended. by rewrite decide_True. }
  split; [done |]. split; [done |].
  destruct Hcase as [(Hall & _) | (m & q & Hm & _ & Hcm & Hq & -> & Hps & _)].
  { specialize (Hall i Hi). by rewrite runnable_proc_at, Hp, Hrun in Hall. }
  specialize (Hps i Hi). rewrite runnable_proc_at, Hps. destruct (Z.eqb_spec i m) as [-> | Hne].
  - rewrite Hpi in Hq. injection Hq as <-. split_and!; [done | done |]. intros _. cbn [saved_esp set_saved_esp].
    by destruct (Z.eqb_spec esp 0).
  - rewrite Hpi. split_and!; [done | done |]. congruence.
Qed.

(** A runnable process is continued at the stack pointer that is saved for
    it, after at most as many ticks as there are processes. *)
Lemma waiting_resumes i esp k n k2 esp2 :
  table_wf k → 0 ≤ i < process_count k → runnable k i = true → saved_esp <$> proc_at k i = Some esp → esp ≠ 0 →
  waiting i n k k2 → current_process k2 ≠ i →
  Z.of_nat (S n) ≤ process_count k ∧
  (current_process (snd (scheduler_tick esp2 k2)) = i → fst (scheduler_tick esp2 k2) = esp).
Proof.
  intros Hwf Hi Hr Hse Hesp Hw Hne.
  destruct (waiting_invariant i n k k2 Hwf Hi Hr Hw) as (Hwf2 & Hst2 & Hr2 & Hs2 & _ & Hd).
  specialize (Hs2 Hne). specialize (Hd Hne). pose proof (st_count _ _ Hst2) as Hc2.
  pose proof (dist_range k (current_process k) i ltac:(lia)). pose proof (dist_range k (current_process k2) i ltac:(lia)).
  split; [lia |]. intros Hback. destruct (scheduler_tick esp2 k2) as [e3 k3] eqn:E3. simpl in *.
  destruct (tick_effect esp2 k2 e3 k3 Hwf2 ltac:(lia) E3) as (_ & _ & [(Hall & _) | Hx]).
  { by rewrite (Hall i) in Hr2 by lia. }
  destruct Hx as (m & r & Hm & _ & Hcm & Hpm & -> & _). assert (m = i) as -> by congruence.
  pose proof (suspend_effect esp2 k2 Hwf2) as (_ & _ & _ & Hsp2).
  rewrite Hsp2 in Hpm by lia. destruct (Z.eqb_spec i (current_process k2)); [congruence |].
  rewrite Hpm, Hse in Hs2. simpl in Hs2. injection Hs2 as Hs2. rewrite Hs2.
  by destruct (Z.eqb_spec esp 0).
Qed.

(** A process that is interrupted while running is continued later at exactly
    the stack pointer it was interrupted with. *)
Lemma scheduler_resumes_where_interrupted i p esp k n k2 esp2 :
  table_wf k → current_process k = i → 0 ≤ i < process_count k →
  proc_at k i = Some p → state p = TASK_RUNNING → esp ≠ 0 →
  waiting i n (snd (scheduler_tick esp k)) k2 → current_process k2 ≠ i →
  current_process (snd (scheduler_tick esp2 k2)) = i →
  fst (scheduler_tick esp2 k2) = esp.
Proof.
  intros Hwf Hcur Hi Hp Hrun Hesp Hw Hne Hback.
  destruct (scheduler_tick esp k) as [e1 k1] eqn:E1. simpl in Hw.
  destruct (tick_interrupts i p esp k e1 k1) as (Hwf1 & Hst1 & Hr1 & Hse & _); [done.. |].
  pose proof (st_count _ _ Hst1) as Hc1.
  by destruct (waiting_resumes i esp k1 n k2 esp2 Hwf1 ltac:(lia) Hr1 Hse Hesp Hw Hne) as [_ ->].
Qed.

(** Destroying any other process while the one in the last slot of the
    table runs moves the running process to the freed slot without updating
    [current_process]: the index is then past the end, the running process is
    no longer known to the scheduler and the next tick does not save its stack
    pointer. *)
Theorem process_destroy_loses_current fuel i k k' :
  table_wf k → 0 ≤ i < current_process k → current_process k = process_count k - 1 →
  process_destroy fuel (process_get i k) k = Ok k' →
  scheduler_current_process k' = 0 ∧
  process_get i k' = process_get (current_process k) k ∧
  (procs k' !! 0 = None → ∀ esp, suspend esp k' = k').
Proof.
  intros Hwf Hi Hc E. unfold process_destroy in E.
  destruct (tw_live k Hwf i) as [p Hp]; [lia |]. unfold proc_at in Hp. rewrite Hp in E.
  set (k1 := upd (process_get i k) (set_state TASK_DEAD) k) in E.
  apply obind_Ok in E as (st & _ & E). cbv zeta in E.
  set (k2 := with_queues _ _) in E.
  assert (Hst : same_table k k2).
  { transitivity k1; [apply same_table_upd | by split]. }
  assert (Hwf2 : table_wf k2) by (apply (table_wf_same k); [done | done | apply Hwf]).
  assert (Hg : process_get i k = process_get i k2) by (symmetry; by apply process_get_same).
  change (process_count k2) with (process_count k) in E. rewrite Hg in E.
  rewrite (unregister_run _ 0 i k2) in E by (done || change (process_count k2) with (process_count k); lia).
  unfold free_process in E. apply obind_Ok in E as (st' & _ & E). injection E as <-.
  cbn [current_process procs]. unfold scheduler_current_process, suspend.
  cbn [current_process procs with_procs with_mach with_table process_count].
  change (current_process k2) with (current_process k).
  assert (Hget : ∀ k3, process_count k3 = process_count k - 1 → process_get (current_process k) k3 = 0).
  { intros k3 E3. unfold process_get. rewrite E3. destruct (Z.leb_spec (process_count k - 1) (current_process k)); [| lia].
    by rewrite orb_true_r. }
  rewrite !Hget by done. destruct (Z.ltb_spec (current_process k) 0); [lia |].
  destruct (Z.leb_spec 0 (current_process k)); [| lia]. split_and!; [done | |].
  - rewrite !process_get_in by (cbn; change (process_count k2) with (process_count k); lia). cbn.
    rewrite aget_aset_eq by (rewrite (tw_len k Hwf); pose proof (tw_count k Hwf); lia).
    by rewrite Hc.
  - intros Hnull esp. by rewrite Hnull.
Qed.
End theorems.

(** ** Witnesses *)

Import Pmm.

(** Three processes; the one in slot [c] runs. *)
Definition three (c : Z) : kernel Pmm.pmm :=
  let proc i := mkProcess (i + 1) 1 (if i =? c then TASK_RUNNING else TASK_READY) RING_KERNEL
                  4194304 (0x9000 + i * 0x2000) (0x8F00 + i * 0x2000) 0 0 0 0 0 0 0 in
  mkKernel (mkMachine ∅ (Pmm.pmm_init 8) 0 0 0 0 0 [] 0)
    (<[0x5000 := proc 0]> (<[0x5100 := proc 1]> (<[0x5200 := proc 2]> ∅)))
    ([0x5000; 0x5100; 0x5200] ++ replicate 13 0) 3 4 c ∅ 0.

Lemma three_wf c : 0 ≤ c < 3 → table_wf (three c) ∧ one_running (three c).
Proof.
  intros Hc. assert (Hcase : ∀ i, 0 ≤ i < 3 → i = 0 ∨ i = 1 ∨ i = 2) by lia.
  split; [constructor | intros i p Hi]; cbn [process_count current_process three process_table]; try done; try lia.
  - intros i Hi. destruct (Hcase i Hi) as [-> | [-> | ->]]; by eexists.
  - intros i j Hi Hj. destruct (Hcase i Hi) as [-> | [-> | ->]], (Hcase j Hj) as [-> | [-> | ->]]; done.
  - cbn in Hi. intros E. destruct (Hcase c Hc) as [-> | [-> | ->]], (Hcase i Hi) as [-> | [-> | ->]];
      vm_compute in E; injection E as <-; done.
Qed.

Lemma scheduler_tick_spec_witness :
  fst (scheduler_tick 0x7000 (three 0)) = 0xAF00 ∧ one_running (snd (scheduler_tick 0x7000 (three 0))).
Proof.
  split; [vm_compute; reflexivity |].
  apply (scheduler_tick_spec 0x7000 (three 0) (fst (scheduler_tick 0x7000 (three 0)))
    (snd (scheduler_tick 0x7000 (three 0))));
    [apply three_wf; lia | apply three_wf; lia | reflexivity | apply surjective_pairing].
Defined.

Lemma scheduler_bounded_wait_witness :
  Z.of_nat 2 ≤ process_count (three 0) ∧
  current_process (snd (scheduler_tick 2 (snd (scheduler_tick 1 (three 0))))) = 2.
Proof.
  split; [| vm_compute; reflexivity].
  apply (scheduler_bounded_wait 2 2 (three 0) (snd (scheduler_tick 2 (snd (scheduler_tick 1 (three 0))))));
    [apply three_wf; lia | cbn; lia | reflexivity |].
  apply waiting_tick; [| vm_compute; discriminate].
  apply waiting_tick; [| vm_compute; discriminate]. apply waiting_here.
Defined.

Lemma scheduler_resumes_where_interrupted_witness :
  fst (scheduler_tick 3 (snd (scheduler_tick 2 (snd (scheduler_tick 0x7777 (three 0)))))) = 0x7777.
Proof.
  apply (scheduler_resumes_where_interrupted 0
    (mkProcess 1 1 TASK_RUNNING RING_KERNEL 4194304 0x9000 0x8F00 0 0 0 0 0 0 0) 0x7777 (three 0) 1);
    [apply three_wf; lia | reflexivity | cbn; lia | reflexivity | reflexivity | discriminate | | |].
  - apply waiting_tick; [apply waiting_here | vm_compute; discriminate].
  - vm_compute. discriminate.
  - vm_compute. reflexivity.
Defined.

Lemma process_destroy_loses_current_witness :
  ∃ k', process_destroy 16 0x5000 (three 2) = Ok k' ∧ scheduler_current_process k' = 0.
Proof.
  destruct (run_Ok (process_destroy 16 0x5000 (three 2)) (λ _, true)) as (k' & E & _);
    [vm_compute; reflexivity |].
  exists k'. split; [exact E |].
  apply (process_destroy_loses_current 16 0 (three 2) k');
    [apply three_wf; lia | cbn; lia | reflexivity | exact E].
Defined.
End Scheduler.
