(* ===== verification/Ipc.v ===== *)
(** * Messages between processes: [ipc/ipc.cpp]

    Every process may have a queue of at most 16 messages of at most 64 bytes.
    The queue is specified as a bounded FIFO list. *)

From S2P Require Import Prelude Interfaces Machine Libk Ring Pmm Kmalloc Vmm Process Scheduler.

Module Ipc.
Import Libk Process Scheduler.

Notation IPC_MAX_MSG_SIZE := 64 (only parsing).
Notation IPC_MAX_MSG_PER_PROC := 16 (only parsing).

(** ** The code *)

Definition ipc_queue_init (q : ipc_queue) : ipc_queue := mkQueue (msgs q) 0 0 0.

(** The [n] bytes at address [a]. *)
Definition bytes_at (m : memory) (a : Z) (n : nat) : list Z :=
  map (λ j, rd8 m (a + Z.of_nat j)) (seq 0 n).

(** Lines 34 to 41: the message goes to the slot at [tail]; the bytes of the
    slot past [size] keep their old values. *)
Definition queue_put (sender size : Z) (data : list Z) (q : ipc_queue) : ipc_queue :=
  let old := aget (msgs q) (tail q) in
  let msg := mkMsg sender size (data ++ drop (length data) (msg_data old)) in
  mkQueue (aset (msgs q) (tail q) msg) (head q)
    (Z.rem (tail q + 1) IPC_MAX_MSG_PER_PROC) (count q + 1).

(** Lines 76 and 77. *)
Definition queue_take (q : ipc_queue) : ipc_queue :=
  mkQueue (msgs q) (Z.rem (head q + 1) IPC_MAX_MSG_PER_PROC) (tail q) (count q - 1).

Section ipc.
Context {Pg : Type} `{!PageAllocOps Pg}.
Implicit Types k : kernel Pg.

(** Lines 35 and 36. *)
Definition current_pid k : Z :=
  match procs k !! scheduler_current_process k with Some p => pid p | None => 0 end.

(** Lines 24 to 46, for the object [p] at address [ptr]. *)
Definition send_to (ptr : Z) (p : Process) (data size : Z) k : Z * kernel Pg :=
  if decide (state p = TASK_DEAD) then (-1, k)
  else
    match queues k !! msg_queue p with
    | None => (-1, k)
    | Some q =>
        if IPC_MAX_MSG_PER_PROC <=? count q then (-1, k)
        else
          let q := queue_put (current_pid k) size (bytes_at (mem (mach k)) data (Z.to_nat size)) q in
          let k := with_queues (<[msg_queue p := q]> (queues k)) k in
          (0, if decide (state p = TASK_BLOCKED) then upd ptr (set_state TASK_READY) k else k)
    end.

(** [for(i < process_total()) ...]: the first process with the id decides. *)
Fixpoint send_scan (n : nat) (i target_pid data size : Z) k : Z * kernel Pg :=
  match n with
  | O => (-1, k)
  | S n' =>
      match proc_at k i with
      | None => send_scan n' (i + 1) target_pid data size k
      | Some p =>
          if negb (pid p =? target_pid) then send_scan n' (i + 1) target_pid data size k
          else send_to (process_get i k) p data size k
      end
  end.

Definition ipc_send (target_pid data size : Z) k : Z * kernel Pg :=
  if (data =? 0) || (size =? 0) || (IPC_MAX_MSG_SIZE <? size) then (-1, k)
  else send_scan (Z.to_nat (process_total k)) 0 target_pid data size k.

(** [sender] and [buf] are addresses in memory, 0 is null. *)
Definition ipc_recv (sender buf size : Z) k : Z * kernel Pg :=
  let me := scheduler_current_process k in
  match procs k !! me with
  | None => (-1, k)
  | Some p =>
      if (buf =? 0) || (size =? 0) then (-1, k)
      else
        match queues k !! msg_queue p with
        | None => (-1, k)
        | Some q =>
            if count q =? 0 then (0, upd me (set_state TASK_BLOCKED) k)
            else
              let msg := aget (msgs q) (head q) in
              let copy_size := if msg_size msg <? size then msg_size msg else size in
              let m := mem (mach k) in
              let m := if sender =? 0 then m else wr32 m sender (sender_pid msg) in
              let m := store_bytes m buf (take (Z.to_nat copy_size) (msg_data msg)) in
              (copy_size, with_queues (<[msg_queue p := queue_take q]> (queues k))
                            (with_mach (with_mem m (mach k)) k))
        end
  end.
End ipc.

Lemma bytes_at_S m a n : bytes_at m a (S n) = rd8 m a :: bytes_at m (a + 1) n.
Proof.
  unfold bytes_at. cbn [seq map]. rewrite Z.add_0_r. f_equal. rewrite <- seq_shift, map_map.
  apply map_ext. intros j. f_equal. lia.
Qed.
Lemma bytes_at_snoc m a n : bytes_at m a (S n) = bytes_at m a n ++ [rd8 m (a + Z.of_nat n)].
Proof. unfold bytes_at. by rewrite seq_S, map_app. Qed.
Lemma bytes_at_take m a k n : (k ≤ n)%nat → take k (bytes_at m a n) = bytes_at m a k.
Proof. intros H. unfold bytes_at. rewrite firstn_map, take_seq. do 2 f_equal. lia. Qed.
Lemma bytes_at_ext m m' a n :
  (∀ x, a ≤ x < a + Z.of_nat n → rd8 m' x = rd8 m x) → bytes_at m' a n = bytes_at m a n.
Proof. intros H. apply map_ext_in. intros j Hj%in_seq. apply H. lia. Qed.

Lemma bytes_at_store m a l : Forall (λ v, 0 ≤ v < W8) l → bytes_at (store_bytes m a l) a (length l) = l.
Proof.
  revert m a. induction l as [|v l IH]; intros m a Hl; [done |]. apply Forall_cons in Hl as [Hv Hl].
  cbn [length]. rewrite bytes_at_S. cbn [store_bytes]. rewrite IH by done. f_equal.
  rewrite rd8_store_bytes_out by lia. rewrite rd8_wr8, Z.eqb_refl. by apply u8_id.
Qed.
Lemma bytes_at_bytes m a n : Forall (λ v, 0 ≤ v < W8) (bytes_at m a n).
Proof. apply Forall_forall. intros v (j & -> & _)%list_elem_of_fmap. apply rd8_range. Qed.

(** ** The queue as a list *)

Record queue_wf (q : ipc_queue) : Prop := {
  qw_len : length (msgs q) = 16%nat;
  qw_head : 0 ≤ head q < 16;
  qw_count : 0 ≤ count q ≤ 16;
  qw_tail : tail q = (head q + count q) mod 16;
  qw_msgs : Forall (λ m, 0 ≤ msg_size m ≤ 64 ∧ length (msg_data m) = 64%nat) (msgs q);
}.

(** A message as the receiver sees it: the sender and the bytes. *)
Definition view (m : ipc_msg) : Z * list Z := (sender_pid m, take (Z.to_nat (msg_size m)) (msg_data m)).

Definition contents (q : ipc_queue) : list (Z * list Z) :=
  map view (ring_list (msgs q) (head q) (Z.to_nat (count q))).

Lemma ipc_queue_init_spec q :
  length (msgs q) = 16%nat → Forall (λ m, 0 ≤ msg_size m ≤ 64 ∧ length (msg_data m) = 64%nat) (msgs q) →
  queue_wf (ipc_queue_init q) ∧ contents (ipc_queue_init q) = [].
Proof. intros H1 H2. split; [by constructor | done]. Qed.

Lemma contents_length q : queue_wf q → zlen (contents q) = count q.
Proof.
  intros Hwf. unfold contents. rewrite length_map, ring_list_length. pose proof (qw_count q Hwf). lia.
Qed.

(** Putting a message appends it to the list. *)
Lemma queue_put_spec sender size data q :
  queue_wf q → count q < 16 → zlen data = size → size ≤ 64 →
  queue_wf (queue_put sender size data q) ∧
  contents (queue_put sender size data q) = contents q ++ [(sender, data)].
Proof.
  intros [Hlen Hh Hc Ht Hm] Hlt Hd Hs.
  assert (Hrem : Z.rem (tail q + 1) 16 = (head q + (count q + 1)) mod 16).
  { rewrite Z.rem_mod_nonneg by (rewrite ?Ht; mlia). rewrite Ht, Zplus_mod_idemp_l. f_equal. lia. }
  assert (Hslot : length (msg_data (aget (msgs q) (tail q))) = 64%nat).
  { rewrite Forall_lookup in Hm. apply (Hm (Z.to_nat (tail q))). apply lookup_aget. rewrite Hlen, Ht. mlia. }
  unfold queue_put. split.
  - constructor; cbn [msgs head tail count]; [by rewrite aset_length | done | lia | done |].
    unfold aset. zcase; [done |]. apply Forall_insert; [done |]. cbn [msg_data msg_size]. split; [lia |].
    rewrite length_app, length_drop, Hslot. lia.
  - unfold contents. cbn [msgs head count]. replace (Z.to_nat (count q + 1)) with (S (Z.to_nat (count q))) by lia.
    rewrite Ht. replace (count q) with (Z.of_nat (Z.to_nat (count q))) at 1 by lia.
    change 16 with (Z.of_nat 16) at 1. rewrite <- Hlen, ring_push by lia.
    rewrite map_app. simpl. unfold view at 2. cbn [sender_pid msg_size msg_data].
    by rewrite <- Hd, Nat2Z.id, take_app_length.
Qed.

(** Taking a message removes the first one. *)
Lemma queue_take_spec q :
  queue_wf q → 0 < count q →
  queue_wf (queue_take q) ∧
  contents q = view (aget (msgs q) (head q)) :: contents (queue_take q).
Proof.
  intros [Hlen Hh Hc Ht Hm] Hlt. unfold queue_take. rewrite Z.rem_mod_nonneg by lia. split.
  - constructor; cbn [msgs head tail count]; [done | mlia | lia | | done].
    rewrite Ht, Zplus_mod_idemp_l. f_equal. lia.
  - unfold contents. cbn [msgs head count].
    replace (Z.to_nat (count q)) with (S (Z.to_nat (count q - 1))) by lia.
    rewrite ring_pop by (rewrite Hlen; lia). cbn [map]. by rewrite Hlen.
Qed.

(** ** Properties *)

Section theorems.
Context {Pg : Type} `{!PageAllocOps Pg}.
Implicit Types k : kernel Pg.

(** [i] is the first index whose process has the given id. *)
Definition first_with_pid k (target i : Z) (p : Process) : Prop :=
  0 ≤ i < process_count k ∧ proc_at k i = Some p ∧ pid p = target ∧
  ∀ j q, 0 ≤ j < i → proc_at k j = Some q → pid q ≠ target.

Lemma send_scan_run n i0 target data size k i p :
  first_with_pid k target i p → 0 ≤ i0 ≤ i → i < i0 + Z.of_nat n →
  send_scan n i0 target data size k = send_to (process_get i k) p data size k.
Proof.
  intros (Hi & Hp & Hpid & Hmin). revert i0. induction n as [|n IH]; intros i0 Hi0 Hn; [lia |].
  cbn [send_scan]. destruct (Z.eq_dec i0 i) as [-> | Hne].
  - rewrite Hp, Hpid, Z.eqb_refl. done.
  - destruct (proc_at k i0) as [q|] eqn:Hq; [| apply IH; lia].
    destruct (Z.eqb_spec (pid q) target) as [E | _]; [| apply IH; lia].
    by destruct (Hmin i0 q ltac:(lia) Hq).
Qed.

(** Sending keeps the table and the current process. *)
Lemma send_keeps_table target data size k r k' :
  ipc_send target data size k = (r, k') → same_table k k' ∧ current_process k' = current_process k.
Proof.
  assert (Hto : ∀ ptr p k0, same_table k0 (snd (send_to ptr p data size k0)) ∧
    current_process (snd (send_to ptr p data size k0)) = current_process k0).
  { intros ptr p k0. unfold send_to. repeat case_match; cbn [snd]; try done; split; try done;
      (etransitivity; [| apply same_table_upd]) || idtac; done. }
  assert (Hscan : ∀ n i k0, same_table k0 (snd (send_scan n i target data size k0)) ∧
    current_process (snd (send_scan n i target data size k0)) = current_process k0).
  { induction n as [|n IH]; intros i k0; cbn [send_scan]; [done |]. repeat case_match; auto. }
  unfold ipc_send. destruct (_ || _); [by intros [= <- <-] |]. intros E.
  specialize (Hscan (Z.to_nat (process_total k)) 0 k). by rewrite E in Hscan.
Qed.

(** So does receiving. *)
Lemma recv_keeps_table sender buf size k r k' :
  ipc_recv sender buf size k = (r, k') → same_table k k' ∧ current_process k' = current_process k.
Proof.
  unfold ipc_recv. intros E. repeat case_match; injection E as _ <-; try done; (split; [apply same_table_upd | done]) || done.
Qed.

(** Sending to the process with the given id. *)
Lemma ipc_send_run target data size k i p q :
  table_wf k → first_with_pid k target i p → queues k !! msg_queue p = Some q → queue_wf q →
  0 ≤ size < W32 →
  (data ≠ 0 ∧ 0 < size ≤ 64 ∧ state p ≠ TASK_DEAD ∧ count q < 16 ∧
   ∃ k' q', ipc_send target data size k = (0, k') ∧
     queues k' = <[msg_queue p := q']> (queues k) ∧ queue_wf q' ∧
     contents q' = contents q ++ [(current_pid k, bytes_at (mem (mach k)) data (Z.to_nat size))] ∧
     mach k' = mach k ∧ current_process k' = current_process k ∧
     (∀ j, 0 ≤ j < process_count k → proc_at k' j =
        if (j =? i) && bool_decide (state p = TASK_BLOCKED)
        then Some (set_state TASK_READY p) else proc_at k j)) ∨
  ((data = 0 ∨ size = 0 ∨ 64 < size ∨ state p = TASK_DEAD ∨ count q = 16) ∧
   ipc_send target data size k = (-1, k)).
Proof.
  intros Hwf Hfirst Hq Hqwf Hsz. pose proof Hfirst as (Hi & Hp & _). unfold ipc_send.
  destruct (Z.eqb_spec data 0); [right; split; [lia | done] |].
  destruct (Z.eqb_spec size 0); [right; split; [lia | done] |].
  destruct (Z.ltb_spec 64 size); [right; split; [lia | done] |]. cbn [orb].
  rewrite (send_scan_run _ 0 target data size k i p Hfirst) by (unfold process_total; lia).
  unfold send_to. destruct (decide (state p = TASK_DEAD)) as [Ed | Hd]; [right; split; [tauto | done] |].
  rewrite Hq. pose proof (qw_count q Hqwf).
  destruct (Z.leb_spec 16 (count q)) as [Hfull | Hroom].
  { right. assert (count q = 16) by lia. split; [tauto | done]. }
  left. split_and!; [done | lia | lia | done | lia |].
  destruct (queue_put_spec (current_pid k) size (bytes_at (mem (mach k)) data (Z.to_nat size)) q)
    as [Hwf' Hcont]; [done | lia | unfold bytes_at; rewrite length_map, length_seq; lia | lia |].
  set (k1 := with_queues _ k).
  assert (Hat : ∀ j, 0 ≤ j < process_count k → proc_at k1 j = proc_at k j) by done.
  assert (Hwf1 : table_wf k1) by (apply (table_wf_same k); [done | by split | apply Hwf]).
  destruct (decide (state p = TASK_BLOCKED)) as [Eb | Hb].
  - eexists _, _. split; [reflexivity |]. split_and!; try done.
    intros j Hj. rewrite bool_decide_true, andb_true_r by done.
    change (process_get i k) with (process_get i k1). rewrite proc_at_upd by done.
    destruct (Z.eqb_spec j i) as [-> |]; [| done]. change (proc_at k1 i) with (proc_at k i). by rewrite Hp.
  - eexists _, _. split; [reflexivity |]. split_and!; try done.
    intros j Hj. by rewrite bool_decide_false, andb_false_r by done.
Qed.

(** [ipc_send] to the process with the given id: a message of 1 to 64
    bytes for a live process whose queue has room is appended to the queue with
    the id of the sender, and a blocked receiver becomes ready; the other
    queues and processes are untouched. In every other case the result is -1
    and nothing changes. *)
Theorem ipc_send_spec target data size k i p q :
  table_wf k → first_with_pid k target i p → queues k !! msg_queue p = Some q → queue_wf q →
  0 ≤ size < W32 →
  (data ≠ 0 ∧ 0 < size ≤ 64 ∧ state p ≠ TASK_DEAD ∧ count q < 16 ∧
   ∃ k' q', ipc_send target data size k = (0, k') ∧
     queues k' = <[msg_queue p := q']> (queues k) ∧ queue_wf q' ∧
     contents q' = contents q ++ [(current_pid k, bytes_at (mem (mach k)) data (Z.to_nat size))] ∧
     mach k' = mach k ∧ current_process k' = current_process k ∧
     (∀ j, 0 ≤ j < process_count k → proc_at k' j =
        if (j =? i) && bool_decide (state p = TASK_BLOCKED)
        then Some (set_state TASK_READY p) else proc_at k j)) ∨
  ((data = 0 ∨ size = 0 ∨ 64 < size ∨ state p = TASK_DEAD ∨ count q = 16) ∧
   ipc_send target data size k = (-1, k)).
Proof. apply ipc_send_run. Qed.

(** Receiving by the current process. *)
Lemma ipc_recv_run sender buf size k i p q :
  table_wf k → current_process k = i → 0 ≤ i < process_count k → proc_at k i = Some p →
  queues k !! msg_queue p = Some q → queue_wf q →
  buf ≠ 0 → 0 < size →
  match contents q with
  | [] => ∃ k', ipc_recv sender buf size k = (0, k') ∧ queues k' = queues k ∧ mach k' = mach k ∧
      proc_at k' i = Some (set_state TASK_BLOCKED p) ∧ runnable k' i = false
  | (s, bytes) :: rest =>
      ∃ k' q', ipc_recv sender buf size k = (Z.min (zlen bytes) size, k') ∧
        queues k' = <[msg_queue p := q']> (queues k) ∧ queue_wf q' ∧ contents q' = rest ∧
        procs k' = procs k ∧
        mem (mach k') = store_bytes (if sender =? 0 then mem (mach k) else wr32 (mem (mach k)) sender s)
                          buf (take (Z.to_nat size) bytes)
  end.
Proof.
  intros Hwf Hcur Hi Hp Hq Hqwf Hbuf Hsize. unfold ipc_recv, scheduler_current_process.
  rewrite Hcur. destruct (Z.ltb_spec i 0); [lia |]. unfold proc_at in Hp. rewrite Hp.
  destruct (Z.eqb_spec buf 0); [done |]. destruct (Z.eqb_spec size 0); [lia |]. cbn [orb]. rewrite Hq.
  pose proof (contents_length q Hqwf) as Hlen. pose proof (qw_count q Hqwf) as Hc.
  destruct (Z.eqb_spec (count q) 0) as [E0 | Hne].
  - destruct (contents q) as [|c rest]; [| simpl in Hlen; lia].
    assert (Hat : proc_at (upd (process_get i k) (set_state TASK_BLOCKED) k) i = Some (set_state TASK_BLOCKED p)).
    { rewrite proc_at_upd, Z.eqb_refl by done. unfold proc_at. by rewrite Hp. }
    eexists. split_and!; try done. by rewrite runnable_proc_at, Hat.
  - destruct (queue_take_spec q Hqwf ltac:(lia)) as [Hwf' ->]. unfold view at 1.
    set (msg := aget (msgs q) (head q)).
    assert (Hmsg : 0 ≤ msg_size msg ≤ 64 ∧ length (msg_data msg) = 64%nat).
    { pose proof (qw_head q Hqwf). pose proof (qw_len q Hqwf). pose proof (qw_msgs q Hqwf) as Hmd.
      rewrite Forall_lookup in Hmd. pose proof (lookup_aget (msgs q) (head q) ltac:(lia)) as Hl.
      by apply (Hmd _ _ Hl). }
    destruct Hmsg as [Hs64 Hd64].
    assert (Ecopy : (if msg_size msg <? size then msg_size msg else size) =
      Z.min (zlen (take (Z.to_nat (msg_size msg)) (msg_data msg))) size).
    { rewrite length_take, Hd64. zcase; lia. }
    assert (Etake : take (Z.to_nat (Z.min (zlen (take (Z.to_nat (msg_size msg)) (msg_data msg))) size)) (msg_data msg) =
      take (Z.to_nat size) (take (Z.to_nat (msg_size msg)) (msg_data msg))).
    { rewrite take_take. f_equal. rewrite length_take, Hd64. lia. }
    rewrite Ecopy, Etake. eexists _, _. split; [reflexivity |]. split_and!; done.
Qed.

(** [ipc_recv] by the current process: with a message in the queue it
    takes the oldest one, stores as much of it as fits in the buffer and the
    id of its sender, and returns the number of bytes; with an empty queue it
    returns 0 and blocks the process. *)
Theorem ipc_recv_spec sender buf size k i p q :
  table_wf k → current_process k = i → 0 ≤ i < process_count k → proc_at k i = Some p →
  queues k !! msg_queue p = Some q → queue_wf q →
  buf ≠ 0 → 0 < size →
  match contents q with
  | [] => ∃ k', ipc_recv sender buf size k = (0, k') ∧ queues k' = queues k ∧ mach k' = mach k ∧
      proc_at k' i = Some (set_state TASK_BLOCKED p) ∧ runnable k' i = false
  | (s, bytes) :: rest =>
      ∃ k' q', ipc_recv sender buf size k = (Z.min (zlen bytes) size, k') ∧
        queues k' = <[msg_queue p := q']> (queues k) ∧ queue_wf q' ∧ contents q' = rest ∧
        procs k' = procs k ∧
        mem (mach k') = store_bytes (if sender =? 0 then mem (mach k) else wr32 (mem (mach k)) sender s)
                          buf (take (Z.to_nat size) bytes)
  end.
Proof. apply ipc_recv_run. Qed.
End theorems.

(** Sending and receiving on one queue: what was accepted and what was
    delivered, in order. *)
Inductive queue_run : ipc_queue → list (Z * list Z) → list (Z * list Z) → Prop :=
| run_init q :
    length (msgs q) = 16%nat → Forall (λ m, 0 ≤ msg_size m ≤ 64 ∧ length (msg_data m) = 64%nat) (msgs q) →
    queue_run (ipc_queue_init q) [] []
| run_put q sent got sender data :
    queue_run q sent got → count q < 16 → 0 < zlen data ≤ 64 →
    queue_run (queue_put sender (zlen data) data q) (sent ++ [(sender, data)]) got
| run_take q sent got :
    queue_run q sent got → 0 < count q →
    queue_run (queue_take q) sent (got ++ [view (aget (msgs q) (head q))]).

(** C13: a queue delivers every accepted message exactly once, unchanged and in
    the order of sending, and holds at most 16 messages. *)
Theorem ipc_fifo q sent got :
  queue_run q sent got → queue_wf q ∧ sent = got ++ contents q ∧ (length sent ≤ length got + 16)%nat.
Proof.
  intros Hrun.
  assert (Hinv : queue_wf q ∧ sent = got ++ contents q).
  { induction Hrun as [q Hl Hm | q sent got sender data _ [Hwf ->] Hc Hd | q sent got _ [Hwf ->] Hc].
    - by apply ipc_queue_init_spec.
    - destruct (queue_put_spec sender (zlen data) data q) as [Hwf' ->]; [done | done | done | lia |].
      split; [done |]. by rewrite app_assoc.
    - destruct (queue_take_spec q Hwf Hc) as [Hwf' ->]. split; [done |]. by rewrite <- app_assoc. }
  destruct Hinv as [Hwf ->]. split_and!; [done | done |]. rewrite length_app.
  pose proof (contents_length q Hwf). pose proof (qw_count q Hwf). lia.
Qed.

(** ** Witnesses *)

Import Pmm.

Definition empty_queue : ipc_queue := mkQueue (replicate 16 (mkMsg 0 0 (replicate 64 0))) 0 0 0.

(** Two processes with queues; the first runs, the second is blocked. Memory
    holds the bytes 72 and 105 at address 0x7000. *)
Definition two_peers (cur : Z) : kernel Pmm.pmm :=
  let proc i st q := mkProcess (i + 1) 1 st RING_KERNEL 4194304 0 0 0 0 0 0 0 0 q in
  mkKernel (mkMachine (store_bytes ∅ 0x7000 [72; 105]) (Pmm.pmm_init 8) 0 0 0 0 0 [] 0)
    (<[0x5000 := proc 0 TASK_RUNNING 0x5800]> (<[0x5100 := proc 1 TASK_BLOCKED 0x5900]> ∅))
    ([0x5000; 0x5100] ++ replicate 14 0) 2 3 cur
    (<[0x5800 := empty_queue]> (<[0x5900 := empty_queue]> ∅)) 0.

Lemma two_peers_wf cur : -1 ≤ cur → table_wf (two_peers cur).
Proof.
  intros Hc. assert (Hcase : ∀ i, 0 ≤ i < 2 → i = 0 ∨ i = 1) by lia.
  constructor; cbn [process_count current_process two_peers process_table]; try done; try lia.
  - intros i Hi. destruct (Hcase i Hi) as [-> | ->]; by eexists.
  - intros i j Hi Hj. destruct (Hcase i Hi) as [-> | ->], (Hcase j Hj) as [-> | ->]; done.
Qed.

Lemma empty_queue_wf : queue_wf empty_queue.
Proof. constructor; cbn [msgs head count tail empty_queue]; try done; try lia. by apply Forall_replicate. Qed.

Lemma ipc_send_spec_witness :
  ∃ k' q', ipc_send 2 0x7000 2 (two_peers 0) = (0, k') ∧ queues k' !! 0x5900 = Some q' ∧
    contents q' = [(1, [72; 105])] ∧ runnable k' 1 = true.
Proof.
  destruct (ipc_send_spec 2 0x7000 2 (two_peers 0) 1
    (mkProcess 2 1 TASK_BLOCKED RING_KERNEL 4194304 0 0 0 0 0 0 0 0 0x5900) empty_queue)
    as [(_ & _ & _ & _ & k' & q' & E & Eq & _ & Ec & _ & _ & Hat) | [Hbad _]].
  - apply two_peers_wf. lia.
  - split; [cbn; lia |]. split; [reflexivity |]. split; [reflexivity |]. intros j q Hj Hq.
    assert (j = 0) as -> by lia. vm_compute in Hq. injection Hq as <-. discriminate.
  - reflexivity.
  - apply empty_queue_wf.
  - lia.
  - exists k', q'. split; [exact E |]. split; [rewrite Eq; apply lookup_insert_eq |].
    split; [rewrite Ec; vm_compute; reflexivity |].
    rewrite runnable_proc_at, Hat by (cbn; lia). reflexivity.
  - destruct Hbad as [? | [? | [? | [? | ?]]]]; discriminate || lia.
Defined.

Lemma ipc_recv_spec_witness :
  ∃ k', ipc_recv 0 0x7100 64 (two_peers 0) = (0, k') ∧ runnable k' 0 = false.
Proof.
  destruct (ipc_recv_spec 0 0x7100 64 (two_peers 0) 0
    (mkProcess 1 1 TASK_RUNNING RING_KERNEL 4194304 0 0 0 0 0 0 0 0 0x5800) empty_queue)
    as (k' & E & _ & _ & _ & Hr).
  - apply two_peers_wf. lia.
  - reflexivity.
  - cbn. lia.
  - reflexivity.
  - reflexivity.
  - apply empty_queue_wf.
  - discriminate.
  - lia.
  - exists k'. split; [exact E | exact Hr].
Defined.

Lemma ipc_fifo_witness :
  contents (queue_take (queue_put 3 1 [9] (queue_put 1 2 [7; 8] (ipc_queue_init empty_queue)))) = [(3, [9])].
Proof.
  destruct (ipc_fifo (queue_take (queue_put 3 1 [9] (queue_put 1 2 [7; 8] (ipc_queue_init empty_queue))))
    [(1, [7; 8]); (3, [9])] [(1, [7; 8])]) as (_ & E & _).
  - apply (run_take (queue_put 3 1 [9] (queue_put 1 2 [7; 8] (ipc_queue_init empty_queue))) _ []); [| reflexivity].
    apply (run_put (queue_put 1 2 [7; 8] (ipc_queue_init empty_queue)) [(1, [7; 8])] [] 3 [9]);
      [| reflexivity | cbn; lia].
    apply (run_put (ipc_queue_init empty_queue) [] [] 1 [7; 8]); [| reflexivity | cbn; lia].
    apply run_init; [reflexivity |]. apply Forall_replicate. split; [cbn; lia | reflexivity].
  - symmetry. exact (app_inv_head [(1, [7; 8])] [(3, [9])] _ E).
Defined.
End Ipc.
