(* ===== verification/Keyboard.v ===== *)
(** * The keyboard: [drivers/keyboard.cpp], [drivers/keyboard_buffer.cpp] and
    [interrupts/keyboard_irq.cpp]

    Scancodes of set 1 are turned into characters under the state of the
    modifier keys, and the characters wait in a ring of 256 bytes until a
    process reads them. *)

From Stdlib Require Import String Ascii.
From S2P Require Import Prelude Ring.

Module Keyboard.

(** ** Scancodes *)

Notation SC_SHIFT_L := 0x2A (only parsing).
Notation SC_SHIFT_R := 0x36 (only parsing).
Notation SC_CTRL_L := 0x1D (only parsing).
Notation SC_ALT_L := 0x38 (only parsing).
Notation SC_CAPS := 0x3A (only parsing).

Record kbd := mkKbd {
  shift_pressed : bool;
  ctrl_pressed : bool;
  alt_pressed : bool;
  caps_lock : bool;
}.

(** The codes of the characters of a string. *)
Definition codes (s : string) : list Z :=
  map (λ c, Z.of_N (N_of_ascii c)) (list_ascii_of_string s).

(** Array initialisers are padded with zeros to 128 entries. *)
Definition table (l : list Z) : list Z := l ++ replicate (128 - length l)%nat 0.

Definition lower : list Z := table
  ([0; 27] ++ codes "1234567890-=" ++ [8; 9] ++ codes "qwertyuiop[]" ++ [10; 0] ++
   codes "asdfghjkl;'`" ++ [0] ++ codes "\zxcvbnm,./" ++ [0] ++ codes "*" ++ [0] ++ codes " " ++ [0]).

Definition upper : list Z := table
  ([0; 27] ++ codes "!@#$%^&*()_+" ++ [8; 9] ++ codes "QWERTYUIOP{}" ++ [10; 0] ++
   codes "ASDFGHJKL:" ++ [34] ++ codes "~" ++ [0] ++ codes "|ZXCVBNM<>?" ++ [0] ++ codes "*" ++ [0] ++
   codes " " ++ [0]).

(** The branch for key releases, lines 88 to 102. *)
Definition release (mk : Z) (s : kbd) : kbd :=
  let s := if (mk =? SC_SHIFT_L) || (mk =? SC_SHIFT_R)
           then mkKbd false (ctrl_pressed s) (alt_pressed s) (caps_lock s) else s in
  let s := if mk =? SC_CTRL_L
           then mkKbd (shift_pressed s) false (alt_pressed s) (caps_lock s) else s in
  if mk =? SC_ALT_L then mkKbd (shift_pressed s) (ctrl_pressed s) false (caps_lock s) else s.

(** The result 0 means that there is no character. *)
Definition keyboard_scancode_to_ascii (scancode : Z) (s : kbd) : Z * kbd :=
  if negb (Z.land scancode 0x80 =? 0) then (0, release (Z.land scancode 0x7F) s)
  else if scancode =? SC_CAPS then
    (0, mkKbd (shift_pressed s) (ctrl_pressed s) (alt_pressed s) (negb (caps_lock s)))
  else if (scancode =? SC_SHIFT_L) || (scancode =? SC_SHIFT_R) then
    (0, mkKbd true (ctrl_pressed s) (alt_pressed s) (caps_lock s))
  else if scancode =? SC_CTRL_L then
    (0, mkKbd (shift_pressed s) true (alt_pressed s) (caps_lock s))
  else if scancode =? SC_ALT_L then
    (0, mkKbd (shift_pressed s) (ctrl_pressed s) true (caps_lock s))
  else if 128 <=? scancode then (0, s)
  else
    let shift := shift_pressed s || caps_lock s in
    (if shift then aget upper scancode else aget lower scancode, s).

Definition keyboard_init : kbd := mkKbd false false false false.

(** ** The buffer *)

Record kbuf := mkKbuf { buffer : list Z; head : Z; tail : Z }.

Definition keyboard_buffer_push (c : Z) (b : kbuf) : kbuf :=
  let next := Z.rem (head b + 1) 256 in
  if next =? tail b then b
  else mkKbuf (aset (buffer b) (head b) c) next (tail b).

(** [None] is the result [false]. *)
Definition keyboard_buffer_pop (b : kbuf) : option (Z * kbuf) :=
  if tail b =? head b then None
  else Some (aget (buffer b) (tail b), mkKbuf (buffer b) (head b) (Z.rem (tail b + 1) 256)).

(** The interrupt handler: the scancode it reads from port 0x60. *)
Definition keyboard_irq_handler (scancode : Z) (c : kbd * kbuf) : kbd * kbuf :=
  let '(ch, s) := keyboard_scancode_to_ascii scancode (fst c) in
  (s, if ch =? 0 then snd c else keyboard_buffer_push ch (snd c)).

(** ** The buffer as a queue *)

Record kbuf_wf (b : kbuf) : Prop := {
  kb_len : length (buffer b) = 256%nat;
  kb_head : 0 ≤ head b < 256;
  kb_tail : 0 ≤ tail b < 256;
}.

Definition pending (b : kbuf) : list Z :=
  ring_list (buffer b) (tail b) (Z.to_nat ((head b - tail b) mod 256)).

(** A push appends the character unless 255 are waiting. *)
Lemma push_spec c b :
  kbuf_wf b →
  kbuf_wf (keyboard_buffer_push c b) ∧
  pending (keyboard_buffer_push c b) =
    if bool_decide (length (pending b) < 255)%nat then pending b ++ [c] else pending b.
Proof.
  intros [Hl Hh Ht]. unfold keyboard_buffer_push. rewrite Z.rem_mod_nonneg by lia.
  assert (Hlen : length (pending b) = Z.to_nat ((head b - tail b) mod 256)) by apply ring_list_length.
  pose proof (Z.mod_pos_bound (head b - tail b) 256 ltac:(lia)) as Hm.
  destruct (Z.eqb_spec ((head b + 1) mod 256) (tail b)) as [E | Hne].
  - split; [done |]. rewrite bool_decide_false; [done |]. rewrite Hlen. mlia.
  - split; [constructor; cbn [buffer head tail]; [by rewrite aset_length | mlia | done] |].
    assert (Hlt : (head b - tail b) mod 256 < 255) by mlia.
    rewrite bool_decide_true by lia. unfold pending. cbn [buffer head tail].
    replace (Z.to_nat (((head b + 1) mod 256 - tail b) mod 256))
      with (S (Z.to_nat ((head b - tail b) mod 256))) by mlia.
    rewrite <- ring_push by lia. do 2 f_equal. rewrite Hl, Z2Nat.id by lia.
    rewrite Zplus_mod_idemp_r. replace (tail b + (head b - tail b)) with (head b) by lia.
    symmetry. apply Z.mod_small. lia.
Qed.

(** A pop returns the oldest character. *)
Lemma pop_spec b :
  kbuf_wf b →
  match pending b with
  | [] => keyboard_buffer_pop b = None
  | c :: rest => ∃ b', keyboard_buffer_pop b = Some (c, b') ∧ kbuf_wf b' ∧ pending b' = rest
  end.
Proof.
  intros [Hl Hh Ht]. unfold keyboard_buffer_pop, pending. rewrite Z.rem_mod_nonneg by lia.
  destruct (Z.eqb_spec (tail b) (head b)) as [E | Hne].
  - by rewrite E, Z.sub_diag.
  - replace (Z.to_nat ((head b - tail b) mod 256)) with (S (Z.to_nat ((head b - tail b) mod 256 - 1))) by mlia.
    rewrite ring_pop by (rewrite Hl; lia). eexists. split; [reflexivity |]. cbn [buffer head tail].
    split; [constructor; cbn [buffer head tail]; [done | done | mlia] |]. rewrite Hl. f_equal. mlia.
Qed.

(** ** The driver refines a bounded queue *)

(** A key event of the hardware, or an attempt to read a character. *)
Inductive event := Key (scancode : Z) | Read.

(** The driver: the results of the reads, in order. *)
Fixpoint run (evs : list event) (s : kbd) (b : kbuf) : list (option Z) :=
  match evs with
  | [] => []
  | Key sc :: evs => let '(s, b) := keyboard_irq_handler sc (s, b) in run evs s b
  | Read :: evs =>
      match keyboard_buffer_pop b with
      | Some (c, b) => Some c :: run evs s b
      | None => None :: run evs s b
      end
  end.

(** The specification: a list of at most 255 characters; a key is lost only
    when the list is full. *)
Fixpoint run_spec (evs : list event) (s : kbd) (l : list Z) : list (option Z) :=
  match evs with
  | [] => []
  | Key sc :: evs =>
      let '(ch, s) := keyboard_scancode_to_ascii sc s in
      run_spec evs s
        (if (ch =? 0) || bool_decide (255 ≤ length l)%nat then l else l ++ [ch])
  | Read :: evs =>
      match l with
      | c :: l => Some c :: run_spec evs s l
      | [] => None :: run_spec evs s []
      end
  end.

(** C38: for every interleaving of key events and reads the driver returns what
    a first-in-first-out list of at most 255 characters returns. *)
Theorem keyboard_refines_queue evs s b :
  kbuf_wf b → run evs s b = run_spec evs s (pending b).
Proof.
  revert s b. induction evs as [|[sc|] evs IH]; intros s b Hwf; [done | |]; cbn [run run_spec].
  - unfold keyboard_irq_handler. cbn [fst snd]. destruct (keyboard_scancode_to_ascii sc s) as [ch s'].
    destruct (Z.eqb_spec ch 0) as [-> | Hne]; cbn [orb]; [by apply IH |].
    destruct (push_spec ch b Hwf) as [Hwf' Hp]. rewrite (IH s' _ Hwf'), Hp. f_equal.
    by repeat case_bool_decide; try lia.
  - pose proof (pop_spec b Hwf) as Hpop. destruct (pending b) as [|c rest] eqn:Hb.
    + rewrite Hpop. f_equal. by rewrite (IH s b Hwf), Hb.
    + destruct Hpop as (b' & -> & Hwf' & <-). f_equal. by apply IH.
Qed.

(** Press shift, press [h], release shift, press [i], and read three times. *)
Lemma keyboard_refines_queue_witness :
  run [Key 0x2A; Key 0x23; Key 0xAA; Key 0x17; Read; Read; Read] keyboard_init
    (mkKbuf (replicate 256 0) 250 250) = [Some 72; Some 105; None].
Proof.
  rewrite keyboard_refines_queue; [vm_compute; reflexivity |].
  constructor; cbn [buffer head tail]; [reflexivity | lia | lia].
Defined.
End Keyboard.
