(* ===== verification/Ports.v ===== *)
(** * I/O ports

    The instructions that [arch/x86/ports.cpp] wraps. What answers on a port
    is hardware: the class [PortIO] stands for it, with a state that a read
    may change. The drivers are written against the class; [buslog] is an
    instance for concrete runs, which records what was written and answers
    with what a given function says. [Asm] has the wrappers down to the
    registers of the instructions. *)

From S2P Require Import Prelude.

Class PortIO (D : Type) := {
  inb : Z → D → Z * D;
  outb : Z → Z → D → D;
  inw : Z → D → Z * D;
  outw : Z → Z → D → D;
  inl : Z → D → Z * D;
  outl : Z → Z → D → D;
}.

(** [while((inb(port) & mask) != want) ;] and the like: poll a port until a
    test holds; the device may never answer, so the loop takes fuel. *)
Fixpoint poll_port {D} `{!PortIO D} (fuel : nat) (port : Z) (ok : Z → bool) (d : D) : outcome D :=
  match fuel with
  | O => NoFuel
  | S f => let '(v, d) := inb port d in if ok v then Ok d else poll_port f port ok d
  end.

Lemma poll_port_ready {D} `{!PortIO D} fuel port ok (d : D) :
  (0 < fuel)%nat → ok (fst (inb port d)) = true → poll_port fuel port ok d = Ok (snd (inb port d)).
Proof. intros Hf Hok. destruct fuel; [lia |]. cbn [poll_port]. destruct (inb port d). simpl in Hok. by rewrite Hok. Qed.

(** ** A bus that records what is written *)

(** [answer] gives what a read of each port returns. *)
Record buslog (answer : Z → Z) := mkBus { written : list (Z * Z) }.
Arguments mkBus {answer} _.
Arguments written {answer} _.
Definition log {answer} (p v : Z) (b : buslog answer) : buslog answer := mkBus (written b ++ [(p, v)]).

#[export] Instance buslog_io answer : PortIO (buslog answer) := {
  inb p b := (u8 (answer p), b);
  outb := log;
  inw p b := (u16 (answer p), b);
  outw := log;
  inl p b := (u32 (answer p), b);
  outl := log;
}.

(** The values written to one port, in order. *)
Definition sent_to (p : Z) (l : list (Z * Z)) : list Z := (filter (λ w, w.1 = p) l).*2.

Lemma sent_to_app p l l' : sent_to p (l ++ l') = sent_to p l ++ sent_to p l'.
Proof. unfold sent_to. by rewrite filter_app, fmap_app. Qed.
