(* ===== verification/Terminal.v ===== *)
(** * The text terminal: [terminal.cpp]

    The VGA text buffer is a list of 16-bit cells; the serial line and the
    cursor registers are behind the I/O ports. The abstract view is an
    unbounded paper of lines of 80 cells: the screen shows its last 25. *)

From S2P Require Import Prelude Ports.

Module Terminal.

Notation WIDTH := 80 (only parsing).
Notation HEIGHT := 25 (only parsing).
Notation COM1 := 0x3F8 (only parsing).
Notation NEWLINE := 10 (only parsing).
Notation BACKSPACE := 8 (only parsing).
Notation SPACE := 32 (only parsing).

Definition color : Z := 0x07.

(** [char] is signed: the conversion to [uint16_t] extends the sign. *)
Definition entry (c : Z) : Z := Z.lor (u16 (s8 c)) (Z.shiftl color 8).

Record terminal (D : Type) := mkTerm { buffer : list Z; row : Z; col : Z; ports : D }.
Arguments mkTerm {D} _ _ _ _.
Arguments buffer {D} _.
Arguments row {D} _.
Arguments col {D} _.
Arguments ports {D} _.

(** ** The screen as the code updates it *)

Definition clear_cells (b : list Z) : list Z :=
  loop_n 25 0 (λ y, loop_n 80 0 (λ x b, aset b (y * WIDTH + x) (entry SPACE))) b.

Definition scroll_cells (b : list Z) : list Z :=
  let b := loop_n 24 1 (λ y, loop_n 80 0 (λ x b, aset b ((y - 1) * WIDTH + x) (aget b (y * WIDTH + x)))) b in
  loop_n 80 0 (λ x b, aset b ((HEIGHT - 1) * WIDTH + x) (entry SPACE)) b.

Section terminal.
Context {D : Type} `{!PortIO D}.
Implicit Types (t : terminal D) (d : D).

Definition with_ports d t : terminal D := mkTerm (buffer t) (row t) (col t) d.

Definition serial_init d : D :=
  let d := outb (COM1 + 1) 0x00 d in
  let d := outb (COM1 + 3) 0x80 d in
  let d := outb (COM1 + 0) 0x03 d in
  let d := outb (COM1 + 1) 0x00 d in
  let d := outb (COM1 + 3) 0x03 d in
  outb (COM1 + 2) 0xC7 d.

Definition line_ready (v : Z) : bool := negb (Z.land v 0x20 =? 0).
Definition serial_putchar (fuel : nat) (c : Z) d : outcome D :=
  let! d := poll_port fuel (COM1 + 5) line_ready d in
  let d := outb COM1 (u8 c) d in
  if c =? NEWLINE then
    let! d := poll_port fuel (COM1 + 5) line_ready d in
    Ok (outb COM1 13 d)
  else Ok d.

Definition update_cursor t : terminal D :=
  let pos := row t * WIDTH + col t in
  let d := outb 0x3D4 0x0F (ports t) in
  let d := outb 0x3D5 (u8 (Z.land pos 0xFF)) d in
  let d := outb 0x3D4 0x0E d in
  with_ports (outb 0x3D5 (u8 (Z.land (Z.shiftr pos 8) 0xFF)) d) t.

Definition clear t : terminal D := update_cursor (mkTerm (clear_cells (buffer t)) 0 0 (ports t)).
Definition scroll t : terminal D := mkTerm (scroll_cells (buffer t)) (HEIGHT - 1) (col t) (ports t).

Definition init (fuel : nat) t : outcome (terminal D) :=
  let t := clear (mkTerm (buffer t) 0 0 (ports t)) in
  let! d := serial_putchar fuel NEWLINE (serial_init (ports t)) in
  Ok (with_ports d t).

(** The cell and cursor changes of [putchar] before the line checks. *)
Definition place (c : Z) t : terminal D :=
  if c =? NEWLINE then mkTerm (buffer t) (row t + 1) 0 (ports t)
  else if c =? BACKSPACE then
    let col := if 0 <? col t then col t - 1 else col t in
    mkTerm (aset (buffer t) (row t * WIDTH + col) (entry SPACE)) (row t) col (ports t)
  else mkTerm (aset (buffer t) (row t * WIDTH + col t) (entry c)) (row t) (col t + 1) (ports t).

Definition putchar (fuel : nat) (c : Z) t : outcome (terminal D) :=
  let! d := serial_putchar fuel c (ports t) in
  let t := place c (with_ports d t) in
  let t := if WIDTH <=? col t then mkTerm (buffer t) (row t + 1) 0 (ports t) else t in
  let t := if HEIGHT <=? row t then scroll t else t in
  Ok (update_cursor t).

(** The list holds the characters of the string up to its terminator. *)
Fixpoint write (fuel : nat) (str : list Z) t : outcome (terminal D) :=
  match str with
  | [] => Ok t
  | c :: rest => if c =? 0 then Ok t else let! t := putchar fuel c t in write fuel rest t
  end.

Definition backspace (fuel : nat) t : outcome (terminal D) := putchar fuel BACKSPACE t.
End terminal.

(** ** Loops that fill a range of cells *)

(** [g] may read the cells, but only outside the range that is filled. *)
Lemma loop_fill n base (g : Z → list Z → Z) b :
  0 ≤ base → base + Z.of_nat n ≤ zlen b →
  (∀ x b', 0 ≤ x < Z.of_nat n → (∀ i, i < base ∨ base + Z.of_nat n ≤ i → aget b' i = aget b i) → g x b' = g x b) →
  let b' := loop_n n 0 (λ x b, aset b (base + x) (g x b)) b in
  length b' = length b ∧
  ∀ i, aget b' i = if (base <=? i) && (i <? base + Z.of_nat n) then g (i - base) b else aget b i.
Proof.
  intros Hb Hn Hg. cbv zeta.
  assert (H : let b' := loop_n n 0 (λ x b, aset b (base + x) (g x b)) b in
    length b' = length b ∧
    ∀ i, aget b' i = if (base <=? i) && (i <? base + (0 + Z.of_nat n)) then g (i - base) b else aget b i);
    [| by rewrite Z.add_0_l in H].
  apply (loop_n_ind (λ k b', length b' = length b ∧
    ∀ i, aget b' i = if (base <=? i) && (i <? base + k) then g (i - base) b else aget b i)).
  - split; [done |]. intros i. destruct (Z.leb_spec base i), (Z.ltb_spec i (base + 0)); simpl; try done. lia.
  - intros k b' Hk [Hl Hget]. rewrite aset_length. split; [done |]. intros i.
    destruct (Z.eq_dec i (base + k)) as [-> |Hne].
    + rewrite aget_aset_eq by lia. rewrite (Hg k b'); [| lia |].
      * destruct (Z.leb_spec base (base + k)), (Z.ltb_spec (base + k) (base + (k + 1))); simpl; try lia.
        f_equal. lia.
      * intros j Hj. rewrite Hget. destruct (Z.leb_spec base j), (Z.ltb_spec j (base + k)); simpl; try done. lia.
    + rewrite aget_aset_ne by done. rewrite Hget.
      destruct (Z.leb_spec base i), (Z.ltb_spec i (base + k)), (Z.ltb_spec i (base + (k + 1))); simpl; try done; lia.
Qed.

Notation cells_ok b := (length b = 2000%nat) (only parsing).

Lemma clear_cells_spec b :
  cells_ok b → cells_ok (clear_cells b) ∧ ∀ i, 0 ≤ i < 2000 → aget (clear_cells b) i = entry SPACE.
Proof.
  intros Hl. unfold clear_cells.
  assert (H : let b' := loop_n 25 0 (λ y, loop_n 80 0 (λ x b, aset b (y * WIDTH + x) (entry SPACE))) b in
    cells_ok b' ∧ ∀ i, 0 ≤ i < (0 + Z.of_nat 25) * 80 → aget b' i = entry SPACE);
    [| exact H].
  apply (loop_n_ind (λ k b', cells_ok b' ∧ ∀ i, 0 ≤ i < k * 80 → aget b' i = entry SPACE));
    [split; [done | lia] |].
  intros k b' Hk [Hl' Hget].
  destruct (loop_fill 80 (k * 80) (λ _ _, entry SPACE) b') as [Hlen Hfill]; [lia | lia | done |].
  split; [by rewrite Hlen |]. intros i Hi. rewrite Hfill.
  destruct (Z.leb_spec (k * 80) i), (Z.ltb_spec i (k * 80 + Z.of_nat 80)); simpl; try done; apply Hget; lia.
Qed.

Lemma scroll_cells_spec b :
  cells_ok b → cells_ok (scroll_cells b) ∧
  ∀ i, 0 ≤ i < 2000 → aget (scroll_cells b) i = if i <? 1920 then aget b (i + 80) else entry SPACE.
Proof.
  intros Hl. unfold scroll_cells.
  set (b1 := loop_n 24 1 _ b).
  assert (H1 : cells_ok b1 ∧ ∀ i, 0 ≤ i < 2000 →
    aget b1 i = if i <? (1 + Z.of_nat 24 - 1) * 80 then aget b (i + 80) else aget b i).
  { unfold b1. apply (loop_n_ind (λ k b', cells_ok b' ∧ ∀ i, 0 ≤ i < 2000 →
      aget b' i = if i <? (k - 1) * 80 then aget b (i + 80) else aget b i)).
    - split; [done |]. intros i Hi. destruct (Z.ltb_spec i ((1 - 1) * 80)); [lia | done].
    - intros k b' Hk [Hl' Hget].
      destruct (loop_fill 80 ((k - 1) * 80) (λ x b, aget b (k * 80 + x)) b') as [Hlen Hfill]; [lia | lia | |].
      { intros x b'' Hx Hout. apply Hout. lia. }
      split; [by rewrite Hlen |]. intros i Hi. rewrite Hfill. replace (k + 1 - 1) with k by lia.
      destruct (Z.leb_spec ((k - 1) * 80) i), (Z.ltb_spec i ((k - 1) * 80 + Z.of_nat 80)),
        (Z.ltb_spec i (k * 80)); cbn [andb]; try lia; rewrite Hget by lia.
      + destruct (Z.ltb_spec (k * 80 + (i - (k - 1) * 80)) ((k - 1) * 80)); [lia |]. f_equal. lia.
      + by destruct (Z.ltb_spec i ((k - 1) * 80)); [lia |].
      + by destruct (Z.ltb_spec i ((k - 1) * 80)); [| lia]. }
  clearbody b1. destruct H1 as [Hl1 Hget1].
  destruct (loop_fill 80 ((HEIGHT - 1) * WIDTH) (λ _ _, entry SPACE) b1) as [Hlen Hfill]; [lia | lia | done |].
  split; [by rewrite Hlen |]. intros i Hi. rewrite Hfill, Hget1 by lia.
  change (Z.of_nat 80) with 80. change ((HEIGHT - 1) * WIDTH) with 1920. change ((1 + Z.of_nat 24 - 1) * 80) with 1920.
  destruct (Z.leb_spec 1920 i), (Z.ltb_spec i (1920 + 80)), (Z.ltb_spec i 1920); cbn [andb]; done || lia.
Qed.

(** ** The paper behind the screen *)

Record paper := mkPaper { cells : Z → Z; prow : Z; pcol : Z }.
Definition blank_paper : paper := mkPaper (λ _, entry SPACE) 0 0.
Definition pset (f : Z → Z) (i v : Z) : Z → Z := λ j, if j =? i then v else f j.

(** Writing on paper: lines never leave it. *)
Definition paper_put (p : paper) (c : Z) : paper :=
  if c =? NEWLINE then mkPaper (cells p) (prow p + 1) 0
  else if c =? BACKSPACE then
    let x := Z.max 0 (pcol p - 1) in mkPaper (pset (cells p) (prow p * WIDTH + x) (entry SPACE)) (prow p) x
  else
    let f := pset (cells p) (prow p * WIDTH + pcol p) (entry c) in
    if pcol p =? WIDTH - 1 then mkPaper f (prow p + 1) 0 else mkPaper f (prow p) (pcol p + 1).

(** The screen shows the last 25 lines up to the one being written, or the
    first 25. *)
Definition top_line (p : paper) : Z := Z.max 0 (prow p - (HEIGHT - 1)).

Record shows {D} (t : terminal D) (p : paper) : Prop := {
  sh_len : cells_ok (buffer t);
  sh_row : row t = prow p - top_line p;
  sh_prow : 0 ≤ prow p;
  sh_col : col t = pcol p;
  sh_pcol : 0 ≤ pcol p < WIDTH;
  sh_cells : ∀ i, 0 ≤ i < 2000 → aget (buffer t) i = cells p (top_line p * WIDTH + i);
  sh_blank : ∀ i, (prow p + 1) * WIDTH ≤ i → cells p i = entry SPACE;
}.

Section theorems.
Context {D : Type} `{!PortIO D}.
Implicit Types (t : terminal D) (d : D).

(** The line status register always says that a byte can be sent. *)
Class SerialReady : Prop := serial_ready : ∀ d, line_ready (fst (inb (COM1 + 5) d)) = true.
Context `{!SerialReady}.

Lemma serial_putchar_ok fuel c d : (0 < fuel)%nat → ∃ d', serial_putchar fuel c d = Ok d'.
Proof.
  intros Hf. unfold serial_putchar. rewrite poll_port_ready by auto. cbn [obind].
  destruct (c =? NEWLINE); [| by eexists]. rewrite poll_port_ready by auto. by eexists.
Qed.

(** A line break: the screen scrolls when the paper leaves it. *)
Lemma shows_newline t p f d :
  cells_ok (buffer t) → row t = prow p - top_line p → 0 ≤ prow p →
  (∀ i, 0 ≤ i < 2000 → aget (buffer t) i = f (top_line p * WIDTH + i)) →
  (∀ i, (prow p + 1) * WIDTH ≤ i → f i = entry SPACE) →
  let t' := mkTerm (buffer t) (row t + 1) 0 d in
  shows (update_cursor (if HEIGHT <=? row t + 1 then scroll t' else t')) (mkPaper f (prow p + 1) 0).
Proof.
  intros Hl Hr Hp Hc Hbl. cbv zeta. unfold top_line in *.
  destruct (scroll_cells_spec (buffer t) Hl) as [Hl' Hs]. unfold scroll. cbn [buffer].
  revert Hl' Hs. generalize (scroll_cells (buffer t)) as b'. intros b' Hl' Hs.
  destruct (Z.leb_spec HEIGHT (row t + 1)); constructor; unfold top_line; cbn [update_cursor with_ports buffer row col prow pcol cells]; try done; try lia.
  - intros i Hi. rewrite Hs by done. destruct (Z.ltb_spec i 1920).
    + rewrite Hc by lia. f_equal. lia.
    + symmetry. apply Hbl. lia.
  - intros i Hi. apply Hbl. lia.
  - intros i Hi. rewrite Hc by lia. f_equal. lia.
  - intros i Hi. apply Hbl. lia.
Qed.

(** A cell written on the paper and at its place on the screen. *)
Lemma shows_cell t p x v :
  shows t p → 0 ≤ x < WIDTH →
  let b := aset (buffer t) (row t * WIDTH + x) v in
  let f := pset (cells p) (prow p * WIDTH + x) v in
  cells_ok b ∧ (∀ i, 0 ≤ i < 2000 → aget b i = f (top_line p * WIDTH + i)) ∧
  (∀ i, (prow p + 1) * WIDTH ≤ i → f i = entry SPACE).
Proof.
  intros [Hl Hr Hp _ _ Hc Hbl] Hx. cbv zeta.
  assert (Hrange : 0 ≤ row t < HEIGHT) by (unfold top_line in *; lia).
  split_and!; [by rewrite aset_length | |]; intros i Hi; unfold pset.
  - destruct (Z.eqb_spec (top_line p * WIDTH + i) (prow p * WIDTH + x)) as [E|Hne].
    + replace i with (row t * WIDTH + x) by lia. apply aget_aset_eq. lia.
    + rewrite aget_aset_ne by lia. by apply Hc.
  - destruct (Z.eqb_spec i (prow p * WIDTH + x)); [lia | by apply Hbl].
Qed.

(** One character keeps the correspondence. *)
Lemma putchar_shows fuel c t p :
  (0 < fuel)%nat → shows t p → ∃ t', putchar fuel c t = Ok t' ∧ shows t' (paper_put p c).
Proof.
  intros Hf Hs. destruct (serial_putchar_ok fuel c (ports t) Hf) as [d Ed].
  unfold putchar. rewrite Ed. cbn [obind]. eexists. split; [reflexivity |].
  pose proof Hs as [Hl Hr Hp Hco Hpc Hc Hbl].
  assert (Hrange : 0 ≤ row t < HEIGHT) by (unfold top_line in *; lia).
  unfold place, paper_put. cbn [with_ports buffer row col ports].
  destruct (c =? NEWLINE); cbn [buffer row col ports].
  { destruct (Z.leb_spec WIDTH 0); [lia |]. cbn [row]. by apply (shows_newline t p (cells p) d). }
  destruct (c =? BACKSPACE); cbn [buffer row col ports].
  - set (x := if 0 <? col t then _ else _). assert (Ex : x = Z.max 0 (pcol p - 1)).
    { unfold x. destruct (Z.ltb_spec 0 (col t)); lia. }
    clearbody x. subst x.
    destruct (Z.leb_spec WIDTH (Z.max 0 (pcol p - 1))); [lia |]. cbn [row].
    destruct (Z.leb_spec HEIGHT (row t)); [lia |].
    destruct (shows_cell t p (Z.max 0 (pcol p - 1)) (entry SPACE) Hs) as (Hl' & Hc' & Hbl'); [lia |].
    constructor; try done. simpl. lia.
  - rewrite Hco. destruct (shows_cell t p (pcol p) (entry c) Hs Hpc) as (Hl' & Hc' & Hbl').
    destruct (Z.leb_spec WIDTH (pcol p + 1)), (Z.eqb_spec (pcol p) (WIDTH - 1)); try lia; cbn [row buffer].
    + by apply (shows_newline (mkTerm (aset (buffer t) (row t * WIDTH + pcol p) (entry c)) (row t) 0 d) p).
    + destruct (Z.leb_spec HEIGHT (row t)); [lia |]. constructor; try done. simpl. lia.
Qed.

Lemma init_shows fuel t :
  (0 < fuel)%nat → cells_ok (buffer t) → ∃ t', init fuel t = Ok t' ∧ shows t' blank_paper.
Proof.
  intros Hf Hl. unfold init.
  destruct (serial_putchar_ok fuel NEWLINE (serial_init (ports (clear (mkTerm (buffer t) 0 0 (ports t))))) Hf) as [d Ed].
  rewrite Ed. cbn [obind]. eexists. split; [reflexivity |].
  destruct (clear_cells_spec (buffer t) Hl) as [Hl' Hc]. unfold clear. cbn [buffer].
  revert Hl' Hc. generalize (clear_cells (buffer t)) as b. intros b Hl' Hc. by constructor.
Qed.

(** A string keeps it too. *)
Lemma write_shows fuel s t p :
  (0 < fuel)%nat → shows t p → Forall (λ c, c ≠ 0) s →
  ∃ t', write fuel s t = Ok t' ∧ shows t' (foldl paper_put p s).
Proof.
  intros Hf Hsh Hs. revert t p Hsh. induction Hs as [|c s Hc Hs IH]; intros t p Hsh; [by eexists |].
  destruct (putchar_shows fuel c t p Hf Hsh) as (t1 & E1 & Hsh1). cbn [write foldl].
  destruct (Z.eqb_spec c 0); [done |]. rewrite E1. cbn [obind]. by apply IH.
Qed.

(** ** Properties *)

(** C27: the terminal behaves as the last 25 lines of an unbounded sheet of
    80-column paper: after [init], writing any string character by character
    returns, and the screen then shows exactly those lines of the paper on
    which the same characters were written without scrolling; row and column
    stay on the screen, so no cell outside the buffer is written. *)
Theorem terminal_refines_paper fuel t s :
  (0 < fuel)%nat → length (buffer t) = 2000%nat → Forall (λ c, c ≠ 0) s →
  ∃ t0 t', init fuel t = Ok t0 ∧ write fuel s t0 = Ok t' ∧
    0 ≤ row t' < HEIGHT ∧ 0 ≤ col t' < WIDTH ∧
    let p := foldl paper_put blank_paper s in
    prow p = row t' + top_line p ∧ pcol p = col t' ∧
    ∀ y x, 0 ≤ y < HEIGHT → 0 ≤ x < WIDTH →
      aget (buffer t') (y * WIDTH + x) = cells p ((top_line p + y) * WIDTH + x).
Proof.
  intros Hf Hl Hs. destruct (init_shows fuel t Hf Hl) as (t0 & E0 & Hsh). exists t0.
  pose proof (write_shows fuel s t0 blank_paper Hf Hsh Hs) as Hw.
  destruct Hw as (t' & E & [Hl' Hr Hp Hco Hpc Hc Hbl]). exists t'. cbv zeta. unfold top_line in *.
  split_and!; try done; try lia. intros y x Hy Hx. rewrite Hc by lia. f_equal. lia.
Qed.
End theorems.

(** ** What reaches the devices *)

(** The bytes that one character puts on the serial line. *)
Definition serial_bytes (c : Z) : list Z := if c =? NEWLINE then [10; 13] else [u8 c].

(** The registers of the display controller: the index register and the
    cursor location, high byte 0x0E and low byte 0x0F. *)
Record crtc := mkCrtc { cr_index : Z; cr_high : Z; cr_low : Z }.
Definition crtc_write (r : crtc) (w : Z * Z) : crtc :=
  if w.1 =? 0x3D4 then mkCrtc w.2 (cr_high r) (cr_low r)
  else if w.1 =? 0x3D5 then
    if cr_index r =? 0x0E then mkCrtc (cr_index r) w.2 (cr_low r)
    else if cr_index r =? 0x0F then mkCrtc (cr_index r) (cr_high r) w.2 else r
  else r.
Definition cursor_of {answer} (b : buslog answer) : Z :=
  let r := foldl crtc_write (mkCrtc 0 0 0) (written b) in cr_high r * 256 + cr_low r.

Section wires.
Context {answer : Z → Z}.
Notation bus := (buslog answer).
Context `{!SerialReady (D := bus)}.

Lemma serial_putchar_log fuel c (b : bus) :
  (0 < fuel)%nat → ∃ b', serial_putchar fuel c b = Ok b' ∧
    sent_to COM1 (written b') = sent_to COM1 (written b) ++ serial_bytes c.
Proof.
  intros Hf. unfold serial_putchar, serial_bytes. rewrite poll_port_ready by auto. cbn [obind].
  destruct (Z.eqb_spec c NEWLINE) as [-> |].
  - rewrite poll_port_ready by auto. eexists. split; [reflexivity |].
    simpl. by rewrite !sent_to_app, <- app_assoc.
  - eexists. split; [reflexivity |]. simpl. by rewrite sent_to_app.
Qed.

Lemma update_cursor_log (t : terminal bus) :
  0 ≤ row t < HEIGHT → 0 ≤ col t < WIDTH →
  cursor_of (ports (update_cursor t)) = row t * WIDTH + col t ∧
  sent_to COM1 (written (ports (update_cursor t))) = sent_to COM1 (written (ports t)).
Proof.
  intros Hr Hc. split.
  - unfold cursor_of, update_cursor. simpl. rewrite !foldl_app.
    set (pos := row t * WIDTH + col t). assert (Hp : 0 ≤ pos < 2000) by lia. clearbody pos.
    simpl. rewrite !(Z.land_ones _ 8) by lia. rewrite Z.shiftr_div_pow2 by lia. unfold u8. mlia.
  - simpl. by rewrite !sent_to_app, !app_nil_r.
Qed.

Lemma putchar_log fuel c (t t' : terminal bus) p :
  (0 < fuel)%nat → shows t p → putchar fuel c t = Ok t' →
  cursor_of (ports t') = row t' * WIDTH + col t' ∧
  sent_to COM1 (written (ports t')) = sent_to COM1 (written (ports t)) ++ serial_bytes c.
Proof.
  intros Hf Hs Ht. destruct (putchar_shows fuel c t p Hf Hs) as (t1 & E1 & [Hl Hr Hp Hco Hpc _ _]).
  rewrite Ht in E1. injection E1 as <-.
  assert (Hrange : 0 ≤ row t' < HEIGHT ∧ 0 ≤ col t' < WIDTH) by (unfold top_line in *; lia). clear Hl Hr Hp Hco Hpc.
  destruct (serial_putchar_log fuel c (ports t) Hf) as (b & Eb & Hsent). revert Ht. unfold putchar.
  rewrite Eb. cbn [obind]. set (t1 := if HEIGHT <=? _ then _ else _).
  assert (Hports : ports t1 = b).
  { unfold t1, place, scroll. by destruct (c =? NEWLINE), (c =? BACKSPACE); cbn [ports]; repeat case_match. }
  clearbody t1. intros [= <-]. destruct Hrange as [Hr Hc].
  destruct (update_cursor_log t1 Hr Hc) as [-> ->]. split; [done |]. by rewrite Hports.
Qed.

(** Whatever is written, after each character the cursor registers of the
    display hold the position where the next one goes, and the serial line has
    received every character in order, with a carriage return after each line
    feed. *)
Theorem terminal_devices_follow fuel s (t : terminal bus) p :
  (0 < fuel)%nat → shows t p → Forall (λ c, c ≠ 0) s → s ≠ [] →
  ∃ t', write fuel s t = Ok t' ∧ cursor_of (ports t') = row t' * WIDTH + col t' ∧
    sent_to COM1 (written (ports t')) = sent_to COM1 (written (ports t)) ++ flat_map serial_bytes s.
Proof.
  intros Hf Hs Hall. revert t p Hs. induction Hall as [|c s Hc Hall IH]; intros t p Hs Hne; [done |].
  destruct (putchar_shows fuel c t p Hf Hs) as (t1 & E1 & Hs1).
  destruct (putchar_log fuel c t t1 p Hf Hs E1) as [Hcur Hsent]. cbn [write flat_map].
  destruct (Z.eqb_spec c 0); [done |]. rewrite E1. cbn [obind].
  destruct (decide (s = [])) as [-> |Hs'].
  - exists t1. split; [done |]. split; [done |]. by rewrite Hsent, app_nil_r.
  - destruct (IH t1 _ Hs1 Hs') as (t' & E & Hcur' & Hsent'). exists t'. split; [done |]. split; [done |].
    by rewrite Hsent', Hsent, <- app_assoc.
Qed.
End wires.

(** ** Concrete runs *)

Definition ready_bus : Type := buslog (λ p, if p =? COM1 + 5 then 0x60 else 0).
#[export] Instance ready_bus_io : PortIO ready_bus := buslog_io _.
#[export] Instance ready_bus_ready : SerialReady (D := ready_bus).
Proof. done. Qed.

Definition off_screen : terminal ready_bus := mkTerm (replicate 2000 0) 0 0 (mkBus []).
Lemma terminal_refines_paper_witness :
  ∃ t0 t', init 1 off_screen = Ok t0 ∧ write 1 (replicate 30 10 ++ [111; 107]) t0 = Ok t' ∧
    row t' = 24 ∧ col t' = 2 ∧ aget (buffer t') (24 * 80 + 1) = entry 107.
Proof.
  destruct (terminal_refines_paper 1 off_screen (replicate 30 10 ++ [111; 107])) as (t0 & t' & E0 & E & _ & _ & Hr & Hc & Hcells);
    [lia | apply length_replicate | |].
  { apply Forall_app; split; [by apply Forall_replicate | repeat constructor; done]. }
  exists t0, t'. split_and!; [exact E0 | exact E | change (30 = row t' + 6) in Hr; lia | rewrite <- Hc; reflexivity |].
  rewrite (Hcells 24 1) by lia. reflexivity.
Defined.

Definition clear_screen : terminal ready_bus := mkTerm (replicate 2000 (entry SPACE)) 0 0 (mkBus []).
Lemma clear_screen_shows : shows clear_screen blank_paper.
Proof.
  constructor; try done. intros i Hi. unfold clear_screen, buffer. unfold aget. destruct (Z.ltb_spec i 0); [lia |].
  by rewrite lookup_replicate_2 by lia.
Qed.
Lemma terminal_devices_follow_witness :
  ∃ t', write 1 [111; 107; 10] clear_screen = Ok t' ∧ cursor_of (ports t') = 80 ∧
    sent_to COM1 (written (ports t')) = [111; 107; 10; 13].
Proof.
  destruct (terminal_devices_follow 1 [111; 107; 10] clear_screen blank_paper) as (t' & E & Hcur & Hs);
    [lia | exact clear_screen_shows | repeat constructor; done | done |].
  exists t'. split; [exact E |]. split; [| exact Hs]. transitivity (row t' * 80 + col t'); [exact Hcur |]. clear Hcur Hs. revert E.
  vm_compute. intros [= <-]. reflexivity.
Defined.

(** A character above 127 is negative as a [char]: its cell gets all
    attribute bits instead of the colour. *)
Lemma entry_high c : 128 ≤ c < 256 → entry c = 0xFF00 + c.
Proof.
  intros Hc. unfold entry, s8, u8, u16, color. rewrite (Z.mod_small c) by lia.
  destruct (Z.ltb_spec c 128); [lia |]. replace ((c - W8) mod W16) with (0xFF00 + c) by mlia.
  change (Z.shiftl 7 8) with 0x700. apply Z.bits_inj_iff. intros n.
  assert (E : 0xFF00 + c = Z.lor 0xFF00 c).
  { apply Z.add_nocarry_lor. apply Z.bits_inj_iff. intros k. rewrite Z.land_spec, Z.bits_0.
    destruct (Z_lt_ge_dec k 8) as [Hk|Hk].
    - destruct (Z_lt_ge_dec k 0); [by rewrite !Z.testbit_neg_r |].
      assert (Hcases : k = 0 ∨ k = 1 ∨ k = 2 ∨ k = 3 ∨ k = 4 ∨ k = 5 ∨ k = 6 ∨ k = 7) by lia.
      by destruct_or? Hcases; subst k.
    - rewrite (Z.bits_above_log2 c); [apply andb_false_r | lia |].
      apply (Z.lt_le_trans _ 8); [| lia]. apply Z.log2_lt_pow2; lia. }
  rewrite E, !Z.lor_spec. destruct (Z.testbit 0x700 n) eqn:Hb; [| by rewrite orb_false_r].
  replace (Z.testbit 0xFF00 n) with true; [done |].
  replace 0xFF00 with (Z.lor 0xFF00 0x700) by done. by rewrite Z.lor_spec, Hb, orb_true_r.
Qed.
End Terminal.
