(* ===== verification/Faults.v ===== *)
(** * What the kernel prints when something goes wrong: [kernel/panic.cpp],
    [interrupts/page_fault.cpp], [interrupts/gp.cpp] and [interrupts/isr.cpp]

    The handlers write to the terminal. After a panic the processor is halted
    with interrupts off: the result is the terminal that stays on the screen.
    The values the stubs store ([pf_err], [gp_err], [gp_eip], [default_vector])
    and the words of the stack are arguments. *)

From Stdlib Require Import Ascii String.
From S2P Require Import Prelude Machine Libk Ports Terminal.
#[local] Open Scope Z_scope.

Module Faults.
Import Libk Terminal.

(** The bytes of a string literal. *)
Fixpoint text (s : string) : list Z :=
  match s with
  | EmptyString => []
  | String c s' => Z.of_nat (nat_of_ascii c) :: text s'
  end.

(** The digits that [itoa] leaves in a buffer, the most significant first. *)
Definition decimal (v : Z) : list Z :=
  if v =? 0 then [48] else rev (default [] (itoa_digits 16 v)).

(** The two loops of [panic] on the line number: no digit for a negative one. *)
Definition line_digits (line : Z) : list Z :=
  if line =? 0 then [48] else rev (default [] (itoa_digits 16 line)).

Notation NL := [10] (only parsing).

Section faults.
Context {D : Type} `{!PortIO D}.
Implicit Types t : terminal D.

(** [terminal.write] of several strings in a row. *)
Fixpoint write_all (fuel : nat) (l : list (list Z)) t : outcome (terminal D) :=
  match l with
  | [] => Ok t
  | s :: l' => let! t := write fuel s t in write_all fuel l' t
  end.

Definition panic (fuel : nat) (reason file : list Z) (line : Z) t : outcome (terminal D) :=
  write_all fuel
    [NL; text "=================================" ++ NL; text "          KERNEL PANIC" ++ NL;
     text "=================================" ++ NL; text "Reason: "; reason; NL; text "File: "; file; NL;
     text "Line: "; line_digits line; NL] t.

Definition kernel_panic (fuel : nat) (msg : list Z) t : outcome (terminal D) :=
  panic fuel msg (text "unknown") 0 t.

(** [pf_print] and [gp_print] *)
Definition pf_print (fuel : nat) (label : list Z) (v : Z) t : outcome (terminal D) :=
  write_all fuel [label; decimal v; NL] t.

Definition page_fault_handler (fuel : nat) (pf_err cr2 : Z) t : outcome (terminal D) :=
  let! t := write fuel (text "PAGE FAULT" ++ NL) t in
  let! t := pf_print fuel (text " err=") pf_err t in
  let! t := pf_print fuel (text " cr2=") cr2 t in
  panic fuel (text "PAGE FAULT") (text "src/interrupts/page_fault.cpp") 29 t.

(** The loop over the words of the stack, from number [i] on. *)
Fixpoint gp_stack (fuel : nat) (i : Z) (words : list Z) t : outcome (terminal D) :=
  match words with
  | [] => Ok t
  | w :: ws =>
      let! t := write fuel [91; 48 + i / 10; 48 + i mod 10; 93; 61; 0; 0; 0] t in
      let! t := pf_print fuel [] w t in
      gp_stack fuel (i + 1) ws t
  end.

Definition gp_handler (fuel : nat) (gp_err gp_eip : Z) (stack : list Z) t : outcome (terminal D) :=
  let! t := write fuel (text "#GP" ++ NL) t in
  let! t := pf_print fuel (text " err=") gp_err t in
  let! t := pf_print fuel (text " eip=") gp_eip t in
  let! t := gp_stack fuel 0 (take 12 stack) t in
  panic fuel (text "#GP") (text "src/interrupts/gp.cpp") 38 t.

Definition default_interrupt_handler (fuel : nat) (default_vector : Z) t : outcome (terminal D) :=
  let! t := write_all fuel [text "INT? vec="; decimal default_vector; NL] t in
  Ok (with_ports (outb 0x20 0x20 (ports t)) t).
End faults.

(** ** The text of a report *)

Notation printable s := (Forall (λ c, c ≠ 0) s) (only parsing).

Lemma digits_run v : 0 < v < W32 →
  ∃ ds, itoa_digits 16 v = Some ds ∧ printable ds ∧ dec_value (rev ds) = v.
Proof.
  intros Hv. destruct (itoa_digits_run 15 v) as (ds & E & _ & Hd & Hval & _); [simpl; lia |].
  exists ds. split; [done |]. split; [| done]. eapply Forall_impl; [exact Hd |]. simpl. lia.
Qed.

(** The numeral of a value, and that it is what [itoa] writes. *)
Lemma decimal_spec v : 0 ≤ v < W32 → printable (decimal v) ∧ dec_value (decimal v) = v.
Proof.
  intros Hv. unfold decimal. destruct (Z.eqb_spec v 0) as [-> | Hne]; [by repeat constructor |].
  destruct (digits_run v) as (ds & -> & Hd & Hval); [lia |]. split; [by apply Forall_rev | done].
Qed.

Lemma decimal_is_itoa m v buf :
  0 ≤ v < W32 → ∃ m', itoa m v buf = Some m' ∧ cstr m' buf (decimal v).
Proof.
  intros Hv. unfold decimal, itoa. destruct (Z.eqb_spec v 0) as [-> | Hne].
  - eexists. split; [done |]. simpl. rewrite rd8_wr8_ne, rd8_wr8, Z.eqb_refl by lia. split_and!; [done | lia |].
    by rewrite rd8_wr8, Z.eqb_refl.
  - destruct (itoa_digits_run 15 v) as (ds & E & _ & Hd & _); [simpl; lia |]. rewrite E. eexists. split; [done |].
    cbn [default fmap option_fmap option_map]. rewrite <- (length_rev ds) at 1. apply cstr_store. apply Forall_rev.
    eapply Forall_impl; [exact Hd | simpl; lia].
Qed.

Section report.
Context {D : Type} `{!PortIO D} `{!SerialReady (D := D)}.
Implicit Types t : terminal D.

Lemma write_all_shows fuel l t p :
  (0 < fuel)%nat → shows t p → Forall (λ s, printable s) l →
  ∃ t', write_all fuel l t = Ok t' ∧ shows t' (foldl paper_put p (concat l)).
Proof.
  intros Hf Hs Hl. revert t p Hs. induction Hl as [|s l Hs' Hl IH]; intros t p Hs; [by eexists |].
  destruct (write_shows fuel s t p Hf Hs Hs') as (t1 & E1 & Hs1). cbn [write_all concat]. rewrite E1, foldl_app. by apply IH.
Qed.

(** The report of a panic. *)
Definition panic_report (reason file : list Z) (line : Z) : list Z :=
  NL ++ (text "=================================" ++ NL) ++ (text "          KERNEL PANIC" ++ NL) ++
  (text "=================================" ++ NL) ++ text "Reason: " ++ reason ++ NL ++ text "File: " ++ file ++ NL ++
  text "Line: " ++ decimal line ++ NL.

Lemma panic_shows fuel reason file line t p :
  (0 < fuel)%nat → shows t p → printable reason → printable file → 0 ≤ line < W32 →
  ∃ t', panic fuel reason file line t = Ok t' ∧ shows t' (foldl paper_put p (panic_report reason file line)).
Proof.
  intros Hf Hs Hr Hfi Hl. unfold panic. change (line_digits line) with (decimal line).
  destruct (decimal_spec line Hl) as [Hd _]. set (l := [_; _; _; _; _; _; _; _; _; _; _; _; _]).
  assert (E : concat l = panic_report reason file line) by (unfold l, panic_report; cbn [concat]; by rewrite app_nil_r).
  rewrite <- E. apply write_all_shows; [done | done |]. unfold l. repeat constructor; done.
Qed.

Lemma pf_print_shows fuel label v t p :
  (0 < fuel)%nat → shows t p → printable label → 0 ≤ v < W32 →
  ∃ t', pf_print fuel label v t = Ok t' ∧ shows t' (foldl paper_put p (label ++ decimal v ++ NL)).
Proof.
  intros Hf Hs Hl Hv. destruct (decimal_spec v Hv) as [Hd _].
  destruct (write_all_shows fuel [label; decimal v; NL] t p Hf Hs) as (t' & E & Hs'); [by repeat constructor |].
  exists t'. split; [done |]. cbn [concat] in Hs'. by rewrite app_nil_r in Hs'.
Qed.

Lemma write_stops fuel s rest t : printable s → write fuel (s ++ 0 :: rest) t = write fuel s t.
Proof.
  intros Hs. revert t. induction Hs as [|c s Hc Hs IH]; intros t; [done |]. cbn [app write].
  destruct (Z.eqb_spec c 0); [done |]. destruct (putchar fuel c t); [apply IH | done..].
Qed.

(** The lines for the words of the stack. *)
Fixpoint stack_report (i : Z) (words : list Z) : list Z :=
  match words with
  | [] => []
  | w :: ws => [91; 48 + i / 10; 48 + i mod 10; 93; 61] ++ (decimal w ++ NL) ++ stack_report (i + 1) ws
  end.

Lemma gp_stack_shows fuel i words t p :
  (0 < fuel)%nat → shows t p → 0 ≤ i → Forall (λ w, 0 ≤ w < W32) words →
  ∃ t', gp_stack fuel i words t = Ok t' ∧ shows t' (foldl paper_put p (stack_report i words)).
Proof.
  intros Hf Hs Hi Hw. revert i t p Hs Hi. induction Hw as [|w ws Hw Hws IH]; intros i t p Hs Hi; [by eexists |].
  cbn [gp_stack stack_report].
  destruct (write_shows fuel [91; 48 + i / 10; 48 + i mod 10; 93; 61] t p Hf Hs) as (t1 & E1 & Hs1);
    [repeat constructor; mlia |].
  change [91; 48 + i / 10; 48 + i mod 10; 93; 61; 0; 0; 0] with ([91; 48 + i / 10; 48 + i mod 10; 93; 61] ++ [0; 0; 0]).
  rewrite write_stops by (repeat constructor; mlia). rewrite E1. cbn [obind].
  destruct (pf_print_shows fuel [] w t1 _ Hf Hs1) as (t2 & E2 & Hs2); [done | done |]. rewrite E2. cbn [obind].
  rewrite app_nil_l in Hs2. rewrite !foldl_app in *. apply IH; [done | lia].
Qed.

(** A page fault is reported. Whatever is on the screen, the handler prints
    the error code and the faulting address in decimal, as the values they are,
    and then the panic with its reason, file and line; the screen shows the last
    lines of this report. *)
Theorem page_fault_reported fuel err cr2 t p :
  (0 < fuel)%nat → shows t p → 0 ≤ err < W32 → 0 ≤ cr2 < W32 →
  dec_value (decimal err) = err ∧ dec_value (decimal cr2) = cr2 ∧
  ∃ t', page_fault_handler fuel err cr2 t = Ok t' ∧
    shows t' (foldl paper_put p
      ((text "PAGE FAULT" ++ NL) ++ (text " err=" ++ decimal err ++ NL) ++ (text " cr2=" ++ decimal cr2 ++ NL) ++
       panic_report (text "PAGE FAULT") (text "src/interrupts/page_fault.cpp") 29)).
Proof.
  intros Hf Hs He Hc. split; [by apply decimal_spec |]. split; [by apply decimal_spec |]. unfold page_fault_handler.
  destruct (write_shows fuel (text "PAGE FAULT" ++ NL) t p Hf Hs) as (t1 & -> & Hs1); [by repeat constructor |]. cbn [obind].
  destruct (pf_print_shows fuel (text " err=") err t1 _ Hf Hs1) as (t2 & -> & Hs2); [by repeat constructor | done |]. cbn [obind].
  destruct (pf_print_shows fuel (text " cr2=") cr2 t2 _ Hf Hs2) as (t3 & -> & Hs3); [by repeat constructor | done |]. cbn [obind].
  destruct (panic_shows fuel (text "PAGE FAULT") (text "src/interrupts/page_fault.cpp") 29 t3 _ Hf Hs3) as (t4 & -> & Hs4);
    [by repeat constructor | by repeat constructor | lia |].
  exists t4. split; [done |]. by rewrite !foldl_app in *.
Qed.

(** The same for a general protection fault, with twelve words of the stack. *)
Lemma gp_fault_reported fuel err eip stack t p :
  (0 < fuel)%nat → shows t p → 0 ≤ err < W32 → 0 ≤ eip < W32 → Forall (λ w, 0 ≤ w < W32) stack →
  ∃ t', gp_handler fuel err eip stack t = Ok t' ∧
    shows t' (foldl paper_put p
      ((text "#GP" ++ NL) ++ (text " err=" ++ decimal err ++ NL) ++ (text " eip=" ++ decimal eip ++ NL) ++
       stack_report 0 (take 12 stack) ++ panic_report (text "#GP") (text "src/interrupts/gp.cpp") 38)).
Proof.
  intros Hf Hs He Hc Hst. unfold gp_handler.
  destruct (write_shows fuel (text "#GP" ++ NL) t p Hf Hs) as (t1 & -> & Hs1); [by repeat constructor |]. cbn [obind].
  destruct (pf_print_shows fuel (text " err=") err t1 _ Hf Hs1) as (t2 & -> & Hs2); [by repeat constructor | done |]. cbn [obind].
  destruct (pf_print_shows fuel (text " eip=") eip t2 _ Hf Hs2) as (t3 & -> & Hs3); [by repeat constructor | done |]. cbn [obind].
  destruct (gp_stack_shows fuel 0 (take 12 stack) t3 _ Hf Hs3) as (t4 & -> & Hs4); [lia | by apply Forall_take |]. cbn [obind].
  destruct (panic_shows fuel (text "#GP") (text "src/interrupts/gp.cpp") 38 t4 _ Hf Hs4) as (t5 & -> & Hs5);
    [by repeat constructor | by repeat constructor | lia |].
  exists t5. split; [done |]. by rewrite !foldl_app in *.
Qed.
End report.

(** ** Witness *)

Lemma page_fault_reported_witness :
  ∃ t', page_fault_handler 1 2 0x800000 clear_screen = Ok t' ∧ row t' = 10.
Proof.
  destruct (page_fault_reported (D := ready_bus) 1 2 0x800000 clear_screen blank_paper)
    as (_ & _ & t' & E & [_ Hrow _ _ _ _ _]); [lia | exact clear_screen_shows | lia | lia |].
  exists t'. split; [exact E |]. rewrite Hrow. vm_compute. reflexivity.
Defined.
End Faults.
