(* ===== verification/Interrupts.v ===== *)
(** * Descriptor tables and interrupt controllers: [interrupts/gdt.cpp],
    [interrupts/idt.cpp], [interrupts/tss.cpp], [interrupts/pic.cpp], with
    [gdt_flush.s], [idt_flush.s] and [tss_flush.s]

    The tables have the fields of the structures; what the processor makes of
    an entry is written down separately ([seg_base] and the like). The
    controllers are behind the ports. *)

From S2P Require Import Prelude Ports.

Module Interrupts.

Record GDTEntry := mkGdt {
  limit_low : Z; base_low : Z; base_middle : Z; access : Z; granularity : Z; base_high : Z }.
#[export] Instance GDTEntry_zero : ZeroInit GDTEntry := mkGdt 0 0 0 0 0 0.
Record IDTEntry := mkIdt { i_base_low : Z; selector : Z; always0 : Z; flags : Z; i_base_high : Z }.
#[export] Instance IDTEntry_zero : ZeroInit IDTEntry := mkIdt 0 0 0 0 0.
(** The fields of the TSS that are set; the others are zero. *)
Record TSSEntry := mkTss {
  esp0 : Z; ss0 : Z; t_es : Z; t_cs : Z; t_ss : Z; t_ds : Z; t_fs : Z; t_gs : Z; iomap_base : Z }.
Notation sizeof_TSSEntry := 104 (only parsing).

(** The tables, and the registers of the processor that point to them: limit
    and base of the two tables, the data segments, and the task register. *)
Record tables := mkTables {
  gdt : list GDTEntry;
  idt : list IDTEntry;
  tss : TSSEntry;
  gdtr : Z * Z;
  idtr : Z * Z;
  cs : Z;
  ds : Z;
  tr : Z;
}.

Section code.
(** The addresses the linker gives to the tables, the boot stack and the stubs. *)
Variables gdt_addr idt_addr tss_addr stack_top : Z.
Variables default_isr isr0 irq0 irq1 gp_stub page_fault_stub syscall_stub : Z.
Implicit Types t : tables.

Definition with_gdt (g : list GDTEntry) t : tables :=
  mkTables g (idt t) (tss t) (gdtr t) (idtr t) (cs t) (ds t) (tr t).
Definition with_idt (i : list IDTEntry) t : tables :=
  mkTables (gdt t) i (tss t) (gdtr t) (idtr t) (cs t) (ds t) (tr t).

Definition gdt_set_gate (num base limit acc gran : Z) t : tables :=
  with_gdt (aset (gdt t) num
    (mkGdt (Z.land limit 0xFFFF) (Z.land base 0xFFFF) (Z.land (Z.shiftr base 16) 0xFF) acc
       (Z.lor (Z.land (Z.shiftr limit 16) 0x0F) (Z.land gran 0xF0)) (Z.land (Z.shiftr base 24) 0xFF))) t.

(** [gdt_flush] loads the table and the segment registers. *)
Definition gdt_flush (ptr : Z * Z) t : tables :=
  mkTables (gdt t) (idt t) (tss t) ptr (idtr t) 0x08 0x10 (tr t).
Definition gdt_init t : tables :=
  let ptr := (8 * 6 - 1, gdt_addr) in
  let t := gdt_set_gate 0 0 0 0 0 t in
  let t := gdt_set_gate 1 0 0xFFFFFFFF 0x9A 0xCF t in
  let t := gdt_set_gate 2 0 0xFFFFFFFF 0x92 0xCF t in
  let t := gdt_set_gate 3 0 0xFFFFFFFF 0xFA 0xCF t in
  let t := gdt_set_gate 4 0 0xFFFFFFFF 0xF2 0xCF t in
  gdt_flush ptr t.

Definition tss_flush t : tables :=
  mkTables (gdt t) (idt t) (tss t) (gdtr t) (idtr t) (cs t) (ds t) 0x2B.
Definition tss_init t : tables :=
  let t := gdt_set_gate 5 tss_addr (sizeof_TSSEntry - 1) 0x89 0x40 t in
  tss_flush (mkTables (gdt t) (idt t) (mkTss stack_top 0x10 0x13 0x0B 0x13 0x13 0x13 0x13 sizeof_TSSEntry)
    (gdtr t) (idtr t) (cs t) (ds t) (tr t)).

Definition idt_set_gate (num base sel fl : Z) t : tables :=
  with_idt (aset (idt t) num
    (mkIdt (Z.land base 0xFFFF) sel 0 fl (Z.land (Z.shiftr base 16) 0xFFFF))) t.

Definition idt_flush (ptr : Z * Z) t : tables :=
  mkTables (gdt t) (idt t) (tss t) (gdtr t) ptr (cs t) (ds t) (tr t).
Definition idt_init t : tables :=
  let ptr := (8 * 256 - 1, idt_addr) in
  let t := loop_n 256 0 (λ i, idt_set_gate i default_isr 0x08 0x8E) t in
  let t := idt_set_gate 0 isr0 0x08 0x8E t in
  let t := idt_set_gate 32 irq0 0x08 0x8E t in
  let t := idt_set_gate 33 irq1 0x08 0x8E t in
  let t := idt_set_gate 13 gp_stub 0x08 0x8E t in
  let t := idt_set_gate 14 page_fault_stub 0x08 0x8E t in
  let t := idt_set_gate 128 syscall_stub 0x08 0xEE t in
  idt_flush ptr t.
End code.

Definition pic_remap {D} `{!PortIO D} (d : D) : D :=
  let d := outb 0x20 0x11 d in
  let d := outb 0xA0 0x11 d in
  let d := outb 0x21 0x20 d in
  let d := outb 0xA1 0x28 d in
  let d := outb 0x21 0x04 d in
  let d := outb 0xA1 0x02 d in
  let d := outb 0x21 0x01 d in
  let d := outb 0xA1 0x01 d in
  let d := outb 0x21 0xFC d in
  outb 0xA1 0xFF d.

(** ** What the processor reads in an entry *)

Definition seg_base (e : GDTEntry) : Z := base_low e + base_middle e * 65536 + base_high e * 16777216.
Definition seg_limit (e : GDTEntry) : Z := limit_low e + granularity e mod 16 * 65536.
(** The last offset inside of the segment: the limit counts pages when the
    granularity bit is set. *)
Definition seg_last (e : GDTEntry) : Z :=
  if Z.testbit (granularity e) 7 then seg_limit e * 4096 + 4095 else seg_limit e.
Definition seg_present (e : GDTEntry) : bool := Z.testbit (access e) 7.
Definition seg_dpl (e : GDTEntry) : Z := access e / 32 mod 4.
(** Code or data, and code. *)
Definition seg_user_kind (e : GDTEntry) : bool := Z.testbit (access e) 4.
Definition seg_code (e : GDTEntry) : bool := Z.testbit (access e) 3.
(** The entry a selector refers to. *)
Definition seg_of (t : tables) (sel : Z) : GDTEntry := aget (gdt t) (sel / 8).

Definition gate_offset (e : IDTEntry) : Z := i_base_low e + i_base_high e * 65536.
Definition gate_present (e : IDTEntry) : bool := Z.testbit (flags e) 7.
Definition gate_dpl (e : IDTEntry) : Z := flags e / 32 mod 4.
(** A 32-bit interrupt gate: interrupts are off in the handler. *)
Definition gate_interrupt (e : IDTEntry) : bool := flags e mod 16 =? 14.

(** ** Two interrupt controllers, the second one on line 2 of the first *)

(** [step] counts the initialisation words still expected. *)
Record pic := mkPic { vector_base : Z; wiring : Z; mask : Z; step : Z }.
Record pics := mkPics { master : pic; slave : pic }.

(** A word with bit 4 on the first port starts the initialisation; then three
    words on the second port follow, and later words there are the mask. *)
Definition pic_command (v : Z) (p : pic) : pic :=
  if Z.testbit v 4 then mkPic (vector_base p) (wiring p) 0 3 else p.
Definition pic_data (v : Z) (p : pic) : pic :=
  if step p =? 3 then mkPic v (wiring p) (mask p) 2
  else if step p =? 2 then mkPic (vector_base p) v (mask p) 1
  else if step p =? 1 then mkPic (vector_base p) (wiring p) (mask p) 0
  else mkPic (vector_base p) (wiring p) v (step p).

#[export] Instance pics_io : PortIO pics := {
  inb _ d := (0, d);
  outb p v d :=
    if p =? 0x20 then mkPics (pic_command v (master d)) (slave d)
    else if p =? 0x21 then mkPics (pic_data v (master d)) (slave d)
    else if p =? 0xA0 then mkPics (master d) (pic_command v (slave d))
    else if p =? 0xA1 then mkPics (master d) (pic_data v (slave d))
    else d;
  inw _ d := (0, d);
  outw _ _ d := d;
  inl _ d := (0, d);
  outl _ _ d := d;
}.

(** The vector a request on a line raises, if it is not masked. *)
Definition irq_vector (d : pics) (line : Z) : option Z :=
  if line <? 8 then
    if Z.testbit (mask (master d)) line then None else Some (vector_base (master d) + line)
  else if Z.testbit (mask (master d)) 2 || Z.testbit (mask (slave d)) (line - 8) then None
  else Some (vector_base (slave d) + (line - 8)).

(** ** Encoding and decoding *)

Lemma bits_field x n k : 0 ≤ n → 0 ≤ k → Z.land (Z.shiftr x n) (Z.ones k) = x / 2 ^ n mod 2 ^ k.
Proof. intros Hn Hk. by rewrite Z.land_ones, Z.shiftr_div_pow2. Qed.

Lemma base_bytes b : 0 ≤ b < W32 →
  Z.land b 0xFFFF + Z.land (Z.shiftr b 16) 0xFF * 65536 + Z.land (Z.shiftr b 24) 0xFF * 16777216 = b.
Proof.
  intros Hb. change 0xFFFF with (Z.ones 16). change 0xFF with (Z.ones 8). rewrite !bits_field, Z.land_ones by lia.
  change (2 ^ 16) with 65536. change (2 ^ 8) with 256. change (2 ^ 24) with 16777216. mlia.
Qed.

Lemma offset_words b : 0 ≤ b < W32 → Z.land b 0xFFFF + Z.land (Z.shiftr b 16) 0xFFFF * 65536 = b.
Proof.
  intros Hb. change 0xFFFF with (Z.ones 16). rewrite !bits_field, Z.land_ones by lia.
  change (2 ^ 16) with 65536. mlia.
Qed.

(** ** Segments *)

(** A segment for code or data that covers all 4 GiB. *)
Definition flat_segment (e : GDTEntry) (code : bool) (dpl : Z) : Prop :=
  seg_present e = true ∧ seg_user_kind e = true ∧ seg_code e = code ∧ seg_dpl e = dpl ∧
  seg_base e = 0 ∧ seg_last e = W32 - 1.

(** After [gdt_init] and [tss_init] the selectors the kernel uses mean what
    it needs: 0x08 and 0x10 are code and data of ring 0, and 0x1B and 0x23, which
    the frames of user processes carry, are code and data of ring 3, all of them
    over the whole address space; the task register refers to an available
    32-bit TSS at the address of [tss] with exactly its size, whose ring 0 stack
    is the boot stack in the data segment of ring 0. *)
Theorem segments_ready gdt_addr tss_addr stack_top t (t' := tss_init tss_addr stack_top (gdt_init gdt_addr t)) :
  length (gdt t) = 6%nat → 0 ≤ tss_addr < W32 →
  gdtr t' = (47, gdt_addr) ∧ cs t' = 0x08 ∧ ds t' = 0x10 ∧
  flat_segment (seg_of t' 0x08) true 0 ∧ flat_segment (seg_of t' 0x10) false 0 ∧
  flat_segment (seg_of t' 0x1B) true 3 ∧ flat_segment (seg_of t' 0x23) false 3 ∧
  seg_present (seg_of t' (tr t')) = true ∧ access (seg_of t' (tr t')) mod 32 = 9 ∧
  seg_base (seg_of t' (tr t')) = tss_addr ∧ seg_last (seg_of t' (tr t')) = 103 ∧
  esp0 (tss t') = stack_top ∧ ss0 (tss t') = ds t'.
Proof.
  intros Hl Ha. destruct t as [g i s gr ir c d r]. cbn [gdt] in Hl.
  do 6 (destruct g as [|? g]; [done |]). destruct g; [| done]. unfold t'. clear t'.
  split_and!; try reflexivity; try (unfold flat_segment; split_and!; reflexivity).
  unfold seg_base, seg_of. cbn. by apply base_bytes.
Qed.

(** ** Interrupts *)

Section idt.
Variables idt_addr default_isr isr0 irq0 irq1 gp_stub page_fault_stub syscall_stub : Z.

(** The handler the code means for a vector. *)
Definition handler (v : Z) : Z :=
  if v =? 0 then isr0 else if v =? 13 then gp_stub else if v =? 14 then page_fault_stub
  else if v =? 32 then irq0 else if v =? 33 then irq1 else if v =? 128 then syscall_stub else default_isr.

Lemma idt_gate_get t num b sel fl v :
  0 ≤ v → 0 ≤ num < zlen (idt t) →
  aget (idt (idt_set_gate num b sel fl t)) v =
  if v =? num then mkIdt (Z.land b 0xFFFF) sel 0 fl (Z.land (Z.shiftr b 16) 0xFFFF) else aget (idt t) v.
Proof.
  intros Hv Hn. cbn [idt idt_set_gate with_idt]. destruct (Z.eqb_spec v num) as [-> | Hne].
  - by rewrite aget_aset_eq.
  - rewrite aget_aset_ne by lia. done.
Qed.

Lemma idt_gate_len t num b sel fl : length (idt (idt_set_gate num b sel fl t)) = length (idt t).
Proof. apply aset_length. Qed.

(** The gate for an address with the given flags. *)
Definition gate_to (b fl : Z) : IDTEntry := mkIdt (Z.land b 0xFFFF) 0x08 0 fl (Z.land (Z.shiftr b 16) 0xFFFF).

Lemma default_gates t :
  length (idt t) = 256%nat →
  let t' := loop_n 256 0 (λ i, idt_set_gate i default_isr 0x08 0x8E) t in
  length (idt t') = 256%nat ∧ ∀ v, 0 ≤ v < 256 → aget (idt t') v = gate_to default_isr 0x8E.
Proof.
  intros Hl.
  apply (loop_n_ind (λ k t', length (idt t') = 256%nat ∧ ∀ v, 0 ≤ v < k → aget (idt t') v = gate_to default_isr 0x8E) 256 0).
  { split; [done | lia]. }
  intros k t' Hk [Hl' Hg]. split; [by rewrite idt_gate_len |]. intros v Hv. rewrite idt_gate_get by lia.
  destruct (Z.eqb_spec v k); [done |]. apply Hg. lia.
Qed.

Lemma idt_init_gates t v :
  length (idt t) = 256%nat → 0 ≤ v < 256 →
  aget (idt (idt_init idt_addr default_isr isr0 irq0 irq1 gp_stub page_fault_stub syscall_stub t)) v =
  gate_to (handler v) (if v =? 128 then 0xEE else 0x8E).
Proof.
  intros Hl Hv. unfold idt_init. cbn [idt idt_flush]. destruct (default_gates t Hl) as [Hl' Hg].
  set (t1 := loop_n 256 0 _ t) in *. clearbody t1.
  rewrite !idt_gate_get by (rewrite ?idt_gate_len; lia). rewrite Hg by done. unfold handler, gate_to.
  repeat match goal with |- context [v =? ?n] => destruct (Z.eqb_spec v n) as [-> | ?]; [reflexivity |] end. reflexivity.
Qed.

Lemma handler_range v :
  Forall (λ a, 0 ≤ a < W32) [default_isr; isr0; irq0; irq1; gp_stub; page_fault_stub; syscall_stub] →
  0 ≤ handler v < W32.
Proof.
  intros Hf. repeat rewrite Forall_cons in Hf. unfold handler.
  repeat match goal with |- context [v =? ?n] => destruct (v =? n); [lia |] end. lia.
Qed.
End idt.

(** C35: The interrupts are wired as the kernel means it. After [idt_init] every
    vector has a present interrupt gate into the kernel's code segment that
    leads to its handler, the default one where there is no other, and only the
    gate of the system call may be used from ring 3. After [pic_remap], in
    whatever state the controllers were, the timer raises vector 32, whose gate
    leads to [irq0], the keyboard raises vector 33, whose gate leads to [irq1],
    and no other line raises an interrupt. *)
Theorem interrupts_wired idt_addr default_isr isr0 irq0 irq1 gp_stub page_fault_stub syscall_stub t d
    (t' := idt_init idt_addr default_isr isr0 irq0 irq1 gp_stub page_fault_stub syscall_stub t)
    (d' := pic_remap (d : pics)) :
  length (idt t) = 256%nat →
  Forall (λ a, 0 ≤ a < W32) [default_isr; isr0; irq0; irq1; gp_stub; page_fault_stub; syscall_stub] →
  idtr t' = (2047, idt_addr) ∧
  (∀ v, 0 ≤ v < 256 →
     let g := aget (idt t') v in
     gate_present g = true ∧ gate_interrupt g = true ∧ selector g = 0x08 ∧
     gate_dpl g = (if v =? 0x80 then 3 else 0) ∧
     gate_offset g = handler default_isr isr0 irq0 irq1 gp_stub page_fault_stub syscall_stub v) ∧
  irq_vector d' 0 = Some 32 ∧ irq_vector d' 1 = Some 33 ∧
  gate_offset (aget (idt t') 32) = irq0 ∧ gate_offset (aget (idt t') 33) = irq1 ∧
  ∀ line, 2 ≤ line < 16 → irq_vector d' line = None.
Proof.
  intros Hl Hf.
  assert (Hg : ∀ v, 0 ≤ v < 256 → gate_offset (aget (idt t') v) = handler default_isr isr0 irq0 irq1 gp_stub page_fault_stub syscall_stub v).
  { intros v Hv. unfold t'. rewrite idt_init_gates by done. unfold gate_offset, gate_to. cbn [i_base_low i_base_high].
    by apply offset_words, handler_range. }
  split; [reflexivity |]. split.
  - intros v Hv. cbv zeta. rewrite (Hg v Hv). unfold t'. rewrite idt_init_gates by done.
    destruct (v =? 128); split_and!; reflexivity.
  - split_and!; [reflexivity | reflexivity | apply (Hg 32); lia | apply (Hg 33); lia |].
    intros line Hline. assert (line ∈ seqZ 2 14) as Hin by (apply elem_of_seqZ; lia).
    assert (Hall : Forall (λ n, irq_vector d' n = None) (seqZ 2 14)) by (repeat constructor).
    rewrite Forall_forall in Hall. by apply Hall.
Qed.

(** ** Witnesses *)

Definition boot_tables : tables :=
  mkTables (replicate 6 zeroed) (replicate 256 zeroed) (mkTss 0 0 0 0 0 0 0 0 0) (0, 0) (0, 0) 0 0 0.

Lemma segments_ready_witness :
  seg_base (seg_of (tss_init 0x105000 0x108000 (gdt_init 0x104000 boot_tables)) 0x2B) = 0x105000.
Proof.
  destruct (segments_ready 0x104000 0x105000 0x108000 boot_tables) as (_ & _ & _ & _ & _ & _ & _ & _ & _ & H & _);
    [reflexivity | lia | exact H].
Defined.

Lemma interrupts_wired_witness :
  gate_offset (aget (idt (idt_init 0x104000 0x101000 0x101100 0x101200 0x101300 0x101400 0x101500 0x101600 boot_tables)) 33) = 0x101300.
Proof.
  destruct (interrupts_wired 0x104000 0x101000 0x101100 0x101200 0x101300 0x101400 0x101500 0x101600 boot_tables
    (mkPics (mkPic 0 0 0 0) (mkPic 0 0 0 0))) as (_ & _ & _ & _ & _ & H & _).
  - reflexivity.
  - repeat constructor; lia.
  - exact H.
Defined.
End Interrupts.
