(* ===== verification/Task.v ===== *)
(** * Tasks: [scheduler/task.cpp]

    A table of 16 tasks, each with one page as its stack. The table is separate
    from the processes of [process/process.cpp], which are what the scheduler
    runs. *)

From S2P Require Import Prelude Interfaces Machine Libk Pmm Kmalloc Vmm Process.

Module Task.
Import Libk Kmalloc Vmm Process.

Notation MAX_TASKS := 16 (only parsing).

Record Task := mkTask {
  pid : Z;
  state : TaskState;
  entry : Z;
  esp : Z;
  stack_bottom : Z;
  stack_size : Z;
  process : Z;
}.
#[export] Instance Task_zero : ZeroInit Task := mkTask 0 TASK_FREE 0 0 0 0 0.

(** The globals of the file, and the machine. *)
Record tasks_t (Pg : Type) := mkTasks {
  tasks : list Task;
  task_count_value : Z;
  next_pid : Z;
  mach : machine Pg;
}.
Arguments mkTasks {Pg} _ _ _ _.
Arguments tasks {Pg} _.
Arguments task_count_value {Pg} _.
Arguments next_pid {Pg} _.
Arguments mach {Pg} _.

Section task.
Context {Pg : Type} `{!PageAllocOps Pg}.
Implicit Types t : tasks_t Pg.

(** The address of [task_trampoline]. *)
Variable task_trampoline : Z.

(** The eleven words a new stack starts with. *)
Definition task_frame (e sp : Z) (m : memory) : Z * memory :=
  push_all [0x202; 0x08; task_trampoline; e; 0; 0; 0; 0; 0; 0; 0] (u32 sp, m).

Definition is_free (x : Task) : bool := bool_decide (state x = TASK_FREE).

(** The loop over the table: the first free entry, from number [i] on. *)
Fixpoint free_slot (l : list Task) (i : Z) : option Z :=
  match l with
  | [] => None
  | x :: l' => if is_free x then Some i else free_slot l' (i + 1)
  end.

(** The result is the number of the entry, [None] for null. *)
Definition task_create (fuel : nat) (e proc : Z) t : outcome (option Z * tasks_t Pg) :=
  let '(stack, pg) := pa_alloc (pages (mach t)) in
  let st := with_pages pg (mach t) in
  if stack =? 0 then Ok (None, mkTasks (tasks t) (task_count_value t) (next_pid t) st)
  else
    let '(sp, m) := task_frame e (stack + 4096) (memset (mem st) stack 0 4096) in
    let st := with_mem m st in
    match free_slot (tasks t) 0 with
    | Some i =>
        Ok (Some i, mkTasks (aset (tasks t) i (mkTask (next_pid t) TASK_READY e sp stack 4096 proc))
                      (task_count_value t + 1) (u32 (next_pid t + 1)) st)
    | None =>
        let! st := kfree fuel stack st in
        Ok (None, mkTasks (tasks t) (task_count_value t) (next_pid t) st)
    end.

Definition task_table t : list Task := tasks t.
Definition task_count t : Z := task_count_value t.

(** The body of the loop of [task_cleanup_dead]. *)
Definition cleanup_one (i : Z) t : tasks_t Pg :=
  let x := aget (tasks t) i in
  if bool_decide (state x = TASK_DEAD) then
    let st := if negb (stack_bottom x =? 0) then with_pages (pa_free (stack_bottom x) (pages (mach t))) (mach t)
              else mach t in
    mkTasks (aset (tasks t) i (mkTask 0 TASK_FREE (entry x) (esp x) 0 (stack_size x) 0))
      (task_count_value t - 1) (next_pid t) st
  else t.
Definition task_cleanup_dead t : tasks_t Pg := loop_n 16 0 cleanup_one t.
End task.

(** ** The table and its pages *)

Section properties.
Context {Pg : Type} `{PageAlloc Pg}.
Implicit Types (t : tasks_t Pg) (l : list Task).

Definition in_use (l : list Task) : Z := zlen (List.filter (λ x, negb (is_free x)) l).

(** The counter is the number of entries in use, and each has a page of its own
    as its stack. *)
Record tasks_wf t : Prop := {
  tk_len : length (tasks t) = 16%nat;
  tk_count : task_count_value t = in_use (tasks t);
  tk_alloc : pa_wf (pages (mach t));
  tk_stack : ∀ i x, tasks t !! i = Some x → state x ≠ TASK_FREE →
    page_addr (stack_bottom x) ∧ pa_used (pages (mach t)) (stack_bottom x);
  tk_own : ∀ i j x y, tasks t !! i = Some x → tasks t !! j = Some y →
    state x ≠ TASK_FREE → state y ≠ TASK_FREE → stack_bottom x = stack_bottom y → i = j;
}.

Lemma in_use_insert l i x y :
  l !! i = Some x →
  in_use (<[i := y]> l) = in_use l - Z.b2z (negb (is_free x)) + Z.b2z (negb (is_free y)).
Proof.
  revert i. induction l as [|a l IH]; intros [|i] E; [done | done | |]; cbn in E.
  - injection E as ->. change (<[0%nat := y]> (x :: l)) with (y :: l). unfold in_use. cbn [List.filter].
    destruct (is_free x), (is_free y); cbn [negb length Z.b2z]; lia.
  - specialize (IH i E). change (<[S i := y]> (a :: l)) with (a :: <[i := y]> l). unfold in_use in *. cbn [List.filter].
    destruct (is_free a); cbn [negb length] in *; lia.
Qed.

Lemma free_slot_spec l i j :
  0 ≤ i → free_slot l i = Some j → i ≤ j ∧ ∃ x, l !! Z.to_nat (j - i) = Some x ∧ is_free x = true.
Proof.
  revert i. induction l as [|x l IH]; intros i Hi E; [done |]. cbn [free_slot] in E.
  destruct (is_free x) eqn:Ef.
  - injection E as <-. split; [done |]. exists x. by rewrite Z.sub_diag.
  - destruct (IH (i + 1) ltac:(lia) E) as (Hj & y & Hy & Hf). split; [lia |]. exists y.
    replace (Z.to_nat (j - i)) with (S (Z.to_nat (j - (i + 1)))) by lia. done.
Qed.

Lemma free_slot_full l i : free_slot l i = None → Forall (λ x, is_free x = false) l.
Proof.
  revert i. induction l as [|x l IH]; intros i E; [constructor |]. cbn [free_slot] in E.
  destruct (is_free x) eqn:Ef; [done |]. constructor; [done | by apply (IH (i + 1))].
Qed.

(** What the stack of a new task holds: seven registers, the entry, and the
    return to [task_trampoline] with interrupts on. *)
Definition stack_ready (m : memory) (trampoline e sp stack : Z) : Prop :=
  sp = stack + 4096 - 44 ∧ (∀ k, 0 ≤ k < 7 → rd32 m (sp + 4 * k) = 0) ∧
  rd32 m (sp + 28) = u32 e ∧ rd32 m (sp + 32) = u32 trampoline ∧ rd32 m (sp + 36) = 8 ∧ rd32 m (sp + 40) = 0x202.

Lemma task_frame_spec trampoline e stack m :
  page_addr stack →
  let s := task_frame trampoline e (stack + 4096) m in
  stack_ready (snd s) trampoline e (fst s) stack ∧
  ∀ x, x < stack ∨ stack + 4096 ≤ x → rd8 (snd s) x = rd8 m x.
Proof.
  intros (H0 & H1 & _). unfold task_frame.
  destruct (push_all_spec [0x202; 0x08; trampoline; e; 0; 0; 0; 0; 0; 0; 0] (stack + 4096) m) as (E1 & E2 & E3); [cbn; lia |].
  cbn zeta. set (s := push_all _ _) in *. clearbody s. cbn [length] in E1, E3.
  assert (Es : fst s = stack + 4096 - 44) by (rewrite E1; apply u32_id; lia).
  assert (Hw : ∀ i v a, [0x202; 0x08; trampoline; e; 0; 0; 0; 0; 0; 0; 0] !! i = Some v →
    a = stack + 4096 - 4 * (Z.of_nat i + 1) → rd32 (snd s) a = u32 v) by (intros i v a Hi ->; by apply E2).
  split; [unfold stack_ready; rewrite Es; split_and!; [done | | | | |] | intros x Hx; apply E3; lia].
  - intros k Hk. apply (Hw (Z.to_nat (10 - k)) 0); [| lia].
    assert (k = 0 ∨ k = 1 ∨ k = 2 ∨ k = 3 ∨ k = 4 ∨ k = 5 ∨ k = 6) as Hks by lia.
    by destruct Hks as [-> | [-> | [-> | [-> | [-> | [-> | ->]]]]]].
  - apply (Hw 3%nat); [done | lia].
  - apply (Hw 2%nat); [done | lia].
  - apply (Hw 1%nat 8); [done | lia].
  - apply (Hw 0%nat 0x202); [done | lia].
Qed.

(** The entry a new task gets. *)
Definition new_task t (e stack proc : Z) : Task :=
  mkTask (next_pid t) TASK_READY e (stack + 4096 - 44) stack 4096 proc.

Lemma not_free x : state x ≠ TASK_FREE ↔ is_free x = false.
Proof. unfold is_free. by rewrite bool_decide_eq_false. Qed.

Lemma tasks_wf_add t i x y m pg n :
  tasks_wf t → tasks t !! i = Some x → is_free x = true → is_free y = false → page_addr (stack_bottom y) →
  pa_wf pg → ¬ pa_used (pages (mach t)) (stack_bottom y) →
  (∀ q, pa_used pg q ↔ q = stack_bottom y ∨ pa_used (pages (mach t)) q) →
  tasks_wf (mkTasks (<[i := y]> (tasks t)) (task_count_value t + 1) n (with_mem m (with_pages pg (mach t)))).
Proof.
  intros [W1 W2 W3 W4 W5] Hx Hfx Hfy Hpa Hpg Hnew Hu. pose proof (lookup_lt_Some _ _ _ Hx) as Hi.
  constructor; cbn [tasks task_count_value mach pages with_mem with_pages].
  - by rewrite length_insert.
  - rewrite (in_use_insert _ _ x) by done. rewrite Hfx, Hfy, W2. cbn. lia.
  - done.
  - intros j z Hz Hnf. apply list_lookup_insert_Some in Hz as [(<- & <- & _) | (Hne & Hz)].
    + split; [done |]. apply Hu. by left.
    + destruct (W4 j z Hz Hnf) as [? ?]. split; [done |]. apply Hu. by right.
  - intros j k z w Hz Hw Hnz Hnw E. apply list_lookup_insert_Some in Hz, Hw.
    destruct Hz as [(<- & <- & _) | (Hne & Hz)], Hw as [(<- & <- & _) | (Hne' & Hw)]; [done | | | by apply (W5 j k z w)].
    + destruct Hnew. rewrite E. by apply (W4 k w).
    + destruct Hnew. rewrite <- E. by apply (W4 j z).
Qed.

Lemma aset_insert l i y : 0 ≤ i → aset l i y = <[Z.to_nat i := y]> l.
Proof. intros Hi. unfold aset. zcase; [lia | done]. Qed.

Lemma task_create_run trampoline fuel e proc t :
  tasks_wf t →
  let '(stack, pg) := pa_alloc (pages (mach t)) in
  if stack =? 0 then task_create trampoline fuel e proc t = Ok (None, t)
  else match free_slot (tasks t) 0 with
  | Some i => ∃ t', task_create trampoline fuel e proc t = Ok (Some i, t') ∧ tasks_wf t' ∧
      tasks t' = <[Z.to_nat i := new_task t e stack proc]> (tasks t) ∧ next_pid t' = u32 (next_pid t + 1) ∧
      stack_ready (mem (mach t')) trampoline e (stack + 4096 - 44) stack ∧
      (∀ q, pa_used (pages (mach t')) q ↔ q = stack ∨ pa_used (pages (mach t)) q)
  | None => h_magic (mem (mach t)) (stack - 16) ≠ HEAP_MAGIC →
      ∃ t', task_create trampoline fuel e proc t = Ok (None, t') ∧ tasks t' = tasks t ∧
        (∀ q, pa_used (pages (mach t')) q ↔ q = stack ∨ pa_used (pages (mach t)) q)
  end.
Proof.
  intros Hwf. unfold task_create. destruct (pa_alloc (pages (mach t))) as [stack pg] eqn:Ea.
  destruct (Z.eqb_spec stack 0) as [-> | Hs].
  { rewrite (pa_alloc_null _ _ (tk_alloc _ Hwf) Ea). by destruct t as [? ? ? []]. }
  destruct (pa_alloc_ok _ _ _ (tk_alloc _ Hwf) Ea Hs) as (Hpg & Hpa & Hnew & Hu).
  destruct (task_frame_spec trampoline e stack (memset (mem (with_pages pg (mach t))) stack 0 4096) Hpa) as [Hr Hout].
  destruct (task_frame trampoline e (stack + 4096) _) as [sp m]. cbn [fst snd] in Hr, Hout.
  pose proof Hr as (Esp & _). subst sp. destruct (free_slot (tasks t) 0) as [i |] eqn:Ef.
  - destruct (free_slot_spec _ _ _ (Z.le_refl 0) Ef) as (Hi & x & Hx & Hfx). rewrite Z.sub_0_r in Hx.
    eexists. split; [reflexivity |]. rewrite aset_insert by done. split; [| split_and!; [done | done | done | exact Hu]].
    by apply (tasks_wf_add t _ x).
  - intros Hm. exists (mkTasks (tasks t) (task_count_value t) (next_pid t) (with_mem m (with_pages pg (mach t)))).
    split; [| split; [reflexivity | exact Hu]].
    unfold kfree. destruct (Z.eqb_spec stack 0); [done |]. destruct Hpa as (H1 & H2 & H3).
    assert (Hh : header_from_ptr stack = stack - 16) by (unfold header_from_ptr; apply u32_id; mlia). rewrite Hh.
    assert (Hv : is_valid (mem (with_mem m (with_pages pg (mach t)))) (stack - 16) = false).
    { unfold is_valid. apply Z.eqb_neq. intros E. apply Hm. rewrite <- E. hfields. symmetry. apply rd32_ext. intros z Hz.
      cbn [mem with_mem]. rewrite Hout by lia. apply rd8_memset_out. lia. }
    rewrite Hv. reflexivity.
Qed.

(** ** Cleaning up *)

(** An entry after it was cleaned up. *)
Definition cleaned (x : Task) : Task := mkTask 0 TASK_FREE (entry x) (esp x) 0 (stack_size x) 0.
Definition is_dead (x : Task) : bool := bool_decide (state x = TASK_DEAD).
Definition clean (x : Task) : Task := if is_dead x then cleaned x else x.

Lemma cleanup_one_spec t i x :
  tasks_wf t → 0 ≤ i → tasks t !! Z.to_nat i = Some x →
  let t' := cleanup_one i t in
  tasks_wf t' ∧ tasks t' = <[Z.to_nat i := clean x]> (tasks t) ∧
  (∀ q, pa_used (pages (mach t')) q ↔ pa_used (pages (mach t)) q ∧ ¬ (is_dead x = true ∧ stack_bottom x = q)).
Proof.
  intros Hwf Hi Hx. unfold cleanup_one, clean. rewrite (aget_lookup _ _ x) by done. cbv zeta. fold (is_dead x).
  destruct (is_dead x) eqn:Ed.
  2: { split; [done |]. split; [by rewrite list_insert_id | naive_solver]. }
  apply bool_decide_eq_true in Ed. assert (Hnf : state x ≠ TASK_FREE) by (rewrite Ed; done).
  destruct (tk_stack _ Hwf _ _ Hx Hnf) as [Hpa Hus]. destruct (Z.eqb_spec (stack_bottom x) 0) as [E0 | _]; [destruct Hpa; lia |].
  cbn [negb]. destruct (pa_free_ok _ _ (tk_alloc _ Hwf) Hpa Hus) as [Hpg Hu]. rewrite aset_insert by done.
  pose proof Hwf as [W1 W2 W3 W4 W5]. pose proof (lookup_lt_Some _ _ _ Hx) as Hlt.
  split; [constructor; cbn [tasks task_count_value mach pages with_pages] | split; [done |]].
  - by rewrite length_insert.
  - rewrite (in_use_insert _ _ x) by done. apply not_free in Hnf. rewrite Hnf, W2.
    change (is_free (mkTask 0 TASK_FREE _ _ 0 _ 0)) with true. cbn [negb Z.b2z]. lia.
  - done.
  - intros j z Hz Hnz. apply list_lookup_insert_Some in Hz as [(_ & <- & _) | (Hne & Hz)]; [done |].
    destruct (W4 j z Hz Hnz) as [? ?]. split; [done |]. apply Hu. split; [done |]. intros E. apply Hne.
    by apply (W5 (Z.to_nat i) j x z).
  - intros j k z w Hz Hw Hnz Hnw. apply list_lookup_insert_Some in Hz, Hw.
    destruct Hz as [(_ & <- & _) | (_ & Hz)], Hw as [(_ & <- & _) | (_ & Hw)]; [done | done | done | by apply W5].
  - intros q. cbn [mach pages with_pages]. rewrite Hu. naive_solver.
Qed.

Lemma task_cleanup_run t :
  tasks_wf t →
  tasks_wf (task_cleanup_dead t) ∧ tasks (task_cleanup_dead t) = map clean (tasks t) ∧
  ∀ q, pa_used (pages (mach (task_cleanup_dead t))) q ↔
    pa_used (pages (mach t)) q ∧ ¬ ∃ x, x ∈ tasks t ∧ is_dead x = true ∧ stack_bottom x = q.
Proof.
  intros Hwf. pose proof (tk_len _ Hwf) as Hl.
  set (P := λ k (t' : tasks_t Pg), tasks_wf t' ∧
    (∀ i, tasks t' !! i = if decide (i < Z.to_nat k)%nat then clean <$> tasks t !! i else tasks t !! i) ∧
    ∀ q, pa_used (pages (mach t')) q ↔ pa_used (pages (mach t)) q ∧
      ¬ ∃ i x, (i < Z.to_nat k)%nat ∧ tasks t !! i = Some x ∧ is_dead x = true ∧ stack_bottom x = q).
  assert (Hinv : P 16 (task_cleanup_dead t)).
  { apply (loop_n_ind P 16 0).
    { split; [done |]. split; [done |]. intros q. split; [| naive_solver]. intros Hq. split; [done |].
      intros (i & x & Hi & _). cbn in Hi. lia. }
    intros k t' Hk (Hw & Ht & Hu). destruct (lookup_lt_is_Some_2 (tasks t) (Z.to_nat k) ltac:(lia)) as [x Hx].
    assert (Hx' : tasks t' !! Z.to_nat k = Some x) by (rewrite Ht; destruct (decide _); [lia | done]).
    destruct (cleanup_one_spec t' k x Hw ltac:(lia) Hx') as (Hw1 & Ht1 & Hu1). split; [done |]. split.
    - intros i. rewrite Ht1. destruct (decide (i = Z.to_nat k)) as [-> | Hne].
      + rewrite list_lookup_insert_eq by (by eapply lookup_lt_Some). rewrite Hx. destruct (decide _); [done | lia].
      + rewrite list_lookup_insert_ne by done. rewrite Ht. destruct (decide _), (decide _); done || lia.
    - intros q. rewrite Hu1, Hu. split.
      + intros [[Hq Hn] Hd]. split; [done |]. intros (i & y & Hi & Hy & Hdy & Es).
        destruct (decide (i = Z.to_nat k)) as [-> | Hne]; [rewrite Hx in Hy; injection Hy as <-; by apply Hd |].
        apply Hn. exists i, y. split; [lia | done].
      + intros [Hq Hn]. split; [split; [done |] |].
        * intros (i & y & Hi & Hy). apply Hn. exists i, y. split; [lia | done].
        * intros [Hd Es]. apply Hn. exists (Z.to_nat k), x. split; [lia | done]. }
  destruct Hinv as (Hw & Ht & Hu). split; [done |]. split.
  - apply list_eq. intros i. rewrite Ht, list_lookup_fmap. destruct (decide _); [done |].
    rewrite lookup_ge_None_2 by lia. done.
  - intros q. rewrite Hu. split; intros [Hq Hn]; (split; [done |]); intros Hex; apply Hn.
    + destruct Hex as (x & Hx & Hd). apply list_elem_of_lookup in Hx as [i Hi]. exists i, x.
      pose proof (lookup_lt_Some _ _ _ Hi). split; [lia | done].
    + destruct Hex as (i & x & _ & Hx & Hd). exists x. split; [by eapply list_elem_of_lookup_2 | done].
Qed.

(** Creating a task. With a page left and a free entry, the first free entry
    gets the next id, the entry point and a stack of its own, a page that was
    not in use; on that stack are seven cleared registers, the entry point in
    eax, and the return to [task_trampoline] in ring 0. Every other entry is as
    it was and the table stays well formed. Without a page the result is null
    and nothing has changed. *)
Theorem task_create_spec trampoline fuel e proc t :
  tasks_wf t → Exists (λ x, is_free x = true) (tasks t) →
  (fst (pa_alloc (pages (mach t))) = 0 ∧ task_create trampoline fuel e proc t = Ok (None, t)) ∨
  ∃ i stack t', task_create trampoline fuel e proc t = Ok (Some i, t') ∧ tasks_wf t' ∧
    0 ≤ i < 16 ∧ is_free (aget (tasks t) i) = true ∧ ¬ pa_used (pages (mach t)) stack ∧
    tasks t' = aset (tasks t) i (new_task t e stack proc) ∧
    stack_ready (mem (mach t')) trampoline e (stack + 4096 - 44) stack.
Proof.
  intros Hwf Hex. pose proof (task_create_run trampoline fuel e proc t Hwf) as Hrun.
  destruct (pa_alloc (pages (mach t))) as [stack pg] eqn:Ea.
  destruct (Z.eqb_spec stack 0) as [-> | Hs]; [by left | right].
  destruct (pa_alloc_ok _ _ _ (tk_alloc _ Hwf) Ea Hs) as (_ & _ & Hnew & _).
  destruct (free_slot (tasks t) 0) as [i |] eqn:Ef.
  - destruct (free_slot_spec _ _ _ (Z.le_refl 0) Ef) as (Hi & x & Hx & Hfx). rewrite Z.sub_0_r in Hx.
    pose proof (lookup_lt_Some _ _ _ Hx). pose proof (tk_len _ Hwf).
    destruct Hrun as (t' & E & Hwf' & Ht & _ & Hr & _). exists i, stack, t'.
    rewrite (aget_lookup _ _ x), aset_insert by done. split_and!; done || lia.
  - exfalso. apply free_slot_full in Ef. rewrite Exists_exists in Hex. destruct Hex as (x & Hx & Hfx).
    rewrite Forall_forall in Ef. by rewrite (Ef x Hx) in Hfx.
Qed.

(** [task_cleanup_dead] frees the entries of the dead tasks and gives back
    their stacks, exactly these pages, and leaves all other entries alone; the
    counter stays the number of entries in use. *)
Theorem task_cleanup_dead_spec t :
  tasks_wf t →
  tasks_wf (task_cleanup_dead t) ∧ tasks (task_cleanup_dead t) = map clean (tasks t) ∧
  Forall (λ x, state x ≠ TASK_DEAD) (tasks (task_cleanup_dead t)) ∧
  ∀ q, pa_used (pages (mach (task_cleanup_dead t))) q ↔
    pa_used (pages (mach t)) q ∧ ¬ ∃ x, x ∈ tasks t ∧ is_dead x = true ∧ stack_bottom x = q.
Proof.
  intros Hwf. destruct (task_cleanup_run t Hwf) as (H1 & H2 & H3). split; [done |]. split; [done |]. split; [| done].
  rewrite H2. apply Forall_forall. intros y Hy. apply list_elem_of_fmap in Hy as (x & -> & _).
  unfold clean. destruct (is_dead x) eqn:Ed; [done |]. by apply bool_decide_eq_false in Ed.
Qed.

(** With all 16 entries in use [task_create] returns null after it has given
    the stack to [kfree], which only knows blocks of the heap: unless the word
    below the page happens to be the magic number of the heap, the page stays in
    use, and it is not the stack of any task, so no clean-up gives it back. *)
Theorem task_create_leaks_page trampoline fuel e proc t stack pg :
  tasks_wf t → Forall (λ x, is_free x = false) (tasks t) →
  pa_alloc (pages (mach t)) = (stack, pg) → stack ≠ 0 → h_magic (mem (mach t)) (stack - 16) ≠ HEAP_MAGIC →
  ∃ t', task_create trampoline fuel e proc t = Ok (None, t') ∧ tasks t' = tasks t ∧
    ¬ pa_used (pages (mach t)) stack ∧ pa_used (pages (mach t')) stack ∧
    ∀ x, x ∈ tasks t' → stack_bottom x ≠ stack.
Proof.
  intros Hwf Hall Ea Hs Hm. pose proof (task_create_run trampoline fuel e proc t Hwf) as Hrun. rewrite Ea in Hrun.
  destruct (Z.eqb_spec stack 0); [done |]. destruct (pa_alloc_ok _ _ _ (tk_alloc _ Hwf) Ea Hs) as (_ & _ & Hnew & _).
  rewrite Forall_forall in Hall. destruct (free_slot (tasks t) 0) as [i |] eqn:Ef.
  - exfalso. destruct (free_slot_spec _ _ _ (Z.le_refl 0) Ef) as (_ & x & Hx & Hfx).
    apply list_elem_of_lookup_2 in Hx. by rewrite (Hall x Hx) in Hfx.
  - destruct (Hrun Hm) as (t' & E & Ht & Hu). exists t'. split_and!; [done | done | done | apply Hu; by left |].
    intros x Hx E0. rewrite Ht in Hx. pose proof (Hall x Hx) as Hf. apply not_free in Hf.
    apply list_elem_of_lookup in Hx as [j Hj]. destruct (tk_stack _ Hwf j x Hj Hf) as [_ Hu0]. by rewrite E0 in Hu0.
Qed.
End properties.

(** ** Witnesses *)

Import Pmm.

(** A machine of 8 MiB with 16 tasks in the given state, their stacks in the
    reserved low memory. *)
Definition sixteen (s : TaskState) : tasks_t Pmm.pmm :=
  mkTasks (map (λ i, mkTask (i + 1) s 0x1000 0 (0x100000 + i * 4096) 4096 0) (seqZ 0 16)) 16 17 boot_machine.

Lemma sixteen_lookup s i x :
  tasks (sixteen s) !! i = Some x →
  (i < 16)%nat ∧ x = mkTask (Z.of_nat i + 1) s 0x1000 0 (0x100000 + Z.of_nat i * 4096) 4096 0.
Proof.
  unfold sixteen. cbn [tasks]. rewrite list_lookup_fmap. destruct (seqZ 0 16 !! i) as [j |] eqn:E; [| done].
  apply lookup_seqZ in E as [-> Hi]. intros [= <-]. split; [lia | done].
Qed.

Lemma low_page_used i : (i < 16)%nat → pa_used (pages boot_machine) (0x100000 + Z.of_nat i * 4096).
Proof. intros Hi. do 16 (destruct i as [|i]; [vm_compute; intuition discriminate |]). lia. Qed.

Lemma sixteen_wf s : s ≠ TASK_FREE → tasks_wf (sixteen s).
Proof.
  intros Hs. constructor.
  - reflexivity.
  - unfold sixteen, in_use. cbn [tasks task_count_value seqZ map Z.to_nat Pos.to_nat]. by destruct s.
  - apply Pmm.pmm_init_wf. lia.
  - intros i x Hx _. apply sixteen_lookup in Hx as [Hi ->]. cbn [stack_bottom]. split; [unfold page_addr; mlia |].
    by apply low_page_used.
  - intros i j x y Hx Hy _ _. apply sixteen_lookup in Hx as [_ ->]. apply sixteen_lookup in Hy as [_ ->]. cbn [stack_bottom]. lia.
Qed.

Lemma task_create_spec_witness :
  ∃ t', task_create 0x2000 10 0x3000 0 (mkTasks (replicate 16 zeroed) 0 1 boot_machine) = Ok (Some 0, t') ∧ tasks_wf t'.
Proof.
  assert (Hz : ∀ i x, replicate 16 (zeroed : Task) !! i = Some x → state x = TASK_FREE).
  { intros i x Hx. apply lookup_replicate in Hx as [-> _]. reflexivity. }
  destruct (task_create_spec 0x2000 10 0x3000 0 (mkTasks (replicate 16 zeroed) 0 1 boot_machine))
    as [(E & _) | (i & stack & t' & E & Hwf & _)].
  - constructor; cbn [tasks task_count_value mach].
    + reflexivity.
    + reflexivity.
    + apply Pmm.pmm_init_wf. lia.
    + intros i x Hx Hn. by rewrite (Hz i x Hx) in Hn.
    + intros i j x y Hx _ Hn. by rewrite (Hz i x Hx) in Hn.
  - apply Exists_cons_hd. reflexivity.
  - by vm_compute in E.
  - exists t'. split; [| exact Hwf]. rewrite E. f_equal. f_equal.
    assert (Ei : match task_create 0x2000 10 0x3000 0 (mkTasks (replicate 16 zeroed) 0 1 boot_machine) with
      Ok (Some j, _) => j =? 0 | _ => false end = true) by (vm_compute; reflexivity).
    rewrite E in Ei. apply Z.eqb_eq in Ei. by rewrite Ei.
Defined.

Lemma task_cleanup_dead_spec_witness :
  tasks_wf (task_cleanup_dead (sixteen TASK_DEAD)) ∧ ¬ pa_used (pages (mach (task_cleanup_dead (sixteen TASK_DEAD)))) 0x101000.
Proof.
  destruct (task_cleanup_dead_spec (sixteen TASK_DEAD)) as (H1 & _ & _ & H2); [apply sixteen_wf; discriminate |].
  split; [exact H1 |]. rewrite H2. intros [_ Hn]. apply Hn. exists (mkTask 2 TASK_DEAD 0x1000 0 0x101000 4096 0).
  split; [apply (list_elem_of_lookup_2 _ 1%nat); reflexivity | split; reflexivity].
Defined.

Lemma task_create_leaks_page_witness :
  ∃ t', task_create 0x2000 10 0x3000 0 (sixteen TASK_READY) = Ok (None, t') ∧ pa_used (pages (mach t')) 0x400000.
Proof.
  destruct (Pmm.pmm_alloc_page (pages boot_machine)) as [stack pg] eqn:Ea.
  assert (Es : stack = 0x400000).
  { replace stack with (fst (Pmm.pmm_alloc_page (pages boot_machine))) by (by rewrite Ea). vm_compute. reflexivity. }
  destruct (task_create_leaks_page 0x2000 10 0x3000 0 (sixteen TASK_READY) stack pg) as (t' & E & _ & _ & Hu & _).
  - apply sixteen_wf. discriminate.
  - apply Forall_forall. intros x Hx. apply list_elem_of_lookup in Hx as [i Hi]. apply sixteen_lookup in Hi as [_ ->]. reflexivity.
  - exact Ea.
  - rewrite Es. discriminate.
  - rewrite Es. vm_compute. discriminate.
  - exists t'. split; [exact E |]. rewrite <- Es. exact Hu.
Defined.
End Task.
