(* ===== verification/Syscall.v ===== *)
(** * System calls and interrupts: [syscalls/syscall.cpp], [interrupts/irq.cpp],
    [interrupts/keyboard_irq.cpp], [ipc/sleep.cpp], [drivers/timer.cpp]

    The state of the running system puts the components together: processes,
    keyboard, terminal with the I/O ports, and the tick counters. The entry
    stubs of [interrupts/isr_stub.s] and [interrupts/syscall_stub.s] compose
    the handlers with the scheduler; their instructions are in [Stubs].
    Addresses that user code passes are used
    as the code uses them, without a check. *)

From S2P Require Import Prelude Interfaces Machine Libk Ring Pmm Kmalloc Vmm Process Scheduler Ipc Keyboard Ports Terminal.

Module Syscall.
Import Libk Process Scheduler Ipc Keyboard Terminal.

Record system (Pg D : Type) := mkSys {
  kern : kernel Pg;
  keys : kbd * kbuf;
  term : terminal D;
  timer_ticks : Z;
  sleep_ticks : Z;
}.
Arguments mkSys {Pg D} _ _ _ _ _.
Arguments kern {Pg D} _.
Arguments keys {Pg D} _.
Arguments term {Pg D} _.
Arguments timer_ticks {Pg D} _.
Arguments sleep_ticks {Pg D} _.

Notation FAILED := 0xFFFFFFFF (only parsing).

(** ** The loops of the calls *)

(** [for(i < len) { if(!str[i]) break; terminal.putchar(str[i]); }] *)
Fixpoint write_user {D} `{!PortIO D} (fuel n : nat) (i str : Z) (m : memory) (t : terminal D) :
    outcome (terminal D) :=
  match n with
  | O => Ok t
  | S n' =>
      let c := rd8 m (u32 (str + i)) in
      if c =? 0 then Ok t
      else let! t := putchar fuel c t in write_user fuel n' (i + 1) str m t
  end.

(** [while(count < max) ...] *)
Fixpoint read_keys (n : nat) (count buf : Z) (b : kbuf) (m : memory) : Z * kbuf * memory :=
  match n with
  | O => (count, b, m)
  | S n' =>
      match keyboard_buffer_pop b with
      | Some (c, b) => read_keys n' (count + 1) buf b (wr8 m (u32 (buf + count)) c)
      | None => (count, b, m)
      end
  end.

Section syscall.
Context {Pg D : Type} `{!PageAllocOps Pg} `{!PortIO D}.
Implicit Types (s : system Pg D) (k : kernel Pg) (d : D).

Definition with_kern k s : system Pg D := mkSys k (keys s) (term s) (timer_ticks s) (sleep_ticks s).
Definition with_keys (b : kbd * kbuf) s : system Pg D :=
  mkSys (kern s) b (term s) (timer_ticks s) (sleep_ticks s).
Definition with_term (t : terminal D) s : system Pg D :=
  mkSys (kern s) (keys s) t (timer_ticks s) (sleep_ticks s).
Definition with_io d s : system Pg D := with_term (with_ports d (term s)) s.
Definition set_mem (m : memory) k : kernel Pg := with_mach (with_mem m (mach k)) k.

(** Call 4. *)
Definition sys_exit (code : Z) k : kernel Pg :=
  upd (scheduler_current_process k) (λ p, set_state TASK_DEAD (set_exit_code (s32 code) p)) k.

(** Call 5: the first dead child that fits is destroyed. *)
Definition reaps (me child : Process) (pid_arg : Z) : bool :=
  (parent_pid child =? pid me) && ((pid_arg <? 0) || (s32 (pid child) =? pid_arg)) &&
  bool_decide (state child = TASK_DEAD).
Fixpoint wait_scan (fuel n : nat) (i pid_arg : Z) (me : Process) k : outcome (Z * kernel Pg) :=
  match n with
  | O => Ok (FAILED, k)
  | S n' =>
      match proc_at k i with
      | Some child =>
          if reaps me child pid_arg then
            let! k := process_destroy fuel (process_get i k) k in Ok (pid child, k)
          else wait_scan fuel n' (i + 1) pid_arg me k
      | None => wait_scan fuel n' (i + 1) pid_arg me k
      end
  end.
Definition sys_wait (fuel : nat) (pid_arg : Z) k : outcome (Z * kernel Pg) :=
  match procs k !! scheduler_current_process k with
  | None => Ok (FAILED, k)
  | Some me => wait_scan fuel (Z.to_nat (process_total k)) 0 pid_arg me k
  end.

(** Call 6. *)
Fixpoint kill_scan (n : nat) (i pid_arg : Z) k : Z * kernel Pg :=
  match n with
  | O => (FAILED, k)
  | S n' =>
      match proc_at k i with
      | Some p =>
          if s32 (pid p) =? pid_arg then (0, upd (process_get i k) (set_state TASK_DEAD) k)
          else kill_scan n' (i + 1) pid_arg k
      | None => kill_scan n' (i + 1) pid_arg k
      end
  end.
Definition sys_kill (pid_arg : Z) k : Z * kernel Pg :=
  kill_scan (Z.to_nat (process_total k)) 0 pid_arg k.

Definition syscall_dispatch (fuel : nat) (eax ebx ecx edx : Z) s : outcome (Z * system Pg D) :=
  if eax =? 1 then Ok (timer_ticks s, s)
  else if eax =? 2 then
    if ebx =? 0 then Ok (0, s)
    else
      let! t := write_user fuel (Z.to_nat ecx) 0 ebx (mem (mach (kern s))) (term s) in
      Ok (ecx, with_term t s)
  else if eax =? 3 then
    if (ebx =? 0) || (ecx =? 0) then Ok (0, s)
    else
      let '(count, b, m) := read_keys (Z.to_nat ecx) 0 ebx (snd (keys s)) (mem (mach (kern s))) in
      Ok (count, with_keys (fst (keys s), b) (with_kern (set_mem m (kern s)) s))
  else if eax =? 4 then Ok (0, with_kern (sys_exit ebx (kern s)) s)
  else if eax =? 5 then
    let! (r, k) := sys_wait fuel (s32 ebx) (kern s) in Ok (r, with_kern k s)
  else if eax =? 6 then
    let '(r, k) := sys_kill (s32 ebx) (kern s) in Ok (r, with_kern k s)
  else if eax =? 7 then
    let '(r, k) := ipc_send (u32 (s32 ebx)) ecx edx (kern s) in Ok (u32 r, with_kern k s)
  else if eax =? 8 then
    let '(r, k) := ipc_recv 0 ebx ecx (kern s) in Ok (u32 r, with_kern k s)
  else Ok (FAILED, s).

(** ** Interrupt handlers *)

Definition sleep_init s : system Pg D := mkSys (kern s) (keys s) (term s) (timer_ticks s) 0.
Definition sleep_tick s : system Pg D :=
  mkSys (kern s) (keys s) (term s) (timer_ticks s) (u32 (sleep_ticks s + 1)).

(** The channel-0 divisor for a frequency, low byte first. *)
Definition timer_init (frequency : Z) d : D :=
  let divisor := 1193180 / frequency in
  let d := outb 0x43 0x36 d in
  let d := outb 0x40 (u8 (Z.land divisor 0xFF)) d in
  outb 0x40 (u8 (Z.land (Z.shiftr divisor 8) 0xFF)) d.

Definition irq_handler s : system Pg D :=
  let s := mkSys (kern s) (keys s) (term s) (u32 (timer_ticks s + 1)) (sleep_ticks s) in
  let s := sleep_tick s in
  with_io (outb 0x20 0x20 (ports (term s))) s.

(** The stub [irq0]: the handler, then the scheduler with the stack pointer
    of the saved registers; the result is the stack to continue with. *)
Definition irq0 (esp : Z) s : Z * system Pg D :=
  let s := irq_handler s in
  let '(esp, k) := scheduler_tick esp (kern s) in (esp, with_kern k s).

(** The stub [irq1] with [keyboard_irq_handler]. *)
Definition irq1 s : system Pg D :=
  let '(scancode, d) := inb 0x60 (ports (term s)) in
  let s := with_keys (keyboard_irq_handler scancode (keys s)) (with_io d s) in
  with_io (outb 0x20 0x20 (ports (term s))) s.

(** The stub of [int 0x80]: [esp] is the stack pointer after [pusha]. The
    result goes to the saved [eax], and the scheduler runs. *)
Definition syscall_stub (fuel : nat) (eax ebx ecx edx esp : Z) s : outcome (Z * system Pg D) :=
  let! (r, s) := syscall_dispatch fuel eax ebx ecx edx s in
  let k := set_mem (wr32 (mem (mach (kern s))) (u32 (esp + 28)) r) (kern s) in
  let '(esp, k) := scheduler_tick esp k in
  Ok (esp, with_kern k s).

(** [sleep_ms]: every [hlt] lasts until the next interrupt, here the timer. *)
Definition sleep_target (ms : Z) s : Z := u32 (sleep_ticks s + ms / 10).
Fixpoint sleep_loop (fuel : nat) (target : Z) s : outcome (system Pg D) :=
  match fuel with
  | O => NoFuel
  | S f => if sleep_ticks s <? target then sleep_loop f target (irq_handler s) else Ok s
  end.
Definition sleep_ms (fuel : nat) (ms : Z) s : outcome (system Pg D) :=
  sleep_loop fuel (sleep_target ms s) s.
End syscall.

(** ** Input and output *)

(** The characters of a list before the first zero. *)
Fixpoint until_zero (l : list Z) : list Z :=
  match l with
  | [] => []
  | c :: rest => if c =? 0 then [] else c :: until_zero rest
  end.

Lemma store_bytes_app m a l l' :
  store_bytes m a (l ++ l') = store_bytes (store_bytes m a l) (a + zlen l) l'.
Proof.
  revert m a. induction l as [|b l IH]; intros m a; cbn [app store_bytes length]; [f_equal; lia |].
  rewrite IH. f_equal. lia.
Qed.

(** The pops fill the buffer with the oldest characters. *)
Lemma read_keys_run n count buf b m :
  kbuf_wf b → 0 ≤ count → 0 ≤ buf → buf + count + Z.of_nat n ≤ W32 →
  ∃ b', read_keys n count buf b m =
      (count + zlen (take n (pending b)), b', store_bytes m (buf + count) (take n (pending b))) ∧
    kbuf_wf b' ∧ pending b' = drop n (pending b).
Proof.
  revert count b m. induction n as [|n IH]; intros count b m Hb Hc Hbuf Hn.
  { exists b. cbn. rewrite Z.add_0_r. done. }
  cbn [read_keys]. pose proof (pop_spec b Hb) as Hpop. destruct (pending b) as [|c rest] eqn:Hp.
  - rewrite Hpop. exists b. cbn. rewrite Z.add_0_r. done.
  - destruct Hpop as (b' & -> & Hb' & Hrest).
    destruct (IH (count + 1) b' (wr8 m (u32 (buf + count)) c) Hb') as (b2 & E & Hb2 & Hp2); [lia | lia | lia |].
    exists b2. rewrite E, Hrest in *. rewrite u32_id by lia. cbn [take drop store_bytes length].
    split_and!; [| done | done]. rewrite Z.add_assoc. f_equal. f_equal. lia.
Qed.

Section io.
Context {Pg D : Type} `{!PageAllocOps Pg} `{!PortIO D} `{!SerialReady (D := D)}.
Implicit Types (s : system Pg D).

(** A string of user memory goes to the terminal up to its end. *)
Lemma write_user_shows fuel n i str m (t : terminal D) p :
  (0 < fuel)%nat → shows t p → 0 ≤ i → 0 ≤ str → str + i + Z.of_nat n ≤ W32 →
  ∃ t', write_user fuel n i str m t = Ok t' ∧
    shows t' (foldl paper_put p (until_zero (bytes_at m (str + i) n))).
Proof.
  intros Hf. revert i t p. induction n as [|n IH]; intros i t p Hs Hi Hstr Hn; [by exists t |].
  cbn [write_user]. rewrite u32_id by lia.
  rewrite bytes_at_S, <- Z.add_assoc. cbn [until_zero]. destruct (rd8 m (str + i) =? 0); [by exists t |].
  destruct (putchar_shows fuel (rd8 m (str + i)) t p Hf Hs) as (t1 & E1 & Hs1). rewrite E1. cbn [obind foldl].
  by apply IH; try lia.
Qed.

(** C18: the write call shows the bytes of the user's string up to its end or
    the given length on the terminal, and the read call takes the oldest
    pending characters in order, as many as fit, into the user's buffer and
    leaves the rest for later. Neither touches anything else. *)
Theorem syscall_console fuel ebx ecx edx s p :
  (0 < fuel)%nat → shows (term s) p → kbuf_wf (snd (keys s)) → 0 < ebx → 0 < ecx → ebx + ecx ≤ W32 →
  (∃ s', syscall_dispatch fuel 2 ebx ecx edx s = Ok (ecx, s') ∧
     shows (term s') (foldl paper_put p (until_zero (bytes_at (mem (mach (kern s))) ebx (Z.to_nat ecx)))) ∧
     kern s' = kern s ∧ keys s' = keys s) ∧
  (let got := take (Z.to_nat ecx) (pending (snd (keys s))) in
   ∃ s', syscall_dispatch fuel 3 ebx ecx edx s = Ok (zlen got, s') ∧
     pending (snd (keys s')) = drop (Z.to_nat ecx) (pending (snd (keys s))) ∧ kbuf_wf (snd (keys s')) ∧
     mem (mach (kern s')) = store_bytes (mem (mach (kern s))) ebx got ∧
     procs (kern s') = procs (kern s) ∧ term s' = term s).
Proof.
  intros Hf Hs Hb He Hc Hr. split; unfold syscall_dispatch; cbn [Z.eqb Pos.eqb]; destruct (Z.eqb_spec ebx 0); try lia.
  - destruct (write_user_shows fuel (Z.to_nat ecx) 0 ebx (mem (mach (kern s))) (term s) p Hf Hs) as (t & E & Ht);
      [lia | lia | lia |]. rewrite E. cbn [obind]. rewrite Z.add_0_r in Ht. by eexists.
  - destruct (Z.eqb_spec ecx 0); [lia |]. cbn [orb].
    destruct (read_keys_run (Z.to_nat ecx) 0 ebx (snd (keys s)) (mem (mach (kern s))) Hb) as (b' & E & Hb' & Hp');
      [lia | lia | lia |]. rewrite E. rewrite Z.add_0_l, Z.add_0_r. eexists. split; [reflexivity |]. done.
Qed.
End io.

(** ** Calls that change processes *)

Section processes.
Context {Pg D : Type} `{!PageAllocOps Pg} `{!PortIO D}.
Implicit Types (s : system Pg D) (k : kernel Pg).

(** A tick changes processes and the processor, not memory or queues. *)
Lemma tick_frame esp k :
  let k' := snd (scheduler_tick esp k) in queues k' = queues k ∧ mem (mach k') = mem (mach k).
Proof.
  assert (Hs : queues (suspend esp k) = queues k ∧ mem (mach (suspend esp k)) = mem (mach k)).
  { unfold suspend. by repeat case_match. }
  assert (Hw : ∀ q k, queues (process_switch q k) = queues k ∧ mem (mach (process_switch q k)) = mem (mach k)).
  { intros q k0. unfold process_switch. by repeat case_match. }
  cbv zeta. unfold scheduler_tick. destruct (process_total k =? 0); [done |].
  destruct (procs (suspend esp k) !! _); [| exact Hs].
  cbn [snd queues mach with_current upd with_procs]. by rewrite (proj1 (Hw _ _)), (proj2 (Hw _ _)).
Qed.

Lemma current_process_ptr k i :
  table_wf k → current_process k = i → 0 ≤ i < process_count k → scheduler_current_process k = process_get i k.
Proof. intros Hwf <- Hi. unfold scheduler_current_process. destruct (Z.ltb_spec (current_process k) 0); [lia | done]. Qed.

Lemma set_mem_wf m k : table_wf k → table_wf (set_mem m k).
Proof. intros Hwf. apply (table_wf_same k); [done | by split | apply Hwf]. Qed.

Lemma exit_effect code k i p :
  table_wf k → current_process k = i → 0 ≤ i < process_count k → proc_at k i = Some p →
  table_wf (sys_exit code k) ∧ process_count (sys_exit code k) = process_count k ∧
  ∀ j, 0 ≤ j < process_count k → proc_at (sys_exit code k) j =
    if j =? i then Some (set_state TASK_DEAD (set_exit_code (s32 code) p)) else proc_at k j.
Proof.
  intros Hwf Hc Hi Hp. unfold sys_exit. rewrite (current_process_ptr k i) by done. split_and!; [| done |].
  - apply (table_wf_same k); [done | apply same_table_upd | apply Hwf].
  - intros j Hj. rewrite proc_at_upd by done. destruct (Z.eqb_spec j i) as [-> |]; [by rewrite Hp | done].
Qed.

(** What happens after process [i] died, until it is removed from the table:
    ticks, and any other changes that leave it dead and do not make it the
    current process. *)
Definition dead_at k (i : Z) : Prop := ∃ p, proc_at k i = Some p ∧ state p = TASK_DEAD.
Inductive afterlife (i : Z) : kernel Pg → kernel Pg → Prop :=
| after_tick esp k : afterlife i k (snd (scheduler_tick esp k))
| after_work k k' :
    table_wf k' → dead_at k' i → i < process_count k' → current_process k' = current_process k → afterlife i k k'.

(** A tick keeps a dead process dead and goes on with another one. *)
Lemma tick_dead esp k i :
  table_wf k → 0 ≤ i < process_count k → dead_at k i →
  let k' := snd (scheduler_tick esp k) in
  table_wf k' ∧ process_count k' = process_count k ∧ dead_at k' i ∧ (current_process k ≠ i → current_process k' ≠ i).
Proof.
  intros Hwf Hi (p & Hp & Hd). cbv zeta. destruct (scheduler_tick esp k) as [e k'] eqn:E. cbn [snd].
  destruct (tick_effect esp k e k' Hwf ltac:(lia) E) as (Hwf' & Hst & Hc). split; [done |]. split; [apply Hst |].
  assert (Hr : runnable k i = false) by (rewrite runnable_proc_at, Hp; by rewrite Hd).
  destruct (suspend_effect esp k Hwf) as (_ & Hcu & _ & Hsus).
  assert (Hs : dead_at (suspend esp k) i).
  { unfold dead_at. rewrite Hsus, Hp by done. destruct (i =? current_process k); [| by exists p].
    eexists. split; [reflexivity |]. unfold suspended. rewrite Hd. by repeat case_decide. }
  destruct Hc as [(_ & _ & ->) | (n & q & Hn & Hrn & Hcn & _ & _ & Hp' & _)]; [split; [done |]; by rewrite Hcu |].
  assert (Hne : n ≠ i) by congruence. split; [| congruence].
  unfold dead_at. rewrite Hp' by done. destruct (Z.eqb_spec i n); [congruence | done].
Qed.

Lemma afterlife_dead i k k' :
  0 ≤ i → reach (afterlife i) k k' →
  table_wf k → i < process_count k → dead_at k i → current_process k ≠ i →
  table_wf k' ∧ i < process_count k' ∧ dead_at k' i ∧ current_process k' ≠ i.
Proof.
  intros Hi Hr H1 H2 H3 H4.
  apply (reach_invariant (afterlife i) (λ k, table_wf k ∧ i < process_count k ∧ dead_at k i ∧ current_process k ≠ i) k);
    [| done | done].
  intros x y (Hwf & Hlt & Hd & Hc) Hs. destruct Hs as [esp z | z z' Hwf' Hd' Hlt' Hc'].
  - destruct (tick_dead esp z i Hwf ltac:(lia) Hd) as (? & E & ? & ?). split_and!; [done | lia | done | auto].
  - split_and!; [done.. | congruence].
Qed.

(** C22: the exit call, through the stub that runs the scheduler after it,
    records the code and marks the caller dead. When another process is
    runnable, one of these is continued, and the caller never is: after any
    sequence of ticks, with any work in between that leaves the caller dead in
    its place of the table and does not itself switch processes, it is not the
    current process. When no other process is runnable, the stub returns to
    the dead caller. *)
Theorem syscall_exit_never_resumed fuel code ecx edx esp s i p :
  table_wf (kern s) → current_process (kern s) = i → 0 ≤ i < process_count (kern s) →
  proc_at (kern s) i = Some p →
  ∃ esp' s', syscall_stub fuel 4 code ecx edx esp s = Ok (esp', s') ∧
    (∃ p', proc_at (kern s') i = Some p' ∧ state p' = TASK_DEAD ∧ exit_code p' = s32 code) ∧
    ((∃ j, 0 ≤ j < process_count (kern s) ∧ j ≠ i ∧ runnable (kern s) j = true) →
       runnable (kern s) (current_process (kern s')) = true ∧
       ∀ k, reach (afterlife i) (kern s') k → current_process k ≠ i ∧ dead_at k i) ∧
    ((∀ j, 0 ≤ j < process_count (kern s) → j ≠ i → runnable (kern s) j = false) →
       esp' = esp ∧ current_process (kern s') = i).
Proof.
  intros Hwf Hc Hi Hp. destruct (exit_effect code (kern s) i p Hwf Hc Hi Hp) as (Hwf1 & Hcnt & Hat).
  unfold syscall_stub, syscall_dispatch. cbn [Z.eqb Pos.eqb obind kern with_kern].
  set (k1 := set_mem _ _).
  assert (Hwf2 : table_wf k1) by (by apply set_mem_wf).
  assert (Hat1 : ∀ j, proc_at k1 j = proc_at (sys_exit code (kern s)) j) by done.
  assert (Hcnt1 : process_count k1 = process_count (kern s)) by done.
  assert (Hcur1 : current_process k1 = i) by done. clearbody k1.
  destruct (scheduler_tick esp k1) as [esp' k'] eqn:Et.
  destruct (tick_effect esp k1 esp' k' Hwf2) as (Hwf' & Hst & Hcases); [lia | done |].
  exists esp', (with_kern k' s). split; [done |]. cbn [kern with_kern].
  destruct (suspend_effect esp k1 Hwf2) as (_ & Hcu & _ & Hsus).
  assert (Hdead : proc_at k1 i = Some (set_state TASK_DEAD (set_exit_code (s32 code) p))).
  { by rewrite Hat1, Hat, Z.eqb_refl. }
  assert (Hnr : runnable k1 i = false) by (rewrite runnable_proc_at, Hdead; done).
  assert (Hsi : proc_at (suspend esp k1) i = Some (set_state TASK_DEAD (set_exit_code (s32 code) p))).
  { rewrite Hsus, Hdead by lia. by destruct (i =? current_process k1). }
  assert (Hsame : ∀ j, 0 ≤ j < process_count (kern s) → j ≠ i → runnable k1 j = runnable (kern s) j).
  { intros j Hj Hne. rewrite !runnable_proc_at, Hat1, Hat by done. by destruct (Z.eqb_spec j i). }
  destruct Hcases as [(Hnone & -> & ->) | (n & q & Hn & Hr & Hcn & _ & _ & Hp' & _)].
  - split; [by eexists |]. split; [| intros _; split; [done | by rewrite Hcu]].
    intros (j & Hj & Hne & Hrj). rewrite <- Hsame, Hnone in Hrj by (done || lia). done.
  - assert (Hne : n ≠ i) by congruence.
    assert (Hpi : proc_at k' i = Some (set_state TASK_DEAD (set_exit_code (s32 code) p))).
    { rewrite Hp' by lia. by destruct (Z.eqb_spec i n); [congruence |]. }
    split; [by eexists |]. split.
    + intros _. rewrite Hcn. split; [by rewrite <- Hsame by (done || lia) |]. intros k Hk.
      pose proof (st_count _ _ Hst) as Hcnt'.
      destruct (afterlife_dead i k' k) as (_ & _ & Hd & Hnc); [lia | done | done | lia | by eexists | congruence | done].
    + intros Hall. rewrite Hsame, Hall in Hr by (done || lia). done.
Qed.

(** What a wait call that returns has done. *)
Lemma wait_scan_cases fuel n i a me k r k' :
  table_wf k → 0 ≤ i → i + Z.of_nat n ≤ process_count k →
  wait_scan fuel n i a me k = Ok (r, k') →
  (r = FAILED ∧ k' = k ∧ ∀ j c, i ≤ j < i + Z.of_nat n → proc_at k j = Some c → reaps me c a = false) ∨
  ∃ j c, i ≤ j < i + Z.of_nat n ∧ proc_at k j = Some c ∧ reaps me c a = true ∧ r = pid c ∧
    process_destroy fuel (process_get j k) k = Ok k'.
Proof.
  intros Hwf. revert i. induction n as [|n IH]; intros i Hi Hn E; cbn [wait_scan] in E.
  { injection E as <- <-. left. split_and!; [done | done | lia]. }
  destruct (tw_live k Hwf i) as [c Hc]; [lia |]. rewrite Hc in E. destruct (reaps me c a) eqn:Hr.
  - apply obind_Ok in E as (k1 & Ed & E). injection E as <- <-. right. exists i, c. split_and!; try done; lia.
  - destruct (IH (i + 1) ltac:(lia) ltac:(lia) E) as [(-> & -> & Hnone) | (j & c' & Hj & H)].
    + left. split_and!; [done | done |]. intros j c' Hj Hc'. destruct (Z.eq_dec j i) as [-> |]; [congruence |].
      apply (Hnone j); [lia | done].
    + right. exists j, c'. split; [lia | done].
Qed.

(** The wait call either fails and changes nothing, when the caller has no
    dead child that fits, or removes exactly one dead child with the wanted
    id (any, for a negative argument) from the table and returns its id. *)
Theorem syscall_wait_reaps fuel ebx ecx edx s i me r s' :
  table_wf (kern s) → current_process (kern s) = i → 0 ≤ i < process_count (kern s) →
  proc_at (kern s) i = Some me → syscall_dispatch fuel 5 ebx ecx edx s = Ok (r, s') →
  (r = FAILED ∧ kern s' = kern s ∧
   ∀ j c, 0 ≤ j < process_count (kern s) → proc_at (kern s) j = Some c → reaps me c (s32 ebx) = false) ∨
  (∃ j c, 0 ≤ j < process_count (kern s) ∧ proc_at (kern s) j = Some c ∧
     state c = TASK_DEAD ∧ parent_pid c = pid me ∧ r = pid c ∧ (0 ≤ s32 ebx → s32 r = s32 ebx) ∧
     table_wf (kern s') ∧ process_count (kern s') = process_count (kern s) - 1 ∧
     procs (kern s') !! process_get j (kern s) = None ∧
     ∀ l, 0 ≤ l < process_count (kern s) → l ≠ j →
       ∃ l', 0 ≤ l' < process_count (kern s') ∧ proc_at (kern s') l' = proc_at (kern s) l).
Proof.
  intros Hwf Hc Hi Hp E. unfold syscall_dispatch in E. cbn [Z.eqb Pos.eqb] in E.
  apply obind_Ok in E as ([r' k'] & E & E'). injection E' as <- <-. cbn [kern with_kern].
  unfold sys_wait in E. rewrite (current_process_ptr _ i) in E by done. fold (proc_at (kern s) i) in E. rewrite Hp in E.
  pose proof (tw_count _ Hwf) as Hcnt. unfold process_total in E.
  destruct (wait_scan_cases fuel (Z.to_nat (process_count (kern s))) 0 (s32 ebx) me (kern s) r' k' Hwf ltac:(lia) ltac:(lia) E) as [(-> & -> & Hnone) | (j & c & Hj & Hcj & Hr & -> & Ed)].
  - left. split_and!; [done | done |]. intros j c Hj. apply Hnone. lia.
  - right. exists j, c. unfold reaps in Hr. apply andb_prop in Hr as [Hr Hd]. apply andb_prop in Hr as [Hpar Hpid].
    apply Z.eqb_eq in Hpar. apply bool_decide_eq_true in Hd.
    assert (Hj' : 0 ≤ j < process_count (kern s)) by lia.
    destruct (process_destroy_effect fuel j (kern s) k' Hwf Hj' Ed) as (Hwf' & Hcnt' & Hgone & Hrest).
    split_and!; try done; try lia. intros l Hl Hlj.
    destruct (Hrest l Hl Hlj) as (l' & Hl' & _ & Hpl). exists l'. split; [lia | done].
Qed.
End processes.

(** ** Messages across a context switch *)

Section messages.
Context {Pg D : Type} `{!PageAllocOps Pg} `{!PortIO D}.
Implicit Types (s : system Pg D) (k : kernel Pg).

Lemma u32_s32 x : 0 ≤ x < W32 → u32 (s32 x) = x.
Proof. intros Hx. unfold s32, u32. rewrite (Z.mod_small x) by lia. zcase; mlia. Qed.

(** A tick keeps the message queue of every process. *)
Lemma tick_msg_queue esp k e' k' j p :
  table_wf k → 0 ≤ j < process_count k → scheduler_tick esp k = (e', k') → proc_at k j = Some p →
  ∃ p', proc_at k' j = Some p' ∧ msg_queue p' = msg_queue p.
Proof.
  intros Hwf Hj E Hp. destruct (tick_effect esp k e' k' Hwf ltac:(lia) E) as (_ & _ & Hcases).
  destruct (suspend_effect esp k Hwf) as (_ & _ & _ & Hsus).
  assert (Hs : ∃ p', proc_at (suspend esp k) j = Some p' ∧ msg_queue p' = msg_queue p).
  { rewrite Hsus, Hp by done. destruct (j =? current_process k); [| by exists p].
    eexists. split; [reflexivity |]. unfold suspended. by repeat case_match. }
  destruct Hcases as [(_ & _ & ->) | (n & q & Hn & _ & _ & Hq & _ & Hp' & _)]; [done |].
  destruct Hs as (p' & Hp1 & Hm). rewrite Hp' by done. destruct (Z.eqb_spec j n) as [-> |]; [| by exists p'].
  eexists. split; [reflexivity |]. assert (p' = q) as -> by congruence. done.
Qed.

Lemma irq0_kern esp s : kern (snd (irq0 esp s)) = snd (scheduler_tick esp (kern s)).
Proof.
  unfold irq0. change (kern (irq_handler s)) with (kern s). by destruct (scheduler_tick esp (kern s)).
Qed.

(** The messages in the queue of process [j], oldest first. *)
Definition holds_messages k (j : Z) (l : list (Z * list Z)) : Prop :=
  ∃ p q, proc_at k j = Some p ∧ queues k !! msg_queue p = Some q ∧ queue_wf q ∧ contents q = l.

(** What happens until process [j] asks for its messages: ticks, and any other
    changes that leave the messages it has, as do those that send more. *)
Inductive meanwhile (j : Z) : kernel Pg → kernel Pg → Prop :=
| mean_tick esp k : meanwhile j k (snd (scheduler_tick esp k))
| mean_work k k' :
    table_wf k' → j < process_count k' → (∀ l, holds_messages k j l → ∃ more, holds_messages k' j (l ++ more)) →
    meanwhile j k k'.

Lemma meanwhile_holds j k k' l :
  0 ≤ j → reach (meanwhile j) k k' → table_wf k → j < process_count k → holds_messages k j l →
  table_wf k' ∧ j < process_count k' ∧ ∃ more, holds_messages k' j (l ++ more).
Proof.
  intros Hj Hr H1 H2 H3.
  apply (reach_invariant (meanwhile j)
    (λ k, table_wf k ∧ j < process_count k ∧ ∃ more, holds_messages k j (l ++ more)) k); [| | done].
  2: { split_and!; [done.. |]. exists []. by rewrite app_nil_r. }
  intros x y (Hwf & Hlt & more & Hh) Hs. destruct Hs as [esp z | z z' Hwf' Hlt' Hm].
  - destruct (scheduler_tick esp z) as [e z'] eqn:E. cbn [snd]. destruct Hh as (p & q & Hp & Hq & Hqw & Hc).
    destruct (tick_effect esp z e z' Hwf ltac:(lia) E) as (Hwf' & Hst & _). pose proof (st_count _ _ Hst).
    destruct (tick_msg_queue esp z e z' j p Hwf ltac:(lia) E Hp) as (p' & Hp' & Hm).
    destruct (tick_frame esp z) as [Eq _]. rewrite E in Eq. cbn [snd] in Eq.
    split_and!; [done | lia |]. exists more, p', q. by rewrite Eq, Hm.
  - destruct (Hm _ Hh) as (more' & Hh'). split_and!; [done.. |]. exists (more ++ more'). by rewrite app_assoc.
Qed.

(** Call 8, once and [n] times more, with the result of the last one. *)
Fixpoint receive (n : nat) (fuel : nat) (buf len edx : Z) s : outcome (Z * system Pg D) :=
  let! (r, s) := syscall_dispatch fuel 8 buf len edx s in
  match n with O => Ok (r, s) | S n' => receive n' fuel buf len edx s end.

Lemma proc_at_procs k k' j : same_table k k' → procs k' = procs k → proc_at k' j = proc_at k j.
Proof. intros [Et Ec _] Ep. unfold proc_at, process_get. by rewrite Et, Ec, Ep. Qed.

Lemma receive_run n fuel buf len edx s j l from data more :
  table_wf (kern s) → current_process (kern s) = j → 0 ≤ j < process_count (kern s) →
  holds_messages (kern s) j (l ++ (from, data) :: more) → length l = n → zlen data ≤ 64 → buf ≠ 0 → 0 < len →
  ∃ s' m, receive n fuel buf len edx s = Ok (Z.min (zlen data) len, s') ∧
    mem (mach (kern s')) = store_bytes m buf (take (Z.to_nat len) data) ∧ holds_messages (kern s') j more.
Proof.
  intros Hwf Hc Hj Hh Hn Hd Hb Hl. revert s l Hwf Hc Hj Hh Hn.
  induction n as [|n IH]; intros s l Hwf Hc Hj (p & q & Hp & Hq & Hqw & Hcont) Hn; cbn [receive];
    unfold syscall_dispatch; cbn [Z.eqb Pos.eqb];
    pose proof (ipc_recv_run 0 buf len (kern s) j p q Hwf Hc Hj Hp Hq Hqw Hb Hl) as Hr; rewrite Hcont in Hr.
  - destruct l; [| done]. cbn [app] in Hr. destruct Hr as (k' & q' & E & Eq & Hqw' & Hc' & Ep & Hm). rewrite E. cbn [obind].
    rewrite Z.eqb_refl in Hm. rewrite u32_id by lia. destruct (recv_keeps_table _ _ _ _ _ _ E) as [Hst _].
    eexists _, _. split; [reflexivity |]. split; [exact Hm |]. exists p, q'. cbn [kern with_kern].
    split; [by rewrite (proc_at_procs _ _ _ Hst Ep) |]. by rewrite Eq, lookup_insert_eq.
  - destruct l as [|[f0 d0] l]; [done |]. cbn [app] in Hr. destruct Hr as (k' & q' & E & Eq & Hqw' & Hc' & Ep & Hm). rewrite E.
    cbn [obind]. destruct (recv_keeps_table _ _ _ _ _ _ E) as [Hst Hcur]. pose proof (st_count _ _ Hst).
    apply (IH (with_kern k' s) l); cbn [kern with_kern]; [| by rewrite Hcur | lia | | cbn [length] in Hn; lia].
    + apply (table_wf_same (kern s)); [done | done | rewrite Hcur; apply Hwf].
    + exists p, q'. split; [by rewrite (proc_at_procs _ _ _ Hst Ep) |]. by rewrite Eq, lookup_insert_eq.
Qed.

(** C23: a message of at most 64 bytes that one process sends with call 7 to a
    live process whose queue has room makes that process runnable. Whatever
    happens in between (ticks, and anything that leaves the messages of the
    receiver, other senders included), when the receiver is the current
    process and has taken the messages that were there before, its next call
    8 stores exactly the bytes that the sender had, as many as its buffer
    takes, and returns their number. The pointers of both calls are addresses
    of the one memory of the model. *)
Theorem syscall_message_delivery fuel ebx data size s j pr old :
  table_wf (kern s) → 0 ≤ ebx < W32 → first_with_pid (kern s) ebx j pr → state pr ≠ TASK_DEAD →
  holds_messages (kern s) j old → zlen old < 16 → data ≠ 0 → 0 < size ≤ 64 →
  ∃ s1, syscall_dispatch fuel 7 ebx data size s = Ok (0, s1) ∧ runnable (kern s1) j = true ∧
    ∀ s2 buf len edx, reach (meanwhile j) (kern s1) (kern s2) → current_process (kern s2) = j → buf ≠ 0 → 0 < len →
      ∃ s3, receive (length old) fuel buf len edx s2 = Ok (Z.min size len, s3) ∧
        bytes_at (mem (mach (kern s3))) buf (Z.to_nat (Z.min size len)) =
        bytes_at (mem (mach (kern s))) data (Z.to_nat (Z.min size len)).
Proof.
  intros Hwf Hebx Hfirst Hdead (p & q & Hp & Hq & Hqwf & Hold) Hroom Hdata Hsize. pose proof Hfirst as (Hj & Hpr & _).
  assert (p = pr) as -> by congruence. pose proof (contents_length q Hqwf) as Hcnt. rewrite Hold in Hcnt.
  destruct (ipc_send_run ebx data size (kern s) j pr q Hwf Hfirst Hq Hqwf ltac:(lia))
    as [(_ & _ & _ & _ & k1 & q' & E & Eq & Hqwf' & Hcont & Em & Ecur & Hat) | (Hbad & _)].
  2: { exfalso. destruct Hbad as [|[|[|[|]]]]; lia || done. }
  exists (with_kern k1 s). unfold syscall_dispatch at 1. cbn [Z.eqb Pos.eqb]. rewrite u32_s32 by done. rewrite E.
  split; [done |]. cbn [kern with_kern].
  destruct (send_keeps_table ebx data size (kern s) 0 k1 E) as [Hst Hcur1]. pose proof (st_count _ _ Hst) as Hc1.
  assert (Hwf1 : table_wf k1) by (apply (table_wf_same (kern s)); [done | done | rewrite Ecur; apply Hwf]).
  assert (Hp1 : ∃ p1, proc_at k1 j = Some p1 ∧ msg_queue p1 = msg_queue pr ∧ state p1 ≠ TASK_DEAD ∧ state p1 ≠ TASK_BLOCKED).
  { rewrite Hat, Z.eqb_refl by done. cbn [andb]. case_bool_decide; [by eexists |]. by exists pr. }
  destruct Hp1 as (p1 & Hp1 & Hm1 & Hd1 & Hb1).
  split. { rewrite runnable_proc_at, Hp1. by rewrite !bool_decide_false. }
  intros s2 buf len edx Hr Hcur Hbuf Hlen. set (bs := bytes_at (mem (mach (kern s))) data (Z.to_nat size)) in *.
  assert (Hlbs : length bs = Z.to_nat size) by (unfold bs, bytes_at; by rewrite length_map, length_seq).
  assert (Hh1 : holds_messages k1 j (old ++ [(current_pid (kern s), bs)])).
  { exists p1, q'. rewrite Eq, Hm1, lookup_insert_eq, Hcont, Hold. done. }
  destruct (meanwhile_holds j k1 (kern s2) _ ltac:(lia) Hr Hwf1 ltac:(lia) Hh1) as (Hwf2 & Hlt2 & more & Hh2).
  rewrite <- app_assoc in Hh2. cbn [app] in Hh2.
  destruct (receive_run (length old) fuel buf len edx s2 j old (current_pid (kern s)) bs more) as (s3 & m & E3 & Hm3 & _);
    [done | done | lia | done | done | lia | done | done |].
  exists s3. replace (zlen bs) with size in E3 by lia. split; [done |]. rewrite Hm3.
  replace (Z.to_nat (Z.min size len)) with (length (take (Z.to_nat len) bs)) by (rewrite length_take; lia).
  rewrite bytes_at_store by apply Forall_take, bytes_at_bytes.
  rewrite <- (bytes_at_take _ _ _ (Z.to_nat size)) by (rewrite length_take; lia). fold bs. rewrite length_take.
  destruct (Nat.min_spec (Z.to_nat len) (length bs)) as [[_ ->] | [Hge ->]]; [done |].
  by rewrite !take_ge.
Qed.

(** Sleeping lasts exactly one tick per 10 milliseconds, as long as the
    counter does not pass its 32 bits meanwhile. *)
Theorem sleep_ms_ticks fuel ms s :
  0 ≤ sleep_ticks s → 0 ≤ ms → sleep_ticks s + ms / 10 < W32 → (Z.to_nat (ms / 10) < fuel)%nat →
  sleep_ms fuel ms s = Ok (Nat.iter (Z.to_nat (ms / 10)) irq_handler s) ∧
  sleep_ticks (Nat.iter (Z.to_nat (ms / 10)) irq_handler s) = sleep_ticks s + ms / 10.
Proof.
  intros Ht Hms Hw Hf. unfold sleep_ms, sleep_target. pose proof (Z.div_pos ms 10 Hms ltac:(lia)) as Hd.
  rewrite u32_id by lia. remember (Z.to_nat (ms / 10)) as n eqn:En.
  assert (Hn : ms / 10 = Z.of_nat n) by lia. rewrite Hn in *. clear En Hn Hd Hms ms.
  revert fuel s Ht Hw Hf. induction n as [|n IH]; intros [|fuel] s Ht Hw Hf; try lia; cbn [sleep_loop].
  - destruct (Z.ltb_spec (sleep_ticks s) (sleep_ticks s + Z.of_nat 0)); [lia |]. split; [done | simpl; lia].
  - destruct (Z.ltb_spec (sleep_ticks s) (sleep_ticks s + Z.of_nat (S n))); [| lia].
    assert (Et : sleep_ticks (irq_handler s) = sleep_ticks s + 1) by (cbn; apply u32_id; lia).
    destruct (IH fuel (irq_handler s)) as [E1 E2]; [lia | lia | lia |].
    replace (sleep_ticks s + Z.of_nat (S n)) with (sleep_ticks (irq_handler s) + Z.of_nat n) by lia.
    rewrite E1. rewrite !Nat.iter_succ_r. split; [done |]. exact E2.
Qed.
End messages.

(** ** Concrete runs *)

Import Pmm.

(** Two processes, the first running, the second waiting for a message; the
    keys [l], [s] and return are pending. *)
Definition demo_sys : system Pmm.pmm ready_bus :=
  mkSys (two_peers 0) (keyboard_init, mkKbuf ([108; 115; 10] ++ replicate 253 0) 3 0) clear_screen 0 0.

Lemma syscall_console_witness :
  (∃ s', syscall_dispatch 1 2 0x7000 5 0 demo_sys = Ok (5, s') ∧
     aget (Terminal.buffer (term s')) 1 = entry 105) ∧
  (∃ s', syscall_dispatch 1 3 0x7100 2 0 demo_sys = Ok (2, s') ∧ pending (snd (keys s')) = [10] ∧
     mem (mach (kern s')) = store_bytes (mem (mach (two_peers 0))) 0x7100 [108; 115]).
Proof.
  assert (Ep : pending (snd (keys demo_sys)) = [108; 115; 10]) by (vm_compute; reflexivity).
  destruct (syscall_console 1 0x7000 5 0 demo_sys blank_paper) as [(s1 & E1 & Hs1 & _) _];
    [lia | exact clear_screen_shows | constructor; cbn; [reflexivity | lia | lia] | lia | lia | lia |].
  destruct (syscall_console 1 0x7100 2 0 demo_sys blank_paper) as [_ (s2 & E2 & Hp & _ & Hm & _)];
    [lia | exact clear_screen_shows | constructor; cbn; [reflexivity | lia | lia] | lia | lia | lia |].
  rewrite Ep in E2, Hp, Hm. split.
  - exists s1. split; [exact E1 |]. rewrite (sh_cells _ _ Hs1) by lia. vm_compute. reflexivity.
  - exists s2. split; [exact E2 |]. split; [exact Hp | exact Hm].
Defined.

(** A message for the second process wakes it, so that the first can leave. *)
Definition demo_awake : system Pmm.pmm ready_bus := with_kern (upd 0x5100 (set_state TASK_READY) (kern demo_sys)) demo_sys.

Lemma syscall_exit_never_resumed_witness :
  ∃ esp' s', syscall_stub 1 4 7 0 0 0x6000 demo_awake = Ok (esp', s') ∧
    current_process (snd (scheduler_tick 0x6100 (kern s'))) ≠ 0.
Proof.
  destruct (syscall_exit_never_resumed 1 7 0 0 0x6000 demo_awake 0
    (mkProcess 1 1 TASK_RUNNING RING_KERNEL 4194304 0 0 0 0 0 0 0 0 0x5800))
    as (esp' & s' & E & _ & Hnever & _).
  - apply (table_wf_same (kern demo_sys)); [apply two_peers_wf; lia | apply same_table_upd | cbn; lia].
  - reflexivity.
  - cbn. lia.
  - reflexivity.
  - exists esp', s'. split; [exact E |].
    destruct Hnever as [_ Hnever]; [exists 1; split; [cbn; lia | split; [discriminate | vm_compute; reflexivity]] |].
    apply Hnever. eapply reach_step; [apply reach_refl | apply after_tick].
Defined.

Lemma demo_peer_messages : holds_messages (kern demo_sys) 1 [].
Proof.
  exists (mkProcess 2 1 TASK_BLOCKED RING_KERNEL 4194304 0 0 0 0 0 0 0 0 0x5900), empty_queue.
  split; [reflexivity |]. split; [reflexivity |]. split; [apply empty_queue_wf | reflexivity].
Qed.

Lemma syscall_message_delivery_witness :
  ∃ s1, syscall_dispatch 1 7 2 0x7000 2 demo_sys = Ok (0, s1) ∧
    current_process (kern (snd (irq0 0x6000 s1))) = 1 ∧
    ∃ s3, syscall_dispatch 1 8 0x7100 64 0 (snd (irq0 0x6000 s1)) = Ok (2, s3) ∧
      bytes_at (mem (mach (kern s3))) 0x7100 2 = [72; 105].
Proof.
  destruct (syscall_message_delivery 1 2 0x7000 2 demo_sys 1
    (mkProcess 2 1 TASK_BLOCKED RING_KERNEL 4194304 0 0 0 0 0 0 0 0 0x5900) [])
    as (s1 & E1 & _ & Hrecv).
  - apply two_peers_wf. lia.
  - lia.
  - split; [cbn; lia |]. split; [reflexivity |]. split; [reflexivity |]. intros j q Hj Hq.
    assert (j = 0) as -> by lia. vm_compute in Hq. injection Hq as <-. discriminate.
  - discriminate.
  - exact demo_peer_messages.
  - cbn. lia.
  - discriminate.
  - lia.
  - assert (Hcur : current_process (kern (snd (irq0 0x6000 s1))) = 1).
    { assert (Hm : match syscall_dispatch 1 7 2 0x7000 2 demo_sys with
                   | Ok (_, s) => current_process (kern (snd (irq0 0x6000 s))) | _ => 0 end = 1)
        by (vm_compute; reflexivity).
      rewrite E1 in Hm. exact Hm. }
    exists s1. split; [exact E1 |]. split; [exact Hcur |].
    destruct (Hrecv (snd (irq0 0x6000 s1)) 0x7100 64 0) as (s3 & E3 & Hm);
      [rewrite irq0_kern; eapply reach_step; [apply reach_refl | apply mean_tick] | exact Hcur | discriminate | lia |].
    exists s3. cbn [receive length] in E3.
    destruct (syscall_dispatch 1 8 0x7100 64 0 (snd (irq0 0x6000 s1))) as [[r s4] | | |]; cbn [obind] in E3; try discriminate E3.
    split; [exact E3 |]. change 2%nat with (Z.to_nat (Z.min 2 64)). rewrite Hm. vm_compute. reflexivity.
Defined.

Lemma sleep_ms_ticks_witness : ∃ s', sleep_ms 4 30 demo_sys = Ok s' ∧ sleep_ticks s' = 3.
Proof.
  destruct (sleep_ms_ticks 4 30 demo_sys) as [E Ht]; [cbn; lia | lia | reflexivity | apply Nat.ltb_lt; reflexivity |].
  eexists. split; [exact E | exact Ht].
Defined.
End Syscall.
