(* ===== verification/Rotation.v ===== *)
(** * Processes that take turns: the timer interrupt over many ticks

    When every process of the table can run, the timer interrupt
    ([interrupts/irq.cpp], [scheduler/scheduler.cpp]) is a round-robin machine:
    it remembers where the current process was interrupted and continues the next
    one where it was interrupted last. The machine below has no process table, no
    states and no stacks; the kernel refines it, whatever the processes do in
    between that does not change which of them there are, whether they can run
    and where they go on. *)

From S2P Require Import Prelude Interfaces Machine Ports Process Scheduler Keyboard Terminal Syscall.

Module Rotation.
Import Process Scheduler Keyboard Terminal Syscall.

(** ** The round-robin machine *)

(** Where each process goes on, and whose turn it is. *)
Record turns := mkTurns { place : list Z; turn : Z }.

(** An interrupt of the current process at [e]: the answer is where to go on. *)
Definition rotate (e : Z) (r : turns) : Z * turns :=
  let p := aset (place r) (turn r) e in
  let t := (turn r + 1) mod zlen (place r) in
  (aget p t, mkTurns p t).

Fixpoint answers (es : list Z) (r : turns) : list Z :=
  match es with
  | [] => []
  | e :: es' => let '(a, r) := rotate e r in a :: answers es' r
  end.

(** ** The kernel *)

Section rotation.
Context {Pg D : Type} `{!PageAllocOps Pg, !PortIO D}.
Implicit Types (k : kernel Pg) (s : system Pg D).

Definition goes_on (p : Process) : Z := if saved_esp p =? 0 then kernel_stack_top p else saved_esp p.

(** All processes can run, the current one is running, and the others go on
    where the machine says. *)
Record rotates k (r : turns) : Prop := {
  ro_wf : table_wf k;
  ro_count : process_count k = zlen (place r);
  ro_turn : current_process k = turn r ∧ 0 ≤ turn r < zlen (place r);
  ro_procs : ∀ i, 0 ≤ i < zlen (place r) → ∃ p, proc_at k i = Some p ∧
    if i =? turn r then state p = TASK_RUNNING else state p = TASK_READY ∧ goes_on p = aget (place r) i;
}.

(** What a process may do in its turn: anything but creating or ending processes,
    and changing whether and where one of them goes on. *)
Definition works s s' : Prop :=
  same_table (kern s) (kern s') ∧ current_process (kern s') = current_process (kern s) ∧
  ∀ i p, proc_at (kern s) i = Some p → ∃ p', proc_at (kern s') i = Some p' ∧ state p' = state p ∧ goes_on p' = goes_on p.

(** Timer interrupts: where each arrived and where the processor went on. *)
Inductive interrupts : system Pg D → list (Z * Z) → system Pg D → Prop :=
| interrupts_none s : interrupts s [] s
| interrupts_tick s s1 e a s2 l s3 :
    works s s1 → irq0 e s1 = (a, s2) → interrupts s2 l s3 → interrupts s ((e, a) :: l) s3.

Lemma next_turn k c n :
  0 ≤ c < process_count k → 0 ≤ n < process_count k → dist k c n ≤ dist k c ((c + 1) mod process_count k) →
  n = (c + 1) mod process_count k.
Proof.
  intros Hc Hn Hd. rewrite dist_of_step in Hd by lia. pose proof (dist_range k c n ltac:(lia)).
  rewrite <- (dist_reaches k c n) by done. by replace (dist k c n) with 1 by lia.
Qed.

Lemma works_rotates s s' r : works s s' → rotates (kern s) r → rotates (kern s') r.
Proof.
  intros (Hst & Eu & Ep) [Hwf Hc [Ht Hr] Hp]. pose proof (st_count _ _ Hst) as Ec.
  constructor; [| congruence | by rewrite Eu |].
  - apply (table_wf_same (kern s)); [done | done | by rewrite Eu; destruct Hwf].
  - intros i Hi. destruct (Hp i Hi) as (p & E & Hs). destruct (Ep i p E) as (p' & E' & Es & Eg). exists p'. rewrite Es, Eg. by split.
Qed.

(** One tick. *)
Lemma tick_rotates e k r a k' :
  rotates k r → e ≠ 0 → scheduler_tick e k = (a, k') → rotate e r = (a, snd (rotate e r)) ∧ rotates k' (snd (rotate e r)).
Proof.
  intros [Hwf Hc [Ht Hr] Hp] He E. destruct r as [pl t]. cbn [place turn rotate snd] in *.
  destruct (tick_effect e k a k' Hwf ltac:(lia) E) as (Hwf' & Hst & Hcase).
  destruct (suspend_effect e k Hwf) as (_ & _ & _ & Hsus). rewrite Hc, Ht in *.
  assert (Hrun : ∀ i, 0 ≤ i < zlen pl → runnable k i = true).
  { intros i Hi. rewrite runnable_proc_at. destruct (Hp i Hi) as (p & -> & Hs).
    destruct (i =? t); [by rewrite Hs | by rewrite (proj1 Hs)]. }
  destruct Hcase as [(Hno & _) | (n & p & Hn & _ & Hcn & Hpn & -> & Hps & _ & _ & Hmin)].
  { specialize (Hno t Hr). by rewrite Hrun in Hno. }
  assert (Hnext : n = (t + 1) mod zlen pl).
  { rewrite <- Hc. apply next_turn; [lia | lia |]. apply Hmin; [| apply Hrun]; rewrite Hc; apply Z.mod_pos_bound; lia. }
  (* where every process goes on once the current one is put aside *)
  assert (Hplace : ∀ i q, 0 ≤ i < zlen pl → proc_at (suspend e k) i = Some q → state q = TASK_READY ∧ goes_on q = aget (aset pl t e) i).
  { intros i q Hi. rewrite Hsus by done. destruct (Hp i Hi) as (q0 & -> & Hs). destruct (Z.eqb_spec i t) as [-> | Hne].
    - intros [= <-]. unfold suspended. rewrite decide_True by done. rewrite aget_aset_eq by lia. split; [done |].
      unfold goes_on. cbn [saved_esp set_saved_esp]. by destruct (Z.eqb_spec e 0).
    - intros [= <-]. by rewrite aget_aset_ne. }
  split.
  - unfold rotate. cbn [place turn]. rewrite <- Hnext. f_equal. symmetry. by apply (Hplace n p).
  - constructor; cbn [place turn]; rewrite ?aset_length.
    + done.
    + rewrite (st_count _ _ Hst). lia.
    + split; [congruence | apply Z.mod_pos_bound; lia].
    + intros i Hi. rewrite Hps by done. rewrite <- Hnext. destruct (Z.eqb_spec i n) as [-> | Hne]; [by eexists |].
      destruct (Hp i Hi) as (q & Hq & _). rewrite Hsus by done. rewrite Hq.
      exists (if i =? t then suspended e q else q). split; [by destruct (i =? t) |].
      apply (Hplace i); [done |]. rewrite Hsus, Hq by done. by destruct (i =? t).
Qed.

(** Any number of ticks. *)
Lemma interrupts_rotate s l s' r :
  interrupts s l s' → rotates (kern s) r → Forall (λ ea, ea.1 ≠ 0) l → map snd l = answers (map fst l) r.
Proof.
  intros Hi. revert r. induction Hi as [s | s s1 e a s2 l s3 Hw E _ IH]; intros r Hr He; [done |].
  apply Forall_cons in He as [He Hes]. apply (works_rotates _ _ _ Hw) in Hr.
  unfold irq0 in E. destruct (scheduler_tick e _) as [a' k'] eqn:Et. injection E as <- <-.
  destruct (tick_rotates e (kern s1) r a' k' Hr He Et) as [Ea Hr']. cbn [map fst snd answers]. rewrite Ea. f_equal.
  apply IH; [exact Hr' | done].
Qed.
End rotation.
End Rotation.
