(* ===== verification/Vfs.v ===== *)
(** * The virtual file system: [fs/vfs.cpp]

    Mount points and path resolution. A C string is the list of its bytes
    before the terminating zero. Nodes are addresses, 0 is null; what the
    resolver uses of a node, its [parent] and its [finddir] method, is the
    class [FileSystem] that a file system implements. *)

From S2P Require Import Prelude.

(** What the resolver needs from the nodes of a file system with state [S]:
    the [parent] pointer and the methods [finddir] and [destroy], [None] when
    the pointer to the method is null. *)
Class FileSystem (S : Type) := {
  node_parent : S → Z → Z;
  node_finddir : S → Z → option (list Z → outcome (Z * S));
  node_destroy : S → Z → option (outcome S);
}.

Module Vfs.

Notation MAX_MOUNTS := 16 (only parsing).
Notation SLASH := 47 (only parsing).
Notation DOT := 46 (only parsing).
Notation cstring := (list Z) (only parsing).

(** [s[i]], with the terminator after the last byte. *)
Definition char_at (s : cstring) (i : nat) : Z := default 0 (s !! i).

Record vfs_mount_t := mkMount { path : cstring; root : Z; used : bool }.
#[export] Instance vfs_mount_zero : ZeroInit vfs_mount_t := mkMount [] 0 false.

Record vfs := mkVfs { mounts : list vfs_mount_t; mount_count : Z }.

(** ** Mounting *)

Definition vfs_init (v : vfs) : vfs :=
  mkVfs (map (λ m, mkMount (path m) (root m) false) (mounts v)) 0.

(** The index of the first mount that is not used. *)
Fixpoint free_mount (l : list vfs_mount_t) (i : Z) : option Z :=
  match l with
  | [] => None
  | m :: l' => if negb (used m) then Some i else free_mount l' (i + 1)
  end.

(** The test for null pointers comes first; [p] is [None] for a null path. *)
Definition vfs_mount (p : option cstring) (node : Z) (v : vfs) : Z * vfs :=
  match p with
  | None => (-1, v)
  | Some p =>
      if node =? 0 then (-1, v)
      else
        match free_mount (mounts v) 0 with
        | None => (-1, v)
        | Some i => (0, mkVfs (aset (mounts v) i (mkMount p node true)) (mount_count v + 1))
        end
  end.

Fixpoint root_of (l : list vfs_mount_t) : Z :=
  match l with
  | [] => 0
  | m :: l' => if used m && bool_decide (path m = [SLASH]) then root m else root_of l'
  end.
Definition vfs_get_root (v : vfs) : Z := root_of (mounts v).

(** [while(mounts[i].path[len] && path[len] && ... == ...) len++;] *)
Fixpoint match_len (a b : cstring) : nat :=
  match a, b with
  | x :: a', y :: b' => if x =? y then S (match_len a' b') else O
  | _, _ => O
  end.

(** The loop of [find_mount_root]: the best length and root so far. *)
Fixpoint best_mount (l : list vfs_mount_t) (p : cstring) (best : Z * Z) : Z * Z :=
  match l with
  | [] => best
  | m :: l' =>
      if negb (used m) then best_mount l' p best
      else
        let len := match_len (path m) p in
        let best :=
          if (char_at (path m) len =? 0) &&
             ((char_at p len =? SLASH) || (char_at p len =? 0)) &&
             (fst best <? Z.of_nat len)
          then (Z.of_nat len, root m) else best in
        best_mount l' p best
  end.

(** The root of the mount and the rest of the path. *)
Definition find_mount_root (p : cstring) (v : vfs) : Z * cstring :=
  let '(best_len, best_root) := best_mount (mounts v) p (-1, 0) in
  (best_root, if best_root =? 0 then p else drop (Z.to_nat best_len) p).

(** ** Walking *)

(** [while( *rel == '/') rel++;] *)
Fixpoint skip_slashes (rel : cstring) : cstring :=
  match rel with
  | c :: rel' => if c =? SLASH then skip_slashes rel' else rel
  | [] => []
  end.

(** [while( *rel && *rel != '/' && ci < 127) component[ci++] = *rel++;] *)
Fixpoint take_component (room : nat) (rel : cstring) : cstring * cstring :=
  match room, rel with
  | S room', c :: rel' =>
      if c =? SLASH then ([], rel)
      else let '(comp, rest) := take_component room' rel' in (c :: comp, rest)
  | _, _ => ([], rel)
  end.

Section resolve.
Context {S : Type} `{!FileSystem S}.
Implicit Types s : S.

(** The loop that [vfs_resolve] and [vfs_resolve_relative] share. *)
Fixpoint walk_path (fuel : nat) (current : Z) (rel : cstring) s : outcome (Z * S) :=
  match fuel with
  | O => NoFuel
  | Datatypes.S f =>
      match rel with
      | [] => Ok (current, s)
      | _ =>
          match skip_slashes rel with
          | [] => Ok (current, s)
          | rel =>
              let '(component, rel) := take_component 127 rel in
              if bool_decide (component = [DOT]) then walk_path f current rel s
              else if bool_decide (component = [DOT; DOT]) then
                walk_path f (if node_parent s current =? 0 then current
                             else node_parent s current) rel s
              else
                match node_finddir s current with
                | None => Ok (0, s)
                | Some finddir =>
                    let! (next, s) := finddir component in
                    if next =? 0 then Ok (0, s) else walk_path f next rel s
                end
          end
      end
  end.

(** Every round of the loop consumes at least one byte of the path. *)
Definition path_fuel (p : cstring) : nat := Datatypes.S (length p).

Definition vfs_resolve (p : option cstring) (v : vfs) s : outcome (Z * S) :=
  match p with
  | None => Ok (0, s)
  | Some [] => Ok (0, s)
  | Some p =>
      let '(current, rel) := find_mount_root p v in
      if current =? 0 then Ok (0, s) else walk_path (path_fuel rel) current rel s
  end.

Definition vfs_resolve_relative (base : Z) (p : option cstring) (v : vfs) s : outcome (Z * S) :=
  match p with
  | None => Ok (0, s)
  | Some p =>
      if base =? 0 then Ok (0, s)
      else if char_at p 0 =? SLASH then vfs_resolve (Some p) v s
      else walk_path (path_fuel p) base p s
  end.

Definition vfs_destroy (node : Z) s : outcome S :=
  if node =? 0 then Ok s else default (Ok s) (node_destroy s node).
End resolve.

(** ** Paths as lists of components *)

(** The pieces of a string between slashes. *)
Fixpoint split (p : cstring) : list cstring :=
  match p with
  | [] => [[]]
  | c :: p' =>
      if c =? SLASH then [] :: split p'
      else match split p' with w :: ws => (c :: w) :: ws | [] => [[c]] end
  end.

(** The components of a path: its non-empty pieces. *)
Definition components (p : cstring) : list cstring := filter (λ w, w ≠ []) (split p).

Notation no_slash w := (Forall (λ c, c ≠ SLASH) w).
Notation slash_or_end r := (match r with [] => True | c :: _ => c = SLASH end).

Lemma split_word w p : no_slash w → split (w ++ SLASH :: p) = w :: split p.
Proof.
  induction 1 as [|c w Hc Hw IH]; simpl; [done |]. destruct (Z.eqb_spec c SLASH); [done |]. by rewrite IH.
Qed.

Lemma split_last w : no_slash w → split w = [w].
Proof.
  induction 1 as [|c w Hc Hw IH]; simpl; [done |]. destruct (Z.eqb_spec c SLASH); [done |]. by rewrite IH.
Qed.

Lemma components_slash p : components (SLASH :: p) = components p.
Proof. unfold components. simpl. by rewrite filter_cons_False by (intros H; by apply H). Qed.

Lemma components_word w r :
  w ≠ [] → no_slash w → slash_or_end r → components (w ++ r) = w :: components r.
Proof.
  intros Hne Hw Hr. destruct r as [|c r].
  - rewrite app_nil_r. unfold components. by rewrite split_last, filter_cons_True by done.
  - subst c. rewrite components_slash. unfold components. by rewrite split_word, filter_cons_True by done.
Qed.

Lemma split_app a r : split (a ++ SLASH :: r) = split a ++ split r.
Proof.
  induction a as [|c a IH]; simpl; [done |]. destruct (Z.eqb_spec c SLASH); [by rewrite IH |].
  rewrite IH. destruct (split a) as [|w ws] eqn:E; [| done].
  destruct a as [|d a]; [done |]. simpl in E. destruct (d =? SLASH); [done |]. by destruct (split a).
Qed.

Lemma components_app a r : slash_or_end r → components (a ++ r) = components a ++ components r.
Proof.
  intros Hr. destruct r as [|c r]; [by rewrite app_nil_r, app_nil_r |]. subst c.
  rewrite components_slash. unfold components. by rewrite split_app, filter_app.
Qed.

Lemma components_skip p : components (skip_slashes p) = components p.
Proof.
  induction p as [|c p IH]; simpl; [done |]. destruct (Z.eqb_spec c SLASH) as [-> |]; [| done].
  by rewrite components_slash.
Qed.

Lemma skip_slashes_head p : match skip_slashes p with [] => True | c :: _ => c ≠ SLASH end.
Proof. induction p as [|c p IH]; simpl; [done |]. by destruct (Z.eqb_spec c SLASH). Qed.

Lemma skip_slashes_length p : (length (skip_slashes p) ≤ length p)%nat.
Proof. induction p as [|c p IH]; simpl; [done |]. zcase; simpl; lia. Qed.

(** Any path starts with a word, which [take_component] finds if it fits. *)
Lemma first_word p : ∃ w r, p = w ++ r ∧ no_slash w ∧ slash_or_end r.
Proof.
  induction p as [|c p (w & r & -> & Hw & Hr)]; [by exists [], [] |].
  destruct (Z.eq_dec c SLASH) as [-> | Hne].
  - by exists [], (SLASH :: w ++ r).
  - exists (c :: w), r. split_and!; [done | by constructor | done].
Qed.

Lemma take_component_word n w r :
  (length w ≤ n)%nat → no_slash w → slash_or_end r → take_component n (w ++ r) = (w, r).
Proof.
  intros Hn Hw. revert n Hn. induction Hw as [|c w Hc Hw IH]; intros n Hn Hr; simpl in *.
  - destruct n, r as [|c r]; try done. simpl. subst c. done.
  - destruct n as [|n]; [lia |]. simpl. destruct (Z.eqb_spec c SLASH); [done |]. by rewrite IH by (done || lia).
Qed.

Section walking.
Context {S : Type} `{!FileSystem S}.
Implicit Types s : S.

(** The specification of resolution: one step per component. *)
Fixpoint walk (current : Z) (cs : list cstring) s : outcome (Z * S) :=
  match cs with
  | [] => Ok (current, s)
  | c :: cs =>
      if bool_decide (c = [DOT]) then walk current cs s
      else if bool_decide (c = [DOT; DOT]) then
        walk (if node_parent s current =? 0 then current else node_parent s current) cs s
      else
        match node_finddir s current with
        | None => Ok (0, s)
        | Some finddir =>
            let! (next, s) := finddir c in
            if next =? 0 then Ok (0, s) else walk next cs s
        end
  end.

Lemma walk_path_components fuel current p s :
  (length p < fuel)%nat → Forall (λ c, (length c ≤ 127)%nat) (components p) →
  walk_path fuel current p s = walk current (components p) s.
Proof.
  revert current p s. induction fuel as [|fuel IH]; intros current p s Hf Hlen; [lia |].
  cbn [walk_path]. destruct p as [|c0 p0]; [done |]. set (p := c0 :: p0) in *. clearbody p.
  pose proof (skip_slashes_head p) as Hhd. pose proof (skip_slashes_length p) as Hsl.
  rewrite <- components_skip in *. set (rel := skip_slashes p) in *. clearbody rel.
  destruct rel as [|c rel]; [done |].
  destruct (first_word (c :: rel)) as (w & r & E & Hw & Hr).
  assert (Hne : w ≠ []) by (intros ->; destruct r; inversion E; subst; done).
  rewrite E in Hlen, Hsl |- *. rewrite components_word in Hlen |- * by done.
  apply Forall_cons in Hlen as [Hlw Hlen].
  rewrite take_component_word by done. cbn [walk]. rewrite length_app in Hsl.
  assert (Hr' : (length r < fuel)%nat) by (destruct w; [done | simpl in *; lia]).
  repeat case_bool_decide; [by apply IH | by apply IH |].
  destruct (node_finddir s current) as [fd|]; [| done].
  destruct (fd w) as [[next s']| | |]; [| done..]. simpl. destruct (next =? 0); [done |]. by apply IH.
Qed.
End walking.

(** ** Mount points *)

(** A mount point covers a path when its own path is a prefix that ends at a
    component boundary. *)
Definition covers (m : vfs_mount_t) (p : cstring) : Prop :=
  used m = true ∧ ∃ r, p = path m ++ r ∧ slash_or_end r.

(** Mounted paths are C strings and mounted roots are nodes. *)
Definition mounts_wf (v : vfs) : Prop :=
  length (mounts v) = 16%nat ∧
  Forall (λ m, used m = true → Forall (λ c, c ≠ 0) (path m) ∧ root m ≠ 0) (mounts v).

Lemma match_len_prefix a b :
  ∃ w, a = w ++ drop (match_len a b) a ∧ b = w ++ drop (match_len a b) b ∧ length w = match_len a b.
Proof.
  revert b. induction a as [|x a IH]; intros [|y b]; simpl; [by exists [] .. |].
  destruct (Z.eqb_spec x y) as [-> |]; [| by exists []].
  destruct (IH b) as (w & Ha & Hb & Hl). exists (y :: w). simpl. split_and!; congruence.
Qed.

Lemma char_at_end (s : cstring) (i : nat) :
  Forall (λ c, c ≠ 0) s → char_at s i = 0 ↔ (length s ≤ i)%nat.
Proof.
  intros Hs. unfold char_at. destruct (s !! i) as [c|] eqn:E; simpl.
  - rewrite Forall_lookup in Hs. pose proof (Hs _ _ E). pose proof (lookup_lt_Some _ _ _ E). lia.
  - apply lookup_ge_None in E. lia.
Qed.

(** The test of the loop decides [covers]. *)
Lemma covers_test m p :
  used m = true → Forall (λ c, c ≠ 0) (path m) → Forall (λ c, c ≠ 0) p →
  let len := match_len (path m) p in
  ((char_at (path m) len =? 0) && ((char_at p len =? SLASH) || (char_at p len =? 0)) = true ↔
   covers m p) ∧ (covers m p → len = length (path m)).
Proof.
  intros Hu Hm Hp len. destruct (match_len_prefix (path m) p) as (w & Ha & Hb & Hl). fold len in Ha, Hb, Hl.
  assert (Hlen : covers m p → len = length (path m)).
  { intros (_ & r & -> & _). unfold len. clear. induction (path m) as [|c a IH]; [done |]. simpl.
    by rewrite Z.eqb_refl, IH. }
  split; [| done]. split.
  - intros [H1 H2]%andb_prop. zbool. apply char_at_end in H1; [| done].
    assert (Hw : path m = w) by (rewrite drop_ge, app_nil_r in Ha by done; done).
    split; [done |]. exists (drop len p). rewrite Hw. split; [done |].
    unfold char_at in H2. rewrite <- (Nat.add_0_r len), <- lookup_drop in H2.
    destruct (drop len p) as [|c r]; [done |]. simpl in *.
    apply orb_prop in H2 as [H2 | H2]; zbool; [done |]. exfalso.
    rewrite Hb, Forall_app in Hp. destruct Hp as [_ Hp]. apply Forall_cons in Hp as [Hp _]. done.
  - intros Hc. pose proof (Hlen Hc) as El. destruct Hc as (_ & r & E & Hr).
    rewrite El at 1. rewrite (proj2 (char_at_end (path m) (length (path m)) Hm)) by done. simpl.
    rewrite El, E. unfold char_at. rewrite lookup_app_r, Nat.sub_diag by done.
    destruct r as [|c r]; [done |]. simpl. by rewrite Hr.
Qed.

(** [best_mount] keeps the longest mount that covers the path. *)
Lemma best_mount_spec l p b0 r0 :
  Forall (λ c, c ≠ 0) p →
  Forall (λ m, used m = true → Forall (λ c, c ≠ 0) (path m) ∧ root m ≠ 0) l →
  let res := best_mount l p (b0, r0) in
  (res = (b0, r0) ∧ (∀ m, m ∈ l → covers m p → Z.of_nat (length (path m)) ≤ b0)) ∨
  (∃ m, m ∈ l ∧ covers m p ∧ res = (Z.of_nat (length (path m)), root m) ∧ b0 < Z.of_nat (length (path m)) ∧
     ∀ m', m' ∈ l → covers m' p → (length (path m') ≤ length (path m))%nat).
Proof.
  intros Hp. revert b0 r0. induction l as [|m l IH]; intros b0 r0 Hl; cbn [best_mount].
  { left. split; [done | set_solver]. }
  apply Forall_cons in Hl as [Hm Hl]. destruct (used m) eqn:Hu; cbn [negb].
  2:{ destruct (IH b0 r0 Hl) as [[-> Hall] | (m1 & Hin & Hc & -> & Hlt & Hall)]; [left | right].
      - split; [done |]. intros m' [-> | Hm']%elem_of_cons Hc; [by destruct Hc; congruence | by apply Hall].
      - exists m1. split_and!; [by right | done | done | lia |].
        intros m' [-> | Hm']%elem_of_cons Hc'; [by destruct Hc'; congruence | by apply Hall]. }
  destruct (Hm eq_refl) as [Hmp _]. destruct (covers_test m p Hu Hmp Hp) as [Htest Hlen].
  set (len := match_len (path m) p) in *.
  destruct ((char_at (path m) len =? 0) && ((char_at p len =? SLASH) || (char_at p len =? 0))) eqn:Ht; cbn [andb fst].
  - assert (Hc : covers m p) by (by apply Htest). rewrite (Hlen Hc) in *.
    destruct (Z.ltb_spec b0 (Z.of_nat (length (path m)))) as [Hlt | Hge].
    + destruct (IH (Z.of_nat (length (path m))) (root m) Hl) as [[-> Hall] | (m1 & Hin & Hc1 & -> & Hlt1 & Hall)]; right.
      * exists m. split_and!; [by left | done | done | lia |].
        intros m' [-> | Hm']%elem_of_cons Hc'; [done |]. specialize (Hall m' Hm' Hc'). lia.
      * exists m1. split_and!; [by right | done | done | lia |].
        intros m' [-> | Hm']%elem_of_cons Hc'; [lia | by apply Hall].
    + destruct (IH b0 r0 Hl) as [[-> Hall] | (m1 & Hin & Hc1 & -> & Hlt1 & Hall)]; [left | right].
      * split; [done |]. intros m' [-> | Hm']%elem_of_cons Hc'; [lia | by apply Hall].
      * exists m1. split_and!; [by right | done | done | lia |].
        intros m' [-> | Hm']%elem_of_cons Hc'; [lia | by apply Hall].
  - assert (Hc : ¬ covers m p) by (rewrite <- Htest; congruence).
    destruct (IH b0 r0 Hl) as [[-> Hall] | (m1 & Hin & Hc1 & -> & Hlt1 & Hall)]; [left | right].
    + split; [done |]. intros m' [-> | Hm']%elem_of_cons Hc'; [done | by apply Hall].
    + exists m1. split_and!; [by right | done | done | lia |].
      intros m' [-> | Hm']%elem_of_cons Hc'; [done | by apply Hall].
Qed.

Lemma find_mount_root_spec p v :
  mounts_wf v → Forall (λ c, c ≠ 0) p →
  (find_mount_root p v = (0, p) ∧ ∀ m, m ∈ mounts v → ¬ covers m p) ∨
  (∃ m r, m ∈ mounts v ∧ covers m p ∧ find_mount_root p v = (root m, r) ∧ root m ≠ 0 ∧
     p = path m ++ r ∧ ∀ m', m' ∈ mounts v → covers m' p → (length (path m') ≤ length (path m))%nat).
Proof.
  intros [_ Hm] Hp. unfold find_mount_root.
  destruct (best_mount_spec (mounts v) p (-1) 0 Hp Hm) as [[-> Hall] | (m & Hin & Hc & -> & _ & Hall)]; [left | right].
  - split; [done |]. intros m Hin Hc. specialize (Hall m Hin Hc). lia.
  - rewrite Forall_forall in Hm. pose proof Hc as (Hu & r & E & _). destruct (Hm m Hin Hu) as [_ Hr].
    exists m, r. destruct (Z.eqb_spec (root m) 0); [done |]. split_and!; try done.
    rewrite Nat2Z.id, E. by rewrite drop_app_length.
Qed.

(** ** Properties *)

Section theorems.
Context {S : Type} `{!FileSystem S}.
Implicit Types s : S.

(** C14: resolving an absolute path takes the longest mount point that is a
    prefix of it ending at a component boundary, and then walks the components
    of the rest one by one; it returns for every path, and fails when no mount
    point covers it. Components are assumed to fit in the 127 bytes the code
    has for them. *)
Theorem vfs_resolve_spec p v s :
  mounts_wf v → p ≠ [] → Forall (λ c, c ≠ 0) p → Forall (λ c, (length c ≤ 127)%nat) (components p) →
  (vfs_resolve (Some p) v s = Ok (0, s) ∧ ∀ m, m ∈ mounts v → ¬ covers m p) ∨
  (∃ m r, m ∈ mounts v ∧ covers m p ∧ p = path m ++ r ∧
     (∀ m', m' ∈ mounts v → covers m' p → (length (path m') ≤ length (path m))%nat) ∧
     vfs_resolve (Some p) v s = walk (root m) (components r) s).
Proof.
  intros Hwf Hne Hp Hc. unfold vfs_resolve. destruct p as [|c0 p0]; [done |]. set (p := c0 :: p0) in *.
  destruct (find_mount_root_spec p v Hwf Hp) as [[-> Hall] | (m & r & Hin & Hcov & -> & Hr & E & Hmax)];
    [left; done | right].
  exists m, r. split_and!; try done. destruct (Z.eqb_spec (root m) 0); [done |].
  apply walk_path_components; [unfold path_fuel; lia |].
  destruct Hcov as (_ & r' & E' & Hr'). assert (r' = r) as -> by (rewrite E in E'; by apply app_inv_head in E').
  rewrite E, components_app, Forall_app in Hc by done. apply Hc.
Qed.

(** A relative path is resolved by walking its components from the base
    node, with [.] staying and [..] going to the parent; an absolute one as by
    [vfs_resolve]. Resolution returns for every path. *)
Theorem vfs_resolve_relative_spec base p v s :
  base ≠ 0 → Forall (λ c, (length c ≤ 127)%nat) (components p) →
  vfs_resolve_relative base (Some p) v s =
    if char_at p 0 =? SLASH then vfs_resolve (Some p) v s else walk base (components p) s.
Proof.
  intros Hb Hc. unfold vfs_resolve_relative. destruct (Z.eqb_spec base 0); [done |].
  destruct (char_at p 0 =? SLASH); [done |]. by apply walk_path_components; [unfold path_fuel; lia |].
Qed.

(** When the only mount point is ["/"], as the kernel mounts it, no
    absolute path with a name in it can be resolved: the byte after the
    matched ["/"] would have to be a slash itself. *)
Theorem vfs_root_mount_resolves_nothing c p v s :
  mounts_wf v → (∀ m, m ∈ mounts v → used m = true → path m = [SLASH]) →
  c ≠ SLASH → Forall (λ c, c ≠ 0) (c :: p) →
  vfs_resolve (Some (SLASH :: c :: p)) v s = Ok (0, s).
Proof.
  intros Hwf Hroot Hc Hp. unfold vfs_resolve.
  destruct (find_mount_root_spec (SLASH :: c :: p) v Hwf) as [[-> _] | (m & r & Hin & (Hu & r' & E & Hr) & _)];
    [by constructor | done |].
  rewrite (Hroot m Hin Hu) in E. injection E as <-. done.
Qed.
End theorems.

(** ** Witnesses *)

(** A file system given by the list of its edges (directory, name, node). *)
Notation edges := (list (Z * cstring * Z)).
#[local] Instance edges_fs : FileSystem edges := {
  node_parent s n := default 0 (fst ∘ fst <$> head (filter (λ e, e.2 = n) s));
  node_finddir s n := Some (λ c, Ok (default 0 (snd <$> head (filter (λ e, e.1 = (n, c)) s)), s));
  node_destroy s n := None;
}.

(** ["/"] holds [a], which holds [b]; node 9 is mounted at ["/a"]. *)
Definition demo_fs : edges := [(1, [97], 2); (2, [98], 3); (9, [98], 10)].
Definition demo_vfs : vfs := snd (vfs_mount (Some [47; 97]) 9 (snd (vfs_mount (Some [47]) 1
  (mkVfs (replicate 16 (mkMount [] 0 false)) 0)))).
Definition root_vfs : vfs := snd (vfs_mount (Some [47]) 1 (mkVfs (replicate 16 (mkMount [] 0 false)) 0)).

Lemma demo_vfs_wf : mounts_wf demo_vfs ∧ mounts_wf root_vfs.
Proof.
  assert (Hdec : ∀ v, length (mounts v) = 16%nat →
    bool_decide (Forall (λ m, Forall (λ c, c ≠ 0) (path m) ∧ (used m = false ∨ root m ≠ 0)) (mounts v)) = true →
    mounts_wf v).
  { intros v Hl Hf. apply bool_decide_eq_true in Hf. split; [done |].
    eapply Forall_impl; [exact Hf |]. intros m [H1 H2] Hu. destruct H2; [congruence | done]. }
  split; apply Hdec; vm_compute; reflexivity.
Qed.

Lemma vfs_resolve_spec_witness : vfs_resolve (Some [47; 97; 47; 98]) demo_vfs demo_fs = Ok (10, demo_fs).
Proof.
  destruct (vfs_resolve_spec [47; 97; 47; 98] demo_vfs demo_fs) as [[_ Hno] | (m & r & Hin & Hc & E & Hmax & ->)].
  - exact (proj1 demo_vfs_wf).
  - discriminate.
  - refine (bool_decide_unpack _ _). vm_compute. exact I.
  - refine (bool_decide_unpack _ _). vm_compute. exact I.
  - destruct (Hno (mkMount [47; 97] 9 true)); [vm_compute; set_solver |]. split; [reflexivity |].
    exists [47; 98]. split; reflexivity.
  - assert (Hl : (2 ≤ length (path m))%nat).
    { apply (Hmax (mkMount [47; 97] 9 true)); [vm_compute; set_solver |]. split; [reflexivity |].
      exists [47; 98]. split; reflexivity. }
    vm_compute in Hin. repeat (apply elem_of_cons in Hin as [-> | Hin]; [cbn in Hl; try lia |]).
    + injection E as <-. vm_compute. reflexivity.
    + apply elem_of_nil in Hin. destruct Hin.
Defined.

Lemma vfs_resolve_relative_spec_witness :
  vfs_resolve_relative 1 (Some [97; 47; 46; 46; 47; 97; 47; 98]) demo_vfs demo_fs = Ok (3, demo_fs).
Proof.
  rewrite vfs_resolve_relative_spec; [vm_compute; reflexivity | discriminate |].
  refine (bool_decide_unpack _ _). vm_compute. exact I.
Defined.

Lemma vfs_root_mount_resolves_nothing_witness :
  vfs_resolve (Some [47; 97]) root_vfs demo_fs = Ok (0, demo_fs).
Proof.
  apply (vfs_root_mount_resolves_nothing 97 [] root_vfs demo_fs);
    [exact (proj2 demo_vfs_wf) | | discriminate | refine (bool_decide_unpack _ _); vm_compute; exact I].
  intros m Hm Hu. vm_compute in Hm.
  repeat (apply elem_of_cons in Hm as [-> | Hm]; [reflexivity || discriminate |]).
  apply elem_of_nil in Hm. destruct Hm.
Defined.
End Vfs.
