(* ===== verification/Ramfs.v ===== *)
(** * The RAM file system: [fs/ramfs.cpp]

    Nodes are kept in a typed store keyed by the address [kmalloc] returned;
    the children of a directory form a singly linked list. File data is an
    array of 256 bytes inside the node. *)

From S2P Require Import Prelude Interfaces Machine Libk Pmm Kmalloc Vfs.

Module Ramfs.
Import Libk Kmalloc Vfs.

Notation FS_FILE := 1 (only parsing).
Notation FS_DIR := 2 (only parsing).
Notation MAX_DATA := 256 (only parsing).
Notation MAX_NODES := 128 (only parsing).
(** The name, ten words of [vfs_node], three pointers and the data. *)
Notation sizeof_ramfs_node := 436 (only parsing).

(** [vnode.name], [flags], [size], [inode] and [parent], and the fields of
    [ramfs_node]. The methods of a node are those of a file or of a directory
    according to its flags, as [ramfs_create_file] and [ramfs_create_dir] set
    them; [impl] is always 0. *)
Record ramfs_node := mkNode {
  name : cstring;
  flags : Z;
  fsize : Z;
  inode : Z;
  vparent : Z;
  next_sibling : Z;
  first_child : Z;
  data : list Z;
}.

Record ramfs (Pg : Type) := mkRamfs {
  heap : machine Pg;
  nodes : gmap Z ramfs_node;
  node_pool : list Z;
  pool_count : Z;
  root_node : Z;
}.
Arguments mkRamfs {Pg} _ _ _ _ _.
Arguments heap {Pg} _.
Arguments nodes {Pg} _.
Arguments node_pool {Pg} _.
Arguments pool_count {Pg} _.
Arguments root_node {Pg} _.

Definition with_size (sz : Z) (n : ramfs_node) : ramfs_node :=
  mkNode (name n) (flags n) sz (inode n) (vparent n) (next_sibling n) (first_child n) (data n).
Definition with_data (d : list Z) (n : ramfs_node) : ramfs_node :=
  mkNode (name n) (flags n) (fsize n) (inode n) (vparent n) (next_sibling n) (first_child n) d.
Definition with_first_child (c : Z) (n : ramfs_node) : ramfs_node :=
  mkNode (name n) (flags n) (fsize n) (inode n) (vparent n) (next_sibling n) c (data n).

(** [flags & f] *)
Definition has_flag (f : Z) (n : ramfs_node) : bool := negb (Z.land (flags n) f =? 0).

Section ramfs.
Context {Pg : Type} `{!PageAllocOps Pg}.
Implicit Types fs : ramfs Pg.

Definition with_nodes (ns : gmap Z ramfs_node) fs : ramfs Pg :=
  mkRamfs (heap fs) ns (node_pool fs) (pool_count fs) (root_node fs).
Definition with_root (r : Z) fs : ramfs Pg :=
  mkRamfs (heap fs) (nodes fs) (node_pool fs) (pool_count fs) r.

(** [kmalloc] clears the node. *)
Definition alloc_node (fuel : nat) fs : outcome (Z * ramfs Pg) :=
  if MAX_NODES <=? pool_count fs then Ok (0, fs)
  else
    let! (n, st) := kmalloc fuel sizeof_ramfs_node (heap fs) in
    if n =? 0 then Ok (0, mkRamfs st (nodes fs) (node_pool fs) (pool_count fs) (root_node fs))
    else Ok (n, mkRamfs st (<[n := mkNode [] 0 0 0 0 0 0 (replicate 256 0)]> (nodes fs))
                  (aset (node_pool fs) (pool_count fs) n) (pool_count fs + 1) (root_node fs)).

Definition ramfs_destroy (node : Z) fs : ramfs Pg := fs.

(** The result and the bytes stored at [buf]. *)
Definition ramfs_read (node offset sz : Z) fs : Z * list Z :=
  match nodes fs !! node with
  | None => (-1, [])
  | Some n =>
      if negb (has_flag FS_FILE n) then (-1, [])
      else if fsize n <=? offset then (0, [])
      else
        let remain := fsize n - offset in
        let sz := if remain <? sz then remain else sz in
        (sz, map (λ i, u8 (aget (data n) (offset + Z.of_nat i))) (seq 0 (Z.to_nat sz)))
  end.

(** [buf] gives the byte at an offset of the source buffer. *)
Definition ramfs_write (node offset sz : Z) (buf : Z → Z) fs : Z * ramfs Pg :=
  match nodes fs !! node with
  | None => (-1, fs)
  | Some n =>
      if negb (has_flag FS_FILE n) then (-1, fs)
      else
        let sz := if MAX_DATA <? u32 (offset + sz) then u32 (MAX_DATA - offset) else sz in
        let d := loop_n (Z.to_nat sz) 0 (λ i d, aset d (u32 (offset + i)) (buf i)) (data n) in
        let n := with_data d n in
        let n := if fsize n <? u32 (offset + sz) then with_size (u32 (offset + sz)) n else n in
        (sz, with_nodes (<[node := n]> (nodes fs)) fs)
  end.

(** The walk along the siblings in [ramfs_readdir]: the child at [index]. *)
Fixpoint readdir_from (fuel : nat) (cur i index : Z) fs : outcome (option (Z * ramfs_node)) :=
  match fuel with
  | O => NoFuel
  | S f =>
      match nodes fs !! cur with
      | None => Ok None
      | Some n => if i =? index then Ok (Some (cur, n))
                  else readdir_from f (next_sibling n) (i + 1) index fs
      end
  end.

(** [None] is the result -1; a success copies name, flags and size of the
    child and stores its address as the inode. *)
Definition ramfs_readdir (fuel : nat) (node index : Z) fs :
    outcome (option (cstring * Z * Z * Z)) :=
  match nodes fs !! node with
  | None => Ok None
  | Some n =>
      if negb (has_flag FS_DIR n) then Ok None
      else
        let! r := readdir_from fuel (first_child n) 0 index fs in
        Ok ((λ '(cur, c), (name c, flags c, fsize c, cur)) <$> r)
  end.

Fixpoint finddir_from (fuel : nat) (cur : Z) (nm : cstring) fs : outcome Z :=
  match fuel with
  | O => NoFuel
  | S f =>
      match nodes fs !! cur with
      | None => Ok 0
      | Some n => if bool_decide (name n = nm) then Ok cur
                  else finddir_from f (next_sibling n) nm fs
      end
  end.

Definition ramfs_finddir (fuel : nat) (node : Z) (nm : cstring) fs : outcome Z :=
  match nodes fs !! node with
  | None => Ok 0
  | Some n => if negb (has_flag FS_DIR n) then Ok 0 else finddir_from fuel (first_child n) nm fs
  end.

Definition ramfs_create_root (fuel : nat) fs : outcome (Z * ramfs Pg) :=
  let! (r, fs) := alloc_node fuel fs in
  let fs := with_root r fs in
  if r =? 0 then Ok (0, fs)
  else Ok (r, with_nodes (<[r := mkNode [SLASH] FS_DIR 0 0 r 0 0 (replicate 256 0)]> (nodes fs)) fs).

(** [ramfs_create_file] and [ramfs_create_dir] differ in the flag (and in the
    methods, which follow it): the new node becomes the first child. [strcpy]
    copies the name into 128 bytes. *)
Definition create_node (fuel : nat) (fl parent : Z) (nm : cstring) fs : outcome (Z * ramfs Pg) :=
  match nodes fs !! parent with
  | None => Ok (0, fs)
  | Some p =>
      if negb (has_flag FS_DIR p) then Ok (0, fs)
      else
        let! (n, fs) := alloc_node fuel fs in
        if n =? 0 then Ok (0, fs)
        else if 128 <=? zlen nm then Undef
        else
          let ns := <[n := mkNode nm fl 0 n parent (first_child p) 0 (replicate 256 0)]> (nodes fs) in
          Ok (n, with_nodes (alter (with_first_child n) parent ns) fs)
  end.
Definition ramfs_create_file (fuel : nat) := create_node fuel FS_FILE.
Definition ramfs_create_dir (fuel : nat) := create_node fuel FS_DIR.

(** What the resolver uses of the nodes. There are at most 128 of them. *)
#[export] Instance ramfs_filesystem : FileSystem (ramfs Pg) := {
  node_parent fs n := match nodes fs !! n with Some x => vparent x | None => 0 end;
  node_finddir fs n :=
    match nodes fs !! n with
    | Some x => if has_flag FS_DIR x
                then Some (λ nm, let! c := ramfs_finddir 129 n nm fs in Ok (c, fs)) else None
    | None => None
    end;
  node_destroy fs n := Some (Ok (ramfs_destroy n fs));
}.

Definition ramfs_touch (fuel : nat) (nm : cstring) (v : vfs) fs : outcome (Z * ramfs Pg) :=
  let! (cwd, fs) := vfs_resolve (Some [DOT]) v fs in
  if cwd =? 0 then Ok (0, fs) else ramfs_create_file fuel cwd nm fs.
Definition ramfs_mkdir (fuel : nat) (nm : cstring) (v : vfs) fs : outcome (Z * ramfs Pg) :=
  let! (cwd, fs) := vfs_resolve (Some [DOT]) v fs in
  if cwd =? 0 then Ok (0, fs) else ramfs_create_dir fuel cwd nm fs.
End ramfs.

(** ** Sibling chains *)

(** [chain ns c l]: the siblings from [c] on are the nodes of [l]. *)
Inductive chain (ns : gmap Z ramfs_node) : Z → list Z → Prop :=
| chain_end : chain ns 0 []
| chain_node c n l : ns !! c = Some n → chain ns (next_sibling n) l → chain ns c (c :: l).

Section chains.
Context (ns : gmap Z ramfs_node) (Hnull : ns !! 0 = None).

Lemma chain_det c l l' : chain ns c l → chain ns c l' → l = l'.
Proof.
  intros Hl. revert l'. induction Hl as [| c n l Hn Hl IH]; intros l' Hl'; inversion Hl'; subst; try congruence.
  f_equal. apply IH. congruence.
Qed.

Lemma chain_suffix c l1 d l2 : chain ns c (l1 ++ d :: l2) → chain ns d (d :: l2).
Proof.
  revert c. induction l1 as [|x l1 IH]; intros c Hc; inversion Hc; subst; [done |]. by eapply IH.
Qed.

(** A chain that ends visits no node twice. *)
Lemma chain_NoDup c l : chain ns c l → NoDup l.
Proof.
  induction 1 as [| c n l Hn Hl IH]; constructor; [| done].
  intros (l1 & l2 & ->)%list_elem_of_split.
  pose proof (chain_suffix _ _ _ _ Hl) as Hsuf.
  pose proof (chain_det _ _ _ Hsuf (chain_node ns c n _ Hn Hl)) as E.
  apply (f_equal length) in E. simpl in E. rewrite length_app in E. simpl in E. lia.
Qed.

Lemma chain_in c l d : chain ns c l → d ∈ l → is_Some (ns !! d).
Proof. induction 1 as [| c n l Hn Hl IH]; [set_solver |]. intros [-> | Hd]%elem_of_cons; [by eexists | auto]. Qed.

(** There are at most as many siblings as nodes. *)
Lemma chain_length c l : chain ns c l → (length l ≤ size ns)%nat.
Proof.
  intros Hl. rewrite <- size_dom. rewrite <- (size_list_to_set (C := gset Z) l) by (by eapply chain_NoDup).
  apply subseteq_size. intros d Hd%elem_of_list_to_set. apply elem_of_dom. by eapply chain_in.
Qed.
End chains.

(** Changes that keep the sibling pointers of the chain keep the chain. *)
Lemma chain_frame ns ns' c l :
  chain ns c l → (∀ d n, d ∈ l → ns !! d = Some n → next_sibling <$> ns' !! d = Some (next_sibling n)) →
  chain ns' c l.
Proof.
  induction 1 as [| c n l Hn Hl IH]; intros Hs; [constructor |].
  specialize (Hs c n) as Hc. rewrite Hn in Hc. destruct (ns' !! c) as [n'|] eqn:Hn'; [| by discriminate Hc; [left |]].
  assert (En : next_sibling n' = next_sibling n) by (simpl in Hc; injection Hc; [done | left | done]).
  econstructor; [done |]. rewrite En. apply IH. intros d m Hd. apply Hs. by right.
Qed.

(** The first node of a chain with a given name, or null. *)
Fixpoint find_child (ns : gmap Z ramfs_node) (l : list Z) (nm : cstring) : Z :=
  match l with
  | [] => 0
  | c :: l' => if bool_decide (name <$> ns !! c = Some nm) then c else find_child ns l' nm
  end.

Section lookup.
Context {Pg : Type} `{!PageAllocOps Pg}.
Implicit Types fs : ramfs Pg.

Lemma finddir_from_run fuel c l nm fs :
  nodes fs !! 0 = None → chain (nodes fs) c l → (length l < fuel)%nat →
  finddir_from fuel c nm fs = Ok (find_child (nodes fs) l nm).
Proof.
  intros H0 Hl. revert fuel. induction Hl as [| c n l Hn Hl IH]; intros [|fuel] Hf; simpl in *; try lia.
  - by rewrite H0.
  - rewrite Hn. simpl. destruct (decide (name n = nm)) as [-> | Hne].
    + by rewrite !bool_decide_true.
    + rewrite !bool_decide_false by congruence. apply IH. lia.
Qed.

Lemma readdir_from_run fuel c l i index fs :
  nodes fs !! 0 = None → chain (nodes fs) c l → (length l < fuel)%nat → i ≤ index →
  readdir_from fuel c i index fs =
    Ok (d ← l !! Z.to_nat (index - i); n ← nodes fs !! d; Some (d, n)).
Proof.
  intros H0 Hl. revert fuel i. induction Hl as [| c n l Hn Hl IH]; intros [|fuel] i Hf Hi; simpl in *; try lia.
  - by rewrite H0.
  - rewrite Hn. destruct (Z.eqb_spec i index) as [-> | Hne].
    + rewrite Z.sub_diag. simpl. by rewrite Hn.
    + rewrite IH by lia. replace (Z.to_nat (index - i)) with (S (Z.to_nat (index - (i + 1)))) by lia. done.
Qed.

(** ** Well-formed trees *)

Record ramfs_wf fs : Prop := {
  rw_null : nodes fs !! 0 = None;
  rw_size : Z.of_nat (size (nodes fs)) = pool_count fs;
  rw_pool : length (node_pool fs) = 128%nat ∧ 0 ≤ pool_count fs ≤ 128;
  rw_dirs : ∀ p n, nodes fs !! p = Some n → has_flag FS_DIR n = true →
    ∃ l, chain (nodes fs) (first_child n) l;
  rw_files : ∀ p n, nodes fs !! p = Some n → 0 ≤ fsize n ≤ 256 ∧ length (data n) = 256%nat;
}.

(** [children fs p l]: [p] is a directory and its children are [l]. *)
Definition children fs (p : Z) (l : list Z) : Prop :=
  ∃ n, nodes fs !! p = Some n ∧ has_flag FS_DIR n = true ∧ chain (nodes fs) (first_child n) l.

Lemma children_length fs p l : ramfs_wf fs → children fs p l → (length l < 129)%nat.
Proof.
  intros Hwf (n & _ & _ & Hl). pose proof (chain_length _ (rw_null _ Hwf) _ _ Hl).
  pose proof (rw_size _ Hwf). pose proof (rw_pool _ Hwf). lia.
Qed.

Lemma finddir_children fs p l nm :
  ramfs_wf fs → children fs p l → ramfs_finddir 129 p nm fs = Ok (find_child (nodes fs) l nm).
Proof.
  intros Hwf Hc. pose proof (children_length fs p l Hwf Hc) as Hlen. destruct Hc as (n & Hn & Hd & Hl).
  unfold ramfs_finddir. rewrite Hn, Hd. apply finddir_from_run; [apply Hwf | done | done].
Qed.

Lemma readdir_children fs p l i :
  ramfs_wf fs → children fs p l → 0 ≤ i →
  ramfs_readdir 129 p i fs =
    Ok (d ← l !! Z.to_nat i; n ← nodes fs !! d; Some (name n, flags n, fsize n, d)).
Proof.
  intros Hwf Hc Hi. pose proof (children_length fs p l Hwf Hc) as Hlen. destruct Hc as (n & Hn & Hd & Hl).
  unfold ramfs_readdir. rewrite Hn, Hd. cbn [negb].
  rewrite (readdir_from_run 129 _ l 0 i) by (done || apply Hwf). rewrite Z.sub_0_r. simpl. f_equal.
  destruct (l !! Z.to_nat i) as [d|]; [| done]. simpl. by destruct (nodes fs !! d).
Qed.
End lookup.

(** ** Creating nodes *)

Section create.
Context {Pg : Type} `{PageAlloc Pg}.
Implicit Types fs : ramfs Pg.

(** The heap is well formed and every node is a live block of it. *)
Definition nodes_live fs (fl live : list (Z * Z)) : Prop :=
  heap_inv (heap fs) fl live ∧ ∀ q, is_Some (nodes fs !! q) → ∃ m, (q - 16, m) ∈ live.

Lemma alloc_node_effect fuel fs fl live n fs' :
  nodes_live fs fl live → alloc_node fuel fs = Ok (n, fs') →
  nodes fs !! 0 = None →
  (n = 0 ∧ nodes fs' = nodes fs ∧ node_pool fs' = node_pool fs ∧ pool_count fs' = pool_count fs ∧
   root_node fs' = root_node fs ∧ ∃ fl', nodes_live fs' fl' live) ∨
  (n ≠ 0 ∧ nodes fs !! n = None ∧ pool_count fs < 128 ∧
   nodes fs' = <[n := mkNode [] 0 0 0 0 0 0 (replicate 256 0)]> (nodes fs) ∧
   node_pool fs' = aset (node_pool fs) (pool_count fs) n ∧
   pool_count fs' = pool_count fs + 1 ∧ root_node fs' = root_node fs ∧
   ∃ fl' m, nodes_live fs' fl' ((n - 16, m) :: live)).
Proof.
  intros [Hinv Hl] E H0. unfold alloc_node in E.
  destruct (Z.leb_spec 128 (pool_count fs)) as [Hfull | Hroom].
  { injection E as <- <-. left. split_and!; try done. by exists fl. }
  apply obind_Ok in E as ([p st] & Ek & E).
  destruct (kmalloc_ok (heap fs) fl live 436 fuel p st Hinv ltac:(lia) Ek) as (fl' & Hpost & _).
  destruct (Z.eqb_spec p 0) as [-> | Hp]; injection E as <- <-.
  - left. destruct Hpost as [(_ & Hinv' & _) | (m & ? & _)]; [| done]. split_and!; try done. by exists fl'.
  - right. destruct Hpost as [(? & _) | (m & _ & Hinv' & _)]; [done |].
    assert (Hfresh : nodes fs !! p = None).
    { apply eq_None_not_Some. intros [k Hk]%Hl. by apply (live_fresh _ _ _ _ _ p k Hinv'). }
    split_and!; try done. exists fl', m. split; [done |]. intros q. cbn [nodes].
    destruct (decide (q = p)) as [-> | Hne]; [intros _; exists m; set_solver + |].
    rewrite lookup_insert_ne by done. intros Hq. destruct (Hl q Hq) as [k Hk]. exists k. by right.
Qed.

(** The tree after [create_node] has succeeded. *)
Lemma create_node_effect fuel kind parent nm fs fl live n fs' l :
  ramfs_wf fs → nodes_live fs fl live →
  children fs parent l → kind = FS_FILE ∨ kind = FS_DIR →
  create_node fuel kind parent nm fs = Ok (n, fs') → n ≠ 0 →
  ramfs_wf fs' ∧ (∃ fl' m, nodes_live fs' fl' ((n - 16, m) :: live)) ∧
  nodes fs !! n = None ∧
  (∃ x, nodes fs' !! n = Some x ∧ name x = nm ∧ flags x = kind ∧ fsize x = 0 ∧ vparent x = parent) ∧
  (∀ q x, nodes fs !! q = Some x → ∃ x', nodes fs' !! q = Some x' ∧ name x' = name x ∧
     flags x' = flags x ∧ fsize x' = fsize x ∧ data x' = data x ∧ vparent x' = vparent x ∧
     next_sibling x' = next_sibling x) ∧
  children fs' parent (n :: l) ∧
  (kind = FS_DIR → children fs' n []) ∧
  (∀ q l', q ≠ parent → children fs q l' → children fs' q l').
Proof.
  intros Hwf Hnl (p & Hp & Hdir & Hch) Hkind E Hn. unfold create_node in E. rewrite Hp, Hdir in E.
  cbn [negb] in E. apply obind_Ok in E as ([n1 fs1] & Ea & E).
  destruct (alloc_node_effect fuel fs fl live n1 fs1 Hnl Ea (rw_null _ Hwf))
    as [(-> & _) | (Hn1 & Hfresh & Hroom & En & Epool & Ecount & Eroot & Hlive)].
  { by injection E as <- _. }
  destruct (Z.eqb_spec n1 0); [done |]. destruct (128 <=? zlen nm); [done |]. apply Ok_pair in E as [<- <-]. rewrite En.
  assert (Hnp : n1 ≠ parent) by congruence.
  set (new := mkNode nm kind 0 n1 parent (first_child p) 0 (replicate 256 0)).
  rewrite insert_insert_eq. set (ns' := alter (with_first_child n1) parent (<[n1 := new]> (nodes fs))).
  assert (Hnew : ns' !! n1 = Some new).
  { unfold ns'. rewrite lookup_alter_ne by done. apply lookup_insert_eq. }
  assert (Hpar : ns' !! parent = Some (with_first_child n1 p)).
  { unfold ns'. rewrite lookup_alter_eq, lookup_insert_ne by done. by rewrite Hp. }
  assert (Hoth : ∀ q, q ≠ parent → q ≠ n1 → ns' !! q = nodes fs !! q).
  { intros q H1 H2. unfold ns'. by rewrite lookup_alter_ne, lookup_insert_ne by done. }
  assert (Hold : ∀ q x, nodes fs !! q = Some x → ∃ x', ns' !! q = Some x' ∧ name x' = name x ∧
     flags x' = flags x ∧ fsize x' = fsize x ∧ data x' = data x ∧ vparent x' = vparent x ∧
     next_sibling x' = next_sibling x).
  { intros q x Hq. destruct (decide (q = parent)) as [-> | H1].
    - rewrite Hp in Hq. injection Hq as <-. eexists. split; [done |]. done.
    - exists x. rewrite Hoth; [done | done | congruence]. }
  assert (Hframe : ∀ c l', chain (nodes fs) c l' → chain ns' c l').
  { intros c l' Hc. apply (chain_frame (nodes fs)); [done |]. intros d x _ Hd.
    destruct (Hold d x Hd) as (x' & -> & _ & _ & _ & _ & _ & Es). simpl. by rewrite Es. }
  assert (Hnull : ns' !! 0 = None).
  { rewrite Hoth; [apply Hwf | | done]. intros <-. by rewrite (rw_null _ Hwf) in Hp. }
  split_and!.
  - constructor; cbn [nodes with_nodes pool_count node_pool].
    + done.
    + rewrite Ecount. unfold ns'. rewrite <- size_dom, dom_alter_L, size_dom, map_size_insert_None by done.
      pose proof (rw_size _ Hwf). lia.
    + rewrite Epool, Ecount, aset_length. pose proof (rw_pool _ Hwf). lia.
    + intros q x Hq Hd. destruct (decide (q = n1)) as [-> | H1].
      { exists []. rewrite Hnew in Hq. injection Hq as <-. constructor. }
      destruct (decide (q = parent)) as [-> | H2].
      { rewrite Hpar in Hq. injection Hq as <-. exists (n1 :: l). econstructor; [done |]. by apply Hframe. }
      rewrite Hoth in Hq by done. destruct (rw_dirs _ Hwf q x Hq Hd) as [l' Hl']. exists l'. by apply Hframe.
    + intros q x Hq. destruct (decide (q = n1)) as [-> | H1].
      { rewrite Hnew in Hq. injection Hq as <-. done. }
      destruct (decide (q = parent)) as [-> | H2].
      { rewrite Hpar in Hq. injection Hq as <-. by apply (rw_files _ Hwf parent p). }
      rewrite Hoth in Hq by done. by apply (rw_files _ Hwf q x).
  - destruct Hlive as (fl' & m & Hh & Hl). exists fl', m. split; [done |]. intros q Hq. apply Hl.
    cbn [nodes with_nodes] in Hq. unfold ns' in Hq. rewrite En.
    destruct (decide (q = n1)) as [-> | H1]; [rewrite lookup_insert_eq; by eexists |].
    rewrite lookup_insert_ne by done. destruct (decide (q = parent)) as [-> | H2]; [by eexists |].
    by rewrite <- Hoth.
  - done.
  - exists new. done.
  - done.
  - eexists. cbn [nodes with_nodes]. split; [done |]. split; [done |]. econstructor; [done |]. by apply Hframe.
  - intros ->. exists new. split_and!; [done | done | constructor].
  - intros q l' Hne (x & Hx & Hd & Hc). exists x. cbn [nodes with_nodes].
    split_and!; [| done | by apply Hframe]. rewrite Hoth; [done | done | congruence].
Qed.

Lemma find_child_ext ns ns' l nm :
  (∀ c, c ∈ l → name <$> ns' !! c = name <$> ns !! c) → find_child ns' l nm = find_child ns l nm.
Proof.
  induction l as [|c l IH]; intros Hs; simpl; [done |]. rewrite Hs by set_solver +.
  rewrite IH by (intros d Hd; apply Hs; by right). done.
Qed.
End create.

(** ** Properties *)

Section theorems.
Context {Pg : Type} `{PageAlloc Pg}.
Implicit Types fs : ramfs Pg.

(** The lookups after a creation that returned a node. *)
Lemma create_node_lookup fuel kind parent nm fs fl live n fs' l :
  ramfs_wf fs → nodes_live fs fl live →
  children fs parent l → kind = FS_FILE ∨ kind = FS_DIR →
  create_node fuel kind parent nm fs = Ok (n, fs') → n ≠ 0 →
  ramfs_wf fs' ∧ nodes fs !! n = None ∧
  ramfs_finddir 129 parent nm fs' = Ok n ∧
  ramfs_readdir 129 parent 0 fs' = Ok (Some (nm, kind, 0, n)) ∧
  (∀ nm', nm' ≠ nm → ramfs_finddir 129 parent nm' fs' = ramfs_finddir 129 parent nm' fs) ∧
  (∀ i, 0 ≤ i → ramfs_readdir 129 parent (i + 1) fs' = ramfs_readdir 129 parent i fs) ∧
  (∀ q l' nm', q ≠ parent → children fs q l' →
     ramfs_finddir 129 q nm' fs' = ramfs_finddir 129 q nm' fs).
Proof.
  intros Hwf Hnl Hch Hkind E Hn.
  destruct (create_node_effect fuel kind parent nm fs fl live n fs' l Hwf Hnl Hch Hkind E Hn)
    as (Hwf' & _ & Hfresh & (x & Hx & Hxn & Hxk & Hxs & _) & Hold & Hch' & _ & Hothers).
  assert (Hin : ∀ q l' c, children fs q l' → c ∈ l' → is_Some (nodes fs !! c)).
  { intros q l' c (m & _ & _ & Hc) Hcl. exact (chain_in _ (rw_null _ Hwf) _ _ _ Hc Hcl). }
  assert (Hname : ∀ q l' c, children fs q l' → c ∈ l' → name <$> nodes fs' !! c = name <$> nodes fs !! c).
  { intros q l' c Hq Hcl. destruct (Hin q l' c Hq Hcl) as [y Hy].
    destruct (Hold c y Hy) as (y' & -> & Ey & _). rewrite Hy. simpl. by rewrite Ey. }
  assert (Hxname : name <$> nodes fs' !! n = Some nm) by (rewrite Hx; cbn; by rewrite Hxn).
  split_and!; [done | done | | | | |].
  - rewrite (finddir_children fs' parent (n :: l)) by done. cbn [find_child].
    by rewrite Hxname, bool_decide_true.
  - rewrite (readdir_children fs' parent (n :: l)) by done. simpl. rewrite Hx. cbn. by rewrite Hxn, Hxk, Hxs.
  - intros nm' Hne. rewrite (finddir_children fs' parent (n :: l)) by done.
    rewrite (finddir_children fs parent l) by done.
    cbn [find_child]. rewrite Hxname, bool_decide_false by congruence. f_equal.
    apply find_child_ext. intros c Hc. by apply (Hname parent l).
  - intros i Hi. rewrite (readdir_children fs' parent (n :: l)) by (done || lia).
    rewrite (readdir_children fs parent l) by (done || lia).
    replace (Z.to_nat (i + 1)) with (S (Z.to_nat i)) by lia. simpl. f_equal.
    destruct (l !! Z.to_nat i) as [c|] eqn:Hc; [| done]. simpl.
    destruct (Hin parent l c Hch) as [y Hy]; [by eapply list_elem_of_lookup_2 |].
    destruct (Hold c y Hy) as (y' & -> & E1 & E2 & E3 & _). rewrite Hy. cbn. by rewrite E1, E2, E3.
  - intros q l' nm' Hne Hq. rewrite (finddir_children fs' q l') by (done || by apply Hothers).
    rewrite (finddir_children fs q l') by done. f_equal. apply find_child_ext.
    intros c Hc. by apply (Hname q l').
Qed.

(** [create_node] returns, and a null result leaves the tree as it was. *)
Lemma create_node_returns fuel kind parent nm fs fl live l :
  ramfs_wf fs → nodes_live fs fl live → (length fl + 16 < fuel)%nat → children fs parent l → (length nm < 128)%nat →
  ∃ n fs', create_node fuel kind parent nm fs = Ok (n, fs') ∧
    (n = 0 → nodes fs' = nodes fs ∧ node_pool fs' = node_pool fs ∧ pool_count fs' = pool_count fs).
Proof.
  intros Hwf Hnl Hf (p & Hp & Hdir & _) Hnm. unfold create_node. rewrite Hp, Hdir. cbn [negb].
  assert (Ha : ∃ n fs', alloc_node fuel fs = Ok (n, fs')).
  { unfold alloc_node. destruct (128 <=? pool_count fs); [by eexists _, _ |].
    destruct Hnl as [Hinv _].
    destruct (kmalloc_run (heap fs) fl live 436 fuel Hinv ltac:(lia) Hf) as (q & st & -> & _). cbn [obind].
    destruct (q =? 0); by eexists _, _. }
  destruct Ha as (n & fs1 & Ea). rewrite Ea. cbn [obind].
  destruct (alloc_node_effect fuel fs fl live n fs1 Hnl Ea (rw_null _ Hwf))
    as [(-> & En & Epool & Ecount & _) | (Hn & _)].
  - rewrite Z.eqb_refl. by eexists _, _.
  - destruct (Z.eqb_spec n 0); [done |]. destruct (Z.leb_spec 128 (zlen nm)); [lia |]. by eexists _, _.
Qed.

(** C15: creating a file or directory returns. When it returns a node, that is
    the entry that [ramfs_finddir] finds under its name and the first that
    [ramfs_readdir] lists; every other name, in this and in every other
    directory, is found as before, and the tree stays well formed. A null
    result leaves the tree alone. All the walks along the siblings end. Names
    fit in the 128 bytes of a node. *)
Theorem ramfs_create_lookup fuel kind parent nm fs fl live l :
  ramfs_wf fs → nodes_live fs fl live → (length fl + 16 < fuel)%nat →
  children fs parent l → kind = FS_FILE ∨ kind = FS_DIR → (length nm < 128)%nat →
  ∃ n fs', create_node fuel kind parent nm fs = Ok (n, fs') ∧
  (n = 0 ∧ nodes fs' = nodes fs ∧ pool_count fs' = pool_count fs ∨
   n ≠ 0 ∧ ramfs_wf fs' ∧ nodes fs !! n = None ∧
   ramfs_finddir 129 parent nm fs' = Ok n ∧
   ramfs_readdir 129 parent 0 fs' = Ok (Some (nm, kind, 0, n)) ∧
   (∀ nm', nm' ≠ nm → ramfs_finddir 129 parent nm' fs' = ramfs_finddir 129 parent nm' fs) ∧
   (∀ i, 0 ≤ i → ramfs_readdir 129 parent (i + 1) fs' = ramfs_readdir 129 parent i fs) ∧
   (∀ q l' nm', q ≠ parent → children fs q l' →
      ramfs_finddir 129 q nm' fs' = ramfs_finddir 129 q nm' fs)).
Proof.
  intros Hwf Hnl Hf Hch Hkind Hnm.
  destruct (create_node_returns fuel kind parent nm fs fl live l Hwf Hnl Hf Hch Hnm) as (n & fs' & E & Hnull).
  exists n, fs'. split; [exact E |]. destruct (Z.eq_dec n 0) as [H0 | Hn]; [left | right].
  - destruct (Hnull H0) as (? & _ & ?). done.
  - split; [done |]. exact (create_node_lookup fuel kind parent nm fs fl live n fs' l Hwf Hnl Hch Hkind E Hn).
Qed.

Lemma write_loop n offset (buf : Z → Z) (d : list Z) :
  0 ≤ offset → offset + Z.of_nat n ≤ zlen d → zlen d < W32 →
  let d' := loop_n n 0 (λ i d, aset d (u32 (offset + i)) (buf i)) d in
  length d' = length d ∧
  ∀ j, aget d' j = if (offset <=? j) && (j <? offset + Z.of_nat n) then buf (j - offset) else aget d j.
Proof.
  intros H0 Hn Hd d'.
  enough (Hloop : length d' = length d ∧ ∀ j, aget d' j =
    if (offset <=? j) && (j <? offset + (0 + Z.of_nat n)) then buf (j - offset) else aget d j) by done.
  apply (loop_n_ind (λ k d', length d' = length d ∧ ∀ j, aget d' j =
    if (offset <=? j) && (j <? offset + k) then buf (j - offset) else aget d j) n 0).
  - split; [done |]. intros j. destruct (Z.leb_spec offset j), (Z.ltb_spec j (offset + 0)); simpl; lia || done.
  - intros k x Hk [Hl Hx]. split; [by rewrite aset_length |]. intros j. rewrite u32_id by lia.
    destruct (Z.eq_dec j (offset + k)) as [-> | Hne].
    + rewrite aget_aset_eq by lia. destruct (Z.leb_spec offset (offset + k)), (Z.ltb_spec (offset + k) (offset + (k + 1)));
        try lia. simpl. f_equal. lia.
    + rewrite aget_aset_ne by lia. rewrite Hx.
      destruct (Z.leb_spec offset j), (Z.ltb_spec j (offset + k)), (Z.ltb_spec j (offset + (k + 1))); simpl; lia || done.
Qed.

(** A lookup uses nothing but the nodes. *)
Lemma finddir_nodes fuel q nm fs fs' :
  nodes fs = nodes fs' → ramfs_finddir fuel q nm fs = ramfs_finddir fuel q nm fs'.
Proof.
  intros E. unfold ramfs_finddir. rewrite E. destruct (nodes fs' !! q) as [n|]; [| done].
  destruct (negb _); [done |]. generalize (first_child n) as c. induction fuel as [|f IH]; intros c; [done |].
  cbn [finddir_from]. rewrite E. destruct (nodes fs' !! c) as [x|]; [| done]. by rewrite IH.
Qed.

(** The effect of a write inside the data array. *)
Lemma ramfs_write_run node offset sz buf fs n :
  ramfs_wf fs → nodes fs !! node = Some n → has_flag FS_FILE n = true →
  0 ≤ offset < 256 → 0 < sz → offset + sz < W32 → (∀ i, 0 ≤ buf i < W8) →
  let w := Z.min sz (256 - offset) in
  ∃ fs' n', ramfs_write node offset sz buf fs = (w, fs') ∧ ramfs_wf fs' ∧
    nodes fs' = <[node := n']> (nodes fs) ∧ fsize n' = Z.max (fsize n) (offset + w) ∧
    ramfs_read node offset w fs' = (w, map (λ i, buf (Z.of_nat i)) (seq 0 (Z.to_nat w))) ∧
    (∀ j, j < offset ∨ offset + w ≤ j → aget (data n') j = aget (data n) j) ∧
    name n' = name n ∧ flags n' = flags n ∧ (∀ q l, children fs q l → children fs' q l).
Proof.
  intros Hwf Hn Hfile Ho Hsz Hov Hbuf w. destruct (rw_files _ Hwf node n Hn) as [Hfs Hd].
  assert (Hw : (if 256 <? u32 (offset + sz) then u32 (256 - offset) else sz) = w).
  { rewrite (u32_id (offset + sz)) by lia. unfold w. zcase; [rewrite u32_id by lia |]; lia. }
  destruct (write_loop (Z.to_nat w) offset buf (data n)) as [Hlen Hget]; [lia | lia | lia |].
  rewrite Z2Nat.id in Hget by lia.
  unfold ramfs_write. rewrite Hn, Hfile. cbn [negb]. cbv zeta. rewrite Hw.
  set (d := loop_n _ _ _ _) in *. rewrite (u32_id (offset + w)) by lia. cbn [fsize with_data].
  set (n' := if fsize n <? offset + w then with_size (offset + w) (with_data d n) else with_data d n).
  assert (Hn' : fsize n' = Z.max (fsize n) (offset + w) ∧ data n' = d ∧ flags n' = flags n ∧
    first_child n' = first_child n ∧ next_sibling n' = next_sibling n ∧ name n' = name n).
  { unfold n'. zcase; cbn; split_and!; done || lia. }
  clearbody n'. destruct Hn' as (Es & Ed & Ef & Ec & Enx & Enm).
  eexists _, n'. split; [reflexivity |].
  assert (Hframe : ∀ c l, chain (nodes fs) c l → chain (<[node := n']> (nodes fs)) c l).
  { intros c l Hc. apply (chain_frame (nodes fs)); [done |]. intros e m _ He.
    destruct (decide (e = node)) as [-> | Hne]; [| by rewrite lookup_insert_ne, He].
    rewrite lookup_insert_eq. simpl. congruence. }
  split_and!; [| done | done | | | done | done |].
  - constructor; cbn [nodes with_nodes pool_count node_pool].
    + rewrite lookup_insert_ne; [apply Hwf |]. intros ->. by rewrite (rw_null _ Hwf) in Hn.
    + rewrite map_size_insert_Some by (by eexists). apply Hwf.
    + apply Hwf.
    + intros q x Hq Hdir. destruct (decide (q = node)) as [-> | Hne].
      * rewrite lookup_insert_eq in Hq. injection Hq as <-. rewrite Ec.
        destruct (rw_dirs _ Hwf node n Hn) as [l Hl]; [by unfold has_flag in *; rewrite <- Ef |].
        exists l. by apply Hframe.
      * rewrite lookup_insert_ne in Hq by done. destruct (rw_dirs _ Hwf q x Hq Hdir) as [l Hl].
        exists l. by apply Hframe.
    + intros q x Hq. destruct (decide (q = node)) as [-> | Hne].
      * rewrite lookup_insert_eq in Hq. injection Hq as <-. rewrite Es, Ed, Hlen. lia.
      * rewrite lookup_insert_ne in Hq by done. by apply (rw_files _ Hwf q x).
  - unfold ramfs_read. cbn [nodes with_nodes]. rewrite lookup_insert_eq. unfold has_flag in *. rewrite Ef, Hfile.
    cbn [negb]. rewrite Es. destruct (Z.leb_spec (Z.max (fsize n) (offset + w)) offset); [lia |].
    destruct (Z.ltb_spec (Z.max (fsize n) (offset + w) - offset) w); [lia |]. f_equal.
    apply map_ext_in. intros i Hi%in_seq. rewrite Ed, Hget.
    destruct (Z.leb_spec offset (offset + Z.of_nat i)), (Z.ltb_spec (offset + Z.of_nat i) (offset + w)); try lia.
    simpl. rewrite u8_id by apply Hbuf. f_equal. lia.
  - intros j Hj. rewrite Ed, Hget. destruct (Z.leb_spec offset j), (Z.ltb_spec j (offset + w)); simpl; lia || done.
  - intros q l (x & Hx & Hdir & Hc). destruct (decide (q = node)) as [-> | Hne].
    + exists n'. cbn [nodes with_nodes]. rewrite lookup_insert_eq. assert (x = n) as -> by congruence.
      split_and!; [done | by unfold has_flag in *; rewrite Ef | rewrite Ec; by apply Hframe].
    + exists x. cbn [nodes with_nodes]. rewrite lookup_insert_ne by done. split_and!; [done | done | by apply Hframe].
Qed.

(** Writing at an offset inside the 256 bytes of a file stores as many
    bytes as fit and returns that number; reading them back gives the same
    bytes, the other bytes of the file and all other nodes are unchanged, and
    the size is extended exactly to the end of the data written. *)
Theorem ramfs_write_read node offset sz buf fs n :
  ramfs_wf fs → nodes fs !! node = Some n → has_flag FS_FILE n = true →
  0 ≤ offset < 256 → 0 < sz → offset + sz < W32 → (∀ i, 0 ≤ buf i < W8) →
  let w := Z.min sz (256 - offset) in
  ∃ fs' n', ramfs_write node offset sz buf fs = (w, fs') ∧ ramfs_wf fs' ∧
    nodes fs' = <[node := n']> (nodes fs) ∧ fsize n' = Z.max (fsize n) (offset + w) ∧
    ramfs_read node offset w fs' = (w, map (λ i, buf (Z.of_nat i)) (seq 0 (Z.to_nat w))) ∧
    (∀ j, j < offset ∨ offset + w ≤ j → aget (data n') j = aget (data n) j).
Proof.
  intros Hwf Hn Hfile Ho Hsz Hov Hbuf w.
  destruct (ramfs_write_run node offset sz buf fs n Hwf Hn Hfile Ho Hsz Hov Hbuf) as (fs' & n' & ? & ? & ? & ? & ? & ? & _).
  by exists fs', n'.
Qed.

(** The lookups after a write are those before it. *)
Lemma finddir_write fs fs' node n n' q l nm :
  ramfs_wf fs → ramfs_wf fs' → nodes fs !! node = Some n → nodes fs' = <[node := n']> (nodes fs) → name n' = name n →
  children fs q l → children fs' q l → ramfs_finddir 129 q nm fs' = ramfs_finddir 129 q nm fs.
Proof.
  intros Hwf Hwf' Hn En Hname Hq Hq'. rewrite (finddir_children fs' q l), (finddir_children fs q l) by done. f_equal.
  apply find_child_ext. intros c _. rewrite En. destruct (decide (c = node)) as [-> | Hne].
  - rewrite lookup_insert_eq, Hn. simpl. by rewrite Hname.
  - by rewrite lookup_insert_ne.
Qed.

(** For an offset past the end of the data array the bound computed by
    [ramfs_write] wraps around: instead of refusing, the call sets out to write
    more than four billion bytes, starting outside the array, and the file is
    then 256 bytes long. *)
Theorem ramfs_write_past_end node offset sz buf fs n :
  nodes fs !! node = Some n → has_flag FS_FILE n = true → fsize n ≤ 256 →
  256 < offset → offset + sz < W32 → 0 ≤ sz →
  ∃ fs' n', ramfs_write node offset sz buf fs = (W32 + 256 - offset, fs') ∧
    nodes fs' !! node = Some n' ∧ fsize n' = Z.max (fsize n) 256.
Proof.
  intros Hn Hfile Hs Ho Hov Hsz. unfold ramfs_write. rewrite Hn, Hfile. cbn [negb]. cbv zeta.
  assert (Hw : (if 256 <? u32 (offset + sz) then u32 (256 - offset) else sz) = W32 + 256 - offset).
  { rewrite (u32_id (offset + sz)) by lia. zcase; [unfold u32; mlia | lia]. }
  rewrite Hw. replace (u32 (offset + (W32 + 256 - offset))) with 256 by (unfold u32; mlia).
  set (d := loop_n _ _ _ _). clearbody d. cbn [fsize with_data].
  eexists _, _. split; [reflexivity |]. cbn [nodes with_nodes]. split; [apply lookup_insert_eq |].
  zcase; cbn; lia.
Qed.

(** [ramfs_touch] and [ramfs_mkdir] resolve ["."] as an absolute path;
    when every mount point starts with a slash that fails, so both always
    return null and create nothing. *)
Theorem ramfs_touch_fails fuel nm v fs :
  mounts_wf v → (∀ m, m ∈ mounts v → used m = true → head (path m) = Some SLASH) →
  ramfs_touch fuel nm v fs = Ok (0, fs) ∧ ramfs_mkdir fuel nm v fs = Ok (0, fs).
Proof.
  intros Hwf Hm. unfold ramfs_touch, ramfs_mkdir, vfs_resolve.
  destruct (find_mount_root_spec [DOT] v Hwf) as [[-> _] | (m & r & Hin & (Hu & r' & E & _) & _)];
    [by repeat constructor | done |].
  specialize (Hm m Hin Hu). destruct (path m) as [|c p]; [done |]. simpl in *. congruence.
Qed.
End theorems.

(** ** Witnesses *)

Import Pmm.

(** The heap of the 8 MiB machine after the node of the root was allocated. *)
Lemma boot_heap_root :
  ∃ st0 st, kmalloc_init boot_machine = Ok st0 ∧ kmalloc 18 436 st0 = Ok (4194320, st) ∧
    heap_inv st [(4194764, 3636)] [(4194304, 460)].
Proof.
  destruct boot_heap as (st0 & E0 & Hinv). exists st0.
  destruct (kmalloc_head st0 4194304 4096 [] [] 436 18 Hinv) as (st & E1 & Hinv1 & _); [lia | vm_compute; discriminate | lia |].
  exists st. split; [exact E0 |]. split; [exact E1 | exact Hinv1].
Qed.

(** A file system with the root directory only. *)
Definition root_only (st : machine Pmm.pmm) : ramfs Pmm.pmm :=
  mkRamfs st {[ 4194320 := mkNode [SLASH] FS_DIR 0 0 4194320 0 0 (replicate 256 0) ]}
    (4194320 :: replicate 127 0) 1 4194320.

Lemma root_only_wf st : ramfs_wf (root_only st) ∧ children (root_only st) 4194320 [].
Proof.
  split; [constructor | by eexists; split_and!; [done | done | constructor]]; cbn [nodes root_only node_pool pool_count].
  - done.
  - by rewrite map_size_singleton.
  - split; [done | lia].
  - intros p n [<- <-]%lookup_singleton_Some _. exists []. constructor.
  - intros p n [<- <-]%lookup_singleton_Some. done.
Qed.

(** [ramfs_create_file(root, "a")] after the boot of the heap. *)
Definition create_a (m0 : machine Pmm.pmm) : outcome (machine Pmm.pmm * (Z * ramfs Pmm.pmm)) :=
  let! st0 := kmalloc_init m0 in
  let! (_, st) := kmalloc 18 436 st0 in
  let! r := ramfs_create_file 18 4194320 [97] (root_only st) in
  Ok (st, r).

Lemma create_a_calls m0 st r :
  create_a m0 = Ok (st, r) →
  ∃ st0 p, kmalloc_init m0 = Ok st0 ∧ kmalloc 18 436 st0 = Ok (p, st) ∧
    ramfs_create_file 18 4194320 [97] (root_only st) = Ok r.
Proof.
  unfold create_a. intros (s0 & E0 & E)%obind_Ok. apply obind_Ok in E as ([p s1] & E1 & E).
  apply obind_Ok in E as (r' & E2 & E). apply Ok_pair in E as [-> ->]. by exists s0, p.
Qed.

Lemma ramfs_create_lookup_witness :
  ∃ st n fs', ramfs_create_file 18 4194320 [97] (root_only st) = Ok (n, fs') ∧ n ≠ 0 ∧
    ramfs_finddir 129 4194320 [97] fs' = Ok n.
Proof.
  destruct (run_Ok (create_a boot_machine) (λ r, negb (fst (snd r) =? 0)))
    as ([st [n fs']] & E & Hb); [vm_compute; reflexivity |]. cbn [fst snd] in Hb. zbool.
  destruct (create_a_calls _ _ _ E) as (st0 & p & E0 & E1 & E2).
  destruct boot_heap_root as (st0' & st' & E0' & E1' & Hinv).
  assert (st0' = st0) as -> by congruence. rewrite E1 in E1'. apply Ok_pair in E1' as [-> <-].
  destruct (ramfs_create_lookup 18 FS_FILE 4194320 [97] (root_only st) [(4194764, 3636)] [(4194304, 460)] [])
    as (n' & fs2 & E3 & [(Hz & _) | (Hn & _ & _ & Hf & _)]).
  - exact (proj1 (root_only_wf st)).
  - split; [exact Hinv |]. intros q [x Hx]. unfold root_only in Hx. cbn [nodes] in Hx.
    apply lookup_singleton_Some in Hx as [<- _]. exists 460. left.
  - simpl. lia.
  - exact (proj2 (root_only_wf st)).
  - left. reflexivity.
  - simpl. lia.
  - exfalso. unfold ramfs_create_file in E2. rewrite E2 in E3. apply Ok_pair in E3 as [<- _]. exact (Hb Hz).
  - exists st, n', fs2. split; [exact E3 | split; [exact Hn | exact Hf]].
Defined.

(** A file system with one empty file, at address 0x5000. *)
Definition one_file : ramfs Pmm.pmm :=
  mkRamfs boot_machine {[ 0x5000 := mkNode [97] FS_FILE 0 0x5000 0 0 0 (replicate 256 0) ]}
    (0x5000 :: replicate 127 0) 1 0.

Lemma one_file_wf : ramfs_wf one_file.
Proof.
  constructor; cbn [nodes one_file node_pool pool_count].
  - done.
  - by rewrite map_size_singleton.
  - split; [done | lia].
  - intros p n [<- <-]%lookup_singleton_Some Hd. discriminate.
  - intros p n [<- <-]%lookup_singleton_Some. done.
Qed.

Lemma ramfs_write_read_witness :
  ∃ fs', ramfs_write 0x5000 254 5 (λ i, 65 + i mod 26) one_file = (2, fs') ∧
    ramfs_read 0x5000 254 2 fs' = (2, [65; 66]).
Proof.
  destruct (ramfs_write_read 0x5000 254 5 (λ i, 65 + i mod 26) one_file
    (mkNode [97] FS_FILE 0 0x5000 0 0 0 (replicate 256 0))) as (fs' & n' & E & _ & _ & _ & Er & _).
  - exact one_file_wf.
  - reflexivity.
  - reflexivity.
  - lia.
  - lia.
  - lia.
  - intros i. mlia.
  - exists fs'. split; [exact E | exact Er].
Defined.

Lemma ramfs_write_past_end_witness :
  ∃ fs', ramfs_write 0x5000 300 4 (λ i, i) one_file = (4294967252, fs').
Proof.
  destruct (ramfs_write_past_end 0x5000 300 4 (λ i, i) one_file
    (mkNode [97] FS_FILE 0 0x5000 0 0 0 (replicate 256 0))) as (fs' & n' & E & _).
  - reflexivity.
  - reflexivity.
  - cbn. lia.
  - lia.
  - lia.
  - lia.
  - exists fs'. exact E.
Defined.

Lemma ramfs_touch_fails_witness : ramfs_touch 18 [97] root_vfs one_file = Ok (0, one_file).
Proof.
  apply (ramfs_touch_fails 18 [97] root_vfs one_file).
  - exact (proj2 demo_vfs_wf).
  - intros m Hm Hu. vm_compute in Hm.
    repeat (apply elem_of_cons in Hm as [-> | Hm]; [reflexivity || discriminate |]).
    apply elem_of_nil in Hm. destruct Hm.
Defined.
End Ramfs.
