(* ===== verification/Ata.v ===== *)
(** * The disk driver: [drivers/ata.cpp]

    Programmed I/O on the two ATA channels. The drives are behind the ports
    ([PortIO]); [timeout] stands for [ATA_TIMEOUT], the number of polls after
    which the driver gives up. What a drive does at its ports is the class
    [AtaDrive], law by law for registers, commands, status and data; a drive
    that ignores what it does not expect is a [StrictDrive]. What file systems
    use of the driver is the class [BlockDevice]. *)

From S2P Require Import Prelude Ports.

(** Sectors of 512 bytes by device and block address; [None] is a failure. *)
Class BlockDevice (B : Type) := {
  device_count_of : B → Z;
  read_sector : Z → Z → B → option (list Z) * B;
}.

Module Ata.

Notation ATA_PRIMARY_IO := 0x1F0 (only parsing).
Notation ATA_PRIMARY_CTRL := 0x3F6 (only parsing).
Notation ATA_SECONDARY_IO := 0x170 (only parsing).
Notation ATA_SECONDARY_CTRL := 0x376 (only parsing).
Notation REG_SECTORS := 2 (only parsing).
Notation REG_LBA_LOW := 3 (only parsing).
Notation REG_LBA_MID := 4 (only parsing).
Notation REG_LBA_HIGH := 5 (only parsing).
Notation REG_DRIVE := 6 (only parsing).
Notation REG_COMMAND := 7 (only parsing).
Notation REG_STATUS := 7 (only parsing).
Notation CMD_READ := 0x20 (only parsing).
Notation CMD_IDENTIFY := 0xEC (only parsing).
Notation CMD_FLUSH := 0xE7 (only parsing).
Notation STATUS_ERR := 0x01 (only parsing).
Notation STATUS_DRQ := 0x08 (only parsing).
Notation STATUS_BSY := 0x80 (only parsing).

Record ata_device := mkDev {
  base : Z;
  ctrl : Z;
  present : bool;
  is_master : bool;
  model : list Z;
  sectors : Z;
}.
#[export] Instance ata_device_zero : ZeroInit ata_device := mkDev 0 0 false false (replicate 40 0) 0.

(** The table [devices] with [device_count] entries, and the ports. *)
Record ata (D : Type) := mkAta { devices : list ata_device; device_count : Z; io : D }.
Arguments mkAta {D} _ _ _.
Arguments devices {D} _.
Arguments device_count {D} _.
Arguments io {D} _.

Definition flag (v mask : Z) : bool := negb (Z.land v mask =? 0).

(** [model] with the trailing spaces replaced by zeros. *)
Fixpoint trim (i : nat) (m : list Z) : list Z :=
  match i with
  | O => m
  | S i' => if aget m (Z.of_nat i') =? 32 then trim i' (aset m (Z.of_nat i') 0) else m
  end.

Section ata.
Context {D : Type} `{!PortIO D}.
Implicit Types d : D.

Definition ata_poll d : D := loop_n 4 0 (λ _ d, snd (inb ATA_PRIMARY_CTRL d)) d.

(** True stands for the result 0, false for -1. *)
Fixpoint ata_wait_bsy (timeout : nat) (b : Z) d : bool * D :=
  match timeout with
  | O => (false, d)
  | S t => let '(v, d) := inb (b + REG_STATUS) d in
           if flag v STATUS_BSY then ata_wait_bsy t b d else (true, d)
  end.

Fixpoint ata_wait_drq (timeout : nat) (b : Z) d : bool * D :=
  match timeout with
  | O => (false, d)
  | S t =>
      let '(v, d) := inb (b + REG_STATUS) d in
      if flag v STATUS_DRQ then (true, d)
      else
        match t with
        | O => (false, d)
        | S _ => let '(v, d) := inb (b + REG_STATUS) d in
                 if flag v STATUS_ERR then (false, d) else ata_wait_drq t b d
        end
  end.

(** [for(i < n) buf[i] = inw(base);] *)
Fixpoint read_words (n : nat) (b : Z) d : list Z * D :=
  match n with
  | O => ([], d)
  | S n' => let '(w, d) := inw b d in let '(ws, d) := read_words n' b d in (w :: ws, d)
  end.
Fixpoint write_words (ws : list Z) (b : Z) d : D :=
  match ws with
  | [] => d
  | w :: ws' => write_words ws' b (outw b w d)
  end.

(** Lines 101 to 119, from the words of the drive. *)
Definition identified (b : Z) (master : bool) (buf : list Z) : ata_device :=
  let m := loop_n 20 0 (λ i m,
    aset (aset m (i * 2) (Z.land (Z.shiftr (aget buf (27 + i)) 8) 0xFF))
         (i * 2 + 1) (Z.land (aget buf (27 + i)) 0xFF)) (replicate 40 0) in
  mkDev b (if b =? ATA_PRIMARY_IO then ATA_PRIMARY_CTRL else ATA_SECONDARY_CTRL) true master
    (trim 40 m) (Z.lor (Z.shiftl (aget buf 61) 16) (aget buf 60)).

(** The result code, and the device when it is 0. *)
Definition ata_identify (timeout : nat) (b : Z) (master : bool) d : Z * option ata_device * D :=
  let d := outb (b + REG_DRIVE) (if master then 0xA0 else 0xB0) d in
  let d := ata_poll d in
  let '(status, d) := inb (b + REG_STATUS) d in
  if status =? 0xFF then (-1, None, d)
  else
    let d := outb (b + REG_SECTORS) 0 d in
    let d := outb (b + REG_LBA_LOW) 0 d in
    let d := outb (b + REG_LBA_MID) 0 d in
    let d := outb (b + REG_LBA_HIGH) 0 d in
    let d := outb (b + REG_COMMAND) CMD_IDENTIFY d in
    let '(status, d) := inb (b + REG_STATUS) d in
    if status =? 0 then (-1, None, d)
    else
      let '(ok, d) := ata_wait_bsy timeout b d in
      if negb ok then (-1, None, d)
      else
        let '(status, d) := inb (b + REG_STATUS) d in
        if flag status STATUS_ERR then
          let '(mid, d) := inb (b + REG_LBA_MID) d in
          let '(high, d) := inb (b + REG_LBA_HIGH) d in
          if (mid =? 0x14) && (high =? 0xEB) then (-2, None, d) else (-1, None, d)
        else
          let '(ok, d) := ata_wait_drq timeout b d in
          if negb ok then (-1, None, d)
          else
            let '(buf, d) := read_words 256 b d in
            (0, Some (identified b master buf), d).

(** [ata_init] probes the four positions in order. *)
Definition probe (timeout : nat) (a : ata D) (p : Z * bool) : ata D :=
  let '(ret, dev, d) := ata_identify timeout (fst p) (snd p) (io a) in
  match dev with
  | Some dev => mkAta (aset (devices a) (device_count a) dev) (device_count a + 1) d
  | None => mkAta (devices a) (device_count a) d
  end.
Definition ata_init (timeout : nat) (a : ata D) : Z * ata D :=
  let a := foldl (probe timeout) (mkAta (devices a) 0 (io a))
    [(ATA_PRIMARY_IO, true); (ATA_PRIMARY_IO, false); (ATA_SECONDARY_IO, true); (ATA_SECONDARY_IO, false)] in
  (device_count a, a).

Definition ata_device_count (a : ata D) : Z := device_count a.
Definition ata_get_device (index : Z) (a : ata D) : option ata_device :=
  if (index <? 0) || (device_count a <=? index) then None else Some (aget (devices a) index).

(** The drive and block registers for a command, as both transfers set them. *)
Definition select_block (dev : ata_device) (lba : Z) d : D :=
  let b := base dev in
  let d := outb (b + REG_DRIVE)
    (Z.lor (Z.lor 0xE0 (if is_master dev then 0 else 0x10)) (Z.land (Z.shiftr lba 24) 0x0F)) d in
  let d := outb (b + REG_SECTORS) 1 d in
  let d := outb (b + REG_LBA_LOW) (Z.land lba 0xFF) d in
  let d := outb (b + REG_LBA_MID) (Z.land (Z.shiftr lba 8) 0xFF) d in
  outb (b + REG_LBA_HIGH) (Z.land (Z.shiftr lba 16) 0xFF) d.

(** The words of the sector, or [None] for the result -1. *)
Definition ata_read_sector (timeout : nat) (dev lba : Z) (a : ata D) : option (list Z) * ata D :=
  if (dev <? 0) || (device_count a <=? dev) then (None, a)
  else
    let v := aget (devices a) dev in
    let put d := mkAta (devices a) (device_count a) d in
    let '(ok, d) := ata_wait_bsy timeout (base v) (io a) in
    if negb ok then (None, put d)
    else
      let d := outb (base v + REG_COMMAND) CMD_READ (select_block v lba d) in
      let '(ok, d) := ata_wait_drq timeout (base v) d in
      if negb ok then (None, put d)
      else let '(ws, d) := read_words 256 (base v) d in (Some ws, put d).

(** The result and the state; [ws] are the 256 words at [buffer]. *)
Definition ata_write_sector (timeout : nat) (dev lba : Z) (ws : list Z) (a : ata D) : Z * ata D :=
  if (dev <? 0) || (device_count a <=? dev) then (-1, a)
  else
    let v := aget (devices a) dev in
    let put d := mkAta (devices a) (device_count a) d in
    let '(ok, d) := ata_wait_bsy timeout (base v) (io a) in
    if negb ok then (-1, put d)
    else
      let d := outb (base v + REG_COMMAND) CMD_READ (select_block v lba d) in
      let d := outb (base v + REG_COMMAND) 0x30 d in
      let '(ok, d) := ata_wait_drq timeout (base v) d in
      if negb ok then (-1, put d)
      else
        let d := write_words ws (base v) d in
        let '(_, d) := ata_wait_bsy timeout (base v) d in
        (0, put (outb (base v + REG_COMMAND) CMD_FLUSH d)).

End ata.

(** The bytes of the words of a sector, low byte first. *)
Definition word_bytes (ws : list Z) : list Z := flat_map (λ w, [w mod 256; w / 256 mod 256]) ws.

(** ** Channels without drives *)

(** The status register of a channel with no drive: lines that float read as
    ones, a controller answers zero for a drive that is not there. *)
Definition no_drive (D : Type) `{!PortIO D} (b : Z) : Prop :=
  ∃ v, (v = 0 ∨ v = 0xFF) ∧ ∀ d : D, fst (inb (b + REG_STATUS) d) = v.

Lemma identify_none {D} `{!PortIO D} timeout b master (d : D) :
  no_drive D b → ∃ d', ata_identify timeout b master d = (-1, None, d').
Proof.
  intros (v & Hv & Hs). unfold ata_identify. set (d1 := ata_poll _). clearbody d1.
  pose proof (Hs d1) as H1. destruct (inb (b + 7) d1) as [s1 d2]. cbn [fst] in H1. subst s1.
  destruct Hv as [-> | ->]; [| by exists d2]. cbn [Z.eqb Pos.eqb]. set (d3 := outb (b + 7) _ _). clearbody d3.
  pose proof (Hs d3) as H3. destruct (inb (b + 7) d3) as [s3 d4]. cbn [fst] in H3. subst s3. by exists d4.
Qed.

Lemma ata_init_none {D} `{!PortIO D} timeout (a : ata D) :
  no_drive D ATA_PRIMARY_IO → no_drive D ATA_SECONDARY_IO → fst (ata_init timeout a) = 0.
Proof.
  intros H1 H2. unfold ata_init. cbn [foldl fst].
  assert (Hp : ∀ a p, no_drive D (fst p) → device_count (probe timeout a p) = device_count a).
  { intros a' p Hn. unfold probe. by destruct (identify_none timeout (fst p) (snd p) (io a') Hn) as (d' & ->). }
  rewrite !Hp; done.
Qed.

(** What the driver offers to file systems. *)
Definition ata_block_device {D} `{!PortIO D} (timeout : nat) : BlockDevice (ata D) := {|
  device_count_of := ata_device_count;
  read_sector dev lba a :=
    let '(ws, a) := ata_read_sector timeout dev lba a in (word_bytes <$> ws, a);
|}.

(** ** Drives that follow the protocol

    The registers of a channel, and what the selected drive does: it waits for a
    command, or it serves a read and shows after [polls] more status reads that
    the words are there; of anything else nothing is said. *)

Record registers := mkRegisters { r_count : Z; r_low : Z; r_mid : Z; r_high : Z; r_drive : Z }.
Inductive phase := Ready | Serving (polls : nat) (ws : list Z) | Other.

Definition put_register (r v : Z) (g : registers) : registers :=
  if r =? 2 then mkRegisters v (r_low g) (r_mid g) (r_high g) (r_drive g)
  else if r =? 3 then mkRegisters (r_count g) v (r_mid g) (r_high g) (r_drive g)
  else if r =? 4 then mkRegisters (r_count g) (r_low g) v (r_high g) (r_drive g)
  else if r =? 5 then mkRegisters (r_count g) (r_low g) (r_mid g) v (r_drive g)
  else mkRegisters (r_count g) (r_low g) (r_mid g) (r_high g) v.
(** The 28-bit address in the registers, and whether the master is selected. *)
Definition addressed (g : registers) : Z :=
  Z.lor (Z.shiftl (Z.land (r_drive g) 0x0F) 24)
    (Z.lor (Z.shiftl (r_high g) 16) (Z.lor (Z.shiftl (r_mid g) 8) (r_low g))).
Definition master_selected (g : registers) : bool := negb (flag (r_drive g) 0x10).

(** The drives of the channel with the ports from [b] on. *)
Class AtaDrive (D : Type) `{!PortIO D} (b : Z) := {
  view : D → registers * phase;
  attached : bool → bool;
  sector : D → bool → Z → list Z;
  delay : nat;
  sector_length d m l : length (sector d m l) = 256%nat;
  (* a drive that waits takes the registers *)
  register_write d g r v : view d = (g, Ready) → 2 ≤ r ≤ 6 →
    view (outb (b + r) v d) = (put_register r v g, Ready) ∧ ∀ m l, sector (outb (b + r) v d) m l = sector d m l;
  (* and the command to read one sector *)
  command_read d g : view d = (g, Ready) → attached (master_selected g) = true → r_count g = 1 →
    (∃ n, (n ≤ delay)%nat ∧
      view (outb (b + REG_COMMAND) CMD_READ d) = (g, Serving n (sector d (master_selected g) (addressed g)))) ∧
    ∀ m l, sector (outb (b + REG_COMMAND) CMD_READ d) m l = sector d m l;
  (* it is not busy while it waits *)
  status_ready d g : view d = (g, Ready) →
    flag (fst (inb (b + REG_STATUS) d)) STATUS_BSY = false ∧ view (snd (inb (b + REG_STATUS) d)) = (g, Ready) ∧
    ∀ m l, sector (snd (inb (b + REG_STATUS) d)) m l = sector d m l;
  (* it asks for the transfer when the words are there, and reports no error *)
  status_serving d g n w ws : view d = (g, Serving n (w :: ws)) →
    flag (fst (inb (b + REG_STATUS) d)) STATUS_ERR = false ∧
    flag (fst (inb (b + REG_STATUS) d)) STATUS_DRQ = (n =? 0)%nat ∧
    view (snd (inb (b + REG_STATUS) d)) = (g, Serving (pred n) (w :: ws)) ∧
    ∀ m l, sector (snd (inb (b + REG_STATUS) d)) m l = sector d m l;
  (* the words come one by one *)
  data_read d g w ws : view d = (g, Serving 0 (w :: ws)) →
    fst (inw b d) = w ∧ view (snd (inw b d)) = (g, match ws with [] => Ready | _ => Serving 0 ws end) ∧
    ∀ m l, sector (snd (inw b d)) m l = sector d m l;
}.

(** A drive that does not take a command while it serves another, nor data
    while it has data to give. *)
Class StrictDrive (D : Type) `{AtaDrive D b} := {
  command_ignored d g n w ws v : view d = (g, Serving n (w :: ws)) →
    view (outb (b + REG_COMMAND) v d) = view d ∧ ∀ m l, sector (outb (b + REG_COMMAND) v d) m l = sector d m l;
  data_ignored d g w ws v : view d = (g, Serving 0 (w :: ws)) →
    view (outw b v d) = view d ∧ ∀ m l, sector (outw b v d) m l = sector d m l;
  serving_not_busy d g w ws : view d = (g, Serving 0 (w :: ws)) →
    flag (fst (inb (b + REG_STATUS) d)) STATUS_BSY = false;
}.

Lemma lba_split lba :
  0 ≤ lba < W32 →
  Z.lor (Z.shiftl (Z.land (Z.lor 0xE0 (Z.land (Z.shiftr lba 24) 0x0F)) 0x0F) 24)
    (Z.lor (Z.shiftl (Z.land (Z.shiftr lba 16) 0xFF) 16)
       (Z.lor (Z.shiftl (Z.land (Z.shiftr lba 8) 0xFF) 8) (Z.land lba 0xFF))) = lba mod 2 ^ 28.
Proof.
  intros Hl. apply Z.bits_inj_iff. intros n. destruct (Z_lt_ge_dec n 0); [by rewrite !Z.testbit_neg_r |].
  rewrite <- Z.land_ones by lia. change 0x0F with (Z.ones 4). change 0xFF with (Z.ones 8).
  change 0xE0 with (Z.shiftl 7 5).
  rewrite Z.lor_spec, Z.lor_spec, Z.lor_spec, !(Z.shiftl_spec _ _ n) by lia.
  rewrite !Z.land_spec, Z.lor_spec, Z.land_spec, !Z.testbit_ones by lia.
  destruct (Z_lt_ge_dec n 8), (Z_lt_ge_dec n 16), (Z_lt_ge_dec n 24); try lia;
    rewrite ?(Z.testbit_neg_r _ (n - 24)), ?(Z.testbit_neg_r _ (n - 16)), ?(Z.testbit_neg_r _ (n - 8)) by lia;
    rewrite ?(Z.shiftr_spec _ _ (n - 24)), ?(Z.shiftr_spec _ _ (n - 16)), ?(Z.shiftr_spec _ _ (n - 8)) by lia;
    rewrite ?Z.sub_add.
  all: repeat match goal with |- context [Z.leb ?a ?b] => destruct (Z.leb_spec a b); try lia end;
       repeat match goal with |- context [Z.ltb ?a ?b] => destruct (Z.ltb_spec a b); try lia end;
       rewrite ?andb_true_r, ?andb_false_r, ?orb_false_r, ?orb_false_l; try done.
  all: rewrite (Z.shiftl_spec 7 5) by lia; replace (Z.testbit 7 (n - 24 - 5)) with false; [done |].
  all: symmetry; apply Z.testbit_neg_r; lia.
Qed.


Lemma master_bit m lba :
  negb (flag (Z.lor (Z.lor 0xE0 (if m : bool then 0 else 0x10)) (Z.land (Z.shiftr lba 24) 0x0F)) 0x10) = m.
Proof.
  unfold flag. rewrite negb_involutive.
  assert (E : Z.land (Z.lor (Z.lor 0xE0 (if m then 0 else 0x10)) (Z.land (Z.shiftr lba 24) 0x0F)) 0x10 = if m then 0 else 0x10).
  { apply Z.bits_inj_iff. intros n. rewrite Z.land_spec. destruct (Z.eq_dec n 4) as [-> |].
    - rewrite Z.lor_spec, Z.land_spec, andb_false_r. by destruct m.
    - change 0x10 with (2 ^ 4). destruct (Z_lt_ge_dec n 0); [by rewrite !Z.testbit_neg_r |].
      rewrite (Z.pow2_bits_false 4 n) by lia. rewrite andb_false_r. destruct m; [by rewrite Z.bits_0 | by rewrite Z.pow2_bits_false by lia]. }
  rewrite E. by destruct m.
Qed.

Lemma drive_address m lba :
  0 ≤ lba < W32 →
  addressed (mkRegisters 1 (Z.land lba 0xFF) (Z.land (Z.shiftr lba 8) 0xFF) (Z.land (Z.shiftr lba 16) 0xFF)
    (Z.lor (Z.lor 0xE0 (if m : bool then 0 else 0x10)) (Z.land (Z.shiftr lba 24) 0x0F))) = lba mod 2 ^ 28.
Proof.
  intros Hl. rewrite <- (lba_split lba Hl). unfold addressed. cbn [r_drive r_high r_mid r_low]. f_equal. f_equal.
  destruct m; [done |]. apply Z.bits_inj_iff. intros n. rewrite !Z.land_spec, !Z.lor_spec, !Z.land_spec.
  destruct (Z.testbit 15 n) eqn:E; [| by rewrite !andb_false_r]. rewrite !andb_true_r. f_equal.
  change (Z.lor 0xE0 0x10) with 0xF0.
  destruct (Z_lt_ge_dec n 0); [by rewrite !Z.testbit_neg_r |].
  destruct (Z_lt_ge_dec n 4) as [Hn | Hn]; [| change 15 with (Z.ones 4) in E; by rewrite Z.ones_spec_high in E by lia].
  assert (n = 0 ∨ n = 1 ∨ n = 2 ∨ n = 3) as [-> | [-> | [-> | ->]]] by lia; done.
Qed.

(** ** The driver on such a drive *)

Section protocol.
Context {D : Type} `{AtaDrive D b}.
Implicit Types (d : D) (a : ata D).

Definition same_sectors d d' : Prop := ∀ m l, sector d' m l = sector d m l.

(** The driver knows the drive at index [dev], and it waits for a command. *)
Record knows a (dev : Z) : Prop := {
  kn_dev : 0 ≤ dev < device_count a;
  kn_base : base (aget (devices a) dev) = b;
  kn_attached : attached (is_master (aget (devices a) dev)) = true;
  kn_ready : ∃ g, view (io a) = (g, Ready);
}.

Lemma wait_bsy_ready timeout d g :
  (0 < timeout)%nat → view d = (g, Ready) →
  ∃ d', ata_wait_bsy timeout b d = (true, d') ∧ view d' = (g, Ready) ∧ same_sectors d d'.
Proof.
  intros Ht Hv. destruct timeout; [lia |]. cbn [ata_wait_bsy]. destruct (status_ready d g Hv) as (Hf & Hv' & Hs).
  destruct (inb (b + 7) d) as [v d']. cbn [fst snd] in *. rewrite Hf. by exists d'.
Qed.

(** The five register writes. *)
Lemma select_block_ready v lba d g :
  base v = b → 0 ≤ lba < W32 → view d = (g, Ready) →
  ∃ g', view (select_block v lba d) = (g', Ready) ∧ same_sectors d (select_block v lba d) ∧
    r_count g' = 1 ∧ master_selected g' = is_master v ∧ addressed g' = lba mod 2 ^ 28.
Proof.
  intros Hb Hl Hv. unfold select_block. rewrite Hb. cbv zeta.
  set (v6 := Z.lor (Z.lor 0xE0 _) _).
  destruct (register_write d g 6 v6 Hv ltac:(lia)) as [V1 S1].
  destruct (register_write _ _ 2 1 V1 ltac:(lia)) as [V2 S2].
  destruct (register_write _ _ 3 (Z.land lba 0xFF) V2 ltac:(lia)) as [V3 S3].
  destruct (register_write _ _ 4 (Z.land (Z.shiftr lba 8) 0xFF) V3 ltac:(lia)) as [V4 S4].
  destruct (register_write _ _ 5 (Z.land (Z.shiftr lba 16) 0xFF) V4 ltac:(lia)) as [V5 S5].
  eexists. split; [exact V5 |]. split; [intros m l; by rewrite S5, S4, S3, S2, S1 |].
  cbn. split; [done |]. split; [apply master_bit | by apply drive_address].
Qed.

(** The wait for the words ends when the drive needs fewer polls than it is
    given. *)
Lemma wait_drq_serving timeout n d g w ws :
  (n < timeout)%nat → view d = (g, Serving n (w :: ws)) →
  ∃ d', ata_wait_drq timeout b d = (true, d') ∧ view d' = (g, Serving 0 (w :: ws)) ∧ same_sectors d d'.
Proof.
  revert n d. induction timeout as [|t IH]; intros n d Hn Hv; [lia |]. cbn [ata_wait_drq].
  destruct (status_serving d g n w ws Hv) as (_ & Hq & Hv1 & Hs1). destruct (inb (b + 7) d) as [v1 d1]. cbn [fst snd] in *.
  rewrite Hq. destruct n as [|n]; cbn [Nat.eqb pred] in *; [by exists d1 |]. destruct t as [|t]; [lia |].
  destruct (status_serving d1 g n w ws Hv1) as (He & _ & Hv2 & Hs2). destruct (inb (b + 7) d1) as [v2 d2]. cbn [fst snd] in *.
  rewrite He. destruct (IH (pred n) d2) as (d' & E & Hv' & Hs'); [lia | done |]. exists d'. split; [exact E |]. split; [done |].
  intros m l. by rewrite Hs', Hs2, Hs1.
Qed.

Lemma read_words_serving ws w d g :
  view d = (g, Serving 0 (w :: ws)) →
  ∃ d', read_words (S (length ws)) b d = (w :: ws, d') ∧ view d' = (g, Ready) ∧ same_sectors d d'.
Proof.
  revert w d. induction ws as [|w' ws IH]; intros w d Hv; cbn [read_words length];
    destruct (data_read d g w _ Hv) as (Hw & Hv1 & Hs1); destruct (inw b d) as [x d1]; cbn [fst snd] in *; subst x; [by exists d1 |].
  destruct (IH w' d1 Hv1) as (d' & E & Hv' & Hs'). cbn [read_words length] in E. rewrite E. exists d'. split; [done |]. split; [done |].
  intros m l. by rewrite Hs', Hs1.
Qed.

(** The command to read, up to the words. *)
Lemma serve_run timeout v lba d g :
  (delay < timeout)%nat → base v = b → attached (is_master v) = true → 0 ≤ lba < W32 → view d = (g, Ready) →
  ∃ g' n w ws, sector d (is_master v) (lba mod 2 ^ 28) = w :: ws ∧ (n < timeout)%nat ∧
    view (outb (b + REG_COMMAND) CMD_READ (select_block v lba d)) = (g', Serving n (w :: ws)) ∧
    same_sectors d (outb (b + REG_COMMAND) CMD_READ (select_block v lba d)).
Proof.
  intros Ht Hb Ha Hl Hv. destruct (select_block_ready v lba d g Hb Hl Hv) as (g' & Hv1 & Hs1 & Hc & Hm & Hadr).
  destruct (command_read _ g' Hv1) as ((n & Hn & Hv2) & Hs2); [by rewrite Hm | done |].
  rewrite Hm, Hadr, Hs1 in Hv2. pose proof (sector_length d (is_master v) (lba mod 2 ^ 28)) as Hlen.
  destruct (sector d (is_master v) (lba mod 2 ^ 28)) as [|w ws]; [done |].
  exists g', n, w, ws. split; [done |]. split; [lia |]. split; [done |]. intros m l. by rewrite Hs2, Hs1.
Qed.

(** A read returns the addressed block and leaves the drive waiting. *)
Lemma read_run timeout dev lba a (v := aget (devices a) dev) :
  (delay < timeout)%nat → knows a dev → 0 ≤ lba < W32 →
  ∃ d', ata_read_sector timeout dev lba a =
      (Some (sector (io a) (is_master v) (lba mod 2 ^ 28)), mkAta (devices a) (device_count a) d') ∧
    (∃ g, view d' = (g, Ready)) ∧ same_sectors (io a) d'.
Proof.
  intros Ht [[Hd0 Hd1] Hb Ha [g Hv]] Hl. unfold ata_read_sector. fold v in Hb, Ha |- *.
  destruct (Z.ltb_spec dev 0), (Z.leb_spec (device_count a) dev); try lia. cbn [orb]. rewrite Hb.
  destruct (wait_bsy_ready timeout (io a) g ltac:(lia) Hv) as (d1 & -> & Hv1 & Hs1). cbn [negb].
  destruct (serve_run timeout v lba d1 g Ht Hb Ha Hl Hv1) as (g' & n & w & ws & Ew & Hn & Hv2 & Hs2).
  destruct (wait_drq_serving timeout n _ g' w ws Hn Hv2) as (d3 & -> & Hv3 & Hs3). cbn [negb].
  rewrite Hs1 in Ew. pose proof (sector_length (io a) (is_master v) (lba mod 2 ^ 28)) as Hlen. rewrite Ew in Hlen |- *.
  destruct (read_words_serving ws w d3 g' Hv3) as (d4 & E4 & Hv4 & Hs4). change (S (length ws)) with (length (w :: ws)) in E4.
  rewrite Hlen in E4. rewrite E4. exists d4. split; [done |]. split; [by exists g' |]. intros m l. by rewrite Hs4, Hs3, Hs2, Hs1.
Qed.


(** ** Writing *)

Lemma write_words_ignored `{!StrictDrive D} l d g w ws :
  view d = (g, Serving 0 (w :: ws)) → view (write_words l b d) = view d ∧ same_sectors d (write_words l b d).
Proof.
  revert d. induction l as [|x l IH]; intros d Hv; [by split |]. cbn [write_words].
  destruct (data_ignored d g w ws x Hv) as [Hv1 Hs1]. destruct (IH (outw b x d)) as [Hv2 Hs2]; [by rewrite Hv1 |].
  split; [by rewrite Hv2 |]. intros m y. by rewrite Hs2, Hs1.
Qed.

(** C32: a write is lost. [ata_write_sector] gives the command to read before
    the command to write. On a drive that takes no command while it serves
    another one, it reports success, but no sector has changed; and the drive
    is left with the words of the read that nobody fetches. *)
Theorem ata_write_sector_lost `{!StrictDrive D} timeout dev lba ws a (v := aget (devices a) dev) :
  (delay < timeout)%nat → knows a dev → 0 ≤ lba < W32 →
  ∃ a' g, ata_write_sector timeout dev lba ws a = (0, a') ∧ (∀ m l, sector (io a') m l = sector (io a) m l) ∧
    view (io a') = (g, Serving 0 (sector (io a) (is_master v) (lba mod 2 ^ 28))).
Proof.
  intros Ht [[Hd0 Hd1] Hb Ha [g Hv]] Hl. unfold ata_write_sector. fold v in Hb, Ha |- *.
  destruct (Z.ltb_spec dev 0), (Z.leb_spec (device_count a) dev); try lia. cbn [orb]. rewrite Hb.
  destruct (wait_bsy_ready timeout (io a) g ltac:(lia) Hv) as (d1 & -> & Hv1 & Hs1). cbn [negb].
  destruct (serve_run timeout v lba d1 g Ht Hb Ha Hl Hv1) as (g' & n & w & rest & Ew & Hn & Hv2 & Hs2). rewrite Hs1 in Ew.
  destruct (command_ignored _ g' n w rest 0x30 Hv2) as [Hv3 Hs3]. rewrite Hv2 in Hv3.
  destruct (wait_drq_serving timeout n _ g' w rest Hn Hv3) as (d4 & -> & Hv4 & Hs4). cbn [negb].
  destruct (write_words_ignored ws d4 g' w rest Hv4) as [Hv5 Hs5]. rewrite Hv4 in Hv5.
  set (d5 := write_words ws b d4) in *. clearbody d5. destruct timeout as [|t]; [lia |]. cbn [ata_wait_bsy].
  pose proof (serving_not_busy d5 g' w rest Hv5) as Hnb. destruct (status_serving d5 g' 0 w rest Hv5) as (_ & _ & Hv6 & Hs6).
  destruct (inb (b + 7) d5) as [x d6]. cbn [fst snd pred] in *. rewrite Hnb.
  destruct (command_ignored d6 g' 0 w rest 0xE7 Hv6) as [Hv7 Hs7].
  eexists _, g'. split; [reflexivity |]. cbn [io]. rewrite Hv7, Ew. split; [| done].
  intros m l. by rewrite Hs7, Hs6, Hs5, Hs4, Hs3, Hs2, Hs1.
Qed.
End protocol.

(** ** A drive

    The master of the primary channel, which is busy for two polls before it
    has the words of a sector. *)

Inductive transfer_state := Idle | Reading (polls : nat) (ws : list Z) | Writing (ws : list Z).
Record drive := mkDrive { blocks : gmap Z (list Z); regs : registers; transfer : transfer_state }.

(** A sector has 256 words, those that are not given are zero. *)
Definition block (lba : Z) (d : drive) : list Z := resize 256 0 (default [] (blocks d !! lba)).
Definition with_transfer (t : transfer_state) (d : drive) : drive := mkDrive (blocks d) (regs d) t.
(** Only the words that the driver reads are filled in: the number of sectors. *)
Definition identity : list Z := replicate 60 0x2020 ++ [1000; 0] ++ replicate 194 0.

Definition drive_status (d : drive) : Z * drive :=
  if master_selected (regs d) then
    match transfer d with
    | Idle => (0x50, d)
    | Reading (S n) ws => (0x80, with_transfer (Reading n ws) d)
    | Reading O _ | Writing _ => (0x58, d)
    end
  else (0, d).

(** Commands while a transfer is going on are ignored. *)
Definition drive_command (v : Z) (d : drive) : drive :=
  match transfer d with
  | Idle =>
      if negb (master_selected (regs d)) then d
      else if v =? 0x20 then with_transfer (Reading 2 (block (addressed (regs d)) d)) d
      else if v =? 0x30 then with_transfer (Writing []) d
      else if v =? 0xEC then with_transfer (Reading 2 identity) d
      else d
  | _ => d
  end.

Definition drive_in (d : drive) : Z * drive :=
  match transfer d with
  | Reading O [w] => (w, with_transfer Idle d)
  | Reading O (w :: ws) => (w, with_transfer (Reading O ws) d)
  | _ => (0xFFFF, d)
  end.
Definition drive_out (w : Z) (d : drive) : drive :=
  match transfer d with
  | Writing ws =>
      let ws := ws ++ [w] in
      if (length ws =? 256)%nat then mkDrive (<[addressed (regs d) := ws]> (blocks d)) (regs d) Idle
      else with_transfer (Writing ws) d
  | _ => d
  end.

#[export] Instance drive_io : PortIO drive := {
  inb p d := if p =? 0x1F7 then drive_status d else (if p =? 0x177 then 0xFF else 0, d);
  outb p v d :=
    if p =? 0x1F7 then drive_command v d
    else if (0x1F2 <=? p) && (p <=? 0x1F6)
    then match transfer d with Idle => mkDrive (blocks d) (put_register (p - 0x1F0) v (regs d)) Idle | _ => d end
    else d;
  inw p d := if p =? 0x1F0 then drive_in d else (0, d);
  outw p w d := if p =? 0x1F0 then drive_out w d else d;
  inl p d := (0, d);
  outl p v d := d;
}.

Definition drive_view (d : drive) : registers * phase :=
  (regs d, match transfer d with
           | Idle => Ready
           | Reading n (w :: ws) => if master_selected (regs d) then Serving n (w :: ws) else Other
           | _ => Other
           end).

Lemma drive_view_ready d g : drive_view d = (g, Ready) → g = regs d ∧ transfer d = Idle.
Proof.
  unfold drive_view. intros E. injection E as <- Ep. split; [done |].
  destruct (transfer d) as [| n [|w ws] |]; [done.. | by destruct (master_selected _) | done].
Qed.
Lemma drive_view_serving d g n w ws :
  drive_view d = (g, Serving n (w :: ws)) →
  g = regs d ∧ transfer d = Reading n (w :: ws) ∧ master_selected (regs d) = true.
Proof.
  unfold drive_view. intros E. injection E as <- Ep. split; [done |].
  destruct (transfer d) as [| n' [|w' ws'] |]; [done.. | | done]. destruct (master_selected _); [| done].
  by injection Ep as -> -> ->.
Qed.

#[export] Program Instance drive_protocol : AtaDrive drive 0x1F0 := {
  view := drive_view;
  attached m := m;
  sector d m l := block l d;
  delay := 2;
}.
Next Obligation. intros d m l. apply length_resize. Qed.
Next Obligation.
  intros d g r v Hv Hr. apply drive_view_ready in Hv as [-> Ht]. cbn [outb drive_io].
  destruct (Z.eqb_spec (0x1F0 + r) 0x1F7), (Z.leb_spec 0x1F2 (0x1F0 + r)), (Z.leb_spec (0x1F0 + r) 0x1F6); try lia.
  cbn [andb]. rewrite Ht. replace (0x1F0 + r - 0x1F0) with r by lia. done.
Qed.
Next Obligation.
  intros d g Hv Hm Hc. apply drive_view_ready in Hv as [-> Ht].
  change (outb (0x1F0 + 7) 0x20 d) with (drive_command 0x20 d). unfold drive_command. rewrite Ht, Hm.
  cbn [negb Z.eqb Pos.eqb]. split; [| done]. exists 2%nat. split; [lia |].
  unfold drive_view. cbn [regs transfer with_transfer]. rewrite Hm.
  pose proof (length_resize (default [] (blocks d !! addressed (regs d))) 256 0) as Hl. fold (block (addressed (regs d)) d) in Hl.
  by destruct (block (addressed (regs d)) d).
Qed.
Next Obligation.
  intros d g Hv. pose proof Hv as Hv0. apply drive_view_ready in Hv as [-> Ht]. cbn. unfold drive_status. rewrite Ht.
  by destruct (master_selected _).
Qed.
Next Obligation.
  intros d g n w ws Hv. pose proof Hv as Hv0. apply drive_view_serving in Hv as (-> & Ht & Hm). change (inb (0x1F0 + 7) d) with (drive_status d).
  unfold drive_status. rewrite Hm, Ht. destruct n as [|n]; cbn [fst snd]; split_and!; try done.
  unfold drive_view. cbn [regs transfer with_transfer]. by rewrite Hm.
Qed.
Next Obligation.
  intros d g w ws Hv. apply drive_view_serving in Hv as (-> & Ht & Hm). change (inw 0x1F0 d) with (drive_in d).
  unfold drive_in. rewrite Ht. destruct ws as [|w' ws]; cbn [fst snd]; split_and!; try done.
  unfold drive_view. cbn [regs transfer with_transfer]. by rewrite Hm.
Qed.

#[export] Program Instance drive_strict : StrictDrive drive (b := 0x1F0).
Next Obligation. intros d g n w ws v Hv. apply drive_view_serving in Hv as (-> & Ht & Hm). cbn. unfold drive_command. by rewrite Ht. Qed.
Next Obligation. intros d g w ws v Hv. apply drive_view_serving in Hv as (-> & Ht & Hm). cbn. unfold drive_out. by rewrite Ht. Qed.
Next Obligation.
  intros d g w ws Hv. apply drive_view_serving in Hv as (-> & Ht & Hm). change (inb (0x1F0 + 7) d) with (drive_status d).
  unfold drive_status. by rewrite Hm, Ht.
Qed.

(** The driver after [ata_init] on this drive, and a drive with one sector. *)
Definition no_registers : registers := mkRegisters 0 0 0 0 0.
Definition fresh_drive (bs : gmap Z (list Z)) : drive := mkDrive bs no_registers Idle.
Definition booted : ata drive := snd (ata_init 4 (mkAta (replicate 4 zeroed) 0 (fresh_drive ∅))).
Definition with_blocks (bs : gmap Z (list Z)) : ata drive := mkAta (devices booted) (device_count booted) (fresh_drive bs).
Lemma booted_knows bs : knows (with_blocks bs) 0.
Proof. constructor; [vm_compute; done.. |]. by exists no_registers. Qed.

Definition one_sector : ata drive := with_blocks {[ 5 := replicate 256 7 ]}.


Lemma ata_write_sector_lost_witness :
  ∃ a', ata_write_sector 3 0 5 (replicate 256 9) one_sector = (0, a') ∧ block 5 (io a') = replicate 256 7.
Proof.
  destruct (ata_write_sector_lost 3 0 5 (replicate 256 9) one_sector) as (a' & g & E & Hs & _);
    [cbn; lia | apply booted_knows | lia |].
  exists a'. split; [exact E |]. exact (Hs true 5).
Defined.
End Ata.
