(* ===== verification/Fat32.v ===== *)
(** * The FAT32 file system: [fs/fat32.cpp]

    A read-only file system on a [BlockDevice]. Sectors are lists of bytes,
    the packed structures of the file are read at their offsets. Nodes and
    the mounted file systems are objects of the kernel heap, kept in maps by
    address. *)

From S2P Require Import Prelude Interfaces Machine Libk Pmm Kmalloc Vfs Ata.

Module Fat32.
Import Kmalloc Vfs.

Notation ATTR_DIRECTORY := 0x10 (only parsing).
Notation ATTR_LFN := 0x0F (only parsing).
Notation FAT32_EOC := 0x0FFFFFF8 (only parsing).
Notation ATA_SECTOR_SIZE := 512 (only parsing).
Notation DIRENT := 32 (only parsing).
Notation FS_FILE := 1 (only parsing).
Notation FS_DIR := 2 (only parsing).
(** [vfs_node] has 168 bytes. *)
Notation sizeof_fat32_node := 180 (only parsing).
Notation sizeof_fat32_fs := 36 (only parsing).

Record fat32_fs := mkFs {
  ata_dev : Z;
  partition_start : Z;
  bytes_per_sector : Z;
  sectors_per_cluster : Z;
  reserved_sectors : Z;
  fat_count : Z;
  sectors_per_fat : Z;
  root_cluster : Z;
  data_start : Z;
}.

(** The fields of [vnode] that are used, and the three of the node. *)
Record fat32_node := mkFnode {
  fname : cstring;
  fflags : Z;
  fsize : Z;
  finode : Z;
  fparent : Z;
  ffs : Z;
  first_cluster : Z;
  is_dir : bool;
}.

(** The heap, the disk, and the objects on the heap. *)
Record fat32 (Pg B : Type) := mkFat {
  fheap : machine Pg;
  disk : B;
  fnodes : gmap Z fat32_node;
  fses : gmap Z fat32_fs;
}.
Arguments mkFat {Pg B} _ _ _ _.
Arguments fheap {Pg B} _.
Arguments disk {Pg B} _.
Arguments fnodes {Pg B} _.
Arguments fses {Pg B} _.

(** Little-endian fields of a packed structure. *)
Definition get16 (p : list Z) (i : Z) : Z := aget p i + 256 * aget p (i + 1).
Definition get32 (p : list Z) (i : Z) : Z := get16 p i + 65536 * get16 p (i + 2).

(** ** Directory entries *)

Record dirent := mkDirent { d_name : list Z; d_attr : Z; d_cluster : Z; d_size : Z }.
Definition dirent_at (buf : list Z) (off : Z) : dirent :=
  mkDirent (map (λ j, aget buf (off + Z.of_nat j)) (seq 0 11)) (aget buf (off + 11))
    (Z.lor (Z.shiftl (get16 buf (off + 20)) 16) (get16 buf (off + 26))) (get32 buf (off + 28)).

(** [for(j ...) { if(name[j] == ' ') break; ... }] *)
Fixpoint upto_space (l : list Z) : list Z :=
  match l with
  | [] => []
  | c :: rest => if c =? 32 then [] else c :: upto_space rest
  end.
Definition dir_flag (e : dirent) : bool := negb (Z.land (d_attr e) ATTR_DIRECTORY =? 0).
(** The characters stored in [entry_name]. *)
Definition entry_name (e : dirent) : list Z :=
  upto_space (take 8 (d_name e)) ++
  (if dir_flag e then []
   else if aget (d_name e) 8 =? 32 then [] else 46 :: upto_space (drop 8 (d_name e))).
(** [strcmp] and [strcpy] see a string up to its first zero. *)
Fixpoint c_str (l : list Z) : cstring :=
  match l with
  | [] => []
  | c :: rest => if c =? 0 then [] else c :: c_str rest
  end.

Definition ends_dir (e : dirent) : bool := aget (d_name e) 0 =? 0.
Definition skipped (e : dirent) : bool := (aget (d_name e) 0 =? 0xE5) || (d_attr e =? ATTR_LFN).

(** The entries of one cluster from offset [off] on, [n] of them. *)
Fixpoint find_entry (n : nat) (off : Z) (buf : list Z) (nm : cstring) : option (Z * dirent) :=
  match n with
  | O => None
  | S n' =>
      let e := dirent_at buf off in
      if ends_dir e then None
      else if skipped e then find_entry n' (off + DIRENT) buf nm
      else if bool_decide (c_str (entry_name e) = nm) then Some (off, e)
      else find_entry n' (off + DIRENT) buf nm
  end.

(** Either the wanted entry, or the count after the cluster. *)
Fixpoint list_entry (n : nat) (off : Z) (buf : list Z) (count index : Z) : (Z * dirent) + Z :=
  match n with
  | O => inr count
  | S n' =>
      let e := dirent_at buf off in
      if ends_dir e then inr count
      else if skipped e then list_entry n' (off + DIRENT) buf count index
      else if count =? index then inl (off, e)
      else list_entry n' (off + DIRENT) buf (u32 (count + 1)) index
  end.

Definition bytes_per_cluster (fs : fat32_fs) : Z := u32 (sectors_per_cluster fs * ATA_SECTOR_SIZE).
(** Offsets [off] with [off + sizeof(fat32_dirent) <= bytes_per_cluster]. *)
Definition dirents (fs : fat32_fs) : nat := Z.to_nat (bytes_per_cluster fs / DIRENT).

(** ** Clusters *)

Section disk.
Context {B : Type} `{!BlockDevice B}.
Implicit Types (b : B) (fs : fat32_fs).

Definition fat32_read_sector fs (lba : Z) b : option (list Z) * B :=
  read_sector (ata_dev fs) (u32 (partition_start fs + lba)) b.

Definition fat32_next_cluster fs (cluster : Z) b : Z * B :=
  let fat_offset := u32 (cluster * 4) in
  let fat_sector := u32 (reserved_sectors fs + fat_offset / bytes_per_sector fs) in
  let fat_byte := fat_offset mod bytes_per_sector fs in
  let '(r, b) := fat32_read_sector fs fat_sector b in
  match r with
  | None => (FAT32_EOC, b)
  | Some buf => (Z.land (get32 buf fat_byte) 0x0FFFFFFF, b)
  end.

(** The first sector and the number of sectors. *)
Definition fat32_cluster_to_lba fs (cluster : Z) : Z * Z :=
  let rel := u32 (u32 (cluster - 2) * sectors_per_cluster fs) in
  (u32 (data_start fs + rel), sectors_per_cluster fs).

Fixpoint read_sectors (n : nat) fs (sector : Z) b : option (list Z) * B :=
  match n with
  | O => (Some [], b)
  | S n' =>
      let '(r, b) := fat32_read_sector fs (u32 sector) b in
      match r with
      | None => (None, b)
      | Some s => let '(rest, b) := read_sectors n' fs (sector + 1) b in (app s <$> rest, b)
      end
  end.
(** The bytes stored at [buf]; [None] is the result -1. *)
Definition fat32_read_cluster fs (cluster : Z) b : option (list Z) * B :=
  let '(sector, count) := fat32_cluster_to_lba fs cluster in
  read_sectors (Z.to_nat count) fs sector b.

(** The callers have a buffer of eight sectors: the ninth is written past it. *)
Definition overruns fs (cluster : Z) b : bool :=
  (8 <? sectors_per_cluster fs) &&
  match fst (read_sectors 9 fs (fst (fat32_cluster_to_lba fs cluster)) b) with Some _ => true | None => false end.

(** [cluster_buf[i]]: past the bytes read, the access is to whatever lies
    around the buffer on the stack, which [stray] stands for. *)
Definition buf_byte (stray : Z → Z) (buf : list Z) (i : Z) : Z :=
  if i <? zlen buf then aget buf i else stray i.

Fixpoint read_loop (fuel : nat) (stray : Z → Z) fs (size cluster offset : Z) (out : list Z) b :
    outcome (list Z * B) :=
  match fuel with
  | O => NoFuel
  | S f =>
      if (cluster <? FAT32_EOC) && (zlen out <? size) then
        let bpc := bytes_per_cluster fs in
        let cluster_start := u32 (u32 (cluster - 2) * bpc) in
        if offset <? u32 (cluster_start + bpc) then
          let cluster_off := u32 (offset - cluster_start) in
          let to_read := u32 (bpc - cluster_off) in
          let to_read := if size - zlen out <? to_read then size - zlen out else to_read in
          if overruns fs cluster b then Undef else
          let '(r, b) := fat32_read_cluster fs cluster b in
          match r with
          | None => Ok (out, b)
          | Some buf =>
              let got := map (λ i, buf_byte stray buf (u32 (cluster_off + Z.of_nat i))) (seq 0 (Z.to_nat to_read)) in
              let '(next, b) := fat32_next_cluster fs cluster b in
              read_loop f stray fs size next (u32 (offset + to_read)) (out ++ got) b
          end
        else
          let '(next, b) := fat32_next_cluster fs cluster b in
          read_loop f stray fs size next offset out b
      else Ok (out, b)
  end.

(** The directory from [cluster] on: the entry that was found. *)
Fixpoint find_loop (fuel : nat) fs (cluster : Z) (nm : cstring) b : outcome (option (Z * dirent) * B) :=
  match fuel with
  | O => NoFuel
  | S f =>
      if cluster <? FAT32_EOC then
        if overruns fs cluster b then Undef else
        let '(r, b) := fat32_read_cluster fs cluster b in
        match r with
        | None => Ok (None, b)
        | Some buf =>
            match find_entry (dirents fs) 0 buf nm with
            | Some e => Ok (Some e, b)
            | None => let '(next, b) := fat32_next_cluster fs cluster b in find_loop f fs next nm b
            end
        end
      else Ok (None, b)
  end.

Fixpoint readdir_loop (fuel : nat) fs (cluster count index : Z) b : outcome (option (Z * dirent) * B) :=
  match fuel with
  | O => NoFuel
  | S f =>
      if cluster <? FAT32_EOC then
        if overruns fs cluster b then Undef else
        let '(r, b) := fat32_read_cluster fs cluster b in
        match r with
        | None => Ok (None, b)
        | Some buf =>
            match list_entry (dirents fs) 0 buf count index with
            | inl e => Ok (Some e, b)
            | inr count =>
                let '(next, b) := fat32_next_cluster fs cluster b in readdir_loop f fs next count index b
            end
        end
      else Ok (None, b)
  end.
End disk.

(** ** Nodes *)

Section fat32.
Context {Pg B : Type} `{!PageAllocOps Pg} `{!BlockDevice B}.
Implicit Types (s : fat32 Pg B).

Definition with_disk (b : B) s : fat32 Pg B := mkFat (fheap s) b (fnodes s) (fses s).
(** [node->fs], which a node always has. *)
Definition fs_of (n : fat32_node) s : fat32_fs := default (mkFs 0 0 0 0 0 0 0 0 0) (fses s !! ffs n).

Definition fat32_node_destroy (fuel : nat) (node : Z) s : outcome (fat32 Pg B) :=
  if node =? 0 then Ok s
  else let! h := kfree fuel node (fheap s) in Ok (mkFat h (disk s) (delete node (fnodes s)) (fses s)).

(** The result, the bytes stored, and the state. *)
Definition fat32_read (fuel : nat) (stray : Z → Z) (n : fat32_node) (offset size : Z) s :
    outcome (Z * list Z * fat32 Pg B) :=
  if is_dir n then Ok (-1, [], s)
  else if fsize n <=? offset then Ok (0, [], s)
  else
    let size := if fsize n <? u32 (offset + size) then fsize n - offset else size in
    let! (out, b) := read_loop fuel stray (fs_of n s) size (first_cluster n) offset [] (disk s) in
    Ok (zlen out, out, with_disk b s).

Definition fat32_write : Z := -1.

Definition child_node (e : dirent) (off parent fsa : Z) : fat32_node :=
  mkFnode (c_str (entry_name e)) (if dir_flag e then FS_DIR else FS_FILE) (d_size e) off parent fsa
    (d_cluster e) (dir_flag e).

Definition fat32_finddir (fuel : nat) (node : Z) (nm : cstring) s : outcome (Z * fat32 Pg B) :=
  match fnodes s !! node with
  | None => Ok (0, s)
  | Some n =>
      if negb (is_dir n) then Ok (0, s)
      else
        let! (r, b) := find_loop fuel (fs_of n s) (first_cluster n) nm (disk s) in
        let s := with_disk b s in
        match r with
        | None => Ok (0, s)
        | Some (off, e) =>
            let! (child, h) := kmalloc fuel sizeof_fat32_node (fheap s) in
            let s := mkFat h (disk s) (fnodes s) (fses s) in
            if child =? 0 then Ok (0, s)
            else Ok (child, mkFat h (disk s) (<[child := child_node e off node (ffs n)]> (fnodes s)) (fses s))
        end
  end.

(** The name, flags, size and inode that the entry gets; [None] is -1. *)
Definition fat32_readdir (fuel : nat) (n : fat32_node) (index : Z) s :
    outcome (option (cstring * Z * Z * Z) * fat32 Pg B) :=
  if negb (is_dir n) then Ok (None, s)
  else
    let! (r, b) := readdir_loop fuel (fs_of n s) (first_cluster n) 0 index (disk s) in
    Ok ((λ '(off, e), (c_str (entry_name e), if dir_flag e then FS_DIR else FS_FILE, d_size e, off)) <$> r,
        with_disk b s).

Definition fat32_get_root_node (fuel : nat) (fsa : Z) s : outcome (Z * fat32 Pg B) :=
  let! (root, h) := kmalloc fuel sizeof_fat32_node (fheap s) in
  if root =? 0 then Ok (0, mkFat h (disk s) (fnodes s) (fses s))
  else
    let rc := match fses s !! fsa with Some fs => root_cluster fs | None => 0 end in
    Ok (root, mkFat h (disk s) (<[root := mkFnode [SLASH] FS_DIR 0 0 0 fsa rc true]> (fnodes s)) (fses s)).

(** The fields that [fat32_mount] takes from the boot sector. *)
Definition mounted_fs (dev lba_start : Z) (bpb : list Z) : fat32_fs :=
  let reserved := get16 bpb 14 in
  let fats := aget bpb 16 in
  let spf := get32 bpb 36 in
  mkFs dev lba_start (get16 bpb 11) (aget bpb 13) reserved fats spf (get32 bpb 44) (u32 (reserved + fats * spf)).

Definition fat32_mount (fuel : nat) (dev partition : Z) s : outcome (Z * fat32 Pg B) :=
  if (dev <? 0) || (device_count_of (disk s) <=? dev) then Ok (0, s)
  else
    let '(r, b) := read_sector dev 0 (disk s) in
    let s := with_disk b s in
    match r with
    | None => Ok (0, s)
    | Some m =>
        let part := 446 + 16 * partition in
        if negb (get16 m 510 =? 0xAA55) then Ok (0, s)
        else if (partition <? 0) || (4 <=? partition) then Ok (0, s)
        else if negb (aget m (part + 4) =? 0x0B) && negb (aget m (part + 4) =? 0x0C) then Ok (0, s)
        else
          let! (fsa, h) := kmalloc fuel sizeof_fat32_fs (fheap s) in
          let s := mkFat h (disk s) (fnodes s) (fses s) in
          if fsa =? 0 then Ok (0, s)
          else
            let '(r, b) := read_sector dev (get32 m (part + 8)) (disk s) in
            let s := with_disk b s in
            match r with
            | None => let! h := kfree fuel fsa (fheap s) in Ok (0, mkFat h (disk s) (fnodes s) (fses s))
            | Some bpb =>
                let fs := mounted_fs dev (get32 m (part + 8)) bpb in
                fat32_get_root_node fuel fsa (mkFat (fheap s) (disk s) (fnodes s) (<[fsa := fs]> (fses s)))
            end
    end.

(** What the resolver uses of the nodes. *)
Definition fat32_filesystem (fuel : nat) : FileSystem (fat32 Pg B) := {|
  node_parent s n := match fnodes s !! n with Some x => fparent x | None => 0 end;
  node_finddir s n :=
    match fnodes s !! n with
    | Some x => if is_dir x then Some (λ nm, fat32_finddir fuel n nm s) else None
    | None => None
    end;
  node_destroy s n := Some (fat32_node_destroy fuel n s);
|}.
End fat32.

(** What a lookup does to the heap and the nodes. *)
Lemma fat32_finddir_effect {Pg B} `{!PageAllocOps Pg} `{!BlockDevice B} fuel q nm (s s' : fat32 Pg B) x :
  fat32_finddir fuel q nm s = Ok (x, s') →
  fses s' = fses s ∧
  ((fnodes s' = fnodes s ∧ fheap s' = fheap s) ∨
   (fnodes s' = fnodes s ∧ kmalloc fuel sizeof_fat32_node (fheap s) = Ok (0, fheap s')) ∨
   (x ≠ 0 ∧ kmalloc fuel sizeof_fat32_node (fheap s) = Ok (x, fheap s') ∧ ∃ n, fnodes s' = <[x := n]> (fnodes s))).
Proof.
  unfold fat32_finddir. intros E. destruct (fnodes s !! q) as [n|]; [| apply Ok_pair in E as [_ <-]; auto].
  destruct (negb _); [apply Ok_pair in E as [_ <-]; auto |].
  apply obind_Ok in E as ([r b] & _ & E). destruct r as [[off e]|]; [| apply Ok_pair in E as [_ <-]; auto].
  apply obind_Ok in E as ([c h] & Ek & E). cbn [fheap with_disk disk fnodes fses] in *.
  destruct (Z.eqb_spec c 0) as [-> | Hc]; apply Ok_pair in E as [<- <-]; cbn [fheap fnodes fses]; [by auto |].
  split; [done |]. right. right. split; [done |]. split; [done |]. by eexists.
Qed.

Lemma fat32_readdir_effect {Pg B} `{!PageAllocOps Pg} `{!BlockDevice B} fuel n i (s s' : fat32 Pg B) r :
  fat32_readdir fuel n i s = Ok (r, s') → fheap s' = fheap s ∧ fnodes s' = fnodes s ∧ fses s' = fses s.
Proof.
  unfold fat32_readdir. intros E. destruct (negb _); [by apply Ok_pair in E as [_ <-] |].
  apply obind_Ok in E as ([? ?] & _ & E). by apply Ok_pair in E as [_ <-].
Qed.

Lemma fat32_read_effect {Pg B} `{!PageAllocOps Pg} `{!BlockDevice B} fuel stray n off sz (s s' : fat32 Pg B) r :
  fat32_read fuel stray n off sz s = Ok (r, s') → fheap s' = fheap s ∧ fnodes s' = fnodes s ∧ fses s' = fses s.
Proof.
  unfold fat32_read. intros E. destruct (is_dir n); [by apply Ok_pair in E as [_ <-] |].
  destruct (_ <=? _); [by apply Ok_pair in E as [_ <-] |]. cbv zeta in E.
  apply obind_Ok in E as ([? ?] & _ & E). by apply Ok_pair in E as [_ <-].
Qed.

(** ** Disks that can be read *)

(** Blocks below [2 ^ 28] can be read, and reading changes no block. *)
Class DiskLaws (B : Type) `{!BlockDevice B} := {
  readable : Z → B → Prop;
  content : Z → Z → B → list Z;
  read_law dev lba b : readable dev b → 0 ≤ lba < 2 ^ 28 →
    ∃ b', read_sector dev lba b = (Some (content dev lba b), b') ∧ readable dev b' ∧
      ∀ l, content dev l b' = content dev l b;
  content_length dev lba b : readable dev b → length (content dev lba b) = 512%nat;
}.

Section layout.
Context {B : Type} `{DiskLaws B}.
Implicit Types (b : B) (fs : fat32_fs).

(** A file system whose clusters fit in the buffers of the driver. *)
Record fs_ok fs : Prop := {
  ok_bps : bytes_per_sector fs = 512;
  ok_spc : 0 < sectors_per_cluster fs ≤ 8;
  ok_part : 0 ≤ partition_start fs;
  ok_res : 0 ≤ reserved_sectors fs;
  ok_data : 0 ≤ data_start fs;
}.
(** The cluster and its entry of the table are on the disk. *)
Record cluster_ok fs (c : Z) : Prop := {
  co_range : 2 ≤ c < FAT32_EOC;
  co_data : partition_start fs + data_start fs + (c - 1) * sectors_per_cluster fs ≤ 2 ^ 28;
  co_fat : partition_start fs + reserved_sectors fs + c * 4 / 512 < 2 ^ 28;
}.

Definition sector fs b (lba : Z) : list Z := content (ata_dev fs) (partition_start fs + lba) b.
Definition cluster_data fs b (c : Z) : list Z :=
  concat (map (λ i, sector fs b (data_start fs + (c - 2) * sectors_per_cluster fs + Z.of_nat i))
            (seq 0 (Z.to_nat (sectors_per_cluster fs)))).
Definition fat_entry fs b (c : Z) : Z :=
  Z.land (get32 (sector fs b (reserved_sectors fs + c * 4 / 512)) (c * 4 mod 512)) 0x0FFFFFFF.

(** The clusters from [c] on, up to an end mark. *)
Inductive fat_chain fs b : Z → list Z → Prop :=
| chain_end c : FAT32_EOC ≤ c → fat_chain fs b c []
| chain_next c l : cluster_ok fs c → fat_chain fs b (fat_entry fs b c) l → fat_chain fs b c (c :: l).

(** Reading leaves a disk with the same contents. *)
Definition same_disk fs b b' : Prop :=
  readable (ata_dev fs) b' ∧ ∀ l, content (ata_dev fs) l b' = content (ata_dev fs) l b.

Lemma same_disk_trans fs b1 b2 b3 : same_disk fs b1 b2 → same_disk fs b2 b3 → same_disk fs b1 b3.
Proof. intros [_ H1] [H2 H3]. split; [done |]. intros l. by rewrite H3. Qed.
Lemma same_disk_data fs b b' c : same_disk fs b b' → cluster_data fs b' c = cluster_data fs b c.
Proof. intros [_ Hc]. unfold cluster_data, sector. f_equal. apply map_ext. intros i. apply Hc. Qed.
Lemma same_disk_entry fs b b' c : same_disk fs b b' → fat_entry fs b' c = fat_entry fs b c.
Proof. intros [_ Hc]. unfold fat_entry, sector. by rewrite Hc. Qed.
Lemma same_disk_chain fs b b' c l : same_disk fs b b' → fat_chain fs b c l → fat_chain fs b' c l.
Proof.
  intros Hs Hc. induction Hc as [c Hc | c l Hok Hc IH]; [by constructor |]. constructor; [done |].
  by rewrite (same_disk_entry fs b b').
Qed.

Lemma overruns_ok fs c b : fs_ok fs → overruns fs c b = false.
Proof. intros Hfs. unfold overruns. destruct (Z.ltb_spec 8 (sectors_per_cluster fs)); [| done]. pose proof (ok_spc fs Hfs). lia. Qed.

Lemma read_sector_run fs lba b :
  readable (ata_dev fs) b → 0 ≤ partition_start fs → 0 ≤ lba → partition_start fs + lba < 2 ^ 28 →
  ∃ b', fat32_read_sector fs lba b = (Some (sector fs b lba), b') ∧ same_disk fs b b'.
Proof.
  intros Hr Hp Hl Hlt. unfold fat32_read_sector. rewrite u32_id by lia.
  destruct (read_law (ata_dev fs) (partition_start fs + lba) b Hr) as (b' & -> & Hb & Hc); [lia |].
  by exists b'.
Qed.

Lemma next_cluster_run fs c b :
  fs_ok fs → cluster_ok fs c → readable (ata_dev fs) b →
  ∃ b', fat32_next_cluster fs c b = (fat_entry fs b c, b') ∧ same_disk fs b b'.
Proof.
  intros Hfs [Hr _ Hf] Hb. unfold fat32_next_cluster. rewrite (ok_bps fs Hfs).
  pose proof (ok_res fs Hfs). pose proof (ok_part fs Hfs). pose proof (Z.div_pos (c * 4) 512 ltac:(lia) ltac:(lia)).
  rewrite (u32_id (c * 4)) by lia. rewrite (u32_id (reserved_sectors fs + _)) by lia.
  destruct (read_sector_run fs (reserved_sectors fs + c * 4 / 512) b Hb) as (b' & -> & Hs); [lia | lia | lia |].
  by exists b'.
Qed.

Lemma read_sectors_run n fs lba b :
  readable (ata_dev fs) b → 0 ≤ partition_start fs → 0 ≤ lba → partition_start fs + lba + Z.of_nat n ≤ 2 ^ 28 →
  ∃ b', read_sectors n fs lba b =
      (Some (concat (map (λ i, sector fs b (lba + Z.of_nat i)) (seq 0 n))), b') ∧ same_disk fs b b'.
Proof.
  revert lba b. induction n as [|n IH]; intros lba b Hb Hp Hl Hn; [by exists b |]. cbn [read_sectors].
  rewrite u32_id by lia.
  destruct (read_sector_run fs lba b Hb Hp Hl) as (b1 & -> & Hs1); [lia |].
  destruct (IH (lba + 1) b1) as (b2 & -> & Hs2); [apply Hs1 | done | lia | lia |].
  exists b2. split; [| by apply (same_disk_trans fs b b1)]. cbn [fmap option_fmap option_map seq map concat].
  rewrite Z.add_0_r. do 3 f_equal. rewrite <- seq_shift, map_map. f_equal. apply map_ext. intros i.
  unfold sector. rewrite (proj2 Hs1). f_equal. lia.
Qed.

Lemma read_cluster_run fs c b :
  fs_ok fs → cluster_ok fs c → readable (ata_dev fs) b →
  ∃ b', fat32_read_cluster fs c b = (Some (cluster_data fs b c), b') ∧ same_disk fs b b'.
Proof.
  intros Hfs [Hr Hd _] Hb. unfold fat32_read_cluster, fat32_cluster_to_lba.
  pose proof (ok_part fs Hfs). pose proof (ok_data fs Hfs). pose proof (ok_spc fs Hfs).
  rewrite (u32_id (c - 2)) by lia. rewrite (u32_id ((c - 2) * _)) by nia. rewrite u32_id by nia.
  apply read_sectors_run; [done | done | nia | nia].
Qed.

Lemma cluster_data_length fs b c :
  fs_ok fs → readable (ata_dev fs) b → zlen (cluster_data fs b c) = bytes_per_cluster fs.
Proof.
  intros Hfs Hb. pose proof (ok_spc fs Hfs). unfold bytes_per_cluster. rewrite u32_id by lia.
  unfold cluster_data. assert (Hn : ∀ n i0, zlen (concat (map (λ i, sector fs b
      (data_start fs + (c - 2) * sectors_per_cluster fs + Z.of_nat i)) (seq i0 n))) = Z.of_nat n * 512).
  { induction n as [|n IH]; intros i0; [done |]. cbn [seq map concat]. rewrite length_app.
    unfold sector at 1. rewrite (content_length (ata_dev fs)) by done. specialize (IH (S i0)). lia. }
  rewrite Hn. lia.
Qed.
End layout.

(** ** Directories *)

(** The entries of a cluster that the code considers, with their offsets. *)
Fixpoint valid_entries (n : nat) (off : Z) (buf : list Z) : list (Z * dirent) :=
  match n with
  | O => []
  | S n' =>
      let e := dirent_at buf off in
      if ends_dir e then []
      else if skipped e then valid_entries n' (off + DIRENT) buf
      else (off, e) :: valid_entries n' (off + DIRENT) buf
  end.

Lemma find_entry_spec n off buf nm :
  find_entry n off buf nm = head (filter (λ x, c_str (entry_name x.2) = nm) (valid_entries n off buf)).
Proof.
  revert off. induction n as [|n IH]; intros off; cbn [find_entry valid_entries]; [done |].
  destruct (ends_dir _); [done |]. destruct (skipped _); [apply IH |].
  rewrite filter_cons. cbn [snd]. case_decide as E.
  - by rewrite bool_decide_true.
  - rewrite bool_decide_false by done. apply IH.
Qed.

Lemma list_entry_spec n off buf count index :
  0 ≤ count ≤ index → index < W32 →
  list_entry n off buf count index =
    match valid_entries n off buf !! Z.to_nat (index - count) with
    | Some e => inl e
    | None => inr (count + zlen (valid_entries n off buf))
    end.
Proof.
  revert off count. induction n as [|n IH]; intros off count Hc Hi; cbn [list_entry valid_entries].
  { cbn. by rewrite Z.add_0_r. }
  destruct (ends_dir _); [cbn; by rewrite Z.add_0_r |]. destruct (skipped _); [by apply IH |].
  destruct (Z.eqb_spec count index) as [-> | Hne]; [by rewrite Z.sub_diag |].
  rewrite u32_id by lia. rewrite IH by lia.
  replace (Z.to_nat (index - count)) with (S (Z.to_nat (index - (count + 1)))) by lia. cbn [lookup list_lookup length].
  destruct (_ !! Z.to_nat (index - (count + 1))); [done |]. f_equal. lia.
Qed.

Section directories.
Context {B : Type} `{DiskLaws B}.
Implicit Types (b : B) (fs : fat32_fs).

(** The entries of the directory whose clusters are [l]. *)
Definition dir_entries fs b (l : list Z) : list (Z * dirent) :=
  concat (map (λ c, valid_entries (dirents fs) 0 (cluster_data fs b c)) l).

Lemma dir_entries_same fs b b' l : same_disk fs b b' → dir_entries fs b' l = dir_entries fs b l.
Proof. intros Hs. unfold dir_entries. f_equal. apply map_ext. intros c. by rewrite (same_disk_data fs b b'). Qed.

Lemma chain_head fs b c l : fat_chain fs b c l → (c <? FAT32_EOC) = bool_decide (l ≠ []).
Proof.
  intros Hc. destruct Hc as [c Hc | c l [Hr _ _] _].
  - rewrite bool_decide_false by (by intros ?). by apply Z.ltb_ge.
  - rewrite bool_decide_true by done. apply Z.ltb_lt. lia.
Qed.

Lemma find_loop_run fuel fs c l nm b :
  fs_ok fs → readable (ata_dev fs) b → fat_chain fs b c l → (length l < fuel)%nat →
  ∃ b', find_loop fuel fs c nm b =
      Ok (head (filter (λ x, c_str (entry_name x.2) = nm) (dir_entries fs b l)), b') ∧ same_disk fs b b'.
Proof.
  intros Hfs. revert c l b. induction fuel as [|fuel IH]; intros c l b Hb Hc Hf; [lia |].
  cbn [find_loop]. rewrite (chain_head fs b c l Hc). destruct Hc as [c Hc | c l Hok Hc]; [by exists b |].
  rewrite bool_decide_true by done.
  rewrite overruns_ok by done. destruct (read_cluster_run fs c b Hfs Hok Hb) as (b1 & -> & Hs1). rewrite find_entry_spec.
  unfold dir_entries. cbn [map concat]. rewrite filter_app.
  destruct (filter _ (valid_entries (dirents fs) 0 (cluster_data fs b c))) as [|e es]; [| by exists b1].
  cbn [head app].
  destruct (next_cluster_run fs c b1 Hfs Hok (proj1 Hs1)) as (b2 & -> & Hs2).
  assert (Hs : same_disk fs b b2) by (by apply (same_disk_trans fs b b1)).
  rewrite (same_disk_entry fs b b1) by done.
  destruct (IH (fat_entry fs b c) l b2) as (b3 & -> & Hs3); [apply Hs | by apply (same_disk_chain fs b b2) | cbn in Hf; lia |].
  exists b3. rewrite (dir_entries_same fs b b2) by done. split; [done | by apply (same_disk_trans fs b b2)].
Qed.

Lemma readdir_loop_run fuel fs c l count index b :
  fs_ok fs → readable (ata_dev fs) b → fat_chain fs b c l → (length l < fuel)%nat →
  0 ≤ count ≤ index → index < W32 →
  ∃ b', readdir_loop fuel fs c count index b =
      Ok (dir_entries fs b l !! Z.to_nat (index - count), b') ∧ same_disk fs b b'.
Proof.
  intros Hfs. revert c l count b. induction fuel as [|fuel IH]; intros c l count b Hb Hc Hf Hcnt Hidx; [lia |].
  cbn [readdir_loop]. rewrite (chain_head fs b c l Hc). destruct Hc as [c Hc | c l Hok Hc]; [by exists b |].
  rewrite bool_decide_true by done.
  rewrite overruns_ok by done. destruct (read_cluster_run fs c b Hfs Hok Hb) as (b1 & -> & Hs1). rewrite list_entry_spec by done.
  unfold dir_entries. cbn [map concat]. set (es := valid_entries (dirents fs) 0 (cluster_data fs b c)).
  destruct (es !! Z.to_nat (index - count)) as [e|] eqn:He.
  { exists b1. split; [| done]. pose proof (lookup_lt_Some _ _ _ He). by rewrite lookup_app_l, He. }
  apply lookup_ge_None in He.
  destruct (next_cluster_run fs c b1 Hfs Hok (proj1 Hs1)) as (b2 & -> & Hs2).
  assert (Hs : same_disk fs b b2) by (by apply (same_disk_trans fs b b1)).
  rewrite (same_disk_entry fs b b1) by done.
  destruct (IH (fat_entry fs b c) l (count + zlen es) b2) as (b3 & -> & Hs3);
    [apply Hs | by apply (same_disk_chain fs b b2) | cbn in Hf; lia | lia | done |].
  exists b3. rewrite (dir_entries_same fs b b2) by done. split; [| by apply (same_disk_trans fs b b2)].
  rewrite lookup_app_r by done. unfold dir_entries. do 3 f_equal. lia.
Qed.
End directories.

(** ** Reading files *)

Section files.
Context {B : Type} `{DiskLaws B}.
Implicit Types (b : B) (fs : fat32_fs).

Definition file_data fs b (l : list Z) : list Z := concat (map (cluster_data fs b) l).

Lemma file_data_same fs b b' l : same_disk fs b b' → file_data fs b' l = file_data fs b l.
Proof. intros Hs. unfold file_data. f_equal. apply map_ext. intros c. by apply same_disk_data. Qed.

(** The bytes copied from the buffer, when they are inside it. *)
Lemma copied_inside stray buf off n :
  0 ≤ off → off + Z.of_nat n ≤ zlen buf → zlen buf < W32 →
  map (λ i, buf_byte stray buf (u32 (off + Z.of_nat i))) (seq 0 n) = take n (drop (Z.to_nat off) buf).
Proof.
  intros Ho Hn Hb. apply list_eq. intros i. destruct (decide (i < n)%nat) as [Hi | Hi].
  - rewrite list_lookup_fmap, lookup_seq_lt by done. cbn. rewrite u32_id by lia. unfold buf_byte.
    destruct (Z.ltb_spec (off + Z.of_nat i) (zlen buf)); [| lia].
    rewrite lookup_take_lt, lookup_drop by done. rewrite <- (lookup_aget buf (off + Z.of_nat i)) by lia.
    f_equal. lia.
  - rewrite !lookup_ge_None_2; [done | |].
    + rewrite length_take. lia.
    + rewrite length_map, length_seq. lia.
Qed.

(** Clusters numbered from [2 + k] on, one after the other. *)
Fixpoint consecutive (c : Z) (n : nat) : list Z :=
  match n with O => [] | S n' => c :: consecutive (c + 1) n' end.

Lemma chain_cons fs b c c' l : fat_chain fs b c (c' :: l) → c = c' ∧ cluster_ok fs c ∧ fat_chain fs b (fat_entry fs b c) l.
Proof. by inversion 1. Qed.

Lemma read_loop_run fuel stray fs size k n c offset out b :
  fs_ok fs → readable (ata_dev fs) b → 0 ≤ k → fat_chain fs b c (consecutive (2 + k) n) →
  (n < fuel)%nat → zlen out ≤ size → (k + Z.of_nat n) * bytes_per_cluster fs < W32 →
  zlen out = size ∨ (k * bytes_per_cluster fs ≤ offset ∧
    offset + (size - zlen out) ≤ (k + Z.of_nat n) * bytes_per_cluster fs) →
  ∃ b', read_loop fuel stray fs size c offset out b =
      Ok (out ++ take (Z.to_nat (size - zlen out))
            (drop (Z.to_nat (offset - k * bytes_per_cluster fs)) (file_data fs b (consecutive (2 + k) n))), b').
Proof.
  intros Hfs. set (bpc := bytes_per_cluster fs).
  assert (Hbpc : 0 < bpc ≤ 4096).
  { unfold bpc, bytes_per_cluster. pose proof (ok_spc fs Hfs). rewrite u32_id; lia. }
  revert fuel k c offset out b. induction n as [|n IH]; intros [|fuel] k c offset out b Hb Hk Hc Hf Hout Hw Hoff; try lia.
  { exists b. cbn [read_loop]. destruct (Z.ltb_spec (zlen out) size); [lia |]. rewrite andb_false_r.
    replace (Z.to_nat (size - zlen out)) with 0%nat by lia. by rewrite take_0, app_nil_r. }
  cbn [read_loop]. destruct (Z.ltb_spec (zlen out) size) as [Hlt | Hge].
  2: { exists b. rewrite andb_false_r. replace (Z.to_nat (size - zlen out)) with 0%nat by lia.
       by rewrite take_0, app_nil_r. }
  cbn [consecutive] in Hc. apply chain_cons in Hc as (-> & Hok & Hc). pose proof (co_range _ _ Hok) as Hr.
  replace (2 + k + 1) with (2 + (k + 1)) in Hc by lia.
  destruct (Z.ltb_spec (2 + k) FAT32_EOC); [| lia]. cbn [andb].
  destruct Hoff as [? | [Hlo Hhi]]; [lia |]. fold bpc.
  rewrite (u32_id (2 + k - 2)) by lia. replace (2 + k - 2) with k by lia.
  assert (Hkb : k * bpc + bpc < W32) by nia. rewrite (u32_id (k * bpc)) by nia. rewrite (u32_id (k * bpc + bpc)) by nia.
  assert (Hnext : ∀ b1, same_disk fs b b1 → ∃ b2, fat32_next_cluster fs (2 + k) b1 = (fat_entry fs b (2 + k), b2) ∧ same_disk fs b b2).
  { intros b1 Hs1. destruct (next_cluster_run fs (2 + k) b1 Hfs Hok (proj1 Hs1)) as (b2 & E & Hs2). exists b2.
    rewrite E, (same_disk_entry fs b b1) by done. split; [done | by apply (same_disk_trans fs b b1)]. }
  pose proof (cluster_data_length fs b (2 + k) Hfs Hb) as Hlen. fold bpc in Hlen.
  cbn [consecutive]. unfold file_data. cbn [map concat]. fold (file_data fs b (consecutive (2 + k + 1) n)).
  replace (2 + k + 1) with (2 + (k + 1)) by lia. set (d := cluster_data fs b (2 + k)) in *.
  destruct (Z.ltb_spec offset (k * bpc + bpc)) as [Hin | Hskip].
  - rewrite (u32_id (offset - k * bpc)), (u32_id (bpc - (offset - k * bpc))) by lia.
    set (co := offset - k * bpc) in *. set (rem := size - zlen out) in *.
    set (tr := if rem <? bpc - co then rem else bpc - co).
    assert (Htr : tr = Z.min rem (bpc - co)) by (unfold tr; destruct (Z.ltb_spec rem (bpc - co)); lia). clearbody tr. subst tr.
    rewrite overruns_ok by done. destruct (read_cluster_run fs (2 + k) b Hfs Hok Hb) as (b1 & -> & Hs1).
    assert (Hco : 0 ≤ co < bpc) by (unfold co; lia). fold d. rewrite copied_inside by lia. destruct (Hnext b1 Hs1) as (b2 & -> & Hs2).
    set (got := take _ (drop (Z.to_nat co) d)).
    assert (Hgot : zlen got = Z.min rem (bpc - co)) by (unfold got; rewrite length_take, length_drop; lia).
    rewrite u32_id by nia.
    destruct (IH fuel (k + 1) (fat_entry fs b (2 + k)) (offset + Z.min rem (bpc - co)) (out ++ got) b2) as (b3 & E3).
    + apply Hs2.
    + lia.
    + by apply (same_disk_chain fs b b2).
    + lia.
    + rewrite length_app. lia.
    + nia.
    + rewrite length_app. destruct (Z_le_gt_dec rem (bpc - co)); [left; lia | right]. split; [nia |]. nia.
    + exists b3. rewrite E3. rewrite (file_data_same fs b b2) by done. f_equal. f_equal. rewrite <- app_assoc. f_equal.
      rewrite drop_app_le by lia. rewrite length_app.
      destruct (Z_le_gt_dec rem (bpc - co)) as [Hle | Hgt].
      * replace (Z.to_nat (size - _)) with 0%nat by lia. rewrite take_0, app_nil_r. unfold got.
        rewrite Z.min_l by lia. by rewrite take_app_le by (rewrite length_drop; lia).
      * replace (Z.to_nat (size - _)) with (Z.to_nat rem - length (drop (Z.to_nat co) d))%nat
          by (rewrite length_drop; lia).
        replace (offset + Z.min rem (bpc - co) - (k + 1) * bpc) with 0 by (unfold co; lia).
        rewrite take_app_ge by (rewrite length_drop; lia). cbn [Z.to_nat]. rewrite drop_0. f_equal.
        unfold got. rewrite take_ge; [done | rewrite length_drop; lia].
  - destruct (Hnext b (conj Hb (λ _, eq_refl))) as (b2 & -> & Hs2).
    destruct (IH fuel (k + 1) (fat_entry fs b (2 + k)) offset out b2) as (b3 & E3);
      [apply Hs2 | lia | by apply (same_disk_chain fs b b2) | lia | lia | nia | right; nia |].
    exists b3. rewrite E3, (file_data_same fs b b2) by done. do 3 f_equal. f_equal.
    rewrite drop_app_ge by lia. f_equal. lia.
Qed.

Lemma consecutive_length c n : length (consecutive c n) = n.
Proof. revert c. induction n as [|n IH]; intros c; cbn; [done | by rewrite IH]. Qed.

Lemma file_data_length fs b l :
  fs_ok fs → readable (ata_dev fs) b → zlen (file_data fs b l) = zlen l * bytes_per_cluster fs.
Proof.
  intros Hfs Hb. induction l as [|c l IH]; [done |]. unfold file_data in *. cbn [map concat length]. rewrite length_app.
  pose proof (cluster_data_length fs b c Hfs Hb). lia.
Qed.
End files.

(** ** Properties *)

Section theorems.
Context {Pg B : Type} `{PageAlloc Pg} `{DiskLaws B}.
Implicit Types (s : fat32 Pg B).

(** A lookup: the first entry with the name becomes a node. *)
Lemma finddir_run fuel node n s fl live l nm :
  fnodes s !! node = Some n → is_dir n = true → fs_ok (fs_of n s) →
  readable (ata_dev (fs_of n s)) (disk s) → fat_chain (fs_of n s) (disk s) (first_cluster n) l →
  heap_inv (fheap s) fl live → (length l < fuel)%nat → (length fl + 16 < fuel)%nat →
  ∃ c s', fat32_finddir fuel node nm s = Ok (c, s') ∧ fses s' = fses s ∧ same_disk (fs_of n s) (disk s) (disk s') ∧
     match head (filter (λ x, c_str (entry_name x.2) = nm) (dir_entries (fs_of n s) (disk s) l)) with
     | None => c = 0 ∧ fnodes s' = fnodes s
     | Some (off, e) =>
         kmalloc fuel sizeof_fat32_node (fheap s) = Ok (c, fheap s') ∧
         (c = 0 ∧ fnodes s' = fnodes s ∨
          c ≠ 0 ∧ fnodes s' = <[c := child_node e off node (ffs n)]> (fnodes s))
     end.
Proof.
  intros Hn Hd Hfs Hb Hc Hinv Hf Hf2. unfold fat32_finddir. rewrite Hn, Hd. cbn [negb].
  destruct (find_loop_run fuel (fs_of n s) (first_cluster n) l nm (disk s) Hfs Hb Hc Hf) as (b' & -> & Hs).
  cbn [obind]. destruct (head _) as [[off e]|]; [| by eexists _, _]. cbn [fheap with_disk].
  destruct (kmalloc_run (fheap s) fl live 180 fuel Hinv ltac:(lia) Hf2) as (c & h & -> & _). cbn [obind].
  destruct (Z.eqb_spec c 0) as [-> | Hne]; eexists _, _; (split; [reflexivity |]); do 3 (split; [done |]); [by left | by right].
Qed.

Lemma read_contiguous_run fuel stray n s m offset size :
  is_dir n = false → fs_ok (fs_of n s) → readable (ata_dev (fs_of n s)) (disk s) →
  fat_chain (fs_of n s) (disk s) (first_cluster n) (consecutive 2 m) → (m < fuel)%nat →
  0 ≤ offset < fsize n → 0 ≤ size → offset + size < W32 →
  fsize n ≤ Z.of_nat m * bytes_per_cluster (fs_of n s) → Z.of_nat m * bytes_per_cluster (fs_of n s) < W32 →
  let len := Z.min size (fsize n - offset) in
  ∃ s', fat32_read fuel stray n offset size s =
    Ok (len, take (Z.to_nat len) (drop (Z.to_nat offset) (file_data (fs_of n s) (disk s) (consecutive 2 m))), s').
Proof.
  intros Hd Hfs Hb Hc Hf Hoff Hsize Hw Hfit Hmax. cbv zeta. unfold fat32_read. rewrite Hd.
  destruct (Z.leb_spec (fsize n) offset); [lia |]. rewrite u32_id by lia.
  set (sz := if fsize n <? offset + size then fsize n - offset else size).
  assert (Hsz : sz = Z.min size (fsize n - offset)).
  { unfold sz. destruct (Z.ltb_spec (fsize n) (offset + size)); lia. }
  clearbody sz. subst sz. set (len := Z.min size (fsize n - offset)).
  destruct (read_loop_run fuel stray (fs_of n s) len 0 m (first_cluster n) offset [] (disk s) Hfs Hb) as (b' & E);
    [lia | exact Hc | done | simpl; lia | lia | right; simpl; lia |].
  rewrite E. cbn [obind app length Z.of_nat]. rewrite Z.mul_0_l, !Z.sub_0_r. change (2 + 0) with 2.
  eexists. f_equal. f_equal. f_equal.
  rewrite length_take, length_drop. pose proof (file_data_length (fs_of n s) (disk s) (consecutive 2 m) Hfs Hb) as Hl.
  rewrite consecutive_length in Hl. lia.
Qed.

(** C29: a directory is the list of the used short entries of its clusters:
    [fat32_readdir] returns the entry at each index of that list and fails
    past its end, and [fat32_finddir] makes a node of the first entry with the
    name, with its size, first cluster and kind, at the address that [kmalloc]
    gives. It returns null when there is no such entry, and otherwise only
    when [kmalloc] does, which then found no free block that is large enough.
    Both return on every chain that ends. *)
Theorem fat32_directory_spec fuel node n s fl live l :
  fnodes s !! node = Some n → is_dir n = true → fs_ok (fs_of n s) →
  readable (ata_dev (fs_of n s)) (disk s) → fat_chain (fs_of n s) (disk s) (first_cluster n) l →
  heap_inv (fheap s) fl live → (length l < fuel)%nat → (length fl + 16 < fuel)%nat →
  let es := dir_entries (fs_of n s) (disk s) l in
  (∀ i, 0 ≤ i < W32 → ∃ s', fat32_readdir fuel n i s =
     Ok ((λ '(off, e), (c_str (entry_name e), if dir_flag e then FS_DIR else FS_FILE, d_size e, off)) <$>
           es !! Z.to_nat i, s')) ∧
  (∀ nm, ∃ c s', fat32_finddir fuel node nm s = Ok (c, s') ∧
     match head (filter (λ x, c_str (entry_name x.2) = nm) es) with
     | None => c = 0 ∧ fnodes s' = fnodes s
     | Some (off, e) =>
         kmalloc fuel sizeof_fat32_node (fheap s) = Ok (c, fheap s') ∧
         if c =? 0 then Forall (λ b, b.2 < kmalloc_needed sizeof_fat32_node) fl ∧ fnodes s' = fnodes s
         else fnodes s' = <[c := child_node e off node (ffs n)]> (fnodes s)
     end).
Proof.
  intros Hn Hd Hfs Hb Hc Hinv Hf Hf2. cbv zeta. split.
  - intros i Hi. unfold fat32_readdir. rewrite Hd. cbn [negb].
    destruct (readdir_loop_run fuel (fs_of n s) (first_cluster n) l 0 i (disk s) Hfs Hb Hc Hf) as (b' & -> & _);
      [lia | lia |]. cbn [obind]. rewrite Z.sub_0_r. by eexists.
  - intros nm. destruct (finddir_run fuel node n s fl live l nm Hn Hd Hfs Hb Hc Hinv Hf Hf2) as (c & s' & E & _ & _ & Hr).
    exists c, s'. split; [done |]. destruct (head _) as [[off e]|]; [| done]. destruct Hr as [Em Hr]. split; [done |].
    destruct (Z.eqb_spec c 0) as [-> | Hne]; [| by destruct Hr as [[? _] | [_ ?]]].
    split; [by apply (kmalloc_null (fheap s) fl live _ fuel (fheap s')) | by destruct Hr as [[_ ?] | [? _]]].
Qed.

(** C30: a file whose clusters are numbered consecutively from 2 is read
    correctly: from any offset inside it [fat32_read] returns the requested
    bytes of the concatenated clusters, as many as the size of the file
    allows. *)
Theorem fat32_read_contiguous fuel stray n s m offset size :
  is_dir n = false → fs_ok (fs_of n s) → readable (ata_dev (fs_of n s)) (disk s) →
  fat_chain (fs_of n s) (disk s) (first_cluster n) (consecutive 2 m) → (m < fuel)%nat →
  0 ≤ offset < fsize n → 0 ≤ size → offset + size < W32 →
  fsize n ≤ Z.of_nat m * bytes_per_cluster (fs_of n s) → Z.of_nat m * bytes_per_cluster (fs_of n s) < W32 →
  let len := Z.min size (fsize n - offset) in
  ∃ s', fat32_read fuel stray n offset size s =
    Ok (len, take (Z.to_nat len) (drop (Z.to_nat offset) (file_data (fs_of n s) (disk s) (consecutive 2 m))), s').
Proof. apply read_contiguous_run. Qed.

(** The position of a cluster in the file is computed from its number
    instead of its place in the chain: for a file that starts at any other
    cluster than 2 the first cluster's worth of bytes that [fat32_read]
    returns comes from outside the buffer, not from the file. *)
Theorem fat32_read_wrong_cluster fuel stray n s l size :
  is_dir n = false → fs_ok (fs_of n s) → readable (ata_dev (fs_of n s)) (disk s) →
  fat_chain (fs_of n s) (disk s) (first_cluster n) (first_cluster n :: l) → (1 < fuel)%nat →
  2 < first_cluster n → (first_cluster n - 1) * bytes_per_cluster (fs_of n s) < W32 - 4096 →
  0 < size ≤ fsize n → size ≤ bytes_per_cluster (fs_of n s) →
  let start := (first_cluster n - 2) * bytes_per_cluster (fs_of n s) in
  ∃ s', fat32_read fuel stray n 0 size s =
    Ok (size, map (λ i, stray (W32 - start + Z.of_nat i)) (seq 0 (Z.to_nat size)), s').
Proof.
  intros Hd Hfs Hb Hc Hf Hc2 Hmax Hsize Hbpc. cbv zeta. unfold fat32_read. rewrite Hd.
  destruct (Z.leb_spec (fsize n) 0); [lia |]. rewrite Z.add_0_l, Z.sub_0_r.
  set (bpc := bytes_per_cluster (fs_of n s)) in *.
  assert (Hb4 : 0 < bpc ≤ 4096).
  { unfold bpc, bytes_per_cluster. pose proof (ok_spc _ Hfs). rewrite u32_id; lia. }
  rewrite (u32_id size) by lia. destruct (Z.ltb_spec (fsize n) size); [lia |].
  apply chain_cons in Hc as (_ & Hok & _). pose proof (co_range _ _ Hok) as Hr.
  set (c := first_cluster n) in *. destruct fuel as [|[|fuel]]; [lia | lia |]. cbn [read_loop].
  destruct (Z.ltb_spec c FAT32_EOC); [| lia]. change (zlen (@nil Z)) with 0. destruct (Z.ltb_spec 0 size); [| lia]. cbn [andb].
  fold bpc. set (start := (c - 2) * bpc) in *. assert (Hst : bpc ≤ start) by (unfold start; nia).
  rewrite (u32_id (c - 2)) by lia. fold start. rewrite (u32_id start) by nia. rewrite (u32_id (start + bpc)) by nia.
  destruct (Z.ltb_spec 0 (start + bpc)); [| lia].
  assert (Hco : u32 (0 - start) = W32 - start) by (unfold u32; symmetry; apply (Z.mod_unique_pos _ _ (-1)); nia).
  assert (Htr : u32 (bpc - (W32 - start)) = bpc + start) by (unfold u32; symmetry; apply (Z.mod_unique_pos _ _ (-1)); nia).
  rewrite Hco, Htr, !Z.sub_0_r. destruct (Z.ltb_spec size (bpc + start)); [| lia].
  rewrite overruns_ok by done. destruct (read_cluster_run (fs_of n s) c (disk s) Hfs Hok Hb) as (b1 & -> & Hs1).
  destruct (fat32_next_cluster (fs_of n s) c b1) as [next b2]. cbn [app].
  pose proof (cluster_data_length (fs_of n s) (disk s) c Hfs Hb) as Hlen. fold bpc in Hlen.
  assert (Hgot : map (λ i, buf_byte stray (cluster_data (fs_of n s) (disk s) c) (u32 (W32 - start + Z.of_nat i)))
      (seq 0 (Z.to_nat size)) = map (λ i, stray (W32 - start + Z.of_nat i)) (seq 0 (Z.to_nat size))).
  { apply map_ext_in. intros i Hi%in_seq. rewrite u32_id by nia. unfold buf_byte.
    destruct (Z.ltb_spec (W32 - start + Z.of_nat i) (zlen (cluster_data (fs_of n s) (disk s) c))); [nia | done]. }
  rewrite Hgot. rewrite length_map, length_seq, Z2Nat.id by lia. rewrite Z.ltb_irrefl, andb_false_r. cbn [obind].
  rewrite length_map, length_seq, Z2Nat.id by lia. by eexists.
Qed.
End theorems.

(** The disk driver, on drives that follow the protocol, is a disk in order. *)
Lemma word_bytes_length ws : length (Ata.word_bytes ws) = (2 * length ws)%nat.
Proof. unfold Ata.word_bytes. induction ws as [|w ws IH]; cbn [flat_map length app] in *; lia. Qed.

Definition ata_drive_laws {D b} `{!Ports.PortIO D, !Ata.AtaDrive D b} (timeout : nat) (Ht : (Ata.delay < timeout)%nat) :
  @DiskLaws (Ata.ata D) (Ata.ata_block_device timeout).
Proof.
  refine {| readable dev a := Ata.knows a dev;
            content dev lba a :=
              Ata.word_bytes (Ata.sector (Ata.io a) (Ata.is_master (aget (Ata.devices a) dev)) (lba mod 2 ^ 28)) |}.
  - intros dev lba a Hk Hl. cbn [read_sector Ata.ata_block_device].
    destruct (Ata.read_run timeout dev lba a Ht Hk) as (d' & -> & Hv & Hs); [lia |].
    eexists. split; [reflexivity |]. split; [by destruct Hk; constructor |]. intros l. cbn [Ata.io Ata.devices]. by rewrite Hs.
  - intros dev lba a Hk. by rewrite word_bytes_length, Ata.sector_length.
Defined.

(** ** Concrete runs *)

Section demo.
#[local] Existing Instances Ata.drive_io Ata.drive_protocol.
#[local] Instance demo_device : BlockDevice (Ata.ata Ata.drive) := Ata.ata_block_device 3.
#[local] Instance demo_laws : DiskLaws (Ata.ata Ata.drive) := ata_drive_laws (b := 0x1F0) 3 (le_n 3).
Import Pmm.

(** A table in sector 1 with the end mark for clusters 2 and 3, a directory
    with the file A.TXT in cluster 2 and the file in cluster 3. *)
Definition demo_blocks : gmap Z (list Z) :=
  {[ 1 := [0; 0; 0; 0; 0xFFFF; 0x0FFF; 0xFFFF; 0x0FFF] ++ replicate 248 0;
     2 := [0x2041; 0x2020; 0x2020; 0x2020; 0x5854; 0x2054; 0; 0; 0; 0; 0; 0; 0; 3; 5; 0] ++ replicate 240 0;
     3 := [0x6568; 0x6C6C; 0x006F] ++ replicate 253 0 ]}.
Definition demo_disk : Ata.ata Ata.drive := Ata.with_blocks demo_blocks.
Definition demo_fs : fat32_fs := mkFs 0 0 512 1 1 1 1 2 2.
Definition demo_node (c : Z) (dir : bool) : fat32_node := mkFnode [97] 1 11 0 0 0x9000 c dir.
Definition demo (st : machine Pmm.pmm) : fat32 Pmm.pmm (Ata.ata Ata.drive) :=
  mkFat st demo_disk {[ 0x8000 := demo_node 2 true ]} {[ 0x9000 := demo_fs ]}.

Lemma demo_disk_knows : Ata.knows demo_disk 0.
Proof. apply Ata.booted_knows. Qed.
Lemma demo_fs_ok : fs_ok demo_fs.
Proof. constructor; cbn; lia. Qed.
Lemma demo_chain c : c = 2 ∨ c = 3 → fat_chain demo_fs demo_disk c [c].
Proof.
  intros Hc. constructor; [constructor; destruct Hc as [-> | ->]; vm_compute; done |].
  destruct Hc as [-> | ->]; constructor; vm_compute; discriminate.
Qed.

(** The entry of the file A.TXT. *)
Lemma demo_entry :
  head (filter (λ x, c_str (entry_name x.2) = [65; 46; 84; 88; 84]) (dir_entries demo_fs demo_disk [2])) =
  Some (0, mkDirent [65; 32; 32; 32; 32; 32; 32; 32; 84; 88; 84] 32 3 5).
Proof. vm_compute. reflexivity. Qed.

Lemma fat32_directory_spec_witness :
  ∃ st s' c s2, fat32_readdir 18 (demo_node 2 true) 0 (demo st) = Ok (Some ([65; 46; 84; 88; 84], FS_FILE, 5, 0), s') ∧
    fat32_finddir 18 0x8000 [65; 46; 84; 88; 84] (demo st) = Ok (c, s2) ∧
    fnodes s2 !! c = Some (mkFnode [65; 46; 84; 88; 84] FS_FILE 5 0 0x8000 0x9000 3 false).
Proof.
  destruct boot_heap as (st & _ & Hinv).
  destruct (fat32_directory_spec 18 0x8000 (demo_node 2 true) (demo st) [(4194304, 4096)] [] [2]) as [Hr Hf];
    [reflexivity | reflexivity | exact demo_fs_ok | exact demo_disk_knows | exact (demo_chain 2 (or_introl eq_refl))
    | exact Hinv | cbn; lia | cbn; lia |].
  destruct (Hr 0) as (s' & E); [lia |]. destruct (Hf [65; 46; 84; 88; 84]) as (c & s2 & E2 & Hm).
  exists st, s', c, s2. split; [rewrite E; vm_compute; reflexivity |]. split; [exact E2 |].
  change (fs_of (demo_node 2 true) (demo st)) with demo_fs in Hm. change (disk (demo st)) with demo_disk in Hm.
  rewrite demo_entry in Hm. destruct Hm as [_ Hm]. destruct (c =? 0).
  - destruct Hm as [Hall _]. apply Forall_cons in Hall as [Hlt _]. vm_compute in Hlt. discriminate Hlt.
  - rewrite Hm, lookup_insert_eq. reflexivity.
Defined.

Lemma fat32_read_contiguous_witness :
  ∃ st s', fat32_read 2 (λ _, 0) (demo_node 2 false) 8 100 (demo st) = Ok (3, [84; 88; 84], s').
Proof.
  destruct boot_heap as (st & _ & _).
  destruct (fat32_read_contiguous 2 (λ _, 0) (demo_node 2 false) (demo st) 1 8 100) as (s' & E);
    [reflexivity | exact demo_fs_ok | exact demo_disk_knows | exact (demo_chain 2 (or_introl eq_refl))
    | lia | cbn; lia | lia | lia | vm_compute; discriminate | vm_compute; reflexivity |].
  exists st, s'. rewrite E. vm_compute. reflexivity.
Defined.

Lemma fat32_read_wrong_cluster_witness :
  ∃ st s', fat32_read 2 (λ i, i mod 256) (demo_node 3 false) 0 5 (demo st) = Ok (5, [0; 1; 2; 3; 4], s').
Proof.
  destruct boot_heap as (st & _ & _).
  destruct (fat32_read_wrong_cluster 2 (λ i, i mod 256) (demo_node 3 false) (demo st) [] 5) as (s' & E);
    [reflexivity | exact demo_fs_ok | exact demo_disk_knows | exact (demo_chain 3 (or_intror eq_refl))
    | lia | cbn; lia | vm_compute; reflexivity | cbn; lia | vm_compute; discriminate |].
  exists st, s'. rewrite E. vm_compute. reflexivity.
Defined.
End demo.
End Fat32.
