(* ===== verification/Elf.v ===== *)
(** * The program loader: [fs/elf.cpp]

    The file is read into a heap block and interpreted there, byte by byte in
    memory. Segments are mapped into an address space and then written through
    the virtual addresses, that is through the page tables of the current
    space: an access to an unmapped page is a page fault, whose handler
    ([interrupts/page_fault.cpp]) ends in a panic. Writes to read-only pages
    succeed since the kernel does not set the write-protect bit of cr0. *)

From S2P Require Import Prelude Interfaces Machine Libk Pmm Kmalloc Vmm.

Module Elf.
Import Libk Kmalloc Vmm.

Notation ELF_MAGIC := 0x464C457F (only parsing).
Notation PT_LOAD := 1 (only parsing).
Notation PF_W := 2 (only parsing).

Record elf_info := mkInfo { info_entry : Z; load_addr : Z; info_size : Z }.

(** ** The packed headers, at an address *)

Definition eh_magic (m : memory) (h : Z) : Z := rd32 m h.
Definition eh_cls (m : memory) (h : Z) : Z := rd8 m (h + 4).
Definition eh_data (m : memory) (h : Z) : Z := rd8 m (h + 5).
Definition eh_type (m : memory) (h : Z) : Z := rd16 m (h + 16).
Definition eh_machine (m : memory) (h : Z) : Z := rd16 m (h + 18).
Definition eh_entry (m : memory) (h : Z) : Z := rd32 m (h + 24).
Definition eh_phoff (m : memory) (h : Z) : Z := rd32 m (h + 28).
Definition eh_phentsize (m : memory) (h : Z) : Z := rd16 m (h + 42).
Definition eh_phnum (m : memory) (h : Z) : Z := rd16 m (h + 44).

Definition valid_header (m : memory) (h : Z) : bool :=
  (eh_magic m h =? ELF_MAGIC) && (eh_cls m h =? 1) && (eh_data m h =? 1) &&
  (eh_machine m h =? 3) && (eh_type m h =? 2).

(** A program header. *)
Record elf32_phdr := mkPhdr {
  p_type : Z; p_offset : Z; p_vaddr : Z; p_filesz : Z; p_memsz : Z; p_flags : Z }.
Definition phdr_at (m : memory) (a : Z) : elf32_phdr :=
  mkPhdr (rd32 m a) (rd32 m (a + 4)) (rd32 m (a + 8)) (rd32 m (a + 16)) (rd32 m (a + 20)) (rd32 m (a + 24)).

Definition page_down (x : Z) : Z := Z.land x 0xFFFFF000.

Section elf.
Context {Pg : Type} `{!PageAllocOps Pg}.
Implicit Types st : machine Pg.

(** One byte written through the current page tables. *)
Definition vwrite8 (virt v : Z) st : outcome (machine Pg) :=
  match translate (mem st) (cr3 st) virt with
  | Some p => Ok (with_mem (wr8 (mem st) p v) st)
  | None => Panic
  end.

(** [for(page = start; page < end; page += 0x1000)]: false when no page is left. *)
Fixpoint map_pages (n : nat) (space page flags : Z) st : bool * machine Pg :=
  match n with
  | O => (true, st)
  | S n' =>
      let '(phys, pg) := pa_alloc (pages st) in
      let st := with_pages pg st in
      if phys =? 0 then (false, st)
      else
        let '(_, st) := vmm_map space page phys flags st in
        map_pages n' space (page + 0x1000) flags st
  end.

(** [for(j < n) ((uint8_t* )dst)[j] = val;] where the value may be read from
    memory in every round. *)
Fixpoint write_bytes (n : nat) (j dst : Z) (val : Z → memory → Z) st : outcome (machine Pg) :=
  match n with
  | O => Ok st
  | S n' =>
      let! st := vwrite8 (u32 (dst + j)) (val j (mem st)) st in
      write_bytes n' (j + 1) dst val st
  end.

Definition segment_flags (ph : elf32_phdr) : Z :=
  if Z.land (p_flags ph) PF_W =? 0 then Z.lor VMM_PRESENT VMM_USER
  else Z.lor (Z.lor VMM_PRESENT VMM_USER) VMM_WRITABLE.

(** The pages a segment touches: from [start] to before [end]. *)
Definition seg_start (ph : elf32_phdr) : Z := page_down (p_vaddr ph).
Definition seg_end (ph : elf32_phdr) : Z := page_down (u32 (p_vaddr ph + p_memsz ph + 0xFFF)).

(** [file_buf[ph->offset + j]], the header being read again in every round. *)
Definition file_byte (file_buf ph j : Z) (m : memory) : Z :=
  rd8 m (u32 (file_buf + u32 (p_offset (phdr_at m ph) + j))).

(** The bytes of the file, then zeros, for the header at address [ph]; the
    header is in memory and is read where the code reads it. *)
Definition fill_segment (file_buf ph : Z) st : outcome (machine Pg) :=
  let h := phdr_at (mem st) ph in
  let! st := write_bytes (Z.to_nat (p_filesz h)) 0 (p_vaddr h) (file_byte file_buf ph) st in
  let h := phdr_at (mem st) ph in
  write_bytes (Z.to_nat (u32 (p_memsz h - p_filesz h))) 0 (u32 (p_vaddr h + p_filesz h)) (λ _ _, 0) st.

(** The body of the loop; false when no page is left. *)
Definition load_segment (space file_buf ph : Z) st : outcome (bool * machine Pg) :=
  let h := phdr_at (mem st) ph in
  let '(ok, st) := map_pages (Z.to_nat ((seg_end h - seg_start h) / 0x1000)) space (seg_start h)
                     (segment_flags h) st in
  if negb ok then Ok (false, st)
  else let! st := fill_segment file_buf ph st in Ok (true, st).

(** The lines that keep the lowest address and the size. *)
Definition note_segment (ph : elf32_phdr) (info : elf_info) : elf_info :=
  let la := if p_vaddr ph <? load_addr info then p_vaddr ph else load_addr info in
  let stop := u32 (p_vaddr ph + p_memsz ph) in
  mkInfo (info_entry info) la (if info_size info <? stop then u32 (stop - la) else info_size info).

(** [(elf32_phdr* )(file_buf + hdr->phoff + i * hdr->phentsize)]. *)
Definition phdr_addr (m : memory) (file_buf i : Z) : Z :=
  u32 (file_buf + u32 (eh_phoff m file_buf + i * eh_phentsize m file_buf)).

(** The loop over the program headers, from number [i] on. The number of
    headers has 16 bits, so [MAX_SEGMENTS] rounds are enough. *)
Fixpoint load_segments (n : nat) (i space file_buf : Z) (info : elf_info) st :
    outcome (bool * elf_info * machine Pg) :=
  match n with
  | O => Ok (true, info, st)
  | S n' =>
      if i <? eh_phnum (mem st) file_buf then
        let ph := phdr_addr (mem st) file_buf i in
        if negb (p_type (phdr_at (mem st) ph) =? PT_LOAD)
        then load_segments n' (i + 1) space file_buf info st
        else
          let! (ok, st) := load_segment space file_buf ph st in
          if negb ok then Ok (false, info, st)
          else load_segments n' (i + 1) space file_buf (note_segment (phdr_at (mem st) ph) info) st
      else Ok (true, info, st)
  end.
Definition MAX_SEGMENTS : nat := Z.to_nat 65536.

(** What the loader uses of a [vfs_node]: [node->size], and what its method
    [read] does for the whole file: the bytes it stores, or [None] for a
    negative result. *)
Record elf_file := mkFile { file_size : Z; file_read : option (list Z) }.

(** The arguments [node] and [info] may be null. *)
Definition elf_load_into (fuel : nat) (node : option elf_file) (space : Z)
    (info : option elf_info) st : outcome (Z * option elf_info * machine Pg) :=
  match node, info with
  | Some node, Some info =>
      let! (file_buf, st) := kmalloc fuel (file_size node) st in
      if file_buf =? 0 then Ok (-1, Some info, st)
      else
        match file_read node with
        | None => let! st := kfree fuel file_buf st in Ok (-1, Some info, st)
        | Some bytes =>
            let st := with_mem (store_bytes (mem st) file_buf bytes) st in
            if negb (valid_header (mem st) file_buf) then
              let! st := kfree fuel file_buf st in Ok (-1, Some info, st)
            else
              let info := mkInfo (eh_entry (mem st) file_buf) 0xFFFFFFFF 0 in
              let! (ok, info, st) := load_segments MAX_SEGMENTS 0 space file_buf info st in
              let! st := kfree fuel file_buf st in
              Ok (if ok then 0 else -1, Some info, st)
        end
  | _, _ => Ok (-1, info, st)
  end.

Definition elf_load (fuel : nat) (node : option elf_file) (info : option elf_info) st :
    outcome (Z * option elf_info * machine Pg) :=
  elf_load_into fuel node (vmm_get_kernel_space st) info st.
End elf.

(** ** Mapping a range of pages *)

Section mapping.
Context {Pg : Type} `{PageAlloc Pg}.
Implicit Types st : machine Pg.

(** The pages that hold the directory and the tables of a space. *)
Definition is_table (m : memory) (space q : Z) : Prop :=
  q = space ∨ ∃ i, 0 ≤ i < 1024 ∧ has (word m space i) VMM_PRESENT = true ∧ frame (word m space i) = q.

Lemma is_table_used st space q : space_wf st space → is_table (mem st) space q → pa_used (pages st) q.
Proof. intros Hwf [-> | (i & Hi & Hp & <-)]; [apply Hwf | by apply (sw_tab _ _ Hwf)]. Qed.

(** Both only depend on the directory. *)
Lemma is_table_same m m' space q :
  same_page space m m' → is_table m' space q ↔ is_table m space q.
Proof.
  intros Hs. unfold is_table. split; (intros [-> | (i & Hi & Hp & Hf)]; [by left | right; exists i]);
    rewrite (same_page_word m m') in * by done; done.
Qed.

Lemma space_wf_same st m space :
  same_page space (mem st) m → space_wf st space → space_wf (with_mem m st) space.
Proof.
  intros Hs [W1 W2 W3 W4 W5]. constructor; cbn [pages with_mem mem]; [done | done | done | |].
  - intros i Hi. rewrite (same_page_word (mem st) m) by done. by apply W4.
  - intros i j Hi Hj. rewrite !(same_page_word (mem st) m) by done. by apply W5.
Qed.

Lemma space_wf_alloc st space p pg :
  space_wf st space → pa_alloc (pages st) = (p, pg) → p ≠ 0 → space_wf (with_pages pg st) space.
Proof.
  intros [Hal Hpg Hus Htab Hinj] E Hp. destruct (pa_alloc_ok _ _ _ Hal E Hp) as (Hwf & _ & _ & Hu).
  constructor; cbn [pages with_pages mem]; try done; [apply Hu; by right |].
  intros i Hi Hpr. destruct (Htab i Hi Hpr) as (? & ? & ?). split_and!; [done | apply Hu; by right | done].
Qed.

(** The tables after [vmm_map] are the old ones and a fresh one. *)
Lemma vmm_map_tables space virt phys flags st st' q :
  space_wf st space → 0 ≤ virt < W32 → vmm_map space virt phys flags st = (0, st') →
  is_table (mem st') space q → is_table (mem st) space q ∨ ¬ pa_used (pages st) q.
Proof.
  intros Hwf Hv E. unfold vmm_map in E. destruct (ensure_table space virt st) as [ok st1] eqn:Ee.
  destruct (ensure_table_spec space virt st ok st1 Hwf Hv Ee) as (_ & _ & _ & Hok).
  destruct ok; cbn [negb] in E; [| discriminate]. inversion E; subst st'; clear E.
  destruct Hok as (Hwf1 & Hpr & _ & _ & Hold). pose proof (pd_idx_range virt Hv) as Hi.
  destruct (write_pte st1 space (pd_idx virt) (pt_idx virt) (Z.lor (frame phys) (Z.land flags 0xFFF)))
    as (_ & _ & Hdir & _); [done | done | apply pt_idx_range | done |].
  rewrite mem_flush. cbn [mem with_mem] in Hdir |- *. intros [-> | (i & Hi' & Hp & <-)]; [left; by left |].
  rewrite Hdir in * by done.
  destruct (has (word (mem st) space (pd_idx virt)) 1) eqn:Hold0.
  { subst st1. left. right. by exists i. }
  destruct Hold as (pt & Hpt & Hfresh & _ & Hdv & Hoth). destruct (Z.eq_dec i (pd_idx virt)) as [-> | Hne].
  - right. rewrite Hdv. by destruct (entry_fields pt 7 Hpt ltac:(lia)) as (_ & -> & _).
  - left. right. exists i. by rewrite <- Hoth.
Qed.

Lemma vmm_map_cr3 space virt phys flags st : cr3 (snd (vmm_map space virt phys flags st)) = cr3 st.
Proof. unfold vmm_map, ensure_table, flush. repeat case_match; simplify_eq; done. Qed.

(** What mapping [n] pages from [page] on has done, when every table exists
    afterwards. *)
Record mapped st st1 (space page : Z) (n : nat) (flags : Z) (f : Z → Z) : Prop := {
  mp_wf : space_wf st1 space;
  mp_cr3 : cr3 st1 = cr3 st;
  mp_used : ∀ q, pa_used (pages st) q → pa_used (pages st1) q;
  mp_tab : ∀ q, is_table (mem st1) space q → is_table (mem st) space q ∨ ¬ pa_used (pages st) q;
  mp_same : ∀ q, page_addr q → pa_used (pages st) q → ¬ is_table (mem st) space q →
    same_page q (mem st) (mem st1);
  mp_out : ∀ w, 0 ≤ w < W32 → w < page ∨ page + Z.of_nat n * 4096 ≤ w →
    pte_at (mem st1) space w = pte_at (mem st) space w;
  mp_frame : ∀ i, 0 ≤ i < Z.of_nat n → page_addr (f i) ∧ ¬ pa_used (pages st) (f i) ∧
    pa_used (pages st1) (f i) ∧ ¬ is_table (mem st1) space (f i) ∧
    ∀ w, page + i * 4096 ≤ w < page + (i + 1) * 4096 → pte_at (mem st1) space w = f i + flags;
  mp_inj : ∀ i j, 0 ≤ i < Z.of_nat n → 0 ≤ j < Z.of_nat n → f i = f j → i = j;
}.

(** Mapping stops early when a page is missing. It can also end with the last
    page not mapped: a page was left for it, but none for its table. *)
Definition unmapped_page st (space page : Z) : Prop :=
  fst (pa_alloc (pages st)) = 0 ∧
  ∀ w, page ≤ w < page + 4096 → translate (mem st) space w = None.

(** The tables that [n] pages from [page] on lie in: one for every 4 MiB. *)
Definition tables_of (page : Z) (n : nat) : nat :=
  match n with O => O | _ => Z.to_nat ((page + Z.of_nat n * 4096 - 1) / 4194304 - page / 4194304 + 1) end.

(** The frames that mapping these pages takes at most, when the first table is
    there already and when it is not. *)
Definition frames_for (present : bool) (page : Z) (n : nat) : nat :=
  n + tables_of page n - (if present then 1 else 0).

Lemma tables_of_S page n :
  0 ≤ page → page mod 4096 = 0 →
  (1 ≤ tables_of page (S n))%nat ∧
  if pd_idx (page + 4096) =? pd_idx page
  then (tables_of (page + 4096) n ≤ tables_of page (S n))%nat
  else (tables_of (page + 4096) n + 1 ≤ tables_of page (S n))%nat ∨ n = O.
Proof.
  intros Hp Ha. rewrite !pd_idx_eq. unfold tables_of. split; [mlia |].
  destruct (Z.eqb_spec ((page + 4096) / 4194304) (page / 4194304)) as [E | E]; destruct n as [|n]; [lia | rewrite E; mlia | by right | left; mlia].
Qed.

Lemma mapped_nil st space page flags : space_wf st space → mapped st st space page 0 flags (λ _, 0).
Proof. intros Hwf. constructor; try done; try lia. auto. Qed.

(** One more page in front. *)
Lemma mapped_cons st pg phys st2 st1 space page flags n f' :
  space_wf st space → page mod 4096 = 0 → 0 ≤ page → page + Z.of_nat (S n) * 4096 ≤ W32 → 0 ≤ flags < 4096 →
  pa_alloc (pages st) = (phys, pg) → phys ≠ 0 →
  vmm_map space page phys flags (with_pages pg st) = (0, st2) →
  mapped st2 st1 space (page + 4096) n flags f' →
  mapped st st1 space page (S n) flags (λ i, if i =? 0 then phys else f' (i - 1)).
Proof.
  intros Hwf Ha H0 Hle Hfl Ea Hphys Em [M1 M2 M3 M4 M5 M6 M7 M8].
  destruct (pa_alloc_ok _ _ _ (sw_alloc _ _ Hwf) Ea Hphys) as (Hpg & Hpa & Hfresh & Hu).
  pose proof (space_wf_alloc st space phys pg Hwf Ea Hphys) as Hwf0. set (st0 := with_pages pg st) in *.
  assert (Hpr : 0 ≤ phys < W32) by (destruct Hpa; lia).
  pose proof (vmm_map_cr3 space page phys flags st0) as Hcr. rewrite Em in Hcr. cbn [snd] in Hcr.
  destruct (vmm_map_effect space page phys flags st0 0 st2 Hwf0 ltac:(lia) Hpr Em)
    as [(? & _) | (_ & Hwf2 & Hpte & (Hal2 & Hu2 & Hs2) & Hpres & _)]; [done |].
  assert (Hphys_page : page_of phys = phys) by (unfold page_of; destruct Hpa as (_ & _ & ->); lia).
  assert (Htab2 : ∀ q, is_table (mem st2) space q → is_table (mem st) space q ∨ ¬ pa_used (pages st0) q).
  { intros q Hq. apply (vmm_map_tables space page phys flags st0 st2); [done | lia | done | done]. }
  assert (Hused : ∀ q, pa_used (pages st) q → pa_used (pages st2) q).
  { intros q Hq. apply Hu2, Hu. by right. }
  assert (Hphys2 : pa_used (pages st2) phys) by (apply Hu2, Hu; by left).
  assert (Hphys_tab : ¬ is_table (mem st2) space phys).
  { intros Hq. destruct (Htab2 _ Hq) as [Hq' | Hq']; [by apply Hfresh, (is_table_used st space) |]. apply Hq', Hu. by left. }
  constructor.
  - done.
  - by rewrite M2, Hcr.
  - auto.
  - intros q Hq. destruct (M4 q Hq) as [Hq' | Hq']; [| right; auto].
    destruct (Htab2 q Hq') as [? | Hq2]; [by left | right]. intros Hq3. apply Hq2, Hu. by right.
  - intros q Hq Hqu Hqt.
    assert (Hqt2 : ¬ is_table (mem st2) space q).
    { intros Hq2. destruct (Htab2 q Hq2) as [? | Hq3]; [done |]. apply Hq3, Hu. by right. }
    etransitivity; [| apply (M5 q Hq (Hused q Hqu) Hqt2)]. apply (Hs2 q Hq); [apply Hu; by right |].
    rewrite !elem_of_cons, elem_of_nil. intros [-> | [-> | []]]; [by apply Hqt; left |].
    apply Hqt2. right. exists (pd_idx page). split; [apply pd_idx_range; lia | done].
  - intros w Hw Hout. rewrite M6 by (done || lia). rewrite Hpte by done. destruct (Z.eqb_spec (page_of w) (page_of page)) as [Ep |]; [| done].
    exfalso. pose proof (page_of_range w). assert (page_of page = page) by (unfold page_of; lia). lia.
  - intros i Hi. destruct (Z.eqb_spec i 0) as [-> | Hne].
    + split_and!; [done | done | auto | |].
      * intros Hq. destruct (M4 _ Hq) as [? | Hq']; [done | auto].
      * intros w Hw. rewrite M6 by lia. rewrite Hpte by lia.
        assert (Epage : page_of w = page) by (apply page_of_inside; lia).
        assert (Epp : page_of page = page) by (unfold page_of; lia). rewrite Epage, Epp, Z.eqb_refl.
        rewrite Hphys_page, Z.mod_small; done.
    + destruct (M7 (i - 1) ltac:(lia)) as (F1 & F2 & F3 & F4 & F5). split_and!; [done | auto | done | done |].
      intros w Hw. apply F5. lia.
  - intros i j Hi Hj. destruct (Z.eqb_spec i 0) as [-> |], (Z.eqb_spec j 0) as [-> |]; [done | | |].
    + intros Ef. exfalso. destruct (M7 (j - 1) ltac:(lia)) as (_ & F2 & _). by rewrite <- Ef in F2.
    + intros Ef. exfalso. destruct (M7 (i - 1) ltac:(lia)) as (_ & F2 & _). by rewrite Ef in F2.
    + intros Ef. apply M8 in Ef; lia.
Qed.

Lemma absent_table m space page w :
  page mod 4096 = 0 → page ≤ w < page + 4096 →
  ¬ has (word m space (pd_idx page)) VMM_PRESENT = true → translate m space w = None.
Proof.
  intros Ha Hw Habs. assert (Ei : pd_idx w = pd_idx page) by (rewrite !pd_idx_eq; mlia).
  unfold translate, pte_at. rewrite Ei. destruct (has (word m space (pd_idx page)) 1); [by destruct Habs |]. done.
Qed.

(** The frames taken while a page is mapped. *)
Lemma vmm_map_pages space page phys flags st r st' :
  vmm_map space page phys flags st = (r, st') →
  pages st' = after (if has (word (mem st) space (pd_idx page)) VMM_PRESENT then 0 else 1) (pages st).
Proof.
  unfold vmm_map, ensure_table, flush. destruct (has _ _); cbn [negb].
  - intros E. injection E as <- <-. by destruct (cr3 _ =? _).
  - change (after 1 (pages st)) with (snd (pa_alloc (pages st))). destruct (pa_alloc (pages st)) as [pt pg]. cbn [snd].
    destruct (pt =? 0); cbn [negb]; intros E; injection E as <- <-; [done |]. by destruct (cr3 _ =? _).
Qed.

Lemma map_pages_run n space page flags st ok st1 (B := frames_for (has (word (mem st) space (pd_idx page)) VMM_PRESENT) page n) :
  space_wf st space → page mod 4096 = 0 → 0 ≤ page → page + Z.of_nat n * 4096 ≤ W32 → 0 ≤ flags < 4096 →
  map_pages n space page flags st = (ok, st1) →
  if ok then ∃ k f j, mapped st st1 space page k flags f ∧ (j ≤ B)%nat ∧ pages st1 = after j (pages st) ∧
    (k = n ∨ S k = n ∧ (j < B)%nat ∧ unmapped_page st1 space (page + Z.of_nat k * 4096))
  else short_of B (pages st).
Proof.
  revert page st B. induction n as [|n IH]; intros page st B Hwf Ha H0 Hle Hfl E; cbn [map_pages] in E.
  { injection E as <- <-. exists O, (λ _, 0), O. split; [by apply mapped_nil |]. split; [lia |]. split; [done | by left]. }
  destruct (tables_of_S page n H0 Ha) as [HT HT']. unfold frames_for in B.
  destruct (pa_alloc (pages st)) as [phys pg] eqn:Ea. destruct (Z.eqb_spec phys 0) as [-> | Hphys].
  { injection E as <- <-. exists O. change (after 0 (pages st)) with (pages st). rewrite Ea.
    split; [unfold B; destruct (has _ _); lia | done]. }
  destruct (pa_alloc_ok _ _ _ (sw_alloc _ _ Hwf) Ea Hphys) as (Hpg & Hpa & Hfresh & Hu).
  pose proof (space_wf_alloc st space phys pg Hwf Ea Hphys) as Hwf0.
  assert (Hpr : 0 ≤ phys < W32) by (destruct Hpa; lia).
  assert (Epg : pg = after 1 (pages st)) by (change (after 1 (pages st)) with (snd (pa_alloc (pages st))); by rewrite Ea).
  destruct (vmm_map space page phys flags (with_pages pg st)) as [r st2] eqn:Em.
  pose proof (vmm_map_pages _ _ _ _ _ _ _ Em) as Ep. cbn [pages with_pages mem] in Ep. rewrite Epg, after_add in Ep.
  destruct (vmm_map_effect space page phys flags _ r st2 Hwf0 ltac:(lia) Hpr Em)
    as [(-> & -> & Habs & Hnull) | (-> & Hwf2 & _ & (_ & Hu2 & _) & Hpres & _)].
  - cbn [pages with_pages mem] in Hnull, Habs.
    assert (HB : B = (S n + tables_of page (S n))%nat) by (unfold B; destruct (has _ _); [by destruct Habs | lia]).
    destruct n as [|n]; cbn [map_pages pages with_pages] in E.
    + injection E as <- <-. cbn [pages with_pages]. exists O, (λ _, 0), 1%nat. split; [| split; [lia | split; [done |]]].
      * clear HB HT HT' B IH. constructor; cbn [pages with_pages mem cr3]; try done; try lia; [| auto].
        intros q Hq. apply Hu. by right.
      * right. split; [done |]. split; [lia |]. split; [done |]. rewrite Z.add_0_r. intros w Hw. by apply (absent_table _ _ page).
    + destruct (pa_alloc pg) as [p2 pg2] eqn:Ea2. cbn [fst] in Hnull. subst p2. rewrite Z.eqb_refl in E.
      injection E as <- <-. exists 1%nat. rewrite <- Epg, Ea2. split; [lia | done].
  - specialize (IH (page + 4096) st2 Hwf2 ltac:(mlia) ltac:(lia) ltac:(lia) Hfl E). cbv zeta in IH.
    set (j0 := ((if has (word (mem st) space (pd_idx page)) VMM_PRESENT then 0 else 1) + 1)%nat) in Ep.
    assert (HB : (frames_for (has (word (mem st2) space (pd_idx (page + 4096))) VMM_PRESENT) (page + 4096) n + j0 ≤ B)%nat).
    { unfold frames_for, B, j0. revert HT'. destruct (Z.eqb_spec (pd_idx (page + 4096)) (pd_idx page)) as [Ei | Ei].
      - rewrite Ei. rewrite Hpres. intros HT'. destruct n as [|n]; [change (tables_of (page + 4096) 0) with O; destruct (has (word (mem st) _ _) _); lia |].
        destruct (tables_of_S (page + 4096) n ltac:(lia) ltac:(mlia)) as [? _]. destruct (has (word (mem st) _ _) _); lia.
      - intros [HT' | ->]; [| change (tables_of (page + 4096) 0) with O];
          destruct (has (word (mem st) _ _) _), (has (word (mem st2) _ _) _); lia. }
    destruct ok.
    + destruct IH as (k & f' & j & M & Hj & Epj & Hk). exists (S k), (λ i, if i =? 0 then phys else f' (i - 1)), (j + j0)%nat.
      rewrite Ep, after_add in Epj. split; [| split; [lia | split; [done |]]].
      * assert (Hkn : (k ≤ n)%nat) by (destruct Hk as [-> | [<- _]]; lia).
        clear HB HT HT' Hj Epj Ep Hk. clear j0 B. apply (mapped_cons st pg phys st2); try assumption. lia.
      * destruct Hk as [-> | (<- & Hlt & Hun)]; [by left | right]. split; [done |]. split; [lia |].
        by replace (page + Z.of_nat (S k) * 4096) with (page + 4096 + Z.of_nat k * 4096) by lia.
    + rewrite Ep in IH. apply short_of_after in IH. by apply (short_of_mono _ _ _ HB).
Qed.
End mapping.

(** ** Writing through the tables *)

Section writing.
Context {Pg : Type} `{PageAlloc Pg}.
Implicit Types st : machine Pg.

(** The address lies in one of the [k] frames of [f]; the memories agree
    outside the frames. *)
Definition in_frames (f : Z → Z) (k : nat) (x : Z) : Prop := ∃ i, 0 ≤ i < Z.of_nat k ∧ page_of x = f i.
Definition keeps (f : Z → Z) (k : nat) (m1 m : memory) : Prop := ∀ x, ¬ in_frames f k x → rd8 m x = rd8 m1 x.

Lemma keeps_wr8 f k m1 m p v : keeps f k m1 m → in_frames f k p → keeps f k m1 (wr8 m p v).
Proof. intros Hk Hp x Hx. rewrite rd8_wr8_ne; [by apply Hk | by intros ->]. Qed.

Section one_mapping.
Context (st st1 : machine Pg) (space page : Z) (k : nat) (flags : Z) (f : Z → Z).
Hypothesis M : mapped st st1 space page k flags f.
Hypothesis Hpage : page mod 4096 = 0.
Hypothesis Hlo : 0 ≤ page.
Hypothesis Hflags : 0 ≤ flags < 4096.
Hypothesis Hpres : has flags VMM_PRESENT = true.
Hypothesis Hcr : cr3 st1 = space.

Lemma table_page_addr q : is_table (mem st1) space q → page_addr q.
Proof. intros [-> | (i & Hi & Hp & <-)]; [apply M | by apply (sw_tab _ _ (mp_wf _ _ _ _ _ _ _ M))]. Qed.

Lemma keeps_table m q : keeps f k (mem st1) m → is_table (mem st1) space q → same_page q (mem st1) m.
Proof.
  intros Hk Hq x Hx. apply Hk. intros (i & Hi & Hf). destruct (table_page_addr q Hq) as (_ & _ & Hal).
  rewrite (page_of_inside q x) in Hf by done. destruct (mp_frame _ _ _ _ _ _ _ M i Hi) as (_ & _ & _ & Hnt & _).
  by rewrite <- Hf in Hnt.
Qed.

Lemma keeps_dir m i : keeps f k (mem st1) m → 0 ≤ i < 1024 → word m space i = word (mem st1) space i.
Proof. intros Hk Hi. apply same_page_word; [| done]. apply keeps_table; [done | by left]. Qed.

Lemma keeps_pte m w : keeps f k (mem st1) m → 0 ≤ w < W32 → pte_at m space w = pte_at (mem st1) space w.
Proof.
  intros Hk Hw. unfold pte_at. pose proof (pd_idx_range w Hw) as Hi. rewrite keeps_dir by done.
  destruct (has (word (mem st1) space (pd_idx w)) 1) eqn:Hp; [| done].
  apply same_page_word; [| apply pt_idx_range]. apply keeps_table; [done |]. right. by exists (pd_idx w).
Qed.

Lemma keeps_translate m w :
  keeps f k (mem st1) m → 0 ≤ w < W32 → translate m space w = translate (mem st1) space w.
Proof. intros Hk Hw. unfold translate. by rewrite keeps_pte. Qed.

Lemma keeps_is_table m q : keeps f k (mem st1) m → is_table m space q ↔ is_table (mem st1) space q.
Proof. intros Hk. apply is_table_same, keeps_table; [done | by left]. Qed.

Lemma keeps_space_wf m : keeps f k (mem st1) m → space_wf (with_mem m st1) space.
Proof. intros Hk. apply space_wf_same; [| apply M]. apply keeps_table; [done | by left]. Qed.

(** Where an address of the mapped range is. *)
Lemma frame_of w :
  page ≤ w < page + Z.of_nat k * 4096 →
  ∃ i, 0 ≤ i < Z.of_nat k ∧ i = (w - page) / 4096 ∧ page_addr (f i) ∧
    pte_at (mem st1) space w = f i + flags ∧ translate (mem st1) space w = Some (f i + w mod 4096) ∧
    page_of (f i + w mod 4096) = f i.
Proof.
  intros Hw. assert (Hi : 0 ≤ (w - page) / 4096 < Z.of_nat k) by mlia.
  exists ((w - page) / 4096). destruct (mp_frame _ _ _ _ _ _ _ M _ Hi) as (Hpa & _ & _ & _ & Hpte).
  specialize (Hpte w ltac:(mlia)). destruct (entry_fields (f ((w - page) / 4096)) flags Hpa Hflags) as (_ & Hfr & Hh).
  pose proof Hpa as (_ & _ & Hal).
  split_and!; [lia | lia | done | done | done | |].
  - unfold translate. rewrite Hpte, Hh, Hpres, Hfr by lia. done.
  - apply page_of_inside; [done | mlia].
Qed.

Lemma translate_inj w w' p :
  page ≤ w < page + Z.of_nat k * 4096 → page ≤ w' < page + Z.of_nat k * 4096 →
  translate (mem st1) space w = Some p → translate (mem st1) space w' = Some p → w = w'.
Proof.
  intros Hw Hw'. destruct (frame_of w Hw) as (i & Hi & Ei & _ & _ & -> & Hp).
  destruct (frame_of w' Hw') as (i' & Hi' & Ei' & _ & _ & -> & Hp'). intros [= <-] [= E].
  rewrite E, Hp in Hp'. apply (mp_inj _ _ _ _ _ _ _ M) in Hp'; [| done | done]. subst i'. rewrite <- Hp' in E. mlia.
Qed.

(** The addresses up to [hi] that are mapped are those of the [k] pages. *)
Context (hi : Z).
Hypothesis Hhi : hi ≤ W32.
Hypothesis Hdef : ∀ w p, page ≤ w < hi → translate (mem st1) space w = Some p → w < page + Z.of_nat k * 4096.

Lemma write_bytes_run n j dst val (V : Z → Z) m :
  keeps f k (mem st1) m → 0 ≤ j → page ≤ dst → dst + j + Z.of_nat n ≤ hi →
  (∀ i m', j ≤ i < j + Z.of_nat n → keeps f k (mem st1) m' → val i m' = V i) →
  (write_bytes n j dst val (with_mem m st1) = Panic ∧
   ∃ i, j ≤ i < j + Z.of_nat n ∧ translate (mem st1) space (dst + i) = None) ∨
  ∃ m', write_bytes n j dst val (with_mem m st1) = Ok (with_mem m' st1) ∧ keeps f k (mem st1) m' ∧
    (∀ i, j ≤ i < j + Z.of_nat n → ∃ p, translate (mem st1) space (dst + i) = Some p ∧ rd8 m' p = u8 (V i)) ∧
    (∀ w p, page ≤ w < hi → w < dst + j → translate (mem st1) space w = Some p → rd8 m' p = rd8 m p).
Proof.
  revert j m. induction n as [|n IH]; intros j m Hk Hj Hd Hle Hval.
  { right. exists m. split; [done |]. split; [done |]. split; [lia | done]. }
  cbn [write_bytes]. unfold vwrite8. rewrite u32_id by lia. cbn [mem cr3 with_mem]. rewrite Hcr.
  rewrite (keeps_translate m) by (done || lia).
  destruct (translate (mem st1) space (dst + j)) as [p |] eqn:Ep; cbn [obind].
  2: { left. split; [done |]. exists j. split; [lia | done]. }
  assert (Hin : page ≤ dst + j < page + Z.of_nat k * 4096).
  { split; [lia |]. apply (Hdef _ p); [lia | done]. }
  destruct (frame_of _ Hin) as (i0 & Hi0 & _ & _ & _ & Ep' & Hpg). rewrite Ep in Ep'. injection Ep' as ->.
  set (p := f i0 + (dst + j) mod 4096) in *.
  set (m1 := wr8 m p (val j m)).
  change (with_mem (wr8 m p (val j m)) (with_mem m st1)) with (with_mem m1 st1).
  assert (Hk1 : keeps f k (mem st1) m1) by (apply keeps_wr8; [done | by exists i0]).
  destruct (IH (j + 1) m1) as [(E & i & Hi & Hn) | (m' & E & Hk' & Hw & Hold)];
    [done | lia | done | lia | intros; apply Hval; [lia | done] | left | right].
  { split; [done |]. exists i. split; [lia | done]. }
  exists m'. split; [done |]. split; [done |]. split.
  - intros i Hi. destruct (Z.eq_dec i j) as [-> | Hne]; [| apply Hw; lia].
    exists p. split; [done |]. rewrite (Hold (dst + j) p) by (done || lia).
    unfold m1. rewrite rd8_wr8, Z.eqb_refl, Hval by (done || lia). done.
  - intros w q Hw1 Hlt Hq. rewrite (Hold w q) by (done || lia). unfold m1. apply rd8_wr8_ne. intros <-.
    assert (w < page + Z.of_nat k * 4096) by (by apply (Hdef w p)).
    pose proof (translate_inj w (dst + j) p ltac:(lia) Hin Hq Ep). lia.
Qed.
End one_mapping.
End writing.

(** ** Loading segments *)

Section loading.
Context {Pg : Type} `{PageAlloc Pg}.
Implicit Types st : machine Pg.

(** A page in use that holds no table of the space. *)
Definition data_page st (space q : Z) : Prop :=
  page_addr q ∧ pa_used (pages st) q ∧ ¬ is_table (mem st) space q.

(** The file lies in such pages, like every block of the heap. *)
Definition safe_buffer st (space file_buf size : Z) : Prop :=
  0 ≤ file_buf ∧ file_buf + size ≤ W32 ∧
  ∀ x, file_buf ≤ x < file_buf + size → data_page st space (page_of x).

(** What may change between two states while segments are loaded: pages that
    were not in use, tables, and the mapping of the addresses of [touched]. *)
Record load_step st st' (space : Z) (touched : Z → Prop) : Prop := {
  ls_wf : space_wf st' space;
  ls_cr3 : cr3 st' = cr3 st;
  ls_used : ∀ q, pa_used (pages st) q → pa_used (pages st') q;
  ls_data : ∀ q, data_page st space q → data_page st' space q;
  ls_same : ∀ q, data_page st space q → same_page q (mem st) (mem st');
  ls_out : ∀ w, 0 ≤ w < W32 → ¬ touched w → pte_at (mem st') space w = pte_at (mem st) space w;
}.

Lemma load_step_refl st space T : space_wf st space → load_step st st space T.
Proof. intros Hwf. by constructor. Qed.

Lemma load_step_trans st1 st2 st3 space (T : Z → Prop) :
  load_step st1 st2 space T → load_step st2 st3 space T → load_step st1 st3 space T.
Proof.
  intros [A1 A2 A3 A4 A5 A6] [B1 B2 B3 B4 B5 B6]. constructor; [done | congruence | auto | auto | |].
  - intros q Hq. etransitivity; [by apply A5 | auto].
  - intros w Hw Ht. rewrite B6, A6; done.
Qed.

Lemma load_step_weaken st st' space (T T' : Z → Prop) :
  (∀ w, T w → T' w) → load_step st st' space T → load_step st st' space T'.
Proof. intros HT [A1 A2 A3 A4 A5 A6]. constructor; auto. Qed.

(** The addresses of the pages of a segment, and the segments the loader can
    place: the file has the bytes, the sizes are in order and nothing wraps. *)
Definition seg_span (h : elf32_phdr) (w : Z) : Prop := seg_start h ≤ w < seg_end h.
Definition seg_ok (h : elf32_phdr) (size : Z) : Prop :=
  0 ≤ p_offset h ∧ 0 ≤ p_vaddr h ∧ 0 ≤ p_filesz h ≤ p_memsz h ∧
  p_vaddr h + p_memsz h + 0xFFF < W32 ∧ p_offset h + p_filesz h ≤ size.

(** The segment is in place: its addresses are mapped with its flags to bytes
    that are those of the file, then zeros. *)
Definition seg_holds st (space : Z) (h : elf32_phdr) (file : Z → Z) : Prop :=
  ∀ j, 0 ≤ j < p_memsz h → ∃ p,
    translate (mem st) space (p_vaddr h + j) = Some p ∧
    pte_at (mem st) space (p_vaddr h + j) mod 4096 = segment_flags h ∧
    data_page st space (page_of p) ∧
    rd8 (mem st) p = if j <? p_filesz h then file (p_offset h + j) else 0.

Lemma seg_bounds h size : seg_ok h size →
  seg_start h mod 4096 = 0 ∧ 0 ≤ seg_start h ≤ p_vaddr h ∧ p_vaddr h + p_memsz h ≤ seg_end h ≤ W32 ∧
  seg_start h + Z.of_nat (Z.to_nat ((seg_end h - seg_start h) / 0x1000)) * 4096 = seg_end h.
Proof.
  intros (Ho & Hv & Hf & Hw & _). unfold seg_start, seg_end, page_down.
  change (Z.land ?x 0xFFFFF000) with (frame x). rewrite u32_id by lia. rewrite !frame_page_of by lia.
  unfold page_of. mlia.
Qed.

(** A step leaves a segment in place whose addresses it does not touch. *)
Lemma seg_holds_step st st' space (T : Z → Prop) h file size :
  seg_ok h size → load_step st st' space T → (∀ w, seg_span h w → ¬ T w) →
  seg_holds st space h file → seg_holds st' space h file.
Proof.
  intros Hok L HT Hh j Hj. destruct (seg_bounds h size Hok) as (_ & Hb1 & Hb2 & _).
  destruct (Hh j Hj) as (p & Ht & Hfl & Hdp & Hv). exists p.
  assert (E : pte_at (mem st') space (p_vaddr h + j) = pte_at (mem st) space (p_vaddr h + j)).
  { apply (ls_out _ _ _ _ L); [lia |]. apply HT. unfold seg_span. lia. }
  split; [by unfold translate in *; rewrite E |]. rewrite E. split; [done |].
  split; [by apply (ls_data _ _ _ _ L) |]. rewrite <- Hv. apply (ls_same _ _ _ _ L _ Hdp). apply page_of_range.
Qed.

Lemma safe_buffer_step st st' space T file_buf size :
  load_step st st' space T → safe_buffer st space file_buf size →
  safe_buffer st' space file_buf size ∧
  ∀ x, file_buf ≤ x < file_buf + size → rd8 (mem st') x = rd8 (mem st) x.
Proof.
  intros L (H0 & H1 & Hs). split.
  - split; [done |]. split; [done |]. intros x Hx. by apply (ls_data _ _ _ _ L), Hs.
  - intros x Hx. apply (ls_same _ _ _ _ L _ (Hs x Hx)), page_of_range.
Qed.

Lemma phdr_at_ext m m' a : (∀ x, a ≤ x < a + 32 → rd8 m' x = rd8 m x) → phdr_at m' a = phdr_at m a.
Proof. intros E. unfold phdr_at. f_equal; apply rd32_ext; intros x Hx; apply E; lia. Qed.

Lemma segment_flags_fields h :
  0 ≤ segment_flags h < 4096 ∧ has (segment_flags h) VMM_PRESENT = true.
Proof. unfold segment_flags. by destruct (_ =? _). Qed.

(** The state after the pages are mapped and their frames written. *)
Lemma mapped_step st st1 space h k f m size :
  seg_ok h size → mapped st st1 space (seg_start h) k (segment_flags h) f →
  seg_start h + Z.of_nat k * 4096 ≤ seg_end h → keeps f k (mem st1) m →
  load_step st (with_mem m st1) space (seg_span h).
Proof.
  intros Hok M Hle Hk. destruct (seg_bounds h size Hok) as (Hal & Hs1 & Hs2 & _).
  assert (Hdata : ∀ q, data_page st space q → ¬ is_table (mem st1) space q).
  { intros q (Hpa & Hu & Hnt) Hq. by destruct (mp_tab _ _ _ _ _ _ _ M q Hq). }
  constructor; cbn [mem with_mem pages cr3].
  - by eapply keeps_space_wf.
  - apply (mp_cr3 _ _ _ _ _ _ _ M).
  - apply (mp_used _ _ _ _ _ _ _ M).
  - intros q Hq. pose proof (Hdata q Hq). destruct Hq as (? & ? & _). split; [done |]. split; [by apply (mp_used _ _ _ _ _ _ _ M) |].
    cbn [mem with_mem]. by rewrite (keeps_is_table _ _ _ _ _ _ _ M).
  - intros q Hq. pose proof Hq as (Hpa & Hu & Hnt). etransitivity; [by apply (mp_same _ _ _ _ _ _ _ M q) |].
    intros x Hx. apply Hk. intros (i & Hi & Hf). destruct (mp_frame _ _ _ _ _ _ _ M i Hi) as (_ & Hn & _).
    destruct Hpa as (_ & _ & Hq4). rewrite (page_of_inside q x) in Hf by done. by subst q.
  - intros w Hw Hout. rewrite (keeps_pte _ _ _ _ _ _ _ M) by done. apply (mp_out _ _ _ _ _ _ _ M); [done |].
    unfold seg_span in Hout. lia.
Qed.

(** *** The writes of one segment, its pages being mapped *)

Section one_segment.
Context (space file_buf ph size : Z) (st st1 : machine Pg) (k : nat) (f : Z → Z).
Let h := phdr_at (mem st) ph.
Hypothesis Hcr : cr3 st1 = space.
Hypothesis Hbuf : safe_buffer st space file_buf size.
Hypothesis Hph : file_buf ≤ ph ∧ ph + 32 ≤ file_buf + size.
Hypothesis Hok : seg_ok h size.
Hypothesis M : mapped st st1 space (seg_start h) k (segment_flags h) f.
Hypothesis Hk : seg_start h + Z.of_nat k * 4096 ≤ seg_end h.
Hypothesis Hdef : ∀ w p, seg_start h ≤ w < seg_end h → translate (mem st1) space w = Some p →
  w < seg_start h + Z.of_nat k * 4096.

Lemma buffer_kept m x : keeps f k (mem st1) m → file_buf ≤ x < file_buf + size → rd8 m x = rd8 (mem st) x.
Proof.
  intros Hkm. apply (safe_buffer_step st (with_mem m st1) space (seg_span h)); [| done].
  by apply (mapped_step st st1 space h k f m size).
Qed.

Lemma header_kept m : keeps f k (mem st1) m → phdr_at m ph = h.
Proof. intros Hkm. apply phdr_at_ext. intros x Hx. apply buffer_kept; [done | lia]. Qed.

Lemma fill_run :
  (fill_segment file_buf ph st1 = Panic ∧ ∃ w, seg_start h ≤ w < seg_end h ∧ translate (mem st1) space w = None) ∨
  ∃ m, fill_segment file_buf ph st1 = Ok (with_mem m st1) ∧ keeps f k (mem st1) m ∧
    ∀ j, 0 ≤ j < p_memsz h → ∃ p, translate (mem st1) space (p_vaddr h + j) = Some p ∧
      rd8 m p = if j <? p_filesz h then rd8 (mem st) (file_buf + (p_offset h + j)) else 0.
Proof.
  destruct (seg_bounds h size Hok) as (Hal & Hs1 & Hs2 & _). pose proof Hok as (Ho & Hv & Hf & Hw & Hsz).
  destruct (segment_flags_fields h) as [Hfl Hfp]. pose proof Hbuf as (Hb1 & Hb2 & _). unfold fill_segment.
  rewrite (header_kept (mem st1)) by done.
  assert (Est : with_mem (mem st1) st1 = st1) by (by destruct st1).
  destruct (write_bytes_run st st1 space _ k _ f M (proj1 Hs1) Hfl Hfp Hcr (seg_end h) (proj2 Hs2) Hdef
    (Z.to_nat (p_filesz h)) 0 (p_vaddr h) (file_byte file_buf ph)
    (λ j, rd8 (mem st) (file_buf + (p_offset h + j))) (mem st1))
    as [(E & i & Hi & Hn) | (m1 & E & Hkm1 & Hw1 & _)]; [done | done | lia | lia | | |].
  { intros i m' Hi Hkm. unfold file_byte. rewrite (header_kept _ Hkm). rewrite (u32_id (p_offset h + i)) by lia. rewrite u32_id by lia.
    apply buffer_kept; [done | lia]. }
  { left. rewrite Est in E. rewrite E. split; [done |]. exists (p_vaddr h + i). split; [lia | done]. }
  rewrite Est in E. rewrite E. cbn [obind mem with_mem]. rewrite (header_kept _ Hkm1). rewrite !u32_id by lia.
  destruct (write_bytes_run st st1 space _ k _ f M (proj1 Hs1) Hfl Hfp Hcr (seg_end h) (proj2 Hs2) Hdef
    (Z.to_nat (p_memsz h - p_filesz h)) 0 (p_vaddr h + p_filesz h) (λ _ _, 0) (λ _, 0) m1)
    as [(E2 & i & Hi & Hn) | (m2 & E2 & Hkm2 & Hw2 & Hold)]; [done | done | lia | lia | done | |].
  { left. rewrite E2. split; [done |]. exists (p_vaddr h + p_filesz h + i). split; [lia | done]. }
  right. exists m2. split; [done |]. split; [done |]. intros j Hj.
  destruct (Z.ltb_spec j (p_filesz h)) as [Hlt | Hge].
  - destruct (Hw1 j ltac:(lia)) as (p & Ht & Hvj). exists p. split; [done |].
    rewrite (Hold (p_vaddr h + j)) by (done || lia). rewrite Hvj. apply u8_id, rd8_range.
  - destruct (Hw2 (j - p_filesz h) ltac:(lia)) as (p & Ht & Hvj). exists p.
    replace (p_vaddr h + j) with (p_vaddr h + p_filesz h + (j - p_filesz h)) by lia. by rewrite Hvj.
Qed.

Lemma filled_holds m :
  keeps f k (mem st1) m →
  (∀ j, 0 ≤ j < p_memsz h → ∃ p, translate (mem st1) space (p_vaddr h + j) = Some p ∧
     rd8 m p = if j <? p_filesz h then rd8 (mem st) (file_buf + (p_offset h + j)) else 0) →
  seg_holds (with_mem m st1) space h (λ o, rd8 (mem st) (file_buf + o)).
Proof.
  intros Hkm Hc j Hj. destruct (seg_bounds h size Hok) as (Hal & Hs1 & Hs2 & _).
  destruct (segment_flags_fields h) as [Hfl Hfp]. destruct (Hc j Hj) as (p & Ht & Hv). exists p.
  assert (Hin : seg_start h ≤ p_vaddr h + j < seg_start h + Z.of_nat k * 4096).
  { split; [lia |]. apply (Hdef _ p); [lia | done]. }
  destruct (frame_of _ _ _ _ _ _ _ M Hfl Hfp _ Hin) as (i & Hi & _ & Hpa & Hpte & Ht' & Hpg).
  assert (p = f i + (p_vaddr h + j) mod 4096) as -> by congruence. cbn [mem with_mem].
  destruct (mp_frame _ _ _ _ _ _ _ M i Hi) as (_ & _ & Hus & Hnt & _).
  rewrite (keeps_translate _ _ _ _ _ _ _ M), (keeps_pte _ _ _ _ _ _ _ M) by (done || lia).
  split; [done |]. split; [rewrite Hpte; destruct Hpa as (_ & _ & ?); mlia |]. rewrite Hpg.
  split; [| done]. split; [done |]. split; [done |]. cbn [mem with_mem].
  by rewrite (keeps_is_table _ _ _ _ _ _ _ M).
Qed.
End one_segment.

(** The frames that a segment takes at most: one for each page, and one for the
    table of every 4 MiB that it touches. *)
Definition seg_pages (h : elf32_phdr) : nat := Z.to_nat ((seg_end h - seg_start h) / 0x1000).
Definition seg_frames (h : elf32_phdr) : nat := seg_pages h + tables_of (seg_start h) (seg_pages h).

Lemma load_segment_run space file_buf ph size st :
  space_wf st space → cr3 st = space → safe_buffer st space file_buf size →
  file_buf ≤ ph ∧ ph + 32 ≤ file_buf + size → seg_ok (phdr_at (mem st) ph) size →
  ((load_segment space file_buf ph st = Panic ∨ ∃ st', load_segment space file_buf ph st = Ok (false, st')) ∧
   short_of (seg_frames (phdr_at (mem st) ph)) (pages st)) ∨
  ∃ st', load_segment space file_buf ph st = Ok (true, st') ∧
    (∃ j, (j ≤ seg_frames (phdr_at (mem st) ph))%nat ∧ pages st' = after j (pages st)) ∧
    load_step st st' space (seg_span (phdr_at (mem st) ph)) ∧
    seg_holds st' space (phdr_at (mem st) ph) (λ o, rd8 (mem st) (file_buf + o)).
Proof.
  intros Hwf Hcr Hbuf Hph Hok. unfold load_segment. set (h := phdr_at (mem st) ph) in *.
  destruct (seg_bounds h size Hok) as (Hal & Hs1 & Hs2 & Hend). pose proof Hok as (_ & _ & Hf & Hw & _).
  destruct (segment_flags_fields h) as [Hfl Hfp].
  change (Z.to_nat ((seg_end h - seg_start h) / 4096)) with (seg_pages h) in *. set (n := seg_pages h) in *.
  destruct (map_pages n space (seg_start h) (segment_flags h) st) as [ok st1] eqn:Em.
  pose proof (map_pages_run n _ _ _ _ _ _ Hwf Hal ltac:(lia) ltac:(lia) Hfl Em) as Hmap.
  assert (HF : ∀ b, (frames_for b (seg_start h) n ≤ seg_frames h)%nat)
    by (intros b; unfold frames_for, seg_frames; fold n; destruct b; lia).
  destruct ok; cbn [negb]; [| left; split; [right; by exists st1 | eapply short_of_mono; [apply HF | exact Hmap]]].
  destruct Hmap as (k & f & j & M & Hj & Epj & Hk).
  assert (Hkn : seg_start h + Z.of_nat k * 4096 ≤ seg_end h) by (destruct Hk as [-> | [<- _]]; lia).
  assert (Hcr1 : cr3 st1 = space) by (by rewrite (mp_cr3 _ _ _ _ _ _ _ M)).
  assert (Hdef : ∀ w p, seg_start h ≤ w < seg_end h → translate (mem st1) space w = Some p →
    w < seg_start h + Z.of_nat k * 4096).
  { intros w p Hw0 Ht. destruct Hk as [-> | (<- & _ & _ & Hun)]; [lia |].
    destruct (Z.lt_ge_cases w (seg_start h + Z.of_nat k * 4096)); [done |]. by rewrite Hun in Ht by lia. }
  destruct (fill_run space file_buf ph size st st1 k f) as [(E & w & Hw0 & Hn) | (m & E & Hkm & Hc)];
    try done; rewrite E; cbn [obind].
  - left. fold h in Hw0. split; [by left | destruct Hk as [-> | (<- & Hlt & Hnull & _)]].
    + destruct (frame_of _ _ _ _ _ _ _ M Hfl Hfp w) as (? & _ & _ & _ & _ & Ht & _); [lia | by rewrite Hn in Ht].
    + exists j. rewrite <- Epj. split; [specialize (HF (has (word (mem st) space (pd_idx (seg_start h))) 1)); lia | done].
  - right. exists (with_mem m st1). split; [done |]. split.
    { exists j. cbn [pages with_mem]. split; [specialize (HF (has (word (mem st) space (pd_idx (seg_start h))) 1)); lia | done]. }
    split; [by apply (mapped_step st st1 space h k f m size) |].
    by apply (filled_holds space file_buf ph size st st1 k f).
Qed.
End loading.

(** ** The loop over the program headers *)

Section segments.
Context {Pg : Type} `{PageAlloc Pg}.
Context (space file_buf size : Z) (st0 : machine Pg).

(** The program headers of the file, those it loads, and all their pages. *)
Definition header (i : Z) : elf32_phdr := phdr_at (mem st0) (phdr_addr (mem st0) file_buf i).
Definition loads (i : Z) : Prop := 0 ≤ i < eh_phnum (mem st0) file_buf ∧ p_type (header i) = PT_LOAD.
Definition spans (w : Z) : Prop := ∃ i, loads i ∧ seg_span (header i) w.

(** A file that can be loaded: the headers lie inside of it, the segments too,
    and no two segments share a page. *)
Record loadable : Prop := {
  ld_wf : space_wf st0 space;
  ld_cr3 : cr3 st0 = space;
  ld_buf : safe_buffer st0 space file_buf size;
  ld_hdr : 52 ≤ size;
  ld_phdr : ∀ i, 0 ≤ i < eh_phnum (mem st0) file_buf →
    file_buf ≤ phdr_addr (mem st0) file_buf i ∧ phdr_addr (mem st0) file_buf i + 32 ≤ file_buf + size;
  ld_seg : ∀ i, loads i → seg_ok (header i) size;
  ld_apart : ∀ i j w, loads i → loads j → seg_span (header i) w → seg_span (header j) w → i = j;
}.

Hypothesis L : loadable.

(** The bytes of the file that belong to segment [i] are in place. *)
Definition placed (st : machine Pg) (i : Z) : Prop :=
  seg_holds st space (header i) (λ o, rd8 (mem st0) (file_buf + o)).

Section reached.
Context (st : machine Pg).
Hypothesis HS : load_step st0 st space spans.

Lemma file_same x : file_buf ≤ x < file_buf + size → rd8 (mem st) x = rd8 (mem st0) x.
Proof. apply (safe_buffer_step st0 st space spans file_buf size HS), L. Qed.

Lemma phnum_same : eh_phnum (mem st) file_buf = eh_phnum (mem st0) file_buf.
Proof. pose proof (ld_hdr L). apply rd16_ext. intros x Hx. apply file_same. lia. Qed.

Lemma phdr_addr_same i : phdr_addr (mem st) file_buf i = phdr_addr (mem st0) file_buf i.
Proof.
  pose proof (ld_hdr L). unfold phdr_addr, eh_phoff, eh_phentsize.
  rewrite (rd32_ext (mem st) (mem st0)) by (intros x Hx; apply file_same; lia).
  by rewrite (rd16_ext (mem st) (mem st0)) by (intros x Hx; apply file_same; lia).
Qed.

Lemma header_same i : 0 ≤ i < eh_phnum (mem st0) file_buf →
  phdr_at (mem st) (phdr_addr (mem st) file_buf i) = header i.
Proof.
  intros Hi. rewrite phdr_addr_same. apply phdr_at_ext. intros x Hx. apply file_same.
  pose proof (ld_phdr L i Hi). lia.
Qed.

Lemma segment_step i :
  loads i →
  ((load_segment space file_buf (phdr_addr (mem st) file_buf i) st = Panic ∨
    ∃ st', load_segment space file_buf (phdr_addr (mem st) file_buf i) st = Ok (false, st')) ∧
   short_of (seg_frames (header i)) (pages st)) ∨
  ∃ st', load_segment space file_buf (phdr_addr (mem st) file_buf i) st = Ok (true, st') ∧
    (∃ j, (j ≤ seg_frames (header i))%nat ∧ pages st' = after j (pages st)) ∧
    load_step st0 st' space spans ∧ placed st' i ∧
    ∀ j, loads j → j ≠ i → placed st j → placed st' j.
Proof.
  intros Hi. pose proof (ld_seg L i Hi) as Hok. pose proof (header_same i (proj1 Hi)) as Eh.
  destruct (safe_buffer_step st0 st space spans file_buf size HS (ld_buf L)) as [Hbuf Hsame].
  destruct (load_segment_run space file_buf (phdr_addr (mem st) file_buf i) size st)
    as [[Hr Hex] | (st' & E & Htk & Hstep & Hh)].
  - apply (ls_wf _ _ _ _ HS).
  - rewrite (ls_cr3 _ _ _ _ HS). apply (ld_cr3 L).
  - done.
  - rewrite phdr_addr_same. apply (ld_phdr L i), Hi.
  - by rewrite Eh.
  - left. rewrite Eh in Hex. by split.
  - right. rewrite Eh in Hstep, Hh, Htk. exists st'. split; [done |]. split; [done |]. split; [| split].
    + apply (load_step_trans _ st); [done |]. apply (load_step_weaken _ _ _ (seg_span (header i))); [| done].
      intros w Hw. by exists i.
    + intros j Hj. destruct (Hh j Hj) as (p & H1 & H2 & H3 & H4). exists p. split_and!; [done.. |]. rewrite H4.
      destruct (Z.ltb_spec j (p_filesz (header i))); [| done]. apply Hsame. destruct Hok. lia.
    + intros j Hj Hne. apply (seg_holds_step st st' space (seg_span (header i)) _ _ size); [by apply (ld_seg L) | done |].
      intros w Hw Hw'. by destruct Hne; apply (ld_apart L j i w).
Qed.
End reached.

(** The frames for the program headers from number [i] on. *)
Definition frames_of (i : Z) : nat := if p_type (header i) =? PT_LOAD then seg_frames (header i) else 0%nat.
Definition frames_from (i : Z) : nat := list_sum (map frames_of (seqZ i (eh_phnum (mem st0) file_buf - i))).
Lemma frames_from_S i :
  i < eh_phnum (mem st0) file_buf →
  frames_from i = (frames_of i + frames_from (i + 1))%nat.
Proof.
  intros Hi. unfold frames_from. rewrite seqZ_cons by lia. cbn [map list_sum foldr]. do 4 f_equal; lia.
Qed.

Lemma load_segments_run n i info st :
  load_step st0 st space spans → 0 ≤ i → eh_phnum (mem st0) file_buf ≤ i + Z.of_nat n →
  (∀ j, loads j → j < i → placed st j) →
  ((load_segments n i space file_buf info st = Panic ∨
    ∃ info' st', load_segments n i space file_buf info st = Ok (false, info', st')) ∧
   short_of (frames_from i) (pages st)) ∨
  ∃ info' st', load_segments n i space file_buf info st = Ok (true, info', st') ∧
    (∃ j, (j ≤ frames_from i)%nat ∧ pages st' = after j (pages st)) ∧
    load_step st0 st' space spans ∧ ∀ j, loads j → placed st' j.
Proof.
  assert (Hdone : ∀ i st, load_step st0 st space spans → (∀ j, loads j → j < i → placed st j) →
    eh_phnum (mem st0) file_buf ≤ i →
    (∃ j, (j ≤ frames_from i)%nat ∧ pages st = after j (pages st)) ∧ load_step st0 st space spans ∧ ∀ j, loads j → placed st j).
  { intros i' st' HS Hp Hi'. split; [exists O; split; [lia | done] |]. split; [done |]. intros j Hj.
    apply Hp; [done | destruct Hj; lia]. }
  revert i info st. induction n as [|n IH]; intros i info st HS Hi Hn Hp; cbn [load_segments].
  { right. exists info, st. split; [done |]. apply Hdone; [done | done | lia]. }
  rewrite phnum_same by done. destruct (Z.ltb_spec i (eh_phnum (mem st0) file_buf)) as [Hlt | Hge].
  2: { right. exists info, st. split; [done |]. by apply Hdone. }
  rewrite header_same by (done || lia). rewrite (frames_from_S i Hlt). unfold frames_of.
  destruct (Z.eqb_spec (p_type (header i)) 1) as [Ht | Ht]; cbn [negb].
  - destruct (segment_step st HS i) as [[[E | [st' E]] Hex] | (st' & E & (j0 & Hj0 & Ej0) & HS' & Hpi & Hpj)];
      [split; [lia | done] | left | left | rewrite E; cbn [obind negb]].
    + rewrite E. split; [by left | eapply short_of_mono; [| done]; lia].
    + rewrite E. split; [right; by exists info, st' | eapply short_of_mono; [| done]; lia].
    + destruct (IH (i + 1) (note_segment (phdr_at (mem st') (phdr_addr (mem st) file_buf i)) info) st')
        as [[Hr Hs] | (info' & st2 & E2 & (j1 & Hj1 & Ej1) & Hrest)]; [done | lia | lia | | left | right].
      * intros j Hj Hlj. destruct (Z.eq_dec j i) as [-> | Hne]; [done |]. apply Hpj; [done | done |]. apply Hp; [done | lia].
      * split; [done |]. rewrite Ej0 in Hs. apply short_of_after in Hs. eapply short_of_mono; [| done]. lia.
      * exists info', st2. split; [done |]. split; [| done]. exists (j1 + j0)%nat. rewrite Ej1, Ej0, after_add. split; [lia | done].
  - apply IH; [done | lia | lia |]. intros j Hj Hlj. apply Hp; [done |].
    destruct (Z.eq_dec j i) as [-> | Hne]; [by destruct Hj | lia].
Qed.
End segments.


(** ** Witness *)

Import Pmm.

(** A program with one segment of ten bytes, three of them in the file, to be
    loaded at 0x800010; its file lies in the page 0x200000. *)
Definition tiny_elf : list Z :=
  [0x7F; 0x45; 0x4C; 0x46; 1; 1; 1; 0; 0; 0; 0; 0; 0; 0; 0; 0] ++
  [2; 0; 3; 0; 1; 0; 0; 0; 0x10; 0; 0x80; 0; 52; 0; 0; 0; 0; 0; 0; 0; 0; 0; 0; 0; 52; 0; 32; 0; 1; 0; 0; 0; 0; 0; 0; 0] ++
  [1; 0; 0; 0; 84; 0; 0; 0; 0x10; 0; 0x80; 0; 0; 0; 0; 0; 3; 0; 0; 0; 10; 0; 0; 0; 6; 0; 0; 0; 0; 0; 0; 0] ++
  [0xAA; 0xBB; 0xCC].

Definition elf_machine : machine Pmm.pmm :=
  with_mem (store_bytes (mem (one_table 7)) 0x200000 tiny_elf) (one_table 7).

Lemma elf_machine_same q : q = 4194304 ∨ q = 4198400 → same_page q (mem (one_table 7)) (mem elf_machine).
Proof. intros Hq x Hx. apply rd8_store_bytes_out. change (zlen tiny_elf) with 87. lia. Qed.

Lemma elf_machine_header :
  eh_phnum (mem elf_machine) 0x200000 = 1 ∧
  header 0x200000 elf_machine 0 = mkPhdr 1 84 0x800010 3 10 6.
Proof. split; vm_compute; reflexivity. Qed.

Lemma elf_machine_loadable : loadable 4194304 0x200000 87 elf_machine.
Proof.
  pose proof elf_machine_header as [Hn Hh]. constructor.
  - apply (space_wf_same (one_table 7) (mem elf_machine) 4194304); [apply elf_machine_same; by left |].
    exact (one_table_wf 7 ltac:(lia)).
  - reflexivity.
  - split; [lia |]. split; [lia |]. intros x Hx. rewrite (page_of_inside 0x200000 x) by (reflexivity || lia).
    split; [unfold page_addr; mlia |]. split; [vm_compute; intuition discriminate |].
    intros Ht. pose proof (elf_machine_same 4194304 (or_introl eq_refl)) as Hs.
    destruct (is_table_same _ _ _ 0x200000 Hs) as [Hto _]. specialize (Hto Ht). clear Ht Hs. rename Hto into Ht.
    destruct Ht as [? | (i & Hi & Hp & Hf)]; [done |]. destruct (Z.eq_dec i 0) as [-> | Hne].
    + by vm_compute in Hf.
    + unfold one_table in Hp. cbn [mem] in Hp. rewrite word_set_ne in Hp by (unfold page_addr; mlia). done.
  - lia.
  - intros i Hi. rewrite Hn in Hi. assert (i = 0) as -> by lia. vm_compute. intuition discriminate.
  - intros i [Hi _]. rewrite Hn in Hi. assert (i = 0) as -> by lia. rewrite Hh. unfold seg_ok. cbn. lia.
  - intros i j w [Hi _] [Hj _] _ _. lia.
Qed.

(** It needs two frames, and there are more. *)
Lemma elf_machine_frames : ¬ short_of (frames_from 0x200000 elf_machine 0) (pages elf_machine).
Proof.
  pose proof elf_machine_header as [Hn Hh]. unfold frames_from. rewrite Hn. change (seqZ 0 (1 - 0)) with [0]. cbn [map list_sum foldr]. unfold frames_of.
  rewrite Hh. change (seg_frames (mkPhdr 1 84 0x800010 3 10 6)) with 2%nat. cbn.
  intros (j & Hj & E). destruct j as [|[|j]]; [vm_compute in E; discriminate.. | lia].
Qed.

End Elf.
