(* ===== verification/Net.v ===== *)
(** * The network stack: [net/arp.cpp], [net/ip.cpp], [net/icmp.cpp] and
    [net/net.cpp]

    Frames are lists of bytes. The network card is the class [Nic]: the stack
    sends and polls through it. Two-byte fields are stored by the code as
    native little-endian words that hold the network byte order. *)

From S2P Require Import Prelude.

(** What the stack uses of [drivers/rtl8139.cpp] for device 0: whether it is
    there, its address, sending a frame (with the result of the call), and
    polling for a frame into a buffer of a given length. *)
Class Nic (N : Type) := {
  nic_present : N → bool;
  nic_mac : N → list Z;
  nic_send : list Z → N → Z * N;
  nic_poll : Z → N → option (list Z) * N;
}.

Module Net.

Notation ETH_HDR := 14 (only parsing).
Notation IP_HDR := 20 (only parsing).
Notation ARP_PKT := 28 (only parsing).
Notation IP_PROTO_ICMP := 1 (only parsing).

(** The bytes of a [uint16_t] in memory, and the word at an offset. *)
Definition le16 (v : Z) : list Z := [v mod 256; v / 256 mod 256].
Definition get16 (p : list Z) (i : Z) : Z := aget p i + 256 * aget p (i + 1).
(** The bytes [i, i + n) of a frame. *)
Definition slice (p : list Z) (i n : nat) : list Z := take n (drop i p).

Record arp_entry := mkArp { a_ip : list Z; a_mac : list Z; a_valid : bool }.
#[export] Instance arp_entry_zero : ZeroInit arp_entry := mkArp (replicate 4 0) (replicate 6 0) false.

(** The globals of the stack and the card. *)
Record net (N : Type) := mkNet {
  arp_cache : list arp_entry;
  our_mac : list Z;
  our_ip : list Z;
  ip_id : Z;
  nic : N;
}.
Arguments mkNet {N} _ _ _ _ _.
Arguments arp_cache {N} _.
Arguments our_mac {N} _.
Arguments our_ip {N} _.
Arguments ip_id {N} _.
Arguments nic {N} _.

(** ** Checksums *)

Definition htons (v : Z) : Z :=
  Z.lor (Z.land (Z.shiftl v 8) 0xFF00) (Z.land (Z.shiftr v 8) 0x00FF).

(** The loop over the words of the data, and the odd byte at the end. *)
Fixpoint sum_words (data : list Z) (sum : Z) : Z :=
  match data with
  | a :: b :: rest => sum_words rest (u32 (sum + (a + 256 * b)))
  | [a] => u32 (sum + a)
  | [] => sum
  end.

(** [while(sum >> 16) sum = (sum & 0xFFFF) + (sum >> 16);] For a 32-bit sum
    two rounds are enough. *)
Fixpoint fold_sum (fuel : nat) (sum : Z) : outcome Z :=
  match fuel with
  | O => NoFuel
  | S f => if Z.shiftr sum 16 =? 0 then Ok sum
           else fold_sum f (Z.land sum 0xFFFF + Z.shiftr sum 16)
  end.
Notation FOLD_FUEL := 3%nat (only parsing).

Definition net_checksum (data : list Z) : outcome Z :=
  let! sum := fold_sum FOLD_FUEL (sum_words data 0) in
  Ok (u16 (Z.lnot (u16 sum))).

Definition ip_checksum_ok (ip : list Z) : outcome bool :=
  let! sum := fold_sum FOLD_FUEL (sum_words (take 20 ip) 0) in
  Ok (u16 sum =? 0xFFFF).

(** ** ARP *)

Fixpoint cache_index (f : arp_entry → bool) (l : list arp_entry) (i : Z) : option Z :=
  match l with
  | [] => None
  | e :: l' => if f e then Some i else cache_index f l' (i + 1)
  end.
Definition entry_for (ip : list Z) (e : arp_entry) : bool :=
  a_valid e && bool_decide (a_ip e = ip).

Definition arp_cache_add (ip mac : list Z) (c : list arp_entry) : Z * list arp_entry :=
  match cache_index (entry_for ip) c 0 with
  | Some i => (0, aset c i (mkArp (a_ip (aget c i)) mac (a_valid (aget c i))))
  | None =>
      match cache_index (λ e, negb (a_valid e)) c 0 with
      | Some i => (0, aset c i (mkArp ip mac true))
      | None => (-1, c)
      end
  end.

(** [None] is the result -1. *)
Definition arp_cache_lookup (ip : list Z) (c : list arp_entry) : option (list Z) :=
  (λ i, a_mac (aget c i)) <$> cache_index (entry_for ip) c 0.

Section net.
Context {N : Type} `{!Nic N}.
Implicit Types t : net N.

Definition with_cache (c : list arp_entry) t : net N :=
  mkNet c (our_mac t) (our_ip t) (ip_id t) (nic t).
Definition with_nic (n : N) t : net N :=
  mkNet (arp_cache t) (our_mac t) (our_ip t) (ip_id t) n.
Definition with_ip_id (i : Z) t : net N :=
  mkNet (arp_cache t) (our_mac t) (our_ip t) i (nic t).

(** The 42 bytes that [arp_send_request] and [arp_handle_packet] build. *)
Definition arp_frame (dst : list Z) (oper : Z) (tha tpa : list Z) t : list Z :=
  dst ++ our_mac t ++ le16 0x0608 ++
  le16 0x0100 ++ le16 0x0008 ++ [6; 4] ++ le16 oper ++ our_mac t ++ our_ip t ++ tha ++ tpa.

Definition arp_send_request (ip : list Z) t : net N :=
  if negb (nic_present (nic t)) then t
  else with_nic (snd (nic_send (arp_frame (replicate 6 0xFF) 0x0100 (replicate 6 0) ip t) (nic t))) t.

Definition arp_resolve (ip : list Z) t : option (list Z) := arp_cache_lookup ip (arp_cache t).

(** [arp] is the packet after the Ethernet header. *)
Definition arp_handle_packet (arp : list Z) t : Z * net N :=
  let sha := slice arp 8 6 in
  let spa := slice arp 14 4 in
  let tpa := slice arp 24 4 in
  if negb (get16 arp 0 =? 0x0100) || negb (get16 arp 2 =? 0x0008) then (-1, t)
  else if get16 arp 6 =? 0x0100 then
    if bool_decide (tpa = our_ip t) then
      if negb (nic_present (nic t)) then (-1, t)
      else
        let t := with_nic (snd (nic_send (arp_frame sha 0x0200 sha spa t) (nic t))) t in
        (0, with_cache (snd (arp_cache_add spa sha (arp_cache t))) t)
    else (0, t)
  else if get16 arp 6 =? 0x0200 then
    (0, with_cache (snd (arp_cache_add spa sha (arp_cache t))) t)
  else (0, t).

(** ** IP *)

Definition ip_init t : net N :=
  if nic_present (nic t)
  then mkNet (arp_cache t) (take 6 (nic_mac (nic t))) (our_ip t) (ip_id t) (nic t) else t.

(** The header with the given checksum field. *)
Definition ip_header (len id proto ck : Z) (src dst : list Z) : list Z :=
  [0x45; 0] ++ le16 (htons (u16 (20 + len))) ++ le16 (htons id) ++ le16 0 ++
  [64; proto] ++ le16 ck ++ src ++ dst.

Definition ip_send (dst_ip : list Z) (proto : Z) (data : list Z) t : outcome (Z * net N) :=
  if negb (nic_present (nic t)) then Ok (-1, t)
  else
    match arp_resolve dst_ip t with
    | None => Ok (-2, arp_send_request dst_ip t)
    | Some mac =>
        let len := zlen data in
        if 1600 <? 14 + 20 + len then Ok (-1, t)
        else
          let hdr := ip_header len (ip_id t) proto in
          let! ck := net_checksum (hdr 0 (our_ip t) dst_ip) in
          let frame := mac ++ our_mac t ++ le16 (htons 0x0800) ++
                       hdr ck (our_ip t) dst_ip ++ data in
          let t := with_ip_id (u16 (ip_id t + 1)) t in
          let '(r, n) := nic_send frame (nic t) in
          Ok (r, with_nic n t)
    end.

(** ** ICMP *)

Definition icmp_send_echo (dst_ip : list Z) (id seqno : Z) t : outcome (Z * net N) :=
  let pkt ck := [8; 0] ++ le16 ck ++ le16 (htons id) ++ le16 (htons seqno) ++
                map Z.of_nat (seq 0 24) in
  let! ck := net_checksum (pkt 0) in
  ip_send dst_ip IP_PROTO_ICMP (pkt ck) t.

(** The reply: type 0 and a new checksum; the rest of the packet is kept. *)
Definition echo_reply (pkt : list Z) (ck : Z) : list Z :=
  [0; aget pkt 1] ++ le16 ck ++ drop 4 pkt.

(** The packet is answered in place: the result is the packet afterwards. *)
Definition icmp_handle_packet (ip pkt : list Z) t : outcome (list Z * net N) :=
  if aget pkt 0 =? 8 then
    let! ck := net_checksum (echo_reply pkt 0) in
    let! (_, t) := ip_send (slice ip 12 4) IP_PROTO_ICMP (echo_reply pkt ck) t in
    Ok (echo_reply pkt ck, t)
  else Ok (pkt, t).

(** ** Receiving *)

Definition net_init t : net N := ip_init t.

(** The body of the loop of [net_poll] for a frame of [len] bytes in [buf]. *)
Definition handle_frame (len : Z) (buf : list Z) t : outcome (list Z * net N) :=
  if get16 buf 12 =? 0x0608 then
    if ETH_HDR + ARP_PKT <=? len then Ok (buf, snd (arp_handle_packet (drop 14 buf) t)) else Ok (buf, t)
  else if get16 buf 12 =? 0x0008 then
    let ip := drop 14 buf in
    let ip_len := len - 14 in
    if negb (IP_HDR <=? ip_len) then Ok (buf, t)
    else
      let! ok := ip_checksum_ok ip in
      if negb ok then Ok (buf, t)
      else if aget ip 9 =? IP_PROTO_ICMP then
        let icmp_len := ip_len - 20 in
        if 4 <=? icmp_len then
          let! (pkt, t) := icmp_handle_packet ip (slice ip 20 (Z.to_nat icmp_len)) t in
          Ok (take 34 buf ++ pkt ++ drop (Z.to_nat len) buf, t)
        else Ok (buf, t)
      else Ok (buf, t)
  else Ok (buf, t).

(** A frame overwrites the start of the buffer; the rest keeps older bytes.
    [len] is not set again before the next poll: it holds the length of the
    frame that was received last. *)
Fixpoint poll_loop (fuel : nat) (len : Z) (buf : list Z) t : outcome (net N) :=
  match fuel with
  | O => NoFuel
  | S f =>
      let '(r, n) := nic_poll len (nic t) in
      let t := with_nic n t in
      match r with
      | None => Ok t
      | Some frame =>
          let buf := frame ++ drop (length frame) buf in
          let! (buf, t) := handle_frame (zlen frame) buf t in
          poll_loop f (zlen frame) buf t
      end
  end.

(** [buf] holds what the stack held before the call. *)
Definition net_poll (fuel : nat) (buf : list Z) t : outcome (net N) :=
  if negb (nic_present (nic t)) then Ok t else poll_loop fuel 1600 buf t.
End net.

(** ** Ones' complement sums *)

Notation bytes l := (Forall (λ b, 0 ≤ b < W8) l).

(** The sum of the words without the width of the accumulator. *)
Fixpoint word_sum (data : list Z) : Z :=
  match data with
  | a :: b :: rest => a + 256 * b + word_sum rest
  | [a] => a
  | [] => 0
  end.

(** Induction on byte lists two at a time. *)
Lemma pair_ind {A} (P : list A → Prop) :
  P [] → (∀ a, P [a]) → (∀ a b l, P l → P (a :: b :: l)) → ∀ l, P l.
Proof.
  intros H0 H1 H2. assert (H : ∀ l, P l ∧ ∀ a, P (a :: l)).
  { induction l as [|x l [IH1 IH2]]; split; auto. }
  intros l. apply H.
Qed.

Lemma word_sum_range l : bytes l → 0 ≤ word_sum l ≤ 65535 * (zlen l + 1) / 2.
Proof.
  induction l as [| a | a b l IH] using pair_ind; intros Hl; cbn [word_sum length].
  - mlia.
  - apply Forall_cons in Hl as [Ha _]. mlia.
  - apply Forall_cons in Hl as [Ha Hl]. apply Forall_cons in Hl as [Hb Hl]. specialize (IH Hl). mlia.
Qed.

Lemma sum_words_eq l s :
  bytes l → 0 ≤ s → s + word_sum l < W32 → sum_words l s = s + word_sum l.
Proof.
  revert s. induction l as [| a | a b l IH] using pair_ind; intros s Hl Hs Hlt; cbn [word_sum sum_words] in *.
  - lia.
  - apply Forall_cons in Hl as [Ha _]. apply u32_id. lia.
  - apply Forall_cons in Hl as [Ha Hl]. apply Forall_cons in Hl as [Hb Hl].
    pose proof (word_sum_range l Hl). rewrite u32_id by lia. rewrite IH by (done || lia). lia.
Qed.

Lemma word_sum_app l1 l2 : Nat.Even (length l1) → word_sum (l1 ++ l2) = word_sum l1 + word_sum l2.
Proof.
  induction l1 as [| a | a b l IH] using pair_ind; intros [k Hk]; cbn [word_sum app length] in *.
  - lia.
  - lia.
  - rewrite IH; [lia |]. exists (k - 1)%nat. lia.
Qed.

Lemma fold_mod x : (x mod 65536 + x / 65536) mod 65535 = x mod 65535.
Proof.
  rewrite <- (Z_mod_plus_full (x mod 65536 + x / 65536) (x / 65536) 65535). f_equal.
  pose proof (Z.div_mod x 65536 ltac:(lia)). lia.
Qed.

(** Folding keeps the sum modulo 65535 and ends with a 16-bit value that is
    zero only for zero. *)
Lemma fold_sum_spec s :
  0 ≤ s < W32 →
  ∃ r, fold_sum FOLD_FUEL s = Ok r ∧ 0 ≤ r < W16 ∧ r mod 65535 = s mod 65535 ∧ (r = 0 ↔ s = 0).
Proof.
  intros Hs.
  assert (Hstep : ∀ x, 0 ≤ x → Z.land x 0xFFFF + Z.shiftr x 16 = x mod 65536 + x / 65536).
  { intros x Hx. rewrite Z.shiftr_div_pow2 by lia. change 0xFFFF with (Z.ones 16). by rewrite Z.land_ones by lia. }
  assert (Hz : ∀ x, 0 ≤ x → (Z.shiftr x 16 =? 0) = (x <? 65536)).
  { intros x Hx. rewrite Z.shiftr_div_pow2 by lia. change (2 ^ 16) with 65536.
    destruct (Z.eqb_spec (x / 65536) 0), (Z.ltb_spec x 65536); mlia || done. }
  cbn [fold_sum]. rewrite Hz by lia. destruct (Z.ltb_spec s 65536) as [| H1]; [exists s; split_and!; done || lia |].
  rewrite Hstep by lia. set (s1 := s mod 65536 + s / 65536).
  assert (E1 : 0 < s1 < 131071 ∧ s1 mod 65535 = s mod 65535)
    by (unfold s1; split; [mlia | apply fold_mod]).
  clearbody s1. destruct E1 as [R1 M1]. rewrite Hz by lia.
  destruct (Z.ltb_spec s1 65536) as [| H2]; [exists s1; split_and!; done || lia |].
  rewrite Hstep by lia. set (s2 := s1 mod 65536 + s1 / 65536).
  assert (E2 : 0 < s2 < 65536 ∧ s2 mod 65535 = s1 mod 65535)
    by (unfold s2; split; [mlia | apply fold_mod]).
  clearbody s2. destruct E2 as [R2 M2]. rewrite Hz by lia. destruct (Z.ltb_spec s2 65536); [| lia].
  exists s2. split_and!; [done | lia | lia | congruence | lia].
Qed.

(** The checksum of data whose checksum field is zero makes the whole sum up
    to all ones. *)
Lemma checksum_completes l :
  bytes l → (length l ≤ 1600)%nat →
  ∃ ck, net_checksum l = Ok ck ∧ 0 ≤ ck < W16 ∧
    fold_sum FOLD_FUEL (word_sum l + ck) = Ok 0xFFFF.
Proof.
  intros Hl Hlen. pose proof (word_sum_range l Hl) as Hr.
  assert (Hb : word_sum l < 65535 * 801) by mlia.
  unfold net_checksum. rewrite sum_words_eq by (done || lia). rewrite Z.add_0_l.
  destruct (fold_sum_spec (word_sum l)) as (r & -> & Hr16 & Hm & Hz); [lia |]. cbn [obind].
  assert (Hck : u16 (Z.lnot (u16 r)) = 65535 - r) by (unfold u16, Z.lnot; mlia).
  rewrite Hck. exists (65535 - r). split_and!; [done | lia | lia |].
  destruct (fold_sum_spec (word_sum l + (65535 - r))) as (q & -> & Hq16 & Hqm & Hqz); [lia |].
  f_equal. assert (Hdiv : (word_sum l + (65535 - r)) mod 65535 = 0).
  { rewrite <- Zplus_mod_idemp_l, <- Hm, Zplus_mod_idemp_l. by replace (r + (65535 - r)) with 65535 by lia. }
  rewrite Hdiv in Hqm. assert (q ≠ 0) by lia. mlia.
Qed.

Lemma le16_bytes v : bytes (le16 v).
Proof. unfold le16. repeat constructor; mlia. Qed.

Lemma word_sum_le16 v : 0 ≤ v < W16 → word_sum (le16 v) = v.
Proof. intros Hv. unfold le16. cbn [word_sum]. mlia. Qed.

(** Replacing the checksum field of data by [ck] adds [ck] to its sum. *)
Lemma word_sum_field a b ck :
  Nat.Even (length a) → 0 ≤ ck < W16 → word_sum (a ++ le16 ck ++ b) = word_sum (a ++ le16 0 ++ b) + ck.
Proof.
  intros Ha Hck. rewrite !(word_sum_app a), !(word_sum_app (le16 _)) by (done || by exists 1%nat).
  rewrite !word_sum_le16 by lia. lia.
Qed.

(** ** IP headers *)

Notation ip_ok ip := (bytes ip ∧ length ip = 4%nat).

Lemma ip_header_split len id proto ck src dst :
  ip_header len id proto ck src dst =
  ([0x45; 0] ++ le16 (htons (u16 (20 + len))) ++ le16 (htons id) ++ le16 0 ++ [64; proto]) ++
  le16 ck ++ (src ++ dst).
Proof. reflexivity. Qed.

Lemma ip_header_checksum len id proto src dst :
  0 ≤ proto < W8 → ip_ok src → ip_ok dst →
  ∃ ck, net_checksum (ip_header len id proto 0 src dst) = Ok ck ∧
    length (ip_header len id proto ck src dst) = 20%nat ∧
    ∀ rest, ip_checksum_ok (ip_header len id proto ck src dst ++ rest) = Ok true.
Proof.
  intros Hp [Hs Hsl] [Hd Hdl].
  assert (Hb : ∀ ck, bytes (ip_header len id proto ck src dst)).
  { intros ck. unfold ip_header. repeat (apply Forall_app; split); try apply le16_bytes; try done;
      repeat constructor; lia. }
  assert (Hl : ∀ ck, length (ip_header len id proto ck src dst) = 20%nat).
  { intros ck. unfold ip_header. rewrite !length_app, Hsl, Hdl. done. }
  destruct (checksum_completes (ip_header len id proto 0 src dst)) as (ck & Eck & Hck & Hsum);
    [done | rewrite Hl; lia |].
  exists ck. split_and!; [done | done |]. intros rest. unfold ip_checksum_ok.
  rewrite take_app_le by (rewrite Hl; lia). rewrite take_ge by (rewrite Hl; lia).
  pose proof (word_sum_range _ (Hb ck)) as Hr. rewrite Hl in Hr.
  rewrite sum_words_eq by (done || lia || mlia). rewrite Z.add_0_l.
  replace (word_sum (ip_header len id proto ck src dst)) with (word_sum (ip_header len id proto 0 src dst) + ck).
  { by rewrite Hsum. }
  symmetry. rewrite !ip_header_split. apply word_sum_field; [by exists 5%nat | done].
Qed.

(** The reply to an echo request sums up to all ones. *)
Lemma echo_reply_checksum pkt :
  bytes pkt → (4 ≤ length pkt ≤ 1600)%nat →
  ∃ ck, net_checksum (echo_reply pkt 0) = Ok ck ∧ bytes (echo_reply pkt ck) ∧
    length (echo_reply pkt ck) = length pkt ∧
    fold_sum FOLD_FUEL (sum_words (echo_reply pkt ck) 0) = Ok 0xFFFF.
Proof.
  intros Hb Hl.
  assert (Hbytes : ∀ ck, bytes (echo_reply pkt ck)).
  { intros ck. unfold echo_reply. repeat (apply Forall_app; split); [| apply le16_bytes | by apply Forall_drop].
    constructor; [lia |]. constructor; [| done]. rewrite Forall_lookup in Hb.
    apply (Hb 1%nat), (lookup_aget pkt 1). lia. }
  assert (Hlen : ∀ ck, length (echo_reply pkt ck) = length pkt).
  { intros ck. unfold echo_reply. rewrite !length_app, length_drop. simpl. lia. }
  destruct (checksum_completes (echo_reply pkt 0)) as (ck & Eck & Hck & Hsum); [done | rewrite Hlen; lia |].
  exists ck. split_and!; [done | done | done |].
  pose proof (word_sum_range _ (Hbytes ck)) as Hr. rewrite Hlen in Hr.
  rewrite sum_words_eq by (done || mlia). rewrite Z.add_0_l. unfold echo_reply.
  rewrite word_sum_field by (done || by exists 1%nat). exact Hsum.
Qed.

(** ** The ARP cache as a map *)

Lemma cache_index_spec f l i :
  match cache_index f l i with
  | Some j => i ≤ j < i + zlen l ∧ f (aget l (j - i)) = true ∧ ∀ k, 0 ≤ k < j - i → f (aget l k) = false
  | None => ∀ k, 0 ≤ k < zlen l → f (aget l k) = false
  end.
Proof.
  revert i. induction l as [|e l IH]; intros i; cbn [cache_index length]; [lia |].
  assert (Hs : ∀ k, 0 < k → aget (e :: l) k = aget l (k - 1)).
  { intros k Hk. unfold aget. destruct (Z.ltb_spec k 0), (Z.ltb_spec (k - 1) 0); try lia.
    by replace (Z.to_nat k) with (S (Z.to_nat (k - 1))) by lia. }
  assert (H0 : aget (e :: l) 0 = e) by done.
  destruct (f e) eqn:Hf.
  - rewrite Z.sub_diag, H0. split_and!; [lia | lia | done | lia].
  - specialize (IH (i + 1)). destruct (cache_index f l (i + 1)) as [j|].
    + destruct IH as (Hj & Hfj & Hall). split_and!; [lia | lia | |].
      * rewrite Hs by lia. by replace (j - i - 1) with (j - (i + 1)) by lia.
      * intros k Hk. destruct (Z.eq_dec k 0) as [-> |]; [by rewrite H0 |]. rewrite Hs by lia. apply Hall. lia.
    + intros k Hk. destruct (Z.eq_dec k 0) as [-> |]; [by rewrite H0 |]. rewrite Hs by lia. apply IH. lia.
Qed.

(** The first index that satisfies [f] is determined by its properties. *)
Lemma cache_index_eq f l j :
  0 ≤ j < zlen l → f (aget l j) = true → (∀ k, 0 ≤ k < j → f (aget l k) = false) →
  cache_index f l 0 = Some j.
Proof.
  intros Hj Hf Hall. pose proof (cache_index_spec f l 0) as Hs. destruct (cache_index f l 0) as [i|].
  - destruct Hs as (Hi & Hfi & Hmin). rewrite Z.sub_0_r in *. f_equal.
    destruct (Z_lt_ge_dec i j); [by rewrite Hall in Hfi by lia |].
    destruct (Z_lt_ge_dec j i); [by rewrite Hmin in Hf by lia | lia].
  - by rewrite Hs in Hf by lia.
Qed.

Lemma cache_index_ext f l l' i :
  length l = length l' → (∀ k, 0 ≤ k < zlen l → f (aget l' k) = f (aget l k)) →
  cache_index f l' i = cache_index f l i.
Proof.
  revert l' i. induction l as [|e l IH]; intros [|e' l'] i Hl Hf; try done. cbn [cache_index].
  pose proof (Hf 0 ltac:(simpl; lia)) as H0. change (f e' = f e) in H0. rewrite H0.
  destruct (f e); [done |]. apply IH; [simpl in Hl; lia |]. intros k Hk.
  assert (Hs : ∀ (x : arp_entry) (m : list arp_entry), aget (x :: m) (k + 1) = aget m k).
  { intros x m. unfold aget. destruct (Z.ltb_spec (k + 1) 0), (Z.ltb_spec k 0); try lia.
    by replace (Z.to_nat (k + 1)) with (S (Z.to_nat k)) by lia. }
  rewrite <- (Hs e'), <- (Hs e). apply Hf. simpl. lia.
Qed.

(** ** Properties *)

(** The ARP cache is a map of bounded size: adding an address makes
    exactly that address resolve to the new hardware address, replacing an
    older entry, and fails only when the address is unknown and every slot is
    taken. *)
Theorem arp_cache_add_lookup ip mac c r c' :
  arp_cache_add ip mac c = (r, c') →
  length c' = length c ∧
  (r = 0 ∧ arp_cache_lookup ip c' = Some mac ∧
   (∀ ip', ip' ≠ ip → arp_cache_lookup ip' c' = arp_cache_lookup ip' c) ∨
   r = -1 ∧ c' = c ∧ arp_cache_lookup ip c = None ∧ (∀ k, 0 ≤ k < zlen c → a_valid (aget c k) = true)).
Proof.
  unfold arp_cache_add. pose proof (cache_index_spec (entry_for ip) c 0) as Hs.
  assert (Hupd : ∀ i e, 0 ≤ i < zlen c → entry_for ip e = true → a_mac e = mac →
    (∀ k, 0 ≤ k < i → entry_for ip (aget c k) = false) →
    (∀ ip', ip' ≠ ip → entry_for ip' (aget c i) = false) →
    arp_cache_lookup ip (aset c i e) = Some mac ∧
    ∀ ip', ip' ≠ ip → arp_cache_lookup ip' (aset c i e) = arp_cache_lookup ip' c).
  { intros i e Hi He Hm Hlow Hoth. unfold arp_cache_lookup. split.
    - rewrite (cache_index_eq _ _ i); [simpl; by rewrite aget_aset_eq, Hm | by rewrite aset_length | by rewrite aget_aset_eq |].
      intros k Hk. rewrite aget_aset_ne by lia. by apply Hlow.
    - intros ip' Hne.
      assert (He' : entry_for ip' e = false).
      { unfold entry_for in *. apply andb_prop in He as [_ He]. apply bool_decide_eq_true in He.
        rewrite bool_decide_false by congruence. apply andb_false_r. }
      assert (Hsame : ∀ k, 0 ≤ k < zlen c → entry_for ip' (aget (aset c i e) k) = entry_for ip' (aget c k)).
      { intros k Hk. destruct (Z.eq_dec k i) as [-> |]; [| by rewrite aget_aset_ne by lia].
        rewrite aget_aset_eq by done. by rewrite He', Hoth. }
      rewrite (cache_index_ext (entry_for ip') c (aset c i e) 0 (eq_sym (aset_length c i e)) Hsame).
      pose proof (cache_index_spec (entry_for ip') c 0) as Hx. destruct (cache_index (entry_for ip') c 0) as [j|]; [| done].
      destruct Hx as (Hj & Hfj & _). rewrite Z.sub_0_r in Hfj. simpl. rewrite aget_aset_ne; [done |].
      intros <-. by rewrite Hoth in Hfj. }
  destruct (cache_index (entry_for ip) c 0) as [i|] eqn:Ei.
  - intros [= <- <-]. destruct Hs as (Hi & Hfi & Hmin). rewrite Z.sub_0_r in *.
    split; [apply aset_length |]. left. split; [done |]. pose proof Hfi as [Hv Hip]%andb_prop.
    apply bool_decide_eq_true in Hip. apply Hupd; [lia | by unfold entry_for; simpl; rewrite Hv, bool_decide_true | done | done |].
    intros ip' Hne. unfold entry_for. rewrite bool_decide_false by congruence. apply andb_false_r.
  - pose proof (cache_index_spec (λ e, negb (a_valid e)) c 0) as Hv.
    destruct (cache_index (λ e, negb (a_valid e)) c 0) as [i|]; intros [= <- <-].
    + destruct Hv as (Hi & Hfi & _). rewrite Z.sub_0_r in *. zbool.
      split; [apply aset_length |]. left. split; [done |].
      apply Hupd; [lia | by unfold entry_for; simpl; rewrite bool_decide_true | done | intros k Hk; apply Hs; lia |].
      intros ip' _. unfold entry_for. by rewrite Hfi.
    + split; [done | right]. split_and!; [done | done | unfold arp_cache_lookup; by rewrite Ei |].
      intros k Hk. specialize (Hv k Hk). by zbool.
Qed.

Section theorems.
Context {N : Type} `{!Nic N}.
Implicit Types t : net N.

(** Addresses have their lengths and consist of bytes. *)
Record net_wf t : Prop := {
  nw_mac : bytes (our_mac t) ∧ length (our_mac t) = 6%nat;
  nw_ip : ip_ok (our_ip t);
  nw_cache : ∀ ip mac, arp_cache_lookup ip (arp_cache t) = Some mac → bytes mac ∧ length mac = 6%nat;
}.

(** What [ip_send] puts on the wire when the destination is known. *)
Lemma ip_send_frame dst proto data t mac :
  net_wf t → nic_present (nic t) = true → arp_resolve dst t = Some mac →
  ip_ok dst → 0 ≤ proto < W8 → zlen data ≤ 1566 →
  ∃ ck, let frame := mac ++ our_mac t ++ [8; 0] ++ ip_header (zlen data) (ip_id t) proto ck (our_ip t) dst ++ data in
    ip_send dst proto data t =
      Ok (fst (nic_send frame (nic t)), with_nic (snd (nic_send frame (nic t))) (with_ip_id (u16 (ip_id t + 1)) t)) ∧
    ip_checksum_ok (drop 14 frame) = Ok true ∧ drop 34 frame = data ∧ length frame = (34 + length data)%nat.
Proof.
  intros Hwf Hnic Hres Hdst Hp Hlen. pose proof (nw_mac t Hwf) as [_ Hml].
  destruct (nw_cache t Hwf dst mac Hres) as [_ Hmacl].
  destruct (ip_header_checksum (zlen data) (ip_id t) proto (our_ip t) dst Hp (nw_ip t Hwf) Hdst) as (ck & Eck & Hl & Hok).
  exists ck. cbv zeta. unfold ip_send. rewrite Hnic, Hres. cbn [negb].
  destruct (Z.ltb_spec 1600 (14 + 20 + zlen data)); [lia |]. rewrite Eck. cbn [obind].
  change (le16 (htons 0x0800)) with [8; 0].
  set (frame := mac ++ our_mac t ++ [8; 0] ++ ip_header (zlen data) (ip_id t) proto ck (our_ip t) dst ++ data).
  assert (Edrop : drop 14 frame = ip_header (zlen data) (ip_id t) proto ck (our_ip t) dst ++ data).
  { unfold frame. rewrite !app_assoc. rewrite <- (app_assoc _ _ data). apply drop_app_length'.
    rewrite !length_app, Hml, Hmacl. done. }
  split_and!.
  - cbn [nic with_ip_id]. by destruct (nic_send frame (nic t)).
  - rewrite Edrop. apply Hok.
  - transitivity (drop 20 (drop 14 frame)); [by rewrite drop_drop |]. rewrite Edrop. by apply drop_app_length'.
  - unfold frame. rewrite !length_app, Hml, Hmacl, Hl. simpl. lia.
Qed.

(** [ip_send] to a resolved address hands the card one frame with the
    hardware addresses, the IP type, a header whose checksum the receiving side
    ([ip_checksum_ok]) accepts, and the data unchanged; to an address that is
    not resolved it sends an ARP request for it and reports -2. *)
Theorem ip_send_spec dst proto data t :
  net_wf t → nic_present (nic t) = true → ip_ok dst → 0 ≤ proto < W8 → zlen data ≤ 1566 →
  match arp_resolve dst t with
  | Some mac =>
      ∃ frame, ip_send dst proto data t =
          Ok (fst (nic_send frame (nic t)), with_nic (snd (nic_send frame (nic t))) (with_ip_id (u16 (ip_id t + 1)) t)) ∧
        take 6 frame = mac ∧ get16 frame 12 = 0x0008 ∧ ip_checksum_ok (drop 14 frame) = Ok true ∧
        aget frame 23 = proto ∧ drop 34 frame = data
  | None =>
      ∃ frame, ip_send dst proto data t = Ok (-2, with_nic (snd (nic_send frame (nic t))) t) ∧
        take 6 frame = replicate 6 0xFF ∧ get16 frame 12 = 0x0608 ∧ drop 38 frame = dst
  end.
Proof.
  intros Hwf Hnic Hdst Hp Hlen. pose proof (nw_mac t Hwf) as [_ Hml]. pose proof (nw_ip t Hwf) as [_ Hil].
  destruct (arp_resolve dst t) as [mac|] eqn:Hres.
  - destruct (ip_send_frame dst proto data t mac Hwf Hnic Hres Hdst Hp Hlen) as (ck & E & Hok & Hd & _).
    destruct (nw_cache t Hwf dst mac Hres) as [_ Hmacl]. eexists. split; [exact E |].
    split_and!; [by apply take_app_length' | | exact Hok | | exact Hd].
    + destruct (our_mac t) as [|m0 [|m1 [|m2 [|m3 [|m4 [|m5 [|]]]]]]]; try done.
      by destruct mac as [|x0 [|x1 [|x2 [|x3 [|x4 [|x5 [|]]]]]]].
    + destruct (our_mac t) as [|m0 [|m1 [|m2 [|m3 [|m4 [|m5 [|]]]]]]]; try done.
      by destruct mac as [|x0 [|x1 [|x2 [|x3 [|x4 [|x5 [|]]]]]]].
  - unfold ip_send, arp_send_request. rewrite Hnic, Hres. cbn [negb].
    eexists. split; [reflexivity |]. unfold arp_frame. destruct Hdst as [_ Hdl].
    destruct (our_mac t) as [|m0 [|m1 [|m2 [|m3 [|m4 [|m5 [|]]]]]]]; try done.
    destruct (our_ip t) as [|i0 [|i1 [|i2 [|i3 [|]]]]]; done.
Qed.
(** C16: a received echo request from a sender whose hardware address is
    known is answered: the card gets one IP frame to the sender, with a valid
    header checksum, whose ICMP packet is the request with type 0, the code,
    identifier, sequence number and data unchanged, and a checksum that makes
    the packet sum up to all ones. *)
Theorem echo_request_answered len buf t mac :
  net_wf t → nic_present (nic t) = true → bytes buf → 38 ≤ len ≤ zlen buf → len ≤ 1600 →
  get16 buf 12 = 0x0008 → ip_checksum_ok (drop 14 buf) = Ok true → aget buf 23 = IP_PROTO_ICMP →
  aget buf 34 = 8 → arp_resolve (slice buf 26 4) t = Some mac →
  ∃ frame buf', handle_frame len buf t =
      Ok (buf', with_nic (snd (nic_send frame (nic t))) (with_ip_id (u16 (ip_id t + 1)) t)) ∧
    take 6 frame = mac ∧ ip_checksum_ok (drop 14 frame) = Ok true ∧
    slice frame 30 4 = slice buf 26 4 ∧
    take 2 (drop 34 frame) = [0; aget buf 35] ∧ drop 38 frame = slice buf 38 (Z.to_nat len - 38) ∧
    fold_sum FOLD_FUEL (sum_words (drop 34 frame) 0) = Ok 0xFFFF.
Proof.
  intros Hwf Hnic Hb Hlen Hmax Hty Hck Hproto Htype Hres.
  set (pkt := slice (drop 14 buf) 20 (Z.to_nat (len - 14 - 20))).
  assert (Epkt : pkt = take (Z.to_nat len - 34) (drop 34 buf)).
  { unfold pkt, slice. rewrite drop_drop. f_equal; lia. }
  assert (Hpb : bytes pkt) by (rewrite Epkt; by apply Forall_take, Forall_drop).
  assert (Hpl : length pkt = (Z.to_nat len - 34)%nat).
  { rewrite Epkt, length_take, length_drop. lia. }
  assert (Hat : ∀ k, 0 ≤ k < 4 → aget pkt k = aget buf (34 + k)).
  { intros k Hk. unfold aget. rewrite Epkt. destruct (Z.ltb_spec k 0), (Z.ltb_spec (34 + k) 0); try lia.
    rewrite lookup_take_lt by lia. rewrite lookup_drop. do 2 f_equal. lia. }
  destruct (echo_reply_checksum pkt Hpb) as (ck & Eck & Hrb & Hrl & Hsum); [lia |].
  assert (Hip : ip_ok (slice buf 26 4)).
  { unfold slice. split; [by apply Forall_take, Forall_drop |]. rewrite length_take, length_drop. lia. }
  destruct (ip_send_frame (slice buf 26 4) IP_PROTO_ICMP (echo_reply pkt ck) t mac Hwf Hnic Hres Hip) as
    (ick & E & Hok & Hd & Hfl); [lia | lia |].
  destruct (nw_cache t Hwf _ mac Hres) as [_ Hml]. destruct (nw_mac t Hwf) as [_ Hol]. destruct (nw_ip t Hwf) as [_ Hil].
  set (frame := mac ++ _) in *.
  assert (Hdst : slice frame 30 4 = slice buf 26 4).
  { destruct Hip as [_ Hdl]. unfold frame, ip_header. clear -Hml Hol Hil Hdl. set (d := slice buf 26 4) in *.
    unfold slice. destruct (our_mac t) as [|? [|? [|? [|? [|? [|? [|]]]]]]]; try done.
    destruct mac as [|? [|? [|? [|? [|? [|? [|]]]]]]]; try done.
    destruct (our_ip t) as [|? [|? [|? [|? [|]]]]]; try done.
    change (take 4 (d ++ echo_reply pkt ck) = d). by apply take_app_length'. }
  assert (Hmac : take 6 frame = mac) by (by apply take_app_length').
  clearbody frame.
  assert (E38 : drop 38 frame = drop 4 (drop 34 frame)) by (by rewrite drop_drop).
  assert (E4 : drop 4 pkt = slice buf 38 (Z.to_nat len - 38)).
  { rewrite Epkt. unfold slice. rewrite skipn_firstn_comm, drop_drop. f_equal; lia. }
  assert (E9 : aget (drop 14 buf) 9 = IP_PROTO_ICMP).
  { rewrite <- Hproto. unfold aget. cbn [Z.ltb Z.compare]. by rewrite lookup_drop. }
  exists frame, (take 34 buf ++ echo_reply pkt ck ++ drop (Z.to_nat len) buf).
  split_and!; [| exact Hmac | exact Hok | exact Hdst | rewrite Hd | rewrite E38, Hd; exact E4 | by rewrite Hd].
  - unfold handle_frame, icmp_handle_packet. rewrite Hty. cbn [Z.eqb Pos.eqb].
    destruct (Z.leb_spec 20 (len - 14)); [| lia]. cbn [negb]. rewrite Hck. cbn [obind negb]. rewrite E9.
    destruct (Z.leb_spec 4 (len - 14 - 20)); [| lia]. cbn [Z.eqb Pos.eqb]. fold pkt.
    rewrite (Hat 0 ltac:(lia)). change (34 + 0) with 34. rewrite Htype. cbn [Z.eqb Pos.eqb]. rewrite Eck. cbn [obind].
    replace (slice (drop 14 buf) 12 4) with (slice buf 26 4) by (unfold slice; by rewrite drop_drop).
    by rewrite E.
  - unfold echo_reply. by rewrite (Hat 1) by lia.
Qed.
End theorems.

(** ** A card for concrete runs: the frames sent and the frames to come *)

Record wire := mkWire { wire_mac : list Z; wire_sent : list (list Z); wire_in : list (list Z) }.
#[export] Instance wire_nic : Nic wire := {
  nic_present _ := true;
  nic_mac := wire_mac;
  nic_send f w := (0, mkWire (wire_mac w) (wire_sent w ++ [f]) (wire_in w));
  nic_poll len w :=
    match wire_in w with
    | [] => (None, w)
    | f :: fs => (Some (take (Z.to_nat len) f), mkWire (wire_mac w) (wire_sent w) fs)
    end;
}.
Notation mac1 := [82; 84; 0; 18; 52; 86] (only parsing).
Notation mac2 := [82; 85; 10; 0; 2; 2] (only parsing).
Notation ip1 := [10; 0; 2; 15] (only parsing).
Notation ip2 := [10; 0; 2; 2] (only parsing).

(** A stack with an address after [net_init] that knows one peer. *)
Definition demo_net (mac ip mac' ip' : list Z) : net wire :=
  let t := net_init (mkNet (replicate 8 zeroed) (replicate 6 0) ip 0 (mkWire mac [] [])) in
  with_cache (snd (arp_cache_add ip' mac' (arp_cache t))) t.

Lemma demo_net_wf : net_wf (demo_net mac1 ip1 mac2 ip2).
Proof.
  constructor; [vm_compute; split; [repeat constructor; intros [=] | done] .. |].
  intros ip mac. change (arp_cache _) with (mkArp ip2 mac2 true :: replicate 7 zeroed).
  unfold arp_cache_lookup. cbn [cache_index]. unfold entry_for at 1. cbn [a_valid a_ip andb].
  destruct (bool_decide_reflect (ip2 = ip)) as [Hip|]; [| intros [=]].
  intros [= <-]. split; [repeat constructor; intros [=] | done].
Qed.

Lemma arp_cache_add_lookup_witness :
  arp_cache_lookup ip2 (snd (arp_cache_add ip2 mac2 (replicate 8 zeroed))) = Some mac2.
Proof.
  destruct (arp_cache_add_lookup ip2 mac2 (replicate 8 zeroed) _ _ (surjective_pairing _)) as
    [_ [(_ & H & _) | (H & _)]]; [exact H | exfalso; revert H; vm_compute; congruence].
Defined.

Lemma ip_send_spec_witness :
  ∃ frame, ip_send ip2 IP_PROTO_ICMP [1; 2; 3] (demo_net mac1 ip1 mac2 ip2) =
      Ok (0, with_nic (mkWire mac1 [frame] []) (with_ip_id 1 (demo_net mac1 ip1 mac2 ip2))) ∧
    ip_checksum_ok (drop 14 frame) = Ok true.
Proof.
  destruct (ip_send_spec ip2 IP_PROTO_ICMP [1; 2; 3] (demo_net mac1 ip1 mac2 ip2)) as (frame & E & _ & _ & Hok & _);
    [exact demo_net_wf | reflexivity | split; [repeat constructor; intros [=] | done] | lia | simpl; lia |].
  exists frame. split; [exact E | exact Hok].
Defined.

(** The frame that a peer's [icmp_send_echo] puts on the wire. *)
Definition demo_request : list Z :=
  match icmp_send_echo ip1 7 1 (demo_net mac2 ip2 mac1 ip1) with
  | Ok (_, t) => match wire_sent (nic t) with f :: _ => f | [] => [] end
  | _ => []
  end.

Lemma echo_request_answered_witness :
  ∃ frame buf', handle_frame 66 demo_request (demo_net mac1 ip1 mac2 ip2) =
      Ok (buf', with_nic (mkWire mac1 [frame] []) (with_ip_id 1 (demo_net mac1 ip1 mac2 ip2))) ∧
    take 6 frame = mac2 ∧ ip_checksum_ok (drop 14 frame) = Ok true ∧ slice frame 30 4 = ip2 ∧
    drop 38 frame = drop 38 demo_request.
Proof.
  destruct (echo_request_answered 66 demo_request (demo_net mac1 ip1 mac2 ip2) mac2) as
    (frame & buf' & E & Hm & Hok & Hd & _ & Hdata & _);
    [exact demo_net_wf | vm_compute .. |].
  all: try (reflexivity || (repeat constructor; intros [=]) || (split; intros [=]) || (intros [=])).
  exists frame, buf'. split_and!; [exact E | exact Hm | exact Hok | exact Hd |].
  rewrite Hdata. vm_compute. reflexivity.
Defined.
End Net.
