(* ===== verification/Packets.v ===== *)
(** * The packets on the wire: the packed structs of [net/net.hpp]

    A packed struct is a [codec]: its size, its fields in order without
    padding, and the values its fields can hold. Codecs are put together from
    bytes, little-endian words and arrays; their laws are instances, so the
    five structs are lawful by resolution. The network stack of [Net] reads
    and writes frames at byte offsets; here the same handlers are written
    on the fields of the structs, as in the source, and the two are shown to
    agree. *)

From S2P Require Import Prelude Net.

Module Packets.
Import Net.

(** ** Codecs *)

Record codec (A : Type) := mkCodec {
  sizeof : nat;
  put : A → list Z;
  get : list Z → A;
  fits : A → Prop;
}.
Arguments mkCodec {A} _ _ _ _.
Arguments sizeof {A} _.
Arguments put {A} _ _.
Arguments get {A} _ _.
Arguments fits {A} _ _.

(** Values are stored in [sizeof] bytes and read back, whatever follows them; and
    every [sizeof] bytes are the image of the value that is read from them. *)
Class Lawful {A} (c : codec A) : Prop := {
  put_length x : fits c x → length (put c x) = sizeof c;
  put_bytes x : fits c x → bytes (put c x);
  get_put x rest : fits c x → get c (put c x ++ rest) = x;
  get_fits l : bytes l → (sizeof c ≤ length l)%nat → fits c (get c l);
  put_get l : bytes l → (sizeof c ≤ length l)%nat → put c (get c l) = take (sizeof c) l;
}.

Definition uint8 : codec Z := mkCodec 1 (λ v, [v]) (λ l, aget l 0) (λ v, 0 ≤ v < W8).
Definition uint16 : codec Z := mkCodec 2 le16 (λ l, get16 l 0) (λ v, 0 ≤ v < W16).
Definition array (n : nat) : codec (list Z) := mkCodec n id (take n) (λ l, bytes l ∧ length l = n).
Definition both {A B} (a : codec A) (b : codec B) : codec (A * B) :=
  mkCodec (sizeof a + sizeof b) (λ x, put a x.1 ++ put b x.2) (λ l, (get a l, get b (drop (sizeof a) l)))
    (λ x, fits a x.1 ∧ fits b x.2).
(** A struct with the fields of [c]. *)
Definition struct {A B} (make : A → B) (fields : B → A) (c : codec A) : codec B :=
  mkCodec (sizeof c) (λ x, put c (fields x)) (λ l, make (get c l)) (λ x, fits c (fields x)).
Infix "⊗" := both (at level 60, right associativity).

#[export] Instance uint8_lawful : Lawful uint8.
Proof.
  constructor; cbn [uint8 put get fits sizeof]; try done.
  - intros x Hx. by apply Forall_singleton.
  - intros l Hl Hlen. destruct l as [|a l]; [simpl in Hlen; lia |]. by apply Forall_cons in Hl as [? _].
  - intros l _ Hlen. by destruct l as [|a l]; [simpl in Hlen; lia |].
Qed.

#[export] Instance uint16_lawful : Lawful uint16.
Proof.
  assert (Hget : ∀ a b l, get16 (a :: b :: l) 0 = a + 256 * b) by done.
  constructor; cbn [uint16 put get fits sizeof]; try done.
  - intros x _. apply le16_bytes.
  - intros x rest Hx. unfold le16. cbn [app]. rewrite Hget. mlia.
  - intros l Hl Hlen. destruct l as [|a [|b l]]; [simpl in Hlen; lia.. |].
    apply Forall_cons in Hl as [Ha Hl]. apply Forall_cons in Hl as [Hb _]. rewrite Hget. lia.
  - intros l Hl Hlen. destruct l as [|a [|b l]]; [simpl in Hlen; lia.. |].
    apply Forall_cons in Hl as [Ha Hl]. apply Forall_cons in Hl as [Hb _]. rewrite Hget. unfold le16.
    cbn [firstn]. f_equal; [mlia |]. f_equal. mlia.
Qed.

#[export] Instance array_lawful n : Lawful (array n).
Proof.
  constructor; cbn [array put get fits sizeof id]; try done.
  - by intros x [_ ?].
  - by intros x [? _].
  - intros x rest [_ Hx]. by rewrite take_app_length'.
  - intros l Hl Hlen. split; [by apply Forall_take | rewrite length_take; lia].
Qed.

#[export] Instance both_lawful {A B} (a : codec A) (b : codec B) : Lawful a → Lawful b → Lawful (a ⊗ b).
Proof.
  intros La Lb. constructor; cbn [both put get fits sizeof].
  - intros [x y] [Hx Hy]. rewrite length_app. by f_equal; apply put_length.
  - intros [x y] [Hx Hy]. apply Forall_app. split; by apply put_bytes.
  - intros [x y] rest [Hx Hy]. cbn [fst snd] in *. rewrite <- app_assoc, get_put by done.
    by rewrite drop_app_length', get_put by (done || by rewrite put_length).
  - intros l Hl Hlen. split; apply get_fits; rewrite ?length_drop; try lia; [done | by apply Forall_drop].
  - intros l Hl Hlen. cbn [fst snd]. rewrite !put_get by (rewrite ?length_drop; (lia || (try apply Forall_drop; done))).
    apply take_take_drop.
Qed.

Lemma struct_lawful {A B} (make : A → B) (fields : B → A) (c : codec A) :
  (∀ x, make (fields x) = x) → (∀ y, fields (make y) = y) → Lawful c → Lawful (struct make fields c).
Proof.
  intros H1 H2 L. constructor; cbn [struct put get fits sizeof].
  - intros x. apply put_length.
  - intros x. apply put_bytes.
  - intros x rest Hx. by rewrite get_put.
  - intros l. rewrite H2. apply get_fits.
  - intros l. rewrite H2. apply put_get.
Qed.

(** ** The structs *)

Record eth_hdr := mkEth { eth_dst : list Z; eth_src : list Z; eth_type : Z }.
Record arp_pkt := mkArpPkt {
  htype : Z; ptype : Z; hlen : Z; plen : Z; oper : Z; sha : list Z; spa : list Z; tha : list Z; tpa : list Z;
}.
Record ip_hdr := mkIp {
  ver_ihl : Z; tos : Z; total_len : Z; ident : Z; flags_frag : Z; ttl : Z; proto : Z; ip_checksum : Z;
  src_ip : list Z; dst_ip : list Z;
}.
(** Without [data[]], which adds nothing to the size. *)
Record icmp_pkt := mkIcmp { icmp_type : Z; code : Z; icmp_checksum : Z; icmp_id : Z; icmp_seq : Z }.
(** Its first three fields: four bytes, which is all that [net_poll] asks for
    before it hands an ICMP packet on, and all that the handler accesses. *)
Record icmp_start := mkIcmpStart { start_type : Z; start_code : Z; start_checksum : Z }.
Record udp_hdr := mkUdp { src_port : Z; dst_port : Z; udp_len : Z; udp_checksum : Z }.

Notation ETH_ALEN := 6 (only parsing).
Notation ETHERTYPE_ARP := 0x0806 (only parsing).
Notation ETHERTYPE_IP := 0x0800 (only parsing).
Notation ARP_HTYPE_ETH := 1 (only parsing).
Notation ARP_PTYPE_IP := 0x0800 (only parsing).
Notation ARP_HLEN := 6 (only parsing).
Notation ARP_PLEN := 4 (only parsing).
Notation ARP_OP_REQUEST := 1 (only parsing).
Notation ARP_OP_REPLY := 2 (only parsing).
Notation ICMP_TYPE_ECHO_REPLY := 0 (only parsing).
Notation ICMP_TYPE_ECHO_REQUEST := 8 (only parsing).

Definition eth_codec : codec eth_hdr :=
  struct (λ '(d, (s, t)), mkEth d s t) (λ x, (eth_dst x, (eth_src x, eth_type x))) (array 6 ⊗ array 6 ⊗ uint16).
Definition arp_codec : codec arp_pkt :=
  struct (λ '(h, (p, (hl, (pl, (o, (sh, (sp, (th, tp)))))))), mkArpPkt h p hl pl o sh sp th tp)
    (λ x, (htype x, (ptype x, (hlen x, (plen x, (oper x, (sha x, (spa x, (tha x, tpa x)))))))))
    (uint16 ⊗ uint16 ⊗ uint8 ⊗ uint8 ⊗ uint16 ⊗ array 6 ⊗ array 4 ⊗ array 6 ⊗ array 4).
Definition ip_codec : codec ip_hdr :=
  struct (λ '(v, (t, (l, (i, (f, (h, (p, (c, (s, d))))))))), mkIp v t l i f h p c s d)
    (λ x, (ver_ihl x, (tos x, (total_len x, (ident x, (flags_frag x, (ttl x, (proto x, (ip_checksum x,
           (src_ip x, dst_ip x))))))))))
    (uint8 ⊗ uint8 ⊗ uint16 ⊗ uint16 ⊗ uint16 ⊗ uint8 ⊗ uint8 ⊗ uint16 ⊗ array 4 ⊗ array 4).
Definition icmp_codec : codec icmp_pkt :=
  struct (λ '(t, (c, (k, (i, s)))), mkIcmp t c k i s)
    (λ x, (icmp_type x, (code x, (icmp_checksum x, (icmp_id x, icmp_seq x)))))
    (uint8 ⊗ uint8 ⊗ uint16 ⊗ uint16 ⊗ uint16).
Definition icmp_start_codec : codec icmp_start :=
  struct (λ '(t, (c, k)), mkIcmpStart t c k) (λ x, (start_type x, (start_code x, start_checksum x))) (uint8 ⊗ uint8 ⊗ uint16).
Definition udp_codec : codec udp_hdr :=
  struct (λ '(s, (d, (l, c))), mkUdp s d l c) (λ x, (src_port x, (dst_port x, (udp_len x, udp_checksum x))))
    (uint16 ⊗ uint16 ⊗ uint16 ⊗ uint16).

Ltac by_fields :=
  apply struct_lawful;
  [ by intros [] | intros y; repeat match goal with x : (_ * _)%type |- _ => destruct x end; reflexivity | apply _ ].
#[export] Instance eth_lawful : Lawful eth_codec.
Proof. by_fields. Qed.
#[export] Instance arp_lawful : Lawful arp_codec.
Proof. by_fields. Qed.
#[export] Instance ip_lawful : Lawful ip_codec.
Proof. by_fields. Qed.
#[export] Instance icmp_lawful : Lawful icmp_codec.
Proof. by_fields. Qed.
#[export] Instance icmp_start_lawful : Lawful icmp_start_codec.
Proof. by_fields. Qed.
#[export] Instance udp_lawful : Lawful udp_codec.
Proof. by_fields. Qed.

(** [n] bytes on the wire are one value and one value is [n] bytes. *)
Definition wire_format {A} (c : codec A) (n : nat) : Prop :=
  (∀ x, fits c x → length (put c x) = n ∧ bytes (put c x) ∧ ∀ rest, get c (put c x ++ rest) = x) ∧
  (∀ l, bytes l → length l = n → fits c (get c l) ∧ put c (get c l) = l).

Lemma lawful_format {A} (c : codec A) : Lawful c → wire_format c (sizeof c).
Proof.
  intros L. split.
  - intros x Hx. split; [by apply put_length |]. split; [by apply put_bytes | intros rest; by apply get_put].
  - intros l Hl Hn. split; [apply get_fits; [done | lia] |]. rewrite put_get by (done || lia). by rewrite <- Hn, firstn_all.
Qed.

(** The layout of the packets: the sizes of the structs, and the correspondence
    of their values with byte strings of these sizes. *)
Lemma packets_packed :
  wire_format eth_codec 14 ∧ wire_format arp_codec 28 ∧ wire_format ip_codec 20 ∧
  wire_format icmp_codec 8 ∧ wire_format udp_codec 8.
Proof.
  exact (conj (lawful_format eth_codec _) (conj (lawful_format arp_codec _)
    (conj (lawful_format ip_codec _) (conj (lawful_format icmp_codec _) (lawful_format udp_codec _))))).
Qed.

(** ** The handlers on fields *)

Section fields.
Context {N : Type} `{!Nic N}.
Implicit Types t : net N.

Definition with_type (v : Z) (p : icmp_start) : icmp_start := mkIcmpStart v (start_code p) (start_checksum p).
Definition with_checksum (v : Z) (p : icmp_start) : icmp_start := mkIcmpStart (start_type p) (start_code p) v.

(** An ARP packet in its frame. *)
Definition arp_out (dst : list Z) (oper : Z) (tha tpa : list Z) t : list Z :=
  put eth_codec (mkEth dst (our_mac t) (htons ETHERTYPE_ARP)) ++
  put arp_codec (mkArpPkt (htons ARP_HTYPE_ETH) (htons ARP_PTYPE_IP) ARP_HLEN ARP_PLEN (htons oper) (our_mac t) (our_ip t) tha tpa).
Definition arp_ask (ip : list Z) t : net N :=
  if nic_present (nic t)
  then with_nic (snd (nic_send (arp_out (replicate 6 0xFF) ARP_OP_REQUEST (replicate 6 0) ip t) (nic t))) t else t.
Definition arp_learn (p : arp_pkt) t : net N := with_cache (snd (arp_cache_add (spa p) (sha p) (arp_cache t))) t.
(** A request for our address is answered and, like every reply, remembered. *)
Definition arp_in (p : arp_pkt) t : net N :=
  if negb ((htype p =? htons ARP_HTYPE_ETH) && (ptype p =? htons ARP_PTYPE_IP)) then t
  else if oper p =? htons ARP_OP_REQUEST then
    if bool_decide (tpa p = our_ip t) && nic_present (nic t)
    then arp_learn p (with_nic (snd (nic_send (arp_out (sha p) ARP_OP_REPLY (sha p) (spa p) t) (nic t))) t)
    else t
  else if oper p =? htons ARP_OP_REPLY then arp_learn p t else t.

(** Data in an IP packet to a known address; otherwise the address is asked for. *)
Definition ip_out (dst : list Z) (pr : Z) (data : list Z) t : outcome (Z * net N) :=
  if negb (nic_present (nic t)) then Ok (-1, t)
  else
    match arp_resolve dst t with
    | None => Ok (-2, arp_ask dst t)
    | Some mac =>
        if (1600 <? Z.of_nat (sizeof eth_codec + sizeof ip_codec) + zlen data) then Ok (-1, t)
        else
          let h ck := mkIp 0x45 0 (htons (u16 (Z.of_nat (sizeof ip_codec) + zlen data))) (htons (ip_id t)) 0 64 pr ck (our_ip t) dst in
          let! ck := net_checksum (put ip_codec (h 0)) in
          let '(r, n) := nic_send (put eth_codec (mkEth mac (our_mac t) (htons ETHERTYPE_IP)) ++ put ip_codec (h ck) ++ data) (nic t) in
          Ok (r, with_nic n (with_ip_id (u16 (ip_id t + 1)) t))
    end.

(** An echo request, whatever follows its first fields, is answered with the
    reply in its place. *)
Definition icmp_in (h : ip_hdr) (p : icmp_start) (rest : list Z) t : outcome (list Z * net N) :=
  if start_type p =? ICMP_TYPE_ECHO_REQUEST then
    let p0 := with_checksum 0 (with_type ICMP_TYPE_ECHO_REPLY p) in
    let! ck := net_checksum (put icmp_start_codec p0 ++ rest) in
    let pkt := put icmp_start_codec (with_checksum ck p0) ++ rest in
    let! (_, t) := ip_out (src_ip h) IP_PROTO_ICMP pkt t in
    Ok (pkt, t)
  else Ok (put icmp_start_codec p ++ rest, t).

(** A header is sound when its words, with the checksum, add up to all ones. *)
Definition ip_sound (h : ip_hdr) : outcome bool :=
  let! sum := fold_sum FOLD_FUEL (sum_words (put ip_codec h) 0) in Ok (u16 sum =? 0xFFFF).

(** A frame: the structs are read one behind the other. *)
Definition frame_in (frame : list Z) t : outcome (net N) :=
  let eth := get eth_codec frame in
  let payload := drop (sizeof eth_codec) frame in
  if eth_type eth =? htons ETHERTYPE_ARP then
    Ok (if (sizeof arp_codec <=? length payload)%nat then arp_in (get arp_codec payload) t else t)
  else if (eth_type eth =? htons ETHERTYPE_IP) && (sizeof ip_codec <=? length payload)%nat then
    let h := get ip_codec payload in
    let body := drop (sizeof ip_codec) payload in
    let! sound := ip_sound h in
    if sound && (proto h =? IP_PROTO_ICMP) && (4 <=? length body)%nat then
      let! (_, t) := icmp_in h (get icmp_start_codec body) (drop (sizeof icmp_start_codec) body) t in Ok t
    else Ok t
  else Ok t.

(** *** Offsets *)

Lemma aget_drop n (l : list Z) i : 0 ≤ i → aget (drop n l) i = aget l (Z.of_nat n + i).
Proof.
  intros Hi. unfold aget. destruct (Z.ltb_spec i 0), (Z.ltb_spec (Z.of_nat n + i) 0); try lia.
  rewrite lookup_drop. do 2 f_equal. lia.
Qed.
Lemma get16_drop n (l : list Z) i : 0 ≤ i → get16 (drop n l) i = get16 l (Z.of_nat n + i).
Proof. intros Hi. unfold get16. rewrite !aget_drop by lia. by rewrite Z.add_assoc. Qed.

Lemma arp_frame_fields dst op tha tpa t :
  arp_frame dst (htons op) tha tpa t = arp_out dst op tha tpa t.
Proof. unfold arp_frame, arp_out. cbn [put struct both eth_codec arp_codec fst snd]. by rewrite <- !app_assoc. Qed.

Lemma arp_ask_fields ip t : arp_send_request ip t = arp_ask ip t.
Proof.
  unfold arp_send_request, arp_ask. destruct (nic_present (nic t)); [| done]. cbn [negb].
  by rewrite <- (arp_frame_fields _ ARP_OP_REQUEST).
Qed.

(** The fields of a packet are where [Net] reads them. *)
Lemma arp_get arp :
  get arp_codec arp = mkArpPkt (get16 arp 0) (get16 arp 2) (aget arp 4) (aget arp 5) (get16 arp 6)
    (slice arp 8 6) (slice arp 14 4) (slice arp 18 6) (slice arp 24 4).
Proof.
  cbn [get struct both arp_codec uint8 uint16 array sizeof]. rewrite !drop_drop, !get16_drop, !aget_drop by lia. done.
Qed.
Lemma ip_get ip :
  get ip_codec ip = mkIp (aget ip 0) (aget ip 1) (get16 ip 2) (get16 ip 4) (get16 ip 6) (aget ip 8) (aget ip 9)
    (get16 ip 10) (slice ip 12 4) (slice ip 16 4).
Proof.
  cbn [get struct both ip_codec uint8 uint16 array sizeof]. rewrite !drop_drop, !get16_drop, !aget_drop by lia. done.
Qed.
Lemma eth_get frame : get eth_codec frame = mkEth (take 6 frame) (slice frame 6 6) (get16 frame 12).
Proof. cbn [get struct both eth_codec uint16 array sizeof]. rewrite !drop_drop, !get16_drop by lia. done. Qed.
Lemma icmp_start_get pkt : get icmp_start_codec pkt = mkIcmpStart (aget pkt 0) (aget pkt 1) (get16 pkt 2).
Proof.
  cbn [get struct both icmp_start_codec uint8 uint16 sizeof]. rewrite !drop_drop, !get16_drop, !aget_drop by lia. done.
Qed.

Lemma arp_in_fields arp t : snd (arp_handle_packet arp t) = arp_in (get arp_codec arp) t.
Proof.
  rewrite arp_get. unfold arp_handle_packet, arp_in, arp_learn. cbn [htype ptype oper sha spa tpa].
  rewrite negb_andb. change (htons ARP_HTYPE_ETH) with 0x0100. change (htons ARP_PTYPE_IP) with 0x0008.
  change (htons ARP_OP_REQUEST) with 0x0100. change (htons ARP_OP_REPLY) with 0x0200.
  destruct (_ || _); [done |]. destruct (get16 arp 6 =? 0x0100); [| by destruct (_ =? _)].
  destruct (bool_decide _); [| done]. destruct (nic_present (nic t)); [| done]. cbn [negb andb].
  by rewrite <- (arp_frame_fields _ ARP_OP_REPLY).
Qed.

Lemma ip_out_fields dst pr data t : ip_send dst pr data t = ip_out dst pr data t.
Proof.
  unfold ip_send, ip_out. destruct (negb _); [done |]. destruct (arp_resolve dst t) as [mac|]; [| by rewrite arp_ask_fields].
  change (Z.of_nat (sizeof eth_codec + sizeof ip_codec)) with (14 + 20). destruct (1600 <? _); [done |].
  change (Z.of_nat (sizeof ip_codec)) with 20. cbv zeta. change (put ip_codec (mkIp ?v ?s ?l ?i ?f ?h ?p ?c ?a ?b)) with
    (ip_header (zlen data) (ip_id t) pr c a b).
  destruct (net_checksum _) as [ck | | |]; try done. cbn [obind put struct both eth_codec fst snd]. by rewrite <- !app_assoc.
Qed.

(** Only type and checksum differ in the reply. *)
Lemma echo_reply_fields pkt ck :
  echo_reply pkt ck =
  put icmp_start_codec (with_checksum ck (with_type ICMP_TYPE_ECHO_REPLY (get icmp_start_codec pkt))) ++ drop 4 pkt.
Proof.
  rewrite icmp_start_get. unfold echo_reply, with_checksum, with_type.
  cbn [start_code start_type start_checksum put struct both icmp_start_codec uint8 uint16 fst snd]. by rewrite <- !app_assoc.
Qed.

Lemma icmp_in_fields ip pkt t :
  bytes pkt → (4 ≤ length pkt)%nat →
  icmp_handle_packet ip pkt t = icmp_in (get ip_codec ip) (get icmp_start_codec pkt) (drop 4 pkt) t.
Proof.
  intros Hb Hl. unfold icmp_handle_packet, icmp_in. rewrite <- !echo_reply_fields. rewrite ip_get.
  rewrite icmp_start_get at 1. cbn [start_type src_ip]. destruct (aget pkt 0 =? 8).
  - destruct (net_checksum _) as [ck | | |]; try done. cbn [obind]. rewrite ip_out_fields.
    change (with_checksum ck (with_checksum 0 ?p)) with (with_checksum ck p). by rewrite <- echo_reply_fields.
  - rewrite put_get by (done || exact Hl). by rewrite firstn_skipn.
Qed.

Lemma ip_sound_fields ip : bytes ip → (20 ≤ length ip)%nat → ip_checksum_ok ip = ip_sound (get ip_codec ip).
Proof. intros Hb Hl. unfold ip_checksum_ok, ip_sound. by rewrite put_get. Qed.

(** What lies behind the fields that are read does not matter. *)
Lemma get_app {A} (c : codec A) `{!Lawful c} l rest : bytes l → (sizeof c ≤ length l)%nat → get c (l ++ rest) = get c l.
Proof.
  intros Hl Hlen. assert (E : l = put c (get c l) ++ drop (sizeof c) l) by (by rewrite put_get, firstn_skipn).
  rewrite E at 1. rewrite <- app_assoc. by apply get_put, get_fits.
Qed.

(** C17: the stack works on the fields of the packets. For every frame of bytes, followed
    in the buffer by whatever was there, [handle_frame], which reads and writes at
    byte offsets, does exactly what the handlers do on the structs: frames
    that are too short are dropped, ARP requests for our address are answered,
    sound echo requests are answered, and every frame that is sent is the image
    of its structs. *)
Theorem handle_frame_fields frame old t :
  bytes frame →
  (let! (_, t') := handle_frame (zlen frame) (frame ++ old) t in Ok t') = frame_in frame t.
Proof.
  intros Hb. unfold handle_frame, frame_in. cbv zeta.
  change (htons ETHERTYPE_ARP) with 0x0608. change (htons ETHERTYPE_IP) with 0x0008.
  change (sizeof eth_codec) with 14%nat. change (sizeof arp_codec) with 28%nat. change (sizeof ip_codec) with 20%nat.
  change (sizeof icmp_start_codec) with 4%nat. rewrite !length_drop.
  destruct (decide (length frame < 14)%nat) as [Hs | Hs].
  { destruct (Z.leb_spec (14 + 28) (zlen frame)); [lia |]. destruct (Z.leb_spec 20 (zlen frame - 14)); [lia |]. cbn [negb].
    destruct (Nat.leb_spec 28 (length frame - 14)); [lia |]. destruct (Nat.leb_spec 20 (length frame - 14)); [lia |].
    rewrite andb_false_r. repeat case_match; done. }
  rewrite <- (get_app eth_codec frame old) by (done || cbn [sizeof eth_codec struct both array uint16]; lia).
  rewrite eth_get. cbn [eth_type]. rewrite drop_app_le by lia.
  assert (Hp : bytes (drop 14 frame)) by by apply Forall_drop.
  destruct (get16 _ _ =? 0x0608).
  { destruct (Z.leb_spec (14 + 28) (zlen frame)), (Nat.leb_spec 28 (length frame - 14)); try lia; [| done].
    cbn [obind]. rewrite arp_in_fields, (get_app arp_codec); [done | done | rewrite length_drop; cbn [sizeof arp_codec struct both array uint16 uint8]; lia]. }
  destruct (get16 _ _ =? 0x0008); [| done]. cbn [andb].
  destruct (Z.leb_spec 20 (zlen frame - 14)), (Nat.leb_spec 20 (length frame - 14)); try lia; [cbn [negb] | done].
  assert (Hl : (20 ≤ length (drop 14 frame))%nat) by (rewrite length_drop; lia).
  assert (Eok : ip_checksum_ok (drop 14 frame ++ old) = ip_sound (get ip_codec (drop 14 frame))).
  { rewrite <- ip_sound_fields by done. unfold ip_checksum_ok. by rewrite take_app_le. }
  rewrite Eok. destruct (ip_sound _) as [ok | | |]; try done. cbn [obind]. destruct ok; [cbn [negb andb] | done].
  assert (Epr : aget (drop 14 frame ++ old) 9 = proto (get ip_codec (drop 14 frame))).
  { rewrite <- (get_app ip_codec _ old), ip_get; done. }
  rewrite Epr. destruct (_ =? 1); [cbn [andb] | done]. rewrite drop_drop. change (14 + 20)%nat with 34%nat.
  destruct (Z.leb_spec 4 (zlen frame - 14 - 20)), (Nat.leb_spec 4 (length frame - 14 - 20)); try lia; [| done].
  assert (Epkt : slice (drop 14 frame ++ old) 20 (Z.to_nat (zlen frame - 14 - 20)) = drop 34 frame).
  { unfold slice. rewrite drop_app_le by lia. rewrite drop_drop, take_app_le by (rewrite length_drop; lia).
    apply take_ge. rewrite length_drop. lia. }
  rewrite Epkt, icmp_in_fields; [| by apply Forall_drop | rewrite length_drop; lia].
  rewrite (get_app ip_codec) by (done || exact Hl). destruct (icmp_in _ _ _ _) as [[pkt t'] | | |]; done.
Qed.
End fields.

(** An echo request of a peer, in the buffer of [net_poll]. *)
Lemma handle_frame_fields_witness :
  length demo_request = 66%nat ∧
  (let! (_, t') := handle_frame (zlen demo_request) (demo_request ++ replicate 1534 0) (demo_net mac1 ip1 mac2 ip2) in Ok t') =
    frame_in demo_request (demo_net mac1 ip1 mac2 ip2).
Proof.
  split; [vm_compute; reflexivity |].
  apply (handle_frame_fields demo_request (replicate 1534 0) (demo_net mac1 ip1 mac2 ip2)).
  vm_compute. repeat constructor; intros [=].
Defined.
(** The reply to it, as structs. *)
Lemma demo_reply_fields :
  ∃ f, frame_in demo_request (demo_net mac1 ip1 mac2 ip2) =
      Ok (with_nic (mkWire mac1 [f] []) (with_ip_id 1 (demo_net mac1 ip1 mac2 ip2))) ∧
    get eth_codec f = mkEth mac2 mac1 (htons ETHERTYPE_IP) ∧
    dst_ip (get ip_codec (drop 14 f)) = ip2 ∧ ttl (get ip_codec (drop 14 f)) = 64 ∧
    icmp_type (get icmp_codec (drop 34 f)) = ICMP_TYPE_ECHO_REPLY ∧
    icmp_id (get icmp_codec (drop 34 f)) = htons 7 ∧ icmp_seq (get icmp_codec (drop 34 f)) = htons 1.
Proof. eexists. vm_compute. split_and!; reflexivity. Qed.
End Packets.
