(* ===== verification/Formats.v ===== *)
(** * Records on the disk, in programs and in the loader's tables: the packed
    structs of [fs/fat32.cpp], [fs/elf.cpp] and [boot/multiboot.hpp]

    The file system and the program loader are modelled on byte offsets. Here
    the structs of the sources are codecs, put together as those of the network
    packets, and the byte offsets are shown to be the fields of the structs. *)

From S2P Require Import Prelude Machine Pmm Multiboot Ipc Net Packets Fat32 Elf.

Module Formats.
Import Packets Ipc.

(** ** Wider integers *)

(** A view of the fields as one value: as for a struct, but only for values
    that fit. *)
Lemma view_lawful {A B} (make : A → B) (fields : B → A) (c : codec A) :
  (∀ x, make (fields x) = x) → (∀ y, fits c y → fields (make y) = y) → Lawful c → Lawful (struct make fields c).
Proof.
  intros H1 H2 L. constructor; cbn [struct put get fits sizeof].
  - intros x. apply put_length.
  - intros x. apply put_bytes.
  - intros x rest Hx. by rewrite get_put.
  - intros l Hl Hn. rewrite H2; by apply get_fits.
  - intros l Hl Hn. rewrite H2; [by apply put_get | by apply get_fits].
Qed.

Definition uint32 : codec Z := struct (λ '(lo, hi), lo + W16 * hi) (λ v, (v mod W16, v / W16)) (uint16 ⊗ uint16).
Definition uint64 : codec Z := struct (λ '(lo, hi), lo + W32 * hi) (λ v, (v mod W32, v / W32)) (uint32 ⊗ uint32).

#[export] Instance uint32_lawful : Lawful uint32.
Proof.
  apply view_lawful; [intros x; mlia | | apply _]. intros [lo hi] [H1 H2]. cbn [fst snd uint16 fits] in *. f_equal; mlia.
Qed.

(** The values of a word. *)
Lemma uint32_fits v : fits uint32 v ↔ 0 ≤ v < W32.
Proof. unfold uint32. cbn [fits struct both uint16 fst snd]. split; intros H; [| split]; mlia. Qed.

#[export] Instance uint64_lawful : Lawful uint64.
Proof.
  apply view_lawful; [intros x; mlia | | apply _]. intros [lo hi] [H1 H2]. cbn [fst snd] in *.
  rewrite uint32_fits in H1, H2. f_equal; mlia.
Qed.

(** ** The structs of [fs/fat32.cpp] *)

Record mbr_entry := mkMbrEntry {
  me_status : Z; me_chs_first : list Z; me_type : Z; me_chs_last : list Z; me_lba_start : Z; me_sector_count : Z }.
(** The array [partitions] as four fields. *)
Record mbr := mkMbr {
  mbr_code : list Z; part0 : mbr_entry; part1 : mbr_entry; part2 : mbr_entry; part3 : mbr_entry; mbr_signature : Z }.
Definition partitions (x : mbr) : list mbr_entry := [part0 x; part1 x; part2 x; part3 x].
Record fat32_bpb := mkBpb {
  b_jump : list Z; b_oem : list Z; b_bytes_per_sector : Z; b_sectors_per_cluster : Z; b_reserved_sectors : Z; b_fat_count : Z;
  b_root_entry_count : Z; b_total_sectors_16 : Z; b_media_descriptor : Z; b_sectors_per_fat_16 : Z; b_sectors_per_track : Z;
  b_head_count : Z; b_hidden_sectors : Z; b_total_sectors_32 : Z; b_sectors_per_fat_32 : Z; b_extended_flags : Z;
  b_fs_version : Z; b_root_cluster : Z; b_fsinfo_sector : Z; b_backup_boot_sector : Z; b_reserved : list Z;
  b_drive_number : Z; b_reserved2 : Z; b_ext_signature : Z; b_volume_id : Z; b_volume_label : list Z; b_fs_type : list Z }.
Record fat32_dirent := mkFatDirent {
  de_name : list Z; de_attr : Z; de_nt_reserved : Z; de_creation_tenths : Z; de_creation_time : Z; de_creation_date : Z;
  de_access_date : Z; de_cluster_high : Z; de_modified_time : Z; de_modified_date : Z; de_cluster_low : Z; de_file_size : Z }.

Definition mbr_entry_codec : codec mbr_entry :=
  struct (λ '(a, (b, (c, (d, (e, f))))), mkMbrEntry a b c d e f)
    (λ x, (me_status x, (me_chs_first x, (me_type x, (me_chs_last x, (me_lba_start x, me_sector_count x))))))
    (uint8 ⊗ array 3 ⊗ uint8 ⊗ array 3 ⊗ uint32 ⊗ uint32).
Definition mbr_codec : codec mbr :=
  struct (λ '(a, (b, (c, (d, (e, f))))), mkMbr a b c d e f)
    (λ x, (mbr_code x, (part0 x, (part1 x, (part2 x, (part3 x, mbr_signature x))))))
    (array 446 ⊗ mbr_entry_codec ⊗ mbr_entry_codec ⊗ mbr_entry_codec ⊗ mbr_entry_codec ⊗ uint16).
Definition bpb_codec : codec fat32_bpb :=
  struct
    (λ '(a, (b, (c, (d, (e, (f, (g, (h, (i, (j, (k, (l, (m, (n, (o, (p, (q, (r, (s, (t, (u, (v, (w, (x, (y, (z, aa)))))))))))))))))))))))))),
       mkBpb a b c d e f g h i j k l m n o p q r s t u v w x y z aa)
    (λ x, (b_jump x, (b_oem x, (b_bytes_per_sector x, (b_sectors_per_cluster x, (b_reserved_sectors x, (b_fat_count x,
          (b_root_entry_count x, (b_total_sectors_16 x, (b_media_descriptor x, (b_sectors_per_fat_16 x, (b_sectors_per_track x,
          (b_head_count x, (b_hidden_sectors x, (b_total_sectors_32 x, (b_sectors_per_fat_32 x, (b_extended_flags x,
          (b_fs_version x, (b_root_cluster x, (b_fsinfo_sector x, (b_backup_boot_sector x, (b_reserved x, (b_drive_number x,
          (b_reserved2 x, (b_ext_signature x, (b_volume_id x, (b_volume_label x, b_fs_type x)))))))))))))))))))))))))))
    (array 3 ⊗ array 8 ⊗ uint16 ⊗ uint8 ⊗ uint16 ⊗ uint8 ⊗ uint16 ⊗ uint16 ⊗ uint8 ⊗ uint16 ⊗ uint16 ⊗ uint16 ⊗ uint32 ⊗
     uint32 ⊗ uint32 ⊗ uint16 ⊗ uint16 ⊗ uint32 ⊗ uint16 ⊗ uint16 ⊗ array 12 ⊗ uint8 ⊗ uint8 ⊗ uint8 ⊗ uint32 ⊗ array 11 ⊗ array 8).
Definition dirent_codec : codec fat32_dirent :=
  struct (λ '(a, (b, (c, (d, (e, (f, (g, (h, (i, (j, (k, l))))))))))), mkFatDirent a b c d e f g h i j k l)
    (λ x, (de_name x, (de_attr x, (de_nt_reserved x, (de_creation_tenths x, (de_creation_time x, (de_creation_date x,
          (de_access_date x, (de_cluster_high x, (de_modified_time x, (de_modified_date x, (de_cluster_low x, de_file_size x))))))))))))
    (array 11 ⊗ uint8 ⊗ uint8 ⊗ uint8 ⊗ uint16 ⊗ uint16 ⊗ uint16 ⊗ uint16 ⊗ uint16 ⊗ uint16 ⊗ uint16 ⊗ uint32).

(** ** The structs of [fs/elf.cpp] and of the boot loader *)

Record elf32_header := mkEhdr {
  e_magic : Z; e_cls : Z; e_data : Z; e_version : Z; e_osabi : Z; e_abiversion : Z; e_pad : list Z; e_type : Z; e_machine : Z;
  e_elf_version : Z; e_entry : Z; e_phoff : Z; e_shoff : Z; e_flags : Z; e_ehsize : Z; e_phentsize : Z; e_phnum : Z;
  e_shentsize : Z; e_shnum : Z; e_shstrndx : Z }.
(** All the fields of [elf32_phdr]; the loader reads six of them. *)
Record program_header := mkProgramHeader {
  ph_type : Z; ph_offset : Z; ph_vaddr : Z; ph_paddr : Z; ph_filesz : Z; ph_memsz : Z; ph_flags : Z; ph_align : Z }.
Record multiboot_mmap_entry_t := mkMmap { mm_size : Z; mm_addr : Z; mm_len : Z; mm_type : Z }.

Definition ehdr_codec : codec elf32_header :=
  struct (λ '(a, (b, (c, (d, (e, (f, (g, (h, (i, (j, (k, (l, (m, (n, (o, (p, (q, (r, (s, t))))))))))))))))))),
            mkEhdr a b c d e f g h i j k l m n o p q r s t)
    (λ x, (e_magic x, (e_cls x, (e_data x, (e_version x, (e_osabi x, (e_abiversion x, (e_pad x, (e_type x, (e_machine x,
          (e_elf_version x, (e_entry x, (e_phoff x, (e_shoff x, (e_flags x, (e_ehsize x, (e_phentsize x, (e_phnum x,
          (e_shentsize x, (e_shnum x, e_shstrndx x))))))))))))))))))))
    (uint32 ⊗ uint8 ⊗ uint8 ⊗ uint8 ⊗ uint8 ⊗ uint8 ⊗ array 7 ⊗ uint16 ⊗ uint16 ⊗ uint32 ⊗ uint32 ⊗ uint32 ⊗ uint32 ⊗ uint32 ⊗
     uint16 ⊗ uint16 ⊗ uint16 ⊗ uint16 ⊗ uint16 ⊗ uint16).
Definition phdr_codec : codec program_header :=
  struct (λ '(a, (b, (c, (d, (e, (f, (g, h))))))), mkProgramHeader a b c d e f g h)
    (λ x, (ph_type x, (ph_offset x, (ph_vaddr x, (ph_paddr x, (ph_filesz x, (ph_memsz x, (ph_flags x, ph_align x))))))))
    (uint32 ⊗ uint32 ⊗ uint32 ⊗ uint32 ⊗ uint32 ⊗ uint32 ⊗ uint32 ⊗ uint32).
Definition mmap_codec : codec multiboot_mmap_entry_t :=
  struct (λ '(a, (b, (c, d))), mkMmap a b c d) (λ x, (mm_size x, (mm_addr x, (mm_len x, mm_type x))))
    (uint32 ⊗ uint64 ⊗ uint64 ⊗ uint32).

#[export] Instance mbr_entry_lawful : Lawful mbr_entry_codec.
Proof. by_fields. Qed.
#[export] Instance mbr_lawful : Lawful mbr_codec.
Proof. by_fields. Qed.
#[export] Instance bpb_lawful : Lawful bpb_codec.
Proof. by_fields. Qed.
#[export] Instance dirent_lawful : Lawful dirent_codec.
Proof. by_fields. Qed.
#[export] Instance ehdr_lawful : Lawful ehdr_codec.
Proof. by_fields. Qed.
#[export] Instance phdr_lawful : Lawful phdr_codec.
Proof. by_fields. Qed.
#[export] Instance mmap_lawful : Lawful mmap_codec.
Proof. by_fields. Qed.

(** The layouts: the sizes of the structs, and the correspondence of their
    values with byte strings of these sizes. *)
Theorem formats_packed :
  wire_format mbr_entry_codec 16 ∧ wire_format mbr_codec 512 ∧ wire_format bpb_codec 90 ∧ wire_format dirent_codec 32 ∧
  wire_format ehdr_codec 52 ∧ wire_format phdr_codec 32 ∧ wire_format mmap_codec 24.
Proof.
  exact (conj (lawful_format mbr_entry_codec _) (conj (lawful_format mbr_codec _) (conj (lawful_format bpb_codec _)
    (conj (lawful_format dirent_codec _) (conj (lawful_format ehdr_codec _) (conj (lawful_format phdr_codec _)
      (lawful_format mmap_codec _))))))).
Qed.

(** ** Fields and offsets *)

(** An integer field behind [n] bytes. *)
Lemma field8 l n : get uint8 (drop n l) = aget l (Z.of_nat n).
Proof. cbn [get uint8]. rewrite aget_drop by lia. f_equal. lia. Qed.
Lemma field16 l n : get uint16 (drop n l) = Fat32.get16 l (Z.of_nat n).
Proof.
  cbn [get uint16]. unfold Net.get16, Fat32.get16. rewrite !aget_drop by lia. by rewrite Z.add_0_r.
Qed.
Lemma field32 l n : get uint32 (drop n l) = Fat32.get32 l (Z.of_nat n).
Proof.
  unfold uint32. cbn [get struct both sizeof uint16]. change (Net.get16 ?x 0) with (get uint16 x).
  rewrite drop_drop, !field16. unfold Fat32.get32. do 3 f_equal. lia.
Qed.
Lemma get_both {A B} (a : codec A) (b : codec B) l : get (a ⊗ b) l = (get a l, get b (drop (sizeof a) l)).
Proof. done. Qed.
Lemma get_struct {A B} (make : A → B) fields (c : codec A) l : get (struct make fields c) l = make (get c l).
Proof. done. Qed.

(** The fields of a struct at their offsets. *)
Ltac field_offsets :=
  rewrite get_struct; repeat rewrite get_both; rewrite !drop_drop;
  rewrite ?field8, ?field16, ?field32.

(** What [fat32_mount] takes from the boot sector are the fields of [fat32_bpb]. *)
Lemma mounted_fs_fields dev lba sector (b := get bpb_codec sector) :
  Fat32.mounted_fs dev lba sector =
  Fat32.mkFs dev lba (b_bytes_per_sector b) (b_sectors_per_cluster b) (b_reserved_sectors b) (b_fat_count b)
    (b_sectors_per_fat_32 b) (b_root_cluster b) (u32 (b_reserved_sectors b + b_fat_count b * b_sectors_per_fat_32 b)).
Proof. unfold b, bpb_codec. field_offsets. reflexivity. Qed.

(** The signature and the partition that it reads are those of [mbr]. *)
Lemma mbr_fields sector (x := get mbr_codec sector) :
  Fat32.get16 sector 510 = mbr_signature x ∧
  ∀ i e, partitions x !! i = Some e →
    aget sector (446 + 16 * Z.of_nat i + 4) = me_type e ∧ Fat32.get32 sector (446 + 16 * Z.of_nat i + 8) = me_lba_start e.
Proof.
  assert (He : ∀ n, me_type (get mbr_entry_codec (drop n sector)) = aget sector (Z.of_nat n + 4) ∧
    me_lba_start (get mbr_entry_codec (drop n sector)) = Fat32.get32 sector (Z.of_nat n + 8)).
  { intros n. unfold mbr_entry_codec. field_offsets. cbn [me_type me_lba_start]. split; f_equal; cbn [sizeof uint8 array]; lia. }
  unfold x, mbr_codec. rewrite get_struct. repeat rewrite get_both. rewrite !drop_drop. rewrite field16.
  split; [reflexivity |]. intros i e Hi. unfold partitions in Hi. cbn [part0 part1 part2 part3] in Hi.
  assert (Hp : ∀ n, aget sector (Z.of_nat n + 4) = me_type (get mbr_entry_codec (drop n sector)) ∧
    Fat32.get32 sector (Z.of_nat n + 8) = me_lba_start (get mbr_entry_codec (drop n sector))) by (intros n; by destruct (He n)).
  destruct i as [|[|[|[|i]]]]; cbn [lookup list_lookup] in Hi; [injection Hi as <-.. | done];
    [exact (Hp 446%nat) | exact (Hp 462%nat) | exact (Hp 478%nat) | exact (Hp 494%nat)].
Qed.

(** A directory entry as the searches read it. *)
Lemma dirent_at_fields buf off (e := get dirent_codec (drop (Z.to_nat off) buf)) :
  0 ≤ off → off + 32 ≤ zlen buf →
  Fat32.dirent_at buf off =
  Fat32.mkDirent (de_name e) (de_attr e) (Z.lor (Z.shiftl (de_cluster_high e) 16) (de_cluster_low e)) (de_file_size e).
Proof.
  intros H0 H1. unfold e, dirent_codec. field_offsets. unfold Fat32.dirent_at. cbn [de_name de_attr de_cluster_high de_cluster_low de_file_size].
  f_equal.
  - apply list_eq. intros i. rewrite list_lookup_fmap. destruct (decide (i < 11)%nat) as [Hi | Hi].
    + rewrite lookup_seq_lt by done. cbn [get array]. rewrite lookup_take_lt, lookup_drop by done. cbn.
      rewrite <- lookup_aget by lia. f_equal. lia.
    + rewrite !lookup_ge_None_2; [done | cbn [get array]; rewrite length_take; lia | rewrite length_seq; lia].
  - f_equal. cbn [sizeof array]. lia.
  - f_equal; [do 2 f_equal | f_equal]; cbn [sizeof array uint8 uint16]; lia.
  - f_equal. cbn [sizeof array uint8 uint16]. lia.
Qed.

(** ** Headers in memory *)

Lemma aget_bytes_at m a n i : 0 ≤ i < Z.of_nat n → aget (bytes_at m a n) i = rd8 m (a + i).
Proof.
  intros Hi. apply aget_lookup; [lia |]. unfold bytes_at. rewrite list_lookup_fmap, lookup_seq_lt by lia.
  cbn. do 2 f_equal. lia.
Qed.
Lemma get16_bytes_at m a n i : 0 ≤ i → i + 2 ≤ Z.of_nat n → Fat32.get16 (bytes_at m a n) i = rd16 m (a + i).
Proof. intros H1 H2. unfold Fat32.get16, rd16. rewrite !aget_bytes_at by lia. by rewrite Z.add_assoc. Qed.
Lemma get32_bytes_at m a n i : 0 ≤ i → i + 4 ≤ Z.of_nat n → Fat32.get32 (bytes_at m a n) i = rd32 m (a + i).
Proof. intros H1 H2. unfold Fat32.get32, rd32. rewrite !get16_bytes_at by lia. by rewrite Z.add_assoc. Qed.

(** The header of a program, as the loader reads it. *)
Lemma ehdr_fields m h (e := get ehdr_codec (bytes_at m h 52)) :
  Elf.eh_magic m h = e_magic e ∧ Elf.eh_cls m h = e_cls e ∧ Elf.eh_data m h = e_data e ∧ Elf.eh_type m h = e_type e ∧
  Elf.eh_machine m h = e_machine e ∧ Elf.eh_entry m h = e_entry e ∧ Elf.eh_phoff m h = e_phoff e ∧
  Elf.eh_phentsize m h = e_phentsize e ∧ Elf.eh_phnum m h = e_phnum e.
Proof.
  unfold e, ehdr_codec. rewrite <- (drop_0 (bytes_at m h 52)). field_offsets.
  cbn [e_magic e_cls e_data e_type e_machine e_entry e_phoff e_phentsize e_phnum sizeof uint8 uint16 uint32 struct both array Nat.add].
  rewrite ?get16_bytes_at, ?get32_bytes_at, ?aget_bytes_at by lia.
  unfold Elf.eh_magic. rewrite Z.add_0_r. repeat split; reflexivity.
Qed.

(** And its table of segments. *)
Lemma phdr_fields m a (p := get phdr_codec (bytes_at m a 32)) :
  Elf.phdr_at m a = Elf.mkPhdr (ph_type p) (ph_offset p) (ph_vaddr p) (ph_filesz p) (ph_memsz p) (ph_flags p).
Proof.
  unfold p, phdr_codec. rewrite <- (drop_0 (bytes_at m a 32)). field_offsets.
  cbn [ph_type ph_offset ph_vaddr ph_filesz ph_memsz ph_flags sizeof uint16 uint32 struct both Nat.add].
  rewrite !get32_bytes_at by lia. unfold Elf.phdr_at. by rewrite Z.add_0_r.
Qed.
End Formats.
