(* ===== verification/Pci.v ===== *)
(** * The PCI bus: [drivers/pci.cpp]

    The configuration space is reached through two ports: the address of a
    register is written to one and its value read at the other. What is behind
    the ports is the class [ConfigBus]: a function of bus, slot, function and
    register, which reading does not change. *)

From S2P Require Import Prelude Ports.

Module Pci.

Notation PCI_CONFIG_ADDR := 0xCF8 (only parsing).
Notation PCI_CONFIG_DATA := 0xCFC (only parsing).
Notation MAX_PCI_DEVICES := 64 (only parsing).
Notation PCI_VENDOR_ID := 0x00 (only parsing).
Notation PCI_CLASS := 0x0B (only parsing).
Notation PCI_HEADER_TYPE := 0x0E (only parsing).

Record pci_device := mkPciDev {
  bus : Z;
  slot : Z;
  func : Z;
  vendor_id : Z;
  device_id : Z;
  class_code : Z;
  subclass : Z;
  prog_if : Z;
  header_type : Z;
}.
#[export] Instance pci_device_zero : ZeroInit pci_device := mkPciDev 0 0 0 0 0 0 0 0 0.

(** The globals of the file, and the ports. *)
Record pci (D : Type) := mkPci { pci_devices : list pci_device; pci_count : Z; ports : D }.
Arguments mkPci {D} _ _ _.
Arguments pci_devices {D} _.
Arguments pci_count {D} _.
Arguments ports {D} _.

(** The address both accesses compute. *)
Definition config_address (b s f offset : Z) : Z :=
  Z.lor (Z.lor (Z.lor (Z.lor (Z.shiftl b 16) (Z.shiftl s 11)) (Z.shiftl f 8)) (Z.land offset 0xFC))
    0x80000000.

Section pci.
Context {D : Type} `{!PortIO D}.
Implicit Types (d : D) (p : pci D).

Definition with_ports d p : pci D := mkPci (pci_devices p) (pci_count p) d.

Definition pci_config_read (b s f offset : Z) d : Z * D :=
  inl PCI_CONFIG_DATA (outl PCI_CONFIG_ADDR (config_address b s f offset) d).

Definition pci_config_write (b s f offset value : Z) d : D :=
  outl PCI_CONFIG_DATA value (outl PCI_CONFIG_ADDR (config_address b s f offset) d).

Definition pci_add_device (b s f : Z) p : pci D :=
  if MAX_PCI_DEVICES <=? pci_count p then p
  else
    let '(id, d) := pci_config_read b s f PCI_VENDOR_ID (ports p) in
    let vendor := Z.land id 0xFFFF in
    let device := u16 (Z.shiftr id 16) in
    if vendor =? 0xFFFF then with_ports d p
    else
      let '(class_rev, d) := pci_config_read b s f PCI_CLASS d in
      let '(hdr, d) := pci_config_read b s f PCI_HEADER_TYPE d in
      let dev := mkPciDev b s f vendor device (u8 (Z.shiftr class_rev 24))
        (Z.land (Z.shiftr class_rev 16) 0xFF) (Z.land (Z.shiftr class_rev 8) 0xFF)
        (Z.land (Z.shiftr hdr 16) 0xFF) in
      mkPci (aset (pci_devices p) (pci_count p) dev) (pci_count p + 1) d.

(** The loop over the functions 1 to 7 of a slot. *)
Definition scan_functions (b s : Z) p : pci D :=
  loop_n 7 1 (λ f p,
    let '(id, d) := pci_config_read b s f PCI_VENDOR_ID (ports p) in
    let p := with_ports d p in
    if negb (Z.land id 0xFFFF =? 0xFFFF) then pci_add_device b s f p else p) p.

(** The body of the loop over the slots. *)
Definition scan_slot (b s : Z) p : pci D :=
  let '(id, d) := pci_config_read b s 0 PCI_VENDOR_ID (ports p) in
  let p := with_ports d p in
  if Z.land id 0xFFFF =? 0xFFFF then p
  else
    let p := pci_add_device b s 0 p in
    let '(hdr, d) := pci_config_read b s 0 PCI_HEADER_TYPE (ports p) in
    let p := with_ports d p in
    if negb (Z.land (Z.land (Z.shiftr hdr 16) 0xFF) 0x80 =? 0) then scan_functions b s p else p.

Definition pci_init p : Z * pci D :=
  let p := mkPci (pci_devices p) 0 (ports p) in
  let p := loop_n 256 0 (λ b, loop_n 32 0 (scan_slot b)) p in
  (pci_count p, p).

Definition pci_device_count p : Z := pci_count p.

Definition pci_get_device (index : Z) p : option pci_device :=
  if (index <? 0) || (pci_count p <=? index) then None else Some (aget (pci_devices p) index).

Definition pci_read_config (dev : pci_device) (offset : Z) d : Z * D :=
  pci_config_read (bus dev) (slot dev) (func dev) (u8 offset) d.

Definition pci_write_config (dev : pci_device) (offset value : Z) d : D :=
  pci_config_write (bus dev) (slot dev) (func dev) (u8 offset) value d.

Definition pci_read_bar (dev : pci_device) (bar_index : Z) d : Z * D :=
  if (bar_index <? 0) || (5 <? bar_index) then (0, d)
  else pci_read_config dev (0x10 + bar_index * 4) d.
End pci.

(** ** What the ports lead to *)

(** [config d b s f r]: the word at the register [r], a multiple of 4. *)
Class ConfigBus (D : Type) `{!PortIO D} := {
  config : D → Z → Z → Z → Z → Z;
  config_range d b s f r : 0 ≤ config d b s f r < W32;
  config_read d b s f offset :
    0 ≤ b < 256 → 0 ≤ s < 32 → 0 ≤ f < 8 → 0 ≤ offset < 256 →
    fst (pci_config_read b s f offset d) = config d b s f (Z.land offset 0xFC);
  config_keep d b s f offset b' s' f' r :
    config (snd (pci_config_read b s f offset d)) b' s' f' r = config d b' s' f' r;
}.

(** ** The devices there are, as a list *)

Section enumeration.
Context {D : Type} `{ConfigBus D}.
Implicit Types (d : D) (p : pci D).

Definition present d (b s f : Z) : bool := negb (config d b s f 0 mod W16 =? 0xFFFF).
Definition multi_function d (b s : Z) : bool := Z.testbit (config d b s 0 12) 23.
Definition describe d (b s f : Z) : pci_device :=
  let id := config d b s f 0 in
  let cls := config d b s f 8 in
  mkPciDev b s f (id mod W16) (id / W16) (cls / 16777216) (cls / 65536 mod 256) (cls / 256 mod 256)
    (config d b s f 12 / 65536 mod 256).

(** Function 0 of a slot, and the others when function 0 says there are more. *)
Definition slot_devices d (b s : Z) : list pci_device :=
  if present d b s 0 then
    describe d b s 0 ::
    (if multi_function d b s then map (describe d b s) (List.filter (present d b s) (seqZ 1 7)) else [])
  else [].
Definition bus_devices d (b : Z) : list pci_device := flat_map (slot_devices d b) (seqZ 0 32).
Definition all_devices d : list pci_device := flat_map (bus_devices d) (seqZ 0 256).

(** ** The scan finds them *)

(** The table holds the first 64 devices of [l]; the bus still answers as [d0]. *)
Record listed (d0 : D) p (l : list pci_device) : Prop := {
  li_size : length (pci_devices p) = 64%nat;
  li_count : pci_count p = Z.min MAX_PCI_DEVICES (zlen l);
  li_table : take (length l) (take 64 (pci_devices p)) = take 64 l;
  li_bus : ∀ b s f r, config (ports p) b s f r = config d0 b s f r;
}.

Section scan.
Context (d0 : D).

Lemma listed_ports p l b s f offset :
  listed d0 p l → listed d0 (with_ports (snd (pci_config_read b s f offset (ports p))) p) l.
Proof.
  intros [L1 L2 L3 L4]. constructor; cbn [pci_devices pci_count ports with_ports]; [done.. |].
  intros b' s' f' r. by rewrite config_keep.
Qed.

Lemma read_listed p l b s f offset :
  listed d0 p l → 0 ≤ b < 256 → 0 ≤ s < 32 → 0 ≤ f < 8 → 0 ≤ offset < 256 →
  fst (pci_config_read b s f offset (ports p)) = config d0 b s f (Z.land offset 0xFC).
Proof. intros L Hb Hs Hf Ho. rewrite config_read by done. apply (li_bus _ _ _ L). Qed.

Lemma vendor_mod x : Z.land x 0xFFFF = x mod W16.
Proof. change 0xFFFF with (Z.ones 16). by rewrite Z.land_ones by lia. Qed.

Lemma byte_field x n : 0 ≤ n → Z.land (Z.shiftr x n) 0xFF = x / 2 ^ n mod 256.
Proof. intros Hn. change 0xFF with (Z.ones 8). by rewrite Z.land_ones, Z.shiftr_div_pow2 by lia. Qed.

Lemma listed_append p l dev d :
  listed d0 p l → zlen l < 64 → (∀ b s f r, config d b s f r = config d0 b s f r) →
  listed d0 (mkPci (aset (pci_devices p) (pci_count p) dev) (pci_count p + 1) d) (l ++ [dev]).
Proof.
  intros [L1 L2 L3 L4] Hl Hd. rewrite L2, Z.min_r by lia.
  constructor; cbn [pci_devices pci_count ports]; [by rewrite aset_length | rewrite length_app; cbn [length]; lia | | done].
  assert (Ea : aset (pci_devices p) (zlen l) dev = <[length l := dev]> (pci_devices p)).
  { unfold aset. zcase; [lia |]. f_equal. lia. }
  rewrite Ea, length_app. cbn [length]. rewrite Nat.add_1_r, (take_ge (l ++ [dev])) by (rewrite length_app; cbn [length]; lia).
  rewrite take_take, Nat.min_l by lia. rewrite (take_S_r _ _ dev) by (apply list_lookup_insert_eq; lia).
  rewrite take_insert_ge by lia. f_equal. rewrite take_take, Nat.min_l in L3 by lia.
  rewrite L3. apply take_ge. lia.
Qed.

Lemma listed_add p l b s f :
  listed d0 p l → 0 ≤ b < 256 → 0 ≤ s < 32 → 0 ≤ f < 8 → present d0 b s f = true →
  listed d0 (pci_add_device b s f p) (l ++ [describe d0 b s f]).
Proof.
  intros L Hb Hs Hf Hp. pose proof L as [L1 L2 L3 L4]. unfold pci_add_device.
  destruct (Z.leb_spec 64 (pci_count p)) as [Hfull | Hroom].
  { constructor; [done | rewrite length_app; cbn [length]; lia | | done].
    rewrite length_app. cbn [length]. rewrite take_app_le by lia. rewrite <- L3.
    rewrite !(take_ge (take 64 _)); [done | rewrite length_take; lia | rewrite length_take; lia]. }
  pose proof (read_listed p l b s f 0 L Hb Hs Hf ltac:(lia)) as R0. pose proof (listed_ports p l b s f 0 L) as P1.
  destruct (pci_config_read b s f 0 (ports p)) as [id d1]. cbn [fst snd] in R0, P1.
  rewrite vendor_mod. unfold present in Hp. change (Z.land 0 0xFC) with 0 in R0. rewrite R0 in *.
  apply negb_true_iff in Hp. rewrite Hp.
  pose proof (read_listed _ _ b s f 0x0B P1 Hb Hs Hf ltac:(lia)) as R1.
  pose proof (listed_ports _ _ b s f 0x0B P1) as P2. cbn [ports with_ports] in R1, P2.
  destruct (pci_config_read b s f 0x0B d1) as [cls d2]. cbn [fst snd] in R1, P2. change (Z.land 0x0B 0xFC) with 8 in R1.
  pose proof (read_listed _ _ b s f 0x0E P2 Hb Hs Hf ltac:(lia)) as R2.
  pose proof (listed_ports _ _ b s f 0x0E P2) as P3. cbn [ports with_ports] in R2, P3.
  destruct (pci_config_read b s f 0x0E d2) as [hdr d3]. cbn [fst snd] in R2, P3. change (Z.land 0x0E 0xFC) with 12 in R2.
  subst id cls hdr. pose proof (config_range d0 b s f 0) as G0. pose proof (config_range d0 b s f 8) as G1.
  rewrite !byte_field, !Z.shiftr_div_pow2 by lia.
  change (2 ^ 16) with 65536. change (2 ^ 24) with 16777216. change (2 ^ 8) with 256.
  assert (E0 : u16 (config d0 b s f 0 / 65536) = config d0 b s f 0 / W16) by (apply Z.mod_small; mlia).
  assert (E1 : u8 (config d0 b s f 8 / 16777216) = config d0 b s f 8 / 16777216) by (apply Z.mod_small; mlia).
  rewrite E0, E1. change (mkPciDev b s f _ _ _ _ _ _) with (describe d0 b s f). apply listed_append; [done | lia | apply P3].
Qed.

Lemma seqZ_snoc m k : 0 ≤ k → seqZ m (k + 1) = seqZ m k ++ [m + k].
Proof.
  intros Hk. rewrite <- (Z2Nat.id k) at 1 by done. change 1 with (Z.of_nat 1).
  rewrite <- Nat2Z.inj_add, Nat.add_1_r, seqZ_S, Z2Nat.id by done. done.
Qed.

Lemma listed_functions b s p l :
  listed d0 p l → 0 ≤ b < 256 → 0 ≤ s < 32 →
  listed d0 (scan_functions b s p) (l ++ map (describe d0 b s) (List.filter (present d0 b s) (seqZ 1 7))).
Proof.
  intros L Hb Hs. unfold scan_functions.
  apply (loop_n_ind (λ k p', listed d0 p' (l ++ map (describe d0 b s) (List.filter (present d0 b s) (seqZ 1 (k - 1))))) 7 1).
  { change (seqZ 1 (1 - 1)) with (@nil Z). by rewrite app_nil_r. }
  intros k p' Hk L'. replace (k + 1 - 1) with (k - 1 + 1) by lia. rewrite seqZ_snoc by lia.
  replace (1 + (k - 1)) with k by lia. rewrite List.filter_app, map_app, app_assoc. cbn [List.filter].
  pose proof (read_listed p' _ b s k 0 L' Hb Hs ltac:(lia) ltac:(lia)) as R. pose proof (listed_ports p' _ b s k 0 L') as P.
  destruct (pci_config_read b s k 0 (ports p')) as [id d]. cbn [fst snd] in R, P. change (Z.land 0 0xFC) with 0 in R.
  rewrite R, vendor_mod. change (negb (config d0 b s k 0 mod W16 =? 0xFFFF)) with (present d0 b s k).
  destruct (present d0 b s k) eqn:Hp; cbn [map]; [apply listed_add; (done || lia) | by rewrite app_nil_r].
Qed.

Lemma bit_test x n : 0 ≤ n → negb (Z.land x (2 ^ n) =? 0) = Z.testbit x n.
Proof.
  intros Hn. destruct (Z.testbit x n) eqn:E.
  - apply negb_true_iff, Z.eqb_neq. intros E0. assert (Z.testbit (Z.land x (2 ^ n)) n = true) as Ht.
    { by rewrite Z.land_spec, E, Z.pow2_bits_true. }
    by rewrite E0, Z.testbit_0_l in Ht.
  - apply negb_false_iff, Z.eqb_eq, Z.bits_inj_iff. intros k. rewrite Z.land_spec, Z.testbit_0_l.
    destruct (Z.eq_dec n k) as [<- | Hne]; [by rewrite E | by rewrite Z.pow2_bits_false, andb_false_r].
Qed.

Lemma listed_slot b s p l :
  listed d0 p l → 0 ≤ b < 256 → 0 ≤ s < 32 → listed d0 (scan_slot b s p) (l ++ slot_devices d0 b s).
Proof.
  intros L Hb Hs. unfold scan_slot, slot_devices.
  pose proof (read_listed p l b s 0 0 L Hb Hs ltac:(lia) ltac:(lia)) as R. pose proof (listed_ports p l b s 0 0 L) as P.
  destruct (pci_config_read b s 0 0 (ports p)) as [id d]. cbn [fst snd] in R, P. change (Z.land 0 0xFC) with 0 in R.
  rewrite R, vendor_mod. unfold present at 1. destruct (config d0 b s 0 0 mod W16 =? 0xFFFF) eqn:Hv; cbn [negb]; [by rewrite app_nil_r |].
  assert (L1 : listed d0 (pci_add_device b s 0 (with_ports d p)) (l ++ [describe d0 b s 0])).
  { apply listed_add; try done. unfold present. by rewrite Hv. }
  set (p1 := pci_add_device b s 0 (with_ports d p)) in *. clearbody p1.
  pose proof (read_listed p1 _ b s 0 0x0E L1 Hb Hs ltac:(lia) ltac:(lia)) as R1. pose proof (listed_ports p1 _ b s 0 0x0E L1) as P1.
  destruct (pci_config_read b s 0 0x0E (ports p1)) as [hdr d1]. cbn [fst snd] in R1, P1. change (Z.land 0x0E 0xFC) with 12 in R1.
  assert (Em : negb (Z.land (Z.land (Z.shiftr hdr 16) 0xFF) 0x80 =? 0) = multi_function d0 b s).
  { unfold multi_function. rewrite <- R1, <- Z.land_assoc. change (Z.land 0xFF 0x80) with (2 ^ 7).
    by rewrite bit_test, Z.shiftr_spec by lia. }
  rewrite Em. destruct (multi_function d0 b s).
  - rewrite cons_middle, app_assoc. by apply listed_functions.
  - done.
Qed.

Lemma listed_bus b p l :
  listed d0 p l → 0 ≤ b < 256 → listed d0 (loop_n 32 0 (scan_slot b) p) (l ++ bus_devices d0 b).
Proof.
  intros L Hb. apply (loop_n_ind (λ k p', listed d0 p' (l ++ flat_map (slot_devices d0 b) (seqZ 0 k))) 32 0).
  { by rewrite app_nil_r. }
  intros k p' Hk L'. rewrite seqZ_snoc, flat_map_app, app_assoc by lia. cbn [flat_map]. rewrite app_nil_r.
  apply listed_slot; [done | done | lia].
Qed.

Lemma listed_init p :
  length (pci_devices p) = 64%nat → (∀ b s f r, config (ports p) b s f r = config d0 b s f r) →
  listed d0 (snd (pci_init p)) (all_devices d0).
Proof.
  intros Hl Hc. unfold pci_init. cbn [snd].
  apply (loop_n_ind (λ k p', listed d0 p' (flat_map (bus_devices d0) (seqZ 0 k))) 256 0).
  { constructor; cbn [pci_devices pci_count ports]; done. }
  intros k p' Hk L'. rewrite seqZ_snoc, flat_map_app by lia. cbn [flat_map]. rewrite app_nil_r.
  apply listed_bus; [done | lia].
Qed.
End scan.

Lemma pci_init_run p :
  length (pci_devices p) = 64%nat →
  fst (pci_init p) = Z.min 64 (zlen (all_devices (ports p))) ∧ pci_device_count (snd (pci_init p)) = fst (pci_init p) ∧
  ∀ i, 0 ≤ i → pci_get_device i (snd (pci_init p)) = take 64 (all_devices (ports p)) !! Z.to_nat i.
Proof.
  intros Hl. destruct (listed_init (ports p) p Hl ltac:(done)) as [L1 L2 L3 _].
  assert (fst (pci_init p) = pci_count (snd (pci_init p))) as ->.
  { unfold pci_init. cbn [fst snd]. reflexivity. }
  set (p' := snd (pci_init p)) in *. set (l := all_devices (ports p)) in *. clearbody p' l.
  split; [done |]. split; [done |]. intros i Hi. unfold pci_get_device. rewrite L2.
  destruct (Z.ltb_spec i 0); [lia |]. destruct (Z.leb_spec (Z.min 64 (zlen l)) i) as [Hge | Hlt]; cbn [orb].
  - symmetry. apply lookup_ge_None. rewrite length_take. lia.
  - rewrite <- L3, lookup_take_lt, lookup_take_lt by lia. symmetry. apply lookup_aget. lia.
Qed.

(** C33: The scan of the bus agrees with its description: after [pci_init] the
    table lists, in order of bus, slot and function, the first 64 of the
    functions that answer with a vendor (functions 1 to 7 only of slots whose
    function 0 says it has several), each with its identifiers, class and
    header type; the result is their number, and [pci_get_device] returns them
    and nothing else. *)
Theorem pci_init_spec p :
  length (pci_devices p) = 64%nat →
  fst (pci_init p) = Z.min 64 (zlen (all_devices (ports p))) ∧
  ∀ i, 0 ≤ i → pci_get_device i (snd (pci_init p)) = take 64 (all_devices (ports p)) !! Z.to_nat i.
Proof.
  intros Hl. destruct (pci_init_run p Hl) as (H1 & _ & H2). by split.
Qed.
End enumeration.

(** ** A bus that decodes addresses as the host bridge does *)

Record pcibus := mkPciBus { regs : Z → Z → Z → Z → Z; addr : Z }.

Definition decoded {A} (a : Z) (k : Z → Z → Z → Z → A) : A :=
  k (a / 65536 mod 256) (a / 2048 mod 32) (a / 256 mod 8) (Z.land a 0xFC).
Definition same_reg (b s f r b' s' f' r' : Z) : bool := (b =? b') && (s =? s') && (f =? f') && (r =? r').

#[export] Instance pcibus_io : PortIO pcibus := {
  inb _ d := (0xFF, d);
  outb _ _ d := d;
  inw _ d := (0xFFFF, d);
  outw _ _ d := d;
  inl p d := (if (p =? PCI_CONFIG_DATA) && Z.testbit (addr d) 31 then u32 (decoded (addr d) (regs d)) else 0xFFFFFFFF, d);
  outl p v d :=
    if p =? PCI_CONFIG_ADDR then mkPciBus (regs d) v
    else if (p =? PCI_CONFIG_DATA) && Z.testbit (addr d) 31 then
      mkPciBus (λ b s f r, if decoded (addr d) (same_reg b s f r) then v else regs d b s f r) (addr d)
    else d;
}.

Lemma lor_shiftl x n y : 0 ≤ n → 0 ≤ y < 2 ^ n → Z.lor (Z.shiftl x n) y = x * 2 ^ n + y.
Proof.
  intros Hn Hy. assert (Hd : Z.land (Z.shiftl x n) y = 0).
  { apply Z.bits_inj_0. intros k. rewrite Z.land_spec. destruct (Z.lt_ge_cases k n).
    - by rewrite Z.shiftl_spec_low.
    - rewrite <- (Z.mod_small y (2 ^ n)), Z.mod_pow2_bits_high by lia. apply andb_false_r. }
  rewrite <- Z.lxor_lor, <- Z.add_nocarry_lxor by done. by rewrite Z.shiftl_mul_pow2.
Qed.

Lemma reg_mask a : Z.land a 0xFC = Z.land (a mod 256) 0xFC ∧ 0 ≤ Z.land a 0xFC < 256.
Proof.
  split.
  - change (a mod 256) with (a mod 2 ^ 8). by rewrite <- Z.land_ones, <- Z.land_assoc by lia.
  - assert (E : Z.land a 0xFC mod 2 ^ 8 = Z.land a 0xFC) by (by rewrite <- Z.land_ones, <- Z.land_assoc by lia).
    change (2 ^ 8) with 256 in E. mlia.
Qed.

Lemma config_address_sum b s f o :
  0 ≤ b < 256 → 0 ≤ s < 32 → 0 ≤ f < 8 →
  config_address b s f o = 2147483648 + b * 65536 + s * 2048 + f * 256 + Z.land o 0xFC.
Proof.
  intros Hb Hs Hf. destruct (reg_mask o) as [_ Ho].
  unfold config_address. rewrite Z.lor_comm, <- !Z.lor_assoc. change 0x80000000 with (Z.shiftl 1 31).
  rewrite (lor_shiftl f 8) by lia. change (2 ^ 8) with 256. rewrite (lor_shiftl s 11) by lia. change (2 ^ 11) with 2048.
  rewrite (lor_shiftl b 16) by lia. change (2 ^ 16) with 65536. rewrite (lor_shiftl 1 31) by lia.
  change (Z.shiftl 1 31) with 2147483648. lia.
Qed.

(** The bridge finds the register the driver asks for. *)
Lemma decoded_address {A} (k : Z → Z → Z → Z → A) b s f o :
  0 ≤ b < 256 → 0 ≤ s < 32 → 0 ≤ f < 8 →
  Z.testbit (config_address b s f o) 31 = true ∧
  decoded (config_address b s f o) k = k b s f (Z.land o 0xFC).
Proof.
  intros Hb Hs Hf. split; [unfold config_address; by rewrite Z.lor_spec, orb_true_r |].
  destruct (reg_mask o) as [_ Ho]. unfold decoded.
  assert (E : Z.land (config_address b s f o) 0xFC = Z.land o 0xFC).
  { rewrite (proj1 (reg_mask _)), config_address_sum by done.
    replace ((2147483648 + b * 65536 + s * 2048 + f * 256 + Z.land o 0xFC) mod 256) with (Z.land o 0xFC) by mlia.
    by rewrite <- Z.land_assoc. }
  rewrite E, config_address_sum by done. f_equal; mlia.
Qed.

#[export] Instance pcibus_config : ConfigBus pcibus.
Proof.
  refine {| config d b s f r := u32 (regs d b s f r) |}.
  - intros d b s f r. apply u32_range.
  - intros d b s f o Hb Hs Hf Ho. unfold pci_config_read. cbn [inl outl pcibus_io].
    change (0xCF8 =? 0xCF8) with true. cbn [addr regs]. destruct (decoded_address (regs d) b s f o Hb Hs Hf) as [-> ->]. done.
  - done.
Defined.

(** Writing a register and reading it back. *)
Lemma config_write_read dev offset v (d : pcibus) :
  0 ≤ bus dev < 256 → 0 ≤ slot dev < 32 → 0 ≤ func dev < 8 → 0 ≤ v < W32 →
  fst (pci_read_config dev offset (pci_write_config dev offset v d)) = v.
Proof.
  intros Hb Hs Hf Hv. unfold pci_read_config, pci_write_config, pci_config_read, pci_config_write.
  cbn [inl outl pcibus_io]. change (0xCF8 =? 0xCF8) with true. change (0xCFC =? 0xCF8) with false.
  change (0xCFC =? 0xCFC) with true. cbn [addr regs andb].
  set (a := config_address (bus dev) (slot dev) (func dev) (u8 offset)).
  destruct (decoded_address (A := Z) (λ _ _ _ _, 0) (bus dev) (slot dev) (func dev) (u8 offset) Hb Hs Hf) as [Ht _].
  fold a in Ht. rewrite Ht. cbn [addr regs andb fst]. unfold decoded, same_reg. cbn [regs]. rewrite !Z.eqb_refl. by apply u32_id.
Qed.

(** ** Witness *)

(** One network card in slot 3 of bus 0. *)
Definition one_card : pcibus :=
  mkPciBus (λ b s f r,
    if (b =? 0) && (s =? 3) && (f =? 0) then
      if r =? 0 then 0x813910EC else if r =? 8 then 0x02000010 else if r =? 0x10 then 0xC001 else 0
    else 0xFFFFFFFF) 0.

Lemma pci_init_spec_witness :
  pci_get_device 0 (snd (pci_init (mkPci (replicate 64 zeroed) 0 one_card))) =
  Some (mkPciDev 0 3 0 0x10EC 0x8139 2 0 0 0).
Proof.
  destruct (pci_init_spec (mkPci (replicate 64 zeroed) 0 one_card)) as [_ Hget]; [reflexivity |].
  rewrite Hget by lia. vm_compute. reflexivity.
Defined.
End Pci.
