(* ===== verification/Rtl8139.v ===== *)
(** * The network card driver: [drivers/rtl8139.cpp]

    The card is behind the ports ([PortIO], through the PCI bus of [Pci]); its
    private data [rtl_priv] and the transmit and receive buffers are blocks of
    the kernel heap. The card fills the receive buffer by itself, so the
    contents of that buffer are those of memory when [rtl8139_poll] is called.
    At the end the driver becomes the network card of the stack ([Nic]). *)

From S2P Require Import Prelude Interfaces Machine Libk Pmm Kmalloc Ports Pci Net.

Module Rtl8139.
Import Libk Kmalloc Pci.

Notation RTL8139_MAX_DEVICES := 4 (only parsing).
Notation RTL8139_VENDOR := 0x10EC (only parsing).
Notation RTL8139_DEVICE := 0x8139 (only parsing).
Notation RX_BUF_SIZE := 8192 (only parsing).
Notation TX_BUF_SIZE := 1536 (only parsing).
Notation SIZEOF_PRIV := 28 (only parsing).
Notation RTL_IDR0 := 0x00 (only parsing).
Notation RTL_TSD0 := 0x10 (only parsing).
Notation RTL_TSAD0 := 0x20 (only parsing).
Notation RTL_RBSTART := 0x30 (only parsing).
Notation RTL_CR := 0x37 (only parsing).
Notation RTL_IMR := 0x3C (only parsing).
Notation RTL_TCR := 0x40 (only parsing).
Notation RTL_RCR := 0x44 (only parsing).
Notation CR_RST := 0x10 (only parsing).
Notation CR_RE := 0x08 (only parsing).
Notation CR_TE := 0x04 (only parsing).

Record rtl8139_dev := mkRtlDev { io_base : Z; mac : list Z; initialized : bool }.
#[export] Instance rtl8139_dev_zero : ZeroInit rtl8139_dev := mkRtlDev 0 (replicate 6 0) false.

(** The fields of [rtl_priv] at an address. *)
Definition rx_buffer (m : memory) (p : Z) : Z := rd32 m p.
Definition tx_buffer (m : memory) (p i : Z) : Z := rd32 m (p + 4 + 4 * i).
Definition tx_cur (m : memory) (p : Z) : Z := rd32 m (p + 20).
Definition rx_offset (m : memory) (p : Z) : Z := rd32 m (p + 24).
Definition set_rx_buffer (p v : Z) (m : memory) : memory := wr32 m p v.
Definition set_tx_buffer (p i v : Z) (m : memory) : memory := wr32 m (p + 4 + 4 * i) v.
Definition set_tx_cur (p v : Z) (m : memory) : memory := wr32 m (p + 20) v.
Definition set_rx_offset (p v : Z) (m : memory) : memory := wr32 m (p + 24) v.

(** The globals of the file, the bus and the machine. *)
Record rtl (Pg D : Type) := mkRtl {
  rtl_devices : list rtl8139_dev;
  rtl_count : Z;
  privs : list Z;
  pcis : pci D;
  mach : machine Pg;
}.
Arguments mkRtl {Pg D} _ _ _ _ _.
Arguments rtl_devices {Pg D} _.
Arguments rtl_count {Pg D} _.
Arguments privs {Pg D} _.
Arguments pcis {Pg D} _.
Arguments mach {Pg D} _.

Section rtl.
Context {Pg D : Type} `{!PageAllocOps Pg, !PortIO D}.
Implicit Types (r : rtl Pg D) (d : D) (st : machine Pg) (dev : rtl8139_dev).

Definition with_mach st r : rtl Pg D := mkRtl (rtl_devices r) (rtl_count r) (privs r) (pcis r) st.
Definition with_bus d r : rtl Pg D := mkRtl (rtl_devices r) (rtl_count r) (privs r) (with_ports d (pcis r)) (mach r).
Definition with_dev (i : Z) dev r : rtl Pg D :=
  mkRtl (aset (rtl_devices r) i dev) (rtl_count r) (privs r) (pcis r) (mach r).
Definition with_count (n : Z) r : rtl Pg D := mkRtl (rtl_devices r) n (privs r) (pcis r) (mach r).
Definition with_priv (i p : Z) r : rtl Pg D :=
  mkRtl (rtl_devices r) (rtl_count r) (aset (privs r) i p) (pcis r) (mach r).
Definition bus_of r : D := ports (pcis r).

(** Registers are ports relative to the base of the device. *)
Definition reg dev (n : Z) : Z := u16 (io_base dev + u8 n).
Definition rtl_write8 dev (n v : Z) d : D := outb (reg dev n) (u8 v) d.
Definition rtl_write16 dev (n v : Z) d : D := outw (reg dev n) (u16 v) d.
Definition rtl_write32 dev (n v : Z) d : D := outl (reg dev n) (u32 v) d.
Definition rtl_read8 dev (n : Z) d : Z * D := inb (reg dev n) d.
Definition rtl_read16 dev (n : Z) d : Z * D := inw (reg dev n) d.

(** The loop that waits for the reset, [left] being [1000 - timeout]; false when
    [timeout] reached 1000. *)
Fixpoint wait_reset (left : nat) dev d : bool * D :=
  let '(v, d) := rtl_read8 dev RTL_CR d in
  match left with
  | O => (false, d)
  | S l => if Z.land v CR_RST =? 0 then (true, d) else wait_reset l dev d
  end.

Fixpoint read_mac (n : nat) (i : Z) dev d : list Z * D :=
  match n with
  | O => ([], d)
  | S n' => let '(v, d) := rtl_read8 dev (RTL_IDR0 + i) d in
            let '(l, d) := read_mac n' (i + 1) dev d in (v :: l, d)
  end.

(** [for(j < n) kfree(priv->tx_buffer[j]);] from [j] on. *)
Fixpoint free_tx (fuel n : nat) (j priv : Z) st : outcome (machine Pg) :=
  match n with
  | O => Ok st
  | S n' => let! st := kfree fuel (tx_buffer (mem st) priv j) st in free_tx fuel n' (j + 1) priv st
  end.

(** The loop that allocates the transmit buffers from [i] on, [n] of them;
    false after a failure, when everything is given back. *)
Fixpoint alloc_tx (fuel n : nat) (i priv : Z) st : outcome (bool * machine Pg) :=
  match n with
  | O => Ok (true, st)
  | S n' =>
      let! (b, st) := kmalloc fuel TX_BUF_SIZE st in
      let st := with_mem (set_tx_buffer priv i b (mem st)) st in
      if b =? 0 then
        let! st := free_tx fuel (Z.to_nat i) 0 priv st in
        let! st := kfree fuel (rx_buffer (mem st) priv) st in
        let! st := kfree fuel priv st in
        Ok (false, st)
      else alloc_tx fuel n' (i + 1) priv (with_mem (memset (mem st) b 0 TX_BUF_SIZE) st)
  end.

(** The registers set before transmission is possible. *)
Definition setup_card dev (rx : Z) d : D :=
  let d := rtl_write32 dev RTL_RBSTART rx d in
  let d := rtl_write16 dev RTL_IMR 0x0005 d in
  let d := rtl_write32 dev RTL_RCR 0x00000F0F d in
  let d := rtl_write32 dev RTL_TCR 0x00000000 d in
  rtl_write8 dev RTL_CR (Z.lor CR_TE CR_RE) d.

(** The memory of a device: its private data and buffers. *)
Definition setup_memory (fuel : nat) (index : Z) dev r : outcome (Z * rtl Pg D) :=
  let! (priv, st) := kmalloc fuel SIZEOF_PRIV (mach r) in
  if priv =? 0 then Ok (-1, with_mach st r)
  else
    let! (rx, st) := kmalloc fuel (RX_BUF_SIZE + 16) st in
    let st := with_mem (set_rx_buffer priv rx (mem st)) st in
    if rx =? 0 then let! st := kfree fuel priv st in Ok (-1, with_mach st r)
    else
      let st := with_mem (memset (mem st) rx 0 (RX_BUF_SIZE + 16)) st in
      let r := with_bus (setup_card dev rx (bus_of r)) r in
      let! (ok, st) := alloc_tx fuel 4 0 priv st in
      if negb ok then Ok (-1, with_mach st r)
      else
        let st := with_mem (set_rx_offset priv 0 (set_tx_cur priv 0 (mem st))) st in
        let r := with_priv index priv (with_mach st r) in
        Ok (0, with_dev index (mkRtlDev (io_base dev) (mac dev) true) r).

Definition rtl8139_init_one (fuel : nat) (pci_dev : pci_device) (index : Z) r : outcome (Z * rtl Pg D) :=
  let old := aget (rtl_devices r) index in
  let dev := mkRtlDev (io_base old) (mac old) false in
  let r := with_dev index dev r in
  let '(bar, d) := pci_read_bar pci_dev 0 (bus_of r) in
  let r := with_bus d r in
  if bar =? 0 then Ok (-1, r)
  else
    let dev := mkRtlDev (Z.land bar 0xFFFC) (mac dev) false in
    let d := rtl_write8 dev RTL_CR CR_RST (bus_of r) in
    let '(ok, d) := wait_reset 1000 dev d in
    if negb ok then Ok (-1, with_bus d (with_dev index dev r))
    else
      let '(m, d) := read_mac 6 0 dev d in
      let dev := mkRtlDev (io_base dev) m false in
      setup_memory fuel index dev (with_bus d (with_dev index dev r)).

(** The loop over the devices of the bus, from number [i] on. *)
Fixpoint init_cards (fuel n : nat) (i : Z) r : outcome (rtl Pg D) :=
  match n with
  | O => Ok r
  | S n' =>
      if (i <? pci_device_count (pcis r)) && (rtl_count r <? RTL8139_MAX_DEVICES) then
        match pci_get_device i (pcis r) with
        | Some pd =>
            if (vendor_id pd =? RTL8139_VENDOR) && (device_id pd =? RTL8139_DEVICE) then
              let! (ret, r) := rtl8139_init_one fuel pd (rtl_count r) r in
              init_cards fuel n' (i + 1) (if ret =? 0 then with_count (rtl_count r + 1) r else r)
            else init_cards fuel n' (i + 1) r
        | None => Ok r
        end
      else Ok r
  end.

(** At most [MAX_PCI_DEVICES] rounds. *)
Definition rtl8139_init_all (fuel : nat) r : outcome (Z * rtl Pg D) :=
  let! r := init_cards fuel 64 0 (with_count 0 r) in
  Ok (rtl_count r, r).

Definition rtl8139_count r : Z := rtl_count r.

(** A [const rtl8139_dev*] is the number of the entry of [rtl_devices]. *)
Definition rtl8139_get_device (index : Z) r : option Z :=
  if (index <? 0) || (rtl_count r <=? index) then None else Some index.

(** [for(i < rtl_count) if(&rtl_devices[i] == dev)], else 0. *)
Definition priv_of (dev : Z) r : Z :=
  aget (privs r) (if (0 <=? dev) && (dev <? rtl_count r) then dev else 0).

(** [data] is an address, 0 when null. *)
Definition rtl8139_send_packet (dev : option Z) (data len : Z) r : Z * rtl Pg D :=
  match dev with
  | None => (-1, r)
  | Some i =>
      let v := aget (rtl_devices r) i in
      if negb (initialized v) || (data =? 0) || (len <=? 0) || (TX_BUF_SIZE <? len) then (-1, r)
      else
        let p := priv_of i r in
        let m := mem (mach r) in
        let cur := tx_cur m p in
        let m := memcpy m (tx_buffer m p cur) data len in
        let tx_addr := tx_buffer m p (tx_cur m p) in
        let d := rtl_write32 v (RTL_TSAD0 + tx_cur m p * 4) tx_addr (bus_of r) in
        let d := rtl_write32 v (RTL_TSD0 + tx_cur m p * 4) len d in
        let m := set_tx_cur p ((tx_cur m p + 1) mod 4) m in
        (len, with_bus d (with_mach (with_mem m (mach r)) r))
  end.

(** [buf] is the address of the buffer; the value of [*len] goes in and out. *)
Definition rtl8139_poll (dev : option Z) (buf len : Z) r : Z * Z * rtl Pg D :=
  match dev with
  | None => (-1, len, r)
  | Some i =>
      let v := aget (rtl_devices r) i in
      if negb (initialized v) || (buf =? 0) then (-1, len, r)
      else
        let p := priv_of i r in
        let m := mem (mach r) in
        let '(cbr, d) := rtl_read16 v 0x3A (bus_of r) in
        let r := with_bus d r in
        let offset := rx_offset m p in
        if cbr <=? offset then (0, len, r)
        else
          let rx_status := rd16 m (rx_buffer m p + offset) in
          let rx_size := rd16 m (rx_buffer m p + offset + 2) in
          if Z.land rx_status 1 =? 0 then (0, len, r)
          else
            let rx_size := Z.land rx_size 0x3FFF in
            if rx_size <? 4 then (0, len, r)
            else
              let rx_size := rx_size - 4 in
              let rx_size := if u16 len <? rx_size then u16 len else rx_size in
              let m := loop_n (Z.to_nat rx_size) 0
                         (λ j m, wr8 m (buf + j) (rd8 m (rx_buffer m p + offset + 4 + j))) m in
              let offset := Z.land (offset + rx_size + 4 + 3) (Z.lnot 3) in
              let m := set_rx_offset p offset m in
              let d := rtl_write16 v 0x38 (offset - 16) (bus_of r) in
              (1, rx_size, with_bus d (with_mach (with_mem m (mach r)) r))
  end.
End rtl.

(** ** Memory of a card *)

(** The regions a card owns: private data, receive buffer, transmit buffers. *)
Definition regions (m : memory) (p : Z) : list block :=
  [(p, SIZEOF_PRIV); (rx_buffer m p, RX_BUF_SIZE + 16); (tx_buffer m p 0, TX_BUF_SIZE);
   (tx_buffer m p 1, TX_BUF_SIZE); (tx_buffer m p 2, TX_BUF_SIZE); (tx_buffer m p 3, TX_BUF_SIZE)].

Record card_wf (m : memory) (p : Z) : Prop := {
  cw_disj : pw_disj (regions m p);
  cw_range : Forall (λ b, 0 < b.1 ∧ b.1 + b.2 ≤ W32) (regions m p);
  cw_cur : 0 ≤ tx_cur m p < 4;
}.

Definition sub_block (c b : block) : Prop := b.1 ≤ c.1 ∧ c.1 + c.2 ≤ b.1 + b.2.

Lemma pw_disj_sub l' l : Forall2 sub_block l' l → pw_disj l → pw_disj l'.
Proof.
  induction 1 as [| c b l' l Hc Hl IH]; [done |]. intros [Hb Hd]. split; [| by apply IH].
  rewrite Forall_forall in *. intros x Hx. apply list_elem_of_lookup in Hx as [i Hi].
  destruct (Forall2_lookup_l _ _ _ _ _ Hl Hi) as (y & Hy & Hs). apply list_elem_of_lookup_2 in Hy.
  specialize (Hb y Hy). unfold disj, sub_block in *. lia.
Qed.

#[local] Opaque memset kmalloc kfree.

Section setup.
Context {Pg D : Type} `{PageAlloc Pg, !PortIO D}.
Implicit Types (st : machine Pg) (r : rtl Pg D).

(** A word written into a live block, by its owner. *)
Lemma heap_inv_wr32 st fl live b a v :
  heap_inv st fl live → b ∈ live → b.1 + 16 ≤ a → a + 4 ≤ b.1 + b.2 → heap_inv (with_mem (wr32 (mem st) a v) st) fl live.
Proof.
  intros Hinv Hb H1 H2. apply heap_inv_client; [done |]. intros x Hx. apply rd8_wr32_ne. specialize (Hx b Hb). lia.
Qed.

Lemma heap_inv_memset st fl live b a v n :
  heap_inv st fl live → b ∈ live → b.1 + 16 ≤ a → a + n ≤ b.1 + b.2 → heap_inv (with_mem (memset (mem st) a v n) st) fl live.
Proof.
  intros Hinv Hb H1 H2. apply heap_inv_client; [done |]. intros x Hx. apply rd8_memset_out. specialize (Hx b Hb). lia.
Qed.

(** What a successful allocation of a buffer leaves, for the blocks before it. *)
Lemma kmalloc_block st fl live size fuel p st' :
  heap_inv st fl live → 0 < size ≤ W32 - 24 → kmalloc fuel size st = Ok (p, st') → p ≠ 0 →
  ∃ fl' n, heap_inv st' fl' ((p - 16, n) :: live) ∧ size + 20 ≤ n ∧
    ∀ b x, b ∈ live → b.1 ≤ x < b.1 + b.2 → rd8 (mem st') x = rd8 (mem st) x.
Proof.
  intros Hinv Hs E Hp. destruct (kmalloc_ok st fl live size fuel p st' Hinv ltac:(lia) E) as (fl' & [(-> & _) | (n & _ & Hinv' & Hn & _)] & Hl); [done |].
  exists fl', n. split; [done |]. split; [| by apply (keeps_live st fl live _ fl')].
  destruct (kmalloc_needed_spec size) as (_ & _ & Hle); lia.
Qed.

Lemma alloc_tx_ok fuel n i priv n0 st fl live st' :
  heap_inv st fl live → (priv - 16, n0) ∈ live → 48 ≤ n0 → 0 ≤ i → i + Z.of_nat n ≤ 4 →
  alloc_tx fuel n i priv st = Ok (true, st') →
  ∃ fl' txs, heap_inv st' fl' (txs ++ live) ∧
    Forall2 (λ c j, c.1 + 16 = tx_buffer (mem st') priv j ∧ TX_BUF_SIZE + 20 ≤ c.2) txs (rev (seqZ i (Z.of_nat n))) ∧
    ∀ b x, b ∈ live → b.1 ≤ x < b.1 + b.2 → ¬ priv + 4 + 4 * i ≤ x < priv + 20 → rd8 (mem st') x = rd8 (mem st) x.
Proof.
  revert i st fl live. induction n as [|n IH]; intros i st fl live Hinv Hp Hn0 Hi Hle E.
  { injection E as <-. exists fl, []. split; [done |]. split; [constructor | done]. }
  cbn [alloc_tx] in E. apply obind_Ok in E as ([b st1] & E1 & E).
  destruct (Z.eqb_spec b 0) as [-> | Hb].
  { exfalso. apply obind_Ok in E as (? & _ & E). apply obind_Ok in E as (? & _ & E). by apply obind_Ok in E as (? & _ & E). }
  destruct (kmalloc_block _ _ _ 1536 _ _ _ Hinv ltac:(lia) E1 Hb) as (fl1 & nb & Hinv1 & Hnb & Hl1).
  set (st2 := with_mem (memset _ b 0 1536) _) in E.
  assert (Hinv2 : heap_inv st2 fl1 ((b - 16, nb) :: live)).
  { unfold st2. apply (heap_inv_memset _ _ _ (b - 16, nb)); [| set_solver + | cbn; lia | cbn; lia].
    apply (heap_inv_wr32 _ _ _ (priv - 16, n0)); [done | set_solver | cbn; lia | cbn; lia]. }
  assert (Hl2 : ∀ c x, c ∈ live → c.1 ≤ x < c.1 + c.2 → ¬ priv + 4 + 4 * i ≤ x < priv + 20 → rd8 (mem st2) x = rd8 (mem st) x).
  { intros c x Hc Hx Hout. unfold st2. cbn [mem with_mem]. rewrite rd8_memset_out.
    - unfold set_tx_buffer. rewrite rd8_wr32_ne by lia. by apply (Hl1 c).
    - pose proof (hi_disj _ _ _ Hinv1) as (_ & [Hd _] & _)%pw_disj_app. rewrite Forall_forall in Hd.
      specialize (Hd c Hc). unfold disj in Hd. cbn in Hd. lia. }
  destruct (IH (i + 1) st2 fl1 _ Hinv2 ltac:(set_solver) Hn0 ltac:(lia) ltac:(lia) E) as (fl' & txs & Hinv' & Htx & Hrest).
  exists fl', (txs ++ [(b - 16, nb)]). rewrite <- app_assoc. split; [done |]. split.
  - rewrite seqZ_cons by lia. cbn [rev]. replace (Z.pred (Z.of_nat (S n))) with (Z.of_nat n) by lia.
    apply Forall2_app; [done |]. constructor; [| constructor]. cbn [fst snd]. split; [| lia].
    transitivity (tx_buffer (mem st2) priv i).
    + unfold st2, tx_buffer, set_tx_buffer. cbn [mem with_mem]. rewrite rd32_memset_out, rd32_wr32_eq.
      * rewrite u32_id; [lia |]. pose proof (hi_blocks _ _ _ Hinv1) as Hok. rewrite Forall_forall in Hok.
        destruct (Hok (b - 16, nb) ltac:(set_solver +)) as (? & _ & ? & _). cbn [fst snd] in *. lia.
      * pose proof (hi_disj _ _ _ Hinv1) as (_ & [Hd _] & _)%pw_disj_app. rewrite Forall_forall in Hd.
        specialize (Hd _ Hp). unfold disj in Hd. cbn in Hd. lia.
    + symmetry. apply rd32_ext. intros x Hx. apply (Hrest (priv - 16, n0)); [set_solver | cbn; lia | lia].
  - intros c x Hc Hx Hout. rewrite (Hrest c); [by apply (Hl2 c) | set_solver | done | lia].
Qed.

(** The card reads and writes only memory of its own: the regions lie inside
    blocks that were free before. *)
Record card_set_up st (live : list block) st' (p : Z) : Prop := {
  cs_wf : card_wf (mem st') p;
  cs_start : tx_cur (mem st') p = 0 ∧ rx_offset (mem st') p = 0;
  cs_heap : ∃ fl blocks, heap_inv st' fl (blocks ++ live) ∧
    Forall2 (λ c b, sub_block c (b.1 + 16, b.2 - 20)) (rev (regions (mem st') p)) blocks;
  cs_live : ∀ b x, b ∈ live → b.1 ≤ x < b.1 + b.2 → rd8 (mem st') x = rd8 (mem st) x;
}.

Lemma priv_fields_final m p :
  let m' := set_rx_offset p 0 (set_tx_cur p 0 m) in
  rx_buffer m' p = rx_buffer m p ∧ (∀ j, 0 ≤ j < 4 → tx_buffer m' p j = tx_buffer m p j) ∧
  tx_cur m' p = 0 ∧ rx_offset m' p = 0.
Proof.
  unfold rx_buffer, tx_buffer, tx_cur, rx_offset, set_rx_offset, set_tx_cur. cbv zeta.
  split_and!; [by rewrite !rd32_wr32_ne by lia | intros j Hj; by rewrite !rd32_wr32_ne by lia | |].
  - rewrite rd32_wr32_ne by lia. by rewrite rd32_wr32_eq.
  - by rewrite rd32_wr32_eq.
Qed.

Lemma card_from_blocks st0 live st fl p n0 n1 txs :
  heap_inv st fl (txs ++ (rx_buffer (mem st) p - 16, n1) :: (p - 16, n0) :: live) →
  48 ≤ n0 → RX_BUF_SIZE + 36 ≤ n1 →
  Forall2 (λ c j, c.1 + 16 = tx_buffer (mem st) p j ∧ TX_BUF_SIZE + 20 ≤ c.2) txs [3; 2; 1; 0] →
  (∀ b x, b ∈ live → b.1 ≤ x < b.1 + b.2 → rd8 (mem st) x = rd8 (mem st0) x) →
  card_set_up st0 live (with_mem (set_rx_offset p 0 (set_tx_cur p 0 (mem st))) st) p.
Proof.
  intros Hinv Hn0 Hn1 Htx Hsame. destruct (priv_fields_final (mem st) p) as (E1 & E2 & E3 & E4).
  set (m' := set_rx_offset p 0 (set_tx_cur p 0 (mem st))) in *.
  assert (Hinv' : heap_inv (with_mem m' st) fl (txs ++ (rx_buffer (mem st) p - 16, n1) :: (p - 16, n0) :: live)).
  { apply heap_inv_client; [done |]. intros x Hx. specialize (Hx (p - 16, n0) ltac:(set_solver +)). cbn in Hx.
    unfold m', set_rx_offset, set_tx_cur. by rewrite !rd8_wr32_ne by lia. }
  set (blocks := txs ++ [(rx_buffer (mem st) p - 16, n1); (p - 16, n0)]).
  assert (Hb : txs ++ (rx_buffer (mem st) p - 16, n1) :: (p - 16, n0) :: live = blocks ++ live).
  { unfold blocks. by rewrite <- app_assoc. }
  rewrite Hb in Hinv'.
  assert (Hsub : Forall2 (λ c b, sub_block c (b.1 + 16, b.2 - 20)) (rev (regions m' p)) blocks).
  { unfold regions. cbn [rev app]. rewrite E1, !E2 by lia. unfold blocks.
    inversion Htx as [|c3 ? t3 ? H3 Ht2]; subst. inversion Ht2 as [|c2 ? t2 ? H2 Ht1]; subst.
    inversion Ht1 as [|c1 ? t1 ? H1 Ht0]; subst. inversion Ht0 as [|c0 ? t0 ? H0 Hnil]; subst. inversion Hnil; subst.
    cbn [app]. repeat constructor; cbn [fst snd]; lia. }
  pose proof (hi_blocks _ _ _ Hinv') as [_ [Hok _]%Forall_app]%Forall_app.
  constructor; cbn [mem with_mem]; [constructor | done | by exists fl, blocks |].
  - rewrite (Permutation_rev (regions m' p)). apply (pw_disj_sub _ blocks).
    + eapply Forall2_impl; [exact Hsub |]. intros c b. unfold sub_block. cbn [fst snd]. lia.
    + by pose proof (hi_disj _ _ _ Hinv') as (_ & [? _]%pw_disj_app & _)%pw_disj_app.
  - apply Forall_forall. intros c Hc. assert (Hc' : c ∈ rev (regions m' p)) by (by rewrite <- Permutation_rev).
    apply list_elem_of_lookup in Hc' as [i Hi]. destruct (Forall2_lookup_l _ _ _ _ _ Hsub Hi) as (b & Hbi & Hs).
    apply list_elem_of_lookup_2 in Hbi. rewrite Forall_forall in Hok. destruct (Hok b Hbi) as (? & _ & ? & _).
    unfold sub_block in Hs. cbn [fst snd] in Hs. lia.
  - rewrite E3. lia.
  - intros b x Hbl Hx. unfold m', set_rx_offset, set_tx_cur. rewrite !rd8_wr32_ne; [by apply (Hsame b) | |].
    all: pose proof (hi_disj _ _ _ Hinv') as (_ & (_ & _ & Hd)%pw_disj_app & _)%pw_disj_app.
    all: specialize (Hd (p - 16, n0) b ltac:(unfold blocks; set_solver +) Hbl); unfold disj in Hd; cbn in Hd; lia.
Qed.

Lemma setup_memory_ok fuel index dev r r' fl live :
  heap_inv (mach r) fl live → 0 ≤ index < zlen (privs r) → 0 ≤ index < zlen (rtl_devices r) →
  setup_memory fuel index dev r = Ok (0, r') →
  card_set_up (mach r) live (mach r') (aget (privs r') index) ∧
  aget (rtl_devices r') index = mkRtlDev (io_base dev) (mac dev) true ∧ rtl_count r' = rtl_count r.
Proof.
  intros Hinv Hip Hid E. unfold setup_memory in E. apply obind_Ok in E as ([priv st1] & E1 & E).
  destruct (Z.eqb_spec priv 0) as [-> | Hp]; [done |]. apply obind_Ok in E as ([rx st2] & E2 & E).
  destruct (Z.eqb_spec rx 0) as [-> | Hrx]; [by apply obind_Ok in E as (? & _ & E) |].
  apply obind_Ok in E as ([ok st4] & E4 & E). destruct ok; [| done]. cbn [negb] in E. apply Ok_pair in E as [_ <-].
  destruct (kmalloc_block _ _ _ 28 _ _ _ Hinv ltac:(lia) E1 Hp) as (fl1 & n0 & Hinv1 & Hn0 & Hl1).
  destruct (kmalloc_block _ _ _ 8208 _ _ _ Hinv1 ltac:(lia) E2 Hrx) as (fl2 & n1 & Hinv2 & Hn1 & Hl2).
  pose proof (hi_disj _ _ _ Hinv2) as (_ & [Hd1 [Hd0 _]] & _)%pw_disj_app. rewrite Forall_forall in Hd0, Hd1.
  pose proof (Hd1 (priv - 16, n0) ltac:(set_solver +)) as Hd. unfold disj in Hd. cbn [fst snd] in Hd.
  pose proof (hi_blocks _ _ _ Hinv2) as Hok. rewrite Forall_forall in Hok.
  destruct (Hok (rx - 16, n1) ltac:(set_solver +)) as (Hrx1 & _ & Hrx2 & _). cbn [fst snd] in Hrx1, Hrx2.
  set (st3 := with_mem (memset _ rx 0 _) _) in E4.
  assert (Hinv3 : heap_inv st3 fl2 ((rx - 16, n1) :: (priv - 16, n0) :: live)).
  { apply (heap_inv_memset _ _ _ (rx - 16, n1)); [| set_solver + | cbn; lia | cbn; lia].
    apply (heap_inv_wr32 _ _ _ (priv - 16, n0)); [done | set_solver + | cbn; lia | cbn; lia]. }
  destruct (alloc_tx_ok fuel 4 0 priv n0 st3 fl2 _ st4 Hinv3 ltac:(set_solver +) ltac:(lia) ltac:(lia) ltac:(lia) E4)
    as (fl4 & txs & Hinv4 & Htx & Hrest). change (rev (seqZ 0 (Z.of_nat 4))) with [3; 2; 1; 0] in Htx.
  assert (Erx : rx_buffer (mem st4) priv = rx).
  { transitivity (rx_buffer (mem st3) priv).
    - apply rd32_ext. intros x Hx. apply (Hrest (priv - 16, n0)); [set_solver + | cbn; lia | lia].
    - unfold st3, rx_buffer, set_rx_buffer. cbn [mem with_mem]. rewrite rd32_memset_out by lia.
      rewrite rd32_wr32_eq. apply u32_id. lia. }
  cbn [mach privs rtl_devices rtl_count with_dev with_priv with_mach with_bus]. rewrite !aget_aset_eq by done.
  split; [| done]. rewrite <- Erx in Hinv4. apply (card_from_blocks (mach r) live st4 fl4 priv n0 n1 txs Hinv4); [lia | lia | exact Htx |].
  intros b x Hb Hx. rewrite (Hrest b); [| set_solver | done |].
  - unfold st3. cbn [mem with_mem]. specialize (Hd0 b Hb). pose proof (Hd1 b ltac:(set_solver)) as Hd1b.
    unfold disj in Hd0, Hd1b. cbn in Hd0, Hd1b. rewrite rd8_memset_out by lia. unfold set_rx_buffer. rewrite rd8_wr32_ne by lia.
    rewrite (Hl2 b); [by apply (Hl1 b) | set_solver | done].
  - specialize (Hd0 b Hb). unfold disj in Hd0. cbn in Hd0. lia.
Qed.

(** C34: A card that [rtl8139_init_one] brings up works in memory of its own:
    its private data, its receive buffer and its four transmit buffers are
    pairwise disjoint, lie in heap blocks that were not handed out before, and
    no byte of a block handed out before has changed; the heap stays well
    formed, transmission starts with buffer 0 and reception at offset 0. *)
Theorem rtl8139_init_one_spec fuel pd index r r' fl live :
  heap_inv (mach r) fl live → 0 ≤ index < zlen (privs r) → 0 ≤ index < zlen (rtl_devices r) →
  rtl8139_init_one fuel pd index r = Ok (0, r') →
  card_set_up (mach r) live (mach r') (aget (privs r') index) ∧
  initialized (aget (rtl_devices r') index) = true ∧
  io_base (aget (rtl_devices r') index) = Z.land (fst (pci_read_bar pd 0 (bus_of r))) 0xFFFC.
Proof.
  intros Hinv Hip Hid E. unfold rtl8139_init_one in E. cbv zeta in E.
  change (bus_of (with_dev index _ r)) with (bus_of r) in E.
  destruct (pci_read_bar pd 0 (bus_of r)) as [bar d]. destruct (bar =? 0); [done |].
  destruct (wait_reset 1000 _ _) as [ok d1]. destruct ok; [| done]. cbn [negb] in E.
  destruct (read_mac 6 0 _ d1) as [m d2].
  apply setup_memory_ok with (fl := fl) (live := live) in E as (Hc & Hdev & _); [| done | done |].
  - split; [exact Hc |]. by rewrite Hdev.
  - cbn [rtl_devices with_bus with_dev]. rewrite !aset_length. done.
Qed.
End setup.

(** ** Sending *)

Section sending.
Context {Pg : Type} `{!PageAllocOps Pg} {answer : Z → Z}.
Implicit Types r : rtl Pg (buslog answer).

Definition send_all (i : Z) (frames : list (Z * Z)) r : rtl Pg (buslog answer) :=
  foldl (λ r f, snd (rtl8139_send_packet (Some i) f.1 f.2 r)) r frames.

(** The bytes of a frame to send: not null, of a size the card takes, outside of
    the card's memory. *)
Definition frame_ok (m : memory) (p : Z) (f : Z * Z) : Prop :=
  0 < f.1 ∧ 0 < f.2 ≤ TX_BUF_SIZE ∧ Forall (disj f) (regions m p).

(** A card that is up: its device entry and its memory. *)
Definition card_up (i : Z) r : Prop :=
  0 ≤ i < rtl_count r ∧ initialized (aget (rtl_devices r) i) = true ∧
  card_wf (mem (mach r)) (aget (privs r) i).

Lemma priv_of_up i r : card_up i r → priv_of i r = aget (privs r) i.
Proof. intros [[H0 H1] _]. unfold priv_of. destruct (Z.leb_spec 0 i), (Z.ltb_spec i (rtl_count r)); done || lia. Qed.

(** The transmit buffer number [c], and the two register writes for it. *)
Definition slot_writes (i c len : Z) r : list (Z * Z) :=
  let v := aget (rtl_devices r) i in
  [(reg v (RTL_TSAD0 + c * 4), u32 (tx_buffer (mem (mach r)) (aget (privs r) i) c));
   (reg v (RTL_TSD0 + c * 4), u32 len)].

Lemma pw_disj_lookup (l : list block) i j b c :
  pw_disj l → l !! i = Some b → l !! j = Some c → i ≠ j → disj b c.
Proof.
  revert i j. induction l as [|a l IH]; intros i j Hd Hi Hj Hne; [done |]. destruct Hd as [Ha Hd].
  rewrite Forall_forall in Ha. destruct i as [|i], j as [|j]; cbn in Hi, Hj; [done | | |].
  - injection Hi as <-. apply Ha. by apply list_elem_of_lookup_2 in Hj.
  - injection Hj as <-. symmetry. apply Ha. by apply list_elem_of_lookup_2 in Hi.
  - apply (IH i j); [done | done | done | lia].
Qed.

Lemma regions_tx m p c : 0 ≤ c < 4 → regions m p !! Z.to_nat (2 + c) = Some (tx_buffer m p c, 1536).
Proof.
  intros Hc. assert (Hcs : c = 0 ∨ c = 1 ∨ c = 2 ∨ c = 3) by lia. by destruct Hcs as [-> | [-> | [-> | ->]]].
Qed.

Lemma tx_region m p c : card_wf m p → 0 ≤ c < 4 →
  0 < tx_buffer m p c ∧ tx_buffer m p c + 1536 ≤ W32 ∧ disj (tx_buffer m p c, 1536) (p, 28) ∧
  disj (tx_buffer m p c, 1536) (rx_buffer m p, 8208) ∧
  ∀ c', 0 ≤ c' < 4 → c' ≠ c → disj (tx_buffer m p c, 1536) (tx_buffer m p c', 1536).
Proof.
  intros [Hd Hr _] Hc. pose proof (regions_tx m p c Hc) as Ec.
  rewrite Forall_lookup in Hr. destruct (Hr _ _ Ec) as [R1 R2]. cbn [fst snd] in R1, R2.
  split_and!; [done | done | | |].
  - apply (pw_disj_lookup (regions m p) (Z.to_nat (2 + c)) 0); [done | done | done | lia].
  - apply (pw_disj_lookup (regions m p) (Z.to_nat (2 + c)) 1); [done | done | done | lia].
  - intros c' Hc' Hne. apply (pw_disj_lookup (regions m p) (Z.to_nat (2 + c)) (Z.to_nat (2 + c')));
      [done | done | by apply regions_tx | lia].
Qed.

Lemma frame_region m p f c : frame_ok m p f → 0 ≤ c < 4 → disj f (tx_buffer m p c, 1536).
Proof.
  intros (_ & _ & Hd) Hc. rewrite Forall_lookup in Hd. apply (Hd _ _ (regions_tx m p c Hc)).
Qed.

(** The memory after a frame was sent: as before outside of the buffer in turn
    and the word [tx_cur]. *)
Lemma send_packet_run i f r (p := aget (privs r) i) (m := mem (mach r)) (c := tx_cur m p) :
  card_up i r → frame_ok m p f →
  ∃ m', rtl8139_send_packet (Some i) f.1 f.2 r =
      (f.2, with_bus (mkBus (written (bus_of r) ++ slot_writes i c f.2 r)) (with_mach (with_mem m' (mach r)) r)) ∧
    (∀ j, 0 ≤ j < f.2 → rd8 m' (tx_buffer m p c + j) = rd8 m (f.1 + j)) ∧
    (∀ x, ¬ (tx_buffer m p c ≤ x < tx_buffer m p c + 1536) → ¬ (p + 20 ≤ x < p + 24) → rd8 m' x = rd8 m x) ∧
    tx_cur m' p = (c + 1) mod 4.
Proof.
  intros Hup Hf. pose proof Hup as (_ & Hi & Hwf). fold p m in Hwf. pose proof Hf as (Hf0 & Hf1 & _).
  assert (Hc : 0 ≤ c < 4) by apply (cw_cur _ _ Hwf).
  destruct (tx_region m p c Hwf Hc) as (T1 & T2 & T3 & _ & _). pose proof (frame_region m p f c Hf Hc) as T4.
  unfold disj in T3, T4. cbn [fst snd] in T3, T4.
  unfold rtl8139_send_packet. rewrite Hi, priv_of_up by done. fold p m. cbn [negb orb].
  destruct (Z.eqb_spec f.1 0); [lia |]. destruct (Z.leb_spec f.2 0); [lia |]. destruct (Z.ltb_spec 1536 f.2); [lia |].
  cbn [orb]. fold c. set (m1 := memcpy m (tx_buffer m p c) f.1 f.2).
  assert (Hm1 : ∀ x, ¬ (tx_buffer m p c ≤ x < tx_buffer m p c + 1536) → rd8 m1 x = rd8 m x).
  { intros x Hx. unfold m1. rewrite rd8_memcpy by lia.
    destruct (Z.leb_spec (tx_buffer m p c) x), (Z.ltb_spec x (tx_buffer m p c + f.2)); done || lia. }
  assert (Hm1c : ∀ j, 0 ≤ j < f.2 → rd8 m1 (tx_buffer m p c + j) = rd8 m (f.1 + j)).
  { intros j Hj. unfold m1. rewrite rd8_memcpy by lia.
    destruct (Z.leb_spec (tx_buffer m p c) (tx_buffer m p c + j)), (Z.ltb_spec (tx_buffer m p c + j) (tx_buffer m p c + f.2)); try lia.
    cbn [andb]. f_equal. lia. }
  assert (Ec : tx_cur m1 p = c) by (apply rd32_ext; intros x Hx; apply Hm1; lia).
  assert (Et : tx_buffer m1 p c = tx_buffer m p c) by (apply rd32_ext; intros x Hx; apply Hm1; lia).
  clearbody m1. rewrite Ec, Et. exists (set_tx_cur p ((c + 1) mod 4) m1). split_and!.
  - unfold slot_writes. fold p m. unfold rtl_write32. cbn [outl buslog_io]. unfold log. cbn [written].
    rewrite <- app_assoc. reflexivity.
  - intros j Hj. unfold set_tx_cur. rewrite rd8_wr32_ne by lia. by apply Hm1c.
  - intros x H1 H2. unfold set_tx_cur. rewrite rd8_wr32_ne by lia. by apply Hm1.
  - unfold tx_cur, set_tx_cur. rewrite rd32_wr32_eq. apply u32_id. mlia.
Qed.

(** Two states with the same card at the same place. *)
Record same_card (i : Z) r r1 : Prop := {
  sc_dev : aget (rtl_devices r1) i = aget (rtl_devices r) i;
  sc_priv : aget (privs r1) i = aget (privs r) i;
  sc_count : rtl_count r1 = rtl_count r;
  sc_regions : regions (mem (mach r1)) (aget (privs r) i) = regions (mem (mach r)) (aget (privs r) i);
}.

Lemma same_card_tx i r r1 c : same_card i r r1 → 0 ≤ c < 4 →
  tx_buffer (mem (mach r1)) (aget (privs r) i) c = tx_buffer (mem (mach r)) (aget (privs r) i) c.
Proof.
  intros S Hc. pose proof (regions_tx (mem (mach r)) (aget (privs r) i) c Hc) as E. rewrite <- (sc_regions _ _ _ S) in E.
  rewrite regions_tx in E by done. by injection E.
Qed.

Lemma regions_keep m m' p c :
  card_wf m p → 0 ≤ c < 4 →
  (∀ x, ¬ (tx_buffer m p c ≤ x < tx_buffer m p c + 1536) → ¬ (p + 20 ≤ x < p + 24) → rd8 m' x = rd8 m x) →
  regions m' p = regions m p.
Proof.
  intros Hwf Hc Hs. destruct (tx_region m p c Hwf Hc) as (_ & _ & T3 & _). unfold disj in T3. cbn [fst snd] in T3.
  assert (E : ∀ a, p ≤ a → a + 4 ≤ p + 20 → rd32 m' a = rd32 m a).
  { intros a H1 H2. apply rd32_ext. intros x Hx. apply Hs; lia. }
  unfold regions, rx_buffer, tx_buffer. by rewrite !E by lia.
Qed.

(** The register writes of a sequence of frames, from buffer [c] on. *)
Fixpoint all_writes (i c : Z) (frames : list (Z * Z)) r : list (Z * Z) :=
  match frames with
  | [] => []
  | f :: fs => slot_writes i c f.2 r ++ all_writes i ((c + 1) mod 4) fs r
  end.

Lemma all_writes_same i c frames r r1 :
  same_card i r r1 → 0 ≤ c < 4 → all_writes i c frames r1 = all_writes i c frames r.
Proof.
  intros S. revert c. induction frames as [|f fs IH]; intros c Hc; [done |]. cbn [all_writes]. rewrite IH by mlia.
  unfold slot_writes. by rewrite (sc_dev _ _ _ S), (sc_priv _ _ _ S), (same_card_tx i r r1 c S Hc).
Qed.

(** One frame sent. *)
Lemma send_step i f r (p := aget (privs r) i) (m := mem (mach r)) (c := tx_cur m p) :
  card_up i r → frame_ok m p f →
  let r1 := snd (rtl8139_send_packet (Some i) f.1 f.2 r) in
  card_up i r1 ∧ same_card i r r1 ∧ tx_cur (mem (mach r1)) p = (c + 1) mod 4 ∧
  written (bus_of r1) = written (bus_of r) ++ slot_writes i c f.2 r ∧
  (∀ j, 0 ≤ j < f.2 → rd8 (mem (mach r1)) (tx_buffer m p c + j) = rd8 m (f.1 + j)) ∧
  (∀ x, ¬ (tx_buffer m p c ≤ x < tx_buffer m p c + 1536) → ¬ (p + 20 ≤ x < p + 24) →
     rd8 (mem (mach r1)) x = rd8 m x).
Proof.
  intros Hup Hf. destruct (send_packet_run i f r Hup Hf) as (m' & -> & H1 & H2 & H3). fold p m c in H1, H2, H3.
  pose proof Hup as (Hi & Hini & Hwf). fold p m in Hwf. pose proof (cw_cur _ _ Hwf) as Hc. fold c in Hc.
  pose proof (regions_keep m m' p c Hwf Hc H2) as Er.
  split_and!; [| | exact H3 | reflexivity | exact H1 | exact H2].
  - split; [exact Hi | split; [exact Hini |]]. change (card_wf m' p). destruct Hwf as [W1 W2 W3].
    constructor; [by rewrite Er | by rewrite Er | rewrite H3; mlia].
  - constructor; [done.. | exact Er].
Qed.

Lemma frame_ok_same i r r1 f :
  same_card i r r1 → frame_ok (mem (mach r)) (aget (privs r) i) f → frame_ok (mem (mach r1)) (aget (privs r1) i) f.
Proof. intros S (H1 & H2 & H3). unfold frame_ok. by rewrite (sc_priv _ _ _ S), (sc_regions _ _ _ S). Qed.

(** A sequence of frames: where each went, and what did not change. *)
Lemma send_all_run i frames r (p := aget (privs r) i) (m := mem (mach r)) (c := tx_cur m p) :
  card_up i r → Forall (frame_ok m p) frames → (length frames ≤ 4)%nat →
  card_up i (send_all i frames r) ∧
  written (bus_of (send_all i frames r)) = written (bus_of r) ++ all_writes i c frames r ∧
  (∀ k f, frames !! k = Some f → ∀ j, 0 ≤ j < f.2 →
     rd8 (mem (mach (send_all i frames r))) (tx_buffer m p ((c + Z.of_nat k) mod 4) + j) = rd8 m (f.1 + j)) ∧
  (∀ x, ¬ (p + 20 ≤ x < p + 24) →
     (∀ k, (k < length frames)%nat →
        ¬ (tx_buffer m p ((c + Z.of_nat k) mod 4) ≤ x < tx_buffer m p ((c + Z.of_nat k) mod 4) + 1536)) →
     rd8 (mem (mach (send_all i frames r))) x = rd8 m x).
Proof.
  revert r p m c. induction frames as [|f fs IH]; intros r p m c Hup Hall Hlen.
  { split_and!; [done | by rewrite app_nil_r | done | done]. }
  apply Forall_cons in Hall as [Hf Hall]. pose proof Hup as (_ & _ & Hwf). fold p m in Hwf.
  pose proof (cw_cur _ _ Hwf) as Hc. fold c in Hc.
  destruct (send_step i f r Hup Hf) as (Hup1 & HS & E1 & E2 & E3 & E4). fold p m c in E1, E2, E3, E4.
  change (send_all i (f :: fs) r) with (send_all i fs (snd (rtl8139_send_packet (Some i) f.1 f.2 r))).
  set (r1 := snd (rtl8139_send_packet (Some i) f.1 f.2 r)) in *. clearbody r1.
  assert (Hall1 : Forall (frame_ok (mem (mach r1)) (aget (privs r1) i)) fs).
  { eapply Forall_impl; [exact Hall |]. intros g. by apply frame_ok_same. }
  cbn [length] in Hlen.
  specialize (IH r1 Hup1 Hall1 ltac:(lia)). rewrite (sc_priv _ _ _ HS) in IH. fold p in IH. rewrite E1 in IH.
  destruct IH as (I1 & I2 & I3 & I4).
  assert (Etx : ∀ k, tx_buffer (mem (mach r1)) p (((c + 1) mod 4 + Z.of_nat k) mod 4) =
                     tx_buffer m p ((c + Z.of_nat (S k)) mod 4)).
  { intros k. rewrite (same_card_tx i r r1) by (done || mlia). f_equal. mlia. }
  split_and!; [done | | |].
  - rewrite I2, E2, (all_writes_same i _ _ r r1 HS) by mlia. by rewrite <- app_assoc.
  - intros k g Hk j Hj. destruct k as [|k]; cbn in Hk.
    + injection Hk as ->. replace ((c + Z.of_nat 0) mod 4) with c by mlia. rewrite I4; [by apply E3 | |].
      * destruct (tx_region m p c Hwf Hc) as (_ & _ & T & _). unfold disj in T. cbn in T. destruct Hf as (_ & ? & _). lia.
      * intros k Hk. rewrite Etx. destruct (tx_region m p c Hwf Hc) as (_ & _ & _ & _ & T).
        specialize (T ((c + Z.of_nat (S k)) mod 4) ltac:(mlia) ltac:(mlia)). unfold disj in T. cbn in T. destruct Hf as (_ & ? & _). lia.
    + rewrite <- Etx, (I3 k g Hk j Hj). rewrite Forall_forall in Hall. pose proof (list_elem_of_lookup_2 _ _ _ Hk) as Hg.
      specialize (Hall g Hg). pose proof (frame_region m p g c Hall Hc) as T. destruct Hall as (_ & _ & Hreg).
      rewrite Forall_lookup in Hreg. pose proof (Hreg 0%nat (p, 28) eq_refl) as T0. unfold disj in T, T0. cbn in T, T0.
      apply E4; lia.
  - intros x Hx Hout. pose proof (Hout 0%nat ltac:(cbn; lia)) as H0. replace ((c + Z.of_nat 0) mod 4) with c in H0 by mlia.
    rewrite I4; [by apply E4 | done |]. intros k Hk. rewrite Etx. apply Hout. cbn. lia.
Qed.

(** Up to four frames may be in flight. Sending one to four frames from
    memory outside of the card's tells the card, frame by frame in turn, the
    address of a transmit buffer and the length of the frame; and when all are
    sent every buffer still holds its frame unchanged. *)
Theorem rtl8139_four_in_flight i frames r (p := aget (privs r) i) (c := tx_cur (mem (mach r)) p) :
  card_up i r → Forall (frame_ok (mem (mach r)) p) frames → (length frames ≤ 4)%nat →
  written (bus_of (send_all i frames r)) = written (bus_of r) ++ all_writes i c frames r ∧
  ∀ k f, frames !! k = Some f → ∀ j, 0 ≤ j < f.2 →
    rd8 (mem (mach (send_all i frames r))) (tx_buffer (mem (mach r)) p ((c + Z.of_nat k) mod 4) + j) =
    rd8 (mem (mach r)) (f.1 + j).
Proof. intros Hup Hf Hl. destruct (send_all_run i frames r Hup Hf Hl) as (_ & H1 & H2 & _). done. Qed.
End sending.

(** ** Receiving *)

Section receiving.
Context {Pg D : Type} `{!PageAllocOps Pg, !PortIO D}.
Implicit Types r : rtl Pg D.

(** A frame as the card stores it: a status word with bit 0 set, the length of
    the data and its checksum, the data, and four bytes of checksum. *)
Definition rx_frame (m : memory) (a : Z) (data crc : list Z) : Prop :=
  Z.odd (rd16 m a) = true ∧ rd16 m (a + 2) = zlen data + 4 ∧
  (∀ j, 0 ≤ j < zlen data → rd8 m (a + 4 + j) = aget data j) ∧
  (∀ j, 0 ≤ j < 4 → rd8 m (a + 4 + zlen data + j) = aget crc j).

(** A card that is up, with a buffer of the caller outside of its memory. *)
Definition can_poll (i buf len : Z) r : Prop :=
  let p := priv_of i r in
  let rx := rx_buffer (mem (mach r)) p in
  initialized (aget (rtl_devices r) i) = true ∧ 0 < buf ∧ 0 ≤ len < W16 ∧
  disj (buf, len) (p, SIZEOF_PRIV) ∧ disj (buf, len) (rx, RX_BUF_SIZE + 16) ∧
  disj (p, SIZEOF_PRIV) (rx, RX_BUF_SIZE + 16).

Definition cbr_of (i : Z) r : Z := fst (rtl_read16 (aget (rtl_devices r) i) 0x3A (bus_of r)).

Lemma align4 x : Z.land (x + 3) (Z.lnot 3) = (x + 3) / 4 * 4.
Proof.
  change 3 with (Z.ones 2) at 2. rewrite <- Z.ldiff_land, Z.ldiff_ones_r by lia.
  by rewrite Z.shiftl_mul_pow2, Z.shiftr_div_pow2 by lia.
Qed.

(** The copy loop: the bytes at the source do not change, so all arrive. *)
Lemma copy_loop p o (n : nat) buf m :
  disj (buf, Z.of_nat n) (p, 28) → disj (buf, Z.of_nat n) (rx_buffer m p + o + 4, Z.of_nat n) →
  let m' := loop_n n 0 (λ j m, wr8 m (buf + j) (rd8 m (rx_buffer m p + o + 4 + j))) m in
  (∀ x, ¬ buf ≤ x < buf + Z.of_nat n → rd8 m' x = rd8 m x) ∧
  (∀ j, 0 ≤ j < Z.of_nat n → rd8 m' (buf + j) = rd8 m (rx_buffer m p + o + 4 + j)).
Proof.
  unfold disj. cbn [fst snd]. intros H1 H2.
  apply (loop_n_ind (λ k m', (∀ x, ¬ buf ≤ x < buf + k → rd8 m' x = rd8 m x) ∧
    (∀ j, 0 ≤ j < k → rd8 m' (buf + j) = rd8 m (rx_buffer m p + o + 4 + j))) n 0).
  { split; [done | lia]. }
  intros k m' Hk [Ho Hi].
  assert (Ex : rx_buffer m' p = rx_buffer m p) by (apply rd32_ext; intros x Hx; apply Ho; lia).
  rewrite Ex. split.
  - intros x Hx. rewrite rd8_wr8_ne by lia. apply Ho. lia.
  - intros j Hj. rewrite rd8_wr8. destruct (Z.eqb_spec (buf + k) (buf + j)) as [E | Hne].
    + assert (j = k) as -> by lia. rewrite Ho by lia. apply u8_id, rd8_range.
    + apply Hi. lia.
Qed.

Lemma odd_bit x : (Z.land x 1 =? 0) = negb (Z.odd x).
Proof.
  change 1 with (Z.ones 1). rewrite Z.land_ones by lia. change (2 ^ 1) with 2. rewrite Zmod_odd. by destruct (Z.odd x).
Qed.

Lemma poll_run i buf len r data crc (p := priv_of i r) (m := mem (mach r)) (o := rx_offset m p) :
  can_poll i buf len r → o < cbr_of i r → rx_frame m (rx_buffer m p + o) data crc →
  zlen data ≤ len → zlen data + 4 < 0x4000 → 0 ≤ o → o + zlen data + 8 ≤ RX_BUF_SIZE + 16 →
  ∃ r', rtl8139_poll (Some i) buf len r = (1, zlen data, r') ∧
    (∀ j, 0 ≤ j < zlen data → rd8 (mem (mach r')) (buf + j) = aget data j) ∧
    rx_offset (mem (mach r')) p = (o + zlen data + 4 + 3) / 4 * 4 ∧
    rtl_devices r' = rtl_devices r ∧ rtl_count r' = rtl_count r ∧ privs r' = privs r ∧
    (∀ x, ¬ buf ≤ x < buf + len → ¬ p + 24 ≤ x < p + 28 → rd8 (mem (mach r')) x = rd8 m x) ∧
    bus_of r' = rtl_write16 (aget (rtl_devices r) i) 0x38 ((o + zlen data + 4 + 3) / 4 * 4 - 16)
                  (snd (rtl_read16 (aget (rtl_devices r) i) 0x3A (bus_of r))).
Proof.
  intros (Hini & Hbuf & Hlen & Hd1 & Hd2 & Hd3) Hcbr (Hs & Hz & Hdata & _) Hdl Hd14 Ho Hfit.
  fold p m in Hd1, Hd2, Hd3. unfold disj in Hd1, Hd2, Hd3. cbn [fst snd] in Hd1, Hd2, Hd3.
  unfold rtl8139_poll. rewrite Hini. destruct (Z.eqb_spec buf 0); [lia |]. cbn [negb orb].
  unfold cbr_of in Hcbr. destruct (rtl_read16 (aget (rtl_devices r) i) 0x3A (bus_of r)) as [cbr d]. cbn [fst snd] in *.
  fold p m o. destruct (Z.leb_spec cbr o); [lia |]. rewrite odd_bit, Hs. cbn [negb]. rewrite Hz.
  assert (E14 : Z.land (zlen data + 4) 0x3FFF = zlen data + 4).
  { change 0x3FFF with (Z.ones 14). rewrite Z.land_ones by lia. apply Z.mod_small. change (2 ^ 14) with 16384. lia. }
  rewrite E14. destruct (Z.ltb_spec (zlen data + 4) 4); [lia |]. replace (zlen data + 4 - 4) with (zlen data) by lia.
  assert (El : u16 len = len) by (apply Z.mod_small; lia). rewrite El.
  destruct (Z.ltb_spec len (zlen data)); [lia |]. rewrite align4, Nat2Z.id.
  destruct (copy_loop p o (length data) buf m) as [Hout Hin]; [unfold disj; cbn; lia | unfold disj; cbn; lia |].
  set (m1 := loop_n (length data) 0 _ m) in *. clearbody m1.
  eexists. split; [reflexivity |]. unfold bus_of. cbn [mach mem with_bus with_mach with_mem rtl_devices rtl_count privs pcis ports with_ports].
  split_and!; [| | done | done | done | | done].
  - intros j Hj. unfold set_rx_offset. rewrite rd8_wr32_ne by lia. rewrite Hin by done. by apply Hdata.
  - unfold rx_offset, set_rx_offset. rewrite rd32_wr32_eq. apply u32_id. mlia.
  - intros x Hx1 Hx2. unfold set_rx_offset. rewrite rd8_wr32_ne by lia. apply Hout. lia.
Qed.
End receiving.

(** [rtl8139_poll] delivers a frame the card has stored: the result is 1, the
    length is that of the data, the data is in the caller's buffer, and nothing
    but the buffer and the receive offset has changed; the card is told the new
    offset, less 16. *)
Theorem rtl8139_poll_frame {Pg D : Type} `{!PageAllocOps Pg, !PortIO D} i buf len (r : rtl Pg D) data crc
    (p := priv_of i r) (m := mem (mach r)) (o := rx_offset m p) :
  can_poll i buf len r → o < cbr_of i r → rx_frame m (rx_buffer m p + o) data crc →
  zlen data ≤ len → zlen data + 4 < 0x4000 → 0 ≤ o → o + zlen data + 8 ≤ RX_BUF_SIZE + 16 →
  ∃ r', rtl8139_poll (Some i) buf len r = (1, zlen data, r') ∧
    (∀ j, 0 ≤ j < zlen data → rd8 (mem (mach r')) (buf + j) = aget data j) ∧
    (∀ x, ¬ buf ≤ x < buf + len → ¬ p + 24 ≤ x < p + 28 → rd8 (mem (mach r')) x = rd8 m x) ∧
    bus_of r' = rtl_write16 (aget (rtl_devices r) i) 0x38 (rx_offset (mem (mach r')) p - 16)
                  (snd (rtl_read16 (aget (rtl_devices r) i) 0x3A (bus_of r))).
Proof.
  intros H1 H2 H3 H4 H5 H6 H7. destruct (poll_run i buf len r data crc H1 H2 H3 H4 H5 H6 H7)
    as (r' & E & Hd & Ho & _ & _ & _ & Hs & Hb).
  exists r'. split_and!; [exact E | exact Hd | exact Hs |]. rewrite Hb. by f_equal; rewrite <- Ho.
Qed.

(** The receive offset is advanced by four bytes too few: after a frame has
    been delivered it points at the checksum of that frame and not at the next
    frame. When two frames are in the buffer and the checksum of the first one
    is even, the second call finds no frame although there is one. *)
Theorem rtl8139_poll_misses_next {Pg} `{!PageAllocOps Pg} {answer : Z → Z} i buf len
    (r : rtl Pg (buslog answer)) data crc data2 crc2
    (p := priv_of i r) (m := mem (mach r)) (o := rx_offset m p) :
  can_poll i buf len r → o + zlen data + 8 < cbr_of i r →
  rx_frame m (rx_buffer m p + o) data crc →
  rx_frame m (rx_buffer m p + (o + zlen data + 8)) data2 crc2 →
  zlen data ≤ len → zlen data + 4 < 0x4000 → 0 ≤ o → o + zlen data + 8 ≤ RX_BUF_SIZE →
  o mod 4 = 0 → zlen data mod 4 = 0 → Z.odd (aget crc 0) = false →
  ∃ r1, rtl8139_poll (Some i) buf len r = (1, zlen data, r1) ∧
    rx_offset (mem (mach r1)) p = o + zlen data + 4 ∧
    ∃ r2, rtl8139_poll (Some i) buf (zlen data) r1 = (0, zlen data, r2).
Proof.
  intros Hcp Hcbr Hf _ Hdl Hd14 Ho Hfit Ho4 Hd4 Hcrc.
  destruct (poll_run i buf len r data crc Hcp) as (r1 & E & _ & Eo & Ed & Ec & Ep & Hs & Hb); fold p; fold m; fold o; [lia | exact Hf | lia | lia | lia | lia |].
  exists r1. split; [exact E |]. fold p m o in Eo, Hs. assert (Eo' : rx_offset (mem (mach r1)) p = o + zlen data + 4) by mlia.
  split; [exact Eo' |]. unfold rtl8139_poll.
  assert (Epr : priv_of i r1 = p) by (unfold p, priv_of; by rewrite Ec, Ep). rewrite Ed, Epr.
  destruct Hcp as (-> & Hbuf & Hlen & Hd1 & Hd2 & Hd3). fold p m in Hd1, Hd2, Hd3. unfold disj in Hd1, Hd2, Hd3. cbn [fst snd] in Hd1, Hd2, Hd3.
  destruct (Z.eqb_spec buf 0); [lia |]. cbn [negb orb].
  assert (Er : fst (rtl_read16 (aget (rtl_devices r) i) 0x3A (bus_of r1)) = cbr_of i r) by (rewrite Hb; done).
  destruct (rtl_read16 (aget (rtl_devices r) i) 0x3A (bus_of r1)) as [cbr d]. cbn [fst] in Er. subst cbr.
  rewrite Eo'. destruct (Z.leb_spec (cbr_of i r) (o + zlen data + 4)); [lia |].
  assert (Erx : rx_buffer (mem (mach r1)) p = rx_buffer m p) by (apply rd32_ext; intros x Hx; apply Hs; lia).
  assert (Est : Z.odd (rd16 (mem (mach r1)) (rx_buffer m p + (o + zlen data + 4))) = false).
  { destruct Hf as (_ & _ & _ & Hc). unfold rd16. rewrite (Hs (rx_buffer m p + (o + zlen data + 4))) by lia.
    replace (rx_buffer m p + (o + zlen data + 4)) with (rx_buffer m p + o + 4 + zlen data + 0) at 1 by lia. rewrite Hc by lia.
    rewrite Z.odd_add, Hcrc, Z.odd_mul. done. }
  rewrite Erx, odd_bit, Est. cbn [negb]. by eexists.
Qed.

(** ** The driver as the card of the network stack *)

Section nic.
Context {Pg D : Type} `{!PageAllocOps Pg, !PortIO D}.
Implicit Types r : rtl Pg D.

(** Where the callers in [net/] have their frame and receive buffers. *)
Variables frame_buf poll_buf : Z.

Definition rtl_nic : Nic (rtl Pg D) := {|
  nic_present r := match rtl8139_get_device 0 r with Some _ => true | None => false end;
  nic_mac r := mac (aget (rtl_devices r) 0);
  nic_send f r :=
    rtl8139_send_packet (rtl8139_get_device 0 r) frame_buf (zlen f)
      (with_mach (with_mem (store_bytes (mem (mach r)) frame_buf f) (mach r)) r);
  nic_poll len r :=
    let '(ret, n, r) := rtl8139_poll (rtl8139_get_device 0 r) poll_buf len r in
    (if 0 <? ret then Some (map (λ j, rd8 (mem (mach r)) (poll_buf + j)) (seqZ 0 n)) else None, r);
|}.

(** The stack polls the bytes of the frame the card has stored. *)
Lemma nic_poll_frame len r data crc (p := priv_of 0 r) (m := mem (mach r)) (o := rx_offset m p) :
  0 < rtl_count r → can_poll 0 poll_buf len r → o < cbr_of 0 r → rx_frame m (rx_buffer m p + o) data crc →
  zlen data ≤ len → zlen data + 4 < 0x4000 → 0 ≤ o → o + zlen data + 8 ≤ RX_BUF_SIZE + 16 →
  fst (@nic_poll _ rtl_nic len r) = Some data.
Proof.
  intros Hn H1 H2 H3 H4 H5 H6 H7. unfold nic_poll, rtl_nic, rtl8139_get_device.
  destruct (Z.leb_spec (rtl_count r) 0); [lia |]. cbn [orb Z.ltb Z.compare].
  destruct (poll_run 0 poll_buf len r data crc H1 H2 H3 H4 H5 H6 H7) as (r' & -> & Hd & _). cbn [fst].
  f_equal. change (0 <? 1) with true. cbv iota. f_equal. apply list_eq. intros k. rewrite list_lookup_fmap.
  destruct (Nat.lt_ge_cases k (length data)) as [Hk | Hk].
  - rewrite lookup_seqZ_lt by lia. cbn. rewrite Z.add_0_l, Hd by lia.
    rewrite <- (lookup_aget data (Z.of_nat k)) by lia. by rewrite Nat2Z.id.
  - rewrite lookup_seqZ_ge by lia. symmetry. by apply lookup_ge_None.
Qed.
End nic.

(** ** Witnesses *)

Import Pmm.

(** A card at the ports from 0xC000 on, behind its PCI registers: the bar is
    0xC001, the reset is over at once and the receive buffer is filled up to
    [cbr]. *)
Definition card_ports (cbr p : Z) : Z := if p =? 0xCFC then 0xC001 else if p =? 0xC03A then cbr else 0.
Definition card_bus (cbr : Z) : pci (buslog (card_ports cbr)) := mkPci [] 0 (mkBus []).

Lemma rtl8139_init_one_spec_witness :
  ∃ st r', kmalloc_init boot_machine = Ok st ∧
    rtl8139_init_one 100 (mkPciDev 0 3 0 0x10EC 0x8139 2 0 0 0) 0
      (mkRtl (replicate 4 zeroed) 0 (replicate 4 0) (card_bus 0) st) = Ok (0, r') ∧
    card_wf (mem (mach r')) (aget (privs r') 0) ∧ io_base (aget (rtl_devices r') 0) = 0xC000.
Proof.
  destruct (run_Ok (let! st := kmalloc_init boot_machine in
    rtl8139_init_one 100 (mkPciDev 0 3 0 0x10EC 0x8139 2 0 0 0) 0
      (mkRtl (replicate 4 zeroed) 0 (replicate 4 0) (card_bus 0) st)) (λ c, c.1 =? 0)) as ([z r'] & E & Hz);
    [vm_compute; reflexivity |].
  cbn [fst] in Hz. apply Z.eqb_eq in Hz. subst z.
  destruct boot_heap as (st & E0 & Hinv). rewrite E0 in E. cbn [obind] in E.
  exists st, r'. split; [exact E0 |]. split; [exact E |].
  destruct (rtl8139_init_one_spec 100 (mkPciDev 0 3 0 0x10EC 0x8139 2 0 0 0) 0
    (mkRtl (replicate 4 zeroed) 0 (replicate 4 0) (card_bus 0) st) r' [(4194304, 4096)] [] Hinv) as (Hc & _ & Hio);
    [cbn; lia | cbn; lia | exact E |].
  split; [apply (cs_wf _ _ _ _ Hc) | exact Hio].
Defined.

(** A card that is up, with the bytes [l] in its receive buffer. *)
Definition card_mem (l : list Z) : memory :=
  store_bytes (wr32 (wr32 (wr32 (wr32 (wr32 ∅ 0x1000 0x2000) 0x1004 0x5000) 0x1008 0x5600) 0x100C 0x5C00) 0x1010 0x6200)
    0x2000 l.
Definition card (cbr : Z) (l : list Z) : rtl Pmm.pmm (buslog (card_ports cbr)) :=
  mkRtl (mkRtlDev 0xC000 (replicate 6 0) true :: replicate 3 zeroed) 1 [0x1000; 0; 0; 0] (card_bus cbr)
    (with_mem (card_mem l) boot_machine).

Lemma rtl8139_four_in_flight_witness :
  written (bus_of (send_all 0 [(0x8000, 60); (0x8100, 100)] (card 0 []))) =
  [(0xC020, 0x5000); (0xC010, 60); (0xC024, 0x5600); (0xC014, 100)].
Proof.
  assert (Er : regions (mem (mach (card 0 []))) 0x1000 =
    [(0x1000, 28); (0x2000, 8208); (0x5000, 1536); (0x5600, 1536); (0x5C00, 1536); (0x6200, 1536)])
    by (vm_compute; reflexivity).
  destruct (rtl8139_four_in_flight 0 [(0x8000, 60); (0x8100, 100)] (card 0 [])) as [E _].
  - split; [cbn; lia |]. split; [reflexivity |].
    constructor; change (aget (privs (card 0 [])) 0) with 0x1000; rewrite ?Er; [| | vm_compute; intuition discriminate].
    + cbn [pw_disj]. repeat constructor; unfold disj; cbn; lia.
    + repeat constructor; cbn; lia.
  - change (aget (privs (card 0 [])) 0) with 0x1000.
    assert (Hfr : ∀ a n, 0x8000 ≤ a → 0 < n ≤ 1536 → frame_ok (mem (mach (card 0 []))) 0x1000 (a, n)).
    { intros a n Ha Hn. unfold frame_ok. rewrite Er. cbn [fst snd]. split; [lia |]. split; [lia |].
      repeat constructor; unfold disj; cbn [fst snd]; lia. }
    apply Forall_cons. split; [apply Hfr; lia |]. apply Forall_cons. split; [apply Hfr; lia | constructor].
  - cbn; lia.
  - rewrite E. vm_compute. reflexivity.
Defined.

(** Two frames as the card stores them, each with four bytes of data. *)
Definition two_frames : list Z := [1; 0; 8; 0; 10; 11; 12; 13; 0x70; 0x71; 0x72; 0x73; 1; 0; 8; 0; 20; 21; 22; 23; 1; 2; 3; 4].

Lemma card_can_poll len : 0 ≤ len < 1000 → can_poll 0 0x8000 len (card 24 two_frames).
Proof.
  intros Hl. unfold can_poll. change (priv_of 0 (card 24 two_frames)) with 0x1000.
  replace (rx_buffer (mem (mach (card 24 two_frames))) 0x1000) with 0x2000 by (vm_compute; reflexivity).
  unfold disj. cbn [fst snd]. split; [reflexivity |]. lia.
Qed.

Lemma two_frames_stored :
  rx_frame (card_mem two_frames) 0x2000 [10; 11; 12; 13] [0x70; 0x71; 0x72; 0x73] ∧
  rx_frame (card_mem two_frames) 0x200C [20; 21; 22; 23] [1; 2; 3; 4].
Proof.
  assert (H4 : ∀ (P : Z → Prop), P 0 → P 1 → P 2 → P 3 → ∀ j, 0 ≤ j < 4 → P j).
  { intros P P0 P1 P2 P3 j Hj. assert (j = 0 ∨ j = 1 ∨ j = 2 ∨ j = 3) as [-> | [-> | [-> | ->]]] by lia; assumption. }
  split; (split; [vm_compute; reflexivity |]; split; [vm_compute; reflexivity |];
    split; intros j Hj; revert j Hj; apply H4; vm_compute; reflexivity).
Qed.

Lemma rtl8139_poll_frame_witness :
  ∃ r', rtl8139_poll (Some 0) 0x8000 64 (card 24 two_frames) = (1, 4, r') ∧ rd8 (mem (mach r')) 0x8001 = 11.
Proof.
  destruct (rtl8139_poll_frame 0 0x8000 64 (card 24 two_frames) [10; 11; 12; 13] [0x70; 0x71; 0x72; 0x73])
    as (r' & E & Hd & _).
  - apply card_can_poll. lia.
  - vm_compute. reflexivity.
  - exact (proj1 two_frames_stored).
  - cbn. lia.
  - cbn. lia.
  - vm_compute. discriminate.
  - vm_compute. discriminate.
  - exists r'. split; [exact E |]. exact (Hd 1 ltac:(cbn; lia)).
Defined.

Lemma rtl8139_poll_misses_next_witness :
  ∃ r1 r2, rtl8139_poll (Some 0) 0x8000 64 (card 24 two_frames) = (1, 4, r1) ∧
    rtl8139_poll (Some 0) 0x8000 4 r1 = (0, 4, r2).
Proof.
  destruct (rtl8139_poll_misses_next 0 0x8000 64 (card 24 two_frames) [10; 11; 12; 13] [0x70; 0x71; 0x72; 0x73]
    [20; 21; 22; 23] [1; 2; 3; 4]) as (r1 & E & _ & r2 & E2).
  - apply card_can_poll. lia.
  - vm_compute. reflexivity.
  - exact (proj1 two_frames_stored).
  - exact (proj2 two_frames_stored).
  - cbn. lia.
  - cbn. lia.
  - vm_compute. discriminate.
  - vm_compute. discriminate.
  - vm_compute. reflexivity.
  - vm_compute. reflexivity.
  - reflexivity.
  - exists r1, r2. split; [exact E | exact E2].
Defined.
End Rtl8139.
