(* ===== verification/Commands.v ===== *)
(** * The commands of the shell: [shell/shell.cpp], function [execute]

    One definition per command, over the state of the whole system: the
    kernel, the terminal, the files, the disks and the network, which share
    one memory and one set of ports. The line a command was typed on is the
    list of its characters. *)

From stdpp Require Import strings.
From S2P Require Import Prelude Interfaces Machine Libk Ring Pmm Kmalloc Vmm Process Scheduler Ipc Keyboard Ports Terminal Faults Syscall Vfs Ramfs Ata Fat32 Elf Net Pci Rtl8139.
#[local] Open Scope Z_scope.

(** The counters of the page allocator that the command [pages] shows. *)
Class PageStats (S : Type) := {
  stat_total : S → Z;
  stat_used : S → Z;
  stat_free : S → Z;
}.
#[export] Instance pmm_stats : PageStats Pmm.pmm := {
  stat_total := Pmm.pmm_total_pages;
  stat_used := Pmm.pmm_used_pages;
  stat_free := Pmm.pmm_free_pages;
}.

Module Commands.
Import Libk Kmalloc Vmm Process Scheduler Ipc Keyboard Terminal Faults Syscall Vfs Ramfs.

(** The objects of FAT32 on the heap. *)
Record fat_store := mkFats { fat_nodes : gmap Z Fat32.fat32_node; fat_fses : gmap Z Fat32.fat32_fs }.

(** The globals of [shell.cpp] ([idx], [cwd], [test_page]; [cmd] is in memory),
    the counters of [kernel.cpp] and the state of the components. The copies
    of the machine and of the ports inside [files], [disks] and [network] are
    replaced by those of [sys] before every use. *)
Record shell (Pg D : Type) := mkShell {
  sys : system Pg D;
  files : ramfs Pg;
  fats : fat_store;
  mounted : vfs;
  disks : Ata.ata D;
  network : Net.net (Rtl8139.rtl Pg D);
  idx : Z;
  cwd : Z;
  test_page : Z;
  total_memory_mb : Z;
  stress_prime_count : Z;
  stress_current : Z;
  stress_counter : Z;
}.
Arguments mkShell {Pg D} _ _ _ _ _ _ _ _ _ _ _ _ _.
Arguments sys {Pg D} _.
Arguments files {Pg D} _.
Arguments fats {Pg D} _.
Arguments mounted {Pg D} _.
Arguments disks {Pg D} _.
Arguments network {Pg D} _.
Arguments idx {Pg D} _.
Arguments cwd {Pg D} _.
Arguments test_page {Pg D} _.
Arguments total_memory_mb {Pg D} _.
Arguments stress_prime_count {Pg D} _.
Arguments stress_current {Pg D} _.
Arguments stress_counter {Pg D} _.

(** Where static and local arrays lie that are passed by address: [cmd], the
    two locals of [recv], and the frame buffers of the network stack; the
    bound on the polls of the disk driver; and what lies around the cluster
    buffer of FAT32 on the stack. *)
Record layout := mkLayout {
  cmd_at : Z;
  recv_buf : Z;
  recv_sender : Z;
  frame_at : Z;
  poll_at : Z;
  ata_timeout : nat;
  around_buf : Z → Z;
}.

(** [strcmp(c, s) == 0] and [strncmp(c, s, strlen(s)) == 0]. *)
Definition equals (c : cstring) (s : string) : bool := bool_decide (c = text s).
Definition starts (c : cstring) (s : string) : bool :=
  bool_decide (take (length (text s)) c = text s).

Definition digit (b : Z) : bool := (48 <=? b) && (b <=? 57).
(** [while( *s >= '0' && *s <= '9') { v = v * 10 + ( *s - '0'); s++; }], [wrap] being
    the width of [v]. *)
Fixpoint scan_number (wrap : Z → Z) (v : Z) (s : cstring) : Z * cstring :=
  match s with
  | b :: s' => if digit b then scan_number wrap (wrap (v * 10 + (b - 48))) s' else (v, s)
  | [] => (v, [])
  end.

Fixpoint skip_spaces (s : cstring) : cstring :=
  match s with b :: s' => if b =? 32 then skip_spaces s' else s | [] => [] end.

Definition state_name (st : TaskState) : list Z :=
  match st with
  | TASK_FREE => text "FREE" | TASK_READY => text "READY" | TASK_RUNNING => text "RUN"
  | TASK_BLOCKED => text "BLK" | TASK_DEAD => text "DEAD"
  end.

(** The loop of [ping] over the address: the octets stored so far with their
    number, and the number that is being read. *)
Fixpoint scan_ip (ip : list Z) (oct val : Z) (p : cstring) : list Z * Z * Z :=
  match p with
  | [] => (ip, oct, val)
  | b :: p' =>
      if digit b then scan_ip ip oct (s32 (val * 10 + (b - 48))) p'
      else if (b =? 46) && (oct <? 4) then scan_ip (aset ip oct (u8 val)) (oct + 1) 0 p'
      else (ip, oct, val)
  end.
Definition parse_ip (p : cstring) : option (list Z) :=
  let '(ip, oct, val) := scan_ip [0; 0; 0; 0] 0 0 p in
  if (oct =? 3) && (val <=? 255) then Some (aset ip 3 (u8 val)) else None.

(** The six bytes of an address, in decimal with a zero before one digit (the
    test of the code is [< 16]). *)
Fixpoint mac_text (j : Z) (l : list Z) : list (list Z) :=
  match l with
  | [] => []
  | b :: l' =>
      (if b <? 16 then [text "0"] else []) ++ [decimal b] ++ (if j <? 5 then [text ":"] else []) ++
      mac_text (j + 1) l'
  end.

Section commands.
Context {Pg D : Type} `{!PageAllocOps Pg, !PageStats Pg, !PortIO D}.
Variable L : layout.
Implicit Types (s : shell Pg D) (c : cstring).

(** ** Access to the parts *)

Definition with_sys (y : system Pg D) s : shell Pg D :=
  mkShell y (files s) (fats s) (mounted s) (disks s) (network s) (idx s) (cwd s) (test_page s)
    (total_memory_mb s) (stress_prime_count s) (stress_current s) (stress_counter s).
Definition with_idx (i : Z) s : shell Pg D :=
  mkShell (sys s) (files s) (fats s) (mounted s) (disks s) (network s) i (cwd s) (test_page s)
    (total_memory_mb s) (stress_prime_count s) (stress_current s) (stress_counter s).
Definition with_cwd (n : Z) s : shell Pg D :=
  mkShell (sys s) (files s) (fats s) (mounted s) (disks s) (network s) (idx s) n (test_page s)
    (total_memory_mb s) (stress_prime_count s) (stress_current s) (stress_counter s).
Definition with_test_page (p : Z) s : shell Pg D :=
  mkShell (sys s) (files s) (fats s) (mounted s) (disks s) (network s) (idx s) (cwd s) p
    (total_memory_mb s) (stress_prime_count s) (stress_current s) (stress_counter s).
Definition set_kern (k : kernel Pg) s : shell Pg D := with_sys (with_kern k (sys s)) s.
Definition machine_of s : machine Pg := mach (kern (sys s)).
Definition set_machine (st : machine Pg) s : shell Pg D := set_kern (with_mach st (kern (sys s))) s.
Definition set_term (t : terminal D) s : shell Pg D := with_sys (with_term t (sys s)) s.
Definition set_io (d : D) s : shell Pg D := with_sys (with_io d (sys s)) s.

(** The file system on the current heap, and back. *)
Definition files_of s : ramfs Pg :=
  let fs := files s in mkRamfs (machine_of s) (nodes fs) (node_pool fs) (pool_count fs) (root_node fs).
Definition set_files (fs : ramfs Pg) s : shell Pg D :=
  let s := set_machine (heap fs) s in
  mkShell (sys s) fs (fats s) (mounted s) (disks s) (network s) (idx s) (cwd s) (test_page s)
    (total_memory_mb s) (stress_prime_count s) (stress_current s) (stress_counter s).

Definition disks_of s : Ata.ata D :=
  Ata.mkAta (Ata.devices (disks s)) (Ata.device_count (disks s)) (ports (term (sys s))).
Definition set_disks (a : Ata.ata D) s : shell Pg D :=
  let s := set_io (Ata.io a) s in
  mkShell (sys s) (files s) (fats s) (mounted s) a (network s) (idx s) (cwd s) (test_page s)
    (total_memory_mb s) (stress_prime_count s) (stress_current s) (stress_counter s).

(** FAT32 on the current heap and disks, and back. *)
Definition fat_of s : Fat32.fat32 Pg (Ata.ata D) :=
  Fat32.mkFat (machine_of s) (disks_of s) (fat_nodes (fats s)) (fat_fses (fats s)).
Definition set_fat (f : Fat32.fat32 Pg (Ata.ata D)) s : shell Pg D :=
  let s := set_disks (Fat32.disk f) (set_machine (Fat32.fheap f) s) in
  mkShell (sys s) (files s) (mkFats (Fat32.fnodes f) (Fat32.fses f)) (mounted s) (disks s) (network s) (idx s) (cwd s)
    (test_page s) (total_memory_mb s) (stress_prime_count s) (stress_current s) (stress_counter s).

Definition network_of s : Net.net (Rtl8139.rtl Pg D) :=
  Net.with_nic (Rtl8139.with_bus (ports (term (sys s)))
    (Rtl8139.with_mach (machine_of s) (Net.nic (network s)))) (network s).
Definition set_network (t : Net.net (Rtl8139.rtl Pg D)) s : shell Pg D :=
  let s := set_io (Rtl8139.bus_of (Net.nic t)) (set_machine (Rtl8139.mach (Net.nic t)) s) in
  mkShell (sys s) (files s) (fats s) (mounted s) (disks s) t (idx s) (cwd s) (test_page s)
    (total_memory_mb s) (stress_prime_count s) (stress_current s) (stress_counter s).

(** [terminal.write] of several strings in a row, [terminal.putchar]. *)
Definition say (fuel : nat) (l : list (list Z)) s : outcome (shell Pg D) :=
  let! t := write_all fuel l (term (sys s)) in Ok (set_term t s).
Definition put (fuel : nat) (b : Z) s : outcome (shell Pg D) :=
  let! t := putchar fuel b (term (sys s)) in Ok (set_term t s).
Fixpoint put_all (fuel : nat) (l : list Z) s : outcome (shell Pg D) :=
  match l with
  | [] => Ok s
  | b :: l' => let! s := put fuel b s in put_all fuel l' s
  end.
(** [terminal.write] of the string at an address: it ends at a zero byte. *)
Fixpoint say_at (fuel n : nat) (a : Z) s : outcome (shell Pg D) :=
  match n with
  | O => NoFuel
  | S n' =>
      let b := rd8 (mem (machine_of s)) (u32 a) in
      if b =? 0 then Ok s else let! s := put fuel b s in say_at fuel n' (a + 1) s
  end.

(** ** Nodes of either file system *)

Inductive vnode := Ram (n : ramfs_node) | Fat (n : Fat32.fat32_node).
Definition node_of (q : Z) s : option vnode :=
  match nodes (files s) !! q with
  | Some n => Some (Ram n)
  | None => Fat <$> fat_nodes (fats s) !! q
  end.
Definition vname (v : vnode) : cstring := match v with Ram n => name n | Fat n => Fat32.fname n end.
Definition vflags (v : vnode) : Z := match v with Ram n => flags n | Fat n => Fat32.fflags n end.
Definition vsize (v : vnode) : Z := match v with Ram n => fsize n | Fat n => Fat32.fsize n end.
Definition vup (v : vnode) : Z := match v with Ram n => vparent n | Fat n => Fat32.fparent n end.
Definition vhas (f : Z) (v : vnode) : bool := negb (Z.land (vflags v) f =? 0).

(** FAT32 reads its sectors with the disk driver. *)
#[local] Instance shell_disk : BlockDevice (Ata.ata D) := Ata.ata_block_device (ata_timeout L).

(** [node->finddir(node, name)]: only directories have the method. The nodes of
    the RAM file system are at most 128. *)
Definition node_find (fuel : nat) (q : Z) (nm : cstring) s : outcome (Z * shell Pg D) :=
  match node_of q s with
  | None => Undef
  | Some v =>
      if negb (vhas FS_DIR v) then Undef
      else
        match v with
        | Ram _ => let! x := ramfs_finddir 129 q nm (files_of s) in Ok (x, s)
        | Fat _ => let! (x, f) := Fat32.fat32_finddir fuel q nm (fat_of s) in Ok (x, set_fat f s)
        end
  end.
(** [node->readdir(node, index, &entry)]: name and flags of the entry. *)
Definition node_readdir (fuel : nat) (q index : Z) (s : shell Pg D) : outcome (option (cstring * Z) * shell Pg D) :=
  match node_of q s with
  | None => Undef
  | Some v =>
      if negb (vhas FS_DIR v) then Undef
      else
        match v with
        | Ram _ =>
            let! r := ramfs_readdir 129 q index (files_of s) in
            Ok ((λ '(nm, fl, _, _), (nm, fl)) <$> r, s)
        | Fat n =>
            let! (r, f) := Fat32.fat32_readdir fuel n index (fat_of s) in
            Ok ((λ '(nm, fl, _, _), (nm, fl)) <$> r, set_fat f s)
        end
  end.
(** [node->read(node, 0, size, buf)] of a file: the result and the bytes stored. *)
Definition node_read (fuel : nat) (q : Z) (v : vnode) (size : Z) s : outcome (Z * list Z * shell Pg D) :=
  match v with
  | Ram _ => let '(r, bytes) := ramfs_read q 0 size (files_of s) in Ok (r, bytes, s)
  | Fat n =>
      let! (r, bytes, f) := Fat32.fat32_read fuel (around_buf L) n 0 size (fat_of s) in
      Ok (r, bytes, set_fat f s)
  end.

(** What [vfs_resolve_relative] uses of the nodes. *)
Definition shell_filesystem (fuel : nat) : FileSystem (shell Pg D) := {|
  node_parent s q := match node_of q s with Some v => vup v | None => 0 end;
  node_finddir s q :=
    match node_of q s with
    | Some v => if vhas FS_DIR v then Some (λ nm, node_find fuel q nm s) else None
    | None => None
    end;
  node_destroy s q :=
    match node_of q s with
    | Some (Fat _) => Some (let! f := Fat32.fat32_node_destroy fuel q (fat_of s) in Ok (set_fat f s))
    | _ => Some (Ok s)
    end;
|}.

Notation no_fs fuel s := (say fuel [text "no fs" ++ NL] s).
Notation not_found fuel s := (say fuel [text "not found" ++ NL] s).
(** ** Information *)

Definition help_lines : list (list Z) :=
  map (λ l, text l ++ NL)
    ["Comandos:"; " help"; " clear"; " echo <texto>"; " about"; " whoami"; " uname"; " uptime";
     " yes [texto]"; " true"; " false"; " ticks"; " mem"; " pages"; " alloc"; " free"; " kmalloc";
     " testheap"; " ps"; " elfinfo <file>"; " ring3"; " exec <file>"; " send <pid> <msg>"; " recv";
     " kill <pid>"; " halt"; " reboot"; " ls"; " pci"; " ping <ip>"; " netstat"; " lsdisk";
     " rd <dev> <lba>"; " touch <file>"; " cat <file>"; " wc <file>"; " head <file>"; " rev <file>";
     " write <file> <text>"; " mkdir <dir>"; " cd <dir>"; " pwd"]%string.
Definition cmd_help (fuel : nat) s : outcome (shell Pg D) := say fuel help_lines s.
Definition cmd_clear s : shell Pg D := set_term (clear (term (sys s))) s.
Definition cmd_about (fuel : nat) s : outcome (shell Pg D) :=
  say fuel [text "NemoOS v1.0" ++ NL; text "Kernel x86 escrito en C++20" ++ NL] s.
Definition cmd_ticks (fuel : nat) s : outcome (shell Pg D) :=
  say fuel [decimal (timer_ticks (sys s)); NL] s.
Definition cmd_mem (fuel : nat) s : outcome (shell Pg D) :=
  say fuel [text "RAM: "; decimal (total_memory_mb s); text " MB" ++ NL] s.
Definition cmd_pages (fuel : nat) s : outcome (shell Pg D) :=
  let pg := pages (machine_of s) in
  say fuel [text "Total: "; decimal (stat_total pg); NL ++ text "Used : "; decimal (stat_used pg);
            NL ++ text "Free : "; decimal (stat_free pg); NL] s.
Definition cmd_uptime (fuel : nat) s : outcome (shell Pg D) :=
  say fuel [text "up "; decimal (timer_ticks (sys s)); text " ticks" ++ NL] s.

(** ** Memory *)

Definition cmd_alloc (fuel : nat) s : outcome (shell Pg D) :=
  let '(p, pg) := pa_alloc (pages (machine_of s)) in
  let s := with_test_page p (set_machine (with_pages pg (machine_of s)) s) in
  say fuel [text (if p =? 0 then "Out of memory" else "Page allocated") ++ NL] s.
Definition cmd_free (fuel : nat) s : outcome (shell Pg D) :=
  if test_page s =? 0 then say fuel [text "No page allocated" ++ NL] s
  else
    let st := machine_of s in
    let s := with_test_page 0 (set_machine (with_pages (pa_free (test_page s) (pages st)) st) s) in
    say fuel [text "Page freed" ++ NL] s.

Definition cmd_kmalloc (fuel : nat) s : outcome (shell Pg D) :=
  let! (ptr, st) := kmalloc fuel 128 (machine_of s) in
  let s := set_machine st s in
  let! s := say fuel [text "PTR: "; decimal ptr] s in
  let! s :=
    if ptr =? 0 then Ok s
    else
      let m := loop_n 10 0 (λ i m, wr8 m (ptr + i) (65 + i)) (mem (machine_of s)) in
      let s := set_machine (with_mem (wr8 m (ptr + 10) 0) (machine_of s)) s in
      let! s := say fuel [text " DATA: "] s in say_at fuel 11 ptr s in
  say fuel [NL] s.

Definition cmd_testheap (fuel : nat) s : outcome (shell Pg D) :=
  let! (a, st) := kmalloc fuel 16 (machine_of s) in
  let! (b, st) := kmalloc fuel 32 st in
  let! (c, st) := kmalloc fuel 64 st in
  if (a =? 0) || (b =? 0) || (c =? 0) then say fuel [text "alloc fail" ++ NL] (set_machine st s)
  else
    let st := with_mem (wr8 (wr8 (wr8 (mem st) a 88) b 89) c 90) st in
    let! st := kfree fuel b st in
    let! st := kfree fuel a st in
    let! (d, st) := kmalloc fuel 16 st in
    let s := set_machine st s in
    let! s := say fuel [text "reuse: "; text (if d =? a then "yes" else "no"); NL] s in
    let! st := kfree fuel c (machine_of s) in
    let! st := kfree fuel d st in
    say fuel [text "heap ok" ++ NL] (set_machine st s).

(** ** Files *)

(** [cwd->finddir(cwd, name)] and the test of [FS_FILE]. *)
Definition lookup_file (fuel : nat) (nm : cstring) s : outcome (option (Z * vnode) * shell Pg D) :=
  let! (f, s) := node_find fuel (cwd s) nm s in
  Ok (match node_of f s with
      | Some v => if vhas FS_FILE v then Some (f, v) else None
      | None => None
      end, s).

Fixpoint ls_from (fuel n : nat) (i : Z) s : outcome (shell Pg D) :=
  match n with
  | O => NoFuel
  | S n' =>
      let! (r, s) := node_readdir fuel (cwd s) i s in
      match r with
      | None => Ok s
      | Some (nm, fl) =>
          let! s := if Z.land fl FS_DIR =? 0 then Ok s
                    else say fuel [text "[DIR] "; decimal i; text " "] s in
          let! s := say fuel [nm; NL] s in
          ls_from fuel n' (i + 1) s
      end
  end.
Definition cmd_ls (fuel : nat) s : outcome (shell Pg D) :=
  if cwd s =? 0 then no_fs fuel s else ls_from fuel fuel 0 s.

(** [touch] and [mkdir]. Both treat the current directory as a node of the RAM
    file system: for one of FAT32 the links of the new node are written behind
    the end of the directory. *)
Definition cmd_create (fuel : nat) (kind : Z) (nm : cstring) s : outcome (shell Pg D) :=
  if cwd s =? 0 then no_fs fuel s
  else
    match node_of (cwd s) s with
    | Some (Fat v) =>
        if Z.land (Fat32.fflags v) FS_DIR =? 0 then say fuel [text "error" ++ NL] s
        else
          let! (n, fs) := alloc_node fuel (files_of s) in
          if n =? 0 then say fuel [text "error" ++ NL] (set_files fs s) else Undef
    | _ =>
        let! (n, fs) := create_node fuel kind (cwd s) nm (files_of s) in
        say fuel [text (if n =? 0 then "error" else "created") ++ NL] (set_files fs s)
    end.
Definition cmd_touch (fuel : nat) := cmd_create fuel FS_FILE.
Definition cmd_mkdir (fuel : nat) := cmd_create fuel FS_DIR.

Definition cmd_cd (fuel : nat) (p : cstring) s : outcome (shell Pg D) :=
  if cwd s =? 0 then no_fs fuel s
  else
    let fs := shell_filesystem fuel in
    let! (dir, s) := vfs_resolve_relative (cwd s) (Some p) (mounted s) s in
    match node_of dir s with
    | Some v => if vhas FS_DIR v then Ok (with_cwd dir s) else not_found fuel s
    | None => not_found fuel s
    end.

(** [while(cur && cur->parent != cur) { nodes[ni++] = cur; ... if(ni >= 64) break; }]:
    the nodes from [cur] upwards. *)
Fixpoint ancestors (n : nat) (cur : Z) s : list vnode :=
  match n with
  | O => []
  | S n' =>
      match node_of cur s with
      | None => []
      | Some v => if vup v =? cur then [] else v :: ancestors n' (vup v) s
      end
  end.
(** The names from the top down, separated by slashes. *)
Fixpoint join (l : list cstring) : cstring :=
  match l with
  | [] => []
  | [w] => w
  | w :: l' => w ++ SLASH :: join l'
  end.
(** [path] has 256 bytes. *)
Definition cmd_pwd (fuel : nat) s : outcome (shell Pg D) :=
  match node_of (cwd s) s with
  | None => no_fs fuel s
  | Some v =>
      if vup v =? cwd s then say fuel [text "/" ++ NL] s
      else
        let path := SLASH :: join (map vname (rev (ancestors 64 (cwd s) s))) in
        if 256 <=? zlen path then Undef else say fuel [path; NL] s
  end.

Definition cmd_cat (fuel : nat) (nm : cstring) s : outcome (shell Pg D) :=
  if cwd s =? 0 then no_fs fuel s
  else
    let! (r, s) := lookup_file fuel nm s in
    match r with
    | None => not_found fuel s
    | Some (f, v) => let! (got, bytes, s) := node_read fuel f v 255 s in say fuel [bytes; NL] s
    end.

(** The position of the first space from position [i] on. *)
Fixpoint find_space (i : nat) (c : cstring) : option nat :=
  match c with
  | [] => None
  | b :: c' => if b =? 32 then Some i else find_space (S i) c'
  end.
(** The space in [cmd] is overwritten to end the name. Files of FAT32 have a
    null pointer for the method [write]. *)
Definition cmd_write (fuel : nat) c s : outcome (shell Pg D) :=
  if cwd s =? 0 then no_fs fuel s
  else
    match find_space 6 (drop 6 c) with
    | None => say fuel [text "usage: write file text" ++ NL] s
    | Some sp =>
        let st := machine_of s in
        let s := set_machine (with_mem (wr8 (mem st) (cmd_at L + Z.of_nat sp) 0) st) s in
        let! (r, s) := lookup_file fuel (take (sp - 6) (drop 6 c)) s in
        match r with
        | None => not_found fuel s
        | Some (_, Fat _) => Undef
        | Some (f, Ram _) =>
            let txt := drop (sp + 1) c in
            let '(r, fs) := ramfs_write f 0 (zlen txt) (aget txt) (files_of s) in
            let s := set_files fs s in
            say fuel [text (if 0 <? s32 r then "OK" else "error") ++ NL] s
        end
    end.

(** [for(i = 0; buffer[i] && lines < 5; i++)] of [head]. *)
Fixpoint head_lines (lines : nat) (b : list Z) : list Z :=
  match b, lines with
  | x :: b', S l => if x =? 0 then [] else x :: head_lines (if x =? 10 then l else lines) b'
  | _, _ => []
  end.
(** [c + i]: past the end of the line it is what an earlier line left in [cmd]. *)
Definition tail_at (i : nat) c s : cstring :=
  if (i <=? length c)%nat then drop i c
  else until_zero (bytes_at (mem (machine_of s)) (cmd_at L + Z.of_nat i) (256 - i)).
(** [wc], [head] and [rev], which look at the second character of the line. *)
Definition cmd_text (fuel : nat) c s : outcome (shell Pg D) :=
  if cwd s =? 0 then no_fs fuel s
  else
    let k := char_at c 1 in
    let fname := tail_at (if k =? 99 then 3 else if k =? 101 then 5 else 4) c s in
    let! (r, s) := lookup_file fuel fname s in
    match r with
    | None => not_found fuel s
    | Some (f, v) =>
        let! (got, bytes, s) := node_read fuel f v 255 s in
        if k =? 119 then say fuel [decimal (u32 got); text " "; fname; NL] s
        else if k =? 101 then
          let! s := put_all fuel (head_lines 5 bytes) s in say fuel [NL] s
        else
          let! s := put_all fuel (rev (until_zero bytes)) s in say fuel [NL] s
    end.

(** ** Devices *)

Fixpoint ip_text (ip : list Z) : list (list Z) :=
  match ip with [] => [] | b :: ip' => text "." :: decimal b :: ip_text ip' end.
Definition cmd_ping (fuel : nat) (p : cstring) s : outcome (shell Pg D) :=
  match parse_ip p with
  | None => say fuel [text "usage: ping a.b.c.d" ++ NL] s
  | Some ip =>
      let! s := say fuel ([text "ping"] ++ ip_text ip ++ [NL]) s in
      let nic := Rtl8139.rtl_nic (frame_at L) (poll_at L) in
      let t := Net.arp_send_request ip (network_of s) in
      let! (_, t) := Net.icmp_send_echo ip 1 1 t in
      Ok (set_network t s)
  end.

Definition pci_line (d : Pci.pci_device) : list (list Z) :=
  [decimal (Pci.bus d); text ":"; decimal (Pci.slot d); text "."; decimal (Pci.func d);
   text "  vid=0x"; decimal (Pci.vendor_id d); text " did=0x"; decimal (Pci.device_id d);
   text " class="; decimal (Pci.class_code d); text " subclass="; decimal (Pci.subclass d); NL].
(** The entries below [pci_count] are those that [pci_get_device] returns. *)
Definition cmd_pci (fuel : nat) s : outcome (shell Pg D) :=
  let p := Rtl8139.pcis (Net.nic (network s)) in
  if Pci.pci_device_count p =? 0 then say fuel [text "no pci devices" ++ NL] s
  else
    say fuel (flat_map (λ i, match Pci.pci_get_device i p with Some d => pci_line d | None => [] end)
                (seqZ 0 (Pci.pci_device_count p))) s.

#[local] Existing Instance Rtl8139.rtl8139_dev_zero.
Definition card_line (i : Z) (d : Rtl8139.rtl8139_dev) : list (list Z) :=
  [text "rtl8139#"; decimal i; text " MAC "] ++ mac_text 0 (Rtl8139.mac d) ++ [NL].
Definition cmd_netstat (fuel : nat) s : outcome (shell Pg D) :=
  let r := Net.nic (network s) in
  if Rtl8139.rtl8139_count r =? 0 then say fuel [text "no network devices" ++ NL] s
  else say fuel (flat_map (λ i, card_line i (aget (Rtl8139.rtl_devices r) i))
                   (seqZ 0 (Rtl8139.rtl8139_count r))) s.

Definition disk_line (i : Z) (d : Ata.ata_device) : list (list Z) :=
  [text "ata"; decimal i; text ": "; Ata.model d; text " "; decimal (Ata.sectors d / 2048); text "MB";
   text (if Ata.is_master d then " master" else " slave"); NL].
Definition cmd_lsdisk (fuel : nat) s : outcome (shell Pg D) :=
  let a := disks s in
  if Ata.ata_device_count a =? 0 then say fuel [text "no ata devices" ++ NL] s
  else
    say fuel (flat_map (λ i, match Ata.ata_get_device i a with
                             | Some d => if Ata.present d then disk_line i d else []
                             | None => []
                             end) (seqZ 0 (Ata.ata_device_count a))) s.

Definition hex_digit (v : Z) : Z := aget (text "0123456789ABCDEF") (Z.land v 0xF).
Definition shown (b : Z) : Z := if (32 <=? b) && (b <? 127) then b else 46.
(** One row: 16 characters, then the same bytes in hexadecimal. *)
Definition dump_row (fuel : nat) (l : list Z) s : outcome (shell Pg D) :=
  let! s := put_all fuel (map shown l) s in
  let! s := say fuel [text "  "] s in
  let! s := say fuel (map (λ b, [hex_digit (Z.shiftr b 4); hex_digit b; 32]) l) s in
  say fuel [NL] s.
Fixpoint dump_rows (fuel rows : nat) (l : list Z) s : outcome (shell Pg D) :=
  match rows with
  | O => Ok s
  | S r => let! s := dump_row fuel (take 16 l) s in dump_rows fuel r (drop 16 l) s
  end.
Definition cmd_rd (fuel : nat) (p : cstring) s : outcome (shell Pg D) :=
  let '(dev, p) := scan_number s32 0 p in
  let '(lba, _) := scan_number u32 0 (skip_spaces p) in
  let '(r, a) := Ata.ata_read_sector (ata_timeout L) dev lba (disks_of s) in
  let s := set_disks a s in
  match r with
  | None => say fuel [text "read failed" ++ NL] s
  | Some ws =>
      let! s := say fuel [text "sector "; decimal lba; text ":" ++ NL] s in
      dump_rows fuel 16 (Ata.word_bytes ws) s
  end.

(** ** Processes *)

Definition process_line (p : Process) : list (list Z) :=
  [text "PID:"; decimal (pid p); text " PPID:"; decimal (parent_pid p); text " "; state_name (state p);
   text (if decide (ring p = RING_KERNEL) then " KERN" else " USER")] ++
  (if decide (state p = TASK_DEAD) then [text " code:"; decimal (u32 (exit_code p))] else []) ++ [NL].
Definition cmd_ps (fuel : nat) s : outcome (shell Pg D) :=
  let k := kern (sys s) in
  let! s := say fuel (flat_map (λ i, match proc_at k i with Some p => process_line p | None => [] end)
                        (seqZ 0 (process_total k))) s in
  say fuel [text "stress: prime="; decimal (u32 (stress_prime_count s)); text " cur=";
            decimal (u32 (stress_current s)); text " counter="; decimal (u32 (stress_counter s)); NL] s.

(** The loop is that of system call 6. *)
Definition cmd_kill (fuel : nat) (p : cstring) s : outcome (shell Pg D) :=
  let '(pid, _) := scan_number s32 0 p in
  let '(r, k) := sys_kill pid (kern (sys s)) in
  say fuel [text (if r =? 0 then "killed" else "not found") ++ NL] (set_kern k s).

(** What the loader uses of a file: it allocates a buffer of the size of the
    file and reads the whole file into it; without a buffer it does not read. *)
Definition elf_file_of (fuel : nat) (f : Z) (v : vnode) s : outcome (Elf.elf_file * shell Pg D) :=
  let! (buf, _) := kmalloc fuel (vsize v) (machine_of s) in
  if buf =? 0 then Ok (Elf.mkFile (vsize v) None, s)
  else
    let! (r, bytes, s) := node_read fuel f v (vsize v) s in
    Ok (Elf.mkFile (vsize v) (if r <? 0 then None else Some bytes), s).

Definition cmd_elfinfo (fuel : nat) (nm : cstring) s : outcome (shell Pg D) :=
  if cwd s =? 0 then no_fs fuel s
  else
    let! (r, s) := lookup_file fuel nm s in
    match r with
    | None => not_found fuel s
    | Some (f, v) =>
        let! (file, s) := elf_file_of fuel f v s in
        let! (ret, info, st) := Elf.elf_load fuel (Some file) (Some (Elf.mkInfo 0 0 0)) (machine_of s) in
        let s := set_machine st s in
        match info with
        | Some info =>
            if ret =? 0 then
              say fuel [text "elf: entry=0x"; decimal (Elf.info_entry info); text " load=0x";
                        decimal (Elf.load_addr info); text " size="; decimal (Elf.info_size info); NL] s
            else say fuel [text "elf: load failed" ++ NL] s
        | None => say fuel [text "elf: load failed" ++ NL] s
        end
    end.

Definition cmd_exec (fuel : nat) (nm : cstring) s : outcome (shell Pg D) :=
  if cwd s =? 0 then no_fs fuel s
  else
    let! (r, s) := lookup_file fuel nm s in
    match r with
    | None => not_found fuel s
    | Some (f, v) =>
        let! (uproc, k) := process_create fuel 0 0 (kern (sys s)) in
        let s := set_kern k s in
        match procs k !! uproc with
        | None => say fuel [text "process creation failed" ++ NL] s
        | Some p =>
            let s := set_machine (vmm_switch (address_space p) (machine_of s)) s in
            let! (file, s) := elf_file_of fuel f v s in
            let! (ret, info, st) :=
              Elf.elf_load_into fuel (Some file) (address_space p) (Some (Elf.mkInfo 0 0 0)) (machine_of s) in
            let k := with_mach (vmm_switch (vmm_get_kernel_space (mach k)) st) k in
            match info with
            | Some info =>
                if ret =? 0 then
                  let k := process_set_entry uproc (Elf.info_entry info) USER_STACK_TOP k in
                  say fuel [text "exec PID="; decimal (pid p); text " entry=0x";
                            decimal (Elf.info_entry info); NL] (set_kern k s)
                else
                  let! k := process_destroy fuel uproc k in
                  say fuel [text "elf load failed" ++ NL] (set_kern k s)
            | None =>
                let! k := process_destroy fuel uproc k in
                say fuel [text "elf load failed" ++ NL] (set_kern k s)
            end
        end
    end.

Definition cmd_ring3 (fuel : nat) s : outcome (shell Pg D) :=
  let! (uproc, k) := process_create fuel USER_CODE_ADDR USER_STACK_TOP (kern (sys s)) in
  let s := set_kern k s in
  match procs k !! uproc with
  | Some p => say fuel [text "user process created PID="; decimal (pid p); NL] s
  | None => say fuel [text "user process creation failed" ++ NL] s
  end.

(** [while(digit && j < 15) pids[j++] = *arg++;] *)
Fixpoint take_digits (room : nat) (p : cstring) : cstring * cstring :=
  match room, p with
  | S room', b :: p' =>
      if digit b then let '(ds, rest) := take_digits room' p' in (b :: ds, rest) else ([], p)
  | _, _ => ([], p)
  end.
(** The message is passed by its address in [cmd]. *)
Definition cmd_send (fuel : nat) c s : outcome (shell Pg D) :=
  let '(pids, rest) := take_digits 15 (drop 5 c) in
  match rest with
  | b :: arg =>
      if b =? 32 then
        let pid := fst (scan_number s32 0 pids) in
        let at_ := cmd_at L + zlen c - zlen arg in
        let '(ret, k) := ipc_send (u32 pid) at_ (zlen arg + 1) (kern (sys s)) in
        say fuel [text (if ret =? 0 then "sent" else "send failed") ++ NL] (set_kern k s)
      else say fuel [text "usage: send <pid> <msg>" ++ NL] s
  | [] => say fuel [text "usage: send <pid> <msg>" ++ NL] s
  end.

Definition cmd_recv (fuel : nat) s : outcome (shell Pg D) :=
  let '(ret, k) := ipc_recv (recv_sender L) (recv_buf L) IPC_MAX_MSG_SIZE (kern (sys s)) in
  let s := set_kern k s in
  if 0 <? ret then
    let! s := say fuel [text "from PID "; decimal (rd32 (mem (machine_of s)) (recv_sender L)); text ": "] s in
    let! s := say_at fuel fuel (recv_buf L) s in
    say fuel [NL] s
  else say fuel [text "no messages" ++ NL] s.

(** ** Text and the end *)

Fixpoint repeat_say (fuel n : nat) (l : list (list Z)) s : outcome (shell Pg D) :=
  match n with
  | O => Ok s
  | S n' => let! s := say fuel l s in repeat_say fuel n' l s
  end.
Definition cmd_yes (fuel : nat) c s : outcome (shell Pg D) :=
  let txt := skip_spaces (drop 3 c) in
  repeat_say fuel 5 [match txt with [] => text "y" | _ => txt end; NL] s.
Definition cmd_echo (fuel : nat) (txt : cstring) s : outcome (shell Pg D) := say fuel [txt; NL] s.

Definition cmd_whoami (fuel : nat) s : outcome (shell Pg D) := say fuel [text "nemo" ++ NL] s.
Definition cmd_uname (fuel : nat) s : outcome (shell Pg D) := say fuel [text "NemoOS" ++ NL] s.
Definition cmd_true s : outcome (shell Pg D) := Ok s.
Definition cmd_false (fuel : nat) s : outcome (shell Pg D) := say fuel [text "false" ++ NL] s.
Definition cmd_unknown (fuel : nat) s : outcome (shell Pg D) := say fuel [text "unknown command" ++ NL] s.

(** Both commands end in [while(true) hlt]: they never return, and the state is
    the one they stop in. *)
Definition cmd_halt (fuel : nat) s : outcome (shell Pg D) := say fuel [text "CPU halted" ++ NL] s.
Definition input_empty (v : Z) : bool := Z.land v 2 =? 0.
Definition cmd_reboot (fuel : nat) s : outcome (shell Pg D) :=
  let! s := say fuel [text "rebooting..." ++ NL] s in
  let! d := poll_port fuel 0x64 input_empty (ports (term (sys s))) in
  Ok (set_io (outb 0x64 0xFE d) s).
End commands.
End Commands.
