(* ===== verification/Shell.v ===== *)
(** * The shell: [shell/shell.cpp]

    The line editor ([shell_on_key], [shell_tick]), the choice of the command
    ([execute]) and what holds of the whole: the editor refines an abstract
    line, every command keeps the current directory valid, and the commands
    on files work together. *)

From stdpp Require Import strings.
From S2P Require Import Prelude Interfaces Machine Libk Ring Pmm Kmalloc Vmm Process Scheduler Ipc Keyboard Ports Terminal Faults Syscall Vfs Ramfs Ata Fat32 Elf Net Pci Rtl8139 Commands.
#[local] Open Scope Z_scope.

Module Shell.
Import Libk Kmalloc Vmm Process Scheduler Ipc Keyboard Terminal Faults Syscall Vfs Ramfs Commands.

(** A call that comes back, or one that ends in [while(true) hlt]. *)
Inductive flow (A : Type) := Returns (a : A) | Halts (a : A).
Arguments Returns {A} a.
Arguments Halts {A} a.

Section shell.
Context {Pg D : Type} `{!PageAllocOps Pg, !PageStats Pg, !PortIO D}.
Variable L : layout.
Implicit Types (s : shell Pg D) (c : cstring).

Definition back (o : outcome (shell Pg D)) : outcome (flow (shell Pg D)) := let! s := o in Ok (Returns s).
Definition stop (o : outcome (shell Pg D)) : outcome (flow (shell Pg D)) := let! s := o in Ok (Halts s).

Definition execute (fuel : nat) c s : outcome (flow (shell Pg D)) :=
  if equals c "help" then back (cmd_help fuel s)
  else if equals c "clear" then back (Ok (cmd_clear s))
  else if equals c "about" then back (cmd_about fuel s)
  else if equals c "ticks" then back (cmd_ticks fuel s)
  else if equals c "mem" then back (cmd_mem fuel s)
  else if equals c "pages" then back (cmd_pages fuel s)
  else if equals c "alloc" then back (cmd_alloc fuel s)
  else if equals c "free" then back (cmd_free fuel s)
  else if equals c "kmalloc" then back (cmd_kmalloc fuel s)
  else if equals c "testheap" then back (cmd_testheap fuel s)
  else if equals c "ls" then back (cmd_ls L fuel s)
  else if starts c "touch " then back (cmd_touch fuel (drop 6 c) s)
  else if starts c "ping " then back (cmd_ping L fuel (drop 5 c) s)
  else if equals c "pci" then back (cmd_pci fuel s)
  else if equals c "netstat" then back (cmd_netstat fuel s)
  else if equals c "lsdisk" then back (cmd_lsdisk fuel s)
  else if starts c "rd " then back (cmd_rd L fuel (drop 3 c) s)
  else if equals c "ps" then back (cmd_ps fuel s)
  else if starts c "kill " then back (cmd_kill fuel (drop 5 c) s)
  else if starts c "elfinfo " then back (cmd_elfinfo L fuel (drop 8 c) s)
  else if starts c "send " then back (cmd_send L fuel c s)
  else if equals c "recv" then back (cmd_recv L fuel s)
  else if starts c "exec " then back (cmd_exec L fuel (drop 5 c) s)
  else if equals c "ring3" then back (cmd_ring3 fuel s)
  else if equals c "halt" then stop (cmd_halt fuel s)
  else if equals c "reboot" then stop (cmd_reboot fuel s)
  else if equals c "whoami" then back (cmd_whoami fuel s)
  else if equals c "uname" then back (cmd_uname fuel s)
  else if equals c "uptime" then back (cmd_uptime fuel s)
  else if equals c "true" then back (cmd_true s)
  else if equals c "false" then back (cmd_false fuel s)
  else if starts c "yes" then back (cmd_yes fuel c s)
  else if starts c "wc " || starts c "head " || starts c "rev " then back (cmd_text L fuel c s)
  else if starts c "echo " then back (cmd_echo fuel (drop 5 c) s)
  else if starts c "mkdir " then back (cmd_mkdir fuel (drop 6 c) s)
  else if starts c "cd " then back (cmd_cd L fuel (drop 3 c) s)
  else if equals c "pwd" then back (cmd_pwd fuel s)
  else if starts c "cat " then back (cmd_cat L fuel (drop 4 c) s)
  else if starts c "write " then back (cmd_write L fuel c s)
  else back (cmd_unknown fuel s).

(** ** The line editor *)

Definition poke (a v : Z) s : shell Pg D :=
  set_machine (with_mem (wr8 (mem (machine_of s)) a v) (machine_of s)) s.

(** The string in [cmd], an array of 256 characters. *)
Definition cmd_string s : cstring := until_zero (bytes_at (mem (machine_of s)) (cmd_at L) 256).

Definition shell_on_key (fuel : nat) (key : Z) s : outcome (flow (shell Pg D)) :=
  if key =? NEWLINE then
    let! s := say fuel [NL] s in
    let s := poke (cmd_at L + idx s) 0 s in
    let! r := execute fuel (cmd_string s) s in
    match r with
    | Returns s => back (say fuel [text "> "] (with_idx 0 s))
    | Halts s => Ok (Halts s)
    end
  else if key =? BACKSPACE then
    if 0 <? idx s then
      let s := with_idx (idx s - 1) s in
      let! t := backspace fuel (term (sys s)) in
      Ok (Returns (set_term t s))
    else Ok (Returns s)
  else if idx s <? 255 then
    let s := with_idx (idx s + 1) (poke (cmd_at L + idx s) key s) in
    back (put fuel key s)
  else Ok (Returns s).

Definition shell_init (fuel : nat) s : outcome (shell Pg D) :=
  let s := with_cwd (vfs_get_root (mounted s)) (with_idx 0 s) in
  let! s := if cwd s =? 0 then say fuel [text "vfs: no root" ++ NL] s else Ok s in
  say fuel [text "> "] s.

(** [while(keyboard_buffer_pop(&c)) shell_on_key(c);], at most [n] times. *)
Fixpoint shell_tick (fuel n : nat) s : outcome (flow (shell Pg D)) :=
  match n with
  | O => NoFuel
  | S n' =>
      match keyboard_buffer_pop (snd (keys (sys s))) with
      | None => Ok (Returns s)
      | Some (key, b) =>
          let s := with_sys (with_keys (fst (keys (sys s)), b) (sys s)) s in
          let! r := shell_on_key fuel key s in
          match r with
          | Returns s => shell_tick fuel n' s
          | Halts s => Ok (Halts s)
          end
      end
  end.
End shell.
(** ** What a command leaves alone *)

Section frames.
Context {Pg D : Type} `{!PageAllocOps Pg, !PageStats Pg, !PortIO D}.
Variable L : layout.
Implicit Types (s : shell Pg D) (c : cstring).

(** The keyboard, the editor, the mounts, the nodes and the current directory:
    what only lookups, [touch], [mkdir], [write] and [cd] change. *)
Definition view s : (kbd * kbuf) * Z * vfs * gmap Z ramfs_node * fat_store * Z :=
  (keys (sys s), idx s, mounted s, nodes (files s), fats s, cwd s).
Notation same o s := (∀ s', o = Ok s' → view s' = view s).

Lemma say_view fuel l s : same (say fuel l s) s.
Proof. unfold say. by intros s' (t & _ & [= <-])%obind_Ok. Qed.
Lemma put_view fuel b s : same (put fuel b s) s.
Proof. unfold put. by intros s' (t & _ & [= <-])%obind_Ok. Qed.
Lemma put_all_view fuel l s : same (put_all fuel l s) s.
Proof.
  revert s. induction l as [|b l IH]; intros s s'; [by intros [= <-] |]. cbn [put_all].
  intros (s1 & E & E')%obind_Ok. by rewrite (IH _ _ E'), (put_view _ _ _ _ E).
Qed.
Lemma say_at_view fuel n a s : same (say_at fuel n a s) s.
Proof.
  revert a s. induction n as [|n IH]; intros a s s'; [done |]. cbn [say_at]. cbv zeta.
  destruct (_ =? 0); [by intros [= <-] |].
  intros (s1 & E & E')%obind_Ok. by rewrite (IH _ _ _ E'), (put_view _ _ _ _ E).
Qed.
Lemma repeat_say_view fuel n l s : same (repeat_say fuel n l s) s.
Proof.
  revert s. induction n as [|n IH]; intros s s'; [by intros [= <-] |]. cbn [repeat_say].
  intros (s1 & E & E')%obind_Ok. by rewrite (IH _ _ E'), (say_view _ _ _ _ E).
Qed.
Lemma dump_rows_view fuel n l s : same (dump_rows fuel n l s) s.
Proof.
  revert l s. induction n as [|n IH]; intros l s s'; [by intros [= <-] |]. cbn [dump_rows].
  intros (s1 & E & E')%obind_Ok. rewrite (IH _ _ _ E'). unfold dump_row in E.
  apply obind_Ok in E as (sa & Ea & E). apply obind_Ok in E as (sb & Eb & E). apply obind_Ok in E as (sc & Ec & E).
  by rewrite (say_view _ _ _ _ E), (say_view _ _ _ _ Ec), (say_view _ _ _ _ Eb), (put_all_view _ _ _ _ Ea).
Qed.
Lemma view_set_fat f s :
  Fat32.fnodes f = fat_nodes (fats s) → Fat32.fses f = fat_fses (fats s) → view (set_fat f s) = view s.
Proof. intros E1 E2. unfold view, set_fat. cbn. rewrite E1, E2. by destruct (fats s). Qed.

Lemma node_readdir_view fuel q i s r s' : node_readdir L fuel q i s = Ok (r, s') → view s' = view s.
Proof.
  unfold node_readdir. destruct (node_of q s) as [v|]; [| done]. destruct (negb _); [done |]. destruct v as [n|n].
  - by intros (r' & _ & [_ <-]%Ok_pair)%obind_Ok.
  - intros ([r' f] & E & [_ <-]%Ok_pair)%obind_Ok. apply Fat32.fat32_readdir_effect in E as (_ & E1 & E2). by apply view_set_fat.
Qed.
Lemma node_read_view fuel q v sz s r s' : node_read L fuel q v sz s = Ok (r, s') → view s' = view s.
Proof.
  unfold node_read. destruct v as [n|n].
  - destruct (ramfs_read _ _ _ _). by intros [_ <-]%Ok_pair.
  - intros ([[r1 r2] f] & E & [_ <-]%Ok_pair)%obind_Ok. apply Fat32.fat32_read_effect in E as (_ & E1 & E2). by apply view_set_fat.
Qed.
Lemma elf_file_of_view fuel f v s r s' : elf_file_of L fuel f v s = Ok (r, s') → view s' = view s.
Proof.
  unfold elf_file_of. intros ([b st] & _ & E)%obind_Ok. destruct (b =? 0); [by apply Ok_pair in E as [_ <-] |].
  apply obind_Ok in E as ([[r1 r2] s1] & E1 & E). apply node_read_view in E1. by apply Ok_pair in E as [_ <-].
Qed.
Lemma ls_from_view fuel n i s : same (ls_from L fuel n i s) s.
Proof.
  revert i s. induction n as [|n IH]; intros i s s'; [done |]. cbn [ls_from].
  intros ([r s1] & E1 & E)%obind_Ok. apply node_readdir_view in E1. rewrite <- E1.
  destruct r as [[nm fl]|]; [| by injection E as <-].
  apply obind_Ok in E as (s2 & E2 & E). apply obind_Ok in E as (s3 & E3 & E).
  rewrite (IH _ _ _ E), (say_view _ _ _ _ E3). destruct (_ =? 0); [by injection E2 as -> | by apply say_view in E2].
Qed.

Lemma view_set_kern k s : view (set_kern k s) = view s. Proof. done. Qed.
Lemma view_set_machine st s : view (set_machine st s) = view s. Proof. done. Qed.
Lemma view_set_io d s : view (set_io d s) = view s. Proof. done. Qed.
Lemma view_set_disks a s : view (set_disks a s) = view s. Proof. done. Qed.
Lemma view_set_network t s : view (set_network t s) = view s. Proof. done. Qed.
Lemma view_with_test_page p s : view (with_test_page p s) = view s. Proof. done. Qed.
Lemma view_cmd_clear s : view (cmd_clear s) = view s. Proof. done. Qed.
End frames.
#[export] Hint Rewrite @view_set_kern @view_set_machine @view_set_io @view_set_disks @view_set_network
  @view_with_test_page @view_cmd_clear : shell_view.

(** Follow a run of a command backwards, collecting what its parts keep. *)
Ltac view_step :=
  match goal with
  | H : obind _ _ = Ok _ |- _ => first [apply obind_Ok in H as ([[? ?] ?] & ? & H) |
      apply obind_Ok in H as ([? ?] & ? & H) | apply obind_Ok in H as (? & ? & H)]
  | H : say _ _ _ = Ok _ |- _ => apply say_view in H
  | H : put_all _ _ _ = Ok _ |- _ => apply put_all_view in H
  | H : say_at _ _ _ _ = Ok _ |- _ => apply say_at_view in H
  | H : repeat_say _ _ _ _ = Ok _ |- _ => apply repeat_say_view in H
  | H : dump_rows _ _ _ _ = Ok _ |- _ => apply dump_rows_view in H
  | H : ls_from _ _ _ _ _ = Ok _ |- _ => apply ls_from_view in H
  | H : node_read _ _ _ _ _ _ = Ok (_, _, _) |- _ => apply node_read_view in H
  | H : elf_file_of _ _ _ _ _ = Ok (_, _) |- _ => apply elf_file_of_view in H
  | H : Ok ?a = Ok ?b |- _ => assert (a = b) by (injection H; done); clear H; subst
  | H : (match ?x with _ => _ end) = Ok _ |- _ => destruct x
  end.
Ltac view_tac :=
  intros; cbv zeta in *; repeat view_step; autorewrite with shell_view in *; congruence.

#[export] Hint Unfold cmd_help cmd_about cmd_ticks cmd_mem cmd_pages cmd_uptime cmd_alloc cmd_free cmd_kmalloc
  cmd_testheap cmd_ls cmd_pwd cmd_cat cmd_text cmd_ping cmd_pci cmd_netstat cmd_lsdisk cmd_rd cmd_ps cmd_kill
  cmd_elfinfo cmd_exec cmd_ring3 cmd_send cmd_recv cmd_yes cmd_echo cmd_halt cmd_reboot
  cmd_whoami cmd_uname cmd_true cmd_false cmd_unknown : shell_commands.

(** ** The heap behind the nodes *)

Section directory.
Context {Pg D : Type} `{PageAlloc Pg, !PageStats Pg, !PortIO D}.
Variable L : layout.
Implicit Types (s : shell Pg D) (st : machine Pg) (c : cstring) (r : flow (shell Pg D)).

Definition state_of r : shell Pg D := match r with Returns s => s | Halts s => s end.

(** Two memories that agree outside of [cmd]. *)
Definition outside (m m' : memory) : Prop :=
  ∀ a, a < cmd_at L ∨ cmd_at L + 256 ≤ a → rd8 m' a = rd8 m a.

(** Every node is a live block of the heap. *)
Definition nodes_in s (live : list block) : Prop :=
  ∀ q, is_Some (node_of q s) → ∃ m, (q - 16, m) ∈ live.
Definition heap_live st s : Prop := ∃ fl live, heap_inv st fl live ∧ nodes_in s live.
(** It stays so whatever is typed: [cmd] is not part of the heap. *)
Definition heap_ok s : Prop :=
  ∀ m, outside (mem (machine_of s)) m → heap_live (with_mem m (machine_of s)) s.

Lemma heap_ok_live s : heap_ok s → heap_live (machine_of s) s.
Proof. intros Hok. specialize (Hok (mem (machine_of s)) (λ _ _, eq_refl)). by destruct (machine_of s). Qed.

Lemma heap_ok_apart s fl live :
  heap_inv (machine_of s) fl live → nodes_in s live →
  Forall (λ b, cmd_at L + 256 ≤ b.1 ∨ b.1 + b.2 ≤ cmd_at L) (fl ++ live) → heap_ok s.
Proof.
  intros Hi Hn Hb m Hm. exists fl, live. split; [| done]. rewrite Forall_forall in Hb.
  apply (heap_inv_frame (machine_of s)); [done | done | | by destruct Hi | done].
  intros b x Hin Hx. apply Hm. specialize (Hb b Hin). lia.
Qed.

(** A block that is handed out is not a node yet. *)
Lemma kmalloc_fresh fuel size st s n st' :
  0 < size < W32 → heap_live st s → kmalloc fuel size st = Ok (n, st') →
  (n = 0 ∧ heap_live st' s) ∨
  (n ≠ 0 ∧ node_of n s = None ∧ ∃ fl live m, heap_inv st' fl ((n - 16, m) :: live) ∧ nodes_in s live).
Proof.
  intros Hs (fl & live & Hinv & Hl) E. destruct (kmalloc_ok st fl live size fuel n st' Hinv Hs E) as (fl' & Hpost & _).
  destruct Hpost as [(-> & Hinv' & _) | (m & Hn & Hinv' & _)]; [left; split; [done |]; by exists fl', live | right].
  split_and!; [done | | by exists fl', live, m].
  apply eq_None_not_Some. intros [k Hk]%Hl. by apply (live_fresh _ _ _ _ _ n k Hinv').
Qed.

Definition is_dir s (q : Z) : Prop := ∃ v, node_of q s = Some v ∧ vhas FS_DIR v = true.
Definition dir_ok s : Prop := cwd s = 0 ∨ is_dir s (cwd s).

Record kept s s' : Prop := {
  kp_keys : keys (sys s') = keys (sys s);
  kp_idx : idx s' = idx s;
  kp_mounted : mounted s' = mounted s;
  kp_dirs : ∀ q, is_dir s q → is_dir s' q;
  kp_cwd : dir_ok s → dir_ok s';
}.

Lemma kept_refl s : kept s s.
Proof. by split. Qed.
Lemma kept_trans s1 s2 s3 : kept s1 s2 → kept s2 s3 → kept s1 s3.
Proof. intros [] []. split; try congruence; auto. Qed.
Lemma kept_view s s1 s' : view s' = view s1 → kept s s1 → kept s s'.
Proof.
  intros E Hk. apply (kept_trans _ s1); [done |].
  pose proof (f_equal (λ v, v.1.1.1.1.1) E) as E1. pose proof (f_equal (λ v, v.1.1.1.1.2) E) as E2.
  pose proof (f_equal (λ v, v.1.1.1.2) E) as E3. pose proof (f_equal (λ v, v.1.1.2) E) as E4.
  pose proof (f_equal (λ v, v.1.2) E) as E5. pose proof (f_equal snd E) as E6. cbn [fst snd view] in *.
  assert (En : ∀ q, node_of q s' = node_of q s1) by (intros q; unfold node_of; by rewrite E4, E5).
  split; unfold dir_ok, is_dir; rewrite ?E6; try done; by setoid_rewrite En.
Qed.

(** Nodes that only change inside, and perhaps a new one: the rest is untouched. *)
Lemma kept_nodes s s' :
  keys (sys s') = keys (sys s) → idx s' = idx s → mounted s' = mounted s → cwd s' = cwd s →
  (∀ q v, node_of q s = Some v → ∃ v', node_of q s' = Some v' ∧ vflags v' = vflags v) → kept s s'.
Proof.
  intros E1 E2 E3 E4 Hn.
  assert (Hd : ∀ q, is_dir s q → is_dir s' q).
  { intros q (v & Hv & Hvd). destruct (Hn q v Hv) as (v' & Hv' & Ef). exists v'. split; [done |].
    unfold vhas in *. by rewrite Ef. }
  split; try done. unfold dir_ok. rewrite E4. intros [H0 | H0]; [by left | right; by apply Hd].
Qed.

(** ** Lookups *)

Lemma set_fat_node_of s f q :
  node_of q (set_fat f s) = match nodes (files s) !! q with Some n => Some (Ram n) | None => Fat <$> Fat32.fnodes f !! q end.
Proof. done. Qed.

Lemma node_find_kept fuel q nm s x s' :
  node_find L fuel q nm s = Ok (x, s') → heap_live (machine_of s) s →
  kept s s' ∧ heap_live (machine_of s') s' ∧ nodes (files s') = nodes (files s) ∧ cwd s' = cwd s.
Proof.
  unfold node_find. intros E Hl. destruct (node_of q s) as [v|]; [| done]. destruct (negb _); [done |].
  destruct v as [n|n]; [by apply obind_Ok in E as (? & _ & [_ <-]%Ok_pair) |].
  apply obind_Ok in E as ([y f] & Ef & [_ <-]%Ok_pair).
  change (machine_of (set_fat f s)) with (Fat32.fheap f).
  apply Fat32.fat32_finddir_effect in Ef as (Eses & Hcase).
  change (Fat32.fnodes (fat_of s)) with (fat_nodes (fats s)) in Hcase.
  change (Fat32.fheap (fat_of s)) with (machine_of s) in Hcase.
  assert (Hsame : Fat32.fnodes f = fat_nodes (fats s) → ∀ q, node_of q (set_fat f s) = node_of q s).
  { intros En z. rewrite set_fat_node_of, En. done. }
  assert (Hstay : heap_live (Fat32.fheap f) s → Fat32.fnodes f = fat_nodes (fats s) →
    kept s (set_fat f s) ∧ heap_live (Fat32.fheap f) (set_fat f s) ∧ nodes (files (set_fat f s)) = nodes (files s) ∧
    cwd (set_fat f s) = cwd s).
  { intros (fl & live & Hi & Hn) En. split_and!; [| | done | done].
    - apply kept_nodes; try done. intros z v Hv. exists v. by rewrite Hsame.
    - exists fl, live. split; [done |]. intros z. rewrite Hsame by done. apply Hn. }
  destruct Hcase as [[En Eh] | [[En Ek] | (Hy & Ek & m & En)]].
  - apply Hstay; [by rewrite Eh | done].
  - apply Hstay; [| done]. destruct (kmalloc_fresh fuel 180 _ s _ _ ltac:(lia) Hl Ek) as [[_ ?] | [? _]]; done.
  - destruct (kmalloc_fresh fuel 180 _ s _ _ ltac:(lia) Hl Ek) as [[? _] | (_ & Hfresh & fl & live & k & Hi & Hn)]; [done |].
    assert (Hold : ∀ z, z ≠ y → node_of z (set_fat f s) = node_of z s).
    { intros z Hz. rewrite set_fat_node_of, En, lookup_insert_ne by done. done. }
    split_and!; [| | done | done].
    + apply kept_nodes; try done. intros z v Hv. exists v. split; [| done]. rewrite Hold; [done | congruence].
    + exists fl, ((y - 16, k) :: live). split; [done |]. intros z Hz.
      destruct (decide (z = y)) as [-> | Hne]; [exists k; left |]. rewrite Hold in Hz by done.
      destruct (Hn z Hz) as [j Hj]. exists j. by right.
Qed.

Lemma lookup_kept fuel nm s x s' :
  lookup_file L fuel nm s = Ok (x, s') → heap_live (machine_of s) s → kept s s'.
Proof.
  unfold lookup_file. intros ([f s1] & E & [_ <-]%Ok_pair)%obind_Ok Hl. by destruct (node_find_kept _ _ _ _ _ _ E Hl).
Qed.

(** The walk of [cd]. *)
Lemma walk_path_kept fuel n cur rel s x s' :
  walk_path (FileSystem0 := shell_filesystem L fuel) n cur rel s = Ok (x, s') → heap_live (machine_of s) s → kept s s'.
Proof.
  revert cur rel s. induction n as [|n IH]; intros cur rel s; [done |]. cbn [walk_path].
  destruct rel as [|b rel]; [intros [_ <-]%Ok_pair _; apply kept_refl |].
  destruct (skip_slashes _) as [|b' rel']; [intros [_ <-]%Ok_pair _; apply kept_refl |].
  destruct (take_component _ _) as [w rest]. do 2 (destruct (bool_decide _); [by apply IH |]).
  cbn [node_finddir shell_filesystem]. destruct (node_of cur s) as [v|]; [| intros [_ <-]%Ok_pair _; apply kept_refl].
  destruct (vhas _ _); [| intros [_ <-]%Ok_pair _; apply kept_refl].
  intros ([y s1] & E & E')%obind_Ok Hl. destruct (node_find_kept _ _ _ _ _ _ E Hl) as (Hk & Hl1 & _).
  destruct (_ =? 0); [by apply Ok_pair in E' as [_ <-] |]. apply (kept_trans _ s1); [done | by apply IH in E'].
Qed.

Lemma resolve_kept fuel base p v s x s' :
  vfs_resolve_relative (FileSystem0 := shell_filesystem L fuel) base p v s = Ok (x, s') →
  heap_live (machine_of s) s → kept s s'.
Proof.
  unfold vfs_resolve_relative, vfs_resolve. intros E Hl.
  repeat match type of E with
  | Ok _ = _ => apply Ok_pair in E as [_ <-]; apply kept_refl
  | walk_path _ _ _ _ = _ => by apply walk_path_kept in E
  | context [match ?p with _ => _ end] => destruct p
  end.
Qed.

(** ** The commands *)

Lemma set_files_node_of s fs q :
  node_of q (set_files fs s) = match nodes fs !! q with Some n => Some (Ram n) | None => Fat <$> fat_nodes (fats s) !! q end.
Proof. done. Qed.

Lemma create_node_kept fuel kind parent nm s n fs' :
  create_node fuel kind parent nm (files_of s) = Ok (n, fs') → heap_live (machine_of s) s → kept s (set_files fs' s).
Proof.
  intros E Hl. apply kept_nodes; try done. intros q v Hq. rewrite set_files_node_of.
  assert (Hstay : nodes fs' = nodes (files s) → ∃ v', node_of q (set_files fs' s) = Some v' ∧ vflags v' = vflags v).
  { intros En. exists v. by rewrite set_files_node_of, En. }
  revert E. unfold create_node, alloc_node. cbn [nodes files_of heap].
  destruct (nodes (files s) !! parent) as [p|] eqn:Hp; [| by intros [_ <-]%Ok_pair; apply Hstay].
  destruct (negb _); [by intros [_ <-]%Ok_pair; apply Hstay |].
  destruct (_ <=? pool_count _); [by cbn [obind]; rewrite Z.eqb_refl; intros [_ <-]%Ok_pair; apply Hstay |].
  intros ([n1 fs1] & E1 & E)%obind_Ok. apply obind_Ok in E1 as ([n2 st] & Ek & E1).
  destruct (kmalloc_fresh fuel 436 _ s _ _ ltac:(lia) Hl Ek) as [[-> _] | (Hn2 & Hfresh & _)].
  { cbn [Z.eqb] in E1. apply Ok_pair in E1 as [<- <-]. cbn [Z.eqb] in E. apply Ok_pair in E as [_ <-]. by apply Hstay. }
  destruct (Z.eqb_spec n2 0); [done |]. apply Ok_pair in E1 as [<- <-]. destruct (Z.eqb_spec n2 0); [done |].
  destruct (128 <=? _); [done |]. apply Ok_pair in E as [_ <-]. cbn [nodes with_nodes].
  assert (Hne : q ≠ n2) by congruence. unfold node_of in Hq.
  destruct (decide (q = parent)) as [-> | Hpar].
  - rewrite lookup_alter_eq, !lookup_insert_ne, Hp by done. rewrite Hp in Hq. injection Hq as <-. by eexists.
  - rewrite lookup_alter_ne, !lookup_insert_ne by done. by exists v.
Qed.

Lemma cmd_create_kept fuel kind nm s s' : cmd_create fuel kind nm s = Ok s' → heap_live (machine_of s) s → kept s s'.
Proof.
  unfold cmd_create. intros E Hl.
  assert (Hsay : ∀ l s1, say fuel l s1 = Ok s' → kept s s1 → kept s s').
  { intros l s1 Es Hk. apply say_view in Es. by eapply kept_view. }
  destruct (cwd s =? 0); [eapply Hsay; [done | apply kept_refl] |].
  assert (Hnode : (let! (n, fs) := create_node fuel kind (cwd s) nm (files_of s) in
    say fuel [text (if n =? 0 then "error" else "created") ++ NL] (set_files fs s)) = Ok s' → kept s s').
  { intros ([n fs] & E1 & E2)%obind_Ok. eapply Hsay; [done | by eapply create_node_kept]. }
  destruct (node_of (cwd s) s) as [[n|n]|]; [by apply Hnode | | by apply Hnode].
  destruct (_ =? 0); [eapply Hsay; [done | apply kept_refl] |].
  apply obind_Ok in E as ([x fs] & Ea & E). destruct (Z.eqb_spec x 0) as [-> |]; [| done].
  eapply Hsay; [done |]. apply kept_nodes; try done. intros q v Hq. rewrite set_files_node_of. exists v. split; [| done].
  enough (nodes fs = nodes (files s)) as -> by done. revert Ea. unfold alloc_node.
  destruct (_ <=? _); [by intros [_ <-]%Ok_pair |]. intros ([y st] & _ & Ea)%obind_Ok.
  destruct (Z.eqb_spec y 0); [by apply Ok_pair in Ea as [_ <-] | by apply Ok_pair in Ea as [? _]].
Qed.

Lemma cmd_cd_kept fuel p s s' : cmd_cd L fuel p s = Ok s' → heap_live (machine_of s) s → kept s s'.
Proof.
  unfold cmd_cd. intros E Hl. destruct (cwd s =? 0).
  { apply say_view in E. eapply kept_view; [exact E | apply kept_refl]. }
  cbv zeta in E. apply obind_Ok in E as ([x s1] & E1 & E). apply resolve_kept in E1; [| done].
  destruct (node_of x s1) as [v|] eqn:Hv; [destruct (vhas FS_DIR v) eqn:Hd |];
    [| apply say_view in E; by eapply kept_view..].
  injection E as <-. destruct E1. split; try done. intros _. right. by exists v.
Qed.

Lemma ramfs_write_kept f off sz buf s : kept s (set_files (snd (ramfs_write f off sz buf (files_of s))) s).
Proof.
  apply kept_nodes; try done. intros q v Hq. rewrite set_files_node_of. unfold ramfs_write. cbn [nodes files_of].
  destruct (nodes (files s) !! f) as [n|] eqn:Hn; [| by exists v]. destruct (negb _); [by exists v |]. cbv zeta.
  set (d := loop_n _ _ _ _). cbn [snd nodes with_nodes]. destruct (decide (q = f)) as [-> | Hne].
  - rewrite lookup_insert_eq. unfold node_of in Hq. rewrite Hn in Hq. injection Hq as <-. eexists. split; [done |].
    match goal with |- vflags (Ram (if ?b then _ else _)) = _ => by destruct b end.
  - rewrite lookup_insert_ne by done. by exists v.
Qed.

Lemma find_space_range i c n : find_space i c = Some n → (i ≤ n < i + length c)%nat.
Proof.
  revert i. induction c as [|b c IH]; intros i; cbn; [done |]. destruct (b =? 32); [intros [= <-]; lia |].
  intros E%IH. lia.
Qed.

Lemma cmd_write_kept fuel c s s' :
  cmd_write L fuel c s = Ok s' → heap_ok s → (length c < 256)%nat → kept s s'.
Proof.
  unfold cmd_write. intros E Hl Hc. destruct (cwd s =? 0).
  { apply say_view in E. eapply kept_view; [exact E | apply kept_refl]. }
  destruct (find_space _ _) as [sp|] eqn:Hsp; [| apply say_view in E; eapply kept_view; [exact E | apply kept_refl]].
  apply find_space_range in Hsp. rewrite length_drop in Hsp. cbv zeta in E. set (s1 := set_machine _ s) in E.
  assert (H1 : kept s s1) by (by eapply kept_view; [| apply kept_refl]).
  assert (Hl1 : heap_live (machine_of s1) s1).
  { apply (Hl (wr8 (mem (machine_of s)) (cmd_at L + Z.of_nat sp) 0)). intros a Ha. apply rd8_wr8_ne. lia. }
  clearbody s1. apply obind_Ok in E as ([r s2] & E2 & E). apply lookup_kept in E2; [| done].
  pose proof (kept_trans _ _ _ H1 E2) as H2.
  destruct r as [[f [n|n]]|]; [| done | apply say_view in E; by eapply kept_view].
  destruct (ramfs_write _ _ _ _ _) as [w fs] eqn:Ew. apply say_view in E. eapply kept_view; [exact E |].
  apply (kept_trans _ s2); [done |]. replace fs with (snd (w, fs)) by done. rewrite <- Ew. apply ramfs_write_kept.
Qed.

(** A command that looks a file up and then leaves the nodes alone. *)
Lemma lookup_then_view fuel nm s x s1 s' :
  lookup_file L fuel nm s = Ok (x, s1) → view s' = view s1 → heap_live (machine_of s) s → kept s s'.
Proof. intros E Hv Hl. eapply kept_view; [exact Hv | by eapply lookup_kept]. Qed.

Lemma execute_keeps fuel c s r :
  execute L fuel c s = Ok r → heap_ok s → (length c < 256)%nat → kept s (state_of r).
Proof.
  unfold execute, back, stop. intros Hx Hok Hc. pose proof (heap_ok_live s Hok) as Hl.
  repeat match type of Hx with (if ?b then _ else _) = _ => destruct b end;
    apply obind_Ok in Hx as (s1 & Hx & Hr); injection Hr as <-; cbn [state_of];
    first [by eapply cmd_create_kept | by eapply cmd_cd_kept | by eapply cmd_write_kept |
           eapply kept_view; [| apply kept_refl]; repeat autounfold with shell_commands in Hx; view_tac |
           repeat autounfold with shell_commands in Hx; cbv zeta in *; repeat view_step;
           autorewrite with shell_view in *;
           first [by eapply kept_view; [| apply kept_refl] |
                  eapply lookup_then_view; [eassumption | congruence | exact Hl]]].
Qed.

(** Whatever line is typed, a command that comes back (or halts) leaves the
    keyboard queue, the editor and the mounts alone, every directory of either
    file system stays a directory, and the current directory stays one, so
    that its methods exist for the next command. *)
Theorem execute_keeps_directory fuel c s r :
  execute L fuel c s = Ok r → heap_ok s → (length c < 256)%nat → dir_ok s →
  let s' := state_of r in
  dir_ok s' ∧ (∀ q, is_dir s q → is_dir s' q) ∧
  keys (sys s') = keys (sys s) ∧ idx s' = idx s ∧ mounted s' = mounted s.
Proof. intros E Hok Hc Hd. destruct (execute_keeps fuel c s r E Hok Hc). auto. Qed.
End directory.

(** ** The line editor *)

(** The line after a key, and what the screen shows of the key: a character is
    dropped when the line is full, and there is nothing to erase on an empty
    line. *)
Definition edit (l : list Z) (k : Z) : list Z :=
  if k =? BACKSPACE then take (length l - 1) l else if (length l <? 255)%nat then l ++ [k] else l.
Definition echo (l : list Z) (k : Z) : list Z :=
  if k =? BACKSPACE then (match l with [] => [] | _ => [BACKSPACE] end)
  else if (length l <? 255)%nat then [k] else [].
Fixpoint echoes (l ks : list Z) : list Z :=
  match ks with [] => [] | k :: ks' => echo l k ++ echoes (edit l k) ks' end.
Definition key_ok (k : Z) : Prop := 0 < k < W8 ∧ k ≠ NEWLINE.

Lemma edit_ok l k : key_ok k → Forall key_ok l → (length l ≤ 255)%nat →
  Forall key_ok (edit l k) ∧ (length (edit l k) ≤ 255)%nat.
Proof.
  intros Hk Hl Hn. unfold edit. destruct (k =? 8); [split; [by apply Forall_take | rewrite length_take; lia] |].
  destruct (Nat.ltb_spec (length l) 255); [| done].
  split; [by apply Forall_app; split; [| constructor] | rewrite length_app; simpl; lia].
Qed.

Lemma until_zero_bytes m a l n :
  Forall (λ b, b ≠ 0) l → bytes_at m a (length l) = l → rd8 m (a + zlen l) = 0 → (length l < n)%nat →
  until_zero (bytes_at m a n) = l.
Proof.
  intros Hl. revert a n. induction Hl as [|b l Hb Hl IH]; intros a [|n] E H0 Hn; try (simpl in *; lia).
  - cbn [length] in H0. rewrite bytes_at_S, Z.add_0_r in *. cbn [until_zero]. by rewrite H0.
  - cbn [length] in *. rewrite bytes_at_S in *. injection E as Eb E. cbn [until_zero].
    destruct (Z.eqb_spec (rd8 m a) 0); [congruence |]. rewrite Eb. f_equal. apply IH; [done | | lia].
    rewrite <- H0. f_equal. lia.
Qed.

Section editor.
Context {Pg D : Type} `{PageAlloc Pg, !PageStats Pg, !PortIO D} `{!SerialReady (D := D)}.
Variable L : layout.
Implicit Types (s : shell Pg D) (l ks : list Z).

(** [cmd] holds the line [l] and [idx] is its length. *)
Record editing s l : Prop := {
  ed_idx : idx s = zlen l;
  ed_cmd : bytes_at (mem (machine_of s)) (cmd_at L) (length l) = l;
  ed_len : (length l ≤ 255)%nat;
  ed_keys : Forall key_ok l;
}.

(** Only [cmd], [idx], the terminal and the keyboard differ. *)
Definition edited (m : memory) (i : Z) (t : terminal D) (b : kbd * kbuf) s : shell Pg D :=
  with_idx i (with_sys (with_keys b (with_term t (with_kern (set_mem m (kern (sys s))) (sys s)))) s).
Definition typed s s' : Prop :=
  ∃ m i t b, s' = edited m i t b s ∧ outside L (mem (machine_of s)) m.

Lemma edited_same s : edited (mem (machine_of s)) (idx s) (term (sys s)) (keys (sys s)) s = s.
Proof. by destruct s as [[[[]] ? ? ? ?]]. Qed.
Lemma edited_twice m i t b m' i' t' b' s : edited m' i' t' b' (edited m i t b s) = edited m' i' t' b' s.
Proof. done. Qed.
Lemma typed_refl s : typed s s.
Proof. exists (mem (machine_of s)), (idx s), (term (sys s)), (keys (sys s)). by rewrite edited_same. Qed.
Lemma typed_trans s1 s2 s3 : typed s1 s2 → typed s2 s3 → typed s1 s3.
Proof.
  intros (m & i & t & b & -> & H1) (m' & i' & t' & b' & -> & H2). exists m', i', t', b'.
  split; [done |]. intros a Ha. by rewrite H2, H1.
Qed.

(** The single changes as edits. *)
Lemma set_term_edited t s : set_term t s = edited (mem (machine_of s)) (idx s) t (keys (sys s)) s.
Proof. by destruct s as [[[[]] ? ? ? ?]]. Qed.
Lemma with_idx_edited i s : with_idx i s = edited (mem (machine_of s)) i (term (sys s)) (keys (sys s)) s.
Proof. by destruct s as [[[[]] ? ? ? ?]]. Qed.
Lemma poke_edited a v s : poke a v s = edited (wr8 (mem (machine_of s)) a v) (idx s) (term (sys s)) (keys (sys s)) s.
Proof. by destruct s as [[[[]] ? ? ? ?]]. Qed.
Lemma with_keys_edited b s :
  with_sys (with_keys b (sys s)) s = edited (mem (machine_of s)) (idx s) (term (sys s)) b s.
Proof. by destruct s as [[[[]] ? ? ? ?]]. Qed.

Lemma say_shows fuel ws s p :
  (0 < fuel)%nat → shows (term (sys s)) p → Forall (λ w, printable w) ws →
  ∃ t, say fuel ws s = Ok (set_term t s) ∧ shows t (foldl paper_put p (concat ws)).
Proof.
  intros Hf Hs Hl. unfold say. destruct (write_all_shows fuel ws (term (sys s)) p Hf Hs Hl) as (t & -> & Ht).
  by exists t.
Qed.

Lemma on_key_edit fuel k s l p :
  (0 < fuel)%nat → key_ok k → editing s l → shows (term (sys s)) p →
  ∃ s', shell_on_key L fuel k s = Ok (Returns s') ∧ typed s s' ∧ editing s' (edit l k) ∧
    keys (sys s') = keys (sys s) ∧ shows (term (sys s')) (foldl paper_put p (echo l k)).
Proof.
  intros Hf Hk [Hi Hc Hn Hl] Hs. destruct (edit_ok l k Hk Hl Hn) as [Hok Hlen]. destruct Hk as [Hk Hnl].
  revert Hok Hlen. unfold shell_on_key, edit, echo. destruct (Z.eqb_spec k NEWLINE); [done |].
  destruct (Z.eqb_spec k BACKSPACE) as [-> | Hb]; [| destruct (Nat.ltb_spec (length l) 255) as [Hlt | Hge]]; intros Hok Hlen.
  - destruct (Z.ltb_spec 0 (idx s)).
    + destruct (putchar_shows fuel BACKSPACE (term (sys s)) p Hf Hs) as (t & E & Ht).
      unfold backspace. cbn [term sys with_idx]. rewrite E. cbn [obind]. eexists. split; [done |].
      rewrite set_term_edited, with_idx_edited, edited_twice. split; [by eexists _, _, _, _ |].
      split; [| split; [done | by destruct l; [simpl in *; lia |]]].
      split; [| | done | done].
      * cbn [idx edited with_idx]. rewrite length_take. lia.
      * change (bytes_at (mem (machine_of s)) (cmd_at L) (length (take (length l - 1) l)) = take (length l - 1) l).
        transitivity (take (length l - 1) (bytes_at (mem (machine_of s)) (cmd_at L) (length l))); [| by rewrite Hc].
        rewrite bytes_at_take, length_take by lia. f_equal. lia.
    + destruct l; [| simpl in *; lia]. eexists. split; [done |]. split; [apply typed_refl |]. by split.
  - destruct (Z.ltb_spec (idx s) 255); [| lia]. unfold put.
    destruct (putchar_shows fuel k (term (sys s)) p Hf Hs) as (t & E & Ht).
    change (term (sys (with_idx (idx s + 1) (poke (cmd_at L + idx s) k s)))) with (term (sys s)). rewrite E. cbn [obind back].
    eexists. split; [done |]. rewrite set_term_edited, with_idx_edited, poke_edited, !edited_twice.
    split; [| split; [| done]].
    + eexists _, _, _, _. split; [done |]. intros a Ha. apply rd8_wr8_ne. lia.
    + split; [| | done | done].
      * cbn [idx edited with_idx]. rewrite length_app. simpl. lia.
      * change (bytes_at (wr8 (mem (machine_of s)) (cmd_at L + idx s) k) (cmd_at L) (length (l ++ [k])) = l ++ [k]).
        rewrite length_app, Nat.add_1_r, bytes_at_snoc, <- Hi, rd8_wr8, Z.eqb_refl, u8_id by lia. f_equal.
        rewrite <- Hc at 2. apply bytes_at_ext. intros x Hx. apply rd8_wr8_ne. lia.
  - destruct (Z.ltb_spec (idx s) 255); [lia |]. eexists. split; [done |]. split; [apply typed_refl |]. by split.
Qed.

(** Typing does not touch the heap. *)
Lemma typed_heap_ok s s' : typed s s' → heap_ok L s → heap_ok L s'.
Proof.
  intros (m & i & t & b & -> & Hm) Hok m' Hm'.
  destruct (Hok m') as (fl & live & Hi & Hn); [intros a Ha; rewrite <- Hm by done; by apply Hm' |].
  by exists fl, live.
Qed.

Lemma typed_keys b s : typed s (with_sys (with_keys b (sys s)) s).
Proof. rewrite with_keys_edited. by eexists _, _, _, _. Qed.
Lemma editing_keys b s l : editing s l → editing (with_sys (with_keys b (sys s)) s) l.
Proof. by intros []. Qed.

(** The loop of [shell_tick] on the keys before the end of the line. *)
Lemma tick_edits fuel n ks s l rest p :
  (0 < fuel)%nat → Forall key_ok ks → editing s l → shows (term (sys s)) p →
  kbuf_wf (snd (keys (sys s))) → pending (snd (keys (sys s))) = ks ++ rest →
  ∃ s', shell_tick L fuel (length ks + n) s = shell_tick L fuel n s' ∧ typed s s' ∧ editing s' (foldl edit l ks) ∧
    kbuf_wf (snd (keys (sys s'))) ∧ pending (snd (keys (sys s'))) = rest ∧
    shows (term (sys s')) (foldl paper_put p (echoes l ks)).
Proof.
  intros Hf Hks. revert s l p. induction Hks as [|k ks Hk Hks IH]; intros s l p He Hs Hb Hp.
  { exists s. by split_and!; try apply typed_refl. }
  pose proof (pop_spec _ Hb) as Hpop. rewrite Hp in Hpop. destruct Hpop as (b & Epop & Hb' & Hp').
  cbn [length Nat.add shell_tick]. rewrite Epop. set (s1 := with_sys _ s).
  destruct (on_key_edit fuel k s1 l p Hf Hk (editing_keys _ _ _ He) Hs) as (s2 & E2 & Ht2 & He2 & Hk2 & Hs2).
  rewrite E2. cbn [obind].
  destruct (IH s2 (edit l k) _ He2 Hs2) as (s3 & E3 & Ht3 & He3 & Hb3 & Hp3 & Hs3); [by rewrite Hk2 | by rewrite Hk2 |].
  exists s3. cbn [echoes foldl]. rewrite foldl_app. split_and!; try done.
  apply (typed_trans _ s1); [apply typed_keys | by apply (typed_trans _ s2)].
Qed.

(** The [Enter] key: the line that was edited is executed. *)
Lemma enter_key fuel s l p :
  (0 < fuel)%nat → editing s l → shows (term (sys s)) p →
  ∃ s1, typed s s1 ∧ keys (sys s1) = keys (sys s) ∧ cmd_string L s1 = l ∧
    shows (term (sys s1)) (foldl paper_put p [NEWLINE]) ∧
    shell_on_key L fuel NEWLINE s = (let! r := execute L fuel l s1 in
      match r with
      | Returns s2 => back (say fuel [text "> "] (with_idx 0 s2))
      | Halts s2 => Ok (Halts s2)
      end).
Proof.
  intros Hf [Hi Hc Hn Hl] Hs.
  destruct (say_shows fuel [NL] s p Hf Hs) as (t & E & Ht); [by repeat constructor |].
  exists (poke (cmd_at L + idx s) 0 (set_term t s)).
  assert (Hcmd : cmd_string L (poke (cmd_at L + idx s) 0 (set_term t s)) = l).
  { apply until_zero_bytes; [| | | lia].
    - eapply Forall_impl; [exact Hl |]. unfold key_ok. lia.
    - rewrite <- Hc at 2. apply bytes_at_ext. intros x Hx. apply rd8_wr8_ne. lia.
    - rewrite <- Hi. change (rd8 (wr8 (mem (machine_of s)) (cmd_at L + idx s) 0) (cmd_at L + idx s) = 0).
      by rewrite rd8_wr8, Z.eqb_refl. }
  split_and!; [| done | done | done |].
  - rewrite poke_edited, set_term_edited, edited_twice. eexists _, _, _, _. split; [done |].
    intros a Ha. apply rd8_wr8_ne. cbn [idx edited with_idx]. lia.
  - unfold shell_on_key. cbn [Z.eqb Pos.eqb]. rewrite E. cbn [obind].
    change (idx (set_term t s)) with (idx s). by rewrite Hcmd.
Qed.

(** C24: the line editor. When the keys that are waiting end with [Enter], one
    call of [shell_tick] executes exactly the line that the keys edit (the
    backspaces applied, characters beyond 255 dropped), after showing each key
    that took effect; no other memory than [cmd] has changed until then. When
    the command comes back, all keys have been consumed, the line is empty
    again and the prompt follows what the command has printed. *)
Theorem shell_line_executed fuel n s l ks p :
  (0 < fuel)%nat → kbuf_wf (snd (keys (sys s))) → pending (snd (keys (sys s))) = ks ++ [NEWLINE] →
  Forall key_ok ks → editing s l → shows (term (sys s)) p → heap_ok L s →
  let line := foldl edit l ks in
  ∃ s1, typed s s1 ∧ cmd_string L s1 = line ∧ pending (snd (keys (sys s1))) = [] ∧
    shows (term (sys s1)) (foldl paper_put p (echoes l ks ++ [NEWLINE])) ∧
    (∀ s2, execute L fuel line s1 = Ok (Halts s2) → shell_tick L fuel (length ks + 2 + n) s = Ok (Halts s2)) ∧
    (∀ s2 p2, execute L fuel line s1 = Ok (Returns s2) → shows (term (sys s2)) p2 →
      ∃ t, shell_tick L fuel (length ks + 2 + n) s = Ok (Returns (set_term t (with_idx 0 s2))) ∧
        editing (set_term t (with_idx 0 s2)) [] ∧ shows t (foldl paper_put p2 (text "> "))).
Proof.
  intros Hf Hb Hp Hks He Hs Hok line. rewrite <- Nat.add_assoc.
  destruct (tick_edits fuel (2 + n) ks s l [NEWLINE] p Hf Hks He Hs Hb Hp) as (s0 & -> & Ht0 & He0 & Hb0 & Hp0 & Hs0).
  pose proof (pop_spec _ Hb0) as Hpop. rewrite Hp0 in Hpop. destruct Hpop as (b & Epop & Hb' & Hp').
  cbn [Nat.add shell_tick]. rewrite Epop. set (s0' := with_sys _ s0).
  destruct (enter_key fuel s0' line _ Hf (editing_keys _ _ _ He0) Hs0) as (s1 & Ht1 & Hk1 & Hc1 & Hs1 & ->).
  assert (Ht : typed s s1) by (apply (typed_trans _ s0); [done |]; apply (typed_trans _ s0'); [apply typed_keys | done]).
  exists s1. rewrite foldl_app, Hk1. split_and!; [done.. | |].
  - intros s2 ->. done.
  - intros s2 p2 E2 Hs2. rewrite E2. cbn [obind].
    destruct (say_shows fuel [text "> "] (with_idx 0 s2) p2 Hf Hs2) as (t & -> & Ht2); [by repeat constructor |].
    exists t. cbn [back obind]. split_and!; [| split; done || simpl; lia | done].
    pose proof (kp_keys _ _ (execute_keeps L fuel _ _ _ E2 (typed_heap_ok _ _ Ht Hok) (le_n_S _ _ (ed_len _ _ He0)))) as Hk2. cbn [state_of] in Hk2.
    change (keys (sys (set_term t (with_idx 0 s2)))) with (keys (sys s2)). rewrite Hk2, Hk1.
    pose proof (pop_spec b Hb') as Hpop. rewrite Hp' in Hpop. cbn [snd keys sys with_sys with_keys s0']. by rewrite Hpop.
Qed.
End editor.


(** ** Witnesses *)

Import Pmm.

Definition demo_layout : layout := mkLayout 0x9000 0x9200 0x9300 0x9400 0x9A00 2 (λ _, 0).
Definition demo_shell (st : machine Pmm.pmm) (fs : ramfs Pmm.pmm) (dir : Z) (ks : list Z) : shell Pmm.pmm ready_bus :=
  mkShell (mkSys (no_processes st) (keyboard_init, mkKbuf (ks ++ replicate (256 - length ks) 0) (zlen ks) 0) clear_screen 0 0)
    fs (mkFats ∅ ∅) root_vfs (Ata.mkAta [] 0 (mkBus []))
    (Net.mkNet [] [] [] 0 (Rtl8139.mkRtl [] 0 [] (Pci.mkPci [] 0 (mkBus [])) st)) 0 dir 0 8 0 2 0.

(** The root directory on the heap after the boot. *)
Lemma root_only_live st ks :
  heap_inv st [(4194764, 3636)] [(4194304, 460)] →
  nodes_live (files_of (demo_shell st (root_only st) 4194320 ks)) [(4194764, 3636)] [(4194304, 460)].
Proof.
  intros Hinv. split; [exact Hinv |]. intros q [x Hx]. change (nodes (root_only st) !! q = Some x) in Hx.
  unfold root_only in Hx. cbn [nodes] in Hx. apply lookup_singleton_Some in Hx as [<- _]. exists 460. left.
Qed.

Lemma root_only_heap_ok st ks :
  heap_inv st [(4194764, 3636)] [(4194304, 460)] →
  heap_ok demo_layout (demo_shell st (root_only st) 4194320 ks).
Proof.
  intros Hinv. apply (heap_ok_apart _ _ [(4194764, 3636)] [(4194304, 460)]); [exact Hinv | |].
  - intros q Hq. apply (root_only_live st ks Hinv). unfold node_of in Hq. cbn [fats demo_shell fat_nodes] in Hq.
    destruct (nodes _ !! q) as [r|] eqn:E; [| rewrite lookup_empty in Hq; by destruct Hq].
    by exists r.
  - repeat constructor; cbn; lia.
Qed.

(** The keys of [true] with a mistake that is corrected. *)
Definition typed_true : list Z := [116; 120; 8; 114; 117; 101; 10].

Lemma shell_line_executed_witness :
  ∃ st s, shell_tick demo_layout 1 10 (demo_shell st (root_only st) 4194320 typed_true) = Ok (Returns s) ∧
    shows (term (sys s)) (foldl paper_put (foldl paper_put blank_paper ([116; 120; 8; 114; 117; 101] ++ [10])) (text "> ")).
Proof.
  destruct boot_heap_root as (st0 & st & _ & _ & Hinv). exists st.
  destruct (shell_line_executed (D := ready_bus) demo_layout 1 2 (demo_shell st (root_only st) 4194320 typed_true) []
    [116; 120; 8; 114; 117; 101] blank_paper) as (s1 & Ht & Hc & _ & Hs1 & _ & Hret).
  - lia.
  - split; vm_compute; done || split; congruence.
  - vm_compute. reflexivity.
  - repeat constructor; done.
  - split; [reflexivity | reflexivity | simpl; lia | constructor].
  - exact clear_screen_shows.
  - exact (root_only_heap_ok st typed_true Hinv).
  - destruct (Hret s1 (foldl paper_put blank_paper ([116; 120; 8; 114; 117; 101] ++ [10]))) as (t & E & _ & Hs2).
    + reflexivity.
    + exact Hs1.
    + exists (set_term t (with_idx 0 s1)). split; [exact E | exact Hs2].
Defined.

Lemma execute_keeps_directory_witness :
  ∃ st r, execute demo_layout 18 (text "cd .") (demo_shell st (root_only st) 4194320 []) = Ok r ∧ dir_ok (state_of r).
Proof.
  destruct boot_heap_root as (st0 & st & E0 & E1 & Hinv). exists st.
  exists (Returns (demo_shell st (root_only st) 4194320 [])).
  assert (E : execute demo_layout 18 (text "cd .") (demo_shell st (root_only st) 4194320 []) =
    Ok (Returns (demo_shell st (root_only st) 4194320 []))) by reflexivity.
  split; [exact E |].
  apply (execute_keeps_directory demo_layout 18 (text "cd .") (demo_shell st (root_only st) 4194320 []) _ E).
  - exact (root_only_heap_ok st [] Hinv).
  - simpl. lia.
  - right. eexists. split; reflexivity.
Defined.
End Shell.
