(* ===== verification/ShellFiles.v ===== *)
(** * Working with files and directories in the shell: [shell/shell.cpp]

    The commands on files together, as lines that [execute] runs one after the
    other: [touch], [write] and [cat] on the RAM file system, [cat] on a FAT32
    volume, [cd] and [pwd], [wc] and [rev]; and the address that [ping] reads. *)

From stdpp Require Import strings.
From S2P Require Import Prelude Interfaces Machine Libk Ring Pmm Kmalloc Vmm Process Scheduler Ipc Keyboard Ports Terminal Faults Syscall Vfs Ramfs Ata Fat32 Elf Net Pci Rtl8139 Commands Shell.
#[local] Open Scope Z_scope.

Module ShellFiles.
Import Libk Kmalloc Vmm Process Scheduler Ipc Keyboard Terminal Faults Syscall Vfs Ramfs Commands Shell.

(** ** Working with files *)

(** Walk down the tests of [execute] on a line whose beginning is known. *)
Ltac choose_command :=
  unfold execute, equals, starts;
  repeat first [rewrite bool_decide_false by (cbn; discriminate) | rewrite bool_decide_true by reflexivity];
  cbn [orb]; reflexivity.

Section files.
Context {Pg D : Type} `{PageAlloc Pg, !PageStats Pg, !PortIO D} `{!SerialReady (D := D)}.
Variable L : layout.
Implicit Types (s : shell Pg D) (nm txt : list Z).

Lemma execute_touch fuel nm s : execute L fuel (text "touch " ++ nm) s = back (cmd_touch fuel nm s).
Proof. choose_command. Qed.
Lemma execute_cat fuel nm s : execute L fuel (text "cat " ++ nm) s = back (cmd_cat L fuel nm s).
Proof. choose_command. Qed.
Lemma execute_write fuel a s : execute L fuel (text "write " ++ a) s = back (cmd_write L fuel (text "write " ++ a) s).
Proof. choose_command. Qed.

Lemma find_space_run i nm rest :
  Forall (λ b, b ≠ 32) nm → find_space i (nm ++ 32 :: rest) = Some (i + length nm)%nat.
Proof.
  intros Hnm. revert i. induction Hnm as [|b nm Hb _ IH]; intros i; cbn; [f_equal; lia |].
  destruct (Z.eqb_spec b 32); [done |]. rewrite IH. f_equal. lia.
Qed.

Lemma files_of_set fs s : files_of (set_files fs s) = fs.
Proof. by destruct fs. Qed.

(** A directory of the RAM file system. *)
Definition ram_dir s (q : Z) : Prop := ∃ n, nodes (files s) !! q = Some n ∧ has_flag FS_DIR n = true.

Lemma children_ram_dir s q l : children (files_of s) q l → ram_dir s q.
Proof. intros (n & Hn & Hd & _). by exists n. Qed.

Lemma ram_dir_find fuel q nm s :
  ram_dir s q → node_find L fuel q nm s = (let! x := ramfs_finddir 129 q nm (files_of s) in Ok (x, s)).
Proof. intros (n & Hn & Hd). unfold node_find, node_of. rewrite Hn. unfold vhas, has_flag in *. cbn [vflags]. by rewrite Hd. Qed.

(** A file of the current directory that a lookup finds. *)
Definition finds nm s (f : Z) (n : ramfs_node) : Prop :=
  ram_dir s (cwd s) ∧ ramfs_finddir 129 (cwd s) nm (files_of s) = Ok f ∧ nodes (files s) !! f = Some n ∧
  has_flag FS_FILE n = true.

Lemma lookup_finds fuel nm s f n : finds nm s f n → lookup_file L fuel nm s = Ok (Some (f, Ram n), s).
Proof.
  intros (Hd & E & En & Hn). unfold lookup_file. rewrite ram_dir_find, E by done. cbn [obind]. unfold node_of.
  rewrite En. unfold vhas, has_flag in *. cbn [vflags]. by rewrite Hn.
Qed.

Definition name_ok nm : Prop := Forall (λ b, 0 < b < W8 ∧ b ≠ 32) nm ∧ (length nm < 128)%nat.
Definition text_ok txt : Prop := Forall (λ b, 0 < b < W8) txt ∧ (0 < length txt ≤ 255)%nat.

Lemma touch_shows fuel nm s fl live l p :
  ramfs_wf (files_of s) → nodes_live (files_of s) fl live → (length fl + 16 < fuel)%nat →
  children (files_of s) (cwd s) l → (length nm < 128)%nat → shows (term (sys s)) p →
  ∃ s1, execute L fuel (text "touch " ++ nm) s = Ok (Returns s1) ∧ cwd s1 = cwd s ∧
    (nodes (files s1) = nodes (files s) ∧ shows (term (sys s1)) (foldl paper_put p (text "error" ++ NL)) ∨
     ramfs_wf (files_of s1) ∧ (∃ f n l1, finds nm s1 f n ∧ fsize n = 0 ∧ children (files_of s1) (cwd s1) l1) ∧
     shows (term (sys s1)) (foldl paper_put p (text "created" ++ NL))).
Proof.
  intros Hwf Hnl Hf Hch Hlen Hs. rewrite execute_touch. unfold cmd_touch, cmd_create.
  destruct (Z.eqb_spec (cwd s) 0) as [E0 | _].
  { destruct Hch as (x & Hx & _). rewrite E0, (rw_null _ Hwf) in Hx. done. }
  pose proof (children_ram_dir _ _ _ Hch) as (d & Hd & _). unfold node_of. rewrite Hd.
  destruct (create_node_returns fuel FS_FILE (cwd s) nm (files_of s) fl live l Hwf Hnl Hf Hch Hlen) as (n & fs' & E & Hnull).
  rewrite E. cbn [obind].
  destruct (say_shows fuel [text (if n =? 0 then "error" else "created") ++ NL] (set_files fs' s) p) as (t & Et & Ht);
    [lia | done | by destruct (n =? 0); repeat constructor |].
  rewrite Et. cbn [back obind]. eexists. split; [reflexivity |]. split; [done |].
  destruct (Z.eqb_spec n 0) as [-> | Hn]; [left | right].
  - split; [by destruct Hnull | by rewrite concat_cons, app_nil_r in Ht].
  - destruct (create_node_effect fuel FS_FILE (cwd s) nm (files_of s) fl live n fs' l Hwf Hnl Hch (or_introl eq_refl) E Hn)
      as (Hwf' & _ & _ & (x & Hx & _ & Hxf & Hxs & _) & _ & Hch' & _).
    change (files_of (set_term t (set_files fs' s))) with (files_of (set_files fs' s)). rewrite files_of_set.
    split; [done |]. split; [| by rewrite concat_cons, app_nil_r in Ht].
    exists n, x, (n :: l). split_and!; [| done | done].
    split_and!; [| | done | by unfold has_flag; rewrite Hxf].
    { apply (children_ram_dir _ _ (n :: l)). change (files_of (set_term t (set_files fs' s))) with (files_of (set_files fs' s)).
      by rewrite files_of_set. }
    change (files_of (set_term t (set_files fs' s))) with (files_of (set_files fs' s)). rewrite files_of_set.
    by destruct (create_node_lookup fuel FS_FILE (cwd s) nm (files_of s) fl live n fs' l Hwf Hnl Hch (or_introl eq_refl) E Hn)
      as (_ & _ & Hfd & _).
Qed.

Lemma map_aget (l : list Z) : map (λ i, aget l (Z.of_nat i)) (seq 0 (length l)) = l.
Proof.
  apply list_eq. intros i. rewrite list_lookup_fmap. destruct (Nat.lt_ge_cases i (length l)) as [Hi | Hi].
  - rewrite lookup_seq_lt by done. cbn. rewrite <- lookup_aget by lia. by rewrite Nat2Z.id.
  - rewrite lookup_seq_ge by done. symmetry. by apply lookup_ge_None.
Qed.

Lemma aget_bytes (l : list Z) i : Forall (λ b, 0 ≤ b < W8) l → 0 ≤ aget l i < W8.
Proof.
  intros Hl. unfold aget. destruct (i <? 0); [done |]. destruct (l !! Z.to_nat i) as [b|] eqn:E; [| done].
  exact (Forall_lookup_1 _ _ _ _ Hl E).
Qed.

(** A read of 255 bytes stops at the end of the file. *)
Lemma read_to_end f n (fs : ramfs Pg) :
  nodes fs !! f = Some n → 0 < fsize n ≤ 255 → ramfs_read f 0 255 fs = ramfs_read f 0 (fsize n) fs.
Proof.
  intros Hn Hs. unfold ramfs_read. rewrite Hn. destruct (negb _); [done |]. destruct (_ <=? 0); [done |]. cbv zeta.
  rewrite Z.sub_0_r, Z.ltb_irrefl. destruct (Z.ltb_spec (fsize n) 255); [done |]. by replace (fsize n) with 255 by lia.
Qed.

Lemma write_cmd_shows fuel nm txt s f n l p :
  (0 < fuel)%nat → ramfs_wf (files_of s) → finds nm s f n → children (files_of s) (cwd s) l →
  name_ok nm → text_ok txt → fsize n ≤ zlen txt → shows (term (sys s)) p →
  ∃ s1 n1, execute L fuel (text "write " ++ nm ++ 32 :: txt) s = Ok (Returns s1) ∧ cwd s1 = cwd s ∧
    finds nm s1 f n1 ∧ ramfs_read f 0 255 (files_of s1) = (zlen txt, txt) ∧
    shows (term (sys s1)) (foldl paper_put p (text "OK" ++ NL)).
Proof.
  intros Hf Hwf (Hcd & Efd & En & Hfile) Hch [Hnm Hnl] [Htx Htl] Hsz Hs. rewrite execute_write. unfold cmd_write.
  destruct (Z.eqb_spec (cwd s) 0) as [E0 | _].
  { destruct Hch as (x & Hx & _). rewrite E0, (rw_null _ Hwf) in Hx. done. }
  change (drop 6 (text "write " ++ nm ++ 32 :: txt)) with (nm ++ 32 :: txt).
  rewrite find_space_run by (eapply Forall_impl; [exact Hnm | simpl; lia]). cbv zeta.
  set (s0 := set_machine _ s).
  assert (Htake : take (6 + length nm - 6) (nm ++ 32 :: txt) = nm).
  { replace (6 + length nm - 6)%nat with (length nm) by lia. by rewrite take_app_length. }
  assert (Hdrop : drop (6 + length nm + 1) (text "write " ++ nm ++ 32 :: txt) = txt).
  { change (text "write " ++ nm ++ 32 :: txt) with ([119; 114; 105; 116; 101; 32] ++ nm ++ 32 :: txt).
    rewrite app_assoc, (cons_middle 32), app_assoc.
    replace (6 + length nm + 1)%nat with (length (([119; 114; 105; 116; 101; 32] ++ nm) ++ [32])); [by rewrite drop_app_length |].
    rewrite !length_app. simpl. lia. }
  rewrite Htake, Hdrop.
  assert (Hfd0 : finds nm s0 f n).
  { split_and!; [done | | done | done]. rewrite <- Efd. by apply finddir_nodes. }
  rewrite (lookup_finds _ _ _ _ _ Hfd0). cbn [obind].
  assert (Hwf0 : ramfs_wf (files_of s0)) by (by destruct Hwf; split).
  assert (Hch0 : children (files_of s0) (cwd s0) l) by exact Hch.
  destruct (ramfs_write_run f 0 (zlen txt) (aget txt) (files_of s0) n Hwf0 En Hfile)
    as (fs1 & n1 & Ew & Hwf1 & Ens & Es1 & Er & _ & Hname & Hfl & Hch1); [lia | lia | lia | |].
  { intros i. apply aget_bytes. eapply Forall_impl; [exact Htx | simpl; lia]. }
  replace (Z.min (zlen txt) (256 - 0)) with (zlen txt) in * by lia. rewrite Ew.
  assert (Hs32 : s32 (zlen txt) = zlen txt) by (unfold s32; rewrite u32_id by lia; zcase; lia).
  rewrite Hs32. destruct (Z.ltb_spec 0 (zlen txt)); [| lia].
  destruct (say_shows fuel [text "OK" ++ NL] (set_files fs1 s0) p Hf Hs) as (t & Et & Ht); [by repeat constructor |].
  rewrite Et. cbn [back obind]. eexists _, n1. split; [reflexivity |]. split; [done |].
  change (files_of (set_term t (set_files fs1 s0))) with (files_of (set_files fs1 s0)).
  assert (Hn1 : nodes fs1 !! f = Some n1) by (by rewrite Ens, lookup_insert_eq).
  split; [| split].
  - split_and!; [| | done | by unfold has_flag in *; rewrite Hfl].
    { apply (children_ram_dir _ _ l). change (files_of (set_term t (set_files fs1 s0))) with (files_of (set_files fs1 s0)).
      rewrite files_of_set. by apply Hch1. }
    change (files_of (set_term t (set_files fs1 s0))) with (files_of (set_files fs1 s0)). rewrite files_of_set.
    rewrite <- Efd. rewrite (finddir_write (files_of s0) fs1 f n n1 (cwd s) l) by (done || by apply Hch1).
    by apply finddir_nodes.
  - rewrite files_of_set, (read_to_end f n1) by (done || lia). rewrite Es1. replace (Z.max _ _) with (zlen txt) by lia.
    rewrite Er. f_equal. rewrite Nat2Z.id. apply map_aget.
  - by rewrite concat_cons, app_nil_r in Ht.
Qed.

Lemma cat_shows fuel nm s f n got bytes p :
  (0 < fuel)%nat → cwd s ≠ 0 → finds nm s f n → ramfs_read f 0 255 (files_of s) = (got, bytes) → printable bytes →
  shows (term (sys s)) p →
  ∃ s1, execute L fuel (text "cat " ++ nm) s = Ok (Returns s1) ∧ shows (term (sys s1)) (foldl paper_put p (bytes ++ NL)).
Proof.
  intros Hf Hc Hfi Er Hb Hs. rewrite execute_cat. unfold cmd_cat. destruct (Z.eqb_spec (cwd s) 0); [done |].
  rewrite (lookup_finds _ _ _ _ _ Hfi). cbn [obind node_read]. rewrite Er. cbn [obind].
  destruct (say_shows fuel [bytes; NL] s p Hf Hs) as (t & -> & Ht); [by repeat constructor |].
  eexists. split; [reflexivity |]. by rewrite !concat_cons, app_nil_r in Ht.
Qed.

(** C25: files through the shell. [touch] either reports that the system is out
    of nodes and leaves the tree alone, or creates a file; then [write] puts
    the text into it and [cat] prints exactly this text. *)
Theorem shell_write_then_cat fuel nm txt s fl live l p :
  ramfs_wf (files_of s) → nodes_live (files_of s) fl live → (length fl + 16 < fuel)%nat →
  children (files_of s) (cwd s) l → name_ok nm → text_ok txt → shows (term (sys s)) p →
  ∃ s1, execute L fuel (text "touch " ++ nm) s = Ok (Returns s1) ∧
    (nodes (files s1) = nodes (files s) ∧ shows (term (sys s1)) (foldl paper_put p (text "error" ++ NL)) ∨
     ∃ s2 s3, execute L fuel (text "write " ++ nm ++ 32 :: txt) s1 = Ok (Returns s2) ∧
       execute L fuel (text "cat " ++ nm) s2 = Ok (Returns s3) ∧
       shows (term (sys s3)) (foldl paper_put p (text "created" ++ NL ++ text "OK" ++ NL ++ txt ++ NL))).
Proof.
  intros Hwf Hnl Hf Hch Hnm Htx Hs.
  destruct (touch_shows fuel nm s fl live l p Hwf Hnl Hf Hch (proj2 Hnm) Hs) as (s1 & E1 & Hc1 & Hcase). exists s1. split; [done |].
  destruct Hcase as [Herr | (Hwf1 & (f & n & l1 & Hfi & Hsz & Hch1) & Hs1)]; [by left | right].
  destruct (write_cmd_shows fuel nm txt s1 f n l1 _ ltac:(lia) Hwf1 Hfi Hch1 Hnm Htx ltac:(lia) Hs1) as (s2 & n2 & E2 & Hc2 & Hfi2 & Er & Hs2).
  assert (Hc : cwd s2 ≠ 0).
  { rewrite Hc2. intros H0. destruct Hch1 as (x & Hx & _). by rewrite H0, (rw_null _ Hwf1) in Hx. }
  assert (Hpr : printable txt) by (eapply Forall_impl; [apply Htx | simpl; lia]).
  destruct (cat_shows fuel nm s2 f n2 _ _ _ ltac:(lia) Hc Hfi2 Er Hpr Hs2) as (s3 & E3 & Hs3).
  exists s2, s3. split_and!; [done | done |]. by rewrite <- !foldl_app, <- !app_assoc in Hs3.
Qed.
End files.

(** ** Files of a FAT32 volume *)

Section volumes.
Context {Pg D : Type} `{PageAlloc Pg, !PageStats Pg, !PortIO D}.
Variable L : layout.
#[local] Hint Extern 0 (BlockDevice _) => exact (shell_disk L) : typeclass_instances.
Context `{!Fat32.DiskLaws (Ata.ata D)}.
Implicit Types (s : shell Pg D) (nm : list Z).
Import Fat32.

(** The current directory is the directory [n] of a volume that can be read, with the
    clusters [l]. *)
Record in_volume s (n : fat32_node) (l : list Z) : Prop := {
  iv_cwd : cwd s ≠ 0;
  iv_node : node_of (cwd s) s = Some (Fat n);
  iv_dir : is_dir n = true;
  iv_flag : vhas FS_DIR (Fat n) = true;
  iv_fs : fs_ok (fs_of n (fat_of s));
  iv_disk : readable (ata_dev (fs_of n (fat_of s))) (disks_of s);
  iv_chain : fat_chain (fs_of n (fat_of s)) (disks_of s) (first_cluster n) l;
}.
(** The first entry of the directory with the name. *)
Definition entry_of s (n : fat32_node) (l : list Z) nm : option (Z * dirent) :=
  hd_error (filter (λ x, c_str (entry_name x.2) = nm) (dir_entries (fs_of n (fat_of s)) (disks_of s) l)).

Lemma in_volume_fat s n l : in_volume s n l → fat_nodes (fats s) !! cwd s = Some n.
Proof.
  intros Hv. pose proof (iv_node _ _ _ Hv) as Hn. unfold node_of in Hn. destruct (nodes _ !! _); [done |].
  destruct (fat_nodes _ !! _); cbn in Hn; congruence.
Qed.

(** The lookup of a file makes a node for it, if there is memory for one. *)
Lemma lookup_volume fuel nm s n l fl live off e :
  in_volume s n l → heap_inv (machine_of s) fl live → nodes_in s live →
  (length l < fuel)%nat → (length fl + 16 < fuel)%nat → entry_of s n l nm = Some (off, e) → dir_flag e = false →
  ∃ r s1, lookup_file L fuel nm s = Ok (r, s1) ∧ fat_fses (fats s1) = fat_fses (fats s) ∧
    same_disk (fs_of n (fat_of s)) (disks_of s) (disks_of s1) ∧
    (r = None ∧ (∃ st, kmalloc fuel 180 (machine_of s) = Ok (0, st)) ∨
     ∃ f, r = Some (f, Fat (child_node e off (cwd s) (ffs n)))).
Proof.
  intros Hv Hinv Hin Hl Hf He Hfile. pose proof (in_volume_fat _ _ _ Hv) as Hn.
  destruct Hv as [Hc Hnode Hd Hfl Hfs Hdisk Hch].
  destruct (finddir_run fuel (cwd s) n (fat_of s) fl live l nm Hn Hd Hfs Hdisk Hch Hinv Hl Hf) as (c & v & E & Es & Hs & Hr).
  unfold entry_of in He. change (disk (fat_of s)) with (disks_of s) in *. rewrite He in Hr. destruct Hr as [Ek Hr].
  unfold lookup_file, node_find. rewrite Hnode, Hfl. cbn [negb]. rewrite E. cbn [obind]. eexists _, _. split; [done |].
  split; [done |]. split; [by destruct v as [? []] |].
  rewrite set_fat_node_of. destruct Hr as [[-> En] | [Hne En]].
  - left. split; [| by eexists].
    destruct (kmalloc_fresh fuel 180 _ s _ _ ltac:(lia) (ex_intro _ fl (ex_intro _ live (conj Hinv Hin))) Ek) as [_ | [? _]]; [| done].
    assert (Hz : node_of 0 s = None).
    { apply eq_None_not_Some. intros [k Hk]%Hin. pose proof (hi_blocks _ _ _ Hinv) as [_ Hb]%Forall_app.
      rewrite Forall_forall in Hb. destruct (Hb _ Hk) as (Hpos & _). simpl in Hpos. lia. }
    rewrite En. change (fnodes (fat_of s)) with (fat_nodes (fats s)). unfold node_of in Hz.
    destruct (nodes (files s) !! 0); [done |]. by destruct (fat_nodes (fats s) !! 0).
  - right. exists c.
    destruct (kmalloc_fresh fuel 180 _ s _ _ ltac:(lia) (ex_intro _ fl (ex_intro _ live (conj Hinv Hin))) Ek)
      as [[? _] | (_ & Hfresh & _)]; [done |].
    unfold node_of in Hfresh. destruct (nodes (files s) !! c); [done |]. rewrite En, lookup_insert_eq. cbn.
    unfold vhas, child_node. cbn [vflags fflags]. by rewrite Hfile.
Qed.

(** Files on a disk. In a directory of a FAT32 volume [cat] looks the name up
    through the disk driver, makes a node for the first entry with this name,
    and prints the first 255 bytes of the clusters of the file, provided they are
    numbered from 2 on; it reports that the file was not found only when there is no memory
    for the node. *)
Theorem cat_on_volume fuel nm s n l fl live off e m :
  in_volume s n l → heap_inv (machine_of s) fl live → nodes_in s live →
  (length l < fuel)%nat → (length fl + 16 < fuel)%nat → (m < fuel)%nat →
  entry_of s n l nm = Some (off, e) → dir_flag e = false →
  let fs := fs_of n (fat_of s) in
  fat_chain fs (disks_of s) (d_cluster e) (consecutive 2 m) →
  0 < d_size e ≤ Z.of_nat m * bytes_per_cluster fs → Z.of_nat m * bytes_per_cluster fs < W32 →
  ∃ s1, (execute L fuel (text "cat " ++ nm) s = back (say fuel [text "not found" ++ NL] s1) ∧
      ∃ st, kmalloc fuel 180 (machine_of s) = Ok (0, st)) ∨
    execute L fuel (text "cat " ++ nm) s =
      back (say fuel [take (Z.to_nat (Z.min 255 (d_size e))) (file_data fs (disks_of s) (consecutive 2 m)); NL] s1).
Proof.
  intros Hv Hinv Hin Hl Hf Hm He Hfile fs Hch Hsz Hw. rewrite execute_cat. unfold cmd_cat.
  destruct (Z.eqb_spec (cwd s) 0); [by destruct Hv |].
  destruct (lookup_volume fuel nm s n l fl live off e Hv Hinv Hin Hl Hf He Hfile) as (r & s1 & -> & Es & Hs & Hr).
  cbn [obind]. destruct Hr as [[-> Hst] | [f ->]]; [exists s1; by left |]. cbn [node_read].
  set (child := child_node e off (cwd s) (ffs n)).
  assert (Efs : fs_of child (fat_of s1) = fs).
  { unfold fs, fs_of, child, child_node. cbn [ffs fses fat_of]. by rewrite Es. }
  destruct (read_contiguous_run fuel (around_buf L) child (fat_of s1) m 0 255) as (v & ->); rewrite ?Efs; try done.
  - by destruct Hv.
  - by destruct Hs.
  - by apply (same_disk_chain fs (disks_of s)).
  - unfold child, child_node. cbn [fsize]. lia.
  - unfold child, child_node. cbn [fsize]. lia.
  - cbn [obind]. exists (set_fat v s1). right. change (disk (fat_of s1)) with (disks_of s1).
    change (fsize child) with (d_size e). by rewrite Z.sub_0_r, drop_0, (file_data_same fs (disks_of s)).
Qed.
End volumes.

(** ** Directories *)

Definition component_ok (w : cstring) : Prop :=
  w ≠ [] ∧ Forall (λ b, b ≠ SLASH ∧ b ≠ 0) w ∧ w ≠ [DOT] ∧ w ≠ [DOT; DOT] ∧ (length w ≤ 127)%nat.

Lemma join_cons w ws : ws ≠ [] → join (w :: ws) = w ++ SLASH :: join ws.
Proof. by destruct ws. Qed.

Lemma components_join ws : Forall component_ok ws → components (join ws) = ws.
Proof.
  induction 1 as [|w ws (Hne & Hw & _) Hws IH]; [done |].
  assert (Hns : Forall (λ c, c ≠ SLASH) w) by (eapply Forall_impl; [exact Hw | by intros ? []]).
  destruct (decide (ws = [])) as [-> | Hn].
  - cbn [join]. rewrite <- (app_nil_r w) at 1. by rewrite components_word.
  - rewrite join_cons, components_word by done. by rewrite components_slash, IH.
Qed.

Lemma join_printable ws : Forall component_ok ws → printable (join ws).
Proof.
  induction 1 as [|w ws (_ & Hw & _) Hws IH]; [done |].
  assert (Hpr : printable w) by (eapply Forall_impl; [exact Hw | by intros ? []]).
  destruct (decide (ws = [])) as [-> | Hn]; [done |]. rewrite join_cons by done.
  apply Forall_app. split; [done |]. by constructor.
Qed.

Section directories.
Context {Pg D : Type} `{!PageAllocOps Pg, !PageStats Pg, !PortIO D} `{!SerialReady (D := D)}.
Variable L : layout.
Implicit Types (s : shell Pg D) (ws : list cstring).

(** [descends s q ws c]: the directory [c] is reached from [q] through directories with
    the names [ws], each of which has the one before as its parent. *)
Inductive descends s (q : Z) : list cstring → Z → Prop :=
| descends_here : ram_dir s q → descends s q [] q
| descends_into ws m w c n :
    descends s q ws m → ramfs_finddir 129 m w (files_of s) = Ok c → nodes (files s) !! c = Some n →
    name n = w → vparent n = m → c ≠ m → has_flag FS_DIR n = true → descends s q (ws ++ [w]) c.

Lemma descends_dir s q ws c : descends s q ws c → ram_dir s c.
Proof. destruct 1; [done | by eexists]. Qed.

Lemma descends_trans s q ws m ws' c : descends s q ws m → descends s m ws' c → descends s q (ws ++ ws') c.
Proof.
  intros H1. induction 1 as [|ws' m' w c n H2 IH Hf Hc Hn Hp Hne Hd]; [by rewrite app_nil_r |].
  rewrite app_assoc. by econstructor.
Qed.

Lemma walk_app fuel a b cur q s s1 :
  walk (FileSystem0 := shell_filesystem L fuel) cur a s = Ok (q, s1) → q ≠ 0 →
  walk (FileSystem0 := shell_filesystem L fuel) cur (a ++ b) s = walk (FileSystem0 := shell_filesystem L fuel) q b s1.
Proof.
  revert cur s. induction a as [|w a IH]; intros cur s E Hq; cbn [walk app] in *; [by apply Ok_pair in E as [-> ->] |].
  do 2 (destruct (bool_decide _); [by apply IH |]).
  destruct (node_finddir s cur) as [fd|]; [| by apply Ok_pair in E as [<- _]].
  apply obind_Ok in E as ([x s2] & -> & E). cbn [obind]. destruct (x =? 0); [by apply Ok_pair in E as [<- _] | by apply IH].
Qed.

(** The walk over the names arrives. *)
Lemma walk_descends fuel s q ws c :
  nodes (files s) !! 0 = None → Forall component_ok ws → descends s q ws c →
  walk (FileSystem0 := shell_filesystem L fuel) q ws s = Ok (c, s).
Proof.
  intros H0 Hok Hd. induction Hd as [|ws m w c n Hd IH Hf Hc Hn Hp Hne Hdir]; [done |].
  apply Forall_app in Hok as [Hok Hw]. apply Forall_cons in Hw as [(_ & _ & Hdot & Hdd & _) _].
  pose proof (descends_dir _ _ _ _ Hd) as Hm. pose proof Hm as (x & Hx & Hxd).
  rewrite (walk_app fuel ws [w] q m s s) by (by apply IH || (intros ->; congruence)). cbn [walk].
  rewrite !bool_decide_false by done. cbn [node_finddir shell_filesystem]. unfold node_of. rewrite Hx.
  change (vhas FS_DIR (Ram x)) with (has_flag FS_DIR x). rewrite Hxd, ram_dir_find, Hf by done. cbn [obind].
  destruct (Z.eqb_spec c 0); [congruence | done].
Qed.

(** Going up finds the names again. *)
Lemma ancestors_descends s r x ws c k :
  nodes (files s) !! r = Some x → vparent x = r → descends s r ws c → (length ws ≤ k)%nat →
  map vname (rev (ancestors k c s)) = ws.
Proof.
  intros Hr Hx Hd. revert k. induction Hd as [|ws m w c n Hd IH Hf Hc Hn Hp Hne Hdir]; intros k Hk.
  - destruct k; [done |]. cbn [ancestors]. unfold node_of. by rewrite Hr; cbn [vup]; rewrite Hx, Z.eqb_refl.
  - rewrite length_app in Hk. destruct k as [|k]; [simpl in Hk; lia |]. cbn [ancestors]. unfold node_of at 1.
    rewrite Hc. cbn [vup]. rewrite Hp. destruct (Z.eqb_spec m c); [congruence |]. cbn [rev].
    rewrite map_app, IH by (simpl in Hk; lia). cbn [map vname]. by rewrite Hn.
Qed.

Lemma execute_cd fuel p s : execute L fuel (text "cd " ++ p) s = back (cmd_cd L fuel p s).
Proof. choose_command. Qed.
Lemma execute_pwd fuel s : execute L fuel (text "pwd") s = back (cmd_pwd fuel s).
Proof. choose_command. Qed.

Lemma cd_run fuel ws s c :
  nodes (files s) !! 0 = None → cwd s ≠ 0 → ws ≠ [] → Forall component_ok ws → descends s (cwd s) ws c →
  cmd_cd L fuel (join ws) s = Ok (with_cwd c s).
Proof.
  intros H0 Hc Hne Hok Hd. unfold cmd_cd. destruct (Z.eqb_spec (cwd s) 0); [done |]. unfold vfs_resolve_relative.
  destruct (Z.eqb_spec (cwd s) 0); [done |]. destruct (Z.eqb_spec (char_at (join ws) 0) SLASH) as [E | _].
  { exfalso. destruct ws as [|[|b w] ws]; [done | |]; apply Forall_cons in Hok as [(Hb & Hw & _) _]; [done |].
    apply Forall_cons in Hw as [[Hw _] _]. destruct (decide (ws = [])) as [-> |]; [done |].
    by rewrite join_cons in E. }
  rewrite walk_path_components, components_join; [| done | unfold path_fuel; lia |].
  2:{ rewrite components_join by done. eapply Forall_impl; [exact Hok |]. by intros w (_ & _ & _ & _ & ?). }
  rewrite (walk_descends fuel _ _ _ c) by done. cbn [obind]. unfold node_of.
  destruct (descends_dir _ _ _ _ Hd) as (x & -> & Hx). change (vhas FS_DIR (Ram x)) with (has_flag FS_DIR x). by rewrite Hx.
Qed.

Lemma ancestors_cwd k q c s : ancestors k q (with_cwd c s) = ancestors k q s.
Proof.
  revert q. induction k as [|k IH]; intros q; [done |]. cbn [ancestors].
  change (node_of q (with_cwd c s)) with (node_of q s). destruct (node_of q s); [by rewrite IH | done].
Qed.

(** C26: changing directory and asking for it. From a directory at the path
    [ws0] below the root, [cd] along the names [ws1] makes the directory there
    the current one, and [pwd] prints its path from the root. The path has at
    most 64 names and fits in the 256 bytes that [pwd] has for it. *)
Theorem cd_then_pwd fuel ws0 ws1 s r x c p :
  (0 < fuel)%nat → nodes (files s) !! 0 = None → nodes (files s) !! r = Some x → vparent x = r →
  descends s r ws0 (cwd s) → descends s (cwd s) ws1 c →
  ws1 ≠ [] → Forall component_ok (ws0 ++ ws1) → (length (ws0 ++ ws1) ≤ 64)%nat →
  (length (join (ws0 ++ ws1)) < 255)%nat → shows (term (sys s)) p →
  ∃ s1 s2, execute L fuel (text "cd " ++ join ws1) s = Ok (Returns s1) ∧ cwd s1 = c ∧ nodes (files s1) = nodes (files s) ∧
    execute L fuel (text "pwd") s1 = Ok (Returns s2) ∧
    shows (term (sys s2)) (foldl paper_put p (SLASH :: join (ws0 ++ ws1) ++ NL)).
Proof.
  intros Hf H0 Hr Hx Hd0 Hd1 Hne Hok Hlen Hjoin Hs. pose proof (proj2 (proj1 (Forall_app _ _ _) Hok)) as Hok1.
  assert (Hc0 : cwd s ≠ 0).
  { intros E. destruct (descends_dir _ _ _ _ Hd0) as (y & Hy & _). rewrite E in Hy. congruence. }
  rewrite execute_cd, (cd_run fuel ws1 s c H0 Hc0 Hne Hok1 Hd1). cbn [back obind].
  exists (with_cwd c s). pose proof (descends_trans _ _ _ _ _ _ Hd0 Hd1) as Hd.
  destruct (descends_dir _ _ _ _ Hd1) as (n & Hn & _). rewrite execute_pwd. unfold cmd_pwd.
  change (cwd (with_cwd c s)) with c. rewrite ancestors_cwd, (ancestors_descends _ r x (ws0 ++ ws1)) by done.
  change (node_of c (with_cwd c s)) with (node_of c s). unfold node_of. rewrite Hn. cbn [vup].
  destruct (Z.eqb_spec (vparent n) c) as [E | _].
  { exfalso. destruct Hd1 as [|ws m w c n' Hd1 _ Hn' _ Hp' Hne' _]; [done |].
    assert (n' = n) as -> by congruence. congruence. }
  cbv zeta. destruct (Z.leb_spec 256 (zlen (SLASH :: join (ws0 ++ ws1)))) as [Hbig | _]; [cbn [length] in Hbig; lia |].
  destruct (say_shows fuel [SLASH :: join (ws0 ++ ws1); NL] (with_cwd c s) p Hf Hs) as (t & -> & Ht).
  { constructor; [constructor; [done | by apply join_printable] | by repeat constructor]. }
  eexists. split_and!; [done | done | done | done |]. cbn [concat] in Ht. by rewrite app_nil_r in Ht.
Qed.
End directories.

(** ** [wc] and [rev] *)

Section text_commands.
Context {Pg D : Type} `{PageAlloc Pg, !PageStats Pg, !PortIO D} `{!SerialReady (D := D)}.
Variable L : layout.
Implicit Types (s : shell Pg D) (nm : list Z).

Lemma put_all_shows fuel (cs : list Z) s p :
  (0 < fuel)%nat → shows (term (sys s)) p →
  ∃ t, put_all fuel cs s = Ok (set_term t s) ∧ shows t (foldl paper_put p cs).
Proof.
  intros Hf. revert s p. induction cs as [|b cs IH]; intros s p Hs.
  - exists (term (sys s)). split; [| done]. cbn [put_all]. f_equal. by destruct s as [[]].
  - destruct (putchar_shows fuel b (term (sys s)) p Hf Hs) as (t & E & Ht). cbn [put_all]. unfold put. rewrite E.
    cbn [obind]. by destruct (IH (set_term t s) _ Ht) as (t' & -> & Ht'); exists t'.
Qed.

Lemma until_zero_printable l : printable l → until_zero l = l.
Proof. induction 1 as [|b l Hb Hl IH]; cbn; [done |]. destruct (Z.eqb_spec b 0); [done | by rewrite IH]. Qed.

Lemma execute_wc fuel nm s : execute L fuel (text "wc " ++ nm) s = back (cmd_text L fuel (text "wc " ++ nm) s).
Proof. choose_command. Qed.
Lemma execute_rev fuel nm s : execute L fuel (text "rev " ++ nm) s = back (cmd_text L fuel (text "rev " ++ nm) s).
Proof. choose_command. Qed.

Lemma head_lines_one_line b n : Forall (λ x, x ≠ 0 ∧ x ≠ 10) b → (0 < n)%nat → head_lines n b = b.
Proof.
  intros Hb Hn. induction Hb as [|x b [H0 H10] Hb IH]; [by destruct n |]. destruct n as [|n]; [lia |]. cbn [head_lines].
  destruct (Z.eqb_spec x 0); [done |]. destruct (Z.eqb_spec x 10); [done |]. by rewrite IH.
Qed.

(** The second character of the line, which the code tests, does not tell
    the three commands apart: [wc] never counts but prints the text of the
    file backwards, and [rev] drops the first character of the name it was
    given and prints the file of the remaining name forwards. *)
Theorem wc_reverses_rev_does_not fuel nm b s f n got bytes p :
  (0 < fuel)%nat → cwd s ≠ 0 → finds nm s f n → ramfs_read f 0 255 (files_of s) = (got, bytes) →
  Forall (λ x, x ≠ 0 ∧ x ≠ NEWLINE) bytes → shows (term (sys s)) p →
  (∃ s1, execute L fuel (text "wc " ++ nm) s = Ok (Returns s1) ∧
     shows (term (sys s1)) (foldl paper_put p (rev bytes ++ NL))) ∧
  (∃ s1, execute L fuel (text "rev " ++ b :: nm) s = Ok (Returns s1) ∧
     shows (term (sys s1)) (foldl paper_put p (bytes ++ NL))).
Proof.
  intros Hf Hc Hfi Er Hb Hs. rewrite execute_wc, execute_rev. unfold cmd_text.
  destruct (Z.eqb_spec (cwd s) 0); [done |]. unfold tail_at.
  assert (Hpr : printable bytes) by (eapply Forall_impl; [exact Hb | by intros ? []]).
  assert (Hgo : ∀ out, ∃ s1, (let! s := put_all fuel out s in say fuel [NL] s) = Ok s1 ∧
    shows (term (sys s1)) (foldl paper_put p (out ++ NL))).
  { intros out. destruct (put_all_shows fuel out s p Hf Hs) as (t & -> & Ht). cbn [obind].
    destruct (say_shows fuel [NL] (set_term t s) _ Hf Ht) as (t' & -> & Ht'); [by repeat constructor |].
    eexists. split; [done |]. by rewrite foldl_app. }
  split.
  - change (drop 3 (text "wc " ++ nm)) with nm. cbn [char_at lookup]. cbv iota beta.
    change (char_at (text "wc " ++ nm) 1) with 99. cbn [Z.eqb Pos.eqb].
    replace (3 <=? length (text "wc " ++ nm))%nat with true by (symmetry; apply Nat.leb_le; simpl; lia).
    change (drop 3 (text "wc " ++ nm)) with nm. rewrite (lookup_finds L _ _ _ _ _ Hfi). cbn [obind node_read]. rewrite Er. cbn [obind].
    rewrite until_zero_printable by done. destruct (Hgo (rev bytes)) as (s1 & -> & Hs1). by exists s1.
  - change (char_at (text "rev " ++ b :: nm) 1) with 101. cbn [Z.eqb Pos.eqb].
    replace (5 <=? length (text "rev " ++ b :: nm))%nat with true by (symmetry; apply Nat.leb_le; simpl; lia).
    change (drop 5 (text "rev " ++ b :: nm)) with nm. rewrite (lookup_finds L _ _ _ _ _ Hfi). cbn [obind node_read]. rewrite Er. cbn [obind].
    rewrite head_lines_one_line by (done || lia). destruct (Hgo bytes) as (s1 & -> & Hs1). by exists s1.
Qed.
End text_commands.

(** ** Addresses *)

Definition more (v : Z) (ds : list Z) : Z := foldl (λ v d, v * 10 + (d - 48)) v ds.

Lemma more_ge v ds : 0 ≤ v → Forall (λ d, 48 ≤ d ≤ 57) ds → v ≤ more v ds.
Proof.
  intros Hv Hd. revert v Hv. induction Hd as [|d ds Hd Hds IH]; intros v Hv; cbn; [lia |].
  specialize (IH (v * 10 + (d - 48)) ltac:(lia)). unfold more in IH. lia.
Qed.

Lemma scan_ip_digits ip oct v ds rest :
  0 ≤ v → Forall (λ d, 48 ≤ d ≤ 57) ds → more v ds < 2147483648 →
  scan_ip ip oct v (ds ++ rest) = scan_ip ip oct (more v ds) rest.
Proof.
  intros Hv Hd. revert v Hv. induction Hd as [|d ds Hd Hds IH]; intros v Hv Hm; cbn [app scan_ip]; [done |].
  unfold digit. destruct (Z.leb_spec 48 d); [| lia]. destruct (Z.leb_spec d 57); [| lia]. cbn [andb].
  cbn [more foldl] in Hm |- *. pose proof (more_ge (v * 10 + (d - 48)) ds ltac:(lia) Hds) as Hge. unfold more in Hge.
  rewrite <- IH by (lia || exact Hm). f_equal. unfold s32. rewrite u32_id by lia. zcase; lia.
Qed.

Lemma decimal_digits v : 0 ≤ v < W32 → Forall (λ d, 48 ≤ d ≤ 57) (decimal v).
Proof.
  intros Hv. unfold decimal. destruct (Z.eqb_spec v 0); [by repeat constructor |].
  destruct (itoa_digits_run 15 v) as (ds & -> & _ & Hd & _); [simpl; lia |]. by apply Forall_rev.
Qed.

Lemma scan_ip_octet ip oct v rest :
  0 ≤ v < 256 → scan_ip ip oct 0 (decimal v ++ rest) = scan_ip ip oct v rest.
Proof.
  intros Hv. destruct (decimal_spec v ltac:(lia)) as [_ Hval]. unfold dec_value in Hval.
  rewrite scan_ip_digits; [| lia | apply decimal_digits; lia | unfold more; lia]. by unfold more; rewrite Hval.
Qed.

Lemma scan_ip_dot ip oct v rest :
  oct < 4 → scan_ip ip oct v (46 :: rest) = scan_ip (aset ip oct (u8 v)) (oct + 1) 0 rest.
Proof. intros Ho. cbn [scan_ip]. change (digit 46) with false. by destruct (Z.ltb_spec oct 4); [| lia]. Qed.

Definition dotted (ip : list Z) : cstring :=
  decimal (aget ip 0) ++ 46 :: decimal (aget ip 1) ++ 46 :: decimal (aget ip 2) ++ 46 :: decimal (aget ip 3).

(** [ping] reads back every address from its usual notation. *)
Theorem parse_ip_dotted a b c d :
  Forall (λ v, 0 ≤ v < 256) [a; b; c; d] → parse_ip (dotted [a; b; c; d]) = Some [a; b; c; d].
Proof.
  intros H. repeat rewrite Forall_cons in H. destruct H as (Ha & Hb & Hc & Hd & _).
  unfold parse_ip, dotted.
  change (aget [a; b; c; d] 0) with a. change (aget [a; b; c; d] 1) with b.
  change (aget [a; b; c; d] 2) with c. change (aget [a; b; c; d] 3) with d.
  rewrite scan_ip_octet, scan_ip_dot, scan_ip_octet, scan_ip_dot, scan_ip_octet, scan_ip_dot by (done || lia).
  rewrite <- (app_nil_r (decimal d)), scan_ip_octet, !u8_id by (done || lia). cbn [scan_ip].
  rewrite u8_id by lia. destruct (Z.leb_spec d 255); [reflexivity | lia].
Qed.

(** The first three numbers are not checked: 300 is taken for 44. *)
Lemma parse_ip_wraps : parse_ip (text "300.1.2.3") = Some [44; 1; 2; 3].
Proof. reflexivity. Qed.

(** ** Witnesses *)

Import Pmm.

(** [touch a] after the boot of the heap. *)
Definition touch_a (m0 : machine Pmm.pmm) : outcome (machine Pmm.pmm * flow (shell Pmm.pmm ready_bus)) :=
  let! st0 := kmalloc_init m0 in
  let! (_, st) := kmalloc 18 436 st0 in
  let! r := execute demo_layout 18 (text "touch a") (demo_shell st (root_only st) 4194320 []) in
  Ok (st, r).

Lemma touch_a_calls m0 st r :
  touch_a m0 = Ok (st, r) →
  ∃ st0 p, kmalloc_init m0 = Ok st0 ∧ kmalloc 18 436 st0 = Ok (p, st) ∧
    execute demo_layout 18 (text "touch " ++ text "a") (demo_shell st (root_only st) 4194320 []) = Ok r.
Proof.
  unfold touch_a. intros (s0 & E0 & E)%obind_Ok. apply obind_Ok in E as ([p s1] & E1 & E).
  apply obind_Ok in E as (r' & E2 & E). apply Ok_pair in E as [-> ->]. by exists s0, p.
Qed.

Lemma shell_write_then_cat_witness :
  ∃ (s1 s2 s3 : shell Pmm.pmm ready_bus), execute demo_layout 18 (text "write a hi") s1 = Ok (Returns s2) ∧
    execute demo_layout 18 (text "cat a") s2 = Ok (Returns s3) ∧
    shows (term (sys s3)) (foldl paper_put blank_paper (text "created" ++ NL ++ text "OK" ++ NL ++ text "hi" ++ NL)).
Proof.
  destruct (run_Ok (touch_a boot_machine) (λ r, Nat.eqb (size (nodes (files (state_of (snd r))))) 2))
    as ([st r] & E & Hb); [vm_compute; reflexivity |]. cbn [fst snd] in Hb.
  destruct (touch_a_calls _ _ _ E) as (st0 & p & E0 & E1 & E2). clear E.
  destruct boot_heap_root as (st0' & st2 & E0' & E1' & Hinv).
  assert (st0' = st0) as -> by congruence. rewrite E1 in E1'. apply Ok_pair in E1' as [-> <-].
  destruct (shell_write_then_cat demo_layout 18 (text "a") (text "hi") (demo_shell st (root_only st) 4194320 [])
    [(4194764, 3636)] [(4194304, 460)] [] blank_paper) as (s1 & Et & [[En _] | (s2 & s3 & Ew & Ec & Hs)]).
  - exact (proj1 (root_only_wf st)).
  - by apply root_only_live.
  - simpl. lia.
  - exact (proj2 (root_only_wf st)).
  - split; [repeat constructor; done | simpl; lia].
  - split; [repeat constructor; done | simpl; lia].
  - exact clear_screen_shows.
  - exfalso. rewrite Et in E2. assert (Er : r = Returns s1) by (by injection E2). subst r. cbn [state_of] in Hb. rewrite En in Hb.
    unfold demo_shell, root_only in Hb. cbn [files nodes] in Hb. rewrite map_size_singleton in Hb. discriminate Hb.
  - exists s1, s2, s3. split; [exact Ew | split; [exact Ec | exact Hs]].
Defined.

(** A volume with the directory in cluster 3 and its file A.TXT in cluster 2. *)
Section volume_demo.
#[local] Existing Instances Ata.drive_io Ata.drive_protocol.
Import Fat32.
Definition volume_blocks : gmap Z (list Z) :=
  {[ 1 := [0; 0; 0; 0; 0xFFFF; 0x0FFF; 0xFFFF; 0x0FFF] ++ replicate 248 0;
     2 := [0x6568; 0x6C6C; 0x006F] ++ replicate 253 0;
     3 := [0x2041; 0x2020; 0x2020; 0x2020; 0x5854; 0x2054; 0; 0; 0; 0; 0; 0; 0; 2; 5; 0] ++ replicate 240 0 ]}.
Definition volume_disk : Ata.ata Ata.drive := Ata.with_blocks volume_blocks.
Definition volume_root : fat32_node := mkFnode [SLASH] FS_DIR 0 0 0 0x9000 3 true.
Definition volume_layout : layout := mkLayout 0x9000 0x9200 0x9300 0x9400 0x9A00 3 (λ _, 0).
Definition volume_shell (st : machine Pmm.pmm) : shell Pmm.pmm Ata.drive :=
  mkShell (mkSys (no_processes st) (keyboard_init, mkKbuf (replicate 256 0) 0 0)
      (mkTerm (replicate 2000 (entry SPACE)) 0 0 (Ata.io volume_disk)) 0 0)
    (mkRamfs st ∅ [] 0 0) (mkFats {[ 4194320 := volume_root ]} {[ 0x9000 := demo_fs ]}) root_vfs volume_disk
    (Net.mkNet [] [] [] 0 (Rtl8139.mkRtl [] 0 [] (Pci.mkPci [] 0 (Ata.io volume_disk)) st)) 0 4194320 0 8 0 2 0.

Definition volume_laws : @DiskLaws (Ata.ata Ata.drive) (shell_disk volume_layout) := ata_drive_laws (b := 0x1F0) 3 (le_n 3).
#[local] Hint Extern 0 (BlockDevice _) => exact (shell_disk volume_layout) : typeclass_instances.
#[local] Existing Instance volume_laws.

Lemma volume_knows : Ata.knows volume_disk 0.
Proof. apply Ata.booted_knows. Qed.
Lemma volume_chain c : c = 2 ∨ c = 3 → fat_chain demo_fs volume_disk c [c].
Proof.
  intros Hc. constructor; [constructor; destruct Hc as [-> | ->]; vm_compute; done |].
  destruct Hc as [-> | ->]; constructor; vm_compute; discriminate.
Qed.
Lemma volume_in st : in_volume volume_layout (volume_shell st) volume_root [3].
Proof. constructor; try done; [exact volume_knows | exact (volume_chain 3 (or_intror eq_refl))]. Qed.

(** The heap after the boot has room for another node. *)
Lemma boot_heap_room :
  ∃ st p st', heap_inv st [(4194764, 3636)] [(4194304, 460)] ∧ kmalloc 18 180 st = Ok (p, st') ∧ p ≠ 0.
Proof.
  destruct boot_heap_root as (st0 & st & E0 & E1 & Hinv). exists st.
  destruct (run_Ok (let! st0 := kmalloc_init boot_machine in let! (_, st) := kmalloc 18 436 st0 in kmalloc 18 180 st)
    (λ r, negb (fst r =? 0))) as ([p st'] & E & Hp); [vm_compute; reflexivity |].
  rewrite E0 in E. cbn [obind] in E. rewrite E1 in E. cbn [obind fst] in *. exists p, st'. split_and!; [done.. |].
  by destruct (Z.eqb_spec p 0).
Qed.

Lemma cat_on_volume_witness :
  ∃ st s1, execute volume_layout 18 (text "cat A.TXT") (volume_shell st) = back (say 18 [text "hello"; NL] s1).
Proof.
  destruct boot_heap_room as (st & p & st' & Hinv & Ek & Hp). exists st.
  destruct (cat_on_volume volume_layout 18 (text "A.TXT") (volume_shell st) volume_root [3] [(4194764, 3636)]
    [(4194304, 460)] 0 (mkDirent [65; 32; 32; 32; 32; 32; 32; 32; 84; 88; 84] 32 2 5) 1) as (s1 & [[_ (st1 & E1)] | E]).
  - exact (volume_in st).
  - exact Hinv.
  - intros q [x Hx]. unfold node_of in Hx. cbn [files volume_shell nodes fats fat_nodes] in Hx. rewrite lookup_empty in Hx.
    destruct (decide (q = 4194320)) as [-> | Hne]; [exists 460; left |]. by rewrite lookup_singleton_ne in Hx.
  - cbn. lia.
  - cbn. lia.
  - lia.
  - vm_compute. reflexivity.
  - reflexivity.
  - exact (volume_chain 2 (or_introl eq_refl)).
  - vm_compute. split; [reflexivity | discriminate].
  - reflexivity.
  - change (kmalloc 18 180 (machine_of (volume_shell st))) with (kmalloc 18 180 st) in E1. rewrite E1 in Ek.
    apply Ok_pair in Ek as [Hz _]. destruct Hp. exact (eq_sym Hz).
  - exists s1. exact E.
Defined.
End volume_demo.

(** A tree with the directory [b] in [a] in the root. *)
Definition three_dirs : ramfs Pmm.pmm :=
  let dir nm up child := mkNode nm FS_DIR 0 0 up 0 child (replicate 256 0) in
  mkRamfs boot_machine {[ 16 := dir [47] 16 32; 32 := dir [97] 16 48; 48 := dir [98] 32 0 ]}
    (16 :: 32 :: 48 :: replicate 125 0) 3 16.

Lemma cd_then_pwd_witness :
  ∃ s1 s2, execute demo_layout 1 (text "cd b") (demo_shell boot_machine three_dirs 32 []) = Ok (Returns s1) ∧ cwd s1 = 48 ∧
    execute demo_layout 1 (text "pwd") s1 = Ok (Returns s2) ∧
    shows (term (sys s2)) (foldl paper_put blank_paper (text "/a/b" ++ NL)).
Proof.
  destruct (cd_then_pwd demo_layout 1 [[97]] [[98]] (demo_shell boot_machine three_dirs 32 []) 16
    (mkNode [47] FS_DIR 0 0 16 0 32 (replicate 256 0)) 48 blank_paper) as (s1 & s2 & E1 & Hc & _ & E2 & Hs).
  - lia.
  - vm_compute. reflexivity.
  - vm_compute. reflexivity.
  - reflexivity.
  - apply (descends_into _ 16 [] 16 [97] 32 (mkNode [97] FS_DIR 0 0 16 0 48 (replicate 256 0)));
      try (vm_compute; reflexivity); [| lia].
    constructor. eexists. split; vm_compute; reflexivity.
  - apply (descends_into _ 32 [] 32 [98] 48 (mkNode [98] FS_DIR 0 0 32 0 0 (replicate 256 0)));
      try (vm_compute; reflexivity); [| cbn; lia].
    constructor. eexists. split; vm_compute; reflexivity.
  - discriminate.
  - repeat constructor; try discriminate; simpl; lia.
  - simpl. lia.
  - simpl. lia.
  - exact clear_screen_shows.
  - exists s1, s2. split; [exact E1 | split; [exact Hc | split; [exact E2 | exact Hs]]].
Defined.

(** A file [a] with the text [hi] in the root. *)
Definition file_hi : ramfs Pmm.pmm :=
  mkRamfs boot_machine {[ 16 := mkNode [47] FS_DIR 0 0 16 0 32 (replicate 256 0);
    32 := mkNode [97] FS_FILE 2 32 16 0 0 (104 :: 105 :: replicate 254 0) ]} (16 :: 32 :: replicate 126 0) 2 16.

Lemma wc_reverses_rev_does_not_witness :
  ∃ s1, execute demo_layout 1 (text "wc a") (demo_shell boot_machine file_hi 16 []) = Ok (Returns s1) ∧
    shows (term (sys s1)) (foldl paper_put blank_paper (text "ih" ++ NL)).
Proof.
  destruct (wc_reverses_rev_does_not demo_layout 1 [97] 120 (demo_shell boot_machine file_hi 16 []) 32
    (mkNode [97] FS_FILE 2 32 16 0 0 (104 :: 105 :: replicate 254 0)) 2 [104; 105] blank_paper) as [Hw _].
  - lia.
  - discriminate.
  - split; [by eexists | split_and!; vm_compute; reflexivity].
  - vm_compute. reflexivity.
  - repeat constructor; discriminate.
  - exact clear_screen_shows.
  - exact Hw.
Defined.

Lemma parse_ip_dotted_witness : parse_ip (text "10.0.2.15") = Some [10; 0; 2; 15].
Proof. apply (parse_ip_dotted 10 0 2 15). repeat constructor; lia. Defined.
End ShellFiles.
