(* ===== verification/Kernel.v ===== *)
(** * The start of the kernel and its tasks: [kernel.cpp], with
    [user/user_mode.cpp] and the entry of the first process in
    [process/process.cpp]

    [kernel_main] is the composition of the initialisations of all components;
    its stages are definitions of their own: memory, files, devices, tasks.
    The three tasks are the shell and the two of the stress test. *)

From stdpp Require Import strings.
From Stdlib Require Import Znumtheory.
From S2P Require Import Prelude Interfaces Machine Libk Ring Pmm Multiboot Kmalloc Vmm Process Scheduler Ipc Keyboard Ports Terminal Faults Interrupts Syscall Vfs Ramfs Ata Fat32 Elf Net Pci Rtl8139 Commands Shell ShellFiles.
#[local] Open Scope Z_scope.

Module Kernel.
Import Pmm Libk Kmalloc Vmm Process Scheduler Ipc Keyboard Terminal Faults Syscall Vfs Ramfs Commands Shell.

(** [fs/hello_elf.h] and [fs/test_elf.h]. *)
Definition hello_elf_data : list Z :=
  [127; 69; 76; 70; 1; 1; 1; 0; 0; 0; 0; 0; 0; 0; 0; 0; 2; 0; 3; 0; 1; 0; 0; 0;
   0; 0; 0; 64; 52; 0; 0; 0; 140; 0; 0; 0; 0; 0; 0; 0; 52; 0; 32; 0; 1; 0; 40; 0;
   3; 0; 2; 0; 1; 0; 0; 0; 84; 0; 0; 0; 0; 0; 0; 64; 0; 0; 0; 64; 36; 0; 0; 0;
   36; 0; 0; 0; 7; 0; 0; 0; 1; 0; 0; 0; 184; 2; 0; 0; 0; 187; 20; 0; 0; 64; 185; 15;
   0; 0; 0; 205; 128; 244; 235; 253; 72; 101; 108; 108; 111; 32; 102; 114; 111; 109; 32; 69; 76; 70; 33; 10;
   0; 46; 115; 104; 115; 116; 114; 116; 97; 98; 0; 46; 116; 101; 120; 116; 0; 0; 0; 0; 0; 0; 0; 0;
   0; 0; 0; 0; 0; 0; 0; 0; 0; 0; 0; 0; 0; 0; 0; 0; 0; 0; 0; 0; 0; 0; 0; 0;
   0; 0; 0; 0; 0; 0; 0; 0; 0; 0; 0; 0; 11; 0; 0; 0; 1; 0; 0; 0; 7; 0; 0; 0;
   0; 0; 0; 64; 84; 0; 0; 0; 36; 0; 0; 0; 0; 0; 0; 0; 0; 0; 0; 0; 1; 0; 0; 0;
   0; 0; 0; 0; 1; 0; 0; 0; 3; 0; 0; 0; 0; 0; 0; 0; 0; 0; 0; 0; 120; 0; 0; 0;
   17; 0; 0; 0; 0; 0; 0; 0; 0; 0; 0; 0; 1; 0; 0; 0; 0; 0; 0; 0].
Definition hello_elf_size : Z := 260.
Definition test_elf_data : list Z :=
  [127; 69; 76; 70; 1; 1; 1; 0; 0; 0; 0; 0; 0; 0; 0; 0; 2; 0; 3; 0; 1; 0; 0; 0;
   0; 0; 0; 64; 52; 0; 0; 0; 0; 0; 0; 0; 0; 0; 0; 0; 52; 0; 32; 0; 1; 0; 0; 0;
   0; 0; 0; 0; 1; 0; 0; 0; 0; 16; 0; 0; 0; 0; 0; 64; 0; 0; 0; 64; 0; 16; 0; 0;
   0; 16; 0; 0; 7; 0; 0; 0; 0; 16; 0; 0].
Definition test_elf_size : Z := 84.

(** What the linker decides: the entries of the tasks, the
    user program, the static tables and the stubs. *)
Record image := mkImage {
  shell_task : Z;
  prime_task : Z;
  counter_task : Z;
  user_code_start : Z;
  user_code_size : Z;
  page_directory : Z;
  boot_page_table : Z;
  gdt_at : Z;
  idt_at : Z;
  tss_at : Z;
  stack_top : Z;
  default_isr : Z;
  isr0 : Z;
  irq0 : Z;
  irq1 : Z;
  gp_stub : Z;
  page_fault_stub : Z;
  syscall_stub : Z;
}.

Notation MULTIBOOT_MAGIC := 0x2BADB002 (only parsing).
Notation sizeof_ipc_queue := 1164 (only parsing).

Section kernel.
Context {D : Type} `{!PortIO D}.
Variables (L : layout) (I : image).
Implicit Types (s : shell Pmm.pmm D) (st : machine Pmm.pmm) (k : kernel Pmm.pmm).

(** The state of the shell and its components, the tables of the processor and
    [g_mbi]. *)
Record kstate := mkKstate { sh : shell Pmm.pmm D; tabs : Interrupts.tables; g_mbi : Z }.
(** [PANIC] and failed start-ups halt; otherwise the processor goes on in the
    first process, with this stack pointer. *)
Inductive boot_end := Panicked (s : shell Pmm.pmm D) | Halted (x : kstate) | Entered (esp : Z) (x : kstate).

Definition with_mounted (v : vfs) s : shell Pmm.pmm D :=
  mkShell (sys s) (files s) (fats s) v (disks s) (network s) (idx s) (cwd s) (test_page s)
    (total_memory_mb s) (stress_prime_count s) (stress_current s) (stress_counter s).
Definition with_memory_mb (mb : Z) s : shell Pmm.pmm D :=
  mkShell (sys s) (files s) (fats s) (mounted s) (disks s) (network s) (idx s) (cwd s) (test_page s)
    mb (stress_prime_count s) (stress_current s) (stress_counter s).
Definition with_stress (primes current counter : Z) s : shell Pmm.pmm D :=
  mkShell (sys s) (files s) (fats s) (mounted s) (disks s) (network s) (idx s) (cwd s) (test_page s)
    (total_memory_mb s) primes current counter.

(** ** Memory and files *)

(** [pmm_init], [paging_init], [vmm_init], [kmalloc_init]. *)
Definition init_memory (mb : Z) st : outcome (machine Pmm.pmm) :=
  let st := with_pages (Pmm.pmm_init mb) st in
  let! st := paging_init (page_directory I) (boot_page_table I) mb st in
  kmalloc_init (vmm_init st).

(** [node->write(node, 0, size, data)] when the node was created. *)
Definition fill (node size : Z) (bytes : list Z) (fs : ramfs Pmm.pmm) : ramfs Pmm.pmm :=
  if node =? 0 then fs else snd (ramfs_write node 0 size (aget bytes) fs).

Definition create_files (fuel : nat) (fs : ramfs Pmm.pmm) (v : vfs) : outcome (ramfs Pmm.pmm * vfs) :=
  let v := vfs_init v in
  let! (root, fs) := ramfs_create_root fuel fs in
  if root =? 0 then Ok (fs, v)
  else
    let '(_, v) := vfs_mount (Some (text "/")) root v in
    let! (_, fs) := ramfs_create_dir fuel root (text "mnt") fs in
    let! (bin_dir, fs) := ramfs_create_dir fuel root (text "bin") fs in
    let! fs :=
      if bin_dir =? 0 then Ok fs
      else
        let! (hello, fs) := ramfs_create_file fuel bin_dir (text "hello.elf") fs in
        Ok (fill hello hello_elf_size hello_elf_data fs) in
    let! (_, fs) := ramfs_create_dir fuel root (text "tmp") fs in
    let! (test, fs) := ramfs_create_file fuel root (text "test.elf") fs in
    Ok (fill test test_elf_size test_elf_data fs, v).

(** ** The processor and the devices *)

Definition init_tables (t : Interrupts.tables) : Interrupts.tables :=
  let t := Interrupts.gdt_init (gdt_at I) t in
  let t := Interrupts.tss_init (tss_at I) (stack_top I) t in
  Interrupts.idt_init (idt_at I) (default_isr I) (isr0 I) (irq0 I) (irq1 I) (gp_stub I) (page_fault_stub I)
    (syscall_stub I) t.

(** [pic_remap], [timer_init], [sleep_init]; [tss_init] has set the kernel stack. *)
Definition init_timer s : shell Pmm.pmm D :=
  let s := set_machine (with_esp0 (stack_top I) (machine_of s)) s in
  let s := set_io (timer_init 100 (Interrupts.pic_remap (ports (term (sys s))))) s in
  with_sys (sleep_init (sys s)) s.

(** [user_map_pages] with its messages. *)
Definition map_user_code (fuel : nat) s : outcome (shell Pmm.pmm D) :=
  let k := kern (sys s) in
  let s := set_kern (user_map_pages (user_code_start I) (user_code_size I) k) s in
  say fuel [text (if 4096 <? user_code_size I then "user: code too big"
                  else if fst (pa_alloc (pages (mach k))) =? 0 then "user: alloc code page failed"
                  else "user: code copied") ++ NL] s.

Definition ata_line (i : Z) (d : Ata.ata_device) : list (list Z) :=
  [text "ata"; decimal i; text ": "; Ata.model d; text " ("; decimal (Ata.sectors d / 2048); text "MB)" ++ NL].
Definition start_disks (fuel : nat) s : outcome (shell Pmm.pmm D) :=
  let '(ata_count, a) := Ata.ata_init (ata_timeout L) (disks_of s) in
  let s := set_disks a s in
  let! s :=
    if 0 <? ata_count then
      say fuel (flat_map (λ i, match Ata.ata_get_device i a with Some d => ata_line i d | None => [] end)
                  (seqZ 0 ata_count)) s
    else say fuel [text "ata: no devices" ++ NL] s in
  if 0 <? ata_count then
    let disk := shell_disk L in
    let! (fat_root, f) := Fat32.fat32_mount fuel 0 0 (fat_of s) in
    let s := set_fat f s in
    if fat_root =? 0 then Ok s
    else
      let! s := say fuel [text "fat32: mounted on /mnt" ++ NL] s in
      Ok (with_mounted (snd (vfs_mount (Some (text "/mnt")) fat_root (mounted s))) s)
  else Ok s.

Definition with_pcis (p : Pci.pci D) (r : Rtl8139.rtl Pmm.pmm D) : Rtl8139.rtl Pmm.pmm D :=
  Rtl8139.mkRtl (Rtl8139.rtl_devices r) (Rtl8139.rtl_count r) (Rtl8139.privs r) p (Rtl8139.mach r).
#[local] Existing Instance Rtl8139.rtl8139_dev_zero.
Definition rtl_line (r : Rtl8139.rtl Pmm.pmm D) (i : Z) : list (list Z) :=
  [text "rtl8139: "] ++ mac_text 0 (Rtl8139.mac (aget (Rtl8139.rtl_devices r) i)) ++ [NL].
Definition start_network (fuel : nat) s : outcome (shell Pmm.pmm D) :=
  let t := network_of s in
  let '(pci_count, p) := Pci.pci_init (Rtl8139.pcis (Net.nic t)) in
  let s := set_network (Net.with_nic (with_pcis p (Net.nic t)) t) s in
  let! s := say fuel (if 0 <? pci_count then [text "pci: "; decimal pci_count; text " devices" ++ NL]
                      else [text "pci: no devices" ++ NL]) s in
  let t := network_of s in
  let! (rtl_count, r) := Rtl8139.rtl8139_init_all fuel (Net.nic t) in
  let s := set_network (Net.with_nic r t) s in
  let! s := say fuel (if 0 <? rtl_count then flat_map (rtl_line r) (seqZ 0 rtl_count)
                      else [text "rtl8139: no device" ++ NL]) s in
  let nic := Rtl8139.rtl_nic (frame_at L) (poll_at L) in
  Ok (set_network (Net.net_init (network_of s)) s).

(** ** Tasks *)

(** A queue for the messages of a process; the block is cleared. *)
Definition give_queue (fuel : nat) (proc : Z) k : outcome (kernel Pmm.pmm) :=
  let! (q, st) := kmalloc fuel sizeof_ipc_queue (mach k) in
  let k := with_mach st k in
  if q =? 0 then Ok k
  else
    Ok (upd proc (set_msg_queue q)
          (with_queues (<[q := ipc_queue_init (mkQueue (replicate 16 ipc_msg_zero) 0 0 0)]> (queues k)) k)).
Definition give_queue_if (fuel : nat) (proc : Z) k : outcome (kernel Pmm.pmm) :=
  if proc =? 0 then Ok k else give_queue fuel proc k.

(** [scheduler_init] and the three processes; null pointers are 0. *)
Definition create_tasks (fuel : nat) k : outcome (Z * Z * Z * kernel Pmm.pmm) :=
  let k := scheduler_init k in
  let! (shell_proc, k) := process_create_kernel fuel (shell_task I) k in
  if shell_proc =? 0 then Ok (0, 0, 0, k)
  else
    let! k := give_queue fuel shell_proc k in
    let! (prime_proc, k) := process_create_kernel fuel (prime_task I) k in
    let! (counter_proc, k) := process_create_kernel fuel (counter_task I) k in
    let! k := give_queue_if fuel prime_proc k in
    let! k := give_queue_if fuel counter_proc k in
    Ok (shell_proc, prime_proc, counter_proc, k).

Definition start_tasks (fuel : nat) (x : kstate) : outcome boot_end :=
  let with_sh s := mkKstate s (tabs x) (g_mbi x) in
  let s := sh x in
  let! (shell_proc, prime_proc, counter_proc, k) := create_tasks fuel (kern (sys s)) in
  let s := set_kern k s in
  if shell_proc =? 0 then
    let! s := say fuel [text "kernel: process creation failed" ++ NL] s in Ok (Halted (with_sh s))
  else
    let! s := if prime_proc =? 0 then say fuel [text "kernel: failed to create prime task" ++ NL] s else Ok s in
    let! s := if counter_proc =? 0 then say fuel [text "kernel: failed to create counter task" ++ NL] s else Ok s in
    let! s := say fuel [text "[kernel] system ready" ++ NL] s in
    match process_first_enter shell_proc (kern (sys s)) with
    | None => Ok (Halted (with_sh s))
    | Some (esp, k) => Ok (Entered esp (with_sh (set_kern k s)))
    end.

(** ** [kernel_main] *)

Definition PANIC (fuel : nat) (msg : cstring) (line : Z) s : outcome boot_end :=
  let! t := panic fuel msg (text "src/kernel.cpp") line (term (sys s)) in Ok (Panicked (set_term t s)).

Definition kernel_main (fuel : nat) (magic addr : Z) (x : kstate) : outcome boot_end :=
  let s := sh x in
  let! t := init fuel (term (sys s)) in
  let s := set_term t s in
  if negb (magic =? MULTIBOOT_MAGIC) then PANIC fuel (text "Invalid multiboot magic") 96 s
  else
    let '(mbi, mb) := Multiboot.multiboot_init addr (mem (machine_of s)) in
    let s := with_memory_mb mb s in
    if mb =? 0 then PANIC fuel (text "Memory detection failed") 103 s
    else
      let! st := init_memory mb (machine_of s) in
      let s := set_machine st s in
      let! (fs, v) := create_files fuel (files_of s) (mounted s) in
      let s := with_mounted v (set_files fs s) in
      let t := init_tables (tabs x) in
      let s := init_timer s in
      let! s := map_user_code fuel s in
      let! s := start_disks fuel s in
      let! s := start_network fuel s in
      let! s := say fuel [text "NemoOS v1.0" ++ NL] s in
      let! s := shell_init fuel s in
      start_tasks fuel (mkKstate s t mbi).

(** ** The tasks *)

(** [process_first_enter_asm]: [popa; iret] from the stack at [esp]: the eight
    registers, then instruction pointer, code segment and flags. *)
Definition process_first_enter_asm (esp : Z) (m : memory) : list Z * Z * Z * Z :=
  (map (λ i, rd32 m (esp + 4 * i)) (seqZ 0 8), rd32 m (esp + 32), rd32 m (esp + 36), rd32 m (esp + 40)).

(** [shell_task_main]: the message, then one turn of its loop, up to [hlt];
    [buf] is what the stack holds where [net_poll] has its buffer, and [n]
    bounds the keys of one turn. *)
Definition shell_task_up (fuel : nat) s : outcome (shell Pmm.pmm D) := say fuel [text "[shell] up" ++ NL] s.
Definition shell_task_turn (fuel n : nat) (buf : list Z) s : outcome (flow (shell Pmm.pmm D)) :=
  let! r := shell_tick L fuel n s in
  match r with
  | Halts s => Ok (Halts s)
  | Returns s =>
      let nic := Rtl8139.rtl_nic (frame_at L) (poll_at L) in
      let! t := Net.net_poll fuel buf (network_of s) in
      Ok (Returns (set_network t s))
  end.

(** [for(int i = 2; i * i <= n; i++) if(n % i == 0) ...]: signed overflow has no
    meaning. *)
Fixpoint trial (fuel : nat) (i n : Z) : outcome bool :=
  match fuel with
  | O => NoFuel
  | S f =>
      if 2147483647 <? i * i then Undef
      else if i * i <=? n then if Z.rem n i =? 0 then Ok false else trial f (i + 1) n
      else Ok true
  end.
(** One turn of the loop of [prime_task], and of [counter_task]. *)
Definition prime_turn (fuel : nat) s : outcome (shell Pmm.pmm D) :=
  let n := stress_current s in
  let! prime := trial fuel 2 n in
  let count := if prime : bool then stress_prime_count s + 1 else stress_prime_count s in
  if 2147483647 <=? n then Undef else Ok (with_stress count (n + 1) (stress_counter s) s).
Definition counter_turn s : outcome (shell Pmm.pmm D) :=
  if 2147483647 <=? stress_counter s then Undef
  else Ok (with_stress (stress_prime_count s) (stress_current s) (stress_counter s + 1) s).

(** [user_enter_ring3], which ends in [hlt]. *)
Definition user_enter_ring3 (fuel : nat) s : outcome (flow (shell Pmm.pmm D)) :=
  stop (say fuel [text "user: not used" ++ NL] s).
End kernel.

(** ** What stops the start *)

Section refusal.
Context {D : Type} `{!PortIO D, !SerialReady (D := D)}.
Variables (L : layout) (I : image).
Implicit Types (s : shell Pmm.pmm D) (x : @kstate D).

Lemma PANIC_shows fuel msg line s p :
  (0 < fuel)%nat → shows (term (sys s)) p → printable msg → 0 ≤ line < W32 →
  ∃ s', PANIC fuel msg line s = Ok (Panicked s') ∧ machine_of s' = machine_of s ∧
    shows (term (sys s')) (foldl paper_put p (panic_report msg (text "src/kernel.cpp") line)).
Proof.
  intros Hf Hs Hm Hl. unfold PANIC.
  destruct (panic_shows fuel msg (text "src/kernel.cpp") line (term (sys s)) p Hf Hs) as (t & -> & Ht);
    [done | by repeat constructor | done |].
  by eexists.
Qed.

(** The loader that does not identify itself, and the one that reports no memory. *)
Inductive refused (magic addr : Z) (m : memory) : cstring → Z → Prop :=
| refused_magic : magic ≠ MULTIBOOT_MAGIC → refused magic addr m (text "Invalid multiboot magic") 96
| refused_memory : magic = MULTIBOOT_MAGIC → addr = 0 ∨ Multiboot.reported_kb m addr < 1024 →
    refused magic addr m (text "Memory detection failed") 103.

(** Without the magic number of the loader, or with less than 1 MiB of reported
    memory, [kernel_main] shows the reason with file and line on a cleared screen
    and halts before it has changed any memory. *)
Theorem kernel_main_refuses fuel magic addr x msg line :
  (0 < fuel)%nat → length (buffer (term (sys (sh x)))) = 2000%nat →
  refused magic addr (mem (machine_of (sh x))) msg line →
  ∃ s', kernel_main L I fuel magic addr x = Ok (Panicked s') ∧ machine_of s' = machine_of (sh x) ∧
    shows (term (sys s')) (foldl paper_put blank_paper (panic_report msg (text "src/kernel.cpp") line)).
Proof.
  intros Hf Hb Hr. unfold kernel_main.
  destruct (init_shows fuel (term (sys (sh x))) Hf Hb) as (t & -> & Ht). cbn [obind].
  destruct Hr as [Hm | -> Hkb].
  - destruct (Z.eqb_spec magic MULTIBOOT_MAGIC); [done |]. cbn [negb].
    destruct (PANIC_shows fuel (text "Invalid multiboot magic") 96 (set_term t (sh x)) blank_paper) as (s' & -> & Es & Hs);
      [done | done | by repeat constructor | lia |].
    by exists s'.
  - rewrite Z.eqb_refl. cbn [negb]. change (machine_of (set_term t (sh x))) with (machine_of (sh x)).
    assert (E : snd (Multiboot.multiboot_init addr (mem (machine_of (sh x)))) = 0).
    { destruct (Z.eq_dec addr 0) as [-> | Hne]; [done |]. destruct Hkb as [? | Hkb]; [done |].
      rewrite Multiboot.detected by (done || lia). apply Z.div_small.
      pose proof (Multiboot.reported_nonneg (mem (machine_of (sh x))) addr). lia. }
    destruct (Multiboot.multiboot_init addr _) as [mbi mb]. cbn [snd] in E. subst mb. cbn [Z.eqb].
    destruct (PANIC_shows fuel (text "Memory detection failed") 103 (with_memory_mb 0 (set_term t (sh x))) blank_paper)
      as (s' & -> & Es & Hs); [done | done | by repeat constructor | lia |].
    by exists s'.
Qed.
End refusal.

(** ** Memory *)

Section memory_stage.
Variable I : image.
Implicit Types (st : machine Pmm.pmm).

(** [kmalloc_init] only writes to the page that it takes. *)
Lemma kmalloc_init_effect st st' :
  pmm_wf (pages st) → kmalloc_init st = Ok st' →
  ∃ p, takes 1 (pages st) (pages st') ∧ p = fst (pa_alloc (pages st)) ∧ p ≠ 0 ∧ cr3 st' = cr3 st ∧ cr0 st' = cr0 st ∧
    kernel_space st' = kernel_space st ∧ (∀ x, page_of x ≠ p → rd8 (mem st') x = rd8 (mem st) x).
Proof.
  intros Hwf E. unfold kmalloc_init in E. destruct (pa_alloc (pages st)) as [p pg] eqn:Ea.
  destruct (Z.eqb_spec p 0) as [| Hp]; [done |]. injection E as <-. exists p.
  destruct (pmm_contract_alloc _ p pg Hwf Ea Hp) as (_ & (Hpos & Htop & Hal) & _).
  split_and!; try done; [by econstructor; [| | constructor] |]. intros x Hx.
  assert (Hout : x < p ∨ p + 4096 ≤ x).
  { destruct (Z_lt_ge_dec x p); [by left |]. destruct (Z_lt_ge_dec x (p + 4096)); [| right; lia].
    exfalso. apply Hx. apply page_of_inside; lia. }
  cbn [mem with_mem with_free_list with_heap_end with_pages].
  rewrite (set_footer_eq p _ 4096); [| hfields; rdwr; done | lia..]. hfields. by rewrite !rd8_wr32_ne by lia.
Qed.

(** Address spaces only depend on the pages in use. *)
Lemma translate_frame st m space w :
  space_wf st space → (∀ x, pa_used (pages st) (page_of x) → rd8 m x = rd8 (mem st) x) → 0 ≤ w < W32 →
  translate m space w = translate (mem st) space w.
Proof.
  intros Hwf Hm Hw. pose proof (pd_idx_range w Hw) as Hi. pose proof (pt_idx_range w) as Hj.
  assert (Hpage : ∀ q j, page_addr q → pa_used (pages st) q → 0 ≤ j < 1024 → word m q j = word (mem st) q j).
  { intros q j (_ & _ & Hq) Hu Hjr. apply same_page_word; [| done]. intros y Hy. apply Hm. by rewrite (page_of_inside q). }
  unfold translate, pte_at. rewrite (Hpage space) by (done || apply Hwf).
  destruct (has (word (mem st) space (pd_idx w)) VMM_PRESENT) eqn:Hp; [| done].
  destruct (sw_tab _ _ Hwf (pd_idx w) Hi Hp) as (H1 & H2 & _). by rewrite Hpage.
Qed.

(** Frames in use from the first on: the allocator goes on with the next one. *)
Record low (pg : Pmm.pmm) (n : Z) : Prop := {
  low_wf : pmm_wf pg;
  low_used : used_pages pg = n;
  low_bits : ∀ j, 0 ≤ j < total_pages pg → test_bit (bitmap pg) j = (j <? n);
}.

Lemma low_alloc pg n :
  low pg n → n < total_pages pg →
  ∃ pg', pmm_alloc_page pg = (n * 4096, pg') ∧ low pg' (n + 1) ∧ total_pages pg' = total_pages pg ∧ 0 < n.
Proof.
  intros [Hwf Hu Hb] Hn. pose proof (wf_total pg Hwf) as Ht. pose proof (wf_used pg Hwf) as Hc.
  pose proof (count_used_bound (bitmap pg) (Z.to_nat (total_pages pg))).
  destruct (pmm_alloc_cases pg Hwf) as [(k & Hk & Hfree & Hlow & ->) | [Hall _]].
  2:{ specialize (Hall n ltac:(lia)). rewrite Hb in Hall by lia. zbool. lia. }
  rewrite Hb in Hfree by lia. zbool. assert (k = n) as ->.
  { destruct (Z.eq_dec k n); [done |]. specialize (Hlow n ltac:(lia)). rewrite Hb in Hlow by lia. zbool. lia. }
  eexists. split; [reflexivity |]. split; [| by split; [| lia]]. constructor; cbn [total_pages used_pages bitmap].
  - apply wf_set; [done | lia |]. rewrite Hb by lia. by apply Z.ltb_ge.
  - rewrite u32_id by lia. lia.
  - intros j Hj. rewrite test_set_bit by (apply wf_frame; [done | lia]). rewrite Hb by done.
    destruct (Z.eqb_spec n j), (Z.ltb_spec j n), (Z.ltb_spec j (n + 1)); done || lia.
Qed.

Lemma low_takes j pg pg' n :
  takes j pg pg' → low pg n → low pg' (n + Z.of_nat j) ∧ total_pages pg' = total_pages pg.
Proof.
  intros Htk. revert n. induction Htk as [pg | j pg p pg1 pg2 Ha Hp _ IH]; intros n Hl; [by rewrite Z.add_0_r |].
  change (pa_alloc pg) with (pmm_alloc_page pg) in Ha.
  destruct (Z_lt_ge_dec n (total_pages pg)) as [Hn | Hn].
  - destruct (low_alloc pg n Hl Hn) as (pg1' & E & Hl1 & Ht & _). rewrite E in Ha. injection Ha as _ ->.
    destruct (IH (n + 1) Hl1) as [Hl2 Ht2]. split; [| congruence]. by replace (n + Z.of_nat (S j)) with (n + 1 + Z.of_nat j) by lia.
  - exfalso. destruct Hl as [Hwf _ Hb]. destruct (pmm_alloc_cases pg Hwf) as [(k & Hk & Hf & _) | [_ E]].
    + rewrite Hb in Hf by lia. zbool. lia.
    + rewrite E in Ha. by injection Ha as <- _.
Qed.

Lemma low_init mb : 5 ≤ mb ≤ 1024 → low (pmm_init mb) 1024.
Proof.
  intros Hmb. destruct (pmm_init_bits mb ltac:(lia)) as (_ & _ & Ht & Hu & Hb).
  assert (Hu' : used_pages (pmm_init mb) = 1024) by lia.
  constructor; [apply pmm_init_wf; lia | done |]. intros j Hj. rewrite Hb, Hu'. by destruct (Z.leb_spec 0 j); [| lia].
Qed.

(** All of memory, and nothing else, is mapped to itself, in tables that the
    heap does not reach. *)
Definition identity_mapped (mb : Z) (m : memory) : Prop :=
  ∀ w, 0 ≤ w < W32 → translate m (page_directory I) w = if w <? mb * 1048576 then Some w else None.
Definition tables_kept (mb : Z) st (fl : list (Z * Z)) : Prop :=
  ∃ st1, space_wf st1 (page_directory I) ∧ identity_mapped mb (mem st1) ∧
    ∀ x, pa_used (pages st1) (page_of x) → foreign st fl x ∧ rd8 (mem st) x = rd8 (mem st1) x.

Lemma tables_kept_keeps mb st fl st' fl' : tables_kept mb st fl → keeps st fl st' fl' → tables_kept mb st' fl'.
Proof.
  intros (st1 & Hsp & Hid & Hx) Hk. exists st1. split; [done |]. split; [done |]. intros x Hu.
  destruct (Hx x Hu) as [Hf <-]. by apply Hk.
Qed.
Lemma tables_kept_identity mb st fl : tables_kept mb st fl → identity_mapped mb (mem st).
Proof.
  intros (st1 & Hsp & Hid & Hx) w Hw. rewrite (translate_frame st1); [by apply Hid | done | | done]. intros x Hu. by apply Hx.
Qed.

(** Memory at the start: with 5 to 1024 MiB the page allocator, the identity map
    and the heap come up without running out of pages. *)
Lemma init_memory_run mb st :
  5 ≤ mb ≤ 1024 → page_addr (page_directory I) → page_addr (boot_page_table I) →
  page_directory I ≠ boot_page_table I → page_directory I < 0x400000 → boot_page_table I < 0x400000 →
  ∃ st' h n, init_memory I mb st = Ok st' ∧ heap_inv st' [(h, 4096)] [] ∧ tables_kept mb st' [(h, 4096)] ∧
    cr3 st' = page_directory I ∧ kernel_space st' = page_directory I ∧ Z.testbit (cr0 st') 31 = true ∧
    low (pages st') n ∧ total_pages (pages st') = mb * 256 ∧ 1024 ≤ n ≤ 1025 + (mb - 1) / 4.
Proof.
  intros Hmb Hpd Hbt Hne Hpd4 Hbt4. unfold init_memory. set (st0 := with_pages (pmm_init mb) st).
  pose proof (low_init mb Hmb) as Hl0. pose proof (low_wf _ _ Hl0) as Hwf0.
  destruct (pmm_init_bits mb ltac:(lia)) as (_ & _ & Ht0 & _).
  assert (Hin : ∀ q, page_addr q → q < 0x400000 → pa_used (pages st0) q).
  { intros q (Hq1 & Hq2 & Hq3) Hq4. change (page_in_use (pmm_init mb) q). split; [done |]. split; [rewrite Ht0; mlia |].
    rewrite (low_bits _ _ Hl0) by (rewrite Ht0; mlia). apply Z.ltb_lt. mlia. }
  assert (Hfew : ∀ j pg, takes j (pages st0) pg → Z.of_nat j ≤ (mb - 1) / 4 → fst (pa_alloc pg) ≠ 0).
  { intros j pg Htk Hj. destruct (low_takes _ _ _ _ Htk Hl0) as [Hl Ht]. cbn [pages st0 with_pages] in Ht.
    destruct (low_alloc pg _ Hl) as (pg' & E & _ & _ & Hpos); [rewrite Ht, Ht0; mlia |].
    change (pa_alloc pg) with (pmm_alloc_page pg). rewrite E. cbn [fst]. lia. }
  destruct (paging_init_run (page_directory I) (boot_page_table I) Hpd Hbt Hne mb st0)
    as [(_ & j & pg & Htk & Hj & Hnull) | (st1 & E1 & Hsp & Hcr3 & Hcr0 & Htr & j & Htk & Hj)];
    [lia | exact Hwf0 | by apply Hin | by apply Hin | |].
  { destruct (Z.eqb_spec mb 0); [lia |]. exfalso. apply (Hfew j pg Htk); [mlia | done]. }
  destruct (Z.eqb_spec mb 0); [lia |]. rewrite E1. cbn [obind]. clear E1.
  assert (Hj' : Z.of_nat j ≤ (mb - 1) / 4) by mlia.
  destruct (low_takes _ _ _ _ Htk Hl0) as [Hl1 Ht1]. pose proof (low_wf _ _ Hl1) as Hwf1.
  destruct (kmalloc_init_inv (vmm_init st1)) as (st2 & E2 & Hinv); [exact Hwf1 | exact (Hfew j _ Htk Hj') |].
  destruct (kmalloc_init_effect (vmm_init st1) st2 Hwf1 E2) as (p & Htk2 & -> & Hp & Ec3 & Ec0 & Eks & Hm).
  destruct (low_takes _ _ _ _ Htk2 Hl1) as [Hl2 Ht2].
  exists st2, (fst (pa_alloc (pages (vmm_init st1)))), (1024 + Z.of_nat j + 1). split; [done |]. split; [exact Hinv |].
  split; [| split_and!; [by rewrite Ec3 | by rewrite Eks | by rewrite Ec0 | exact Hl2 | | lia | lia]].
  - exists st1. split; [done |]. split; [intros w Hw; rewrite Htr by done; by replace (Z.max 4 mb) with mb by lia |].
    intros x Hx. destruct (pa_alloc (pages (vmm_init st1))) as [q pg] eqn:Ea. cbn [fst] in *.
    destruct (pmm_contract_alloc _ q pg Hwf1 Ea Hp) as (_ & (Hq1 & Hq2 & Hq3) & Hfresh & Hu).
    inversion Htk2 as [| ? ? q' pg1 ? Ea' Hq' Ht' E3]. subst. rewrite Ea in Ea'. injection Ea' as <- <-. inversion Ht'; subst.
    split; [split; [apply Hu; by right |] | apply Hm; by intros <-].
    intros b ->%list_elem_of_singleton Hb. cbn [fst snd] in Hb. apply Hfresh. by rewrite <- (page_of_inside q x).
  - change (pages (vmm_init st1)) with (pages st1) in Ht2. rewrite Ht2, Ht1. exact Ht0.
Qed.
End memory_stage.

(** ** Files *)

Section files_stage.
Implicit Types (fs : ramfs Pmm.pmm) (live : list (Z * Z)).

(** What the heap has done with the pages it already had. *)
Definition moved (st : machine Pmm.pmm) (fl : list (Z * Z)) (st' : machine Pmm.pmm) (fl' : list (Z * Z)) : Prop :=
  keeps st fl st' fl' ∧ pages st' = pages st ∧ regs st' = regs st.
Lemma moved_refl st fl : moved st fl st fl.
Proof. split; [apply keeps_refl | done]. Qed.
Lemma moved_trans st1 fl1 st2 fl2 st3 fl3 : moved st1 fl1 st2 fl2 → moved st2 fl2 st3 fl3 → moved st1 fl1 st3 fl3.
Proof. intros (K1 & P1 & R1) (K2 & P2 & R2). split; [by eapply keeps_trans | split; congruence]. Qed.
Lemma kmalloc_head_moved st h s fl live size fuel (n := kmalloc_needed size) :
  heap_inv st ((h, s) :: fl) live → 0 < size < W32 → n + 32 ≤ s → (0 < fuel)%nat →
  ∃ st', kmalloc fuel size st = Ok (h + 16, st') ∧ heap_inv st' ((h + n, s - n) :: fl) ((h, n) :: live) ∧
    moved st ((h, s) :: fl) st' ((h + n, s - n) :: fl).
Proof.
  intros Hinv Hs Hn Hf. destruct (kmalloc_head st h s fl live size fuel Hinv Hs Hn Hf) as (st' & E & Hinv' & Hp & Hk).
  exists st'. split; [done |]. split; [done |]. split; [done |]. split; [done | by apply kmalloc_regs in E].
Qed.

(** A well-formed tree on a heap with one free block. *)
Definition tree_on fs (h s : Z) live : Prop := ramfs_wf fs ∧ nodes_live fs [(h, s)] live.

Lemma alloc_here fuel fs h s live :
  nodes_live fs [(h, s)] live → pool_count fs < 128 → 492 ≤ s → (0 < fuel)%nat →
  h + 16 ≠ 0 ∧ ∃ fs', alloc_node fuel fs = Ok (h + 16, fs') ∧ heap_inv (heap fs') [(h + 460, s - 460)] ((h, 460) :: live) ∧
    moved (heap fs) [(h, s)] (heap fs') [(h + 460, s - 460)].
Proof.
  intros [Hinv _] Hp Hs Hf. unfold alloc_node. destruct (Z.leb_spec 128 (pool_count fs)); [lia |].
  destruct (kmalloc_head_moved (heap fs) h s [] live 436 fuel Hinv) as (st & -> & Hinv' & Hmv); [lia | change (kmalloc_needed 436) with 460; lia | done |].
  pose proof (hi_blocks _ _ _ Hinv) as Hok. apply Forall_cons in Hok as [(Hh & _) _]. simpl in Hh. split; [lia |].
  cbn [obind]. destruct (Z.eqb_spec (h + 16) 0); [lia |]. eexists. by split.
Qed.

(** A new node [n] with the name [nm] in the directory [parent], whose children were [l]. *)
Record grown fs fs' (parent : Z) (nm : cstring) (n kind : Z) (l : list Z) : Prop := {
  g_node : ∃ x, nodes fs' !! n = Some x ∧ flags x = kind ∧ fsize x = 0;
  g_old : ∀ q x, nodes fs !! q = Some x →
    ∃ x', nodes fs' !! q = Some x' ∧ flags x' = flags x ∧ fsize x' = fsize x ∧ data x' = data x;
  g_children : children fs' parent (n :: l);
  g_dir : kind = FS_DIR → children fs' n [];
  g_others : ∀ q l', q ≠ parent → children fs q l' → children fs' q l';
  g_found : ramfs_finddir 129 parent nm fs' = Ok n;
  g_names : ∀ nm', nm' ≠ nm → ramfs_finddir 129 parent nm' fs' = ramfs_finddir 129 parent nm' fs;
  g_dirs : ∀ q l' nm', q ≠ parent → children fs q l' → ramfs_finddir 129 q nm' fs' = ramfs_finddir 129 q nm' fs;
}.
(** The first [w] bytes of the file [f] were written. *)
Record filled fs fs' (f w : Z) (bytes : list Z) : Prop := {
  f_node : ∃ n, nodes fs' = <[f := n]> (nodes fs) ∧ flags n = FS_FILE ∧ fsize n = w;
  f_read : ramfs_read f 0 w fs' = (w, take (Z.to_nat w) bytes);
  f_children : ∀ q l, children fs q l → children fs' q l;
  f_finddir : ∀ q l nm, children fs q l → ramfs_finddir 129 q nm fs' = ramfs_finddir 129 q nm fs;
}.

Lemma create_here fuel kind parent nm fs h s live l :
  tree_on fs h s live → children fs parent l → kind = FS_FILE ∨ kind = FS_DIR →
  pool_count fs < 128 → 492 ≤ s → (0 < fuel)%nat → (length nm < 128)%nat →
  ∃ fs', create_node fuel kind parent nm fs = Ok (h + 16, fs') ∧
    tree_on fs' (h + 460) (s - 460) ((h, 460) :: live) ∧ pool_count fs' = pool_count fs + 1 ∧
    moved (heap fs) [(h, s)] (heap fs') [(h + 460, s - 460)] ∧ grown fs fs' parent nm (h + 16) kind l.
Proof.
  intros [Hwf Hl] Hch Hk Hp Hs Hf Hn. destruct (alloc_here fuel fs h s live Hl Hp Hs Hf) as (Hne & fs1 & Ea & Hinv1 & Hmv).
  assert (E : ∃ fs', create_node fuel kind parent nm fs = Ok (h + 16, fs') ∧ heap fs' = heap fs1 ∧ pool_count fs' = pool_count fs1).
  { destruct Hch as (x & Hx & Hd & _). unfold create_node. rewrite Hx, Hd, Ea. cbn [negb obind].
    destruct (Z.eqb_spec (h + 16) 0); [done |]. destruct (Z.leb_spec 128 (zlen nm)); [lia |]. by eexists. }
  destruct E as (fs' & E & Eh & Ep).
  destruct (create_node_effect fuel kind parent nm fs [(h, s)] live (h + 16) fs' l Hwf Hl Hch Hk E Hne)
    as (Hwf' & (fl' & m & Hl') & Hnew & (x & Hx & _ & Hxf & Hxs & _) & Hold & Hch1 & Hch2 & Hch3).
  destruct (create_node_lookup fuel kind parent nm fs [(h, s)] live (h + 16) fs' l Hwf Hl Hch Hk E Hne)
    as (_ & _ & Hfd & _ & Hfd2 & _ & Hfd3).
  exists fs'. split; [done |]. split; [split; [done |] | split; [| split; [by rewrite Eh |]]].
  - split; [by rewrite Eh |]. intros q Hq. destruct (proj2 Hl' q Hq) as [k [E' | Hin]%elem_of_cons].
    + exists 460. injection E' as Eq _. replace (q - 16) with h by lia. left.
    + exists k. by right.
  - rewrite Ep. unfold alloc_node in Ea. destruct (Z.leb_spec 128 (pool_count fs)); [lia |].
    apply obind_Ok in Ea as ([n st] & _ & Ea). destruct (n =? 0); [by apply Ok_pair in Ea as [? _] |]. by apply Ok_pair in Ea as [_ <-].
  - constructor; try done; [by exists x |]. intros q y Hy. destruct (Hold q y Hy) as (y' & ? & _ & ? & ? & ? & _). by exists y'.
Qed.

Lemma read_same fs fs' q off sz :
  (∀ x, nodes fs !! q = Some x → ∃ x', nodes fs' !! q = Some x' ∧ flags x' = flags x ∧ fsize x' = fsize x ∧ data x' = data x) →
  is_Some (nodes fs !! q) → ramfs_read q off sz fs' = ramfs_read q off sz fs.
Proof.
  intros Hs [x Hx]. destruct (Hs x Hx) as (x' & Hx' & Ef & Es & Ed). unfold ramfs_read. rewrite Hx, Hx'.
  unfold has_flag. by rewrite Ef, Es, Ed.
Qed.

(** Writing the first bytes of a new file: 256 of them at most. *)
Lemma fill_here f size bytes fs n h s live (w := Z.min size 256) :
  tree_on fs h s live → nodes fs !! f = Some n → flags n = FS_FILE → fsize n = 0 →
  0 < size < W32 → zlen bytes = size → Forall (λ b, 0 ≤ b < W8) bytes →
  let fs' := fill f size bytes fs in
  tree_on fs' h s live ∧ pool_count fs' = pool_count fs ∧ heap fs' = heap fs ∧ filled fs fs' f w bytes.
Proof.
  intros [Hwf Hl] Hn Hfl Hz Hsz Hlen Hb.
  destruct (ramfs_write_run f 0 size (aget bytes) fs n Hwf Hn) as (fs' & n' & E & Hwf' & En & Es & Er & _ & Enm & Efl & Hch);
    [by unfold has_flag; rewrite Hfl | lia | lia | lia | intros i; by apply ShellFiles.aget_bytes |].
  rewrite Z.sub_0_r in *. fold w in E, Es, Er. cbv zeta.
  assert (Hf0 : f ≠ 0) by (intros ->; rewrite (rw_null _ Hwf) in Hn; done).
  assert (Eh : heap fs' = heap fs ∧ pool_count fs' = pool_count fs).
  { unfold ramfs_write in E. rewrite Hn in E. destruct (negb _); injection E as _ <-; done. }
  destruct Eh as [Eh Ep]. unfold fill. destruct (Z.eqb_spec f 0); [done |]. rewrite E. cbn [snd].
  split; [split; [done |] | split; [done | split; [done | constructor; try done]]].
  - destruct Hl as [Hi Hl]. split; [by rewrite Eh |]. intros q Hq. apply Hl. rewrite En in Hq.
    destruct (decide (q = f)) as [-> | Hne]; [by exists n | by rewrite lookup_insert_ne in Hq].
  - exists n'. split; [done |]. split; [congruence | lia].
  - rewrite Er. f_equal. transitivity (map (λ i, aget (take (Z.to_nat w) bytes) (Z.of_nat i)) (seq 0 (length (take (Z.to_nat w) bytes))));
      [| apply ShellFiles.map_aget].
    rewrite length_take, Nat.min_l by (unfold w; lia). apply map_ext_in. intros i Hi%in_seq. unfold aget.
    destruct (Z.ltb_spec (Z.of_nat i) 0); [lia |]. rewrite Nat2Z.id, lookup_take_lt by lia. done.
  - intros q l nm Hq. by apply (finddir_write fs fs' f n n' q l nm); try done; apply Hch.
Qed.

Lemma create_root_here fuel fs h :
  nodes fs = ∅ → pool_count fs = 0 → length (node_pool fs) = 128%nat → heap_inv (heap fs) [(h, 4096)] [] → (0 < fuel)%nat →
  ∃ fs', ramfs_create_root fuel fs = Ok (h + 16, fs') ∧ h + 16 ≠ 0 ∧ tree_on fs' (h + 460) 3636 [(h, 460)] ∧
    pool_count fs' = 1 ∧ moved (heap fs) [(h, 4096)] (heap fs') [(h + 460, 3636)] ∧ children fs' (h + 16) [].
Proof.
  intros En Ep Hlp Hinv Hf.
  destruct (alloc_here fuel fs h 4096 []) as (Hne & fs1 & Ea & Hinv1 & Hmv); [| lia | lia | done |].
  { split; [done |]. intros q [x Hx]. rewrite En in Hx. done. }
  unfold ramfs_create_root. pose proof Ea as Ea'. unfold alloc_node in Ea'. destruct (Z.leb_spec 128 (pool_count fs)); [lia |].
  apply obind_Ok in Ea' as ([n st] & _ & Ea'). destruct (Z.eqb_spec n 0); [by apply Ok_pair in Ea' as [? _] |].
  apply Ok_pair in Ea' as [-> <-]. rewrite Ea. cbn [obind]. destruct (Z.eqb_spec (h + 16) 0); [done |].
  eexists. split; [reflexivity |]. split; [done |]. cbn [with_root with_nodes nodes heap] in *. rewrite En, insert_insert_eq.
  change (4096 - 460) with 3636 in Hinv1, Hmv.
  assert (Hin : ∀ p y, (<[h + 16 := mkNode [SLASH] FS_DIR 0 0 (h + 16) 0 0 (replicate 256 0)]> ∅ : gmap Z ramfs_node) !! p = Some y →
    p = h + 16 ∧ y = mkNode [SLASH] FS_DIR 0 0 (h + 16) 0 0 (replicate 256 0)).
  { intros p y [[<- <-] | [_ Hy]]%lookup_insert_Some; [done |]. by rewrite lookup_empty in Hy. }
  split; [split; [constructor | split; [exact Hinv1 |]] | split; [| split; [exact Hmv |]]];
    cbn [nodes with_nodes with_root node_pool pool_count].
  - by rewrite lookup_insert_ne.
  - rewrite insert_empty, map_size_singleton. lia.
  - rewrite aset_length. lia.
  - intros p y Hy _. apply Hin in Hy as [-> ->]. exists []. constructor.
  - intros p y Hy. apply Hin in Hy as [-> ->]. done.
  - intros q [y Hy]. apply Hin in Hy as [-> _]. exists 460. replace (h + 16 - 16) with h by lia. left.
  - lia.
  - eexists. split; [apply lookup_insert_eq |]. split; [done | constructor].
Qed.

Lemma mount_root v root : (0 < length (mounts v))%nat → root ≠ 0 →
  vfs_get_root (snd (vfs_mount (Some (text "/")) root (vfs_init v))) = root.
Proof.
  intros Hl Hr. unfold vfs_mount. destruct (Z.eqb_spec root 0); [done |]. destruct v as [[|m ms] c]; [simpl in Hl; lia |]. done.
Qed.

Lemma children_null fs q l : ramfs_wf fs → children fs q l → q ≠ 0.
Proof. intros Hwf (x & Hx & _) ->. by rewrite (rw_null _ Hwf) in Hx. Qed.

Lemma bytes_ok (l : list Z) : forallb (λ b, (0 <=? b) && (b <? W8)) l = true → Forall (λ b, 0 ≤ b < W8) l.
Proof.
  intros Hl. apply Forall_forall. intros b Hb%list_elem_of_In. apply (proj1 (forallb_forall _ _) Hl) in Hb. lia.
Qed.

(** The tree as it grows: addresses are counted from the start [h] of the heap page,
    [c] nodes exist; the directories with their children, the names with
    what they lead to, and the contents of the files. *)
Record boot_tree st0 fs (h c : Z) (ds : list (Z * list Z)) (ns : list (Z * cstring * Z)) (bs : list (Z * Z * list Z)) : Prop := {
  bt_on : ∃ live, tree_on fs (h + 460 * c) (4096 - 460 * c) live;
  bt_moved : moved st0 [(h, 4096)] (heap fs) [(h + 460 * c, 4096 - 460 * c)];
  bt_count : pool_count fs = c;
  bt_dirs : ∀ d l, (d, l) ∈ ds → children fs (h + d) (map (Z.add h) l);
  bt_known : ∀ d nm n, (d, nm, n) ∈ ns → ∃ l, (d, l) ∈ ds;
  bt_names : ∀ d nm n, (d, nm, n) ∈ ns → ramfs_finddir 129 (h + d) nm fs = Ok (h + n);
  bt_files : ∀ f w bytes, (f, w, bytes) ∈ bs →
    ramfs_read (h + f) 0 w fs = (w, bytes) ∧ ∃ n, nodes fs !! (h + f) = Some n ∧ fsize n = w;
}.

(** The directories after a node was added to the directory [po]. *)
Definition grow_dirs (kind po n : Z) (l : list Z) (ds : list (Z * list Z)) : list (Z * list Z) :=
  (po, n :: l) :: (if kind =? FS_DIR then [(n, [])] else []) ++ filter (λ d, d.1 ≠ po) ds.

Lemma bt_create fuel kind po l nm st0 fs h c ds ns bs (n := 460 * c + 16) :
  boot_tree st0 fs h c ds ns bs → (po, l) ∈ ds → kind = FS_FILE ∨ kind = FS_DIR → 0 ≤ c < 8 → (0 < fuel)%nat →
  (length nm < 128)%nat → Forall (λ e, e.1.2 ≠ nm) ns →
  ∃ fs', create_node fuel kind (h + po) nm fs = Ok (h + n, fs') ∧ h + n ≠ 0 ∧
    boot_tree st0 fs' h (c + 1) (grow_dirs kind po n l ds) ((po, nm, n) :: ns) bs ∧
    ∃ x, nodes fs' !! (h + n) = Some x ∧ flags x = kind ∧ fsize x = 0.
Proof.
  intros [[live Hon] Hmv Hc Hds Hkn Hns Hbs] Hpo Hk Hr Hf Hlen Hnew.
  destruct (create_here fuel kind (h + po) nm fs _ _ live _ Hon (Hds _ _ Hpo) Hk) as (fs' & E & Hon' & Hc' & Hmv' & G);
    [lia | lia | done | done |].
  replace (h + 460 * c + 16) with (h + n) in * by (unfold n; lia). exists fs'. split; [done |].
  split; [| split; [| exact (g_node _ _ _ _ _ _ _ G)]].
  { destruct (g_node _ _ _ _ _ _ _ G) as (x & Hx & _). intros E0. rewrite E0, (rw_null _ (proj1 Hon')) in Hx. done. }
  assert (Hother : ∀ d l', (d, l') ∈ ds → d ≠ po → children fs' (h + d) (map (Z.add h) l')).
  { intros d l' Hd Hne. apply (g_others _ _ _ _ _ _ _ G); [lia | by apply Hds]. }
  constructor.
  - eexists. replace (h + 460 * (c + 1)) with (h + 460 * c + 460) by lia.
    replace (4096 - 460 * (c + 1)) with (4096 - 460 * c - 460) by lia. exact Hon'.
  - replace (h + 460 * (c + 1)) with (h + 460 * c + 460) by lia.
    replace (4096 - 460 * (c + 1)) with (4096 - 460 * c - 460) by lia. by eapply moved_trans.
  - lia.
  - unfold grow_dirs. intros d l' [[= -> ->] | [Hd | Hd]%elem_of_app]%elem_of_cons.
    + apply (g_children _ _ _ _ _ _ _ G).
    + destruct (Z.eqb_spec kind FS_DIR) as [Ek |]; [| by apply not_elem_of_nil in Hd].
      apply list_elem_of_singleton in Hd as [= -> ->]. by apply (g_dir _ _ _ _ _ _ _ G).
    + apply list_elem_of_filter in Hd as [Hne Hd]. by apply Hother.
  - unfold grow_dirs. intros d nm' n' [[= -> -> ->] | Hin]%elem_of_cons; [exists (n :: l); left |].
    destruct (decide (d = po)) as [-> | Hne]; [exists (n :: l); left |]. destruct (Hkn _ _ _ Hin) as [l' Hl']. exists l'.
    right. apply elem_of_app. right. by apply list_elem_of_filter.
  - intros d nm' n' [[= -> -> ->] | Hin]%elem_of_cons; [exact (g_found _ _ _ _ _ _ _ G) |].
    rewrite Forall_forall in Hnew. specialize (Hnew _ Hin). cbn [fst snd] in Hnew. rewrite <- (Hns _ _ _ Hin).
    destruct (decide (d = po)) as [-> | Hne]; [by apply (g_names _ _ _ _ _ _ _ G) |].
    destruct (Hkn _ _ _ Hin) as [l' Hl']. apply (g_dirs _ _ _ _ _ _ _ G _ (map (Z.add h) l')); [lia | by apply Hds].
  - intros f w bytes Hin. destruct (Hbs _ _ _ Hin) as (Hrd & x & Hx & Hs). split.
    + rewrite <- Hrd. apply read_same; [apply (g_old _ _ _ _ _ _ _ G) | by exists x].
    + destruct (g_old _ _ _ _ _ _ _ G _ _ Hx) as (x' & Hx' & _ & Es & _). exists x'. split; [done | congruence].
Qed.

Lemma bt_fill f size bytes st0 fs h c ds ns bs (w := Z.min size 256) :
  boot_tree st0 fs h c ds ns bs → (∃ x, nodes fs !! (h + f) = Some x ∧ flags x = FS_FILE ∧ fsize x = 0) →
  0 < size < W32 → zlen bytes = size → Forall (λ b, 0 ≤ b < W8) bytes → Forall (λ e, e.1.1 ≠ f) bs →
  boot_tree st0 (fill (h + f) size bytes fs) h c ds ns ((f, w, take (Z.to_nat w) bytes) :: bs).
Proof.
  intros [[live Hon] Hmv Hc Hds Hkn Hns Hbs] (x & Hx & Hfl & Hz) Hsz Hlen Hb Hnew.
  destruct (fill_here (h + f) size bytes fs x _ _ live Hon Hx Hfl Hz Hsz Hlen Hb) as (Hon' & Hc' & Eh & [(n & En & _ & Es) Hrd Hch Hfd]).
  constructor.
  - by exists live.
  - by rewrite Eh.
  - by rewrite Hc'.
  - intros d l Hd. by apply Hch, Hds.
  - done.
  - intros d nm n' Hin. rewrite <- (Hns _ _ _ Hin). destruct (Hkn _ _ _ Hin) as [l Hl]. apply (Hfd _ _ nm (Hds _ _ Hl)).
  - intros f' w' b' [[= -> -> ->] | Hin]%elem_of_cons.
    { split; [done |]. exists n. split; [| done]. by rewrite En, lookup_insert_eq. }
    rewrite Forall_forall in Hnew. specialize (Hnew _ Hin). cbn [fst] in Hnew. destruct (Hbs _ _ _ Hin) as (Hr' & y & Hy & Hys).
    assert (Hy' : nodes (fill (h + f) size bytes fs) !! (h + f') = Some y) by (rewrite En, lookup_insert_ne by lia; done).
    split; [| by exists y]. rewrite <- Hr'. apply read_same; [| by exists y]. intros z Hz'. exists y. split; [done |].
    assert (z = y) as -> by congruence. done.
Qed.

(** The directories, names and contents of the boot tree. *)
Definition boot_dirs : list (Z * list Z) := [(16, [2316; 1856; 936; 476]); (1856, []); (936, [1396]); (476, [])].
Definition boot_names : list (Z * cstring * Z) :=
  [(16, text "test.elf", 2316); (16, text "tmp", 1856); (936, text "hello.elf", 1396); (16, text "bin", 936);
   (16, text "mnt", 476)].
Definition boot_contents : list (Z * Z * list Z) :=
  [(2316, 84, test_elf_data); (1396, 256, take 256 hello_elf_data)].

Lemma create_files_run fuel fs v h :
  nodes fs = ∅ → pool_count fs = 0 → length (node_pool fs) = 128%nat → heap_inv (heap fs) [(h, 4096)] [] →
  (0 < fuel)%nat → ∃ fs', create_files fuel fs v = Ok (fs', snd (vfs_mount (Some (text "/")) (h + 16) (vfs_init v))) ∧
    h + 16 ≠ 0 ∧ boot_tree (heap fs) fs' h 6 boot_dirs boot_names boot_contents.
Proof.
  intros En Ep Hlp Hinv Hf. unfold create_files, ramfs_create_dir, ramfs_create_file. cbv zeta.
  destruct (create_root_here fuel fs h En Ep Hlp Hinv Hf) as (fs0 & -> & Hr & T0 & P0 & M0 & R0). cbn [obind].
  destruct (Z.eqb_spec (h + 16) 0); [done |]. destruct (vfs_mount _ (h + 16) _) as [ret v'].
  assert (B0 : boot_tree (heap fs) fs0 h 1 [(16, [])] [] []).
  { constructor; [by eexists | done | done | by intros d l [= -> ->]%list_elem_of_singleton | by intros ? ? ? ?%not_elem_of_nil..]. }
  destruct (bt_create fuel FS_DIR 16 [] (text "mnt") _ fs0 h 1 _ _ _ B0) as (fs1 & -> & _ & B1 & _);
    [left | by right | lia | done | simpl; lia | constructor |]. cbn [obind].
  destruct (bt_create fuel FS_DIR 16 [476] (text "bin") _ fs1 h 2 _ _ _ B1) as (fs2 & -> & Hb & B2 & _);
    [left | by right | lia | done | simpl; lia | by repeat constructor |]. cbn [obind].
  change (460 * 2 + 16) with 936 in *. destruct (Z.eqb_spec (h + 936) 0); [done |].
  destruct (bt_create fuel FS_FILE 936 [] (text "hello.elf") _ fs2 h 3 _ _ _ B2) as (fs3 & -> & _ & B3 & X3);
    [right; left | by left | lia | done | simpl; lia | by repeat constructor |]. cbn [obind].
  change (460 * 3 + 16) with 1396 in *. apply (bt_fill 1396 hello_elf_size hello_elf_data) in B3; [| done | done | done | by apply bytes_ok | constructor].
  destruct (bt_create fuel FS_DIR 16 [936; 476] (text "tmp") _ _ h 4 _ _ _ B3) as (fs5 & -> & _ & B5 & _);
    [right; left | by right | lia | done | simpl; lia | by repeat constructor |]. cbn [obind].
  destruct (bt_create fuel FS_FILE 16 [1856; 936; 476] (text "test.elf") _ fs5 h 5 _ _ _ B5) as (fs6 & -> & _ & B6 & X6);
    [left | by left | lia | done | simpl; lia | by repeat constructor |]. cbn [obind].
  change (460 * 5 + 16) with 2316 in *. apply (bt_fill 2316 test_elf_size test_elf_data) in B6; [| done | done | done | by apply bytes_ok | by repeat constructor].
  eexists. split; [reflexivity |]. split; [done | exact B6].
Qed.

(** The files at the start. On an empty heap of one page the root, the directories
    [mnt], [bin] and [tmp] and the two programs are created without failure; the root is
    mounted, every name is found where it belongs, [test.elf] holds its 84
    bytes, and [hello.elf], which has 260, only the 256 that a file can hold. *)
Theorem create_files_ready fuel fs v h :
  nodes fs = ∅ → pool_count fs = 0 → length (node_pool fs) = 128%nat → heap_inv (heap fs) [(h, 4096)] [] →
  (0 < length (mounts v))%nat → (0 < fuel)%nat →
  ∃ fs' v' root mnt bin hello tmp test, create_files fuel fs v = Ok (fs', v') ∧ ramfs_wf fs' ∧
    (∃ fl live, nodes_live fs' fl live) ∧ vfs_get_root v' = root ∧
    children fs' root [test; tmp; bin; mnt] ∧ children fs' bin [hello] ∧ children fs' mnt [] ∧ children fs' tmp [] ∧
    ramfs_finddir 129 root (text "mnt") fs' = Ok mnt ∧ ramfs_finddir 129 root (text "bin") fs' = Ok bin ∧
    ramfs_finddir 129 root (text "tmp") fs' = Ok tmp ∧ ramfs_finddir 129 root (text "test.elf") fs' = Ok test ∧
    ramfs_finddir 129 bin (text "hello.elf") fs' = Ok hello ∧
    ramfs_read test 0 84 fs' = (84, test_elf_data) ∧ ramfs_read hello 0 256 fs' = (256, take 256 hello_elf_data) ∧
    ∃ n, nodes fs' !! hello = Some n ∧ fsize n = 256.
Proof.
  intros En Ep Hlp Hinv Hm Hf. destruct (create_files_run fuel fs v h En Ep Hlp Hinv Hf) as (fs' & E & Hr & B).
  exists fs', (snd (vfs_mount (Some (text "/")) (h + 16) (vfs_init v))), (h + 16), (h + 476), (h + 936), (h + 1396), (h + 1856),
    (h + 2316). split; [done |]. destruct B as [[live [Hwf Hlive]] _ _ Hds _ Hns Hbs].
  split; [done |]. split; [by eexists _, _ |]. split; [by apply mount_root |].
  split; [apply (Hds 16 [2316; 1856; 936; 476]); left |]. split; [apply (Hds 936 [1396]); do 2 right; left |].
  split; [apply (Hds 476 []); do 3 right; left |]. split; [apply (Hds 1856 []); right; left |].
  do 5 (split; [apply (Hns _ _ _); set_solver + |]).
  split; [apply (Hbs _ _ test_elf_data); left |]. apply (Hbs 1396 256 (take 256 hello_elf_data)). right; left.
Qed.
End files_stage.

(** ** The stress test *)

#[local] Instance prime_decision n : Decision (prime n) := prime_dec n.

(** A number without a divisor up to its square root is prime. *)
Lemma no_small_divisor n i :
  2 ≤ n → n < i * i → 0 ≤ i → (∀ j, 2 ≤ j < i → n mod j ≠ 0) → prime n.
Proof.
  intros Hn Hi H0 Hd. apply prime_alt. split; [lia |]. intros j Hj [q Hq].
  assert (2 ≤ q < n) by nia. destruct (Z_lt_ge_dec j i).
  - apply (Hd j); [lia |]. rewrite Hq. apply Z_mod_mult.
  - apply (Hd q); [nia |]. rewrite Hq, Z.mul_comm. apply Z_mod_mult.
Qed.

Lemma trial_run fuel i n :
  2 ≤ n < 46340 * 46340 → 2 ≤ i ≤ 46340 → 46341 - i ≤ Z.of_nat fuel → (∀ j, 2 ≤ j < i → n mod j ≠ 0) →
  trial fuel i n = Ok (bool_decide (prime n)).
Proof.
  intros Hn. revert i. induction fuel as [|fuel IH]; intros i Hi Hf Hd; [lia |]. cbn [trial].
  destruct (Z.ltb_spec 2147483647 (i * i)); [nia |]. destruct (Z.leb_spec (i * i) n) as [Hle | Hgt].
  - rewrite Z.rem_mod_nonneg by lia. destruct (Z.eqb_spec (n mod i) 0) as [E | Hne].
    + rewrite bool_decide_false; [done |]. intros Hp. apply prime_alt in Hp as [_ Hp]. apply (Hp i); [nia |].
      apply Z.mod_divide; [lia | done].
    + apply IH; [nia | lia |]. intros j Hj. destruct (Z.eq_dec j i) as [-> |]; [done | apply Hd; lia].
  - rewrite bool_decide_true; [done |]. apply (no_small_divisor n i); try done; lia.
Qed.

(** From 46340 squared on, the square of the divisor overflows before a prime is
    recognised. *)
Lemma trial_overflows fuel i n :
  prime n → 46340 * 46340 ≤ n ≤ 2147483647 → 2 ≤ i ≤ 46341 → 46342 - i ≤ Z.of_nat fuel → trial fuel i n = Undef.
Proof.
  intros Hp Hn. revert i. induction fuel as [|fuel IH]; intros i Hi Hf; [lia |]. cbn [trial].
  destruct (Z.ltb_spec 2147483647 (i * i)); [done |]. assert (i ≤ 46340) by nia.
  destruct (Z.leb_spec (i * i) n); [| nia]. rewrite Z.rem_mod_nonneg by lia.
  destruct (Z.eqb_spec (n mod i) 0) as [E | _]; [| apply IH; lia].
  exfalso. apply prime_alt in Hp as [_ Hp]. apply (Hp i); [nia |]. apply Z.mod_divide; [lia | done].
Qed.

Section stress.
Context {D : Type} `{!PortIO D}.
Implicit Types s : shell Pmm.pmm D.

Fixpoint prime_turns (fuel n : nat) s : outcome (shell Pmm.pmm D) :=
  match n with
  | O => Ok s
  | S n' => let! s := prime_turn fuel s in prime_turns fuel n' s
  end.

(** The prime task counts primes. Started with the initial values, after [n]
    turns the candidate is [2 + n] and the counter is the number of
    primes below it, and nothing else has changed, as long as the candidate stays below 46340
    squared. *)
Theorem prime_task_counts fuel n s :
  46340 ≤ Z.of_nat fuel → stress_prime_count s = 0 → stress_current s = 2 → 2 + Z.of_nat n ≤ 46340 * 46340 →
  prime_turns fuel n s =
    Ok (with_stress (Z.of_nat (length (filter prime (seqZ 2 (Z.of_nat n))))) (2 + Z.of_nat n) (stress_counter s) s).
Proof.
  intros Hf Hc Hn Hmax.
  assert (Hgo : ∀ m c s, 2 ≤ m → stress_prime_count s = c → stress_current s = m → m + Z.of_nat n ≤ 46340 * 46340 →
    prime_turns fuel n s = Ok (with_stress (c + Z.of_nat (length (filter prime (seqZ m (Z.of_nat n))))) (m + Z.of_nat n)
      (stress_counter s) s)).
  { clear - Hf. induction n as [|n IH]; intros m c s Hm Hc Hn Hmax.
    - cbn [prime_turns]. rewrite !Z.add_0_r, <- Hc, <- Hn. by destruct s.
    - cbn [prime_turns]. unfold prime_turn. rewrite Hn, trial_run; [| lia | lia | lia | intros; lia]. cbn [obind].
      destruct (Z.leb_spec 2147483647 m); [lia |]. cbn [obind].
      rewrite (IH (m + 1) (if bool_decide (prime m) then c + 1 else c)) by (lia || (cbn; by rewrite ?Hc)).
      rewrite (seqZ_cons m (Z.of_nat (S n))) by lia. replace (Z.pred (Z.of_nat (S n))) with (Z.of_nat n) by lia.
      replace (m + Z.of_nat (S n)) with (m + 1 + Z.of_nat n) by lia. change (Z.succ m) with (m + 1).
      rewrite filter_cons. case_decide as Hp; [rewrite bool_decide_true by done | rewrite bool_decide_false by done];
        unfold with_stress; cbn; do 2 f_equal; lia. }
  by rewrite (Hgo 2 0) by done.
Qed.
End stress.

(** ** A machine of 8 MiB without drives and cards *)

(** The serial line answers, and the host bridge, which is the only function of
    the PCI bus; the state is the address register of the bridge. *)
Record quiet := Quiet { latch : Z }.
Definition quiet_config (b s f r : Z) : Z :=
  if (b =? 0) && (s =? 0) && (f =? 0)
  then (if r =? 0 then 0x12378086 else if r =? 8 then 0x06000002 else 0) else 0xFFFFFFFF.
#[local] Instance quiet_io : PortIO quiet := {
  inb p d := (if p =? 0x3FD then 0x20 else 0xFF, d);
  outb _ _ d := d;
  inw _ d := (0xFFFF, d);
  outw _ _ d := d;
  inl p d := (if (p =? 0xCFC) && Z.testbit (latch d) 31 then Pci.decoded (latch d) quiet_config else 0xFFFFFFFF, d);
  outl p v d := if p =? 0xCF8 then Quiet v else d;
}.
#[local] Instance quiet_ready : SerialReady (D := quiet).
Proof. by intros []. Qed.
#[local] Instance quiet_bus : Pci.ConfigBus quiet.
Proof.
  refine {| Pci.config d b s f r := quiet_config b s f r |}.
  - intros d b s f r. unfold quiet_config. repeat case_match; lia.
  - intros d b s f o Hb Hs Hf Ho. unfold Pci.pci_config_read. cbn [inl outl quiet_io].
    change (0xCF8 =? 0xCF8) with true. cbn [latch].
    by destruct (Pci.decoded_address quiet_config b s f o Hb Hs Hf) as [-> ->].
  - done.
Defined.

#[local] Existing Instance Ata.ata_device_zero.
#[local] Existing Instance Rtl8139.rtl8139_dev_zero.
#[local] Existing Instance Pci.pci_device_zero.
Definition demo_image : image :=
  mkImage 0x100100 0x100200 0x100300 0x100400 64 0x101000 0x102000 0x103000 0x104000 0x105000 0x10A000
    0x100500 0x100510 0x100520 0x100530 0x100540 0x100550 0x100560.
Definition bare_machine : machine Pmm.pmm := mkMachine Multiboot.small_machine (Pmm.pmm_init 0) 0 0 0 0 0 [] 0.
Definition bare_shell : shell Pmm.pmm quiet :=
  mkShell (mkSys (mkKernel bare_machine ∅ (replicate 16 0) 0 1 0 ∅ 0) (keyboard_init, mkKbuf (replicate 256 0) 0 0)
      (mkTerm (replicate 2000 0) 0 0 (Quiet 0)) 0 0)
    (mkRamfs bare_machine ∅ (replicate 128 0) 0 0) (mkFats ∅ ∅) (mkVfs (replicate 8 zeroed) 0)
    (Ata.mkAta (replicate 4 zeroed) 0 (Quiet 0))
    (Net.mkNet [] [] [] 0 (Rtl8139.mkRtl (replicate 4 zeroed) 0 [] (Pci.mkPci (replicate 64 zeroed) 0 (Quiet 0)) bare_machine)) 0 0 0 0 0 2 0.
Definition bare : @kstate quiet := mkKstate bare_shell (Interrupts.mkTables [] [] (Interrupts.mkTss 0 0 0 0 0 0 0 0 0) (0,0) (0,0) 0 0 0) 0.

Lemma kernel_main_refuses_witness :
  ∃ s', kernel_main demo_layout demo_image 1 0 0x9000 bare = Ok (Panicked s') ∧
    shows (term (sys s'))
      (foldl paper_put blank_paper (panic_report (text "Invalid multiboot magic") (text "src/kernel.cpp") 96)).
Proof.
  destruct (kernel_main_refuses demo_layout demo_image 1 0 0x9000 bare (text "Invalid multiboot magic") 96)
    as (s' & E & _ & Hs).
  - lia.
  - reflexivity.
  - apply refused_magic. discriminate.
  - exists s'. split; [exact E | exact Hs].
Defined.

Lemma create_files_ready_witness :
  ∃ st fs' v', create_files 1 (mkRamfs st ∅ (replicate 128 0) 0 0) (mkVfs (replicate 8 zeroed) 0) = Ok (fs', v') ∧
    ramfs_wf fs'.
Proof.
  destruct boot_heap as (st & _ & Hinv). exists st.
  destruct (create_files_ready 1 (mkRamfs st ∅ (replicate 128 0) 0 0) (mkVfs (replicate 8 zeroed) 0) 4194304)
    as (fs' & v' & _ & _ & _ & _ & _ & _ & E & Hwf & _).
  - reflexivity.
  - reflexivity.
  - reflexivity.
  - exact Hinv.
  - simpl. lia.
  - lia.
  - exists fs', v'. split; [exact E | exact Hwf].
Defined.

Lemma prime_task_counts_witness :
  ∃ s', prime_turns (Z.to_nat 46340) 10 bare_shell = Ok s' ∧ stress_current s' = 12.
Proof.
  eexists. split.
  - apply (prime_task_counts (Z.to_nat 46340) 10 bare_shell).
    + lia.
    + reflexivity.
    + reflexivity.
    + lia.
  - reflexivity.
Defined.
Lemma prime_task_turns :
  (let! s := prime_turns 10 10 bare_shell in Ok (stress_current s, stress_prime_count s)) = Ok (12, 5).
Proof. vm_compute. reflexivity. Qed.
End Kernel.
