(* ===== verification/Startup.v ===== *)
(** * From the boot loader to the shell: [kernel_main] as a whole

    The stages of [Kernel] put together. On a machine without ATA drives and
    RTL8139 cards ([PlainPc]) every allocation of the start succeeds, since pages
    are handed out from the bottom; the last stage creates the three tasks,
    whose frames no later allocation touches, and enters the shell. From then on
    the timer lets the tasks take turns. *)

From stdpp Require Import strings.
From S2P Require Import Prelude Interfaces Machine Libk Ring Pmm Multiboot Kmalloc Vmm Process Scheduler Ipc Keyboard Ports Terminal Faults Interrupts Syscall Vfs Ramfs Ata Fat32 Elf Net Pci Rtl8139 Commands Shell Rotation Kernel.
#[local] Open Scope Z_scope.

Module Startup.
Import Pmm Libk Kmalloc Vmm Process Scheduler Ipc Keyboard Terminal Faults Syscall Vfs Ramfs Commands Shell Rotation Kernel.

(** ** Tasks *)

(** [popa; iret] from [esp] goes on at [entry] in ring 0 with interrupts enabled. *)
Definition enters (m : memory) (esp entry : Z) : Prop :=
  let '(_, eip, cs, eflags) := process_first_enter_asm esp m in
  eip = entry ∧ cs = 0x08 ∧ Z.testbit eflags 9 = true ∧ 0 ≤ esp ∧ esp + 44 ≤ W32.
Definition empty_queue : ipc_queue := mkQueue (replicate 16 ipc_msg_zero) 0 0 0.

Section task_stage.
Implicit Types (k : kernel Pmm.pmm) (fl live : list (Z * Z)).

(** A process that waits for its first turn, its frame out of reach of the heap,
    with an empty queue or none. *)
Record waiting k fl live (entry number : Z) (p : Process) : Prop := {
  w_pid : pid p = number;
  w_state : state p = TASK_READY;
  w_ring : ring p = RING_KERNEL;
  w_saved : saved_esp p = 0;
  w_space : address_space p = kernel_space (mach k);
  w_enters : enters (mem (mach k)) (kernel_stack_top p) entry;
  w_frame : ∀ x, kernel_stack_top p ≤ x < kernel_stack_top p + 44 → foreign (mach k) fl x;
  w_queue : msg_queue p = 0 ∨
    (∃ n, (msg_queue p - 16, n) ∈ live) ∧ queues k !! msg_queue p = Some empty_queue;
}.
(** The processes with these entries, in order. *)
Record tasks_ready k fl live (entries : list Z) : Prop := {
  tr_wf : table_wf k;
  tr_live : procs_live k fl live;
  tr_count : process_count k = zlen entries;
  tr_next : next_pid k = zlen entries + 1;
  tr_tasks : ∀ i e, entries !! i = Some e → ∃ p, proc_at k (Z.of_nat i) = Some p ∧ waiting k fl live e (Z.of_nat i + 1) p;
}.

(** The heap has moved on: nothing that others use has changed. *)
Definition grown_heap k fl (k' : kernel Pmm.pmm) fl' : Prop :=
  keeps (mach k) fl (mach k') fl' ∧ regs (mach k') = regs (mach k).
Lemma grown_heap_trans k1 fl1 k2 fl2 k3 fl3 : grown_heap k1 fl1 k2 fl2 → grown_heap k2 fl2 k3 fl3 → grown_heap k1 fl1 k3 fl3.
Proof. intros [K1 R1] [K2 R2]. split; [by eapply keeps_trans | congruence]. Qed.

(** What the heap does elsewhere does not matter to it. *)
Lemma waiting_kept k k' fl fl' live live' entry number p :
  waiting k fl live entry number p → keeps (mach k) fl (mach k') fl' → regs (mach k') = regs (mach k) → (∀ b, b ∈ live → b ∈ live') →
  (∀ q n, (q - 16, n) ∈ live → queues k' !! q = queues k !! q) → waiting k' fl' live' entry number p.
Proof.
  intros [W1 W2 W3 W4 W5 (E1 & E2 & E3 & E4 & E5) W6 W7] Hk Hr Hl Hq.
  assert (Hw : ∀ o, 0 ≤ o ≤ 40 → rd32 (mem (mach k')) (kernel_stack_top p + o) = rd32 (mem (mach k)) (kernel_stack_top p + o)).
  { intros o Ho. apply rd32_ext. intros x Hx. apply Hk, W6. lia. }
  constructor; try done.
  - unfold regs in Hr. congruence.
  - unfold enters, process_first_enter_asm. by rewrite !Hw by lia.
  - intros x Hx. by apply Hk, W6.
  - destruct W7 as [W7 | [(n & Hn) W7]]; [by left | right]. split; [exists n; by apply Hl |]. by rewrite (Hq _ n).
Qed.

Lemma create_task fuel entry k fl live entries q k' :
  tasks_ready k fl live entries → 0 ≤ entry < W32 → process_create_kernel fuel entry k = Ok (q, k') → q ≠ 0 →
  zlen entries < 16 → ∃ fl' live', tasks_ready k' fl' live' (entries ++ [entry]) ∧ current_process k' = current_process k ∧
    process_get (zlen entries) k' = q ∧ (∀ i, 0 ≤ i < zlen entries → process_get i k' = process_get i k) ∧
    grown_heap k fl k' fl'.
Proof.
  intros [Hwf Hlive Hc Hn Ht] He E Hq Hle.
  destruct (process_create_kernel_effect fuel entry k fl live q k' Hwf Hlive He E Hq)
    as (p & fl' & n & Hwf' & Hlive' & Hc' & Hn' & Hp & Hg & Hpid & Hst & Hrg & Hsv & F1 & F2 & F3 & Hold & Hk & Hfr & Hmq & Hcur & Hqs & Hsp & Hrg' & Hlo & Hhi).
  rewrite Hc in *. exists fl', ((q - 16, n) :: live). split; [constructor; try done | split; [done | split; [done | split; [| by split]]]].
  - rewrite length_app. cbn [length]. lia.
  - rewrite Hn', Hn, u32_id, length_app by lia. cbn [length]. lia.
  - intros i e Hi. apply lookup_app_Some in Hi as [Hi | [Hi1 Hi2]].
    + destruct (Ht i e Hi) as (p' & Hp' & Hw). apply lookup_lt_Some in Hi. exists p'. rewrite (proj2 (Hold (Z.of_nat i) ltac:(lia))). split; [done |].
      apply (waiting_kept k k' fl fl' live); try done; [intros b Hb; by right | by rewrite Hqs].
    + apply list_lookup_singleton_Some in Hi2 as [Hi2 <-]. assert (i = length entries) as -> by lia. exists p. split; [done |].
      constructor; try done; [lia | unfold regs in Hrg'; congruence | by left].
  - intros i Hi. by apply Hold.
Qed.

Lemma give_task_queue fuel q k fl live entries k' :
  tasks_ready k fl live entries → give_queue fuel q k = Ok k' →
  ∃ fl' live', tasks_ready k' fl' live' entries ∧ current_process k' = current_process k ∧
    (∀ i, process_get i k' = process_get i k) ∧ grown_heap k fl k' fl'.
Proof.
  intros [Hwf [Hinv Hlive] Hc Hn Ht] E. unfold give_queue in E. apply obind_Ok in E as ([a st] & Ek & E).
  destruct (kmalloc_ok (mach k) fl live 1164 fuel a st Hinv ltac:(lia) Ek) as (fl' & Hpost & Hk). pose proof (kmalloc_regs _ _ _ _ _ Ek) as Hrg.
  destruct (Z.eqb_spec a 0) as [-> | Ha].
  { injection E as <-. destruct Hpost as [(_ & Hinv' & _) | (n & ? & _)]; [| done]. exists fl', live.
    split; [| split; [done | split; [done | by split]]]. constructor; [| done | done | done |].
    - apply (table_wf_same k); [done | apply same_table_mach | by destruct Hwf].
    - intros i e Hi. destruct (Ht i e Hi) as (p & Hp & Hw). exists p. split; [done |].
      by apply (waiting_kept k _ fl fl' live). }
  destruct Hpost as [(? & _) | (n & _ & Hinv' & _)]; [done |]. injection E as <-.
  set (k' := upd q (set_msg_queue a) _).
  assert (Hst : same_table k k') by (transitivity (with_queues (<[a := ipc_queue_init empty_queue]> (queues k)) (with_mach st k));
    [by split | apply same_table_upd]).
  exists fl', ((a - 16, n) :: live). split; [constructor | split; [done | split; [| by split]]].
  - apply (table_wf_same k); [done | done | by destruct Hwf].
  - split; [exact Hinv' |]. intros z Hz. destruct (Hlive z) as [j Hj]; [| exists j; by right].
    unfold k' in Hz. cbn [procs upd with_procs with_queues with_mach] in Hz. by apply lookup_alter_is_Some in Hz.
  - done.
  - done.
  - intros i e Hi. destruct (Ht i e Hi) as (p & Hp & Hw).
    assert (Hw' : waiting k' fl' ((a - 16, n) :: live) e (Z.of_nat i + 1) p).
    { apply (waiting_kept k k' fl fl' live); [done | done | done | intros b Hb; by right |]. intros z j Hz.
      unfold k'. cbn [queues upd with_procs with_queues with_mach]. rewrite lookup_insert_ne; [done |].
      intros ->. by apply (live_fresh _ _ _ _ _ z j Hinv'). }
    unfold proc_at in *. rewrite (process_get_same k k') by done.
    unfold k'. cbn [procs upd with_procs with_queues with_mach]. destruct (decide (process_get (Z.of_nat i) k = q)) as [<- | Hne].
    + rewrite lookup_alter_eq, Hp. eexists. split; [done |]. destruct Hw'. constructor; try done.
      right. split; [exists n; left |]. unfold k'. cbn [queues upd with_procs with_queues with_mach]. apply lookup_insert_eq.
    + rewrite lookup_alter_ne by done. by exists p.
  - intros i. by apply process_get_same.
Qed.

Variable I : image.
Definition entries_ok : Prop :=
  0 ≤ shell_task I < W32 ∧ 0 ≤ prime_task I < W32 ∧ 0 ≤ counter_task I < W32.

Lemma create_tasks_run fuel k fl live sp pp cp k' :
  tasks_ready k fl live [] → entries_ok → create_tasks I fuel k = Ok (sp, pp, cp, k') → sp ≠ 0 → pp ≠ 0 → cp ≠ 0 →
  ∃ fl' live', tasks_ready k' fl' live' [shell_task I; prime_task I; counter_task I] ∧ process_get 0 k' = sp ∧
    grown_heap k fl k' fl'.
Proof.
  intros Hr (He1 & He2 & He3) E Hs Hp Hc. unfold create_tasks in E. cbv zeta in E.
  assert (R0 : tasks_ready (scheduler_init k) fl live []).
  { destruct Hr as [Hwf Hl Hcn Hnx Ht]. constructor; try done. apply (table_wf_same k); [done | by split | done]. }
  apply obind_Ok in E as ([q1 k1] & E1 & E). destruct (Z.eqb_spec q1 0) as [-> | Hq1].
  { apply Ok_pair in E as [E _]. apply (f_equal (λ x, x.1.1)) in E. cbn in E. congruence. }
  destruct (create_task _ _ _ _ _ _ _ _ R0 He1 E1 Hq1) as (fl1 & live1 & R1 & _ & G1 & _ & M1); [simpl; lia |].
  apply obind_Ok in E as (k2 & E2 & E). destruct (give_task_queue _ _ _ _ _ _ _ R1 E2) as (fl2 & live2 & R2 & _ & G2 & M2).
  apply obind_Ok in E as ([q3 k3] & E3 & E). apply obind_Ok in E as ([q4 k4] & E4 & E).
  apply obind_Ok in E as (k5 & E5 & E). apply obind_Ok in E as (k6 & E6 & E). apply Ok_pair in E as [E ->].
  assert (sp = q1 ∧ pp = q3 ∧ cp = q4) as (-> & -> & ->) by (injection E; done).
  destruct (create_task _ _ _ _ _ _ _ _ R2 He2 E3 Hp) as (fl3 & live3 & R3 & _ & _ & G3 & M3); [simpl; lia |].
  destruct (create_task _ _ _ _ _ _ _ _ R3 He3 E4 Hc) as (fl4 & live4 & R4 & _ & _ & G4 & M4); [simpl; lia |].
  unfold give_queue_if in E5, E6. destruct (Z.eqb_spec q3 0); [done |]. destruct (Z.eqb_spec q4 0); [done |].
  destruct (give_task_queue _ _ _ _ _ _ _ R4 E5) as (fl5 & live5 & R5 & _ & G5 & M5).
  destruct (give_task_queue _ _ _ _ _ _ _ R5 E6) as (fl6 & live6 & R6 & _ & G6 & M6).
  exists fl6, live6. split; [exact R6 |]. split; [rewrite G6, G5, G4, G3, G2 by (simpl; lia); exact G1 |].
  do 4 (eapply grown_heap_trans; [eassumption |]). by eapply grown_heap_trans.
Qed.

(** Entering the first process marks it as running and current. *)
Lemma first_enter_run k fl live entries e q :
  tasks_ready k fl live (e :: entries) → process_get 0 k = q →
  ∃ k' p, process_first_enter q k = Some (kernel_stack_top p, k') ∧ mem (mach k') = mem (mach k) ∧
    (kernel_space (mach k) = cr3 (mach k) → regs (mach k') = regs (mach k)) ∧ current_process k' = 0 ∧
    proc_at k' 0 = Some (set_state TASK_RUNNING p) ∧ waiting k fl live e 1 p ∧
    (∀ i, 0 < i < zlen (e :: entries) → proc_at k' i = proc_at k i) ∧ table_wf k' ∧ process_count k' = process_count k.
Proof.
  intros [Hwf _ Hc _ Ht] Hq. destruct (Ht 0%nat e eq_refl) as (p & Hp & Hw).
  change (Z.of_nat 0) with 0 in *. unfold process_first_enter. pose proof Hp as Hp'. unfold proc_at in Hp'. rewrite Hq in Hp'. rewrite Hp'.
  set (k1 := process_switch q (upd q (set_state TASK_RUNNING) k)).
  assert (Hst : same_table k k1) by (etransitivity; [apply same_table_upd | apply same_table_switch]).
  assert (Hpr : procs k1 = alter (set_state TASK_RUNNING) q (procs k)).
  { unfold k1, process_switch. by destruct (procs (upd _ _ _) !! q). }
  assert (Hm : mark_index 16 0 q k1 = with_current 0 k1).
  { cbn [mark_index]. rewrite (process_get_same k k1), Hq, Z.eqb_refl by done. done. }
  eexists _, p. split; [reflexivity |]. rewrite Hm. split; [| split; [| split; [done | split; [| split; [done | split; [| split; [| by destruct Hst]]]]]]].
  - unfold k1, process_switch. destruct (procs (upd _ _ _) !! q); [| done]. cbn [mach with_mach with_current].
    by destruct (kernel_stack _ =? 0), (address_space _ =? 0).
  - intros Hks. unfold k1, process_switch. cbn [procs upd with_procs]. rewrite lookup_alter_eq, Hp'. cbn [fmap option_fmap option_map].
    change (address_space (set_state TASK_RUNNING p)) with (address_space p). rewrite (w_space _ _ _ _ _ _ Hw).
    unfold regs. destruct (kernel_stack _ =? 0), (kernel_space (mach k) =? 0); cbn; congruence.
  - unfold proc_at. change (process_get 0 (with_current 0 k1)) with (process_get 0 k1).
    rewrite (process_get_same k k1), Hq by done. cbn [procs with_current]. by rewrite Hpr, lookup_alter_eq, Hp'.
  - intros i Hi. unfold proc_at. change (process_get i (with_current 0 k1)) with (process_get i k1).
    rewrite (process_get_same k k1) by done. cbn [procs with_current]. rewrite Hpr, lookup_alter_ne; [done |].
    intros E. assert (0 = i); [| lia]. apply (tw_inj _ Hwf); [lia | lia | congruence].
  - apply (table_wf_same k); [done | | done]. by destruct Hst.
Qed.
End task_stage.


(** ** Enough memory *)

Section enough.
Variable I : image.
Implicit Types (k : kernel Pmm.pmm) (st : machine Pmm.pmm) (fl live : list (Z * Z)).

(** The heap, and the number of frames in use, of [t] frames. *)
Record stands st fl live (n t : Z) : Prop := {
  st_inv : heap_inv st fl live;
  st_low : low (pages st) n;
  st_total : total_pages (pages st) = t;
}.

Lemma low_room pg n : low pg n → total_pages pg ≤ 262144.
Proof. intros Hl. pose proof (wf_total pg (low_wf _ _ Hl)). lia. Qed.

Lemma low_contiguous j i first pg n :
  low pg n → n + Z.of_nat j ≤ total_pages pg → first + i * 4096 = n * 4096 →
  ∃ pg', grow_contiguous j i first pg = (true, pg') ∧ low pg' (n + Z.of_nat j) ∧ total_pages pg' = total_pages pg.
Proof.
  revert i pg n. induction j as [|j IH]; intros i pg n Hl Hn Hi; [exists pg; by rewrite Z.add_0_r |].
  destruct (low_alloc pg n Hl) as (pg1 & E & Hl1 & Ht & Hpos); [lia |]. cbn [grow_contiguous].
  change (pa_alloc pg) with (pmm_alloc_page pg). rewrite E, Hi.
  pose proof (low_room pg n Hl). rewrite u32_id by lia. rewrite Z.eqb_refl. destruct (Z.eqb_spec (n * 4096) 0); [lia |]. cbn [negb].
  destruct (IH (i + 1) pg1 (n + 1) Hl1) as (pg' & -> & Hl' & Ht'); [lia | lia |].
  exists pg'. split; [done |]. split; [| congruence]. by replace (n + Z.of_nat (S j)) with (n + 1 + Z.of_nat j) by lia.
Qed.

Lemma low_stack fuel st n :
  low (pages st) n → n + 2 ≤ total_pages (pages st) → (0 < fuel)%nat →
  ∃ st', alloc_kernel_stack fuel st = Ok (n * 4096, n * 4096, st') ∧ n * 4096 ≠ 0 ∧
    low (pages st') (n + 2) ∧ total_pages (pages st') = total_pages (pages st).
Proof.
  intros Hl Hn Hf. destruct fuel as [|fuel]; [lia |]. cbn [alloc_kernel_stack]. pose proof (low_room _ _ Hl).
  destruct (low_alloc _ _ Hl) as (pg1 & E1 & Hl1 & Ht1 & Hpos); [lia |].
  destruct (low_alloc pg1 (n + 1) Hl1) as (pg2 & E2 & Hl2 & Ht2 & _); [lia |].
  change (pa_alloc (pages st)) with (pmm_alloc_page (pages st)). rewrite E1.
  change (pa_alloc pg1) with (pmm_alloc_page pg1). rewrite E2.
  destruct (Z.eqb_spec (n * 4096) 0); [lia |]. destruct (Z.eqb_spec ((n + 1) * 4096) 0); [lia |]. cbn [orb].
  rewrite u32_id by lia. destruct (Z.eqb_spec ((n + 1) * 4096) (n * 4096 + 4096)); [| lia]. cbn [negb].
  eexists. split; [reflexivity |]. split; [done |]. cbn [pages with_mem with_pages].
  split; [by replace (n + 2) with (n + 1 + 1) by lia | congruence].
Qed.

(** Once its object is allocated, a process is created. *)
Lemma create_succeeds fuel entry k q st fl live n t :
  kmalloc fuel sizeof_Process (mach k) = Ok (q, st) → q ≠ 0 → stands st fl live n t → n + 2 ≤ t →
  process_count k < 16 → (0 < fuel)%nat → 0 ≤ entry < W32 →
  ∃ k', process_create_kernel fuel entry k = Ok (q, k') ∧ stands (mach k') fl live (n + 2) t ∧
    process_count k' = process_count k + 1.
Proof.
  intros Ek Hq [Hinv Hl Ht] Hn Hc Hf He. unfold process_create_kernel. rewrite Ek. cbn [obind].
  destruct (Z.eqb_spec q 0); [done |]. cbn [mach with_mach with_next_pid].
  set (k1 := with_procs _ _). change (mach k1) with st in *.
  destruct (low_stack fuel st n Hl) as (st' & Es & Hs & Hl' & Ht'); [lia | done |].
  assert (E : ∃ k', start_process fuel q (λ sp, build_kernel_frame sp entry) k1 = Ok (q, k') ∧ pages (mach k') = pages st').
  { unfold start_process. change (mach k1) with st. rewrite Es. cbn [obind]. destruct (Z.eqb_spec (n * 4096) 0); [done |].
    destruct (build_kernel_frame _ _ _) as [sp m]. unfold register_process.
    cbn [process_count upd with_procs with_mach k1 with_next_pid]. destruct (Z.leb_spec 16 (process_count k)); [lia |].
    cbn [obind]. eexists. split; [reflexivity |]. done. }
  destruct E as (k' & E & Ep). exists k'. split; [done |].
  destruct (start_process_effect fuel q _ k1 q k' fl live E Hq Hinv)
    as (s & m1 & _ & _ & _ & _ & _ & _ & _ & _ & Ec & _ & _ & _ & _ & Hinv' & _).
  { intros sp m Hsp x Hx. apply (kernel_frame_spec sp entry m); [done | done | lia]. }
  split; [| by rewrite Ec]. constructor; [done | by rewrite Ep | rewrite Ep; congruence].
Qed.

Lemma queue_succeeds fuel proc k q st :
  kmalloc fuel sizeof_ipc_queue (mach k) = Ok (q, st) → q ≠ 0 →
  ∃ k', give_queue fuel proc k = Ok k' ∧ mach k' = st ∧ process_count k' = process_count k.
Proof.
  intros Ek Hq. unfold give_queue. rewrite Ek. cbn [obind]. destruct (Z.eqb_spec q 0); [done |].
  by eexists.
Qed.

Lemma stands_head st h s live n t size fuel (w := kmalloc_needed size) :
  stands st [(h, s)] live n t → 0 < size < W32 → w + 32 ≤ s → (0 < fuel)%nat →
  h + 16 ≠ 0 ∧ ∃ st', kmalloc fuel size st = Ok (h + 16, st') ∧ stands st' [(h + w, s - w)] ((h, w) :: live) n t.
Proof.
  intros [Hinv Hl Ht] Hs Hw Hf. destruct (kmalloc_head st h s [] live size fuel Hinv Hs Hw Hf) as (st' & E & Hinv' & Ep & _).
  pose proof (hi_blocks _ _ _ Hinv) as Hok. apply Forall_cons in Hok as [(Hh & _) _]. simpl in Hh. split; [lia |].
  exists st'. split; [done |]. constructor; [done | by rewrite Ep | by rewrite Ep].
Qed.
Lemma stands_second st a s0 h s live n t size fuel (w := kmalloc_needed size) :
  stands st [(a, s0); (h, s)] live n t → 0 < size < W32 → s0 < w → w + 32 ≤ s → (2 < fuel)%nat →
  h + 16 ≠ 0 ∧ ∃ st', kmalloc fuel size st = Ok (h + 16, st') ∧ stands st' [(a, s0); (h + w, s - w)] ((h, w) :: live) n t.
Proof.
  intros [Hinv Hl Ht] Hs H0 Hw Hf.
  destruct (kmalloc_first st [(a, s0)] h s [] live size fuel) as (st' & _ & E & Hinv' & Ep & _);
    [done | done | by repeat constructor | done | simpl; lia |].
  pose proof (hi_blocks _ _ _ Hinv) as Hok. apply Forall_cons in Hok as [_ Hok]. apply Forall_cons in Hok as [(Hh & _) _].
  simpl in Hh. split; [lia |]. exists st'. split; [done |]. constructor; [done | by rewrite Ep | by rewrite Ep].
Qed.
Lemma stands_grow st a s0 live n t size fuel (w := kmalloc_needed size) :
  stands st [(a, s0)] live n t → 0 < size < W32 → s0 < w → w + 32 ≤ 65536 → n + 16 ≤ t → (2 < fuel)%nat →
  ∃ b st', b + 16 ≠ 0 ∧ kmalloc fuel size st = Ok (b + 16, st') ∧
    stands st' [(a, s0); (b + w, 65536 - w)] ((b, w) :: live) (n + 16) t.
Proof.
  intros [Hinv Hl Ht] Hs H0 Hw Hn Hf.
  destruct (low_alloc _ _ Hl) as (pg1 & E1 & Hl1 & Ht1 & Hpos); [lia |].
  destruct (low_contiguous 15 1 (n * 4096) pg1 (n + 1) Hl1) as (pg2 & E2 & Hl2 & Ht2); [lia | lia |].
  destruct (kmalloc_grows st [(a, s0)] live size fuel (n * 4096) pg1 pg2) as (st' & E & Hinv' & Ep & _);
    [done | done | by repeat constructor | done | done | lia | done | simpl; lia |].
  exists (n * 4096), st'. split; [lia |]. split; [done |]. constructor; [done | | rewrite Ep; congruence].
  rewrite Ep. by replace (n + 16) with (n + 1 + Z.of_nat 15) by lia.
Qed.

(** The three processes and their queues need 22 more pages. *)
Lemma create_tasks_succeeds fuel k a live n t :
  stands (mach k) [(a, 1336)] live n t → n + 22 ≤ t → process_count k = 0 → entries_ok I → (2 < fuel)%nat →
  ∃ sp pp cp k', create_tasks I fuel k = Ok (sp, pp, cp, k') ∧ sp ≠ 0 ∧ pp ≠ 0 ∧ cp ≠ 0.
Proof.
  intros S0 Hn Hc (He1 & He2 & He3) Hf. unfold create_tasks. cbv zeta.
  set (k0 := scheduler_init k). change (mach k) with (mach k0) in S0. change (process_count k) with (process_count k0) in Hc.
  clearbody k0.
  destruct (stands_head (mach k0) a 1336 live n t sizeof_Process fuel S0) as (Q1 & st1 & E1 & S1); [lia | by vm_compute | lia |].
  destruct (create_succeeds fuel (shell_task I) k0 _ st1 _ _ n t E1 Q1 S1) as (k1 & -> & S1' & C1); [lia | lia | lia | done |].
  cbn [obind]. destruct (Z.eqb_spec (a + 16) 0); [done |].
  destruct (stands_head (mach k1) _ _ _ _ t sizeof_ipc_queue fuel S1') as (Q2 & st2 & E2 & S2); [lia | by vm_compute | lia |].
  destruct (queue_succeeds fuel (a + 16) k1 _ st2 E2 Q2) as (k2 & -> & <- & C2). cbn [obind].
  destruct (stands_grow (mach k2) _ _ _ _ t sizeof_Process fuel S2) as (b & st3 & Q3 & E3 & S3); [lia | by vm_compute | by vm_compute | lia | done |].
  destruct (create_succeeds fuel (prime_task I) k2 _ st3 _ _ _ t E3 Q3 S3) as (k3 & -> & S3' & C3); [lia | lia | lia | done |].
  cbn [obind].
  destruct (stands_second (mach k3) _ _ _ _ _ _ t sizeof_Process fuel S3') as (Q4 & st4 & E4 & S4); [lia | by vm_compute | by vm_compute | done |].
  destruct (create_succeeds fuel (counter_task I) k3 _ st4 _ _ _ t E4 Q4 S4) as (k4 & -> & S4' & C4); [lia | lia | lia | done |].
  cbn [obind]. unfold give_queue_if.
  destruct (stands_second (mach k4) _ _ _ _ _ _ t sizeof_ipc_queue fuel S4') as (Q5 & st5 & E5 & S5); [lia | by vm_compute | by vm_compute | done |].
  destruct (Z.eqb_spec (b + 16) 0); [done |]. destruct (queue_succeeds fuel (b + 16) k4 _ st5 E5 Q5) as (k5 & -> & <- & C5). cbn [obind].
  destruct (stands_second (mach k5) _ _ _ _ _ _ t sizeof_ipc_queue fuel S5) as (Q6 & st6 & E6 & S6); [lia | by vm_compute | by vm_compute | done |].
  destruct (Z.eqb_spec (b + kmalloc_needed 52 + 16) 0); [done |].
  destruct (queue_succeeds fuel (b + kmalloc_needed 52 + 16) k5 _ st6 E6 Q6) as (k6 & -> & _ & C6). cbn [obind].
  by eexists _, _, _, _.
Qed.
End enough.

(** ** The stages on a machine without drives and cards *)

(** A machine as its ports show it: both channels are without a drive, and what
    is on the PCI bus, which does not change, has no card of the kind that the
    kernel has a driver for. *)
Class PlainPc (D : Type) `{!PortIO D, !Pci.ConfigBus D} := {
  no_primary : Ata.no_drive D 0x1F0;
  no_secondary : Ata.no_drive D 0x170;
  functions : list Pci.pci_device;
  on_bus (d : D) : Pci.all_devices d = functions;
  no_card : Forall (λ f, ¬ (Pci.vendor_id f = 0x10EC ∧ Pci.device_id f = 0x8139)) functions;
}.

Section stages.
Context {D : Type} `{!PortIO D, !SerialReady (D := D), !Pci.ConfigBus D, !PlainPc D}.
Variables (L : layout) (I : image).
Implicit Types (s : shell Pmm.pmm D) (fl live : list (Z * Z)).

(** What the device stages leave alone besides memory. *)
Definition rest s : ramfs Pmm.pmm * vfs * gmap Z Process * list Z * Z * Z * Z * Z :=
  (files s, mounted s, procs (kern (sys s)), process_table (kern (sys s)), process_count (kern (sys s)),
   next_pid (kern (sys s)), current_process (kern (sys s)), total_memory_mb s).

(** The table of the PCI driver. *)
Definition cards s : list Pci.pci_device := Pci.pci_devices (Rtl8139.pcis (Net.nic (network s))).

Lemma shows_ports (t : terminal D) p d : shows t p → shows (with_ports d t) p.
Proof. intros []. by constructor. Qed.

Lemma say_runs fuel ws s p :
  (0 < fuel)%nat → shows (term (sys s)) p → Forall (λ w, printable w) ws →
  ∃ s', say fuel ws s = Ok s' ∧ shows (term (sys s')) (foldl paper_put p (concat ws)) ∧ rest s' = rest s ∧
    machine_of s' = machine_of s ∧ kern (sys s') = kern (sys s) ∧ cards s' = cards s.
Proof.
  intros Hf Hs Hw. destruct (say_shows fuel ws s p Hf Hs Hw) as (t & -> & Ht). by exists (set_term t s).
Qed.

Lemma start_disks_plain fuel s p :
  (0 < fuel)%nat → shows (term (sys s)) p →
  ∃ s', start_disks L fuel s = Ok s' ∧ shows (term (sys s')) (foldl paper_put p (text "ata: no devices" ++ NL)) ∧
    rest s' = rest s ∧ machine_of s' = machine_of s ∧ cards s' = cards s.
Proof.
  intros Hf Hs. unfold start_disks. pose proof (Ata.ata_init_none (ata_timeout L) (disks_of s) no_primary no_secondary) as Hc.
  destruct (Ata.ata_init _ _) as [c a]. cbn [fst] in Hc. subst c. cbn [Z.ltb Z.compare].
  destruct (say_runs fuel [text "ata: no devices" ++ NL] (set_disks a s) p Hf) as (s' & -> & Ht & Hr & Hm & _ & Hc);
    [by apply shows_ports | by repeat constructor |]. cbn [obind].
  exists s'. split; [done |]. rewrite concat_cons, app_nil_r in Ht. by split; [| split; [rewrite Hr | split; [rewrite Hm | rewrite Hc]]].
Qed.

(** No device of the table is a card. *)
Lemma init_all_none fuel (r : Rtl8139.rtl Pmm.pmm D) l :
  Pci.pci_device_count (Rtl8139.pcis r) = zlen l →
  (∀ i, 0 ≤ i → Pci.pci_get_device i (Rtl8139.pcis r) = l !! Z.to_nat i) →
  Forall (λ f, ¬ (Pci.vendor_id f = 0x10EC ∧ Pci.device_id f = 0x8139)) l →
  Rtl8139.rtl8139_init_all fuel r = Ok (0, Rtl8139.with_count 0 r).
Proof.
  intros Hc Hg Hno. unfold Rtl8139.rtl8139_init_all.
  assert (E : ∀ n i, 0 ≤ i → Rtl8139.init_cards fuel n i (Rtl8139.with_count 0 r) = Ok (Rtl8139.with_count 0 r)).
  { induction n as [|n IH]; intros i Hi; [done |]. cbn [Rtl8139.init_cards Rtl8139.with_count Rtl8139.pcis Rtl8139.rtl_count].
    rewrite Hc, Hg by done. destruct (Z.ltb_spec i (zlen l)) as [Hlt | _]; [| done]. cbn [andb Z.ltb Z.compare].
    destruct (lookup_lt_is_Some_2 l (Z.to_nat i)) as [f Hf]; [lia |]. rewrite Hf.
    rewrite Forall_lookup in Hno. specialize (Hno _ _ Hf).
    destruct (Z.eqb_spec (Pci.vendor_id f) 0x10EC), (Z.eqb_spec (Pci.device_id f) 0x8139); cbn [andb];
      [by destruct Hno | apply IH; lia..]. }
  by rewrite E.
Qed.

(** The line about the PCI bus. *)
Definition pci_message : list Z :=
  let n := Z.min 64 (zlen functions) in
  if 0 <? n then text "pci: " ++ decimal n ++ text " devices" ++ NL else text "pci: no devices" ++ NL.

Lemma start_network_plain fuel s p :
  (0 < fuel)%nat → shows (term (sys s)) p → length (cards s) = 64%nat →
  ∃ s', start_network L fuel s = Ok s' ∧
    shows (term (sys s')) (foldl paper_put p (pci_message ++ text "rtl8139: no device" ++ NL)) ∧
    rest s' = rest s ∧ machine_of s' = machine_of s.
Proof.
  intros Hf Hs Hl. unfold start_network.
  destruct (Pci.pci_init_run (Rtl8139.pcis (Net.nic (network_of s))) Hl) as (Hc & Hn & Hg). rewrite on_bus in Hc, Hg.
  destruct (Pci.pci_init _) as [c pc]. cbn [fst snd] in Hc, Hn, Hg.
  set (s1 := set_network _ s). set (ws := if 0 <? c then _ else _).
  assert (Hw : Forall (λ w, printable w) ws ∧ concat ws = pci_message).
  { unfold ws, pci_message. rewrite <- Hc. destruct (Z.ltb_spec 0 c); cbn [concat]; rewrite ?app_nil_r; split; try done.
    - constructor; [by repeat constructor |]. constructor; [apply decimal_spec; lia | by repeat constructor].
    - by repeat constructor. }
  destruct Hw as [Hw Ew].
  destruct (say_shows fuel ws s1 p Hf) as (t2 & -> & Ht2); [by apply shows_ports | done |]. cbn [obind].
  set (s2 := set_term t2 s1). rewrite Ew in Ht2.
  rewrite (init_all_none _ _ (take 64 functions)); [| | exact Hg | apply Forall_take, no_card].
  2: { rewrite length_take. etransitivity; [exact Hn |]. rewrite Hc. lia. }
  cbn [obind Z.ltb Z.compare]. set (s3 := set_network _ s2).
  destruct (say_shows fuel [text "rtl8139: no device" ++ NL] s3 (foldl paper_put p pci_message) Hf)
    as (t4 & -> & Ht4); [by apply shows_ports | by repeat constructor |].
  cbn [obind]. set (s4 := set_term t4 s3).
  assert (Ec : Net.nic_present (Nic := Rtl8139.rtl_nic (frame_at L) (poll_at L)) (Net.nic (network_of s4)) = false) by reflexivity.
  unfold Net.net_init, Net.ip_init. rewrite Ec. eexists. split; [reflexivity |].
  split; [| by split].
  apply shows_ports. rewrite concat_cons, app_nil_r in Ht4. by rewrite foldl_app.
Qed.

(** The code of the user program goes to a page of its own. *)
Lemma user_map_kept (k : kernel Pmm.pmm) fl live n t (code size : Z) (k' := user_map_pages code size k) :
  stands (mach k) fl live n t → n < t → 0 ≤ code → code + size ≤ 0x400000 → 1024 ≤ n →
  ∃ n', n' ≤ n + 1 ∧ stands (mach k') fl live n' t ∧ keeps (mach k) fl (mach k') fl ∧ regs (mach k') = regs (mach k) ∧
    same_table k k' ∧ procs k' = procs k ∧ next_pid k' = next_pid k ∧ current_process k' = current_process k.
Proof.
  intros [Hinv Hl Ht] Hn Hc1 Hc2 Hlow. unfold k', user_map_pages. destruct (Z.ltb_spec 4096 size) as [| Hsz].
  { exists n. split; [lia |]. by split_and!. }
  destruct (low_alloc _ _ Hl) as (pg & E & Hl' & Ht' & Hpos); [lia |].
  change (pa_alloc (pages (mach k))) with (pmm_alloc_page (pages (mach k))). rewrite E.
  destruct (Z.eqb_spec (n * 4096) 0); [lia |]. exists (n + 1). split; [lia |].
  destruct (pmm_contract_alloc _ (n * 4096) pg (low_wf _ _ Hl) E ltac:(lia)) as (Hwf' & Hpa & Hfresh & Hu).
  assert (Hm : ∀ x, pa_used (pages (mach k)) (page_of x) →
    rd8 (memcpy (mem (mach k)) (n * 4096) code size) x = rd8 (mem (mach k)) x).
  { intros x Hx. rewrite rd8_memcpy by lia. destruct (Z.leb_spec (n * 4096) x), (Z.ltb_spec x (n * 4096 + size)); try done.
    exfalso. apply Hfresh. destruct Hpa as (_ & _ & ?). by rewrite <- (page_of_inside (n * 4096) x) by lia. }
  split_and!; try done.
  - constructor; [| done | by rewrite <- Ht].
    apply (heap_inv_frame (mach k)); [done | done | | done | intros q Hq; apply Hu; by right].
    intros b x Hb Hx. apply Hm. by apply (hi_pages _ _ _ Hinv b).
  - intros x [Hxu Hx]. split; [split; [apply Hu; by right | done] | by apply Hm].
Qed.

Definition user_line : cstring :=
  text (if 4096 <? user_code_size I then "user: code too big" else "user: code copied") ++ NL.

Lemma map_user_code_run fuel s fl live n t p :
  stands (machine_of s) fl live n t → n < t → 0 ≤ user_code_start I → user_code_start I + user_code_size I ≤ 0x400000 →
  1024 ≤ n → (0 < fuel)%nat → shows (term (sys s)) p →
  ∃ s' n', map_user_code I fuel s = Ok s' ∧ shows (term (sys s')) (foldl paper_put p user_line) ∧ rest s' = rest s ∧
    n' ≤ n + 1 ∧ stands (machine_of s') fl live n' t ∧ keeps (machine_of s) fl (machine_of s') fl ∧
    regs (machine_of s') = regs (machine_of s) ∧ cards s' = cards s.
Proof.
  intros Hst Hn Hc1 Hc2 Hlow Hf Hs. unfold map_user_code. cbv zeta.
  destruct (user_map_kept (kern (sys s)) fl live n t (user_code_start I) (user_code_size I) Hst Hn Hc1 Hc2 Hlow)
    as (n' & Hn' & Hst' & Hk & Hr & [Etab Ecnt _] & Epr & Enx & Ecu).
  set (k' := user_map_pages _ _ _) in *.
  assert (El : text (if 4096 <? user_code_size I then "user: code too big"
                     else if fst (pa_alloc (pages (mach (kern (sys s))))) =? 0 then "user: alloc code page failed"
                     else "user: code copied") ++ NL = user_line).
  { unfold user_line. destruct (4096 <? user_code_size I); [done |].
    destruct (low_alloc _ _ (st_low _ _ _ _ _ Hst)) as (pg & E & _ & _ & Hpos); [by rewrite (st_total _ _ _ _ _ Hst) |].
    change (pa_alloc (pages (mach (kern (sys s))))) with (pmm_alloc_page (pages (machine_of s))). rewrite E. cbn [fst].
    by destruct (Z.eqb_spec (n * 4096) 0); [lia |]. }
  rewrite El. clear El.
  destruct (say_runs fuel [user_line] (set_kern k' s) p Hf Hs) as (s' & -> & Ht & Hrest & Hm & _ & Hcd).
  { constructor; [| constructor]. unfold user_line. by destruct (_ <? _); repeat constructor. }
  exists s', n'. rewrite Hm. rewrite concat_cons, app_nil_r in Ht. split; [done |]. split; [done |]. split; [| by rewrite Hcd].
  rewrite Hrest. unfold rest. cbn [set_kern with_sys with_kern sys files mounted kern total_memory_mb]. congruence.
Qed.

(** The last stage, from any heap on which the processes can be created. *)
Lemma start_tasks_run fuel (x : @kstate D) fl live sp pp cp k' p :
  (0 < fuel)%nat → tasks_ready (kern (sys (sh x))) fl live [] → entries_ok I →
  create_tasks I fuel (kern (sys (sh x))) = Ok (sp, pp, cp, k') → sp ≠ 0 → pp ≠ 0 → cp ≠ 0 →
  shows (term (sys (sh x))) p → kernel_space (machine_of (sh x)) = cr3 (machine_of (sh x)) →
  ∃ esp x' p1 p2 p3, start_tasks I fuel x = Ok (Entered esp x') ∧
    shows (term (sys (sh x'))) (foldl paper_put p (text "[kernel] system ready" ++ NL)) ∧
    (∀ a, foreign (machine_of (sh x)) fl a → rd8 (mem (machine_of (sh x'))) a = rd8 (mem (machine_of (sh x))) a) ∧
    regs (machine_of (sh x')) = regs (machine_of (sh x)) ∧
    sh x' = set_term (term (sys (sh x'))) (set_kern (kern (sys (sh x'))) (sh x)) ∧ tabs x' = tabs x ∧ g_mbi x' = g_mbi x ∧
    let k := kern (sys (sh x')) in let m := mem (mach k) in
    current_process k = 0 ∧ enters m esp (shell_task I) ∧
    proc_at k 0 = Some p1 ∧ pid p1 = 1 ∧ state p1 = TASK_RUNNING ∧ kernel_stack_top p1 = esp ∧
    proc_at k 1 = Some p2 ∧ pid p2 = 2 ∧ state p2 = TASK_READY ∧ enters m (kernel_stack_top p2) (prime_task I) ∧
    proc_at k 2 = Some p3 ∧ pid p3 = 3 ∧ state p3 = TASK_READY ∧ enters m (kernel_stack_top p3) (counter_task I) ∧
    rotates k (mkTurns [esp; kernel_stack_top p2; kernel_stack_top p3] 0).
Proof.
  intros Hf Hr He E Hs Hp Hcp Hsh Hks. unfold start_tasks. rewrite E. cbn [obind].
  destruct (create_tasks_run I fuel (kern (sys (sh x))) fl live sp pp cp k') as (fl' & live' & R & G & [K Rg]); try done.
  destruct (Z.eqb_spec sp 0); [done |]. destruct (Z.eqb_spec pp 0); [done |]. destruct (Z.eqb_spec cp 0); [done |]. cbn [obind].
  destruct (say_shows fuel [text "[kernel] system ready" ++ NL] (set_kern k' (sh x)) p Hf Hsh) as (t & -> & Ht);
    [by repeat constructor |]. cbn [obind].
  change (kern (sys (set_term t (set_kern k' (sh x))))) with k'.
  destruct (first_enter_run k' fl' live' _ _ sp R G) as (k2 & p1 & -> & Em & Er & Ecur & H1 & W1 & Hrest & Hwf2 & Hcnt).
  destruct (tr_tasks _ _ _ _ R 1%nat _ eq_refl) as (p2 & H2 & W2). destruct (tr_tasks _ _ _ _ R 2%nat _ eq_refl) as (p3 & H3 & W3).
  change (Z.of_nat 1) with 1 in *. change (Z.of_nat 2) with 2 in *. destruct W1, W2, W3.
  eexists _, _, (set_state TASK_RUNNING p1), p2, p3. split; [reflexivity |].
  split; [by rewrite concat_cons, app_nil_r in Ht |].
  cbv zeta. change (kern (sys (sh _))) with k2. change (machine_of (sh (mkKstate _ _ _))) with (mach k2).
  split; [intros a Ha; rewrite Em; by apply K |].
  split; [rewrite Er; [done |]; unfold machine_of, regs in *; congruence |].
  rewrite Em, (Hrest 1), (Hrest 2) by (simpl; lia). split_and!; try done.
  constructor; cbn [place turn length]; [done | by rewrite Hcnt, (tr_count _ _ _ _ R) | split; [done | lia] |].
  intros i Hi. assert (i = 0 ∨ i = 1 ∨ i = 2) as [-> | [-> | ->]] by lia; cbn [Z.eqb Pos.eqb].
  - by exists (set_state TASK_RUNNING p1).
  - exists p2. rewrite (Hrest 1) by (simpl; lia). split; [done |]. split; [done |]. unfold goes_on. by rewrite w_saved1.
  - exists p3. rewrite (Hrest 2) by (simpl; lia). split; [done |]. split; [done |]. unfold goes_on. by rewrite w_saved2.
Qed.
End stages.

(** ** The whole start *)

Section start.
Context {D : Type} `{!PortIO D, !SerialReady (D := D), !Pci.ConfigBus D, !PlainPc D}.
Variables (L : layout) (I : image).

(** Where the linker may put things. *)
Record image_ok : Prop := {
  io_directory : page_addr (page_directory I);
  io_table : page_addr (boot_page_table I);
  io_apart : page_directory I ≠ boot_page_table I;
  io_low : page_directory I < 0x400000 ∧ boot_page_table I < 0x400000;
  io_user : 0 ≤ user_code_start I ∧ user_code_start I + user_code_size I ≤ 0x400000;
  io_entries : entries_ok I;
}.
(** The globals before the start. *)
Record pristine (x : @kstate D) : Prop := {
  pr_screen : length (buffer (term (sys (sh x)))) = 2000%nat;
  pr_nodes : nodes (files (sh x)) = ∅;
  pr_pool : pool_count (files (sh x)) = 0 ∧ length (node_pool (files (sh x))) = 128%nat;
  pr_mounts : (0 < length (mounts (mounted (sh x))))%nat;
  pr_procs : procs (kern (sys (sh x))) = ∅;
  pr_table : length (process_table (kern (sys (sh x)))) = 16%nat;
  pr_counts : process_count (kern (sys (sh x))) = 0 ∧ next_pid (kern (sys (sh x))) = 1 ∧ -1 ≤ current_process (kern (sys (sh x)));
  pr_cards : length (cards (sh x)) = 64%nat;
}.

(** The messages of the start. *)
Definition device_log : list Z :=
  user_line I ++ (text "ata: no devices" ++ NL) ++ (pci_message ++ text "rtl8139: no device" ++ NL) ++
  (text "NemoOS v1.0" ++ NL) ++ text "> ".
Definition boot_log : list Z := device_log ++ text "[kernel] system ready" ++ NL.

Lemma empty_tasks (k : kernel Pmm.pmm) fl live :
  heap_inv (mach k) fl live → procs k = ∅ → length (process_table k) = 16%nat → process_count k = 0 → next_pid k = 1 →
  -1 ≤ current_process k → tasks_ready k fl live [].
Proof.
  intros Hinv Hp Hl Hc Hn Hcur. constructor; try done.
  - constructor; try done; rewrite ?Hc, ?Hp; done || lia.
  - split; [done |]. intros q Hq. rewrite Hp in Hq. by destruct Hq.
Qed.

(** From the mounted files to the tasks. *)
Lemma devices_run fuel (s : shell Pmm.pmm D) fl live n t p :
  stands (machine_of s) fl live n t → n < t → image_ok → 1024 ≤ n → (0 < fuel)%nat → shows (term (sys s)) p →
  vfs_get_root (mounted s) ≠ 0 → length (cards s) = 64%nat →
  ∃ s' n', (let! s := map_user_code I fuel (init_timer I s) in
            let! s := start_disks L fuel s in
            let! s := start_network L fuel s in
            let! s := say fuel [text "NemoOS v1.0" ++ NL] s in
            shell_init fuel s) = Ok s' ∧
    shows (term (sys s')) (foldl paper_put p device_log) ∧
    rest s' = rest s ∧ n' ≤ n + 1 ∧ stands (machine_of s') fl live n' t ∧ keeps (machine_of s) fl (machine_of s') fl ∧
    regs (machine_of s') = regs (machine_of s) ∧ cwd s' = vfs_get_root (mounted s).
Proof.
  intros Hst Hn Hok Hlow Hf Hs Hroot Hcards.
  assert (Hst0 : stands (machine_of (init_timer I s)) fl live n t).
  { destruct Hst as [[H1 H2 H3 H4 H5 H6 H7] Hl Ht]. constructor; [by constructor | done | done]. }
  destruct (map_user_code_run I fuel (init_timer I s) fl live n t p Hst0 Hn (proj1 (io_user Hok)) (proj2 (io_user Hok)) Hlow Hf)
    as (s1 & n' & -> & Ht1 & Hr1 & Hn' & Hst1 & Hk1 & Hg1 & Hcd1); [by apply shows_ports |]. cbn [obind].
  destruct (start_disks_plain L fuel s1 _ Hf Ht1) as (s2 & -> & Ht2 & Hr2 & Hm2 & Hcd2). cbn [obind].
  destruct (start_network_plain L fuel s2 _ Hf Ht2) as (s3 & -> & Ht3 & Hr3 & Hm3); [by rewrite Hcd2, Hcd1 |]. cbn [obind].
  destruct (say_runs fuel [text "NemoOS v1.0" ++ NL] s3 _ Hf Ht3) as (s4 & -> & Ht4 & Hr4 & Hm4 & _); [by repeat constructor |].
  cbn [obind]. unfold shell_init.
  assert (Hr : rest s4 = rest s) by (rewrite Hr4, Hr3, Hr2, Hr1; done).
  assert (Emt : mounted s4 = mounted s) by (unfold rest in Hr; congruence).
  rewrite Emt. change (cwd (with_cwd ?c _)) with c. destruct (Z.eqb_spec (vfs_get_root (mounted s)) 0); [done |]. cbn [obind].
  set (s5 := with_cwd _ _).
  destruct (say_shows fuel [text "> "] s5 _ Hf Ht4) as (t6 & -> & Ht6); [by repeat constructor |].
  exists (set_term t6 s5), n'. split; [done |].
  split; [| split_and!; try done].
  - unfold device_log. rewrite !foldl_app. rewrite !concat_cons, !app_nil_r, !foldl_app in Ht6. exact Ht6.
  - change (machine_of (set_term t6 s5)) with (machine_of s4). by rewrite Hm4, Hm3, Hm2.
  - change (machine_of (set_term t6 s5)) with (machine_of s4). rewrite Hm4, Hm3, Hm2. exact Hk1.
  - change (machine_of (set_term t6 s5)) with (machine_of s4). rewrite Hm4, Hm3, Hm2. exact Hg1.
Qed.

(** The kernel before its tasks: what the stages have set up. *)
Record prepared (mb h : Z) live (x : @kstate D) : Prop := {
  pp_stands : ∃ n, stands (machine_of (sh x)) [(h + 2760, 1336)] live n (mb * 256) ∧ n + 22 ≤ mb * 256;
  pp_tables : tables_kept I mb (machine_of (sh x)) [(h + 2760, 1336)];
  pp_cr3 : cr3 (machine_of (sh x)) = page_directory I;
  pp_space : kernel_space (machine_of (sh x)) = page_directory I;
  pp_cr0 : Z.testbit (cr0 (machine_of (sh x))) 31 = true;
  pp_tasks : tasks_ready (kern (sys (sh x))) [(h + 2760, 1336)] live [];
  pp_shows : shows (term (sys (sh x))) (foldl paper_put blank_paper device_log);
  pp_root : cwd (sh x) = h + 16 ∧ vfs_get_root (mounted (sh x)) = h + 16;
  pp_files : ramfs_wf (files (sh x));
  pp_dirs : children (files (sh x)) (h + 16) [h + 2316; h + 1856; h + 936; h + 476];
  pp_names : ∀ d nm n, (d, nm, n) ∈ boot_names → ramfs_finddir 129 (h + d) nm (files (sh x)) = Ok (h + n);
}.

Lemma prepare_run fuel addr (x : @kstate D) (mb := Multiboot.reported_kb (mem (machine_of (sh x))) addr / 1024) :
  image_ok → pristine x → addr ≠ 0 → 5 ≤ mb ≤ 1024 → (0 < fuel)%nat →
  ∃ h live x', kernel_main L I fuel MULTIBOOT_MAGIC addr x = start_tasks I fuel x' ∧ prepared mb h live x'.
Proof.
  intros Hok Hpr Haddr Hmb Hf. unfold kernel_main.
  destruct (init_shows fuel (term (sys (sh x))) Hf (pr_screen x Hpr)) as (t & -> & Ht). cbn [obind]. rewrite Z.eqb_refl. cbn [negb].
  change (machine_of (set_term t (sh x))) with (machine_of (sh x)).
  pose proof (Multiboot.detected addr (mem (machine_of (sh x))) Haddr) as Hdet.
  destruct (Multiboot.multiboot_init addr _) as [mbi mb']. cbn [snd] in Hdet. rewrite Hdet by (unfold mb in Hmb; mlia).
  fold mb. clear Hdet mb'. destruct (Z.eqb_spec mb 0) as [| _]; [lia |].
  set (s1 := with_memory_mb mb (set_term t (sh x))).
  destruct (init_memory_run I mb (machine_of s1) Hmb (io_directory Hok) (io_table Hok) (io_apart Hok)
    (proj1 (io_low Hok)) (proj2 (io_low Hok))) as (st & h & n & -> & Hinv & Htab & Hcr3 & Hks & Hcr0 & Hlow & Htot & Hn).
  cbn [obind]. set (s2 := set_machine st s1).
  destruct (create_files_run fuel (files_of s2) (mounted s2) h (pr_nodes x Hpr) (proj1 (pr_pool x Hpr)) (proj2 (pr_pool x Hpr)) Hinv Hf)
    as (fs & -> & Hh & B). cbn [obind]. set (v := snd (vfs_mount _ _ _)). set (s3 := with_mounted v (set_files fs s2)).
  assert (Hroot : vfs_get_root v = h + 16) by (apply mount_root; [exact (pr_mounts x Hpr) | exact Hh]).
  destruct B as [[live [Hwf [Hinv3 _]]] (Hk3 & Hpg3 & Hrg3) _ Hds _ Hns _].
  change (h + 460 * 6) with (h + 2760) in *. change (4096 - 460 * 6) with 1336 in *.
  assert (S3 : stands (machine_of s3) [(h + 2760, 1336)] live n (mb * 256)).
  { constructor; [exact Hinv3 | | ]; change (machine_of s3) with (heap fs); by rewrite Hpg3. }
  destruct (devices_run fuel s3 _ _ _ _ blank_paper S3) as (s4 & n' & E4 & Ht4 & Hr4 & Hn' & S4 & Hk4 & Hg4 & Hcwd);
    [mlia | exact Hok | lia | exact Hf | exact Ht | exact (eq_ind_r (λ r, r ≠ 0) Hh Hroot) | exact (pr_cards x Hpr) |].
  apply obind_Ok in E4 as (a1 & E & E4). cbv zeta. rewrite E. cbn [obind]. clear E.
  apply obind_Ok in E4 as (a2 & -> & E4). cbn [obind]. apply obind_Ok in E4 as (a3 & -> & E4). cbn [obind].
  apply obind_Ok in E4 as (a4 & -> & E4). cbn [obind]. rewrite E4. cbn [obind]. clear E4 a1 a2 a3 a4.
  assert (Hrest : files s4 = fs ∧ mounted s4 = v ∧ procs (kern (sys s4)) = ∅ ∧ length (process_table (kern (sys s4))) = 16%nat ∧
    process_count (kern (sys s4)) = 0 ∧ next_pid (kern (sys s4)) = 1 ∧ -1 ≤ current_process (kern (sys s4))).
  { destruct Hpr as [_ _ _ _ P1 P2 (P3 & P4 & P5) _]. unfold rest in Hr4. injection Hr4 as -> -> -> -> -> -> -> _. by split_and!. }
  destruct Hrest as (Ef & Ev & Ep & Et & Ec & Enx & Ecu).
  assert (Hg : regs (machine_of s4) = regs st) by (rewrite Hg4; exact Hrg3). unfold regs in Hg. injection Hg as G1 G2 G3.
  exists h, live, (mkKstate s4 (init_tables I (tabs x)) mbi). split; [reflexivity |].
  constructor; cbn [sh]; try congruence.
  - exists n'. split; [done |]. mlia.
  - eapply tables_kept_keeps; [| exact Hk4]. by eapply tables_kept_keeps.
  - apply empty_tasks; try done. exact (st_inv _ _ _ _ _ S4).
  - split; [rewrite Hcwd; exact Hroot | by rewrite Ev].
  - rewrite Ef. exact (Hds 16 [2316; 1856; 936; 476] ltac:(left)).
  - rewrite Ef. exact Hns.
Qed.

(** The end of the start, with the turns of the tasks. *)
Lemma kernel_main_run fuel addr (x : @kstate D) (mb := Multiboot.reported_kb (mem (machine_of (sh x))) addr / 1024) :
  image_ok → pristine x → addr ≠ 0 → 5 ≤ mb ≤ 1024 → (2 < fuel)%nat →
  ∃ esp x' p1 p2 p3, kernel_main L I fuel MULTIBOOT_MAGIC addr x = Ok (Entered esp x') ∧
    shows (term (sys (sh x'))) (foldl paper_put blank_paper boot_log) ∧
    let k := kern (sys (sh x')) in let m := mem (mach k) in let root := cwd (sh x') in
    identity_mapped I mb m ∧ cr3 (mach k) = page_directory I ∧ Z.testbit (cr0 (mach k)) 31 = true ∧
    root = vfs_get_root (mounted (sh x')) ∧ ramfs_wf (files_of (sh x')) ∧
    (∃ test tmp bin mnt hello, children (files_of (sh x')) root [test; tmp; bin; mnt] ∧
       ramfs_finddir 129 root (text "bin") (files_of (sh x')) = Ok bin ∧
       ramfs_finddir 129 bin (text "hello.elf") (files_of (sh x')) = Ok hello) ∧
    current_process k = 0 ∧ enters m esp (shell_task I) ∧
    proc_at k 0 = Some p1 ∧ pid p1 = 1 ∧ state p1 = TASK_RUNNING ∧ kernel_stack_top p1 = esp ∧
    proc_at k 1 = Some p2 ∧ pid p2 = 2 ∧ state p2 = TASK_READY ∧ enters m (kernel_stack_top p2) (prime_task I) ∧
    proc_at k 2 = Some p3 ∧ pid p3 = 3 ∧ state p3 = TASK_READY ∧ enters m (kernel_stack_top p3) (counter_task I) ∧
    rotates k (mkTurns [esp; kernel_stack_top p2; kernel_stack_top p3] 0).
Proof.
  intros Hok Hpr Haddr Hmb Hf.
  destruct (prepare_run fuel addr x Hok Hpr Haddr Hmb ltac:(lia)) as (h & live & x4 & -> & [(n & S4 & Hn) Htab Hcr3 Hks Hcr0 Htr Hsh [Hcwd Hroot] Hwf Hdirs Hns]).
  fold mb in S4, Hn, Htab.
  destruct (create_tasks_succeeds I fuel (kern (sys (sh x4))) (h + 2760) live n (mb * 256) S4 Hn (tr_count _ _ _ _ Htr) (io_entries Hok) Hf)
    as (sp & pp & cp & k5 & E5 & Hsp & Hpp & Hcp).
  destruct (start_tasks_run I fuel x4 _ live sp pp cp k5 _ ltac:(lia) Htr (io_entries Hok) E5 Hsp Hpp Hcp Hsh ltac:(congruence))
    as (esp & x' & p1 & p2 & p3 & E6 & Ht6 & Hm6 & Hg6 & Ex & _ & _ & Hrun).
  assert (Hd : cwd (sh x') = cwd (sh x4) ∧ mounted (sh x') = mounted (sh x4) ∧ files (sh x') = files (sh x4)) by (rewrite Ex; done).
  destruct Hd as (Ed1 & Ed2 & Ed3). exists esp, x', p1, p2, p3. split; [exact E6 |].
  split; [unfold boot_log; rewrite foldl_app; exact Ht6 |]. cbv zeta.
  unfold regs in Hg6. injection Hg6 as G1 G2 G3. rewrite Ed1, Ed2, Hcwd, Hroot.
  assert (Hid : identity_mapped I mb (mem (machine_of (sh x')))).
  { destruct Htab as (st1 & Hsp1 & Hid & Hx). intros w Hw. rewrite (translate_frame st1); [by apply Hid | done | | done].
    intros a Ha. destruct (Hx a Ha) as [Hfa <-]. by apply Hm6. }
  split; [exact Hid |]. split; [exact (eq_trans G1 Hcr3) |]. split; [change (mach (kern (sys (sh x')))) with (machine_of (sh x')); by rewrite G2 |].
  split; [done |]. unfold files_of. rewrite Ed3.
  split; [by destruct Hwf; constructor |].
  split.
  { exists (h + 2316), (h + 1856), (h + 936), (h + 476), (h + 1396). split; [exact Hdirs |].
    split; (etransitivity; [apply (finddir_nodes 129 _ _ _ (files (sh x4))); reflexivity |]).
    - apply (Hns 16 (text "bin") 936). do 3 right. left.
    - apply (Hns 936 (text "hello.elf") 1396). do 2 right. left. }
  destruct Hrun as (R1 & R2 & R3 & R4 & R5 & R6 & R7 & R8 & R9 & R10 & R11 & R12 & R13 & R14 & R15). by split_and!.
Qed.
(** C7: the kernel starts. On every machine with 5 to 1024 MiB of memory, with
    a serial line that is ready and without ATA drives and RTL8139 cards,
    whatever else there is on the PCI bus, from an image that the linker put
    below 4 MiB and from the globals as they are loaded, [kernel_main] reaches
    the shell: no allocation on the way fails and nothing
    panics. At the end all of memory and nothing else is mapped to itself, in
    spite of all the allocations since, and paging is on with the boot
    directory; the current directory is the mounted root, which holds the four
    entries, with the program in [bin]; the shell is the running process number 1, and
    [popa; iret] from its stack goes on in [shell_task] in ring 0 with
    interrupts enabled; the prime and the counter task wait as
    numbers 2 and 3 with frames that lead to their entries; and the screen
    shows the messages in order. *)
Theorem kernel_main_starts fuel addr (x : @kstate D) (mb := Multiboot.reported_kb (mem (machine_of (sh x))) addr / 1024) :
  image_ok → pristine x → addr ≠ 0 → 5 ≤ mb ≤ 1024 → (2 < fuel)%nat →
  ∃ esp x' p1 p2 p3, kernel_main L I fuel MULTIBOOT_MAGIC addr x = Ok (Entered esp x') ∧
    shows (term (sys (sh x'))) (foldl paper_put blank_paper boot_log) ∧
    let k := kern (sys (sh x')) in let m := mem (mach k) in let root := cwd (sh x') in
    identity_mapped I mb m ∧ cr3 (mach k) = page_directory I ∧ Z.testbit (cr0 (mach k)) 31 = true ∧
    root = vfs_get_root (mounted (sh x')) ∧ ramfs_wf (files_of (sh x')) ∧
    (∃ test tmp bin mnt hello, children (files_of (sh x')) root [test; tmp; bin; mnt] ∧
       ramfs_finddir 129 root (text "bin") (files_of (sh x')) = Ok bin ∧
       ramfs_finddir 129 bin (text "hello.elf") (files_of (sh x')) = Ok hello) ∧
    current_process k = 0 ∧ enters m esp (shell_task I) ∧
    proc_at k 0 = Some p1 ∧ pid p1 = 1 ∧ state p1 = TASK_RUNNING ∧ kernel_stack_top p1 = esp ∧
    proc_at k 1 = Some p2 ∧ pid p2 = 2 ∧ state p2 = TASK_READY ∧ enters m (kernel_stack_top p2) (prime_task I) ∧
    proc_at k 2 = Some p3 ∧ pid p3 = 3 ∧ state p3 = TASK_READY ∧ enters m (kernel_stack_top p3) (counter_task I).
Proof.
  intros Hok Hpr Haddr Hmb Hf. destruct (kernel_main_run fuel addr x Hok Hpr Haddr Hmb Hf)
    as (esp & x' & p1 & p2 & p3 & E & Hs & T1 & T2 & T3 & T4 & T5 & T6 & R1 & R2 & R3 & R4 & R5 & R6 & R7 & R8 & R9 & R10 & R11 & R12 &
      R13 & R14 & _).
  exists esp, x', p1, p2, p3. by repeat (split; [done |]).
Qed.

(** C8: the tasks take turns. On the machines of the theorem above, once
    [kernel_main] has entered the shell, the kernel
    refines a round-robin machine with three places: the shell, the entry of
    the prime task and the entry of the counter task. However many timer
    interrupts arrive, at whatever stack pointers, and whatever happens in
    between that creates and ends no process and changes neither whether
    one can run nor where it goes on, each interrupt goes on where the machine
    says: the
    first interrupt enters the prime task, the second the counter task, the third
    continues the shell where the first interrupted it, and so on. *)
Theorem tasks_take_turns fuel addr (x : @kstate D) (mb := Multiboot.reported_kb (mem (machine_of (sh x))) addr / 1024) :
  image_ok → pristine x → addr ≠ 0 → 5 ≤ mb ≤ 1024 → (2 < fuel)%nat →
  ∃ esp x' a b, kernel_main L I fuel MULTIBOOT_MAGIC addr x = Ok (Entered esp x') ∧
    let m := mem (machine_of (sh x')) in
    enters m esp (shell_task I) ∧ enters m a (prime_task I) ∧ enters m b (counter_task I) ∧
    ∀ l s', interrupts (sys (sh x')) l s' → Forall (λ ea, ea.1 ≠ 0) l →
      map snd l = answers (map fst l) (mkTurns [esp; a; b] 0).
Proof.
  intros Hok Hpr Haddr Hmb Hf. destruct (kernel_main_run fuel addr x Hok Hpr Haddr Hmb Hf)
    as (esp & x' & p1 & p2 & p3 & E & _ & _ & _ & _ & _ & _ & _ & _ & R2 & _ & _ & _ & _ & _ & _ & _ & R10 & _ & _ & _ & R14 & R15).
  exists esp, x', (kernel_stack_top p2), (kernel_stack_top p3). split; [done |]. split; [done |]. split; [done |]. split; [done |].
  intros l s' Hi. by apply (interrupts_rotate _ _ _ _ Hi).
Qed.
End start.

(** ** A machine of 8 MiB *)

#[local] Existing Instance quiet_io.
#[local] Existing Instance quiet_ready.
#[local] Existing Instance quiet_bus.
#[local] Existing Instance Ata.ata_device_zero.
#[local] Existing Instance Rtl8139.rtl8139_dev_zero.

(** The whole start: it ends in the shell, the first of three processes, with the
    root as current directory. *)
Lemma kernel_main_boots :
  ∃ esp x, kernel_main demo_layout demo_image 40 MULTIBOOT_MAGIC 0x9000 bare = Ok (Entered esp x) ∧
    process_count (kern (sys (sh x))) = 3 ∧ current_process (kern (sys (sh x))) = 0 ∧
    cwd (sh x) = vfs_get_root (mounted (sh x)) ∧ enters (mem (machine_of (sh x))) esp 0x100100.
Proof.
  destruct (run_Ok (kernel_main demo_layout demo_image 40 MULTIBOOT_MAGIC 0x9000 bare) (λ r,
    match r with
    | Entered esp x =>
        let '(_, eip, cs, eflags) := process_first_enter_asm esp (mem (machine_of (sh x))) in
        (process_count (kern (sys (sh x))) =? 3) && (current_process (kern (sys (sh x))) =? 0) &&
        (cwd (sh x) =? vfs_get_root (mounted (sh x))) && (eip =? 0x100100) && (cs =? 8) && Z.testbit eflags 9 &&
        (0 <=? esp) && (esp + 44 <=? W32)
    | _ => false
    end)) as ([s | x | esp x] & E & Hb); [vm_compute; reflexivity | discriminate Hb | discriminate Hb |].
  exists esp, x. split; [exact E |]. clear E. unfold enters.
  destruct (process_first_enter_asm _ _) as [[[rs eip] cs] fl]. zbool. done.
Qed.


#[local] Instance quiet_plain : PlainPc quiet.
Proof.
  refine {| functions := [Pci.mkPciDev 0 0 0 0x8086 0x1237 6 0 0 0] |}.
  - exists 0xFF. split; [by right | done].
  - exists 0xFF. split; [by right | done].
  - intros d. vm_compute. reflexivity.
  - repeat constructor. by intros [? _].
Defined.

Lemma demo_image_ok : image_ok demo_image.
Proof.
  constructor; cbn; try lia; [repeat split; vm_compute; congruence.. |].
  repeat split; vm_compute; congruence.
Qed.

Lemma bare_pristine : pristine bare.
Proof. constructor; try done; cbn; lia. Qed.

Lemma kernel_main_starts_witness :
  ∃ esp x', kernel_main demo_layout demo_image 3 MULTIBOOT_MAGIC 0x9000 bare = Ok (Entered esp x') ∧
    identity_mapped demo_image 8 (mem (machine_of (sh x'))) ∧
    shows (term (sys (sh x'))) (foldl paper_put blank_paper (boot_log demo_image)).
Proof.
  destruct (kernel_main_starts demo_layout demo_image 3 0x9000 bare) as (esp & x' & p1 & p2 & p3 & E & Hs & Hid & _).
  - exact demo_image_ok.
  - exact bare_pristine.
  - discriminate.
  - vm_compute. split; discriminate.
  - lia.
  - exists esp, x'. split; [exact E |]. split; [exact Hid | exact Hs].
Defined.

(** Three interrupts in a row. *)
Lemma three_interrupts {D : Type} `{!PortIO D} (s : system Pmm.pmm D) e1 e2 e3 :
  ∃ a1 a2 a3 s', interrupts s [(e1, a1); (e2, a2); (e3, a3)] s'.
Proof.
  destruct (Syscall.irq0 e1 s) as [a1 s1] eqn:E1. destruct (Syscall.irq0 e2 s1) as [a2 s2] eqn:E2. destruct (Syscall.irq0 e3 s2) as [a3 s3] eqn:E3.
  assert (Hw : ∀ s0 : system Pmm.pmm D, works s0 s0) by (intros s0; split; [reflexivity |]; split; [done |]; by intros i p; exists p).
  exists a1, a2, a3, s3. do 3 (econstructor; [apply Hw | eassumption |]). constructor.
Qed.

Lemma tasks_take_turns_witness :
  ∃ esp x' a b s', kernel_main demo_layout demo_image 3 MULTIBOOT_MAGIC 0x9000 bare = Ok (Entered esp x') ∧
    enters (mem (machine_of (sh x'))) a 0x100200 ∧ enters (mem (machine_of (sh x'))) b 0x100300 ∧
    interrupts (sys (sh x')) [(7, a); (8, b); (9, 7)] s'.
Proof.
  destruct (tasks_take_turns demo_layout demo_image 3 0x9000 bare) as (esp & x' & a & b & E & _ & Ha & Hb & Hl).
  - exact demo_image_ok.
  - exact bare_pristine.
  - discriminate.
  - vm_compute. split; discriminate.
  - lia.
  - destruct (three_interrupts (sys (sh x')) 7 8 9) as (a1 & a2 & a3 & s' & Hi).
    assert (Es : [a1; a2; a3] = [a; b; 7]) by (apply (Hl _ s' Hi); repeat constructor; discriminate).
    injection Es as -> -> ->. exists esp, x', a, b, s'. split; [exact E |]. split; [exact Ha |]. split; [exact Hb | exact Hi].
Defined.
End Startup.
