(* ===== verification/Asm.v ===== *)
(** * The instructions of the assembly files

    The part of the processor that the assembly of the kernel uses: the
    general registers, the flags, three segment registers, the stack, the
    delivery of an interrupt and the return from it. A program is a list of
    instructions, and [run] executes it from an instruction number on until it
    leaves the program, halts, traps or faults.

    A [call] of a function written in C++ runs the model of that function
    between the steps of the calling convention: the return address is pushed,
    the arguments are the words above it, and the result comes back in [eax].
    What else the compiled code leaves in the registers that it may change, in
    its arguments and below the stack pointer is not in the sources: it is the
    record [abi], with the convention as its laws. *)

From S2P Require Import Prelude Ports Process Interrupts.

Module Asm.
Import Process.

(** ** Registers *)

Inductive reg := EAX | ECX | EDX | EBX | ESP | EBP | ESI | EDI.

Record regs := mkRegs { eax : Z; ecx : Z; edx : Z; ebx : Z; esp : Z; ebp : Z; esi : Z; edi : Z }.

Definition rget (r : reg) (g : regs) : Z :=
  match r with
  | EAX => eax g | ECX => ecx g | EDX => edx g | EBX => ebx g
  | ESP => esp g | EBP => ebp g | ESI => esi g | EDI => edi g
  end.
Definition rset (r : reg) (v : Z) (g : regs) : regs :=
  match r with
  | EAX => mkRegs v (ecx g) (edx g) (ebx g) (esp g) (ebp g) (esi g) (edi g)
  | ECX => mkRegs (eax g) v (edx g) (ebx g) (esp g) (ebp g) (esi g) (edi g)
  | EDX => mkRegs (eax g) (ecx g) v (ebx g) (esp g) (ebp g) (esi g) (edi g)
  | EBX => mkRegs (eax g) (ecx g) (edx g) v (esp g) (ebp g) (esi g) (edi g)
  | ESP => mkRegs (eax g) (ecx g) (edx g) (ebx g) v (ebp g) (esi g) (edi g)
  | EBP => mkRegs (eax g) (ecx g) (edx g) (ebx g) (esp g) v (esi g) (edi g)
  | ESI => mkRegs (eax g) (ecx g) (edx g) (ebx g) (esp g) (ebp g) v (edi g)
  | EDI => mkRegs (eax g) (ecx g) (edx g) (ebx g) (esp g) (ebp g) (esi g) v
  end.

Record cpu := mkCpu { gpr : regs; eflags : Z; cs : Z; ss : Z; ds : Z }.

Definition get (r : reg) (c : cpu) : Z := rget r (gpr c).
Definition set (r : reg) (v : Z) (c : cpu) : cpu := mkCpu (rset r v (gpr c)) (eflags c) (cs c) (ss c) (ds c).
Definition with_flags (f : Z) (c : cpu) : cpu := mkCpu (gpr c) f (cs c) (ss c) (ds c).

(** The ring is in the low bits of the code segment. *)
Definition cpl (c : cpu) : Z := cs c mod 4.
(** A null selector refers to no segment. *)
Definition usable (sel : Z) : bool := negb (sel / 4 =? 0).

(** Where a processor is: the registers and the address of the next instruction. *)
Record thread := mkThread { th_eip : Z; th_cpu : cpu }.

(** Flags are bits of a word. *)
Definition put_bit (b : bool) (n : Z) (f : Z) : Z := if b then Z.setbit f n else Z.clearbit f n.
Notation IF := 9 (only parsing).
Definition interrupts_on (c : cpu) : bool := Z.testbit (eflags c) IF.

Definition even_bits (x : Z) : bool :=
  negb (foldr xorb false (map (Z.testbit x) [0; 1; 2; 3; 4; 5; 6; 7])).
(** The status flags of [x + y] with the carry that arose. *)
Definition arith_flags (carry overflow adjust : bool) (r f : Z) : Z :=
  put_bit carry 0 (put_bit (even_bits r) 2 (put_bit adjust 4 (put_bit (r =? 0) 6
    (put_bit (Z.testbit r 31) 7 (put_bit overflow 11 f))))).
Definition add_flags (x y f : Z) : Z :=
  arith_flags (W32 <=? x + y) (negb (s32 x + s32 y =? s32 (x + y))) (16 <=? x mod 16 + y mod 16) (u32 (x + y)) f.
Definition sub_flags (x y f : Z) : Z :=
  arith_flags (x <? y) (negb (s32 x - s32 y =? s32 (x - y))) (x mod 16 <? y mod 16) (u32 (x - y)) f.

(** ** Instructions, with the source first as in the files *)

Inductive instr (F : Type) :=
| Pusha | Popa | Push (r : reg) | Pop (r : reg)
| Mov (src dst : reg) | MovI (v : Z) (dst : reg)
| Load (off : Z) (base dst : reg) | Store (src : reg) (off : Z) (base : reg) | StoreVar (src : reg) (addr : Z)
| Lea (off : Z) (base dst : reg) | AddI (v : Z) (dst : reg) | SubI (v : Z) (dst : reg)
| CallC (f : F) | CallReg (r : reg) | CallLabel (n : nat)
| Iret | Cli | Sti | Hlt | Jmp (n : nat) | Int (n : Z).
Arguments Pusha {F}.
Arguments Popa {F}.
Arguments Push {F} _.
Arguments Pop {F} _.
Arguments Mov {F} _ _.
Arguments MovI {F} _ _.
Arguments Load {F} _ _ _.
Arguments Store {F} _ _ _.
Arguments StoreVar {F} _ _.
Arguments Lea {F} _ _ _.
Arguments AddI {F} _ _.
Arguments SubI {F} _ _.
Arguments CallC {F} _.
Arguments CallReg {F} _.
Arguments CallLabel {F} _.
Arguments Iret {F}.
Arguments Cli {F}.
Arguments Sti {F}.
Arguments Hlt {F}.
Arguments Jmp {F} _.
Arguments Int {F} _.

(** Addresses relative to the stack registers use the stack segment. *)
Definition segment_of (base : reg) (c : cpu) : Z :=
  match base with ESP | EBP => ss c | _ => ds c end.

(** ** What the instructions work on *)

(** A state with a memory in it. *)
Class HasMem (W : Type) := {
  get_mem : W → memory;
  put_mem : memory → W → W;
  get_put m w : get_mem (put_mem m w) = m;
  put_put m m' w : put_mem m (put_mem m' w) = put_mem m w;
  put_get w : put_mem (get_mem w) w = w;
}.

#[export] Instance memory_mem : HasMem memory.
Proof. refine {| get_mem m := m; put_mem m _ := m |}; done. Defined.

(** What compiled functions leave behind. [arity] gives the number of arguments,
    [depth] bounds the stack a function uses below its return address. The
    stack pointer given to [spill] is the one at the call: bytes outside of the
    arguments, the return address and the [depth] below it stay. *)
Record abi (F : Type) (arity : F → nat) := mkAbi {
  depth : Z;
  left_eax : F → cpu → Z;
  left_ecx : F → cpu → Z;
  left_edx : F → cpu → Z;
  left_flags : F → cpu → Z;
  spill : F → Z → memory → memory;
  depth_pos : 0 ≤ depth;
  spill_local : ∀ f sp m x, x < sp - 4 - depth ∨ sp + 4 * Z.of_nat (arity f) ≤ x →
    rd8 (spill f sp m) x = rd8 m x;
}.
Arguments mkAbi {F arity} _ _ _ _ _ _ _ _.
Arguments depth {F arity} _.
Arguments left_eax {F arity} _ _ _.
Arguments left_ecx {F arity} _ _ _.
Arguments left_edx {F arity} _ _ _.
Arguments left_flags {F arity} _ _ _.
Arguments spill {F arity} _ _ _ _.
Arguments depth_pos {F arity} _.
Arguments spill_local {F arity} _ _ _ _ _ _.

(** What a function gives back to its caller. *)
Inductive answer := Value (v : Z) | Void | Never.

(** How a run ends: at an address outside of the program, in a [hlt], in an
    [int], in an exception, in an indirect call, in a function that does not
    return, or at the first instruction of a function whose caller has no data
    segment. The number is that of the next instruction. *)
Inductive exit (W F : Type) :=
| Leaves (th : thread) (w : W)
| Halts (pc : nat) (c : cpu) (w : W)
| Traps (n : Z) (pc : nat) (c : cpu) (w : W)
| Jumps (target : Z) (pc : nat) (c : cpu) (w : W)
| Faults (pc : nat) (c : cpu) (w : W)
| Dies (w : W)
| Unsupported (f : F) (c : cpu) (w : W).
Arguments Leaves {W F} _ _.
Arguments Halts {W F} _ _ _.
Arguments Traps {W F} _ _ _ _.
Arguments Jumps {W F} _ _ _ _.
Arguments Faults {W F} _ _ _.
Arguments Dies {W F} _.
Arguments Unsupported {W F} _ _ _.

Inductive progress (W F : Type) :=
| Next (pc : nat) (c : cpu) (w : W)
| Stop (e : exit W F).
Arguments Next {W F} _ _ _.
Arguments Stop {W F} _.

Section machine.
Context {W F : Type} `{!HasMem W}.
(** The descriptor tables, the C++ functions, what their code leaves behind,
    and the addresses of the instructions. *)
Variable t : Interrupts.tables.
Variable csem : F → list Z → W → outcome (answer * W).
Context {arity : F → nat}.
Variable A : abi F arity.
Variable address : nat → Z.
Implicit Types (c : cpu) (w : W).

(** ** The stack *)

Definition push_words (vs : list Z) c w : cpu * W :=
  let '(sp, m) := push_all vs (get ESP c, get_mem w) in (set ESP sp c, put_mem m w).
Definition stack_word (i : Z) c w : Z := rd32 (get_mem w) (u32 (get ESP c + 4 * i)).
Definition drop_words (n : Z) c : cpu := set ESP (u32 (get ESP c + 4 * n)) c.

Definition pusha c w : cpu * W :=
  let g := gpr c in push_words [eax g; ecx g; edx g; ebx g; esp g; ebp g; esi g; edi g] c w.
(** The saved stack pointer is skipped. *)
Definition popa c w : cpu :=
  let s i := stack_word i c w in
  mkCpu (mkRegs (s 7) (s 6) (s 5) (s 4) (u32 (get ESP c + 32)) (s 2) (s 1) (s 0)) (eflags c) (cs c) (ss c) (ds c).

(** ** Interrupts *)

(** The interrupt flag, the trap flag, nested task, resume and virtual mode. *)
Definition handler_flags (f : Z) : Z := foldr (put_bit false) f [8; IF; 14; 16; 17].

(** Delivery of an interrupt through a gate into ring 0, with the kernel stack
    of the task state segment and the error code some exceptions have. *)
Definition deliver (g : Interrupts.IDTEntry) (esp0 : Z) (err : list Z) (th : thread) w : cpu * W :=
  let c := th_cpu th in
  let frame := [eflags c; cs c; th_eip th] ++ err in
  let '(c', w) :=
    if cpl c =? 0 then push_words frame c w
    else push_words ([ss c; get ESP c] ++ frame)
           (mkCpu (rset ESP esp0 (gpr c)) (eflags c) (cs c) (Interrupts.ss0 (Interrupts.tss t)) (ds c)) w in
  (mkCpu (gpr c') (handler_flags (eflags c')) (Interrupts.selector g) (ss c') (ds c'), w).

(** A data segment that the outer ring may not use becomes null. *)
Definition leave_segment (ring sel : Z) : Z :=
  if Interrupts.seg_dpl (Interrupts.seg_of t sel) <? ring then 0 else sel.

(** [iret] in ring 0. *)
Definition iret c w : thread :=
  let s i := stack_word i c w in
  let ring := s 1 mod 4 in
  mkThread (s 0)
    (if ring =? 0 then mkCpu (gpr (drop_words 3 c)) (s 2) (s 1) (ss c) (ds c)
     else mkCpu (rset ESP (s 3) (gpr c)) (s 2) (s 1) (s 4) (leave_segment ring (ds c))).

(** ** Calls *)

(** The words from an address on. *)
Fixpoint args_at (n : nat) (a : Z) (m : memory) : list Z :=
  match n with O => [] | S n' => rd32 m (u32 a) :: args_at n' (a + 4) m end.

(** The registers after the function returned. *)
Definition returned (f : F) (r : answer) c : cpu :=
  let g := gpr c in
  mkCpu (mkRegs (match r with Value v => u32 v | _ => left_eax A f c end) (left_ecx A f c) (left_edx A f c)
           (ebx g) (esp g) (ebp g) (esi g) (edi g)) (left_flags A f c) (cs c) (ss c) (ds c).

(** The function runs with the return address and its arguments on the stack.
    The calling convention promises it a flat data segment, through which its
    variables are reached. The call instruction itself does not look at that
    segment: without one the processor still enters the function, and what the
    compiled code does from there is no longer what its source says. *)
Definition call_c (f : F) (pc : nat) c w : outcome (progress W F) :=
  let '(c1, w1) := push_words [address (S pc)] c w in
  if negb (usable (ds c)) then Ok (Stop (Unsupported f c1 w1))
  else
    let! (r, w2) := csem f (args_at (arity f) (get ESP c1 + 4) (get_mem w1)) w1 in
    match r with
    | Never => Ok (Stop (Dies w2))
    | _ => Ok (Next (S pc) (returned f r c) (put_mem (spill A f (get ESP c) (get_mem w2)) w2))
    end.

(** ** Execution *)

(** Instructions that only ring 0 may use. *)
Definition privileged (pc : nat) c w (r : progress W F) : outcome (progress W F) :=
  Ok (if cpl c =? 0 then r else Stop (Faults pc c w)).
Definition data_access (base_seg : Z) (pc : nat) c w (r : progress W F) : outcome (progress W F) :=
  Ok (if usable base_seg then r else Stop (Faults pc c w)).

Definition step (i : instr F) (pc : nat) c w : outcome (progress W F) :=
  match i with
  | Pusha => let '(c, w) := pusha c w in Ok (Next (S pc) c w)
  | Popa => Ok (Next (S pc) (popa c w) w)
  | Push r => let '(c, w) := push_words [get r c] c w in Ok (Next (S pc) c w)
  | Pop r => Ok (Next (S pc) (set r (stack_word 0 c w) (drop_words 1 c)) w)
  | Mov src dst => Ok (Next (S pc) (set dst (get src c) c) w)
  | MovI v dst => Ok (Next (S pc) (set dst (u32 v) c) w)
  | Load off base dst =>
      data_access (segment_of base c) pc c w
        (Next (S pc) (set dst (rd32 (get_mem w) (u32 (get base c + off))) c) w)
  | Store src off base =>
      data_access (segment_of base c) pc c w
        (Next (S pc) c (put_mem (wr32 (get_mem w) (u32 (get base c + off)) (get src c)) w))
  | StoreVar src addr =>
      data_access (ds c) pc c w (Next (S pc) c (put_mem (wr32 (get_mem w) addr (get src c)) w))
  | Lea off base dst => Ok (Next (S pc) (set dst (u32 (get base c + off)) c) w)
  | AddI v dst =>
      let x := get dst c in Ok (Next (S pc) (with_flags (add_flags x (u32 v) (eflags c)) (set dst (u32 (x + v)) c)) w)
  | SubI v dst =>
      let x := get dst c in Ok (Next (S pc) (with_flags (sub_flags x (u32 v) (eflags c)) (set dst (u32 (x - v)) c)) w)
  | CallC f => call_c f pc c w
  | CallReg r => let '(c1, w1) := push_words [address (S pc)] c w in Ok (Stop (Jumps (get r c) (S pc) c1 w1))
  | CallLabel n => let '(c1, w1) := push_words [address (S pc)] c w in Ok (Next n c1 w1)
  | Iret => if cpl c =? 0 then Ok (Stop (Leaves (iret c w) w)) else Undef
  | Cli => privileged pc c w (Next (S pc) (with_flags (put_bit false IF (eflags c)) c) w)
  | Sti => privileged pc c w (Next (S pc) (with_flags (put_bit true IF (eflags c)) c) w)
  | Hlt => privileged pc c w (Stop (Halts (S pc) c w))
  | Jmp n => Ok (Next n c w)
  | Int n => Ok (Stop (Traps n (S pc) c w))
  end.

Fixpoint run (fuel : nat) (prog : list (instr F)) (pc : nat) c w : outcome (exit W F) :=
  match fuel with
  | O => NoFuel
  | S f =>
      match prog !! pc with
      | None => Undef
      | Some i =>
          let! r := step i pc c w in
          match r with Next pc c w => run f prog pc c w | Stop e => Ok e end
      end
  end.
End machine.

(** ** Saved registers *)

Definition word (v : Z) : Prop := 0 ≤ v < W32.

(** All registers hold words. *)
Definition words (th : thread) : Prop :=
  let '(mkThread ip (mkCpu (mkRegs a c d b sp bp si di) f k st dt)) := th in
  Forall word [a; c; d; b; sp; bp; si; di; ip; f; k; st; dt].

(** Where the processor pushes when it is interrupted. *)
Definition stack_base (esp0 : Z) (th : thread) : Z :=
  if cpl (th_cpu th) =? 0 then get ESP (th_cpu th) else esp0.
(** The bytes of the registers that an interrupt and [pusha] leave. *)
Definition frame_size (th : thread) : Z := if cpl (th_cpu th) =? 0 then 44 else 52.

(** The registers of a thread lie at [F] in the order in which [popa] and
    [iret] take them. *)
Definition saves (m : memory) (F : Z) (th : thread) : Prop :=
  let c := th_cpu th in let g := gpr c in
  rd32 m F = edi g ∧ rd32 m (F + 4) = esi g ∧ rd32 m (F + 8) = ebp g ∧ rd32 m (F + 16) = ebx g ∧
  rd32 m (F + 20) = edx g ∧ rd32 m (F + 24) = ecx g ∧ rd32 m (F + 28) = eax g ∧
  rd32 m (F + 32) = th_eip th ∧ rd32 m (F + 36) = cs c ∧ rd32 m (F + 40) = eflags c ∧
  if cpl c =? 0 then esp g = u32 (F + 44) else rd32 m (F + 44) = esp g ∧ rd32 m (F + 48) = ss c.

Lemma saves_ext m m' F th :
  (∀ x, F ≤ x < F + frame_size th → rd8 m' x = rd8 m x) → saves m F th → saves m' F th.
Proof.
  intros H. unfold saves, frame_size in *.
  assert (Hw : ∀ a, F ≤ a → a + 4 ≤ F + (if cpl (th_cpu th) =? 0 then 44 else 52) → rd32 m' a = rd32 m a).
  { intros a H1 H2. apply rd32_ext. intros x Hx. apply H. lia. }
  destruct (cpl (th_cpu th) =? 0); rewrite !Hw by lia; done.
Qed.

(** Two memories with the same bytes outside of [lo, hi). *)
Definition same_outside (lo hi : Z) (m m' : memory) : Prop := ∀ x, x < lo ∨ hi ≤ x → rd8 m' x = rd8 m x.

Lemma same_outside_trans lo hi lo' hi' m m' m'' :
  same_outside lo' hi' m m' → same_outside lo hi m' m'' → lo ≤ lo' → hi' ≤ hi → same_outside lo hi m m''.
Proof. intros H1 H2 Hl Hh x Hx. rewrite H2 by done. apply H1. lia. Qed.

Lemma same_outside_wr32 lo hi m m' a v :
  same_outside lo hi m m' → lo ≤ a → a + 4 ≤ hi → same_outside lo hi m (wr32 m' a v).
Proof. intros H Hl Hh x Hx. rewrite rd8_wr32_ne by lia. by apply H. Qed.

Lemma same_outside_both lo hi m m' a v :
  same_outside lo hi m m' → same_outside lo hi (wr32 m a v) (wr32 m' a v).
Proof.
  intros H x Hx. unfold wr32, wr16. rewrite !rd8_wr8. repeat case_match; try done. by apply H.
Qed.

Lemma wr32_u32 m a v : wr32 m a (u32 v) = wr32 m a v.
Proof.
  unfold wr32, wr16, wr8.
  replace (u8 (u32 v)) with (u8 v) by (unfold u8, u32; mlia). replace (u8 (u32 v / W8)) with (u8 (v / W8)) by (unfold u8, u32; mlia).
  replace (u8 (u32 v / W16)) with (u8 (v / W16)) by (unfold u8, u32; mlia).
  replace (u8 (u32 v / W16 / W8)) with (u8 (v / W16 / W8)) by (unfold u8, u32; mlia). done.
Qed.

Lemma rd32_wr32_at m a b v : b = a → word v → rd32 (wr32 m a v) b = v.
Proof. intros -> Hv. rewrite rd32_wr32_eq. by apply u32_id. Qed.

Lemma push_all_app vs vs' s : push_all (vs ++ vs') s = push_all vs' (push_all vs s).
Proof. unfold push_all. by rewrite foldl_app. Qed.

Lemma push_all_sp vs sp m : word sp → fst (push_all vs (sp, m)) = u32 (sp - 4 * zlen vs).
Proof.
  revert sp m. induction vs as [|v vs IH]; intros sp m Hsp.
  { unfold word in Hsp. cbn. rewrite u32_id; lia. }
  change (push_all (v :: vs) (sp, m)) with (push_all vs (u32 (sp - 4), wr32 m (u32 (sp - 4)) v)).
  rewrite IH by (apply u32_range). cbn [length]. unfold u32. rewrite Zminus_mod_idemp_l. f_equal. lia.
Qed.

Section saving.
Context {W : Type} `{!HasMem W}.
Implicit Types (c : cpu) (w : W).

Lemma push_words_eq vs c w (s := push_all vs (get ESP c, get_mem w)) :
  push_words vs c w = (set ESP (fst s) c, put_mem (snd s) w).
Proof. unfold push_words. fold s. by destruct s. Qed.

Lemma set_get_esp v c : get ESP (set ESP v c) = v.
Proof. by destruct c as [[]]. Qed.
Lemma set_set_esp v v' c : set ESP v (set ESP v' c) = set ESP v c.
Proof. by destruct c as [[]]. Qed.

Lemma push_words_app vs vs' c w :
  push_words vs' (fst (push_words vs c w)) (snd (push_words vs c w)) = push_words (vs ++ vs') c w.
Proof.
  rewrite (push_words_eq vs c w). cbn [fst snd]. rewrite !push_words_eq, set_get_esp, get_put, put_put, set_set_esp.
  rewrite push_all_app. by destruct (push_all vs _).
Qed.

(** The processor after the registers are on the stack. *)
Definition in_handler (t : Interrupts.tables) (g : Interrupts.IDTEntry) (F : Z) (th : thread) : cpu :=
  let c := th_cpu th in
  mkCpu (rset ESP F (gpr c)) (handler_flags (eflags c)) (Interrupts.selector g)
    (if cpl c =? 0 then ss c else Interrupts.ss0 (Interrupts.tss t)) (ds c).

(** The words that an interrupt pushes, and those of [pusha]; the saved stack
    pointer is the one inside of the handler. *)
Definition pushed_first (err : list Z) (th : thread) : list Z :=
  let c := th_cpu th in (if cpl c =? 0 then [] else [ss c; get ESP c]) ++ [eflags c; cs c; th_eip th] ++ err.
Definition pushed (esp0 : Z) (err : list Z) (th : thread) : list Z :=
  let g := gpr (th_cpu th) in
  pushed_first err th ++
  [eax g; ecx g; edx g; ebx g; u32 (stack_base esp0 th - 4 * zlen (pushed_first err th)); ebp g; esi g; edi g].

Lemma deliver_pusha t g esp0 err th w (E := deliver t g esp0 err th w) :
  word (stack_base esp0 th) →
  let s := push_all (pushed esp0 err th) (stack_base esp0 th, get_mem w) in
  pusha (fst E) (snd E) = (in_handler t g (fst s) th, put_mem (snd s) w).
Proof.
  intros Hb. unfold E, deliver, pushed, in_handler. cbv zeta. rewrite push_all_app.
  rewrite (surjective_pairing (push_all (pushed_first err th) (stack_base esp0 th, get_mem w))).
  rewrite (push_all_sp (pushed_first err th)) by done.
  unfold pushed_first, stack_base in *. destruct (cpl (th_cpu th) =? 0); rewrite ?app_nil_l;
    match goal with |- context [push_words ?vs _ _] => set (first := vs) end;
    rewrite push_words_eq; unfold pusha; cbn [fst snd]; rewrite push_words_eq, get_put, put_put;
    cbn [get rget gpr esp set rset eflags cs ss ds eax ecx edx ebx ebp esi edi];
    by rewrite (push_all_sp first) by done.
Qed.

(** A frame with the registers of a thread; [x] is the saved stack pointer. *)
Definition frame (x : Z) (th : thread) : list Z :=
  let g := gpr (th_cpu th) in pushed_first [] th ++ [eax g; ecx g; edx g; ebx g; x; ebp g; esi g; edi g].

Lemma frame_saves x th top m (s := push_all (frame x th) (u32 top, m)) (F := top - frame_size th) :
  words th → top ≤ W32 → 0 ≤ F → (cpl (th_cpu th) = 0 → get ESP (th_cpu th) = u32 top) →
  fst s = F ∧ saves (snd s) F th ∧ same_outside F top m (snd s).
Proof.
  intros Hw Ht HF Hesp.
  assert (Hl : 4 * zlen (frame x th) = frame_size th).
  { unfold frame, pushed_first, frame_size. by destruct (cpl (th_cpu th) =? 0). }
  destruct (push_all_spec (frame x th) top m) as (H1 & H2 & H3); [lia |]. rewrite Hl in H1, H3.
  fold s in H1, H2, H3. clearbody s.
  assert (Efs : 44 ≤ frame_size th ≤ 52) by (unfold frame_size; case_match; lia).
  fold F in H1, H3. rewrite u32_id in H1 by lia. split; [done |]. split; [| exact H3].
  assert (Hv : ∀ (i : nat) v a, frame x th !! i = Some v → word v → a = top - 4 * (Z.of_nat i + 1) → rd32 (snd s) a = v).
  { intros i v a Hi Hv ->. rewrite (H2 i v Hi). by apply u32_id. }
  clear H1 H2 H3 Hl. destruct th as [ip [[a c d b sp bp si di] f k st dt]]. unfold words in Hw. rewrite !Forall_cons in Hw.
  unfold saves, F, frame, pushed_first, frame_size in *. clear F.
  cbn [th_cpu th_eip gpr cpl cs eflags ss edi esi ebp ebx edx ecx eax esp get rget] in *.
  change (cpl _) with (k mod 4) in *. destruct (Z.eqb_spec (k mod 4) 0) as [Ek | Ek]; cbn [app] in Hv.
  - split_and!; [| | | | | | | | | | rewrite Hesp by done; f_equal; lia];
      [eapply (Hv 10%nat) | eapply (Hv 9%nat) | eapply (Hv 8%nat) | eapply (Hv 6%nat) | eapply (Hv 5%nat) | eapply (Hv 4%nat)
      | eapply (Hv 3%nat) | eapply (Hv 2%nat) | eapply (Hv 1%nat) | eapply (Hv 0%nat)]; (reflexivity || tauto || lia).
  - split_and!;
      [eapply (Hv 12%nat) | eapply (Hv 11%nat) | eapply (Hv 10%nat) | eapply (Hv 8%nat) | eapply (Hv 7%nat) | eapply (Hv 6%nat)
      | eapply (Hv 5%nat) | eapply (Hv 4%nat) | eapply (Hv 3%nat) | eapply (Hv 2%nat) | eapply (Hv 1%nat) | eapply (Hv 0%nat)];
      (reflexivity || tauto || lia).
Qed.

(** An interrupt followed by [pusha] saves the interrupted thread below the
    top of the stack it uses, and touches nothing else. *)
Lemma interrupt_saves t g esp0 th w (top := stack_base esp0 th) (F := top - frame_size th) (E := deliver t g esp0 [] th w) :
  words th → word top → 0 ≤ F →
  ∃ m, pusha (fst E) (snd E) = (in_handler t g F th, put_mem m w) ∧ saves m F th ∧ same_outside F top (get_mem w) m.
Proof.
  intros Hw Ht HF. unfold E. rewrite deliver_pusha by done. fold top. cbv zeta. unfold word in Ht.
  change (pushed esp0 [] th) with (frame (u32 (top - 4 * zlen (pushed_first [] th))) th).
  destruct (frame_saves (u32 (top - 4 * zlen (pushed_first [] th))) th top (get_mem w)) as (H1 & H2 & H3); [done | lia | done | |].
  { intros H0. rewrite u32_id by lia. unfold top, stack_base. by rewrite H0. }
  rewrite (u32_id top) in H1, H2, H3 by lia. rewrite H1. eexists. done.
Qed.

(** The thread that continues from its saved registers when the processor had
    the registers [c] before. The stubs do not save the data segment, nor the
    stack segment of ring 0: those are the ones of [c], and a data segment that
    the thread's ring may not use is cleared. *)
Definition resumed (t : Interrupts.tables) (c : cpu) (th : thread) : thread :=
  let h := th_cpu th in
  mkThread (th_eip th)
    (if cpl h =? 0 then mkCpu (gpr h) (eflags h) (cs h) (ss c) (ds c)
     else mkCpu (gpr h) (eflags h) (cs h) (ss h) (leave_segment t (cpl h) (ds c))).

Lemma popa_iret_resumes t c w th :
  saves (get_mem w) (get ESP c) th → 0 ≤ get ESP c → get ESP c + frame_size th ≤ W32 →
  iret t (popa c w) w = resumed t c th.
Proof.
  intros Hs H0 Hm. unfold iret, popa, stack_word. set (F := get ESP c) in *.
  assert (H44 : F + 44 ≤ W32) by (unfold frame_size in Hm; case_match; lia).
  cbn [get rget gpr esp]. destruct th as [ip [[xa xc xd xb xsp xbp xsi xdi] f k st dt]].
  unfold saves, frame_size, resumed in *. cbn [th_cpu th_eip gpr eflags cs ss ds edi esi ebp ebx edx ecx eax esp] in *.
  change (cpl (mkCpu _ f k st dt)) with (k mod 4) in *.
  destruct Hs as (E0 & E1 & E2 & E4 & E5 & E6 & E7 & E8 & E9 & E10 & E11).
  rewrite (u32_id (F + 32)) by lia.
  rewrite !(u32_id (F + _)) by lia. change (4 * 0) with 0. change (4 * 1) with 4. change (4 * 2) with 8. change (4 * 4) with 16.
  change (4 * 5) with 20. change (4 * 6) with 24. change (4 * 7) with 28. rewrite !Z.add_0_r.
  rewrite <- !Z.add_assoc. change (32 + 4) with 36. change (32 + 8) with 40.
  rewrite E0, E1, E2, E4, E5, E6, E7.
  rewrite (u32_id (F + 32)), (u32_id (F + 36)), (u32_id (F + 40)) by lia. rewrite E8, E9, E10.
  destruct (k mod 4 =? 0).
  - unfold drop_words, set. cbn [get rget gpr esp rset eflags cs ss ds]. rewrite <- Z.add_assoc. change (32 + 4 * 3) with 44.
    by rewrite E11.
  - change (32 + 4 * 3) with 44. change (32 + 16) with 48. rewrite !u32_id by lia.
    destruct E11 as [-> ->]. done.
Qed.
End saving.

(** ** Steps *)

Section steps.
Context {W F : Type} `{!HasMem W} {arity : F → nat}.
Variable t : Interrupts.tables.
Variable csem : F → list Z → W → outcome (answer * W).
Variable A : abi F arity.
Variable address : nat → Z.
Implicit Types (c : cpu) (w : W).
#[local] Notation step := (step t csem A address).
#[local] Notation run := (run t csem A address).

Lemma run_next f prog pc i c w pc' c' w' :
  prog !! pc = Some i → step i pc c w = Ok (Next pc' c' w') → run (S f) prog pc c w = run f prog pc' c' w'.
Proof. intros Hi Hs. cbn [Asm.run]. rewrite Hi, Hs. done. Qed.

Lemma run_stop f prog pc i c w e :
  prog !! pc = Some i → step i pc c w = Ok (Stop e) → run (S f) prog pc c w = Ok e.
Proof. intros Hi Hs. cbn [Asm.run]. rewrite Hi, Hs. done. Qed.

Lemma pusha_step pc c w c' w' : pusha c w = (c', w') → step Pusha pc c w = Ok (Next (S pc) c' w').
Proof. intros E. cbn [Asm.step]. by rewrite E. Qed.

Lemma push_one v c w :
  4 ≤ get ESP c < W32 → push_words [v] c w = (set ESP (get ESP c - 4) c, put_mem (wr32 (get_mem w) (get ESP c - 4) v) w).
Proof. intros Hc. unfold push_words, push_all, push. cbn [foldl fst snd]. by rewrite u32_id by lia. Qed.

Lemma push_step r pc c w (sp := get ESP c) :
  4 ≤ sp < W32 →
  step (Push r) pc c w = Ok (Next (S pc) (set ESP (sp - 4) c) (put_mem (wr32 (get_mem w) (sp - 4) (get r c)) w)).
Proof. intros Hc. cbn [Asm.step]. by rewrite push_one. Qed.

(** The memory a function sees, with its return address. *)
Definition called_mem (pc : nat) c w : memory := wr32 (get_mem w) (get ESP c - 4) (address (S pc)).

Lemma call_c_step f pc c w r w' (sp := get ESP c) (m := called_mem pc c w) :
  usable (ds c) = true → 4 ≤ sp < W32 → csem f (args_at (arity f) sp m) (put_mem m w) = Ok (r, w') →
  step (CallC f) pc c w = Ok (match r with
    | Never => Stop (Dies w')
    | _ => Next (S pc) (returned A f r c) (put_mem (spill A f sp (get_mem w')) w') end).
Proof.
  intros Hd Hsp Hc. cbn [Asm.step]. unfold call_c. rewrite Hd. rewrite push_one by done. cbn [negb].
  rewrite set_get_esp, get_put, Z.sub_add. fold sp. change (wr32 (get_mem w) (sp - 4) (address (S pc))) with m.
  rewrite Hc. cbn [obind]. by destruct r.
Qed.

Lemma call_c_returns f pc c w r w' (sp := get ESP c) (m := called_mem pc c w) :
  usable (ds c) = true → 4 ≤ sp < W32 → csem f (args_at (arity f) sp m) (put_mem m w) = Ok (r, w') → r ≠ Never →
  step (CallC f) pc c w = Ok (Next (S pc) (returned A f r c) (put_mem (spill A f sp (get_mem w')) w')).
Proof. intros Hd Hsp Hc Hr. erewrite call_c_step by done. by destruct r. Qed.

(** The stack of a call, after the call. *)
Lemma spill_outside f sp lo hi m m' :
  same_outside lo hi m m' → lo ≤ sp - 4 - depth A → sp + 4 * Z.of_nat (arity f) ≤ hi →
  same_outside lo hi m (spill A f sp m').
Proof. intros H Hl Hh x Hx. rewrite spill_local by lia. by apply H. Qed.

Lemma returned_esp f r c : get ESP (returned A f r c) = get ESP c.
Proof. done. Qed.

Lemma call_c_unsupported f pc c w (p := push_words [address (S pc)] c w) :
  usable (ds c) = false → step (CallC f) pc c w = Ok (Stop (Unsupported f p.1 p.2)).
Proof. intros Hd. cbn [Asm.step]. unfold call_c, p. destruct (push_words _ _ _). by rewrite Hd. Qed.
End steps.

(** A compiler whose functions overwrite the return address and leave other
    values in the registers that are theirs. *)
Definition simple_abi {F : Type} (arity : F → nat) : abi F arity.
Proof.
  refine (mkAbi 0 (λ _ _, 1) (λ _ _, 2) (λ _ _, 3) (λ _ _, 0x246) (λ _ sp m, wr32 m (sp - 4) 0) _ _).
  - lia.
  - intros f sp m x Hx. apply rd8_wr32_ne. lia.
Defined.
End Asm.

(** ** [arch/x86/ports.cpp]

    The wrappers of the port instructions. The compiler puts the port into [dx]
    and the value into the part of [eax] that has its width; the rest of these
    registers keeps what it held. *)
Module Wrappers.
Import Asm.

Inductive width := Byte | Word | Long.

Definition part (w : width) (v : Z) : Z := match w with Byte => u8 v | Word => u16 v | Long => u32 v end.
Definition put_part (w : width) (v old : Z) : Z := old - part w old + part w v.

Section wrappers.
Context {D : Type} `{!PortIO D}.
Implicit Types (c : cpu) (d : D).

(** The instructions: the port is in [dx], the value in [al], [ax] or [eax]. *)
Definition out_instr (w : width) c d : D :=
  let port := u16 (get EDX c) in let v := part w (get EAX c) in
  match w with Byte => Ports.outb port v d | Word => Ports.outw port v d | Long => Ports.outl port v d end.
Definition in_instr (w : width) c d : cpu * D :=
  let port := u16 (get EDX c) in
  let '(v, d) := match w with Byte => Ports.inb port d | Word => Ports.inw port d | Long => Ports.inl port d end in
  (set EAX (put_part w v (get EAX c)) c, d).

Definition load_port (port : Z) c : cpu := set EDX (put_part Word port (get EDX c)) c.
Definition load_value (w : width) (value : Z) c : cpu := set EAX (put_part w value (get EAX c)) c.

Definition outb (port value : Z) c d : D := out_instr Byte (load_value Byte value (load_port port c)) d.
Definition inb (port : Z) c d : Z * D := let '(c, d) := in_instr Byte (load_port port c) d in (part Byte (get EAX c), d).
Definition outw (port value : Z) c d : D := out_instr Word (load_value Word value (load_port port c)) d.
Definition inw (port : Z) c d : Z * D := let '(c, d) := in_instr Word (load_port port c) d in (part Word (get EAX c), d).
Definition outl (port value : Z) c d : D := out_instr Long (load_value Long value (load_port port c)) d.
Definition inl (port : Z) c d : Z * D := let '(c, d) := in_instr Long (load_port port c) d in (part Long (get EAX c), d).

Lemma part_put w v old : part w (put_part w v old) = part w v.
Proof. unfold put_part. destruct w; cbn [part]; unfold u8, u16, u32; mlia. Qed.

Lemma dx_loaded port c : u16 (get EDX (load_port port c)) = u16 port.
Proof. apply (part_put Word). Qed.

(** Whatever the registers held before, a wrapper accesses exactly the given
    port with exactly the given value, and its result is what the device
    answered, cut to the width. *)
Theorem wrappers_access_ports port value c d :
  outb port value c d = Ports.outb (u16 port) (u8 value) d ∧
  outw port value c d = Ports.outw (u16 port) (u16 value) d ∧
  outl port value c d = Ports.outl (u16 port) (u32 value) d ∧
  inb port c d = (u8 (Ports.inb (u16 port) d).1, (Ports.inb (u16 port) d).2) ∧
  inw port c d = (u16 (Ports.inw (u16 port) d).1, (Ports.inw (u16 port) d).2) ∧
  inl port c d = (u32 (Ports.inl (u16 port) d).1, (Ports.inl (u16 port) d).2).
Proof.
  assert (Hout : ∀ w, u16 (get EDX (load_value w value (load_port port c))) = u16 port ∧
    part w (get EAX (load_value w value (load_port port c))) = part w value).
  { intros w. split; [apply dx_loaded | apply part_put]. }
  unfold outb, outw, outl, inb, inw, inl, out_instr, in_instr.
  rewrite !dx_loaded, !(proj1 (Hout _)), !(proj2 (Hout _)). split_and!; try done.
  - destruct (Ports.inb (u16 port) d) as [v d']. f_equal. apply (part_put Byte).
  - destruct (Ports.inw (u16 port) d) as [v d']. f_equal. apply (part_put Word).
  - destruct (Ports.inl (u16 port) d) as [v d']. f_equal. apply (part_put Long).
Qed.
End wrappers.
End Wrappers.
