(* ===== verification/Stubs.v ===== *)
(** * The entry stubs: [interrupts/isr_stub.s], [interrupts/syscall_stub.s],
    [context/context_switch.s] and [process_first_enter_asm] of
    [process/process.cpp]

    The programs as lists of instructions that run on the whole system, with
    the handlers called by the calling convention. The theorems say that the
    stubs compose the handlers as [Syscall.irq0], [Syscall.irq1] and
    [Syscall.syscall_stub] do, and what that means for the interrupted code,
    whose data segment the stubs neither save nor load. *)

From S2P Require Import Prelude Interfaces Machine Pmm Ports Process Scheduler Keyboard Terminal Faults Interrupts Syscall Asm.

Module Stubs.
Import Process Scheduler Asm.

(** The functions that the stubs and the trampoline call. *)
Inductive cfun :=
| irq_handler | keyboard_irq_handler | page_fault_handler | scheduler_tick | default_interrupt_handler
| gp_handler | syscall_dispatch | scheduler_mark_dead.

Definition parameters (f : cfun) : nat :=
  match f with scheduler_tick | gp_handler => 1 | syscall_dispatch => 4 | _ => 0 end%nat.

(** ** The programs *)

Section programs.
(** Where the linker puts the variables that the stubs fill. *)
Variables default_vector gp_err gp_eip pf_err : Z.

Definition isr0 : list (instr cfun) := [Cli; Hlt; Jmp 1].

Definition default_isr : list (instr cfun) :=
  [Pusha; Mov ESP EAX; AddI 40 EAX; Load 0 EAX EAX; StoreVar EAX default_vector;
   CallC default_interrupt_handler; Popa; Iret].

Definition irq0 : list (instr cfun) :=
  [Pusha; CallC irq_handler; Push ESP; CallC scheduler_tick; AddI 4 ESP; Mov EAX ESP; Popa; Iret].

Definition irq1 : list (instr cfun) := [Pusha; CallC keyboard_irq_handler; Popa; Iret].

Definition gp_stub : list (instr cfun) :=
  [Pusha; Lea 32 ESP EAX; Load 0 EAX EAX; StoreVar EAX gp_err; Lea 36 ESP EAX; Load 0 EAX EAX; StoreVar EAX gp_eip;
   Push ESP; CallC gp_handler; AddI 4 ESP; Popa; AddI 4 ESP; Iret].

Definition page_fault_stub : list (instr cfun) :=
  [Pusha; Lea 32 ESP EAX; Load 0 EAX EAX; StoreVar EAX pf_err; CallC page_fault_handler; Popa; AddI 4 ESP; Iret].

Definition syscall_stub : list (instr cfun) :=
  [Pusha; Push EDX; Push ECX; Push EBX; Push EAX; CallC syscall_dispatch; AddI 16 ESP; Store EAX 28 ESP;
   Push ESP; CallC scheduler_tick; AddI 4 ESP; Mov EAX ESP; Popa; Iret].

Definition context_switch : list (instr cfun) :=
  [Pusha; Mov ESP EAX; Push EAX; CallC scheduler_tick; AddI 4 ESP; Mov EAX ESP; Popa; Iret].

Definition process_first_enter_asm : list (instr cfun) := [Load 4 ESP ESP; Popa; Iret].

(** ** The functions they call *)

Context {Pg D : Type} `{!PageAllocOps Pg} `{!PortIO D}.
Implicit Types s : Syscall.system Pg D.

#[export] Instance system_mem : HasMem (Syscall.system Pg D).
Proof.
  refine {| get_mem s := mem (mach (Syscall.kern s));
            put_mem m s := Syscall.with_kern (Syscall.set_mem m (Syscall.kern s)) s |}.
  - done.
  - done.
  - intros s. by destruct s as [[[]]].
Defined.

(** The address that the processor reports for a page fault. *)
Variable cr2 : Z.
(** The bound of the loops in the functions. *)
Variable fuel : nat.

Definition kernel_code (f : cfun) (args : list Z) s : outcome (answer * Syscall.system Pg D) :=
  match f, args with
  | irq_handler, [] => Ok (Void, Syscall.irq_handler s)
  | keyboard_irq_handler, [] => Ok (Void, Syscall.irq1 s)
  | scheduler_tick, [current_esp] =>
      let '(e, k) := Scheduler.scheduler_tick current_esp (Syscall.kern s) in Ok (Value e, Syscall.with_kern k s)
  | syscall_dispatch, [a; b; c; d] =>
      let! (r, s) := Syscall.syscall_dispatch fuel a b c d s in Ok (Value r, s)
  | scheduler_mark_dead, [] => Ok (Void, Syscall.with_kern (Scheduler.scheduler_mark_dead (Syscall.kern s)) s)
  | default_interrupt_handler, [] =>
      let! t := Faults.default_interrupt_handler fuel (rd32 (get_mem s) default_vector) (Syscall.term s) in
      Ok (Void, Syscall.with_term t s)
  | page_fault_handler, [] =>
      let! t := Faults.page_fault_handler fuel (rd32 (get_mem s) pf_err) cr2 (Syscall.term s) in
      Ok (Never, Syscall.with_term t s)
  | gp_handler, [stack] =>
      let! t := Faults.gp_handler fuel (rd32 (get_mem s) gp_err) (rd32 (get_mem s) gp_eip)
                  (args_at 12 stack (get_mem s)) (Syscall.term s) in
      Ok (Never, Syscall.with_term t s)
  | _, _ => Undef
  end.
End programs.

(** ** The scheduler does not look at memory *)

Section memory.
Context {Pg D : Type} `{!PageAllocOps Pg} `{!PortIO D}.
Implicit Types (k : kernel Pg) (s : Syscall.system Pg D).
Import Syscall.

Lemma suspend_mem e m k : suspend e (set_mem m k) = set_mem m (suspend e k).
Proof.
  unfold suspend. change (current_process (set_mem m k)) with (current_process k).
  change (process_get (current_process k) (set_mem m k)) with (process_get (current_process k) k).
  change (procs (set_mem m k)) with (procs k). destruct (procs k !! _) as [p|]; [| done].
  destruct (decide (state p = TASK_RUNNING)); [done |]. by destruct (decide (state p = TASK_BLOCKED)).
Qed.

Lemma find_from_mem n from st m k : find_from n from st (set_mem m k) = find_from n from st k.
Proof. revert st. induction n as [|n IH]; intros st; [done |]. cbn [find_from]. by rewrite IH. Qed.

Lemma process_switch_mem q m k : process_switch q (set_mem m k) = set_mem m (process_switch q k).
Proof.
  unfold process_switch. change (procs (set_mem m k)) with (procs k). destruct (procs k !! q) as [p|]; [| done].
  by destruct (kernel_stack p =? 0), (address_space p =? 0).
Qed.

Lemma tick_mem e m k :
  Scheduler.scheduler_tick e (set_mem m k) =
  ((Scheduler.scheduler_tick e k).1, set_mem m (Scheduler.scheduler_tick e k).2).
Proof.
  unfold Scheduler.scheduler_tick. change (process_total (set_mem m k)) with (process_total k).
  destruct (process_total k =? 0); [done |]. cbv zeta. rewrite suspend_mem.
  change (current_process (set_mem m k)) with (current_process k). set (k1 := suspend e k).
  assert (En : find_next (current_process k) (set_mem m k1) = find_next (current_process k) k1).
  { unfold find_next. by rewrite find_from_mem. }
  rewrite En. set (n := find_next _ _).
  change (procs (set_mem m k1)) with (procs k1). change (process_get n (set_mem m k1)) with (process_get n k1).
  destruct (procs k1 !! _) as [p|]; [| done]. rewrite process_switch_mem. done.
Qed.

Lemma irq0_mem e m s : Syscall.irq0 e (put_mem m s) = ((Syscall.irq0 e s).1, put_mem m (Syscall.irq0 e s).2).
Proof.
  unfold Syscall.irq0, Syscall.irq_handler, Syscall.sleep_tick.
  cbn [put_mem system_mem kern with_io with_term with_kern term timer_ticks sleep_ticks keys]. rewrite tick_mem.
  by destruct (Scheduler.scheduler_tick e (kern s)).
Qed.
End memory.

(** ** The timer interrupt *)

Section stubs.
Context {Pg D : Type} `{!PageAllocOps Pg} `{!PortIO D}.
(** The descriptor tables, the gate of the interrupt, the compiled functions
    and the layout of the program. *)
Variables (t : Interrupts.tables) (g : Interrupts.IDTEntry).
Variable A : abi cfun parameters.
Variable address : nat → Z.
Variables default_vector gp_err gp_eip pf_err cr2 : Z.
Variable fuel : nat.
Hypothesis gate_kernel : Interrupts.selector g = 0x08.
Implicit Types (k : kernel Pg) (s : Syscall.system Pg D) (th : thread).
#[local] Notation code := (kernel_code default_vector gp_err gp_eip pf_err cr2 fuel).
#[local] Notation run := (run t code A address).

(** The interrupt arrives at a thread and the stub runs. *)
Definition interrupted (prog : list (instr cfun)) (err : list Z) th s : outcome (exit (Syscall.system Pg D) cfun) :=
  let '(c, s') := deliver t g (esp0 (mach (Syscall.kern s))) err th s in run (length prog) prog 0 c s'.

(** The top of the stack that the stub uses, and where it saves the registers. *)
Definition stub_top th s : Z := stack_base (esp0 (mach (Syscall.kern s))) th.
Definition stub_frame th s : Z := stub_top th s - frame_size th.

(** A thread that can be interrupted: its registers are words, there is room
    on the stack for the registers and the handlers, and the data segment is
    one that the kernel can use. *)
Record interruptible th s : Prop := {
  in_words : words th;
  in_top : word (stub_top th s);
  in_room : depth A + 32 ≤ stub_frame th s;
  in_data : usable (ds (th_cpu th)) = true;
  in_stack : usable (ss (in_handler t g 0 th)) = true;
}.

(** The last instructions of the stubs: the stack is switched and the
    registers are taken from it. *)
Lemma resume_stack prog pc c s :
  prog !! pc = Some Popa → prog !! S pc = Some Iret → cpl c = 0 →
  run 2 prog pc c s = Ok (Leaves (iret t (popa c s) s) s).
Proof.
  intros H1 H2 Hc. erewrite run_next; [| exact H1 | reflexivity].
  erewrite run_stop; [reflexivity | exact H2 |]. cbn [step]. change (cpl (popa c s)) with (cpl c). by rewrite Hc.
Qed.

Lemma irq_handler_mem m s : Syscall.irq_handler (put_mem m s) = put_mem m (Syscall.irq_handler s).
Proof. done. Qed.

(** From the saved registers at the top of the stack on: the scheduler is
    called with the stack pointer and the stack is switched. *)
Lemma switch_tail prog pc c s F top m :
  prog !! pc = Some (CallC scheduler_tick) → prog !! (1 + pc)%nat = Some (AddI 4 ESP) →
  prog !! (2 + pc)%nat = Some (Mov EAX ESP) → prog !! (3 + pc)%nat = Some Popa → prog !! (4 + pc)%nat = Some Iret →
  cpl c = 0 → usable (ds c) = true → get ESP c = F - 4 → rd32 (get_mem s) (F - 4) = F → depth A + 8 ≤ F → word F →
  same_outside (F - depth A - 24) top m (get_mem s) → F ≤ top →
  let r := Scheduler.scheduler_tick F (Syscall.kern s) in
  ∃ m' c', run 5 prog pc c s = Ok (let s' := put_mem m' (Syscall.with_kern r.2 s) in Leaves (iret t (popa c' s') s') s') ∧
    get ESP c' = u32 r.1 ∧ ss c' = ss c ∧ ds c' = ds c ∧
    same_outside (F - depth A - 24) top m m' ∧ (∀ x, F ≤ x → rd8 m' x = rd8 (get_mem s) x).
Proof.
  intros P0 P1 P2 P3 P4 Hc Hd Hsp Harg Hroom Hw Hout Htop. unfold word in Hw. pose proof (depth_pos A) as Hdp.
  set (m1 := called_mem address pc c s).
  assert (Em1 : m1 = wr32 (get_mem s) (F - 8) (address (S pc))).
  { unfold m1, called_mem. rewrite Hsp. f_equal. lia. }
  assert (Hcode : code scheduler_tick (args_at 1 (get ESP c) m1) (put_mem m1 s) =
    Ok (Value (Scheduler.scheduler_tick F (Syscall.kern s)).1,
        put_mem m1 (Syscall.with_kern (Scheduler.scheduler_tick F (Syscall.kern s)).2 s))).
  { cbn [args_at kernel_code]. rewrite Hsp, u32_id by lia.
    replace (rd32 m1 (F - 4)) with F; [| rewrite Em1, rd32_wr32_ne by lia; done].
    change (Syscall.kern (put_mem m1 s)) with (Syscall.set_mem m1 (Syscall.kern s)). rewrite tick_mem. done. }
  cbv zeta. set (r := Scheduler.scheduler_tick F (Syscall.kern s)) in *. clearbody r.
  erewrite run_next; [| exact P0 | eapply call_c_returns; [done | lia | exact Hcode | done]].
  erewrite run_next; [| exact P1 | reflexivity]. erewrite run_next; [| exact P2 | reflexivity].
  rewrite (resume_stack prog (3 + pc)) by done. eexists _, _. split; [reflexivity |].
  split; [done |]. split; [done |]. split; [done |]. rewrite get_put, Hsp. split.
  - apply (spill_outside A scheduler_tick); [| lia | cbn; lia]. rewrite Em1. apply same_outside_wr32; [done | lia | lia].
  - intros x Hx. rewrite spill_local by (right; cbn; lia). rewrite Em1. apply rd8_wr32_ne. lia.
Qed.

(** A run that [Leaves] from the stack the scheduler answered, with the
    registers of the interrupted thread saved. *)
Definition left_from th s (a : Z) (s1 : Syscall.system Pg D) (e : exit (Syscall.system Pg D) cfun) : Prop :=
  ∃ m c, (let s' := put_mem m s1 in e = Leaves (iret t (popa c s') s') s') ∧
    get ESP c = u32 a ∧ ss c = ss (in_handler t g 0 th) ∧ ds c = ds (th_cpu th) ∧
    same_outside (stub_frame th s - depth A - 24) (stub_top th s) (get_mem s) m ∧ saves m (stub_frame th s) th.

Lemma in_handler_cpl F th : cpl (in_handler t g F th) = 0.
Proof. unfold cpl, in_handler. cbn [cs]. by rewrite gate_kernel. Qed.
Lemma in_handler_esp F th : get ESP (in_handler t g F th) = F.
Proof. by destruct th as [? [[]]]. Qed.

Lemma stub_frame_top th s : stub_frame th s + 44 ≤ stub_top th s ≤ stub_frame th s + 52.
Proof. unfold stub_frame, frame_size. case_match; lia. Qed.

(** The stubs start with [pusha]. *)
Lemma stub_enters prog th s :
  interruptible th s → prog !! 0%nat = Some Pusha →
  ∃ m, interrupted prog [] th s =
      run (pred (length prog)) prog 1 (in_handler t g (stub_frame th s) th) (put_mem m s) ∧
    (let '(c, s') := deliver t g (esp0 (mach (Syscall.kern s))) [] th s in pusha c s') =
      (in_handler t g (stub_frame th s) th, put_mem m s) ∧
    saves m (stub_frame th s) th ∧ same_outside (stub_frame th s) (stub_top th s) (get_mem s) m.
Proof.
  intros [Hw Ht Hr Hd _] Hp. pose proof (depth_pos A). unfold interrupted.
  destruct (interrupt_saves t g (esp0 (mach (Syscall.kern s))) th s Hw Ht) as (m & E & Hs & Ho).
  { unfold stub_frame, stub_top in Hr. lia. }
  exists m. destruct (deliver _ _ _ _ _ _) as [c s'] eqn:Ed. cbn [fst snd] in E. split; [| done].
  destruct prog as [|i prog]; [done |]. cbn [length pred]. injection Hp as ->.
  eapply run_next; [done |]. by apply pusha_step.
Qed.

Lemma irq0_stub_run th s :
  interruptible th s → let r := Syscall.irq0 (stub_frame th s) s in
  ∃ e, interrupted irq0 [] th s = Ok e ∧ left_from th s r.1 r.2 e.
Proof.
  intros Hi. destruct (stub_enters irq0 th s Hi eq_refl) as (m & -> & _ & Hs & Ho). destruct Hi as [_ Ht Hr Hd _].
  pose proof (stub_frame_top th s) as Hft. pose proof (depth_pos A) as Hdp. unfold word in Ht.
  set (F := stub_frame th s) in *. set (top := stub_top th s) in *. set (c0 := in_handler t g F th).
  assert (Hd0 : usable (ds c0) = true) by done. pose proof (in_handler_esp F th) as Hsp. pose proof (in_handler_cpl F th) as Hcpl.
  fold c0 in Hsp, Hcpl. set (m1 := called_mem address 1 c0 (put_mem m s)).
  assert (Em1 : m1 = wr32 m (F - 4) (address 2)) by (unfold m1, called_mem; rewrite Hsp, get_put; done).
  cbn [length pred irq0].
  erewrite (run_next _ _ _ _ 6); [| reflexivity | eapply call_c_returns; [done | lia | reflexivity | done]].
  fold m1. change (Syscall.irq_handler (put_mem m1 (put_mem m s))) with (put_mem m1 (Syscall.irq_handler s)). rewrite get_put, put_put.
  set (c1 := returned A irq_handler Void c0). set (m2 := spill A irq_handler (get ESP c0) m1).
  assert (Hsp1 : get ESP c1 = F) by done.
  erewrite run_next; [| reflexivity | apply push_step; lia]. rewrite get_put, put_put, Hsp1.
  set (m3 := wr32 m2 (F - 4) F).
  assert (Ho2 : same_outside (F - depth A - 24) top (get_mem s) m2).
  { unfold m2. rewrite Hsp. apply spill_outside; [| lia | cbn; lia]. rewrite Em1.
    apply same_outside_wr32; [| lia | lia]. eapply same_outside_trans; [exact Ho | done | lia | lia]. }
  destruct (switch_tail irq0 3 (set ESP (F - 4) c1) (put_mem m3 (Syscall.irq_handler s)) F top (get_mem s))
    as (m4 & c4 & E4 & Hsp4 & Hss4 & Hds4 & Ho4 & Hkeep); try done.
  { rewrite get_put. unfold m3. rewrite rd32_wr32_eq. apply u32_id. lia. }
  { lia. }
  { unfold word. lia. }
  { rewrite get_put. apply same_outside_wr32; [exact Ho2 | lia | lia]. }
  { lia. }
  change (4 + 1)%nat with 5%nat. rewrite E4. clear E4. eexists. split; [reflexivity |]. cbv zeta.
  change (Syscall.kern (put_mem m3 (Syscall.irq_handler s))) with (Syscall.set_mem m3 (Syscall.kern (Syscall.irq_handler s))) in *.
  rewrite tick_mem in *. cbn [fst snd] in *. rewrite get_put in Hkeep.
  assert (Er : Syscall.irq0 F s = ((Scheduler.scheduler_tick F (Syscall.kern (Syscall.irq_handler s))).1,
    Syscall.with_kern (Scheduler.scheduler_tick F (Syscall.kern (Syscall.irq_handler s))).2 (Syscall.irq_handler s))).
  { unfold Syscall.irq0. by destruct (Scheduler.scheduler_tick F _). }
  rewrite Er. cbn [fst snd]. exists m4, c4. split; [reflexivity |]. split; [exact Hsp4 |]. split; [by rewrite Hss4 |].
  split; [by rewrite Hds4 |]. split; [exact Ho4 |].
  apply (saves_ext m); [| done]. intros x Hx. rewrite Hkeep by lia. unfold m3. rewrite rd8_wr32_ne by lia.
  unfold m2. rewrite Hsp, spill_local by (right; cbn; lia). rewrite Em1. apply rd8_wr32_ne. lia.
Qed.

(** ** Interrupted code goes on as if nothing had happened *)

(** The saved registers of a thread are not in the part of the stack that
    another interrupt uses. *)
Definition apart (F size : Z) th s : Prop :=
  F + size ≤ stub_frame th s - depth A - 24 ∨ stub_top th s ≤ F.

(** What happens between two turns of process [i], whose registers are saved
    at [F]: other code runs, and timer interrupts arrive at other threads,
    [n] of them. The other code changes neither the saved registers nor what
    the scheduler knows of process [i]. *)
Inductive elsewhere (i F size : Z) : nat → Syscall.system Pg D → Syscall.system Pg D → Prop :=
| elsewhere_here s : elsewhere i F size 0 s s
| elsewhere_work n s s1 s2 :
    elsewhere i F size n s s1 → between_ticks i (Syscall.kern s1) (Syscall.kern s2) →
    (∀ x, F ≤ x < F + size → rd8 (get_mem s2) x = rd8 (get_mem s1) x) → elsewhere i F size n s s2
| elsewhere_tick n s s1 th th' s2 :
    elsewhere i F size n s s1 → current_process (Syscall.kern s1) ≠ i →
    interruptible th s1 → apart F size th s1 → interrupted irq0 [] th s1 = Ok (Leaves th' s2) →
    elsewhere i F size (S n) s s2.

(** The kernel after a timer interrupt is the kernel after a tick, but for
    the memory. *)
Lemma irq0_kernel th s th' s' :
  interruptible th s → interrupted irq0 [] th s = Ok (Leaves th' s') →
  ∃ c, Syscall.kern s' = Syscall.set_mem (get_mem s') (Scheduler.scheduler_tick (stub_frame th s) (Syscall.kern s)).2 ∧
    th' = iret t (popa c s') s' ∧
    get ESP c = u32 (Scheduler.scheduler_tick (stub_frame th s) (Syscall.kern s)).1 ∧
    ss c = ss (in_handler t g 0 th) ∧ ds c = ds (th_cpu th) ∧
    same_outside (stub_frame th s - depth A - 24) (stub_top th s) (get_mem s) (get_mem s') ∧
    saves (get_mem s') (stub_frame th s) th.
Proof.
  intros Hi E. destruct (irq0_stub_run th s Hi) as (e & E' & m & c & He & Hsp & Hss & Hds & Ho & Hs).
  rewrite E in E'. injection E' as <-. cbv zeta in He. injection He as -> ->.
  assert (Ek : Syscall.irq0 (stub_frame th s) s = ((Scheduler.scheduler_tick (stub_frame th s) (Syscall.kern s)).1,
    Syscall.with_kern (Scheduler.scheduler_tick (stub_frame th s) (Syscall.kern s)).2 (Syscall.irq_handler s))).
  { unfold Syscall.irq0. change (Syscall.kern (Syscall.irq_handler s)) with (Syscall.kern s).
    by destruct (Scheduler.scheduler_tick _ _). }
  rewrite Ek in *. cbn [fst snd] in *. exists c. split_and!; done.
Qed.

Lemma elsewhere_waits i F size n k s s' :
  table_wf k → 0 ≤ i < process_count k → runnable k i = true → waiting i 0 k (Syscall.kern s) →
  elsewhere i F size n s s' →
  waiting i n k (Syscall.kern s') ∧ ∀ x, F ≤ x < F + size → rd8 (get_mem s') x = rd8 (get_mem s) x.
Proof.
  intros Hwf Hi Hr H0 He. induction He as [s | n s s1 s2 He IH Hb Hf | n s s1 th th' s2 He IH Hne Hin Ha E].
  - done.
  - destruct IH as [Hw Hm]; [done |]. split; [by eapply waiting_other |]. intros x Hx. by rewrite Hf, Hm.
  - destruct IH as [Hw Hm]; [done |]. destruct (irq0_kernel th s1 th' s2 Hin E) as (c & Ek & _ & _ & _ & _ & Ho & _).
    split.
    + rewrite Ek. eapply waiting_other; [by eapply waiting_tick |].
      destruct (waiting_invariant i (S n) k (Scheduler.scheduler_tick (stub_frame th s1) (Syscall.kern s1)).2 Hwf Hi Hr)
        as (_ & _ & Hr' & _); [by constructor |]. done.
    + intros x Hx. rewrite Ho, Hm; [done | done |]. pose proof (depth_pos A). unfold apart in Ha. pose proof (stub_frame_top th s1). lia.
Qed.

(** A thread whose registers are saved at [F] where the scheduler continues
    process [i] goes on with them when it is its turn again. *)
Lemma continues_later i F k s1 th n s2 th2 th3 s3 :
  table_wf k → 0 ≤ i < process_count k → runnable k i = true → saved_esp <$> proc_at k i = Some F →
  waiting i 0 k (Syscall.kern s1) → saves (get_mem s1) F th → 0 < F → F + frame_size th ≤ W32 →
  elsewhere i F (frame_size th) n s1 s2 → current_process (Syscall.kern s2) ≠ i →
  interruptible th2 s2 → apart F (frame_size th) th2 s2 → interrupted irq0 [] th2 s2 = Ok (Leaves th3 s3) →
  Z.of_nat (S n) ≤ process_count k ∧
  (current_process (Syscall.kern s3) = i → th3 = resumed t (in_handler t g 0 th2) th).
Proof.
  intros Hwf Hi Hr Hse H0 Hs HF Hw32 He Hne Hin2 Ha E3.
  destruct (elsewhere_waits i F _ n k s1 s2 Hwf Hi Hr H0 He) as [Hw Hm].
  destruct (waiting_resumes i F k n (Syscall.kern s2) (stub_frame th2 s2) Hwf Hi Hr Hse ltac:(lia) Hw Hne) as [Hn Hans].
  split; [done |]. intros Hc3. destruct (irq0_kernel th2 s2 th3 s3 Hin2 E3) as (c3 & Ek3 & -> & Hsp3 & Hss3 & Hds3 & Ho3 & _).
  rewrite Ek3 in Hc3. rewrite (Hans Hc3), u32_id in Hsp3 by (unfold frame_size in Hw32; case_match; lia).
  rewrite (popa_iret_resumes t c3 s3 th); [unfold resumed; by rewrite Hss3, Hds3 | rewrite Hsp3 | lia | lia].
  apply (saves_ext (get_mem s1)); [| done]. intros x Hx. rewrite Ho3, Hm; [done | lia |].
  unfold apart in Ha. pose proof (stub_frame_top th2 s2). pose proof (depth_pos A). lia.
Qed.

(** A thread of ring 0 with the segments of the kernel, as every task has them
    that the kernel starts in ring 0. *)
Definition kernel_thread th : Prop := cs (th_cpu th) = 0x08 ∧ ss (th_cpu th) = 0x10 ∧ ds (th_cpu th) = 0x10.

(** From one such thread to another, nothing changes. *)
Lemma resumed_same th th2 : kernel_thread th → kernel_thread th2 → resumed t (in_handler t g 0 th2) th = th.
Proof.
  intros (Hr & Hs & Hd) (Hr2 & Hs2 & Hd2). unfold resumed, in_handler, cpl. rewrite Hr, Hr2. cbn [ss ds].
  change (8 mod 4 =? 0) with true. cbv iota. rewrite Hs2, Hd2. destruct th as [? []]. cbn [th_cpu th_eip gpr eflags cs ss ds] in *.
  by subst.
Qed.

(** A process that the timer interrupts, in ring 0 or ring 3, goes on later
    with its saved registers. *)
Lemma preempted_resumes i p th s th1 s1 (F := stub_frame th s) (size := frame_size th) :
  table_wf (Syscall.kern s) → current_process (Syscall.kern s) = i → 0 ≤ i < process_count (Syscall.kern s) →
  proc_at (Syscall.kern s) i = Some p → state p = TASK_RUNNING →
  interruptible th s → interrupted irq0 [] th s = Ok (Leaves th1 s1) →
  (current_process (Syscall.kern s1) = i → th1 = resumed t (in_handler t g 0 th) th) ∧
  ∀ n s2 th2 th3 s3,
    elsewhere i F size n s1 s2 → current_process (Syscall.kern s2) ≠ i →
    interruptible th2 s2 → apart F size th2 s2 → interrupted irq0 [] th2 s2 = Ok (Leaves th3 s3) →
    Z.of_nat (S n) ≤ process_count (Syscall.kern s) ∧
    (current_process (Syscall.kern s3) = i → th3 = resumed t (in_handler t g 0 th2) th).
Proof.
  intros Hwf Hcur Hi Hp Hrun Hin E. pose proof (depth_pos A) as Hdp. pose proof (in_room _ _ Hin) as Hroom.
  pose proof (stub_frame_top th s) as Hft. pose proof (in_top _ _ Hin) as Htop. unfold word in Htop. fold F in Hroom, Hft.
  assert (HF : F + size = stub_top th s) by (unfold F, stub_frame, size; lia).
  destruct (irq0_kernel th s th1 s1 Hin E) as (c & Ek & -> & Hsp & Hss & Hds & _ & Hs). fold F in Ek, Hsp, Hs.
  destruct (Scheduler.scheduler_tick F (Syscall.kern s)) as [a k1] eqn:Et. cbn [fst snd] in *.
  destruct (tick_interrupts i p F (Syscall.kern s) a k1) as (Hwf1 & Hst1 & Hr1 & Hse1 & Hback); [done.. | lia | done |].
  split.
  - intros Hc1. rewrite Ek in Hc1. rewrite Hback, u32_id in Hsp by (done || lia).
    rewrite (popa_iret_resumes t c s1 th); [unfold resumed; by rewrite Hss, Hds | by rewrite Hsp | lia | lia].
  - intros n s2 th2 th3 s3 He Hne Hin2 Ha E3. pose proof (st_count _ _ Hst1) as Hc1. rewrite <- Hc1.
    assert (H0 : waiting i 0 k1 (Syscall.kern s1)) by (rewrite Ek; eapply waiting_other; [constructor | done]).
    apply (continues_later i F k1 s1 th n s2 th2 th3 s3); try done; [lia | lia | fold size; lia].
Qed.

(** C5: Preemption of a kernel task cannot be noticed. A running task of ring 0
    with the segments of the kernel (0x08 and 0x10) is interrupted by the timer
    at any instruction, with room for the stub on its stack. Either it goes on
    at once, or other processes run, and timer interrupts arrive at them, until
    one of these interrupts makes it the current process again. All that is
    asked of the rest is that the other code leaves its saved registers and its
    entry in the process table alone, that the interrupted threads have a data
    segment and room on stacks that do not overlap the saved registers, and that
    the last of them is a kernel task too. It then goes on in exactly the
    interrupted state: instruction, flags, all general registers, stack pointer
    and segments. It is its turn again after at most as many timer interrupts as
    there are processes. *)
Theorem preemption_transparent i p th s th1 s1 (F := stub_frame th s) (size := frame_size th) :
  table_wf (Syscall.kern s) → current_process (Syscall.kern s) = i → 0 ≤ i < process_count (Syscall.kern s) →
  proc_at (Syscall.kern s) i = Some p → state p = TASK_RUNNING →
  kernel_thread th → interruptible th s → interrupted irq0 [] th s = Ok (Leaves th1 s1) →
  (current_process (Syscall.kern s1) = i → th1 = th) ∧
  ∀ n s2 th2 th3 s3,
    elsewhere i F size n s1 s2 → current_process (Syscall.kern s2) ≠ i →
    kernel_thread th2 → interruptible th2 s2 → apart F size th2 s2 → interrupted irq0 [] th2 s2 = Ok (Leaves th3 s3) →
    Z.of_nat (S n) ≤ process_count (Syscall.kern s) ∧ (current_process (Syscall.kern s3) = i → th3 = th).
Proof.
  intros Hwf Hcur Hi Hp Hrun Hk Hin E. destruct (preempted_resumes i p th s th1 s1) as [H1 H2]; try done. split.
  - intros Hc. rewrite (H1 Hc). by apply resumed_same.
  - intros n s2 th2 th3 s3 He Hne Hk2 Hin2 Ha E3. destruct (H2 n s2 th2 th3 s3) as [Hn Hth]; try done.
    split; [done |]. intros Hc. rewrite (Hth Hc). by apply resumed_same.
Qed.

(** ** System calls *)

(** The state in which [syscall_dispatch] starts: the registers and the
    arguments are on the stack. *)
Definition at_dispatch th s : Syscall.system Pg D :=
  let g0 := gpr (th_cpu th) in
  let '(c, s) := deliver t g (esp0 (mach (Syscall.kern s))) [] th s in
  let '(c, s) := pusha c s in
  let '(c, s) := push_words [edx g0; ecx g0; ebx g0; eax g0; address 6] c s in s.

Lemma at_dispatch_mem th s : ∃ m, at_dispatch th s = put_mem m s.
Proof.
  unfold at_dispatch, deliver, pusha. rewrite !push_words_eq.
  destruct (cpl (th_cpu th) =? 0); rewrite !push_words_eq, !put_put; by eexists.
Qed.

(** The caller with the result of the call. *)
Definition answered (r : Z) th : thread := mkThread (th_eip th) (set EAX (u32 r) (th_cpu th)).

Lemma answered_saves m F r th : saves m F th → saves (wr32 m (F + 28) r) F (answered r th).
Proof.
  destruct th as [ip [[a c d b sp bp si di] f k st dt]]. unfold saves. cbn.
  change (cpl (set EAX _ _)) with (k mod 4). change (cpl (mkCpu _ f k st dt)) with (k mod 4).
  intros (H0 & H1 & H2 & H4 & H5 & H6 & _ & H8 & H9 & H10 & H11). rewrite rd32_wr32_eq, !rd32_wr32_ne by lia.
  do 10 (split; [done |]). done.
Qed.

Lemma in_handler_get r v F th : r ≠ ESP → get r (set ESP v (in_handler t g F th)) = get r (th_cpu th).
Proof. destruct th as [? [[]]]. by destruct r. Qed.

Lemma in_handler_reg r F th : r ≠ ESP → get r (in_handler t g F th) = get r (th_cpu th).
Proof. destruct th as [? [[]]]. by destruct r. Qed.

Lemma push_words_cons v vs c s :
  4 ≤ get ESP c < W32 →
  push_words (v :: vs) c s = push_words vs (set ESP (get ESP c - 4) c) (put_mem (wr32 (get_mem s) (get ESP c - 4) v) s).
Proof.
  intros Hc. rewrite <- (push_words_app [v] vs). by rewrite push_one.
Qed.

Lemma args_at_4 m sp a b c d :
  0 ≤ sp → sp + 16 ≤ W32 → rd32 m sp = a → rd32 m (sp + 4) = b → rd32 m (sp + 8) = c → rd32 m (sp + 12) = d →
  args_at 4 sp m = [a; b; c; d].
Proof.
  intros H0 H1 <- <- <- <-. cbn [args_at]. rewrite <- !Z.add_assoc. change (4 + (4 + 4)) with 12. change (4 + 4) with 8.
  by rewrite !u32_id by lia.
Qed.

(** The stub is [Syscall.syscall_stub] on the state with the arguments pushed,
    up to the stack below the saved registers. *)
Lemma syscall_stub_run th s r sd (F := stub_frame th s) (g0 := gpr (th_cpu th)) :
  interruptible th s →
  Syscall.syscall_dispatch fuel (eax g0) (ebx g0) (ecx g0) (edx g0) (at_dispatch th s) = Ok (r, sd) →
  saves (get_mem (at_dispatch th s)) F th ∧
  let k := Scheduler.scheduler_tick F (Syscall.kern sd) in
  ∃ m c, (let s' := put_mem m (Syscall.with_kern k.2 sd) in
      interrupted syscall_stub [] th s = Ok (Leaves (iret t (popa c s') s') s')) ∧
    get ESP c = u32 k.1 ∧ ss c = ss (in_handler t g 0 th) ∧ ds c = ds (th_cpu th) ∧
    same_outside (F - depth A - 24) F (wr32 (get_mem sd) (F + 28) r) m.
Proof.
  intros Hi Hcall. destruct (stub_enters syscall_stub th s Hi eq_refl) as (m & -> & Hat & Hs & Ho).
  destruct Hi as [Hwords Ht Hr Hd Hst]. pose proof (stub_frame_top th s) as Hft. pose proof (depth_pos A) as Hdp. unfold word in Ht.
  fold F in Hr, Hft, Hat, Hs, Ho |- *. set (top := stub_top th s) in *. set (c0 := in_handler t g F th) in *.
  pose proof (in_handler_esp F th : get ESP c0 = F) as Hsp.
  set (m4 := wr32 (wr32 (wr32 (wr32 m (F - 4) (edx g0)) (F - 8) (ecx g0)) (F - 12) (ebx g0)) (F - 16) (eax g0)).
  set (m5 := wr32 m4 (F - 20) (address 6)).
  assert (Hat' : at_dispatch th s = put_mem m5 s).
  { unfold at_dispatch. destruct (deliver _ _ _ _ _ _) as [c s']. rewrite Hat. fold g0.
    do 5 (rewrite push_words_cons by (rewrite ?set_get_esp, Hsp; lia)). unfold push_words at 1. cbn [push_all foldl].
    rewrite !set_get_esp, !get_put, !put_put, Hsp. rewrite <- !Z.sub_add_distr. done. }
  rewrite Hat' in Hcall |- *. rewrite get_put.
  assert (Hup : ∀ x, F ≤ x → rd8 m5 x = rd8 m x) by (intros x Hx; unfold m5, m4; by rewrite !rd8_wr32_ne by lia).
  split; [apply (saves_ext m); [intros x Hx; apply Hup; lia | done] |].
  cbn [length pred syscall_stub].
  erewrite run_next; [| reflexivity | apply push_step; lia]. erewrite run_next; [| reflexivity | apply push_step; rewrite set_get_esp; lia].
  erewrite run_next; [| reflexivity | apply push_step; rewrite !set_get_esp; lia].
  erewrite run_next; [| reflexivity | apply push_step; rewrite !set_get_esp; lia].
  rewrite !set_get_esp, !get_put, !put_put, !set_set_esp, Hsp.
  unfold c0. rewrite !in_handler_get, in_handler_reg by done. fold c0.
  replace (F - 4 - 4) with (F - 8) by lia. replace (F - 8 - 4) with (F - 12) by lia. replace (F - 12 - 4) with (F - 16) by lia.
  change (wr32 _ (F - 16) _) with m4. set (c4 := set ESP (F - 16) c0).
  assert (Hw : word (eax g0) ∧ word (ebx g0) ∧ word (ecx g0) ∧ word (edx g0)).
  { unfold g0. destruct th as [? [[] ? ? ? ?]]. unfold words in Hwords. rewrite !Forall_cons in Hwords. tauto. }
  assert (Hm5 : called_mem address 5 c4 (put_mem m4 s) = m5).
  { unfold called_mem, m5, c4. rewrite set_get_esp, get_put. f_equal. lia. }
  assert (Hargs : args_at 4 (get ESP c4) m5 = [eax g0; ebx g0; ecx g0; edx g0]).
  { unfold c4. rewrite set_get_esp. unfold word in Hw.
    destruct Hw as (? & ? & ? & ?).
    apply args_at_4; [lia | lia | | | |]; unfold m5, m4;
      repeat first [rewrite rd32_wr32_at by (lia || done) | rewrite rd32_wr32_ne by lia]; done. }
  erewrite run_next; [| reflexivity | eapply call_c_returns; [done | unfold c4; rewrite set_get_esp; lia | | ]].
  2: { rewrite Hm5. change (parameters syscall_dispatch) with 4%nat. rewrite Hargs. cbn [kernel_code]. rewrite put_put, Hcall. reflexivity. }
  2: done.
  replace (get ESP c4) with (F - 16) by (unfold c4; by rewrite set_get_esp). set (m6 := spill A syscall_dispatch (F - 16) (get_mem sd)).
  erewrite run_next; [| reflexivity | reflexivity]. set (c6 := with_flags _ _).
  assert (Hsp6 : get ESP c6 = F).
  { change (get ESP c6) with (u32 (get ESP c4 + 16)). unfold c4. rewrite set_get_esp, u32_id; lia. }
  erewrite run_next; [| reflexivity | cbn [step segment_of]; change (ss c6) with (ss (in_handler t g 0 th)); unfold data_access; rewrite Hst; reflexivity].
  change (get EAX c6) with (u32 r). rewrite wr32_u32, Hsp6, get_put, put_put, u32_id by lia.
  erewrite run_next; [| reflexivity | apply push_step; lia]. rewrite Hsp6, get_put, put_put.
  destruct (switch_tail syscall_stub 9 (set ESP (F - 4) c6) (put_mem (wr32 (wr32 m6 (F + 28) r) (F - 4) F) sd) F F
    (wr32 (get_mem sd) (F + 28) r)) as (m9 & c9 & E9 & Hsp9 & Hss9 & Hds9 & Ho9 & _); try done.
  { apply in_handler_cpl. }
  { rewrite get_put. apply rd32_wr32_at; [done | unfold word; lia]. }
  { lia. }
  { unfold word; lia. }
  { rewrite get_put. apply same_outside_wr32; [| lia | lia]. apply same_outside_both. apply spill_outside; [done | lia | cbn; lia]. }
  change (4 + 1)%nat with 5%nat in E9.
  change (Syscall.kern (put_mem ?m sd)) with (Syscall.set_mem m (Syscall.kern sd)) in *.
  rewrite tick_mem in *. cbn [fst snd] in *.
  exists m9, c9. split_and!; done.
Qed.

Lemma call_resumes i p th s r sd th1 s1 (F := stub_frame th s) (size := frame_size th) (g0 := gpr (th_cpu th)) :
  interruptible th s →
  Syscall.syscall_dispatch fuel (eax g0) (ebx g0) (ecx g0) (edx g0) (at_dispatch th s) = Ok (r, sd) →
  (∀ x, F ≤ x < F + size → rd8 (get_mem sd) x = rd8 (get_mem (at_dispatch th s)) x) →
  table_wf (Syscall.kern sd) → current_process (Syscall.kern sd) = i → 0 ≤ i < process_count (Syscall.kern sd) →
  proc_at (Syscall.kern sd) i = Some p → state p = TASK_RUNNING →
  interrupted syscall_stub [] th s = Ok (Leaves th1 s1) →
  (current_process (Syscall.kern s1) = i → th1 = resumed t (in_handler t g 0 th) (answered r th)) ∧
  ∀ n s2 th2 th3 s3,
    elsewhere i F size n s1 s2 → current_process (Syscall.kern s2) ≠ i →
    interruptible th2 s2 → apart F size th2 s2 → interrupted irq0 [] th2 s2 = Ok (Leaves th3 s3) →
    current_process (Syscall.kern s3) = i → th3 = resumed t (in_handler t g 0 th2) (answered r th).
Proof.
  intros Hin Hcall Hkeep Hwf Hcur Hi Hp Hrun E. pose proof (depth_pos A) as Hdp. pose proof (in_room _ _ Hin) as Hroom.
  pose proof (stub_frame_top th s) as Hft. pose proof (in_top _ _ Hin) as Htop. unfold word in Htop. fold F in Hroom, Hft.
  assert (HF : F + size = stub_top th s) by (unfold F, stub_frame, size; lia).
  destruct (syscall_stub_run th s r sd Hin Hcall) as (Hs & m & c & E' & Hsp & Hss & Hds & Ho). fold F in Hs, Hsp, Ho, E'.
  rewrite E in E'. cbv zeta in E'. injection E' as -> ->.
  destruct (Scheduler.scheduler_tick F (Syscall.kern sd)) as [a k1] eqn:Et. cbn [fst snd] in *.
  destruct (tick_interrupts i p F (Syscall.kern sd) a k1) as (Hwf1 & Hst1 & Hr1 & Hse1 & Hback); [done.. | lia | done |].
  assert (Hs1 : saves m F (answered r th)).
  { apply (saves_ext (wr32 (get_mem sd) (F + 28) r)); [intros x Hx; apply Ho; lia |]. apply answered_saves.
    by apply (saves_ext (get_mem (at_dispatch th s))). }
  split.
  - intros Hc1. rewrite Hback, u32_id in Hsp by (done || lia).
    rewrite (popa_iret_resumes t c _ (answered r th)); [unfold resumed; by rewrite Hss, Hds | by rewrite Hsp | lia |].
    change (frame_size (answered r th)) with size. lia.
  - intros n s2 th2 th3 s3 He Hne Hin2 Ha E3. pose proof (st_count _ _ Hst1) as Hc1.
    assert (H0 : waiting i 0 k1 (Syscall.kern (put_mem m (Syscall.with_kern k1 sd)))) by (eapply waiting_other; [constructor | done]).
    eapply (continues_later i F k1 _ (answered r th) n s2 th2 th3 s3 Hwf1 ltac:(lia) Hr1 Hse1 H0 Hs1); try done; [lia |].
    change (frame_size (answered r th)) with size. lia.
Qed.

(** A thread [th'] that goes on where [th] was, after code with the data segment
    [sel] ran: it has the instruction, the general registers with the stack
    pointer, the flags and the ring of [th], in ring 3 its stack segment too;
    the data segment is [sel], cleared when the ring may not use it. *)
Record continues (sel : Z) th (th' : thread) : Prop := {
  co_eip : th_eip th' = th_eip th;
  co_gpr : gpr (th_cpu th') = gpr (th_cpu th);
  co_flags : eflags (th_cpu th') = eflags (th_cpu th);
  co_cs : cs (th_cpu th') = cs (th_cpu th);
  co_ss : cpl (th_cpu th) ≠ 0 → ss (th_cpu th') = ss (th_cpu th);
  co_ds : ds (th_cpu th') = if cpl (th_cpu th) =? 0 then sel else leave_segment t (cpl (th_cpu th)) sel;
}.

Lemma resumed_continues c th : continues (ds c) th (resumed t c th).
Proof. constructor; unfold resumed; cbn [th_cpu th_eip]; destruct (Z.eqb_spec (cpl (th_cpu th)) 0); done. Qed.

(** C19: A system call is a function call for the code that makes it. The
    caller is in ring 0 or ring 3, with a data segment, and with room on the
    kernel stack of the call; the call returns, has not written over the
    registers saved on that stack, and leaves the caller running. Then the
    caller goes on after the [int] with the result in [eax] and its other general
    registers, stack pointer, flags and ring as they were: at once, or, when
    other code ran in between and timer interrupts arrived at threads that have
    a data segment and stacks apart from the saved registers, when such an
    interrupt makes it the current process again. Its data segment is not saved:
    it is that of the thread interrupted last, cleared when ring 3 may not use
    it. Between kernel tasks, that is no difference either. *)
Theorem syscall_returns_to_caller i p th s r sd th1 s1 (F := stub_frame th s) (size := frame_size th) (g0 := gpr (th_cpu th)) :
  interruptible th s →
  Syscall.syscall_dispatch fuel (eax g0) (ebx g0) (ecx g0) (edx g0) (at_dispatch th s) = Ok (r, sd) →
  (∀ x, F ≤ x < F + size → rd8 (get_mem sd) x = rd8 (get_mem (at_dispatch th s)) x) →
  table_wf (Syscall.kern sd) → current_process (Syscall.kern sd) = i → 0 ≤ i < process_count (Syscall.kern sd) →
  proc_at (Syscall.kern sd) i = Some p → state p = TASK_RUNNING →
  interrupted syscall_stub [] th s = Ok (Leaves th1 s1) →
  (current_process (Syscall.kern s1) = i →
   continues (ds (th_cpu th)) (answered r th) th1 ∧ (kernel_thread th → th1 = answered r th)) ∧
  ∀ n s2 th2 th3 s3,
    elsewhere i F size n s1 s2 → current_process (Syscall.kern s2) ≠ i →
    interruptible th2 s2 → apart F size th2 s2 → interrupted irq0 [] th2 s2 = Ok (Leaves th3 s3) →
    current_process (Syscall.kern s3) = i →
    continues (ds (th_cpu th2)) (answered r th) th3 ∧ (kernel_thread th → kernel_thread th2 → th3 = answered r th).
Proof.
  intros Hin Hcall Hkeep Hwf Hcur Hi Hp Hrun E. destruct (call_resumes i p th s r sd th1 s1) as [H1 H2]; try done. split.
  - intros Hc. rewrite (H1 Hc). split; [apply (resumed_continues (in_handler t g 0 th)) |]. intros Hk. by apply resumed_same.
  - intros n s2 th2 th3 s3 He Hne Hin2 Ha E3 Hc. rewrite (H2 n s2 th2 th3 s3) by done.
    split; [apply (resumed_continues (in_handler t g 0 th2)) |]. intros Hk Hk2. by apply resumed_same.
Qed.

(** ** The other stubs *)

(** A handler without arguments, and the return to the interrupted thread. *)
Lemma handler_tail prog pc f c s m s' th (F := get ESP c) :
  prog !! pc = Some (CallC f) → prog !! S pc = Some Popa → prog !! S (S pc) = Some Iret → parameters f = 0%nat →
  cpl c = 0 → usable (ds c) = true → ss c = ss (in_handler t g 0 th) → ds c = ds (th_cpu th) →
  depth A + 24 ≤ F → F + frame_size th ≤ W32 → saves m F th →
  (let m1 := wr32 m (F - 4) (address (S pc)) in code f [] (put_mem m1 s) = Ok (Void, put_mem m1 s')) →
  ∃ m', run 3 prog pc c (put_mem m s) = Ok (Leaves (resumed t (in_handler t g 0 th) th) (put_mem m' s')) ∧
    same_outside (F - depth A - 24) F m m'.
Proof.
  intros P0 P1 P2 Hf Hc Hd Hss Hds Hr Hw Hs Hcode. pose proof (depth_pos A) as Hdp.
  assert (Hfs : 44 ≤ frame_size th) by (unfold frame_size; case_match; lia).
  set (m1 := called_mem address pc c (put_mem m s)).
  assert (Em1 : m1 = wr32 m (F - 4) (address (S pc))) by (unfold m1, called_mem; rewrite get_put; done).
  cbv zeta in Hcode. rewrite <- Em1 in Hcode.
  erewrite (run_next _ _ _ _ 2); [| exact P0 | eapply (call_c_returns _ _ _ _ f pc c (put_mem m s) Void (put_mem m1 s')); [done | fold F; lia | | done]].
  2: { fold m1. rewrite Hf, put_put. exact Hcode. }
  rewrite get_put, put_put. fold F. set (m2 := spill A f F m1). rewrite resume_stack by done. exists m2. split.
  - do 2 f_equal. rewrite (popa_iret_resumes t _ _ th); [unfold resumed | rewrite returned_esp, get_put | rewrite returned_esp; fold F; lia..].
    + change (ss (returned A f Void c)) with (ss c). change (ds (returned A f Void c)) with (ds c). by rewrite Hss, Hds.
    + apply (saves_ext m); [| done]. intros x Hx. fold F in Hx. unfold m2. rewrite spill_local by (right; rewrite Hf; lia).
      rewrite Em1. apply rd8_wr32_ne. lia.
  - apply spill_outside; [| lia | rewrite Hf; lia]. rewrite Em1. by apply same_outside_wr32; [| lia | lia].
Qed.

(** The keyboard interrupt runs its handler and the interrupted code goes
    on as it was. *)
Theorem irq1_transparent th s :
  interruptible th s →
  ∃ m, interrupted irq1 [] th s = Ok (Leaves (resumed t (in_handler t g 0 th) th) (put_mem m (Syscall.irq1 s))) ∧
    same_outside (stub_frame th s - depth A - 24) (stub_top th s) (get_mem s) m.
Proof.
  intros Hi. destruct (stub_enters irq1 th s Hi eq_refl) as (m & -> & _ & Hs & Ho). destruct Hi as [_ Ht Hr Hd _].
  pose proof (stub_frame_top th s) as Hft. pose proof (depth_pos A) as Hdp. unfold word in Ht.
  assert (HF : stub_frame th s + frame_size th = stub_top th s) by (unfold stub_frame; lia).
  pose proof (in_handler_esp (stub_frame th s) th) as Hsp.
  destruct (handler_tail irq1 1 keyboard_irq_handler (in_handler t g (stub_frame th s) th) s m (Syscall.irq1 s) th)
    as (m' & E & Ho'); try done; rewrite ?Hsp; try done; [apply in_handler_cpl | lia | lia | |].
  { cbv zeta. cbn [kernel_code]. set (m1 := wr32 _ _ _). f_equal. f_equal. unfold Syscall.irq1.
    change (Syscall.term (put_mem m1 s)) with (Syscall.term s). by destruct (inb 96 _). }
  rewrite Hsp in Ho'. exists m'. split; [exact E |]. eapply same_outside_trans; [| | reflexivity | reflexivity].
  - eapply same_outside_trans; [exact Ho | done | lia | lia].
  - intros x Hx. apply Ho'. lia.
Qed.

(** An interrupt without a handler of its own is reported with the flags of
    the interrupted thread in place of the vector: the word that the stub
    reads, 40 bytes above the stack pointer, is the third of the words that the
    processor pushed. *)
Theorem default_isr_prints_flags th s tm :
  interruptible th s →
  default_vector + 4 ≤ stub_frame th s - depth A - 24 ∨ stub_top th s ≤ default_vector →
  Faults.default_interrupt_handler fuel (eflags (th_cpu th)) (Syscall.term s) = Ok tm →
  ∃ m, interrupted (default_isr default_vector) [] th s =
    Ok (Leaves (resumed t (in_handler t g 0 th) th) (put_mem m (Syscall.with_term tm s))).
Proof.
  intros Hi Hvar Hprint. destruct (stub_enters (default_isr default_vector) th s Hi eq_refl) as (m & -> & _ & Hs & _).
  destruct Hi as [Hw Ht Hr Hd _]. pose proof (stub_frame_top th s) as Hft. pose proof (depth_pos A) as Hdp. unfold word in Ht.
  assert (HF : stub_frame th s + frame_size th = stub_top th s) by (unfold stub_frame; lia).
  set (F := stub_frame th s) in *. pose proof (in_handler_esp F th) as Hsp. set (c0 := in_handler t g F th) in *.
  cbn [length pred default_isr]. do 2 (erewrite run_next; [| reflexivity | reflexivity]).
  erewrite run_next; [| reflexivity | cbn [step segment_of]; unfold data_access; change (ds _) with (ds (th_cpu th)) at 1; rewrite Hd; reflexivity].
  erewrite run_next; [| reflexivity | cbn [step]; unfold data_access; change (ds _) with (ds (th_cpu th)) at 1; rewrite Hd; reflexivity].
  rewrite !get_put, put_put. match goal with |- context [Asm.run _ _ _ _ _ _ 5 ?c _] => set (c1 := c) end.
  assert (Hval : get EAX c1 = eflags (th_cpu th)).
  { change (get EAX c1) with (rd32 m (u32 (u32 (get ESP c0 + 40) + 0))). rewrite Hsp, Z.add_0_r, !u32_id by (rewrite ?u32_id; lia).
    apply Hs. }
  rewrite Hval. set (m1 := wr32 m default_vector (eflags (th_cpu th))).
  assert (Hfl : word (eflags (th_cpu th))).
  { destruct th as [? [[] ? ? ? ?]]. unfold words in Hw. rewrite !Forall_cons in Hw. cbn [th_cpu eflags]. tauto. }
  assert (Hsp1 : get ESP c1 = F) by exact Hsp.
  destruct (handler_tail (default_isr default_vector) 5 default_interrupt_handler c1 s m1 (Syscall.with_term tm s) th)
    as (m' & E & _); try done; rewrite ?Hsp1; try done; [apply in_handler_cpl | lia | lia | | |].
  { apply (saves_ext m); [| done]. intros x Hx. apply rd8_wr32_ne. lia. }
  { cbv zeta. cbn [kernel_code]. set (m2 := wr32 m1 _ _). rewrite get_put.
    assert (Em2 : rd32 m2 default_vector = eflags (th_cpu th)).
    { unfold m2, m1. rewrite rd32_wr32_ne by lia. by apply rd32_wr32_at. }
    change (Syscall.term (put_mem m2 s)) with (Syscall.term s). rewrite Em2, Hprint. done. }
  exists m'. exact E.
Qed.

(** ** Exceptions *)

(** An exception with an error code: the words on the stack after [pusha]. *)
Lemma fault_enters prog err th s (F := stub_frame th s - 4) :
  interruptible th s → prog !! 0%nat = Some Pusha →
  ∃ m, interrupted prog [err] th s = run (pred (length prog)) prog 1 (in_handler t g F th) (put_mem m s) ∧
    ∀ i v, pushed (esp0 (mach (Syscall.kern s))) [err] th !! i = Some v → rd32 m (stub_top th s - 4 * (Z.of_nat i + 1)) = u32 v.
Proof.
  intros [_ Ht Hr Hd _] Hp. pose proof (depth_pos A) as Hdp. unfold interrupted.
  pose proof (deliver_pusha t g (esp0 (mach (Syscall.kern s))) [err] th s Ht) as Ep.
  assert (Hl : 4 * zlen (pushed (esp0 (mach (Syscall.kern s))) [err] th) = frame_size th + 4).
  { unfold pushed, pushed_first, frame_size. by destruct (cpl (th_cpu th) =? 0). }
  pose proof (stub_frame_top th s) as Hft. unfold stub_frame in Hr, Hft. set (top := stub_top th s) in *. unfold word in Ht.
  destruct (push_all_spec (pushed (esp0 (mach (Syscall.kern s))) [err] th) top (get_mem s)) as (H1 & H2 & _); [lia |].
  rewrite (u32_id top) in H1, H2 by lia. change (stack_base (esp0 (mach (Syscall.kern s))) th) with top in Ep.
  rewrite Hl, u32_id in H1 by lia. cbv zeta in Ep. rewrite H1 in Ep.
  replace (top - (frame_size th + 4)) with F in Ep by (unfold F, stub_frame; lia).
  destruct (deliver _ _ _ _ _ _) as [c s']. cbn [fst snd] in Ep.
  eexists. split; [| exact H2]. destruct prog as [|i prog]; [done |]. cbn [length pred]. injection Hp as ->.
  eapply run_next; [done |]. by apply pusha_step.
Qed.

(** The words that the exception stubs read. *)
Lemma fault_stack m err th s (F := stub_frame th s - 4) :
  words th → word err →
  (∀ i v, pushed (esp0 (mach (Syscall.kern s))) [err] th !! i = Some v → rd32 m (stub_top th s - 4 * (Z.of_nat i + 1)) = u32 v) →
  rd32 m (F + 32) = err ∧ rd32 m (F + 36) = th_eip th ∧ rd32 m (F + 40) = cs (th_cpu th).
Proof.
  intros Hw He H2. unfold stub_frame in F. set (top := stub_top th s) in *. clearbody top.
  assert (Hv : ∀ (i : nat) v a, pushed (esp0 (mach (Syscall.kern s))) [err] th !! i = Some v → word v → a = top - 4 * (Z.of_nat i + 1) → rd32 m a = v).
  { intros i v a Hi Hv ->. rewrite (H2 i v Hi). by apply u32_id. }
  clear H2. unfold F. clear F. destruct th as [ip [[a c d b sp bp si di] f k st dt]]. unfold words in Hw. rewrite !Forall_cons in Hw.
  unfold pushed, pushed_first, frame_size in *. cbn [th_cpu th_eip gpr cpl cs eflags ss edi esi ebp ebx edx ecx eax esp] in *.
  change (cpl _) with (k mod 4) in *. destruct (k mod 4 =? 0); cbn [app] in Hv.
  - split_and!; [eapply (Hv 3%nat) | eapply (Hv 2%nat) | eapply (Hv 1%nat)]; (reflexivity || tauto || lia).
  - split_and!; [eapply (Hv 5%nat) | eapply (Hv 4%nat) | eapply (Hv 3%nat)]; (reflexivity || tauto || lia).
Qed.

(** A variable that the stack of a stub does not reach. *)
Definition off_stack (var : Z) th s : Prop := var + 4 ≤ stub_frame th s - depth A - 24 ∨ stub_top th s ≤ var.

(** A word of the stack goes to a variable. *)
Lemma store_stack_word n prog pc c s m off var (F := get ESP c) :
  prog !! pc = Some (Lea off ESP EAX) → prog !! S pc = Some (Load 0 EAX EAX) → prog !! S (S pc) = Some (StoreVar EAX var) →
  usable (ds c) = true → 0 ≤ F → 0 ≤ off → F + off < W32 →
  ∃ c', run (S (S (S n))) prog pc c (put_mem m s) = run n prog (3 + pc) c' (put_mem (wr32 m var (rd32 m (F + off))) s) ∧
    get ESP c' = F ∧ ds c' = ds c.
Proof.
  intros P0 P1 P2 Hd HF Ho Hw. eexists. split; [| split].
  - erewrite run_next; [| exact P0 | reflexivity].
    erewrite run_next; [| exact P1 | cbn [step segment_of]; unfold data_access; change (ds _) with (ds c) at 1; rewrite Hd; reflexivity].
    erewrite run_next; [| exact P2 | cbn [step]; unfold data_access; change (ds _) with (ds c) at 1; rewrite Hd; reflexivity].
    rewrite get_put, put_put. do 2 f_equal. cbn [get set rget rset gpr eax esp]. change (esp (gpr c)) with F.
    rewrite Z.add_0_r, !u32_id by (rewrite ?u32_id; lia). reflexivity.
  - done.
  - done.
Qed.

Lemma page_fault_stub_run err th s tm :
  interruptible th s → word err → off_stack pf_err th s →
  Faults.page_fault_handler fuel err cr2 (Syscall.term s) = Ok tm →
  ∃ m, interrupted (page_fault_stub pf_err) [err] th s = Ok (Dies (put_mem m (Syscall.with_term tm s))).
Proof.
  intros Hi He Hpf Hprint. destruct (fault_enters (page_fault_stub pf_err) err th s Hi eq_refl) as (m & -> & Hm).
  destruct Hi as [Hw Ht Hr Hd _]. pose proof (stub_frame_top th s) as Hft. pose proof (depth_pos A) as Hdp.
  destruct (fault_stack m err th s Hw He Hm) as (E1 & _). unfold word in Ht. unfold off_stack in Hpf.
  set (F := stub_frame th s - 4) in *. cbn [length pred page_fault_stub].
  destruct (store_stack_word 4 (page_fault_stub pf_err) 1 (in_handler t g F th) s m 32 pf_err) as (c & E & Hsp & Hdc);
    [done | done | done | done | cbn; lia | lia | cbn; lia |].
  rewrite E. clear E. change (get ESP (in_handler t g F th)) with F in *. rewrite E1.
  eexists. eapply run_stop; [reflexivity |].
  erewrite (call_c_step _ _ _ _ page_fault_handler 4 c _ Never); [reflexivity | by rewrite Hdc | lia |].
  unfold called_mem. rewrite Hsp, get_put, put_put. set (m2 := wr32 _ (F - 4) _). cbn [parameters args_at kernel_code].
  assert (Em2 : rd32 m2 pf_err = err) by (unfold m2; rewrite rd32_wr32_ne by lia; by apply rd32_wr32_at).
  rewrite get_put, Em2. change (Syscall.term (put_mem m2 s)) with (Syscall.term s). by rewrite Hprint.
Qed.

Lemma gp_stub_run err th s (F := stub_frame th s - 4) :
  interruptible th s → word err → off_stack gp_err th s → off_stack gp_eip th s → gp_err + 4 ≤ gp_eip ∨ gp_eip + 4 ≤ gp_err →
  ∃ m, rd32 m (F + 32) = err ∧ rd32 m (F + 36) = th_eip th ∧
    interrupted (gp_stub gp_err gp_eip) [err] th s =
    (let! tm := Faults.gp_handler fuel err (th_eip th) (args_at 12 F m) (Syscall.term s) in
     Ok (Dies (put_mem m (Syscall.with_term tm s)))).
Proof.
  intros Hi He Hge Hgi Hne. destruct (fault_enters (gp_stub gp_err gp_eip) err th s Hi eq_refl) as (m & -> & Hm).
  destruct Hi as [Hw Ht Hr Hd _]. pose proof (stub_frame_top th s) as Hft. pose proof (depth_pos A) as Hdp.
  destruct (fault_stack m err th s Hw He Hm) as (E1 & E2 & _). unfold word in Ht. unfold off_stack in *.
  fold F in E1, E2 |- *. assert (HF : F = stub_frame th s - 4) by done. clearbody F. clear Hm.
  assert (Hip : word (th_eip th)).
  { destruct th as [? [[] ? ? ? ?]]. unfold words in Hw. rewrite !Forall_cons in Hw. cbn [th_eip]. tauto. }
  cbn [length pred gp_stub].
  destruct (store_stack_word 9 (gp_stub gp_err gp_eip) 1 (in_handler t g F th) s m 32 gp_err) as (c1 & E & Hsp1 & Hd1);
    [done | done | done | done | cbn; lia | lia | cbn; lia |].
  rewrite E. clear E. change (get ESP (in_handler t g F th)) with F in *. rewrite E1.
  set (m1 := wr32 m gp_err err).
  destruct (store_stack_word 6 (gp_stub gp_err gp_eip) 4 c1 s m1 36 gp_eip) as (c2 & E & Hsp2 & Hd2);
    [done | done | done | by rewrite Hd1 | lia | lia | lia |].
  change (3 + 1)%nat with 4%nat. rewrite E. clear E. rewrite Hsp1 in *.
  assert (E2' : rd32 m1 (F + 36) = th_eip th) by (unfold m1; by rewrite rd32_wr32_ne by lia). rewrite E2'.
  set (m2 := wr32 m1 gp_eip (th_eip th)). change (3 + 4)%nat with 7%nat.
  erewrite run_next; [| reflexivity | apply push_step; lia]. rewrite get_put, put_put, Hsp2.
  exists (wr32 (wr32 m2 (F - 4) F) (F - 8) (address 9)). set (m3 := wr32 (wr32 m2 (F - 4) F) (F - 8) (address 9)).
  assert (Hm3 : ∀ a, F ≤ a → a + 4 ≤ F + 48 → rd32 m3 a = rd32 m a).
  { intros a H1 H2. unfold m3, m2, m1. by rewrite !rd32_wr32_ne by lia. }
  rewrite !Hm3 by lia. split; [done |]. split; [done |].
  assert (Ea : rd32 m3 (F - 4) = F) by (unfold m3; rewrite rd32_wr32_ne by lia; apply rd32_wr32_at; [done | unfold word; lia]).
  assert (Eg : rd32 m3 gp_err = err) by (unfold m3, m2, m1; rewrite !rd32_wr32_ne by lia; by apply rd32_wr32_at).
  assert (Ei : rd32 m3 gp_eip = th_eip th) by (unfold m3, m2; rewrite !rd32_wr32_ne by lia; by apply rd32_wr32_at).
  cbn [Asm.run]. change (gp_stub gp_err gp_eip !! 8%nat) with (Some (CallC gp_handler : instr cfun)). cbn [step].
  unfold call_c. change (ds (set ESP (F - 4) c2)) with (ds c2). rewrite Hd2, Hd1. change (ds (in_handler t g F th)) with (ds (th_cpu th)).
  rewrite Hd. rewrite push_one by (rewrite set_get_esp; lia). cbn [negb]. rewrite !set_get_esp, !get_put, !put_put.
  replace (F - 4 - 4) with (F - 8) by lia. fold m3. replace (F - 8 + 4) with (F - 4) by lia.
  cbn [parameters args_at]. rewrite u32_id by lia. rewrite Ea. cbn [kernel_code]. rewrite get_put, Eg, Ei.
  change (Syscall.term (put_mem m3 s)) with (Syscall.term s). by destruct (Faults.gp_handler _ _ _ _ _).
Qed.

(** ** Switching without an interrupt, and the first entry *)

(** [context_switch], entered like an interrupt, is the scheduling half of the
    timer interrupt. *)
Lemma context_switch_run th s :
  interruptible th s → let r := Scheduler.scheduler_tick (stub_frame th s) (Syscall.kern s) in
  ∃ e, interrupted context_switch [] th s = Ok e ∧ left_from th s r.1 (Syscall.with_kern r.2 s) e.
Proof.
  intros Hi. destruct (stub_enters context_switch th s Hi eq_refl) as (m & -> & _ & Hs & Ho). destruct Hi as [_ Ht Hr Hd _].
  pose proof (stub_frame_top th s) as Hft. pose proof (depth_pos A) as Hdp. unfold word in Ht.
  set (F := stub_frame th s) in *. set (top := stub_top th s) in *. cbn [length pred context_switch].
  erewrite run_next; [| reflexivity | reflexivity]. erewrite run_next; [| reflexivity | apply push_step; cbn; lia].
  rewrite get_put, put_put. match goal with |- context [Asm.run _ _ _ _ _ _ 3 ?c _] => set (c1 := c) end.
  change (get ESP (set EAX _ _)) with F. change (get EAX (set EAX _ _)) with F. set (m1 := wr32 m (F - 4) F).
  destruct (switch_tail context_switch 3 c1 (put_mem m1 s) F top (get_mem s))
    as (m4 & c4 & E4 & Hsp4 & Hss4 & Hds4 & Ho4 & Hkeep); try done.
  { apply in_handler_cpl. }
  { rewrite get_put. apply rd32_wr32_at; [done | unfold word; lia]. }
  { lia. }
  { unfold word. lia. }
  { rewrite get_put. apply same_outside_wr32; [| lia | lia]. eapply same_outside_trans; [exact Ho | done | lia | lia]. }
  { lia. }
  cbv zeta. rewrite E4. clear E4. eexists. split; [reflexivity |].
  change (Syscall.kern (put_mem m1 s)) with (Syscall.set_mem m1 (Syscall.kern s)) in *. rewrite tick_mem in *. cbn [fst snd] in *.
  exists m4, c4. split; [reflexivity |]. split; [exact Hsp4 |]. split; [by rewrite Hss4 |]. split; [by rewrite Hds4 |].
  split; [exact Ho4 |]. apply (saves_ext m); [| done]. intros x Hx. rewrite Hkeep by lia. rewrite get_put. apply rd8_wr32_ne. lia.
Qed.

(** [process_first_enter_asm] goes on with the registers saved at its argument. *)
Lemma enter_asm_run c s F th :
  cpl c = 0 → usable (ss c) = true → 0 ≤ get ESP c → get ESP c + 4 < W32 → rd32 (get_mem s) (get ESP c + 4) = F →
  saves (get_mem s) F th → F + frame_size th ≤ W32 →
  run 3 process_first_enter_asm 0 c s = Ok (Leaves (resumed t c th) s).
Proof.
  intros Hc Hss H0 H1 Harg Hs HF.
  erewrite run_next; [| reflexivity | cbn [step segment_of]; unfold data_access; rewrite Hss; reflexivity].
  rewrite u32_id by lia. rewrite Harg. rewrite resume_stack by done.
  rewrite (popa_iret_resumes t _ s th); [done | done | cbn; rewrite <- Harg; apply rd32_range | done].
Qed.

(** The first instruction of a process that runs in ring 0 or ring 3. *)
Definition kernel_start (entry top sel : Z) : thread :=
  mkThread entry (mkCpu (mkRegs 0 0 0 0 (u32 top) 0 0 0) 0x202 0x08 sel sel).
Definition user_start (entry user_esp sel : Z) : thread :=
  mkThread entry (mkCpu (mkRegs 0 0 0 0 user_esp 0 0 0) 0x202 0x1B 0x23 sel).

(** The frames that [process_create_kernel] and [process_create] build on
    a new kernel stack lead to the entry point when they are entered for the
    first time: a kernel task starts in ring 0 with an empty kernel stack, a
    user process in ring 3 on its own stack, both with interrupts on and
    cleared registers; the user process has no data segment. *)
Theorem first_entry_starts c s top entry user_esp (sp := get ESP c) :
  cpl c = 0 → ss c = 0x10 → ds c = 0x10 → Interrupts.seg_dpl (Interrupts.seg_of t 0x10) = 0 →
  0 ≤ sp → sp + 8 ≤ W32 → 52 ≤ top ≤ W32 → word entry → word user_esp →
  (let '(F, m) := build_kernel_frame (u32 top) entry (get_mem s) in
   rd32 m (sp + 4) = F →
   run 3 process_first_enter_asm 0 c (put_mem m s) = Ok (Leaves (kernel_start entry top 0x10) (put_mem m s))) ∧
  (let '(F, m) := build_user_frame (u32 top) entry user_esp (get_mem s) in
   rd32 m (sp + 4) = F →
   run 3 process_first_enter_asm 0 c (put_mem m s) = Ok (Leaves (user_start entry user_esp 0) (put_mem m s))).
Proof.
  intros Hc Hss Hds Hdpl H0 H1 Ht He Hu. assert (Huss : usable (ss c) = true) by (by rewrite Hss).
  assert (Hz : ∀ v, 0 ≤ v ≤ 1024 → word v) by (unfold word; lia). split.
  - destruct (frame_saves 0 (kernel_start entry top 0x10) top (get_mem s)) as (E1 & E2 & _); [| lia | | done |].
    { unfold words, kernel_start. repeat first [apply Forall_nil_2 | apply Forall_cons_2]; first [exact He | apply u32_range | apply Hz; lia]. }
    { change (frame_size _) with 44. lia. }
    change (push_all (frame 0 (kernel_start entry top 0x10)) (u32 top, get_mem s)) with (build_kernel_frame (u32 top) entry (get_mem s)) in *.
    destruct (build_kernel_frame _ _ _) as [F m]. cbn [fst snd] in *. intros Harg. change (frame_size _) with 44 in *. subst F.
    erewrite (enter_asm_run c (put_mem m s) (top - 44)); [| done | done | done | fold sp; lia | by rewrite get_put | by rewrite get_put | change (frame_size _) with 44; lia].
    unfold resumed, kernel_start. cbn [th_cpu th_eip gpr eflags cs ss ds]. change (cpl _ =? 0) with true. by rewrite Hss, Hds.
  - destruct (frame_saves 0 (user_start entry user_esp 0) top (get_mem s)) as (E1 & E2 & _); [| lia | | done |].
    { unfold words, user_start. repeat first [apply Forall_nil_2 | apply Forall_cons_2]; first [exact He | exact Hu | apply Hz; lia]. }
    { change (frame_size _) with 52. lia. }
    change (push_all (frame 0 (user_start entry user_esp 0)) (u32 top, get_mem s)) with (build_user_frame (u32 top) entry user_esp (get_mem s)) in *.
    destruct (build_user_frame _ _ _ _) as [F m]. cbn [fst snd] in *. intros Harg. change (frame_size _) with 52 in *. subst F.
    erewrite (enter_asm_run c (put_mem m s) (top - 52)); [| done | done | done | fold sp; lia | by rewrite get_put | by rewrite get_put | change (frame_size _) with 52; lia].
    unfold resumed, user_start. cbn [th_cpu th_eip gpr eflags cs ss ds]. change (cpl _) with 3. change (3 =? 0) with false.
    unfold leave_segment. by rewrite Hds, Hdpl.
Qed.

(** ** Ring 3 *)

Lemma push_words_ds vs c s : ds (push_words vs c s).1 = ds c.
Proof. by rewrite push_words_eq. Qed.

Lemma push_any r pc c s (p := push_words [get r c] c s) :
  step t code A address (Push r) pc c s = Ok (Next (S pc) p.1 p.2).
Proof. unfold p. cbn [step]. by destruct (push_words _ _ _). Qed.

Lemma deliver_ds esp0 err th s : ds (deliver t g esp0 err th s).1 = ds (th_cpu th).
Proof.
  unfold deliver. rewrite !push_words_eq. by destruct (cpl (th_cpu th) =? 0).
Qed.

Lemma deliver_cs esp0 err th s : cs (deliver t g esp0 err th s).1 = Interrupts.selector g.
Proof. unfold deliver. by destruct (if cpl (th_cpu th) =? 0 then _ else _). Qed.

(** A stub runs from the saved registers on, with the interrupted data segment. *)
Lemma stub_starts prog err th s :
  prog !! 0%nat = Some Pusha →
  ∃ c s', ds c = ds (th_cpu th) ∧ interrupted prog err th s = run (pred (length prog)) prog 1 c s'.
Proof.
  intros Hp. unfold interrupted. pose proof (deliver_ds (esp0 (mach (Syscall.kern s))) err th s) as Hd.
  destruct (deliver _ _ _ _ _ _) as [c s'] eqn:Ed. cbn [fst] in Hd. destruct (pusha c s') as [c1 s1] eqn:Ep.
  exists c1, s1. split.
  - rewrite <- Hd. unfold pusha in Ep. pose proof (push_words_ds [eax (gpr c); ecx (gpr c); edx (gpr c); ebx (gpr c);
      esp (gpr c); ebp (gpr c); esi (gpr c); edi (gpr c)] c s') as H. by rewrite Ep in H.
  - destruct prog as [|i prog]; [done |]. cbn [length pred]. injection Hp as ->. eapply run_next; [done |]. by apply pusha_step.
Qed.

(** A stub that calls a function from the saved registers on. *)
Lemma stub_calls prog f th s :
  prog !! 0%nat = Some Pusha → prog !! 1%nat = Some (CallC f) → (2 < length prog)%nat → usable (ds (th_cpu th)) = false →
  ∃ c w, interrupted prog [] th s = Ok (Unsupported f c w) ∧ ds c = ds (th_cpu th).
Proof.
  intros H0 H1 Hl Hd. destruct (stub_starts prog [] th s H0) as (c & w & Hc & ->).
  destruct prog as [|i1 [|i2 [|i3 prog]]]; cbn [length] in Hl; [lia | lia | lia |]. cbn [length pred]. eexists _, _. split.
  - eapply run_stop; [exact H1 |]. apply call_c_unsupported. by rewrite Hc.
  - by rewrite push_words_ds.
Qed.

(** C21: A process in ring 3 takes the data segment away from the kernel. The
    stubs neither save nor load it, so when the timer interrupt of a kernel
    thread, whose data segment is 0x10, leads to a process in ring 3, the
    processor clears the data segment, which ring 3 may not use. Of every
    interrupt that then arrives while it is still clear: the stubs of the timer,
    of the keyboard and of the system calls enter their C++ handlers without a
    data segment, on which compiled code relies; the stubs of the protection
    fault, of the page fault and of the vectors without a handler fault
    themselves, at the first word they read, before a handler is called; only
    the stub of vector 0 is not affected, which stops the processor. *)
Theorem ring3_loses_data_segment th s thu s1 :
  Interrupts.seg_dpl (Interrupts.seg_of t 0x10) = 0 →
  interruptible th s → ds (th_cpu th) = 0x10 →
  interrupted irq0 [] th s = Ok (Leaves thu s1) → cpl (th_cpu thu) = 3 →
  ds (th_cpu thu) = 0 ∧
  ∀ th2 s2 err, ds (th_cpu th2) = 0 →
    (∃ c w, interrupted irq0 [] th2 s2 = Ok (Unsupported irq_handler c w) ∧ ds c = ds (th_cpu th2)) ∧
    (∃ c w, interrupted irq1 [] th2 s2 = Ok (Unsupported keyboard_irq_handler c w) ∧ ds c = ds (th_cpu th2)) ∧
    (∃ c w, interrupted syscall_stub [] th2 s2 = Ok (Unsupported syscall_dispatch c w) ∧ ds c = ds (th_cpu th2)) ∧
    (∃ c w, interrupted (default_isr default_vector) [] th2 s2 = Ok (Faults 3 c w)) ∧
    (∃ c w, interrupted (gp_stub gp_err gp_eip) [err] th2 s2 = Ok (Faults 2 c w)) ∧
    (∃ c w, interrupted (page_fault_stub pf_err) [err] th2 s2 = Ok (Faults 2 c w)) ∧
    (∃ c w, interrupted isr0 [] th2 s2 = Ok (Halts 2 c w) ∧ interrupts_on c = false).
Proof.
  intros Hdpl Hin Hds E Hring.
  assert (Hnull : ds (th_cpu thu) = 0).
  { destruct (irq0_kernel th s thu s1 Hin E) as (c & _ & -> & _ & _ & Hdc & _ & _). revert Hring. unfold iret.
    cbn [th_cpu]. set (ring := stack_word 1 (popa c s1) s1 mod 4). destruct (Z.eqb_spec ring 0) as [E0 | Hne].
    - intros H. change (ring = 3) in H. lia.
    - intros H. change (ring = 3) in H. cbn [ds]. change (ds (popa c s1)) with (ds c). rewrite Hdc, Hds, H.
      unfold leave_segment. by rewrite Hdpl. }
  split; [done |]. intros th2 s2 err Hd2.
  assert (Hu : usable (ds (th_cpu th2)) = false) by (by rewrite Hd2). split_and!.
  - by apply (stub_calls irq0); [| | cbn; lia |].
  - by apply (stub_calls irq1); [| | cbn; lia |].
  - destruct (stub_starts syscall_stub [] th2 s2 eq_refl) as (c & w & Hc & ->). eexists _, _. cbn [length pred syscall_stub].
    do 4 (erewrite run_next; [| reflexivity | apply push_any]). split.
    + eapply run_stop; [reflexivity |]. apply call_c_unsupported. by rewrite !push_words_ds, Hc.
    + by rewrite !push_words_ds.
  - destruct (stub_starts (default_isr default_vector) [] th2 s2 eq_refl) as (c & w & Hc & ->). eexists _, _. cbn [length pred default_isr].
    do 2 (erewrite run_next; [| reflexivity | reflexivity]).
    eapply run_stop; [reflexivity |]. cbn [step segment_of]. unfold data_access. change (ds _) with (ds c) at 1. rewrite Hc, Hu. reflexivity.
  - destruct (stub_starts (gp_stub gp_err gp_eip) [err] th2 s2 eq_refl) as (c & w & Hc & ->). eexists _, _. cbn [length pred gp_stub].
    erewrite run_next; [| reflexivity | reflexivity].
    eapply run_stop; [reflexivity |]. cbn [step segment_of]. unfold data_access. cbn [ds set]. rewrite Hc, Hu. reflexivity.
  - destruct (stub_starts (page_fault_stub pf_err) [err] th2 s2 eq_refl) as (c & w & Hc & ->). eexists _, _. cbn [length pred page_fault_stub].
    erewrite run_next; [| reflexivity | reflexivity].
    eapply run_stop; [reflexivity |]. cbn [step segment_of]. unfold data_access. cbn [ds set]. rewrite Hc, Hu. reflexivity.
  - unfold interrupted. pose proof (deliver_cs (esp0 (mach (Syscall.kern s2))) [] th2 s2) as Hcs.
    destruct (deliver _ _ _ _ _ _) as [c w]. cbn [fst] in Hcs. assert (Hc : cpl c = 0) by (unfold cpl; by rewrite Hcs, gate_kernel).
    eexists _, _. split.
    + cbn [length isr0]. erewrite run_next; [| reflexivity | cbn [step]; unfold privileged; rewrite Hc; reflexivity].
      eapply run_stop; [reflexivity |]. cbn [step]. unfold privileged. change (cpl (with_flags _ c)) with (cpl c). by rewrite Hc.
    + unfold interrupts_on, with_flags, put_bit. cbn [eflags]. by apply Z.clearbit_eq.
Qed.
End stubs.

(** ** Concrete runs *)

Import Pmm.

Definition demo_abi : abi cfun parameters := simple_abi parameters.
Definition demo_tables : Interrupts.tables :=
  Interrupts.tss_init 0x105000 0x108000 (Interrupts.gdt_init 0x104000 Interrupts.boot_tables).
Definition demo_gate : Interrupts.IDTEntry := Interrupts.mkIdt 0x500 0x08 0 0x8E 0x10.
(** Three kernel tasks; number 0 runs. *)
Definition demo_state : Syscall.system Pmm.pmm Terminal.ready_bus :=
  Syscall.mkSys (three 0) (Keyboard.keyboard_init, Keyboard.mkKbuf (replicate 256 0) 0 0) Terminal.clear_screen 41 0.
(** Task number [n] somewhere in its code. *)
Definition demo_thread (n : Z) : thread :=
  mkThread (0x100500 + n) (mkCpu (mkRegs (n + 1) 20 30 40 (0x8F80 + n * 0x2000) 60 70 80) 0x202 0x08 0x10 0x10).

#[local] Notation demo prog := (interrupted demo_tables demo_gate demo_abi (λ n, 0x100400 + Z.of_nat n) 0x106000 0x106004 0x106008 0x10600C 0 1 prog).
Definition after (e : outcome (exit (Syscall.system Pmm.pmm Terminal.ready_bus) cfun)) (s : Syscall.system Pmm.pmm Terminal.ready_bus) :
    thread * Syscall.system Pmm.pmm Terminal.ready_bus :=
  match e with Ok (Leaves th s) => (th, s) | _ => (demo_thread 0, s) end.
Definition run1 := after (demo irq0 [] (demo_thread 0) demo_state) demo_state.
Definition run2 := after (demo irq0 [] (demo_thread 1) run1.2) demo_state.
Definition run3 := after (demo irq0 [] (demo_thread 2) run2.2) demo_state.

Lemma demo_interruptible n (s : Syscall.system Pmm.pmm Terminal.ready_bus) : 0 ≤ n < 3 → interruptible demo_tables demo_gate demo_abi (demo_thread n) s.
Proof.
  intros Hn. constructor.
  - unfold words, demo_thread. repeat first [apply Forall_nil_2 | apply Forall_cons_2]; unfold word; lia.
  - change (stub_top (demo_thread n) s) with (0x8F80 + n * 0x2000). unfold word. lia.
  - change (stub_frame (demo_thread n) s) with (0x8F80 + n * 0x2000 - 44). change (depth demo_abi) with 0. lia.
  - reflexivity.
  - reflexivity.
Qed.

Lemma demo_leaves th (s d : Syscall.system Pmm.pmm Terminal.ready_bus) (e := demo irq0 [] th s) :
  interruptible demo_tables demo_gate demo_abi th s → e = Ok (Leaves (after e d).1 (after e d).2).
Proof.
  intros Hi. destruct (irq0_stub_run demo_tables demo_gate demo_abi (λ n, 0x100400 + Z.of_nat n) 0x106000 0x106004 0x106008 0x10600C 0 1
    eq_refl th s Hi) as (x & E & m & c & Ex & _). unfold e. rewrite E, Ex. reflexivity.
Qed.

Lemma demo_runs :
  demo irq0 [] (demo_thread 0) demo_state = Ok (Leaves run1.1 run1.2) ∧
  demo irq0 [] (demo_thread 1) run1.2 = Ok (Leaves run2.1 run2.2) ∧
  demo irq0 [] (demo_thread 2) run2.2 = Ok (Leaves run3.1 run3.2) ∧
  current_process (Syscall.kern run1.2) = 1 ∧ current_process (Syscall.kern run2.2) = 2 ∧
  current_process (Syscall.kern run3.2) = 0.
Proof.
  split; [apply demo_leaves, demo_interruptible; lia |]. split; [apply demo_leaves, demo_interruptible; lia |].
  split; [apply demo_leaves, demo_interruptible; lia |]. split; [vm_compute; reflexivity |].
  split; vm_compute; reflexivity.
Qed.

Lemma preemption_transparent_witness :
  run3.1 = demo_thread 0 ∧ stub_frame (demo_thread 0) demo_state = 0x8F80 - 44.
Proof.
  destruct demo_runs as (E1 & E2 & E3 & C1 & C2 & C3). split; [| reflexivity].
  destruct (preemption_transparent demo_tables demo_gate demo_abi (λ n, 0x100400 + Z.of_nat n) 0x106000 0x106004 0x106008 0x10600C 0 1
    eq_refl 0 (mkProcess 1 1 TASK_RUNNING RING_KERNEL 4194304 0x9000 0x8F00 0 0 0 0 0 0 0) (demo_thread 0) demo_state run1.1 run1.2)
    as [_ Hlater].
  - apply three_wf. lia.
  - reflexivity.
  - cbn. lia.
  - reflexivity.
  - reflexivity.
  - split_and!; reflexivity.
  - apply demo_interruptible. lia.
  - exact E1.
  - destruct (Hlater 1%nat run2.2 (demo_thread 2) run3.1 run3.2) as [_ Hth].
    + eapply elsewhere_tick; [apply elsewhere_here | rewrite C1; discriminate | apply (demo_interruptible 1); lia | | exact E2].
      left. vm_compute. discriminate.
    + rewrite C2. discriminate.
    + split_and!; reflexivity.
    + apply demo_interruptible. lia.
    + left. vm_compute. discriminate.
    + exact E3.
    + exact (Hth C3).
Defined.

(** Call 1 of task 0 in this state gives the 41 ticks. *)
Definition call1 := after (demo syscall_stub [] (demo_thread 0) demo_state) demo_state.
Definition call2 := after (demo irq0 [] (demo_thread 1) call1.2) demo_state.
Definition call3 := after (demo irq0 [] (demo_thread 2) call2.2) demo_state.
Definition dispatched : Syscall.system Pmm.pmm Terminal.ready_bus :=
  at_dispatch demo_tables demo_gate (λ n, 0x100400 + Z.of_nat n) (demo_thread 0) demo_state.

Lemma demo_calls :
  demo syscall_stub [] (demo_thread 0) demo_state = Ok (Leaves call1.1 call1.2) ∧
  demo irq0 [] (demo_thread 1) call1.2 = Ok (Leaves call2.1 call2.2) ∧
  demo irq0 [] (demo_thread 2) call2.2 = Ok (Leaves call3.1 call3.2) ∧
  current_process (Syscall.kern call1.2) = 1 ∧ current_process (Syscall.kern call2.2) = 2 ∧
  current_process (Syscall.kern call3.2) = 0 ∧
  Syscall.syscall_dispatch 1 1 40 20 30 dispatched = Ok (41, dispatched) ∧
  ∃ m, Syscall.kern dispatched = Syscall.set_mem m (three 0).
Proof.
  assert (Ed : Syscall.syscall_dispatch 1 1 40 20 30 dispatched = Ok (41, dispatched)) by reflexivity.
  split; [| split; [| split]].
  - destruct (syscall_stub_run demo_tables demo_gate demo_abi (λ n, 0x100400 + Z.of_nat n) 0x106000 0x106004 0x106008 0x10600C 0 1
      eq_refl (demo_thread 0) demo_state 41 dispatched (demo_interruptible 0 _ ltac:(lia)) Ed) as (_ & m & c & E & _).
    cbv zeta in E. unfold call1. rewrite E. reflexivity.
  - apply demo_leaves, demo_interruptible. lia.
  - apply demo_leaves, demo_interruptible. lia.
  - split; [vm_compute; reflexivity |]. split; [vm_compute; reflexivity |]. split; [vm_compute; reflexivity |].
    split; [exact Ed |]. destruct (at_dispatch_mem demo_tables demo_gate (λ n, 0x100400 + Z.of_nat n) (demo_thread 0) demo_state) as [m E].
    exists m. unfold dispatched. rewrite E. reflexivity.
Qed.

Lemma syscall_returns_to_caller_witness : call3.1 = answered 41 (demo_thread 0).
Proof.
  destruct demo_calls as (E1 & E2 & E3 & C1 & C2 & C3 & Ed & m & Ek).
  destruct (syscall_returns_to_caller demo_tables demo_gate demo_abi (λ n, 0x100400 + Z.of_nat n) 0x106000 0x106004 0x106008 0x10600C 0 1
    eq_refl 0 (mkProcess 1 1 TASK_RUNNING RING_KERNEL 4194304 0x9000 0x8F00 0 0 0 0 0 0 0) (demo_thread 0) demo_state 41 dispatched
    call1.1 call1.2) as [_ Hlater].
  - apply demo_interruptible. lia.
  - exact Ed.
  - intros x Hx. reflexivity.
  - rewrite Ek. apply Syscall.set_mem_wf, three_wf. lia.
  - rewrite Ek. reflexivity.
  - rewrite Ek. cbn. lia.
  - rewrite Ek. reflexivity.
  - reflexivity.
  - exact E1.
  - destruct (Hlater 1%nat call2.2 (demo_thread 2) call3.1 call3.2) as [_ Hth];
      [| | | | exact E3 | exact C3 | apply Hth; split_and!; reflexivity].
    + eapply elsewhere_tick; [apply elsewhere_here | rewrite C1; discriminate | apply (demo_interruptible 1); lia | | exact E2].
      left. vm_compute. discriminate.
    + rewrite C2. discriminate.
    + apply demo_interruptible. lia.
    + left. vm_compute. discriminate.
Defined.

(** The same tasks with a user process in slot 1, its first frame in memory. *)
Definition user_state : Syscall.system Pmm.pmm Terminal.ready_bus :=
  put_mem (build_user_frame 0xAF34 0x40000000 0x40002000 ∅).2 demo_state.
Definition user_run := after (demo irq0 [] (demo_thread 0) user_state) demo_state.

Lemma user_runs :
  demo irq0 [] (demo_thread 0) user_state = Ok (Leaves user_run.1 user_run.2) ∧ cpl (th_cpu user_run.1) = 3 ∧
  user_run.1 = user_start 0x40000000 0x40002000 0.
Proof.
  split; [apply demo_leaves, (demo_interruptible 0); lia |]. split; vm_compute; reflexivity.
Qed.

Lemma ring3_loses_data_segment_witness :
  ds (th_cpu user_run.1) = 0 ∧ ∃ c w, demo syscall_stub [] user_run.1 user_run.2 = Ok (Unsupported syscall_dispatch c w) ∧ ds c = ds (th_cpu user_run.1).
Proof.
  destruct user_runs as (E & Hr & _).
  destruct (ring3_loses_data_segment demo_tables demo_gate demo_abi (λ n, 0x100400 + Z.of_nat n) 0x106000 0x106004 0x106008 0x10600C 0 1
    eq_refl (demo_thread 0) user_state user_run.1 user_run.2) as [Hd Hf].
  - reflexivity.
  - apply demo_interruptible. lia.
  - reflexivity.
  - exact E.
  - exact Hr.
  - split; [exact Hd |]. destruct (Hf user_run.1 user_run.2 0 Hd) as (_ & _ & H & _). exact H.
Defined.

(** The boot processor about to enter the first task, whose frame is at 0x8FD4. *)
Definition entering : Syscall.system Pmm.pmm Terminal.ready_bus :=
  put_mem (wr32 (get_mem demo_state) 0x107F04 (0x9000 - 44)) demo_state.

Lemma entering_argument :
  let f := build_kernel_frame 0x9000 0x100500 (get_mem entering) in rd32 f.2 (0x107F00 + 4) = f.1.
Proof. vm_compute. reflexivity. Qed.

Lemma first_entry_starts_witness :
  let m := (build_kernel_frame 0x9000 0x100500 (get_mem entering)).2 in
  run demo_tables (kernel_code 0x106000 0x106004 0x106008 0x10600C 0 1) demo_abi (λ n, 0x100400 + Z.of_nat n) 3 process_first_enter_asm 0
    (mkCpu (mkRegs 0 0 0 0 0x107F00 0 0 0) 0x2 0x08 0x10 0x10) (put_mem m entering) =
  Ok (Leaves (kernel_start 0x100500 0x9000 0x10) (put_mem m entering)).
Proof.
  destruct (first_entry_starts demo_tables demo_abi (λ n, 0x100400 + Z.of_nat n) 0x106000 0x106004 0x106008 0x10600C 0 1
    (mkCpu (mkRegs 0 0 0 0 0x107F00 0 0 0) 0x2 0x08 0x10 0x10) entering 0x9000 0x100500 0x40002000) as [H _].
  - reflexivity.
  - reflexivity.
  - reflexivity.
  - reflexivity.
  - cbn. lia.
  - cbn. lia.
  - lia.
  - unfold word. lia.
  - unfold word. lia.
  - pose proof entering_argument as Ha. cbv zeta in Ha |- *. change (u32 0x9000) with 0x9000 in H.
    destruct (build_kernel_frame 0x9000 0x100500 (get_mem entering)) as [F m]. exact (H Ha).
Defined.
End Stubs.
