(* ===== verification/Boot.v ===== *)
(** * Programs at the edges of the kernel: [boot.s], [scheduler/task_trampoline.s],
    [user/user_entry.s] and the program of [fs/hello_elf.h]

    How the processor gets from the boot loader to [kernel_main] and on to the
    first task, how a task of [scheduler/task.cpp] begins and ends, and what the
    two programs for ring 3 do. *)

From stdpp Require Import strings.
From S2P Require Import Prelude Interfaces Machine Libk Pmm Multiboot Ports Process Scheduler Ipc Terminal Faults Interrupts Task Syscall Rotation Pci Commands Shell Kernel Startup Asm Stubs.
#[local] Open Scope Z_scope.

Module Boot.
Import Pmm Process Asm.
#[local] Existing Instance Stubs.system_mem.

(** ** The boot loader's header and the first instructions *)

Definition multiboot_header : list Z := [0x1BADB002; 0; u32 (- 0x1BADB002)].

(** The loader accepts the header: magic number, no demands, and a sum of zero. *)
Lemma multiboot_header_ok :
  multiboot_header !! 0%nat = Some 0x1BADB002 ∧ multiboot_header !! 1%nat = Some 0 ∧ u32 (foldr Z.add 0 multiboot_header) = 0.
Proof. done. Qed.

Inductive boot_fun := kernel_main.
Definition boot_parameters (f : boot_fun) : nat := 2.

Section start.
Context {D : Type} `{!PortIO D}.
Variables (L : Commands.layout) (I : Kernel.image).
Variable fuel : nat.

(** The kernel, and how [kernel_main] ended. *)
Definition booting : Type := @Kernel.kstate D * option (@Kernel.boot_end D).

#[export] Instance booting_mem : HasMem booting.
Proof.
  refine {| get_mem b := mem (Commands.machine_of (Kernel.sh b.1));
            put_mem m b := (Kernel.mkKstate (Commands.set_machine (with_mem m (Commands.machine_of (Kernel.sh b.1))) (Kernel.sh b.1))
                              (Kernel.tabs b.1) (Kernel.g_mbi b.1), b.2) |}.
  - done.
  - done.
  - intros [[[[[[]]]]] ?]. done.
Defined.

(** It does not come back. *)
Definition boot_code (f : boot_fun) (args : list Z) (b : booting) : outcome (answer * booting) :=
  match args with
  | [magic; addr] => let! e := Kernel.kernel_main L I fuel magic addr b.1 in Ok (Never, (b.1, Some e))
  | _ => Undef
  end.

Definition _start : list (instr boot_fun) :=
  [MovI (Kernel.stack_top I) ESP; Mov ESP EBP; Push EBX; Push EAX; CallC kernel_main; Cli; Hlt; Jmp 5].
End start.

Section power_on.
Context {D : Type} `{!PortIO D, !Terminal.SerialReady (D := D), !Pci.ConfigBus D, !Startup.PlainPc D}.
Variables (L : Commands.layout) (I : Kernel.image).
Variable fuel : nat.
(** What the compiled code leaves, and where the instructions lie. *)
Variables (A : abi boot_fun boot_parameters) (B : abi Stubs.cfun Stubs.parameters).
Variable address : nat → Z.
Variables (t : Interrupts.tables) (default_vector gp_err gp_eip pf_err cr2 : Z).
Implicit Types x : @Kernel.kstate D.
#[local] Notation top := (Kernel.stack_top I).

(** The registers of a frame in memory, for a task of ring 0. *)
Definition thread_at (m : memory) (F sel : Z) : thread :=
  mkThread (rd32 m (F + 32))
    (mkCpu (mkRegs (rd32 m (F + 28)) (rd32 m (F + 24)) (rd32 m (F + 20)) (rd32 m (F + 16)) (u32 (F + 44)) (rd32 m (F + 8))
              (rd32 m (F + 4)) (rd32 m F)) (rd32 m (F + 40)) (rd32 m (F + 36)) sel sel).

Lemma thread_at_saves m F sel : rd32 m (F + 36) = 0x08 → saves m F (thread_at m F sel).
Proof. intros E. unfold saves, thread_at. cbn. rewrite E. done. Qed.

(** [_start] calls [kernel_main] with what the loader left in [eax] and [ebx]. *)
Lemma start_calls c (b : @booting D) e :
  usable (ds c) = true → 12 ≤ top < W32 → word (get EAX c) → word (get EBX c) →
  let m := wr32 (wr32 (wr32 (get_mem b) (top - 4) (get EBX c)) (top - 8) (get EAX c)) (top - 12) (address 5) in
  Kernel.kernel_main L I fuel (get EAX c) (get EBX c) (put_mem m b).1 = Ok e →
  run t (boot_code L I fuel) A address 8 (_start I) 0 c b = Ok (Dies ((put_mem m b).1, Some e)).
Proof.
  intros Hd Ht Ha Hb m Hk. do 2 (erewrite run_next; [| reflexivity | reflexivity]). rewrite (u32_id top) by lia.
  erewrite run_next; [| reflexivity | apply push_step; cbn; lia]. change (get ESP (set EBP _ _)) with top.
  change (get EBX (set EBP _ _)) with (get EBX c).
  erewrite run_next; [| reflexivity | apply push_step; cbn; lia]. rewrite get_put, put_put.
  match goal with |- context [run _ _ _ _ _ _ 4 ?c0 (put_mem ?m0 _)] => set (c1 := c0); set (m1 := m0) end.
  assert (Em : called_mem address 4 c1 (put_mem m1 b) = m).
  { unfold called_mem. rewrite get_put. change (get ESP c1) with (top - 4 - 4). unfold m, m1.
    change (get EAX (set ESP _ _)) with (get EAX c). change (get ESP (set ESP (top - 4) _)) with (top - 4).
    replace (top - 4 - 4 - 4) with (top - 12) by lia. by replace (top - 4 - 4) with (top - 8) by lia. }
  eapply run_stop; [reflexivity |]. erewrite (call_c_step _ _ _ _ kernel_main 4 c1 _ Never); [reflexivity | done | cbn; lia |].
  rewrite Em, put_put. change (get ESP c1) with (top - 4 - 4). replace (top - 4 - 4) with (top - 8) by lia.
  unfold boot_parameters. cbn [args_at]. rewrite !u32_id by lia.
  assert (E1 : rd32 m (top - 8) = get EAX c) by (unfold m; rewrite rd32_wr32_ne by lia; by apply rd32_wr32_at).
  assert (E2 : rd32 m (top - 8 + 4) = get EBX c) by (unfold m; rewrite !rd32_wr32_ne by lia; apply rd32_wr32_at; [lia | done]).
  rewrite E1, E2. unfold boot_code. by rewrite Hk.
Qed.
Lemma reported_same m m' a :
  0 ≤ a → a + 12 ≤ W32 → (∀ z, a ≤ z < a + 12 → rd8 m' z = rd8 m z) → Multiboot.reported_kb m' a = Multiboot.reported_kb m a.
Proof.
  intros Hlo Hhi Hz. unfold Multiboot.reported_kb, Multiboot.mbi_at. cbn [Multiboot.mem_lower Multiboot.mem_upper].
  rewrite !(u32_id (a + _)) by lia. f_equal; apply rd32_ext; intros z Hz'; apply Hz; lia.
Qed.

(** C6: From power-on to the shell. The machine has a serial line that is ready,
    no ATA drive and no RTL8139 card, whatever else is on its PCI bus, and 5 to
    1024 MiB of memory; the page tables and the user code of the kernel's image
    lie below 4 MiB and its variables are as loaded. The boot loader jumps to
    [_start] with its magic number in [eax], a data segment, and in [ebx] the
    address of its information, which the first three words of the boot stack do
    not overlap. Then the instructions of [boot.s] put
    the stack in place and call [kernel_main] with these two arguments, and
    [kernel_main] ends by entering a task with a stack pointer from which
    [process_first_enter_asm], in ring 0 with one flat segment for data and
    stack, continues at the first instruction of the shell, in ring 0, with
    interrupts on and an empty stack. *)
Theorem power_on_reaches_shell c x (addr := get EBX c)
    (mb := Multiboot.reported_kb (mem (Commands.machine_of (Kernel.sh x))) addr / 1024) :
  Startup.image_ok I → Startup.pristine x → 5 ≤ mb ≤ 1024 → (2 < fuel)%nat →
  get EAX c = 0x2BADB002 → 0 < addr → addr + 12 ≤ W32 → addr + 12 ≤ top - 12 ∨ top ≤ addr →
  usable (ds c) = true → 12 ≤ top < W32 →
  ∃ x0 esp x', run t (boot_code L I fuel) A address 8 (_start I) 0 c (x, None) = Ok (Dies (x0, Some (Kernel.Entered esp x'))) ∧
    ∀ c2 (s2 : Syscall.system Pmm.pmm D),
      cpl c2 = 0 → usable (ss c2) = true → ss c2 = ds c2 → 0 ≤ get ESP c2 → get ESP c2 + 4 < W32 →
      rd32 (get_mem s2) (get ESP c2 + 4) = esp →
      (∀ a, esp ≤ a < esp + 44 → rd8 (get_mem s2) a = rd8 (mem (Commands.machine_of (Kernel.sh x'))) a) →
      ∃ th, run t (Stubs.kernel_code default_vector gp_err gp_eip pf_err cr2 fuel) B address 3 Stubs.process_first_enter_asm 0 c2 s2 =
          Ok (Leaves th s2) ∧
        th_eip th = Kernel.shell_task I ∧ cpl (th_cpu th) = 0 ∧ interrupts_on (th_cpu th) = true ∧
        get ESP (th_cpu th) = u32 (esp + 44).
Proof.
  intros Hok Hpr Hmb Hf Ha Hb Hb2 Hap Hd Ht. set (b := (x, None) : @booting D).
  set (m := wr32 (wr32 (wr32 (get_mem b) (top - 4) (get EBX c)) (top - 8) (get EAX c)) (top - 12) (address 5)).
  set (x1 := (put_mem m b).1).
  assert (Er : Multiboot.reported_kb (mem (Commands.machine_of (Kernel.sh x1))) addr =
               Multiboot.reported_kb (mem (Commands.machine_of (Kernel.sh x))) addr).
  { apply reported_same; [lia | lia |]. intros z Hz. change (mem _) with m at 1. unfold m. by rewrite !rd8_wr32_ne by lia. }
  assert (Hpr1 : Startup.pristine x1) by (by destruct Hpr; constructor).
  destruct (Startup.kernel_main_run L I fuel addr x1 Hok Hpr1 ltac:(lia) ltac:(by rewrite Er) Hf)
    as (esp & x' & p1 & p2 & p3 & E & _ & _ & _ & _ & _ & _ & _ & _ & Hent & _).
  exists x1, esp, x'. split.
  - apply (start_calls c b); [done | done | rewrite Ha; unfold word; lia | unfold word; fold addr; lia |].
    assert (E' : Kernel.kernel_main L I fuel (get EAX c) addr x1 = Ok (Kernel.Entered esp x')) by (rewrite Ha; exact E). exact E'.
  - intros c2 s2 Hc2 Hss Hsd Hlo Hhi Harg Hm. destruct Hent as (E1 & E2 & E3 & E4 & E5). unfold Startup.enters in *.
    set (mx := mem (Commands.machine_of (Kernel.sh x'))) in *.
    assert (Hw : ∀ o, 0 ≤ o ≤ 40 → rd32 (get_mem s2) (esp + o) = rd32 mx (esp + o)) by (intros o Ho; apply rd32_ext; intros a Hz; apply Hm; lia).
    change (mem (mach (Syscall.kern (Commands.sys (Kernel.sh x'))))) with mx in E1, E2, E3.
    exists (thread_at (get_mem s2) esp (ss c2)). split.
    + erewrite Stubs.enter_asm_run; [| done | done | done | done | exact Harg | apply (thread_at_saves _ _ (ss c2)); by rewrite Hw by lia |].
      * unfold resumed, thread_at. cbn [th_cpu th_eip]. unfold cpl. cbn [cs gpr eflags]. rewrite (Hw 36), E2 by lia. by rewrite Hsd.
      * unfold frame_size, cpl, thread_at. cbn [th_cpu cs]. rewrite (Hw 36), E2 by lia. done.
    + unfold thread_at, cpl, interrupts_on. cbn [th_cpu th_eip cs eflags]. rewrite !Hw by lia. rewrite E1, E2, E3. done.
Qed.
End power_on.

(** ** Tasks *)

Definition task_trampoline : list (instr Stubs.cfun) :=
  [CallReg EAX; CallC Stubs.scheduler_mark_dead; Sti; Hlt; Jmp 2].

Section trampoline.
Context {Pg D : Type} `{!PageAllocOps Pg} `{!PortIO D}.
Variables (t : Interrupts.tables) (A : abi Stubs.cfun Stubs.parameters) (address : nat → Z).
Variables (default_vector gp_err gp_eip pf_err cr2 : Z) (fuel : nat).
Implicit Types s : Syscall.system Pg D.
#[local] Notation run := (run t (Stubs.kernel_code default_vector gp_err gp_eip pf_err cr2 fuel) A address).

(** A new task at the trampoline, with its entry in [eax]. *)
Definition task_start (trampoline entry top sel : Z) : thread :=
  mkThread trampoline (mkCpu (mkRegs entry 0 0 0 (u32 top) 0 0 0) 0x202 0x08 sel sel).

Lemma stack_ready_saves m trampoline e sp stack sel :
  word trampoline → word e → Task.stack_ready m trampoline e sp stack →
  saves m sp (task_start trampoline e (stack + 4096) sel).
Proof.
  intros Ht He (-> & Hz & E1 & E2 & E3 & E4). unfold saves, task_start. cbn [th_cpu th_eip gpr edi esi ebp ebx edx ecx eax esp cs eflags ss].
  change (cpl _) with 0. set (F := stack + 4096 - 44) in *.
  pose proof (Hz 0 ltac:(lia)) as Z0. rewrite Z.add_0_r in Z0. pose proof (Hz 1 ltac:(lia)). pose proof (Hz 2 ltac:(lia)).
  pose proof (Hz 4 ltac:(lia)). pose proof (Hz 5 ltac:(lia)). pose proof (Hz 6 ltac:(lia)).
  rewrite E1, E2, !u32_id by done. split_and!; try done. cbn. f_equal. unfold F. lia.
Qed.

(** The life of a task of [task_create]. From the stack of the new task
    [popa] and [iret] lead to the trampoline, which calls the entry of the task
    with its own next instruction as the return address, on an otherwise empty
    stack. When the entry returns, the trampoline marks the current process as
    dead and waits for interrupts for ever, with interrupts enabled. *)
Theorem trampoline_runs_task m trampoline e sp stack c s :
  word trampoline → word e → page_addr stack → stack + 4096 < W32 → Task.stack_ready m trampoline e sp stack →
  cpl c = 0 → ss c = ds c → get ESP c = sp →
  (let th := iret t (popa c (put_mem m s)) (put_mem m s) in
   th = task_start trampoline e (stack + 4096) (ds c) ∧
   ∃ c1 s1, run 1 task_trampoline 0 (th_cpu th) (put_mem m s) = Ok (Jumps e 1 c1 s1) ∧
     get ESP c1 = stack + 4092 ∧ rd32 (get_mem s1) (stack + 4092) = u32 (address 1)) ∧
  (∀ c2 s2, cpl c2 = 0 → usable (ds c2) = true → get ESP c2 = stack + 4096 →
   ∃ c3 s3 m3, run 3 task_trampoline 1 c2 s2 = Ok (Halts 4 c3 s3) ∧ interrupts_on c3 = true ∧ cpl c3 = 0 ∧
     s3 = put_mem m3 (Syscall.with_kern (Scheduler.scheduler_mark_dead (Syscall.kern s2)) s2)) ∧
  (∀ c2 s2, cpl c2 = 0 → ∃ c3, run 3 task_trampoline 4 c2 s2 = Ok (Halts 4 c3 s2) ∧ interrupts_on c3 = true ∧ cpl c3 = 0).
Proof.
  intros Htr He (Hp1 & Hp2 & _) Hw Hr Hc Hsd Hsp.
  assert (Hif : ∀ f, Z.testbit (put_bit true 9 f) 9 = true) by (intros f; unfold put_bit; by rewrite Z.setbit_eq).
  split; [| split].
  - pose proof (stack_ready_saves m trampoline e sp stack (ds c) Htr He Hr) as Hs. destruct Hr as (Esp & _).
    assert (Eth : iret t (popa c (put_mem m s)) (put_mem m s) = task_start trampoline e (stack + 4096) (ds c)).
    { rewrite (popa_iret_resumes t c _ (task_start trampoline e (stack + 4096) (ds c))).
      - unfold resumed, task_start. cbn [th_cpu th_eip gpr eflags cs]. change (cpl _) with 0. cbn [Z.eqb]. by rewrite Hsd.
      - by rewrite get_put, Hsp.
      - lia.
      - change (frame_size _) with 44. lia. }
    cbv zeta. rewrite Eth. split; [done |]. eexists _, _. split.
    { eapply run_stop; [reflexivity |]. cbn [step]. rewrite push_one by (cbn; rewrite u32_id; lia). reflexivity. }
    change (get ESP (th_cpu (task_start trampoline e (stack + 4096) (ds c)))) with (u32 (stack + 4096)).
    rewrite u32_id by lia. split; [cbn; lia |]. rewrite get_put. replace (stack + 4096 - 4) with (stack + 4092) by lia.
    apply rd32_wr32_eq.
  - intros c2 s2 Hc2 Hd2 Hsp2.
    erewrite (run_next _ _ _ _ 2); [| reflexivity | eapply call_c_returns; [done | lia | reflexivity | done]].
    match goal with |- context [Asm.run _ _ _ _ _ _ 2 ?c0 ?s0] => set (c3 := c0); set (s3 := s0) end.
    assert (Hc3 : cpl c3 = 0) by exact Hc2.
    erewrite run_next; [| reflexivity | cbn [step]; unfold privileged; rewrite Hc3; reflexivity].
    erewrite run_stop; [| reflexivity | cbn [step]; unfold privileged; change (cpl (with_flags _ c3)) with (cpl c3); rewrite Hc3; reflexivity].
    eexists _, _, _. split; [reflexivity |]. split; [apply Hif |]. split; [exact Hc3 |]. reflexivity.
  - intros c2 s2 Hc2. erewrite run_next; [| reflexivity | reflexivity].
    erewrite run_next; [| reflexivity | cbn [step]; unfold privileged; rewrite Hc2; reflexivity].
    erewrite run_stop; [| reflexivity | cbn [step]; unfold privileged; change (cpl (with_flags _ c2)) with (cpl c2); rewrite Hc2; reflexivity].
    eexists. split; [reflexivity |]. split; [apply Hif | exact Hc2].
Qed.
End trampoline.

(** ** Programs for ring 3 *)

(** The programs call no function of the kernel, and see their own memory. *)
Definition no_code (f : Empty_set) (args : list Z) (m : memory) : outcome (answer * memory) := Undef.
Definition no_parameters (f : Empty_set) : nat := 0.

Section user.
Variables (t : Interrupts.tables) (A : abi Empty_set no_parameters).

(** What the assembler decides: the offsets of the instructions and of the
    message from [user_code_start]. *)
Variables (offset : nat → Z) (msg : Z).

(** [user_code_start]; the instruction number 1 is [get_base]. *)
Definition user_code : list (instr Empty_set) :=
  [CallLabel 1; Pop EBX; SubI (offset 1) EBX; MovI 2 EAX; Lea msg EBX EBX; MovI 19 ECX; Int 0x80;
   MovI 1 EAX; Int 0x80; Jmp 7].
Definition user_message : list Z := Faults.text "Hello from Ring 3!" ++ [10].

(** C20: The user program works wherever it is loaded: from the address at
    which it runs it finds its message, and makes the write call for exactly
    the 19 bytes of it; the kernel's [syscall_dispatch], given these registers,
    shows the message on the terminal. Then it asks for the ticks, for ever. Its
    stack pointer and segments are those it was started with. *)
Theorem user_code_greets {Pg D : Type} `{!PageAllocOps Pg} `{!PortIO D} `{!Terminal.SerialReady (D := D)}
    base c m fuel (s : Syscall.system Pg D) p :
  word (base + offset 1) → 0 < base + msg → base + msg + 19 ≤ W32 → 4 ≤ get ESP c → get ESP c + 4 ≤ W32 →
  (0 < fuel)%nat → Terminal.shows (Syscall.term s) p → Ipc.bytes_at (get_mem s) (base + msg) 19 = user_message →
  (∃ c1 m1, run t no_code A (λ n, base + offset n) 7 user_code 0 c m = Ok (Traps 0x80 7 c1 m1) ∧
     get ESP c1 = get ESP c ∧ ds c1 = ds c ∧ cs c1 = cs c ∧
     ∃ s', Syscall.syscall_dispatch fuel (get EAX c1) (get EBX c1) (get ECX c1) (get EDX c1) s = Ok (19, s') ∧
       Terminal.shows (Syscall.term s') (foldl Terminal.paper_put p user_message)) ∧
  (∀ c2 m2, ∃ c3, run t no_code A (λ n, base + offset n) 2 user_code 7 c2 m2 = Ok (Traps 0x80 9 c3 m2) ∧ get EAX c3 = 1 ∧
     run t no_code A (λ n, base + offset n) 3 user_code 9 c2 m2 = Ok (Traps 0x80 9 c3 m2)).
Proof.
  intros Ho Hm0 Hm1 Hsp Hsp2 Hf Hsh Hmsg. split.
  - eexists _, _. split.
    { erewrite run_next; [| reflexivity | cbn [step]; rewrite push_one by lia; reflexivity].
      do 5 (erewrite run_next; [| reflexivity | reflexivity]). erewrite run_stop; [| reflexivity | reflexivity]. reflexivity. }
    assert (Eb : u32 (u32 (rd32 (wr32 m (get ESP c - 4) (base + offset 1)) (u32 (get ESP c - 4 + 4 * 0)) - offset 1) + msg) = base + msg).
    { rewrite Z.add_0_r, (u32_id (get ESP c - 4)) by lia. rewrite rd32_wr32_at by done.
      replace (base + offset 1 - offset 1) with base by lia. unfold u32. rewrite Zplus_mod_idemp_l. apply Z.mod_small. lia. }
    split; [| split; [done | split; [done |]]].
    { change (u32 (get ESP c - 4 + 4 * 1) = get ESP c). rewrite u32_id; lia. }
    match goal with |- ∃ s', Syscall.syscall_dispatch _ _ ?x _ _ _ = _ ∧ _ => change x with (u32 (u32 (rd32 (wr32 m (get ESP c - 4) (base + offset 1)) (u32 (get ESP c - 4 + 4 * 0)) - offset 1) + msg)) end.
    rewrite Eb. change (get EAX _) with 2. change (get ECX _) with 19.
    unfold Syscall.syscall_dispatch. change (2 =? 1) with false. change (2 =? 2) with true. destruct (Z.eqb_spec (base + msg) 0); [lia |].
    destruct (Syscall.write_user_shows fuel 19 0 (base + msg) (get_mem s) (Syscall.term s) p Hf Hsh) as (tm & E & Htm); [lia | lia | lia |].
    change (Z.to_nat 19) with 19%nat. change (mem (mach (Syscall.kern s))) with (get_mem s). rewrite E. cbn [obind].
    eexists. split; [reflexivity |]. rewrite Z.add_0_r, Hmsg in Htm. exact Htm.
  - intros c2 m2. eexists. split; [| split].
    + erewrite run_next; [| reflexivity | reflexivity]. erewrite run_stop; [| reflexivity | reflexivity]. reflexivity.
    + reflexivity.
    + do 2 (erewrite run_next; [| reflexivity | reflexivity]). erewrite run_stop; [| reflexivity | reflexivity]. reflexivity.
Qed.
End user.

(** The program in [hello_elf_data], as [tools/hello_elf.s] has it, linked at
    0x40000000. *)
Definition hello_code : list (instr Empty_set) :=
  [MovI 2 EAX; MovI 0x40000014 EBX; MovI 15 ECX; Int 0x80; Hlt; Jmp 4].

(** The machine code of these instructions; [at_] gives their offsets. *)
Definition le32 (v : Z) : list Z := [u8 v; u8 (v / 2 ^ 8); u8 (v / 2 ^ 16); u8 (v / 2 ^ 24)].
Definition encode (at_ : nat → Z) (pc : nat) (i : instr Empty_set) : list Z :=
  match i with
  | MovI v EAX => 0xB8 :: le32 v
  | MovI v EBX => 0xBB :: le32 v
  | MovI v ECX => 0xB9 :: le32 v
  | Int n => [0xCD; n]
  | Hlt => [0xF4]
  | Jmp n => [0xEB; u8 (at_ n - at_ (S pc))]
  | _ => []
  end.
Definition hello_offset (n : nat) : Z := aget [0; 5; 10; 15; 17; 18; 20] (Z.of_nat n).

(** The program that the kernel brings in [/bin/hello.elf] ends in a
    protection fault. The bytes of its segment in the file are the machine code
    of the program and its text; it makes the write call for the 15 letters
    without the line end; and the [hlt] that follows is not allowed in ring 3, in
    which it runs. *)
Theorem hello_elf_faults t (A : abi Empty_set no_parameters) c m :
  take 36 (drop 84 Kernel.hello_elf_data) =
    concat (imap (encode hello_offset) hello_code) ++ Faults.text "Hello from ELF!" ++ [10] ∧
  (∃ c1, run t no_code A hello_offset 4 hello_code 0 c m = Ok (Traps 0x80 4 c1 m) ∧
     get EAX c1 = 2 ∧ get EBX c1 = 0x40000000 + zlen (concat (imap (encode hello_offset) hello_code)) ∧
     get ECX c1 = zlen (Faults.text "Hello from ELF!")) ∧
  ∀ c2 m2, cpl c2 = 3 → run t no_code A hello_offset 1 hello_code 4 c2 m2 = Ok (Faults 4 c2 m2).
Proof.
  split; [reflexivity |]. split.
  - eexists. split; [reflexivity |]. done.
  - intros c2 m2 Hc. eapply run_stop; [reflexivity |]. cbn [step]. unfold privileged. by rewrite Hc.
Qed.
(** ** Concrete runs *)

#[local] Existing Instance Terminal.ready_bus_io.
#[local] Existing Instance Terminal.ready_bus_ready.
#[local] Existing Instance Kernel.quiet_io.
#[local] Existing Instance Kernel.quiet_ready.
#[local] Existing Instance Kernel.quiet_bus.
#[local] Existing Instance Startup.quiet_plain.

(** The loader on a machine of 8 MiB, with its flat segments. *)
Definition loaded : cpu := mkCpu (mkRegs 0x2BADB002 0 0 0x9000 0x7FF00 0 0 0) 0x2 0x10 0x18 0x18.
Definition demo_address (n : nat) : Z := 0x100010 + 5 * Z.of_nat n.

Lemma power_on_reaches_shell_witness :
  ∃ x0 esp x', run Stubs.demo_tables (boot_code Shell.demo_layout Kernel.demo_image 3) (simple_abi boot_parameters) demo_address 8
    (_start Kernel.demo_image) 0 loaded (Kernel.bare, None) = Ok (Dies (x0, Some (Kernel.Entered esp x'))).
Proof.
  destruct (power_on_reaches_shell Shell.demo_layout Kernel.demo_image 3 (simple_abi boot_parameters) (simple_abi Stubs.parameters)
    demo_address Stubs.demo_tables 0x106000 0x106004 0x106008 0x10600C 0 loaded Kernel.bare) as (x0 & esp & x' & E & _).
  - exact Startup.demo_image_ok.
  - exact Startup.bare_pristine.
  - vm_compute. split; discriminate.
  - lia.
  - reflexivity.
  - cbn. lia.
  - cbn. lia.
  - left. cbn. lia.
  - reflexivity.
  - cbn. lia.
  - exists x0, esp, x'. exact E.
Defined.

(** A task with its stack at 0x200000. *)
Definition task_memory : memory := (Task.task_frame 0x100700 0x100800 (0x200000 + 4096) ∅).2.

Lemma trampoline_runs_task_witness :
  ∃ c1 s1, run Stubs.demo_tables (Stubs.kernel_code 0x106000 0x106004 0x106008 0x10600C 0 1) (simple_abi Stubs.parameters) demo_address
    1 task_trampoline 0 (mkCpu (mkRegs 0x100800 0 0 0 0x201000 0 0 0) 0x202 0x08 0x10 0x10) (put_mem task_memory Stubs.demo_state) =
  Ok (Jumps 0x100800 1 c1 s1).
Proof.
  assert (Hpa : page_addr 0x200000) by (vm_compute; intuition discriminate).
  destruct (trampoline_runs_task Stubs.demo_tables (simple_abi Stubs.parameters) demo_address 0x106000 0x106004 0x106008 0x10600C 0 1
    task_memory 0x100700 0x100800 (0x200000 + 4096 - 44) 0x200000 (mkCpu (mkRegs 0 0 0 0 (0x200000 + 4096 - 44) 0 0 0) 2 8 0x10 0x10)
    Stubs.demo_state) as [(Eth & c1 & s1 & E & _) _].
  - unfold word. lia.
  - unfold word. lia.
  - exact Hpa.
  - lia.
  - apply (Task.task_frame_spec 0x100700 0x100800 0x200000 ∅ Hpa).
  - reflexivity.
  - reflexivity.
  - reflexivity.
  - rewrite Eth in E. exists c1, s1. exact E.
Defined.

(** The program at 0x300000, with the sizes that an assembler gives it. *)
Definition demo_offset (n : nat) : Z := aget [0; 5; 6; 9; 14; 17; 22; 24; 29; 31] (Z.of_nat n).
Definition greeting_state : Syscall.system Pmm.pmm Terminal.ready_bus :=
  put_mem (Libk.store_bytes ∅ (0x300000 + 33) user_message) Stubs.demo_state.

Lemma greeting_bytes : Ipc.bytes_at (get_mem greeting_state) (0x300000 + 33) 19 = user_message.
Proof. vm_compute. reflexivity. Qed.

Lemma user_code_greets_witness :
  ∃ c1 m1 s', run Stubs.demo_tables no_code (simple_abi no_parameters) (λ n, 0x300000 + demo_offset n) 7 (user_code demo_offset 33) 0
      (mkCpu (mkRegs 0 0 0 0 0x40002000 0 0 0) 0x202 0x1B 0x23 0) ∅ = Ok (Traps 0x80 7 c1 m1) ∧
    Syscall.syscall_dispatch 1 (get EAX c1) (get EBX c1) (get ECX c1) (get EDX c1) greeting_state = Ok (19, s').
Proof.
  destruct (user_code_greets Stubs.demo_tables (simple_abi no_parameters) demo_offset 33 0x300000
    (mkCpu (mkRegs 0 0 0 0 0x40002000 0 0 0) 0x202 0x1B 0x23 0) ∅ 1 greeting_state Terminal.blank_paper)
    as [(c1 & m1 & E & _ & _ & _ & s' & Es & _) _].
  - change (demo_offset 1) with 5. unfold word. lia.
  - lia.
  - lia.
  - cbn. lia.
  - cbn. lia.
  - lia.
  - exact Terminal.clear_screen_shows.
  - exact greeting_bytes.
  - exists c1, m1, s'. split; [exact E | exact Es].
Defined.

Lemma hello_elf_faults_witness :
  run Stubs.demo_tables no_code (simple_abi no_parameters) hello_offset 1 hello_code 4
    (mkCpu (mkRegs 15 15 0 0x40000014 0x40002000 0 0 0) 0x202 0x1B 0x23 0) ∅ =
  Ok (Faults 4 (mkCpu (mkRegs 15 15 0 0x40000014 0x40002000 0 0 0) 0x202 0x1B 0x23 0) ∅).
Proof.
  destruct (hello_elf_faults Stubs.demo_tables (simple_abi no_parameters) (mkCpu (mkRegs 0 0 0 0 0x40002000 0 0 0) 0x202 0x1B 0x23 0) ∅)
    as (_ & _ & H). apply H. reflexivity.
Defined.
End Boot.
